(* ===== verification/_CoqProject ===== *)
-Q . S2P
Prelude.v
PyData.v
Models.v
Errors.v
Pydantic.v
ConnectionSchemas.v
Database.v
Integrity.v
Deletion.v
Search.v
PyText.v
Settings.v
TransferSchemas.v
Repository.v
Repositories.v
RepositoryFacts.v
Auth.v
ApiGroups.v
ApiQueues.v
ApiConnections.v
ApiTransfers.v
ApiRuns.v
Server.v
ServerFacts.v
Superusers.v
Membership.v
Examples.v
Permissions.v
ServerTheorems.v
GroupTheorems.v
ConnectionTheorems.v
RunTheorems.v
TransferTheorems.v
Isolation.v
SchemaTheorems.v
AuthTheorems.v
SettingsTheorems.v
Application.v
ApplicationTheorems.v
KeycloakAuth.v
KeycloakTheorems.v
Ddl.v
Migrations.v
TableModels.v
MigrationTheorems.v
Scheduler.v
SchedulerFacts.v
SchedulerTheorems.v
Dto.v
FilterExpressions.v
FileNames.v
FileNameTheorems.v
Handlers.v
ReadWrite.v
Spark.v
Controller.v
RunTask.v
RunLifecycle.v
WorkerExamples.v
LifecycleTheorems.v
RunEnding.v
Overlap.v
Secrets.v
DtoFacts.v
HandlerFacts.v
HandlerTheorems.v
FilterTheorems.v
WorkerTheorems.v
TransferSafety.v
StoredRows.v
Regex.v
Docstrings.v
LinksToAnchors.v
RstToMarkdown.v
FixRefs.v
DocTheorems.v
