(* ===== verification/Prelude.v ===== *)
(** * SyncMaster: root of the verification library

    SyncMaster moves data between databases and file systems on a schedule.  Its
    server ([src/syncmaster/server]) keeps users, groups, connections with their
    credentials, queues, transfers and runs in PostgreSQL and answers HTTP
    requests.  A scheduler starts transfers at their times, and workers perform them
    with onETL and Spark; both work on the same database.  This library models the
    three of them as executable definitions: the server from the request to the
    committed database, the scheduler from the database to its jobs and the runs they
    start, the worker from the run it takes to the calls it makes.

    ** How the program is put together

    A request reaches an endpoint of [server/api/v1].  The dependency [get_user]
    authenticates it through an [AuthProvider]; the endpoint asks the repositories
    for the caller's [Permission] on the resource or the group, raises or goes on,
    and does its writes in [async with unit_of_work], which commits them or rolls
    them back.  Bodies and replies are pydantic models of [schemas/v1].  Exceptions
    of any layer become responses in [server/handler.py].

    Starting a transfer, by a request or by a job of the scheduler, stores a run and
    sends its id to the queue of the transfer through Celery.  A worker takes the run
    in one database session, makes a handler for each side from the stored connection,
    its credentials and the parameters of the transfer, lets the source read and the
    target write a Spark data frame, and stores the outcome in a second session.

    Beside the running system, three scripts of [src/mddocs/scripts] rewrite the
    docstrings of Python files: from RST to Markdown, links to pages as anchors, and
    references that could not be resolved.

    ** Files

    - Prelude (this file): the result type, the state-and-error monad [SE], list,
      option and integer lemmas, tactics and the hint databases.
    - PyData: JSON values, Python dicts, [int] and [str] conversions.
    - Models: [db/models], [db/mixins], [db/utils.py].  The rows and enumerations.
    - Errors: [exceptions], [errors], [server/handler.py].  One constructor of [exc]
      per exception class, the class hierarchy, the response of every exception.
    - Pydantic: what declaring a pydantic model means: [Field], [validate].
    - ConnectionSchemas, TransferSchemas: [schemas/v1].
    - Database: the tables as finite maps, constraints checked under the names the
      naming convention gives them, INSERT/UPDATE/DELETE with cascades, the
      [Session] (committed state, open transaction, id sequences, clock) and
      [UnitOfWork].
    - Integrity: [db_wf], what the constraints promise, kept by every statement;
      [no_commit] and [atomic].  Deletion: what a cascade removes.
    - Search: [db/repositories/search.py], the text of a tsquery.
    - PyText: methods of [str], the parts of a URL.
    - Settings: [settings], [server/settings], [scheduler/settings], [worker/settings]
      and the modules that read them: sources and their order, validators, the URLs of
      the database, Celery applications, engines.  SettingsTheorems: its properties.
    - Repository, Repositories: [db/repositories], one Module per class.
      RepositoryFacts: what each method keeps, as hints.
    - Auth: [server/services/get_user.py], [server/providers/auth]; the class
      [AuthProviderLaws] says what the endpoints rely on: a provider keeps what every
      statement on users keeps, raises without leaving work behind, and stores at most one
      new user, active and no superuser.  The three providers are instances of it.
    - ApiGroups, ApiQueues, ApiConnections, ApiTransfers, ApiRuns: the endpoints of
      [server/api/v1], whole bodies in the order of the code.
    - Server: [Endpoint] (one constructor per route), [dispatch], [serve], logins,
      the superuser script, and [reachable], the states they lead to.
      ServerFacts: what the endpoints keep.
    - Superusers: the command line of [server/scripts/manage_superusers.py].
    - Application: [server/__init__.py] and [server/middlewares], the calls the factory
      makes on the FastAPI object and the pages that read it back.
      ApplicationTheorems: its properties.
    - Membership, Permissions: the invariant of group memberships and the abstract
      access policy.
    - Examples: an instance of every parameter and a world built by requests.
    - ServerTheorems, GroupTheorems, ConnectionTheorems, RunTheorems,
      TransferTheorems, SchemaTheorems, AuthTheorems: the properties of the server.
    - KeycloakAuth: [server/providers/auth/keycloak_provider.py] and the routes of
      [server/api/v1/auth.py] that need its cookie: the cached keys, the refresh of a
      token, callback and logout.  KeycloakTheorems: its properties and its laws, for any
      cookie, cached keys and answers.
    - Ddl: schemas and the operations of migrations.  Migrations: the revisions of
      [db/migrations/versions] and Alembic's walk along them.  TableModels: the tables
      the classes of [db/models] declare.  MigrationTheorems: their properties.
    - Scheduler: [scheduler], the job store, an iteration of the loop ([tick]), a job
      that fires, a restart.  SchedulerFacts, SchedulerTheorems: its properties.
    - Dto: [dto].  Dataclasses as values, the [__init__] they generate,
      [__post_init__].  DtoFacts: which values they accept.
    - FilterExpressions, FileNames: the pure part of [worker/handlers]: filters in the
      dialects of the databases; the names of files and the loop that renames them, on
      a directory as a finite map.
    - Handlers, ReadWrite: [connect], [read] and [write] of the handlers, as programs
      over the list of calls made so far ([Worker]).
    - Spark, Controller, RunTask: [worker/spark.py] and [worker/ivy2.py],
      [worker/controller.py], [worker/transfer.py].
    - RunLifecycle: [sys_step], one step of the whole system: a request, a job, a
      worker that takes a run, ends it or dies; the invariant of the reachable systems.
      [sys_step_of sent] restricts the requests to a set.
    - Overlap: the same system with the session in which a worker takes a run cut in two,
      the SELECT and the UPDATE with its commit, so that others come between.
    - FileNameTheorems, LifecycleTheorems, HandlerFacts, HandlerTheorems,
      FilterTheorems, WorkerTheorems: the properties of the worker; WorkerExamples: an
      instance of its parameters.  RunEnding: which runs can still end.
      TransferSafety: what can go wrong in a transfer.  StoredRows: what is stored
      was accepted, whatever the sequence of requests, jobs and sessions of workers.
    - Isolation: what a caller without a role in a group cannot do to it.  Secrets: what
      the replies of the reachable systems hold.
    - Regex: Python's [re]: patterns read from their texts, the backtracking matcher,
      [match], [search], [finditer], [sub].  Docstrings: the files of the scripts and the
      loop that puts docstrings back.  LinksToAnchors, RstToMarkdown, FixRefs: the
      scripts [links2anchors.py], [rst2md.py], [fix_refs.py].  DocTheorems: their
      properties.

    ** What the theorems show

    - Access: but for the sign-in of its caller, a request that changes the database was
      made by an active user whose role in the group is at least the one the policy asks
      for, under every provider; the SQL queries of
      the repositories refine the policy ([group_role], [resource_policy], ...).
    - Invariants of every reachable state: constraints of the schema, owners are not
      members, stored roles are public, nothing uncommitted; a failed request
      changes nothing but for the sign-in of its caller, with the routes that fail after
      their commit as the stated exceptions.
    - Isolation: a request of a caller without a role in a group leaves the group, its
      members, connections, credentials and queues as they are; a transfer of the group
      only disappears with a connection or queue of another group that it uses.
    - Secrets: no reply of a request that succeeds carries one, in any reachable system,
      and an error response has no details but the URL of the login page and, with the
      status 422, the inputs that were refused, which are answered as they were sent;
      credentials are read back as stored; updates merge what the caller left out.
    - Operations: what each writing endpoint does to the database, as an equation
      between the committed states, with the conditions under which it succeeds.
      Some of these show that the code does more than it seems to mean (moving a
      connection deletes its transfers; a queue may be used across groups).
    - Schemas: an accepted file name template can be formatted by the worker unless it
      asks for an attribute of a value; pages partition a result; every exception is
      answered by its own branch.
    - Settings and application: what accepted settings of a worker or a server
      guarantee when it starts, the URL of the synchronous engine, what the factory leaves on the FastAPI
      object and in which order a request meets its middlewares.
    - Authentication: tokens and logins; a login by Keycloak rests on a token decoded
      under keys no older than the lifetime of their cache.
    - Schema of the database: the migrations make what the models declare and what
      Database.v checks, but for the key of the scheduler's table and the tables of Celery;
      a downgrade undoes its upgrade.
    - Scheduler: its jobs are the image of the scheduled transfers after every
      iteration, as long as every change has a later time than the newest it has fetched;
      a job that fires starts one run.  Where this goes wrong is proved too (a schedule
      that is no crontab, a copied transfer, a change with the time of the last fetch, a
      new schedule whose first run is still the old one's).
    - Runs: whatever the order of requests, jobs and sessions of workers, a run only
      advances and ends as its task did; a run that has not ended can still end exactly
      when it waits for a worker or one holds it.  Once the session that takes a run has
      committed no later one takes it; two that overlap both do.
    - From the request to the worker: every stored transfer is an accepted body whose
      connections fit it, so a run that a worker takes fails only because of an answer
      from outside, or for one of five named limits of the code.
    - Worker: every session is stopped and every temporary directory removed; a mark is saved
      after the target is written; the renaming of files loses none of them when the
      template has a field for the index; the Spark session is within the bounds.
    - Scripts of the documentation: the matcher finds a match exactly when the pattern
      denotes one ([run_spec]); a script changes nothing of a file but the docstrings it
      found ([docstrings_in_place]); links are rewritten one by one ([fix_links_spec]);
      a docstring without RST is left alone ([no_rst_unchanged]).

    ** Bounds and fuel

    A repetition of a pattern has the length of the remaining text as fuel, each turn
    consumes a character ([star_loop_tries]); a pattern is read with twice its length.
    The passes over the lines of a docstring have the number of lines ([code_blocks_fuel],
    [tabs_fuel], [admonitions_fuel], [doctests_fuel], [numpy_params_fuel],
    [over_indented_fuel]).
    [TransferSchemas.format_go] has the length of the template plus one as fuel;
    each step consumes a character ([SchemaTheorems.format_fuel]).  [Errors.mro] follows
    the class hierarchy with fuel 4, its depth.  Other recursion is structural.  Identifiers
    and times are unbounded integers; texts are checked against the sizes of their
    columns.

    ** Parameters

    What the program only calls is a class, with its documented behaviour as laws
    where a theorem needs it: [TextSearch] (PostgreSQL's text search and collation),
    [Cipher] (Fernet and JSON texts; decryption undoes encryption), [PydanticCore]
    (lax coercions; a value of the right type is kept), [PyLib] ([re.compile], the
    attributes of [str] and [int] as [str.format] looks them up), [Broker] (Celery's
    [send_task]), [Jwt] (a token holds its claims until the whole second of its
    expiration), [Keycloak] (token introspection), [Jwk] and [KeycloakServer] (keys, and
    the answers and the clock of Keycloak), [Cron] (APScheduler's triggers and when they
    fire), [OneTLFormats] (the options of file formats), [Engine] (data frames and high
    water marks), [Answers] (what each call to onETL, Spark and the mark store answers,
    after the calls before it; a raised answer is the caller's exception),
    [Environment] (package lists, host name), [LogUrl] (jinja2), [SettingsCore], [MakeUrl]
    and [SettingsIO] (URL types, SQLAlchemy's URL parser, environment and files),
    [OtherProvider] and [OpenAPICore] (foreign authentication providers, FastAPI's schema),
    [InClause] (SQLAlchemy's [in_]).  The laws [OneTLFormatsLaws] and [EngineLaws] say that
    a parser keeps the compression it was given and that a frame has a type for each of
    its columns.  PostgreSQL itself is not a parameter: Database.v is its model
    for the statements the code sends, Ddl.v for the operations of the migrations.

    ** Not modelled

    Requests and database sessions are one step each: isolation levels and sessions in
    flight at once are outside the model, but for the sessions of workers that take a run,
    which Overlap.v cuts in two; the statements over RunLifecycle.v are about whole
    sessions.  [serve] answers as a server without [debug]; what [debug] changes is in
    Errors.v and Application.v.  APScheduler's own loop is the step that gives a job
    another time.  What onETL and Spark do with a call is their business: the model ends
    at the call and its arguments.  A [str] is a text over 256 code points.  The classes that
    declare the configuration of [logging] and the engine of the migrations only hand
    values to libraries.  In the scripts of the documentation a write never fails, and the
    arrows in the descriptions of changes are the bytes of their UTF-8 encoding. *)

From stdpp Require Export base tactics option list strings gmap fin_maps sorting.
From Stdlib Require Export ZArith Lia.

#[global] Open Scope Z_scope.

(** ** Results: a value, or a raised exception *)

Inductive result (E A : Type) : Type :=
| Ok (a : A)
| Raise (e : E).
Arguments Ok {E A} _.
Arguments Raise {E A} _.

Definition is_ok {E A} (r : result E A) : bool :=
  match r with Ok _ => true | Raise _ => false end.

(** [from_option x e]: the value of an optional lookup, or the exception the
    code raises when there is none. *)
Definition or_raise {E A} (o : option A) (e : E) : result E A :=
  match o with Some a => Ok a | None => Raise e end.

#[export] Instance result_ret E : MRet (result E) := fun A a => Ok a.
#[export] Instance result_bind E : MBind (result E) := fun A B f r =>
  match r with Ok a => f a | Raise e => Raise e end.

#[export] Instance result_fmap E : FMap (result E) := fun A B f r =>
  match r with Ok a => Ok (f a) | Raise e => Raise e end.

Lemma result_bind_Ok {E A B} (f : A -> result E B) r b :
  r ≫= f = Ok b <-> exists a, r = Ok a /\ f a = Ok b.
Proof. destruct r; cbn; naive_solver. Qed.

(** ** The state and exception monad the stateful code is written in *)

Definition SE (S E A : Type) : Type := S -> result E A * S.

Section StateException.
Context {S E : Type}.

#[export] Instance SE_ret : MRet (SE S E) := fun A a s => (Ok a, s).
#[export] Instance SE_bind : MBind (SE S E) := fun A B f m s =>
  match m s with
  | (Ok a, s') => f a s'
  | (Raise e, s') => (Raise e, s')
  end.

(** [raise e], Python's [raise] *)
Definition raise {A} (e : E) : SE S E A := fun s => (Raise e, s).

(** [catch m h], Python's [try: m except: h]; [h e = None] re-raises. *)
Definition catch {A} (m : SE S E A) (h : E -> option (SE S E A)) : SE S E A :=
  fun s =>
    match m s with
    | (Ok a, s') => (Ok a, s')
    | (Raise e, s') =>
        match h e with
        | Some k => k s'
        | None => (Raise e, s')
        end
    end.

(** [when b e], the guard [if b: raise e] *)
Definition when (b : bool) (e : E) : SE S E unit :=
  if b then raise e else mret tt.

(** reads of the state *)
Definition gets {A} (f : S -> A) : SE S E A := fun s => (Ok (f s), s).
Definition reads {A} (f : S -> result E A) : SE S E A := fun s => (f s, s).

(** the outcome and the final state of a run *)
Definition outcome {A} (m : SE S E A) (s : S) : result E A := (m s).1.
Definition final {A} (m : SE S E A) (s : S) : S := (m s).2.

(** [m] keeps [P], whatever its outcome *)
Definition preserves {A} (P : S -> Prop) (m : SE S E A) : Prop :=
  forall s, P s -> P (final m s).

(** [m] leaves the state as it found it, whatever its outcome *)
Definition read_only {A} (m : SE S E A) : Prop :=
  forall s, final m s = s.

Lemma preserves_ret {A} P (a : A) : preserves P (mret a).
Proof. by intros s. Qed.

Lemma preserves_raise {A} P e : preserves P (raise (A := A) e).
Proof. by intros s. Qed.

Lemma preserves_bind {A B} P (m : SE S E A) (f : A -> SE S E B) :
  preserves P m -> (forall a, preserves P (f a)) -> preserves P (m ≫= f).
Proof.
  intros Hm Hf s Hs. specialize (Hm s Hs).
  unfold final, mbind, SE_bind in *. destruct (m s) as [[a|e] s']; [|done].
  by apply Hf.
Qed.

Lemma preserves_gets {A} P (f : S -> A) : preserves P (gets f).
Proof. by intros s. Qed.

Lemma preserves_reads {A} P (f : S -> result E A) : preserves P (reads f).
Proof. by intros s. Qed.

Lemma preserves_when P b e : preserves P (when b e).
Proof. by destruct b; intros s. Qed.

Lemma preserves_if {A} P (b : bool) (m1 m2 : SE S E A) :
  preserves P m1 -> preserves P m2 -> preserves P (if b then m1 else m2).
Proof. by destruct b. Qed.

Lemma preserves_catch {A} P (m : SE S E A) h :
  preserves P m -> (forall e k, h e = Some k -> preserves P k) ->
  preserves P (catch m h).
Proof.
  intros Hm Hh s Hs. specialize (Hm s Hs). unfold final, catch in *.
  destruct (m s) as [[a|e] s']; [done|].
  destruct (h e) eqn:He; [|done]. by apply (Hh _ _ He).
Qed.

Lemma read_only_preserves {A} P (m : SE S E A) : read_only m -> preserves P m.
Proof. intros Hm s Hs. by rewrite Hm. Qed.

Lemma read_only_bind {A B} (m : SE S E A) (f : A -> SE S E B) :
  read_only m -> (forall a, read_only (f a)) -> read_only (m ≫= f).
Proof.
  intros Hm Hf s. specialize (Hm s).
  unfold final, mbind, SE_bind in *. destruct (m s) as [[a|e] s']; cbn in *; subst; [|done].
  apply Hf.
Qed.

Lemma read_only_ret {A} (a : A) : read_only (mret a).
Proof. done. Qed.
Lemma read_only_raise {A} e : read_only (raise (A := A) e).
Proof. done. Qed.
Lemma read_only_gets {A} (f : S -> A) : read_only (gets f).
Proof. done. Qed.
Lemma read_only_reads {A} (f : S -> result E A) : read_only (reads f).
Proof. done. Qed.
Lemma read_only_when b e : read_only (when b e).
Proof. by destruct b. Qed.

(** inverting a run of a sequence *)
Lemma bind_run {A B} (m : SE S E A) (f : A -> SE S E B) s :
  (m ≫= f) s = match m s with
               | (Ok a, s') => f a s'
               | (Raise e, s') => (Raise e, s')
               end.
Proof. done. Qed.

Lemma outcome_ok {A} (m : SE S E A) s a : outcome m s = Ok a -> exists s', m s = (Ok a, s').
Proof. unfold outcome. destruct (m s) as [r s']. cbn. intros ->. eauto. Qed.

Lemma bind_ok {A B} (m : SE S E A) (f : A -> SE S E B) s b s' :
  (m ≫= f) s = (Ok b, s') ->
  exists a s1, m s = (Ok a, s1) /\ f a s1 = (Ok b, s').
Proof. rewrite bind_run. destruct (m s) as [[a|e] s1]; naive_solver. Qed.

(** a read-only prefix decides whether the rest runs, on the same state *)
Lemma read_only_bind_run {A B} (m : SE S E A) (f : A -> SE S E B) s : read_only m ->
  (m ≫= f) s = match outcome m s with Ok a => f a s | Raise e => (Raise e, s) end.
Proof.
  intros Hm. specialize (Hm s). unfold final, outcome in *. rewrite bind_run.
  destruct (m s) as [[a|e] s1]; cbn in *; by subst.
Qed.

Lemma bind_assoc {A B C} (m : SE S E A) (f : A -> SE S E B) (g : B -> SE S E C) s :
  ((m ≫= f) ≫= g) s = (m ≫= (fun a => f a ≫= g)) s.
Proof. rewrite !bind_run. by destruct (m s) as [[a|e] s1]. Qed.
End StateException.

Create HintDb se.
#[export] Hint Resolve preserves_ret preserves_raise preserves_bind preserves_gets
  preserves_reads preserves_when preserves_if read_only_bind read_only_ret
  read_only_raise read_only_gets read_only_reads read_only_when : se.

(** ** Lists *)

Lemma Forall_filter_keep {A} (P Q : A -> Prop) `{forall x, Decision (Q x)} (l : list A) :
  Forall P l -> Forall P (filter Q l).
Proof. rewrite !Forall_forall. intros Hl x [_ Hx]%list_elem_of_filter. by apply Hl. Qed.

Lemma mapM_result {E A B} (f : A -> result E B) (P : B -> Prop) l bs :
  (forall a b, f a = Ok b -> P b) -> mapM f l = Ok bs -> Forall P bs.
Proof.
  intros Hf. revert bs. induction l as [|a l IH]; intros bs; cbn; [by intros [= <-]|].
  destruct (f a) as [b|] eqn:Hb; [|done]. cbn. destruct (mapM f l) as [bs'|]; [|done]. cbn.
  intros [= <-]. constructor; [by eapply Hf|by apply IH].
Qed.
