(* ===== verification/PyData.v ===== *)
(** * Python data: JSON values, dicts, [str] and [int] conversions

    The values the program keeps in JSON columns and passes between the server
    and the worker ([dict[str, Any]]), the operations on dicts the code uses
    ([get], [update], [pop], item assignment, [setdefault]) and the decimal
    conversions [str(int)] and [int(str)].  A [dict] keeps insertion order, as
    Python's does, and every operation of this file keeps its keys distinct.
    A Python [str] is modelled as a [string] of code points below 256. *)

From S2P Require Import Prelude.
From Stdlib Require Import DecimalString DecimalPos DecimalZ.

(** ** JSON values *)

Inductive json : Type :=
| JNull
| JBool (b : bool)
| JInt (z : Z)
| JStr (s : string)
| JList (l : list json)
| JObj (kvs : list (string * json)).

Abbreviation dict := (list (string * json)).

Fixpoint json_eqb (x y : json) {struct x} : bool :=
  match x, y with
  | JNull, JNull => true
  | JBool a, JBool b => Bool.eqb a b
  | JInt a, JInt b => Z.eqb a b
  | JStr a, JStr b => String.eqb a b
  | JList l1, JList l2 =>
      (fix go (l1 l2 : list json) : bool :=
         match l1, l2 with
         | [], [] => true
         | a :: l1', b :: l2' => json_eqb a b && go l1' l2'
         | _, _ => false
         end) l1 l2
  | JObj d1, JObj d2 =>
      (fix go (d1 d2 : list (string * json)) : bool :=
         match d1, d2 with
         | [], [] => true
         | (k1, a) :: d1', (k2, b) :: d2' => String.eqb k1 k2 && json_eqb a b && go d1' d2'
         | _, _ => false
         end) d1 d2
  | _, _ => false
  end.

(** truthiness, as Python's [bool(x)] *)
Definition json_truthy (j : json) : bool :=
  match j with
  | JNull => false
  | JBool b => b
  | JInt z => negb (Z.eqb z 0)
  | JStr s => negb (String.eqb s "")
  | JList l => match l with [] => false | _ => true end
  | JObj d => match d with [] => false | _ => true end
  end.

(** ** Dicts *)

(** [d.get(k)] / [d[k]] *)
Fixpoint dict_get {V} (k : string) (d : list (string * V)) : option V :=
  match d with
  | [] => None
  | (k', v) :: d' => if String.eqb k k' then Some v else dict_get k d'
  end.

(** [d[k] = v]: in place when the key is present, appended otherwise *)
Fixpoint dict_set {V} (k : string) (v : V) (d : list (string * V)) : list (string * V) :=
  match d with
  | [] => [(k, v)]
  | (k', v') :: d' =>
      if String.eqb k k' then (k', v) :: d' else (k', v') :: dict_set k v d'
  end.

(** [del d[k]] when present *)
Fixpoint dict_del {V} (k : string) (d : list (string * V)) : list (string * V) :=
  match d with
  | [] => []
  | (k', v') :: d' => if String.eqb k k' then d' else (k', v') :: dict_del k d'
  end.

(** [d.update(other)] *)
Definition dict_update {V} (d other : list (string * V)) : list (string * V) :=
  foldl (fun acc kv => dict_set kv.1 kv.2 acc) d other.

(** [d.setdefault(k, v)] *)
Definition dict_setdefault {V} (k : string) (v : V) (d : list (string * V)) : list (string * V) :=
  match dict_get k d with
  | Some _ => d
  | None => dict_set k v d
  end.

Definition dict_keys {V} (d : list (string * V)) : list string := d.*1.

Definition dict_mem {V} (k : string) (d : list (string * V)) : bool :=
  match dict_get k d with Some _ => true | None => false end.

Section Dict.
Context {V : Type}.
Implicit Types (d : list (string * V)) (k : string) (v : V).

Lemma dict_get_set_eq k v d : dict_get k (dict_set k v d) = Some v.
Proof.
  induction d as [|[k' v'] d IH]; cbn; [by rewrite String.eqb_refl|].
  destruct (String.eqb_spec k k') as [->|Hne]; cbn.
  - by rewrite String.eqb_refl.
  - by destruct (String.eqb_spec k k').
Qed.

Lemma dict_get_set_ne k k' v d : k <> k' -> dict_get k (dict_set k' v d) = dict_get k d.
Proof.
  intros Hne. induction d as [|[k'' v''] d IH]; cbn.
  - by destruct (String.eqb_spec k k').
  - destruct (String.eqb_spec k' k'') as [->|Hne']; cbn.
    + by destruct (String.eqb_spec k k'').
    + by destruct (String.eqb_spec k k'').
Qed.

Lemma dict_get_None k d : dict_get k d = None <-> k ∉ dict_keys d.
Proof.
  induction d as [|[k' v'] d IH]; cbn; [set_solver|].
  destruct (String.eqb_spec k k') as [->|Hne]; set_solver.
Qed.

Lemma dict_get_del_ne k k' d : k <> k' -> dict_get k (dict_del k' d) = dict_get k d.
Proof.
  intros Hne. induction d as [|[k'' v''] d IH]; cbn; [done|].
  destruct (String.eqb_spec k' k'') as [->|Hne']; cbn;
    by destruct (String.eqb_spec k k'').
Qed.

Lemma dict_keys_del k d k' : k' ∈ dict_keys (dict_del k d) -> k' ∈ dict_keys d.
Proof.
  induction d as [|[k'' v''] d IH]; cbn; [done|].
  destruct (String.eqb_spec k k''); set_solver.
Qed.

Lemma dict_get_del_eq k d : NoDup (dict_keys d) -> dict_get k (dict_del k d) = None.
Proof.
  induction d as [|[k' v'] d IH]; cbn; [done|].
  intros [Hk' Hd]%NoDup_cons.
  destruct (String.eqb_spec k k') as [->|Hne]; cbn.
  - by apply dict_get_None.
  - destruct (String.eqb_spec k k'); [done|]. by apply IH.
Qed.

(** a value that is replaced *)
Lemma dict_set_keys k v w d : dict_get k d = Some w -> dict_keys (dict_set k v d) = dict_keys d.
Proof.
  induction d as [|[k' v'] d IH]; cbn; [done|].
  destruct (String.eqb_spec k k') as [->|Hne]; [done|]. intros Hg. cbn. f_equal. by apply IH.
Qed.
Lemma dict_keys_set k v d k' :
  k' ∈ dict_keys (dict_set k v d) <-> k' = k \/ k' ∈ dict_keys d.
Proof.
  induction d as [|[k'' v''] d IH]; cbn; [set_solver|].
  destruct (String.eqb_spec k k'') as [->|Hne]; cbn; set_solver.
Qed.

Lemma dict_set_NoDup k v d : NoDup (dict_keys d) -> NoDup (dict_keys (dict_set k v d)).
Proof.
  induction d as [|[k' v'] d IH]; cbn; [intros _; apply NoDup_singleton|].
  intros [Hk' Hd]%NoDup_cons.
  destruct (String.eqb_spec k k') as [->|Hne]; cbn; apply NoDup_cons; [done|].
  split; [|by apply IH].
  intros [->|?]%dict_keys_set; [done|]. by apply Hk'.
Qed.

Lemma dict_del_NoDup k d : NoDup (dict_keys d) -> NoDup (dict_keys (dict_del k d)).
Proof.
  induction d as [|[k' v'] d IH]; cbn; [done|].
  intros [Hk' Hd]%NoDup_cons.
  destruct (String.eqb_spec k k') as [->|Hne]; cbn; [done|].
  apply NoDup_cons. split; [|by apply IH].
  intros ?%dict_keys_del. by apply Hk'.
Qed.

Lemma dict_update_NoDup d d' : NoDup (dict_keys d) -> NoDup (dict_keys (dict_update d d')).
Proof.
  revert d. induction d' as [|[k v] d' IH]; cbn; [done|].
  intros d Hd. by apply IH, dict_set_NoDup.
Qed.

(** after [d.update(d')] a key of [d'] has the value of its last occurrence *)
Lemma dict_get_update k d d' :
  NoDup (dict_keys d') ->
  dict_get k (dict_update d d') =
    match dict_get k d' with Some v => Some v | None => dict_get k d end.
Proof.
  revert d. induction d' as [|[k' v'] d' IH]; cbn; [done|].
  intros d [Hk' Hd']%NoDup_cons. unfold dict_update in IH. rewrite IH by done.
  destruct (String.eqb_spec k k') as [->|Hne].
  - rewrite (proj2 (dict_get_None k' d') Hk'). by rewrite dict_get_set_eq.
  - by rewrite dict_get_set_ne.
Qed.

Lemma dict_get_elem k v d : dict_get k d = Some v -> (k, v) ∈ d.
Proof.
  induction d as [|[k' v'] d IH]; cbn; [done|].
  destruct (String.eqb_spec k k') as [->|Hne]; set_solver.
Qed.
Lemma dict_elem_get k v d : NoDup (dict_keys d) -> (k, v) ∈ d -> dict_get k d = Some v.
Proof.
  induction d as [|[k' v'] d IH]; cbn; [by intros _ ?%not_elem_of_nil|]. intros [Hk Hd]%NoDup_cons.
  intros [[= -> ->]|Hin]%elem_of_cons; [by rewrite String.eqb_refl|].
  destruct (String.eqb_spec k k') as [->|]; [|by apply IH].
  exfalso. apply Hk, list_elem_of_fmap. by exists (k', v).
Qed.
End Dict.

(** ** Decimal conversions *)

(** [str(n)] for an [int] *)
Definition str_of_Z (n : Z) : string := NilZero.string_of_int (Z.to_int n).

(** [int(s)] on the decimal strings [str] produces; [None] for [ValueError] *)
Definition Z_of_str (s : string) : option Z := Z.of_int <$> NilZero.int_of_string s.

Lemma Z_of_str_of_Z n : Z_of_str (str_of_Z n) = Some n.
Proof.
  unfold Z_of_str, str_of_Z. rewrite NilZero.isi.
  - cbn. by rewrite DecimalZ.of_to.
  - destruct n as [|p|p]; cbn; [done|intros [=Hp]|done].
    pose proof (DecimalPos.Unsigned.to_uint_nonnil p). congruence.
  - destruct n as [|p|p]; cbn; [done|done|intros [=Hp]].
    pose proof (DecimalPos.Unsigned.to_uint_nonnil p). congruence.
Qed.

#[export] Instance str_of_Z_inj : Inj (=) (=) str_of_Z.
Proof.
  intros x y Hxy. assert (Some x = Some y) as [= ->]; [|done].
  by rewrite <- !Z_of_str_of_Z, Hxy.
Qed.
