(* ===== verification/Models.v ===== *)
(** * The database models ([src/syncmaster/db/models], [db/mixins], [db/utils.py])

    The enumerations, the rows of the tables and the two value classes of
    [db/utils.py].  Identifiers are [Z]; timestamps are [Z] (a clock in
    microseconds).  The generated column [search_vector] is computed by
    PostgreSQL and has no field here (see [TextSearch] in Repository.v). *)

From S2P Require Import Prelude PyData.

(** ** [GroupMemberRole] *)

Inductive GroupMemberRole := Maintainer | Developer | Owner | Guest | Superuser.
#[export] Instance GroupMemberRole_eq_dec : EqDecision GroupMemberRole.
Proof. solve_decision. Defined.

Definition role_value (r : GroupMemberRole) : string :=
  match r with
  | Maintainer => "Maintainer"
  | Developer => "Developer"
  | Owner => "Owner"
  | Guest => "Guest"
  | Superuser => "Superuser"
  end.

(** [cls(role)] for a [str]; [None] for [ValueError] *)
Definition role_of_str (s : string) : option GroupMemberRole :=
  if String.eqb s "Maintainer" then Some Maintainer
  else if String.eqb s "Developer" then Some Developer
  else if String.eqb s "Owner" then Some Owner
  else if String.eqb s "Guest" then Some Guest
  else if String.eqb s "Superuser" then Some Superuser
  else None.

Definition public_roles : list GroupMemberRole := [Maintainer; Developer; Guest].

Definition public_roles_str : string :=
  String.concat ", " (role_value <$> public_roles).

Definition is_public_role (role : string) : bool :=
  match role_of_str role with
  | Some role_enum => bool_decide (role_enum ∈ public_roles)
  | None => false
  end.

(** the dict of [role_hierarchy], in its insertion order *)
Definition role_hierarchy : list (GroupMemberRole * Z) :=
  [(Guest, 1); (Developer, 2); (Maintainer, 3); (Owner, 4); (Superuser, 5)].

(** [hierarchy.get(role, 0)] *)
Definition role_level (r : GroupMemberRole) : Z :=
  match find (fun kv => bool_decide (kv.1 = r)) role_hierarchy with
  | Some kv => kv.2
  | None => 0
  end.

Definition is_at_least_privilege_level (role1 role2 : GroupMemberRole) : bool :=
  role_level role2 <=? role_level role1.

Definition roles_at_least (role : GroupMemberRole) : list GroupMemberRole :=
  (filter (fun kv => role_level role <= kv.2) role_hierarchy).*1.

(** ** [Status] and [RunType] of runs *)

Inductive Status := CREATED | STARTED | FAILED | SEND_STOP_SIGNAL | STOPPED | FINISHED.
#[export] Instance Status_eq_dec : EqDecision Status.
Proof. solve_decision. Defined.

Definition status_value (s : Status) : string :=
  match s with
  | CREATED => "CREATED"
  | STARTED => "STARTED"
  | FAILED => "FAILED"
  | SEND_STOP_SIGNAL => "SEND_STOP_SIGNAL"
  | STOPPED => "STOPPED"
  | FINISHED => "FINISHED"
  end.

Inductive RunType := MANUAL | SCHEDULED.
#[export] Instance RunType_eq_dec : EqDecision RunType.
Proof. solve_decision. Defined.

(** ** [ConnectionType] *)

Inductive ConnectionType :=
| POSTGRES | HIVE | ICEBERG | ORACLE | CLICKHOUSE | MSSQL | MYSQL
| S3 | HDFS | SFTP | FTP | FTPS | WEBDAV | SAMBA.
#[export] Instance ConnectionType_eq_dec : EqDecision ConnectionType.
Proof. solve_decision. Defined.

Definition connection_type_value (t : ConnectionType) : string :=
  match t with
  | POSTGRES => "postgres"
  | HIVE => "hive"
  | ICEBERG => "iceberg"
  | ORACLE => "oracle"
  | CLICKHOUSE => "clickhouse"
  | MSSQL => "mssql"
  | MYSQL => "mysql"
  | S3 => "s3"
  | HDFS => "hdfs"
  | SFTP => "sftp"
  | FTP => "ftp"
  | FTPS => "ftps"
  | WEBDAV => "webdav"
  | SAMBA => "samba"
  end.

Definition all_connection_types : list ConnectionType :=
  [POSTGRES; HIVE; ICEBERG; ORACLE; CLICKHOUSE; MSSQL; MYSQL;
   S3; HDFS; SFTP; FTP; FTPS; WEBDAV; SAMBA].

(** ** Rows *)

Record User := mkUser {
  user_id : Z;
  username : string;
  user_email : option string;
  user_first_name : option string;
  user_last_name : option string;
  user_middle_name : option string;
  is_superuser : bool;
  is_active : bool;
  user_created_at : Z;
  user_updated_at : Z;
}.

Record Group := mkGroup {
  group_id : Z;
  group_name : string;
  group_description : string;
  group_owner_id : Z;
  group_created_at : Z;
  group_updated_at : Z;
}.

Record UserGroup := mkUserGroup {
  ug_user_id : Z;
  ug_group_id : Z;
  ug_role : GroupMemberRole;
}.

Record Connection := mkConnection {
  conn_id : Z;
  conn_name : string;
  conn_group_id : Z;
  conn_description : string;
  conn_type : ConnectionType;
  conn_data : dict;
  conn_created_at : Z;
  conn_updated_at : Z;
}.

Record AuthData := mkAuthData {
  auth_connection_id : Z;
  auth_value : string;
  auth_created_at : Z;
  auth_updated_at : Z;
}.

Record Queue := mkQueue {
  queue_id : Z;
  queue_name : string;
  queue_group_id : Z;
  queue_description : string;
  queue_slug : string;
  queue_created_at : Z;
  queue_updated_at : Z;
}.

Record Transfer := mkTransfer {
  transfer_id : Z;
  transfer_name : string;
  transfer_group_id : Z;
  transfer_description : string;
  source_connection_id : Z;
  target_connection_id : Z;
  strategy_params : dict;
  source_params : dict;
  target_params : dict;
  transformations : list dict;
  resources : dict;
  is_scheduled : bool;
  schedule : string;
  transfer_queue_id : Z;
  transfer_created_at : Z;
  transfer_updated_at : Z;
}.

Record Run := mkRun {
  run_id : Z;
  run_transfer_id : Z;
  run_started_at : option Z;
  run_ended_at : option Z;
  run_status : Status;
  run_type : RunType;
  run_log_url : option string;
  run_transfer_dump : dict;
  run_created_at : Z;
  run_updated_at : Z;
}.

(** ** [Permission] ([db/utils.py]) *)

Inductive Permission := NONE | READ | WRITE | DELETE.
#[export] Instance Permission_eq_dec : EqDecision Permission.
Proof. solve_decision. Defined.

Definition perm_value (p : Permission) : Z :=
  match p with NONE => 0 | READ => 1 | WRITE => 2 | DELETE => 3 end.

(** the comparison [p < q] of the [IntEnum] *)
Definition perm_lt (p q : Permission) : bool := perm_value p <? perm_value q.
Definition perm_le (p q : Permission) : Prop := perm_value p <= perm_value q.

(** ** [Pagination] ([db/utils.py]) *)

Record Pagination (A : Type) := mkPagination {
  pg_items : list A;
  pg_total : Z;
  pg_page_size : Z;
  pg_page : Z;
  pg_previous_page : option Z;
  pg_next_page : option Z;
  pg_has_previous : bool;
  pg_has_next : bool;
  pg_pages : Z;
}.
Arguments mkPagination {A}.
Arguments pg_items {A} _.
Arguments pg_total {A} _.
Arguments pg_page_size {A} _.
Arguments pg_page {A} _.
Arguments pg_previous_page {A} _.
Arguments pg_next_page {A} _.
Arguments pg_has_previous {A} _.
Arguments pg_has_next {A} _.
Arguments pg_pages {A} _.

(** [math.ceil(a / float(b))] for [b > 0], exactly (the float division is exact
    enough for every count a page can be asked of) *)
Definition ceil_div (a b : Z) : Z := - ((- a) / b).

(** [Pagination.__init__] *)
Definition make_pagination {A} (items : list A) (page page_size total : Z) : Pagination A :=
  let has_previous := 1 <? page in
  let previous_items := (page - 1) * page_size in
  let has_next := previous_items + Z.of_nat (length items) <? total in
  let pages := ceil_div total page_size in
  {| pg_items := items;
     pg_total := total;
     pg_page_size := page_size;
     pg_page := page;
     pg_previous_page := if has_previous then Some (page - 1) else None;
     pg_next_page := if has_next then Some (page + 1) else None;
     pg_has_previous := has_previous;
     pg_has_next := has_next;
     pg_pages := if pages =? 0 then 1 else pages |}.

(** ** Facts about roles and permissions *)

Lemma role_of_str_value r : role_of_str (role_value r) = Some r.
Proof. by destruct r. Qed.

Lemma is_at_least_refl r : is_at_least_privilege_level r r = true.
Proof. by destruct r. Qed.

Lemma roles_at_least_spec r r' :
  r' ∈ roles_at_least r <-> is_at_least_privilege_level r' r = true.
Proof. destruct r, r'; vm_compute; split; intros H; first [done | set_solver]. Qed.

Lemma perm_lt_spec p q : perm_lt p q = false <-> perm_le q p.
Proof. unfold perm_lt, perm_le. lia. Qed.

Lemma perm_lt_DELETE p : perm_lt p DELETE = false -> p = DELETE.
Proof. by destruct p. Qed.

Lemma connection_type_value_inj t t' :
  connection_type_value t = connection_type_value t' -> t = t'.
Proof. by destruct t, t'. Qed.
