(* ===== verification/Errors.v ===== *)
(** * Exceptions and the HTTP error responses
    ([src/syncmaster/exceptions], [errors], [server/handler.py])

    [exc] has one constructor per exception the modelled code raises, with the
    arguments of its [__init__]; [cls] are the exception classes and [parent]
    the class hierarchy, so [isinstance] is a test on the method resolution
    order.  The exception handlers turn an exception into a [Response]. *)

From S2P Require Import Prelude PyData Models.

(** ** Exception classes *)

Inductive cls :=
(* exceptions/base.py *)
| CSyncmasterError | CEntityNotFoundError | CActionNotAllowedError
(* exceptions/auth.py, redirect.py *)
| CAuthorizationError | CLogoutError | CRedirectError
(* exceptions/connection.py *)
| CConnectionNotFoundError | CConnectionOwnerError | CConnectionTypeNotRecognizedError
| CConnectionTypeUpdateError | CConnectionAuthDataUpdateError
| CUserDoNotHaveRightsInTheTargetGroupError | CDuplicatedConnectionNameError
| CConnectionDeleteError
(* exceptions/credentials.py *)
| CAuthDataNotFoundError
(* exceptions/group.py *)
| CGroupNameAlreadyExistsError | CGroupAlreadyExistsError | CAlreadyIsGroupMemberError
| CAlreadyIsNotGroupMemberError | CAlreadyIsGroupOwnerError | CGroupNotFoundError
(* exceptions/queue.py *)
| CQueueNotFoundError | CQueueDeleteError | CDifferentTransferAndQueueGroupError
| CDuplicatedQueueNameError
(* exceptions/run.py *)
| CRunNotFoundError | CCannotStopRunError | CCannotConnectToTaskQueueError
(* exceptions/transfer.py *)
| CTransferOwnerError | CTransferNotFoundError | CDuplicatedTransferNameError
| CDifferentTransferAndConnectionsGroupsError | CDifferentTypeConnectionsAndParamsError
(* exceptions/user.py *)
| CUsernameAlreadyExistsError | CUserNotFoundError
(* the language and the libraries the code calls *)
| CException | CValidationError | CIntegrityError | CDataError | CNoResultFound
| CKombuError | CKeyError | CTypeError | CValueError | CInvalidToken
| CAttributeError | CIndexError.

#[export] Instance cls_eq_dec : EqDecision cls.
Proof. solve_decision. Defined.

(** the base class each class names in its [class] statement *)
Definition parent (c : cls) : option cls :=
  match c with
  | CException => None
  | CConnectionNotFoundError | CQueueNotFoundError | CRunNotFoundError =>
      Some CEntityNotFoundError
  | CSyncmasterError | CIntegrityError | CDataError | CNoResultFound
  | CKombuError | CKeyError | CTypeError | CValueError | CInvalidToken
  | CAttributeError | CIndexError => Some CException
  | CValidationError => Some CValueError
  | _ => Some CSyncmasterError
  end.

(** [cls.mro()]; the hierarchy is at most four classes deep *)
Fixpoint mro_fuel (n : nat) (c : cls) : list cls :=
  match n with
  | O => [c]
  | S n' => c :: match parent c with Some p => mro_fuel n' p | None => [] end
  end.
Definition mro (c : cls) : list cls := mro_fuel 4 c.

(** ** Exceptions *)

Inductive ConnSide := SideSource | SideTarget.

Inductive exc :=
| SyncmasterError | EntityNotFoundError (args : string) | ActionNotAllowedError (args : string)
| AuthorizationError (message : string) | LogoutError (details : string)
| RedirectError (redirect_url : string)
| ConnectionNotFoundError | ConnectionOwnerError | ConnectionTypeNotRecognizedError
| ConnectionTypeUpdateError | ConnectionAuthDataUpdateError
| UserDoNotHaveRightsInTheTargetGroupError | DuplicatedConnectionNameError
| ConnectionDeleteError (message : string)
| AuthDataNotFoundError (message : string)
| GroupNameAlreadyExistsError | GroupAlreadyExistsError | AlreadyIsGroupMemberError
| AlreadyIsNotGroupMemberError | AlreadyIsGroupOwnerError | GroupNotFoundError
| QueueNotFoundError | QueueDeleteError (message : string)
| DifferentTransferAndQueueGroupError | DuplicatedQueueNameError
| RunNotFoundError | CannotStopRunError (run_id : Z) (current_status : Status)
| CannotConnectToTaskQueueError (run_id : Z)
| TransferOwnerError | TransferNotFoundError | DuplicatedTransferNameError
| DifferentTransferAndConnectionsGroupsError
| DifferentTypeConnectionsAndParamsError
    (connection_type params_type : ConnectionType) (conn : ConnSide)
| UsernameAlreadyExistsError | UserNotFoundError
(* the [input] of each of its [errors()]; what else an error has, its location, type,
   message and context, are texts of pydantic *)
| ValidationError (inputs : list json)
| IntegrityError (constraint_name : string)
| DataError | NoResultFound | KombuError
| KeyError (key : string) | TypeError | ValueError (message : string) | InvalidToken
| AttributeError | IndexError
(* any other exception of a library *)
| LibraryError.

Definition class_of (e : exc) : cls :=
  match e with
  | SyncmasterError => CSyncmasterError
  | EntityNotFoundError _ => CEntityNotFoundError
  | ActionNotAllowedError _ => CActionNotAllowedError
  | AuthorizationError _ => CAuthorizationError
  | LogoutError _ => CLogoutError
  | RedirectError _ => CRedirectError
  | ConnectionNotFoundError => CConnectionNotFoundError
  | ConnectionOwnerError => CConnectionOwnerError
  | ConnectionTypeNotRecognizedError => CConnectionTypeNotRecognizedError
  | ConnectionTypeUpdateError => CConnectionTypeUpdateError
  | ConnectionAuthDataUpdateError => CConnectionAuthDataUpdateError
  | UserDoNotHaveRightsInTheTargetGroupError => CUserDoNotHaveRightsInTheTargetGroupError
  | DuplicatedConnectionNameError => CDuplicatedConnectionNameError
  | ConnectionDeleteError _ => CConnectionDeleteError
  | AuthDataNotFoundError _ => CAuthDataNotFoundError
  | GroupNameAlreadyExistsError => CGroupNameAlreadyExistsError
  | GroupAlreadyExistsError => CGroupAlreadyExistsError
  | AlreadyIsGroupMemberError => CAlreadyIsGroupMemberError
  | AlreadyIsNotGroupMemberError => CAlreadyIsNotGroupMemberError
  | AlreadyIsGroupOwnerError => CAlreadyIsGroupOwnerError
  | GroupNotFoundError => CGroupNotFoundError
  | QueueNotFoundError => CQueueNotFoundError
  | QueueDeleteError _ => CQueueDeleteError
  | DifferentTransferAndQueueGroupError => CDifferentTransferAndQueueGroupError
  | DuplicatedQueueNameError => CDuplicatedQueueNameError
  | RunNotFoundError => CRunNotFoundError
  | CannotStopRunError _ _ => CCannotStopRunError
  | CannotConnectToTaskQueueError _ => CCannotConnectToTaskQueueError
  | TransferOwnerError => CTransferOwnerError
  | TransferNotFoundError => CTransferNotFoundError
  | DuplicatedTransferNameError => CDuplicatedTransferNameError
  | DifferentTransferAndConnectionsGroupsError => CDifferentTransferAndConnectionsGroupsError
  | DifferentTypeConnectionsAndParamsError _ _ _ => CDifferentTypeConnectionsAndParamsError
  | UsernameAlreadyExistsError => CUsernameAlreadyExistsError
  | UserNotFoundError => CUserNotFoundError
  | ValidationError _ => CValidationError
  | IntegrityError _ => CIntegrityError
  | DataError => CDataError
  | NoResultFound => CNoResultFound
  | KombuError => CKombuError
  | KeyError _ => CKeyError
  | TypeError => CTypeError
  | ValueError _ => CValueError
  | InvalidToken => CInvalidToken
  | AttributeError => CAttributeError
  | IndexError => CIndexError
  | LibraryError => CException
  end.

(** [isinstance(e, c)] *)
Definition isinstance (e : exc) (c : cls) : bool := bool_decide (c ∈ mro (class_of e)).

(** [DifferentTypeConnectionsAndParamsError.message] *)
Definition different_type_message (ct pt : ConnectionType) (conn : ConnSide) : string :=
  match conn with SideSource => "Source" | SideTarget => "Target" end +:+
  " connection has type `" +:+ connection_type_value ct +:+
  "` but its params has `" +:+ connection_type_value pt +:+ "` type".

(** [getattr(exc, 'message', '')] *)
Definition message_attr (e : exc) : string :=
  match e with
  | AuthorizationError m | ConnectionDeleteError m | AuthDataNotFoundError m
  | QueueDeleteError m => m
  | LogoutError _ => "Logout error"
  | DifferentTypeConnectionsAndParamsError ct pt conn => different_type_message ct pt conn
  | _ => ""
  end.

(** ** Registered error responses ([errors/registration.py], [errors/schemas]) *)

Record APIErrorResponse := mkAPIErrorResponse {
  api_status : Z;
  api_code : string;       (* the [code] of its schema *)
}.

(** [_responses_by_exception] after the schema modules are imported *)
Definition responses_by_exception : list (cls * APIErrorResponse) :=
  [(CSyncmasterError, mkAPIErrorResponse 400 "bad_request");
   (CValidationError, mkAPIErrorResponse 422 "invalid_request");
   (CAuthorizationError, mkAPIErrorResponse 401 "unauthorized")].

Definition assoc_cls {V} (c : cls) (l : list (cls * V)) : option V :=
  snd <$> find (fun kv => bool_decide (kv.1 = c)) l.

Fixpoint get_response_in (l : list cls) : option APIErrorResponse :=
  match l with
  | [] => None
  | exception :: l' =>
      match assoc_cls exception responses_by_exception with
      | Some r => Some r
      | None => get_response_in l'
      end
  end.

Definition get_response_for_exception (exception_type : cls) : option APIErrorResponse :=
  get_response_in (mro exception_type).

(** ** Handlers ([server/handler.py]) *)

(** the [details] of a response: the URL of the login page, the errors of a validation by
    their inputs, the [args] of an exception *)
Inductive Details :=
| RedirectUrl (redirect_url : string)
| InvalidInputs (inputs : list json)
| ArgsOf (e : exc).

Record Response := mkResponse {
  resp_status : Z;
  resp_code : string;
  resp_message : string;
  resp_details : option Details;
}.

Definition exception_json_response := mkResponse.

(** [debug] is [request.app.debug] *)
Definition unknown_exception_handler (debug : bool) (e : exc) : Response :=
  exception_json_response 500 "unknown"
    "Got unhandled exception. Please contact support"
    (if debug then Some (ArgsOf e) else None).

(** [exc.errors()] *)
Definition errors (e : exc) : list json := match e with ValidationError inputs => inputs | _ => [] end.
Definition validation_exception_handler (debug : bool) (e : exc) : Response :=
  match get_response_for_exception CValidationError with
  | None => unknown_exception_handler debug e
  | Some r =>
      exception_json_response (api_status r) (api_code r) "Invalid request" (Some (InvalidInputs (errors e)))
  end.

(** a branch [if isinstance(exc, c): ...]: the status, and the code and message
    the branch assigns to [content] ([None] where it keeps what [content] has) *)
Record Branch := mkBranch {
  br_status : Z;
  br_code : option string;
  br_message : exc -> option string;
  br_details : exc -> option Details;
}.

Definition branch (st : Z) (code : string) (msg : string) : Branch :=
  mkBranch st (Some code) (fun _ => Some msg) (fun _ => None).

Definition handler_branches_1 : list (cls * Branch) :=
  [(CAuthDataNotFoundError,
    mkBranch 404 (Some "not_found")
      (fun e => Some ("Credentials not found. " +:+ message_attr e)) (fun _ => None));
   (CRedirectError,
    mkBranch 401 (Some "unauthorized")
      (fun _ => Some "Please authorize using provided URL")
      (fun e => match e with RedirectError url => Some (RedirectUrl url) | _ => None end));
   (CAuthorizationError, branch 401 "unauthorized" "Not authenticated");
   (CConnectionDeleteError, mkBranch 409 (Some "conflict") (fun _ => None) (fun _ => None));
   (CActionNotAllowedError, branch 403 "forbidden" "You have no power here");
   (CGroupNotFoundError, branch 404 "not_found" "Group not found");
   (CRunNotFoundError, branch 404 "not_found" "Run not found");
   (CQueueNotFoundError, branch 404 "not_found" "Queue not found");
   (CGroupAlreadyExistsError, branch 409 "conflict" "Group name already taken");
   (CAlreadyIsNotGroupMemberError, branch 409 "conflict" "User already is not group member");
   (CAlreadyIsGroupMemberError, branch 409 "conflict" "User already is group member");
   (CAlreadyIsGroupOwnerError, branch 409 "conflict" "User already is group owner");
   (CUserNotFoundError, branch 404 "not_found" "User not found");
   (CUsernameAlreadyExistsError, branch 409 "conflict" "Username is already taken");
   (CConnectionNotFoundError, branch 404 "not_found" "Connection not found")].

Definition handler_branches_2 : list (cls * Branch) :=
  [(CConnectionOwnerError,
    mkBranch 400 None
      (fun _ => Some "Cannot create connection with that user_id and group_id values")
      (fun _ => None));
   (CTransferNotFoundError, branch 404 "not_found" "Transfer not found");
   (CTransferOwnerError,
    mkBranch 400 None (fun _ => Some "Cannot create transfer with that group_id value")
      (fun _ => None));
   (CConnectionTypeUpdateError,
    branch 409 "conflict"
      "You cannot update the connection type of a connection already associated with a transfer.");
   (CConnectionAuthDataUpdateError,
    branch 409 "conflict"
      "You cannot update the connection auth type without providing a new secret value.");
   (CDifferentTransferAndConnectionsGroupsError,
    mkBranch 400 None (fun _ => Some "Connections should belong to the transfer group")
      (fun _ => None));
   (CDifferentTransferAndQueueGroupError,
    mkBranch 400 None (fun _ => Some "Queue should belong to the transfer group")
      (fun _ => None));
   (CDifferentTypeConnectionsAndParamsError,
    mkBranch 400 None (fun _ => None) (fun _ => None));
   (CQueueDeleteError, mkBranch 409 (Some "conflict") (fun _ => None) (fun _ => None));
   (CDuplicatedConnectionNameError,
    branch 409 "conflict"
      "The connection name already exists in the target group, please specify a new one");
   (CDuplicatedTransferNameError,
    branch 409 "conflict"
      "The transfer name already exists in the target group, please specify a new one");
   (CDuplicatedQueueNameError,
    branch 409 "conflict"
      "The queue name already exists in the target group, please specify a new one");
   (CCannotConnectToTaskQueueError,
    mkBranch 503 (Some "service_unavaliable")
      (fun e => match e with
                | CannotConnectToTaskQueueError rid =>
                    Some ("Syncmaster not connected to task queue. Run " +:+ str_of_Z rid
                          +:+ " was failed")
                | _ => None
                end)
      (fun _ => None));
   (CCannotStopRunError,
    mkBranch 400 None
      (fun e => match e with
                | CannotStopRunError rid st =>
                    Some ("Cannot stop run " +:+ str_of_Z rid +:+ ". Current status is "
                          +:+ status_value st)
                | _ => None
                end)
      (fun _ => None))].

Definition handler_branches : list (cls * Branch) := handler_branches_1 ++ handler_branches_2.

(** the body of [syncmsater_exception_handler]: the first branch that matches *)
Definition syncmaster_exception_handler (debug : bool) (e : exc) : Response :=
  match get_response_for_exception CSyncmasterError with
  | None => unknown_exception_handler debug e
  | Some r =>
      match find (fun br => isinstance e br.1) handler_branches with
      | Some (_, br) =>
          exception_json_response (br_status br)
            (default (api_code r) (br_code br))
            (default (message_attr e) (br_message br e))
            (br_details br e)
      | None =>
          exception_json_response 500 "unknown" "Got unhandled exception. See logs" None
      end
  end.

(** the handler FastAPI picks for an exception that leaves an endpoint *)
Definition handle_exception (debug : bool) (e : exc) : Response :=
  if isinstance e CValidationError then validation_exception_handler debug e
  else if isinstance e CSyncmasterError then syncmaster_exception_handler debug e
  else unknown_exception_handler debug e.
