(* ===== verification/Pydantic.v ===== *)
(** * Declared schemas and their validation

    The request and response models under [schemas/v1] are pydantic models: lists
    of typed fields with defaults, constraints and validator functions.  A model
    is a list of [Field]s here, and [validate] is what validation does with the
    declarations the code uses: every field is validated in order, a validator
    sees the fields that validated before it ([info.data]), [ValueError]s are
    collected into one [ValidationError] with the inputs they are about, any other exception of a validator
    escapes, unknown keys are dropped.  The validated model is the dict that
    [model_dump(mode="json")] returns.  The coercions of pydantic's lax mode are
    the class [PydanticCore], a parameter. *)

From S2P Require Import Prelude PyData Models Errors.

Class PydanticCore := {
  lax_int : json -> option Z;
  lax_bool : json -> option bool;
  lax_url : string -> option string;
  lax_bytesize : json -> option Z;
}.

(** what the code relies on: values that already have the type are kept *)
Class PydanticLaws `{PydanticCore} := {
  lax_int_int : forall z, lax_int (JInt z) = Some z;
  lax_bool_bool : forall b, lax_bool (JBool b) = Some b;
  lax_url_url : forall s s', lax_url s = Some s' -> lax_url s' = Some s';
  lax_bytesize_int : forall z, lax_bytesize (JInt z) = Some z;
}.

(** ** Field types *)

Inductive FieldType :=
| FStr
| FStrLen (lo hi : nat)
| FInt
| FIntIn (lo hi : Z)                        (* inclusive bounds *)
| FBool
| FByteSize (lo hi : option Z)
| FLiteral (values : list string)
| FDict
| FUrl
| FOpt (t : FieldType)                      (* [t | None] *)
| FList (t : FieldType)
| FAny                                       (* [Any], or converted by the field's [after] *)
| FModel (fs : list Field)
| FExtra (fs : list Field)                   (* a model that keeps unknown keys *)
| FUnion (alts : list (string * list Field)) (* discriminator "type" *)
| FBefore (check : json -> result exc unit) (t : FieldType)
| FAfter (check : json -> result exc unit) (t : FieldType)
with Field :=
| mkField (name : string) (alias : option string) (t : FieldType) (dflt : option json)
    (validate_default : bool) (after : dict -> json -> result exc json).

Definition keep (data : dict) (v : json) : result exc json := Ok v.

Definition req (name : string) (t : FieldType) : Field := mkField name None t None false keep.
Definition opt (name : string) (t : FieldType) (d : json) : Field :=
  mkField name None t (Some d) false keep.
(** [type: Literal["x"] = "x"] *)
Definition tag (v : string) : Field := opt "type" (FLiteral [v]) (JStr v).

Definition field_name (f : Field) : string := match f with mkField n _ _ _ _ _ => n end.

(** an error about [input] *)
Definition invalid {A} (input : json) : result exc A := Raise (ValidationError [input]).
(** the inputs of an error that occurred for [input]: a validator's [ValueError] is about
    the value it was given *)
Definition error_inputs (input : json) (e : exc) : list json :=
  match e with ValidationError inputs => inputs | _ => [input] end.

(** ** Validation *)

Section Validate.
Context `{PydanticCore}.

Definition field_input (name : string) (alias : option string) (input : dict) : option json :=
  match alias with
  | Some a => match dict_get a input with Some v => Some v | None => dict_get name input end
  | None => dict_get name input
  end.

Section Fields.
Variable val : FieldType -> json -> result exc json.

Definition validate_field (input data : dict) (f : Field) : result exc json :=
  match f with
  | mkField n al t d vd after =>
      match field_input n al input with
      | Some v => v' ← val t v; after data v'
      | None =>
          match d with
          | Some dv => if vd then v' ← val t dv; after data v' else Ok dv
          | None => invalid (JObj input)
          end
      end
  end.

(** what a validator of the field is given *)
Definition given (input : dict) (f : Field) : json :=
  match f with mkField n al _ d _ _ => default (default (JObj input) d) (field_input n al input) end.

(** [bad] are the errors so far *)
Definition validate_fields (input : dict) : list Field -> dict -> option (list json) -> result exc dict :=
  fix go fs data bad :=
    match fs with
    | [] => match bad with Some inputs => Raise (ValidationError inputs) | None => Ok data end
    | f :: fs' =>
        match validate_field input data f with
        | Ok v => go fs' (data ++ [(field_name f, v)]) bad
        | Raise e =>
            if isinstance e CValueError
            then go fs' data (Some (default [] bad ++ error_inputs (given input f) e)) else Raise e
        end
    end.

Definition validate_list (t : FieldType) : list json -> result exc (list json) :=
  fix go l :=
    match l with
    | [] => Ok []
    | x :: l' =>
        match val t x with
        | Ok y => ys ← go l'; Ok (y :: ys)
        | Raise e =>
            if isinstance e CValueError then
              match go l' with
              | Ok _ => Raise (ValidationError (error_inputs x e))
              | Raise e' =>
                  if isinstance e' CValueError
                  then Raise (ValidationError (error_inputs x e ++ error_inputs (JList l') e')) else Raise e'
              end
            else Raise e
        end
    end.

Definition pick_alternative (tg : string) (input : dict)
    : list (string * list Field) -> result exc dict :=
  fix pick alts :=
    match alts with
    | [] => invalid (JObj input)
    | (k, fs) :: alts' =>
        if String.eqb tg k then validate_fields input fs [] None else pick alts'
    end.

Definition union_validate (alts : list (string * list Field)) (j : json) : result exc dict :=
  match j with
  | JObj input =>
      match dict_get "type" input with
      | Some (JStr tg) => pick_alternative tg input alts
      | _ => invalid j
      end
  | _ => invalid j
  end.

Definition model_validate (fs : list Field) (j : json) : result exc dict :=
  match j with
  | JObj input => validate_fields input fs [] None
  | _ => invalid j
  end.
End Fields.

Definition in_range (lo hi : option Z) (z : Z) : bool :=
  match lo with Some l => l <=? z | None => true end &&
  match hi with Some h => z <=? h | None => true end.

Definition validate_int (j : json) (ok : Z -> bool) : result exc json :=
  match lax_int j with
  | Some z => if ok z then Ok (JInt z) else invalid j
  | None => invalid j
  end.

Definition with_str (j : json) (f : string -> result exc json) : result exc json :=
  match j with JStr s => f s | _ => invalid j end.

(** [extra="allow"]: the keys no field has, as they came *)
Definition extra_keys (names : list string) (j : json) : dict :=
  match j with JObj input => filter (fun kv => kv.1 ∉ names) input | _ => [] end.

(** a [ValueError] of a validator is a validation error *)
Definition run_check (j : json) (r : result exc unit) : result exc unit :=
  match r with
  | Raise e => if isinstance e CValueError then Raise (ValidationError (error_inputs j e)) else Raise e
  | Ok _ => Ok tt
  end.

Fixpoint validate (t : FieldType) (j : json) {struct t} : result exc json :=
  match t with
  | FStr => with_str j (fun s => Ok (JStr s))
  | FStrLen lo hi =>
      with_str j (fun s =>
        if (lo <=? String.length s)%nat && (String.length s <=? hi)%nat then Ok (JStr s) else invalid j)
  | FInt => validate_int j (fun _ => true)
  | FIntIn lo hi => validate_int j (in_range (Some lo) (Some hi))
  | FBool => match lax_bool j with Some b => Ok (JBool b) | None => invalid j end
  | FByteSize lo hi =>
      match lax_bytesize j with
      | Some z => if in_range lo hi z then Ok (JInt z) else invalid j
      | None => invalid j
      end
  | FLiteral values =>
      with_str j (fun s => if existsb (String.eqb s) values then Ok (JStr s) else invalid j)
  | FDict => match j with JObj d => Ok (JObj d) | _ => invalid j end
  | FUrl => with_str j (fun s => match lax_url s with Some u => Ok (JStr u) | None => invalid j end)
  | FOpt t' => match j with JNull => Ok JNull | _ => validate t' j end
  | FList t' =>
      match j with
      | JList l => l' ← validate_list validate t' l; Ok (JList l')
      | _ => invalid j
      end
  | FAny => Ok j
  | FModel fs => d ← model_validate validate fs j; Ok (JObj d)
  | FExtra fs => d ← model_validate validate fs j; Ok (JObj (d ++ extra_keys (field_name <$> fs) j))
  | FUnion alts => d ← union_validate validate alts j; Ok (JObj d)
  | FBefore check t' => _ ← run_check j (check j); validate t' j
  | FAfter check t' => v ← validate t' j; _ ← run_check j (check v); Ok v
  end.
End Validate.

(** ** Facts *)

Section Facts.
Variable val : FieldType -> json -> result exc json.

Lemma validate_fields_bad input fs : forall data d,
  forall inputs, validate_fields val input fs data (Some inputs) <> Ok d.
Proof.
  induction fs as [|f fs IH]; intros data d inputs; cbn; [done|].
  destruct (validate_field _ _ _ f); [by apply IH|].
  destruct (isinstance e CValueError); [by apply IH|done].
Qed.

(** validation that succeeds validated every field, in order *)
Lemma validate_fields_cons input f fs data d :
  validate_fields val input (f :: fs) data None = Ok d <->
  exists v, validate_field val input data f = Ok v /\
            validate_fields val input fs (data ++ [(field_name f, v)]) None = Ok d.
Proof.
  cbn. split.
  - destruct (validate_field _ _ _ f) as [v|e]; [by eauto|].
    destruct (isinstance e CValueError); [|done]. by intros ?%validate_fields_bad.
  - by intros (v & -> & Hd).
Qed.

Lemma validate_fields_keys input fs : forall data d,
  validate_fields val input fs data None = Ok d ->
  dict_keys d = dict_keys data ++ (field_name <$> fs).
Proof.
  induction fs as [|f fs IH]; intros data d.
  - cbn. intros [= ->]. by rewrite app_nil_r.
  - intros (v & _ & Hd)%validate_fields_cons. rewrite (IH _ _ Hd).
    unfold dict_keys. rewrite fmap_app. cbn. by rewrite <- app_assoc.
Qed.

Lemma dict_get_app {V} k (d d' : list (string * V)) :
  dict_get k (d ++ d') = match dict_get k d with Some v => Some v | None => dict_get k d' end.
Proof. induction d as [|[k' v] d IH]; cbn; [done|]. by destruct (String.eqb k k'). Qed.

(** what was validated stays *)
Lemma validate_fields_mono input fs : forall data d k v,
  validate_fields val input fs data None = Ok d -> dict_get k data = Some v -> dict_get k d = Some v.
Proof.
  induction fs as [|f fs IH]; intros data d k v.
  - by intros [= ->].
  - intros (w & _ & Hd)%validate_fields_cons Hk. eapply IH; [exact Hd|].
    by rewrite dict_get_app, Hk.
Qed.

Lemma model_validate_keys fs j d :
  model_validate val fs j = Ok d -> dict_keys d = field_name <$> fs.
Proof. destruct j; try done. by intros ?%validate_fields_keys. Qed.

Lemma pick_alternative_spec tg input alts :
  pick_alternative val tg input alts =
  match dict_get tg alts with
  | Some fs => validate_fields val input fs [] None
  | None => invalid (JObj input)
  end.
Proof. induction alts as [|[k fs] alts IH]; cbn; [done|]. by destruct (String.eqb tg k). Qed.

(** the value of a field of a validated model is the validated input, and the
    validator saw the fields before it with their final values *)
Lemma validate_fields_get input fs1 f fs2 : forall data d,
  validate_fields val input (fs1 ++ f :: fs2) data None = Ok d ->
  NoDup (dict_keys data ++ (field_name <$> fs1 ++ f :: fs2)) ->
  exists data' v, validate_field val input data' f = Ok v /\ dict_get (field_name f) d = Some v /\
    dict_keys data' = dict_keys data ++ (field_name <$> fs1) /\
    (forall k w, dict_get k data' = Some w -> dict_get k d = Some w).
Proof.
  induction fs1 as [|g fs1 IH]; intros data d Hd Hnd.
  - cbn [app] in Hd. apply validate_fields_cons in Hd as (v & Hv & Hd).
    exists data, v. split_and!; [done| |by rewrite app_nil_r|].
    + eapply validate_fields_mono; [exact Hd|].
      rewrite dict_get_app. cbn. rewrite String.eqb_refl.
      destruct (dict_get _ data) eqn:Hk; [|done].
      exfalso. apply dict_get_elem in Hk. cbn in Hnd.
      apply NoDup_app in Hnd as (_ & Hdis & _). eapply Hdis; [|by left].
      unfold dict_keys. apply list_elem_of_fmap. by eexists (_, _).
    + intros k w Hk. eapply validate_fields_mono; [exact Hd|]. by rewrite dict_get_app, Hk.
  - cbn [app] in Hd. apply validate_fields_cons in Hd as (v & Hv & Hd).
    destruct (IH _ _ Hd) as (data' & w & Hw & Hget & Hkeys & Hmono).
    + unfold dict_keys in *. rewrite fmap_app. cbn in *. by rewrite <- app_assoc.
    + exists data', w. split_and!; [done..| |done]. rewrite Hkeys. unfold dict_keys.
      rewrite fmap_app. cbn. by rewrite <- app_assoc.
Qed.
End Facts.
