(* ===== verification/ConnectionSchemas.v ===== *)
(** * Group, queue, user, credentials and connection schemas
    ([schemas/v1/{groups,queue,users,page}.py], [schemas/v1/auth], [schemas/v1/connections])

    The three classes of each kind of credentials ([Read...], [Create...],
    [Update...]) share their public fields and differ in the secrets, which a
    response never has, a creation must have and an update may leave out: one
    [AuthSchema] stands for the three. *)

From S2P Require Import Prelude PyData Models Errors Pydantic.
From Stdlib Require Import Ascii.

Definition NameConstr : FieldType := FStrLen 3 128.
Definition int_Z (j : option json) : Z := match j with Some (JInt z) => z | _ => 0 end.
Definition str_of (j : option json) : string := match j with Some (JStr s) => s | _ => "" end.
Definition opt_str_of (j : option json) : option string :=
  match j with Some (JStr s) => Some s | _ => None end.
Definition bool_of (j : option json) : bool := match j with Some (JBool b) => b | _ => false end.
Definition obj_of (j : option json) : dict := match j with Some (JObj d) => d | _ => [] end.

(** ** Groups *)

Definition CreateGroupSchema : list Field := [req "name" NameConstr; req "description" FStr].
Definition UpdateGroupSchema : list Field := CreateGroupSchema ++ [req "owner_id" FInt].
Definition ReadGroupSchema : list Field := UpdateGroupSchema ++ [req "id" FInt].

(** [AddUserSchema.validate_role]; [role] absent or falsy is left to the field *)
Definition validate_role (values : json) : result exc unit :=
  match values with
  | JObj d =>
      match dict_get "role" d with
      | Some (JStr role) =>
          if negb (String.eqb role "") && negb (is_public_role role)
          then Raise (ValueError ("Input should be one of: " +:+ public_roles_str)) else Ok tt
      | Some v =>
          (* the enum constructor raises ValueError on a value that is no text *)
          if json_truthy v
          then Raise (ValueError ("Input should be one of: " +:+ public_roles_str)) else Ok tt
      | None => Ok tt
      end
  | _ => Ok tt
  end.

Definition all_roles : list string := role_value <$> [Maintainer; Developer; Owner; Guest; Superuser].
Definition AddUserSchema : FieldType :=
  FBefore validate_role (FModel [req "role" (FLiteral all_roles)]).

(** ** Queues *)

Definition char_map (f : nat -> nat) (c : ascii) : ascii := ascii_of_nat (f (nat_of_ascii c)).
(** [str.lower()] of an ASCII text, which is all [ALLOWED_PATTERN] lets through *)
Definition lower_char (n : nat) : nat := if (65 <=? n)%nat && (n <=? 90)%nat then (n + 32)%nat else n.
Fixpoint lower (s : string) : string :=
  match s with
  | EmptyString => EmptyString
  | String c s' => String (char_map lower_char c) (lower s')
  end.

(** [re.compile(r"^[ -~]+$")], matched with [re.match]: [$] also matches before
    a final newline *)
Definition printable (c : ascii) : bool :=
  ((32 <=? nat_of_ascii c) && (nat_of_ascii c <=? 126))%nat.
Fixpoint str_all (p : ascii -> bool) (s : string) : bool :=
  match s with
  | EmptyString => true
  | String c s' => p c && str_all p s'
  end.
Definition newline : ascii := ascii_of_nat 10.
Fixpoint chomp (s : string) : string :=
  match s with
  | EmptyString => EmptyString
  | String c s' => if Ascii.eqb c newline && String.eqb s' "" then "" else String c (chomp s')
  end.
Definition ALLOWED_PATTERN (s : string) : bool :=
  negb (String.eqb (chomp s) "") && str_all printable (chomp s).

(** a character [RESTRICTED_PATTERN] keeps *)
Definition alnum (c : ascii) : bool :=
  let n := nat_of_ascii c in
  ((48 <=? n) && (n <=? 57) || (65 <=? n) && (n <=? 90) || (97 <=? n) && (n <=? 122))%nat.

(** [RESTRICTED_PATTERN.sub("_", s)]: each maximal run of other characters
    becomes one underscore; [in_run] says the previous character was in a run *)
Fixpoint sub_restricted (in_run : bool) (s : string) : string :=
  match s with
  | EmptyString => EmptyString
  | String c s' =>
      if alnum c then String c (sub_restricted false s')
      else if in_run then sub_restricted true s'
      else String "_" (sub_restricted true s')
  end.

(** [s.strip("_")] *)
Fixpoint lstrip_us (s : string) : string :=
  match s with
  | String c s' => if Ascii.eqb c "_" then lstrip_us s' else s
  | EmptyString => EmptyString
  end.
Fixpoint rstrip_us (s : string) : string :=
  match s with
  | EmptyString => EmptyString
  | String c s' =>
      let r := rstrip_us s' in
      if String.eqb r "" && Ascii.eqb c "_" then "" else String c r
  end.
Definition strip_us (s : string) : string := rstrip_us (lstrip_us s).

Definition QueueName : FieldType :=
  FAfter (fun j => match j with
                   | JStr s => if ALLOWED_PATTERN s then Ok tt else Raise (ValueError "pattern")
                   | _ => Ok tt
                   end) (FStrLen 3 128).
Definition QueueSchema : list Field :=
  [req "name" QueueName; req "group_id" FInt; opt "description" FStr (JStr "")].
Definition UpdateQueueSchema : list Field := [req "name" QueueName; opt "description" FStr (JStr "")].

(** [CreateQueueSchema.slug] *)
Definition slug (group_id : Z) (name : string) : string :=
  let short_name := strip_us (sub_restricted false (lower name)) in
  str_of_Z group_id +:+ "-" +:+ short_name.

(** ** Credentials *)

Record AuthSchema := mkAuthSchema {
  auth_type : string;
  auth_public : list Field;
  auth_secrets : list string;       (* [get_secret_fields] *)
}.

Definition read_auth_fields (a : AuthSchema) : list Field := tag (auth_type a) :: auth_public a.
Definition create_auth_fields (a : AuthSchema) : list Field :=
  read_auth_fields a ++ ((fun s => req s FStr) <$> auth_secrets a).
Definition update_auth_fields (a : AuthSchema) : list Field :=
  read_auth_fields a ++ ((fun s => opt s (FOpt FStr) JNull) <$> auth_secrets a).
Definition get_secret_fields (a : AuthSchema) : list string := auth_secrets a.

Definition BasicAuthSchema : AuthSchema :=
  mkAuthSchema "basic" [req "user" FStr] ["password"].
Definition S3AuthSchema : AuthSchema :=
  mkAuthSchema "s3" [req "access_key" FStr] ["secret_key"].
Definition SambaAuthSchema : AuthSchema :=
  mkAuthSchema "samba"
    [req "user" FStr; opt "auth_type" (FLiteral ["NTLMv1"; "NTLMv2"]) (JStr "NTLMv2")]
    ["password"].
Definition IcebergRESTCatalogBearerAuthSchema : AuthSchema :=
  mkAuthSchema "iceberg_rest_bearer" [] ["rest_catalog_token"].

Definition oauth2_fields (endpoint : FieldType) : list Field :=
  [req "rest_catalog_oauth2_client_id" FStr;
   opt "rest_catalog_oauth2_scopes" (FList FStr) (JList []);
   opt "rest_catalog_oauth2_resource" (FOpt FStr) JNull;
   opt "rest_catalog_oauth2_audience" (FOpt FStr) JNull;
   opt "rest_catalog_oauth2_token_endpoint" (FOpt endpoint) JNull].

Definition IcebergRESTCatalogOAuth2ClientCredentialsAuthSchema : AuthSchema :=
  mkAuthSchema "iceberg_rest_oauth2_client_credentials" (oauth2_fields FUrl)
    ["rest_catalog_oauth2_client_secret"].
Definition IcebergRESTCatalogBearerS3BasicAuthSchema : AuthSchema :=
  mkAuthSchema "iceberg_rest_bearer_s3_basic" [req "s3_access_key" FStr]
    ["rest_catalog_token"; "s3_secret_key"].
Definition IcebergRESTCatalogOAuth2ClientCredentialsS3BasicAuthSchema : AuthSchema :=
  mkAuthSchema "iceberg_rest_oauth2_client_credentials_s3_basic"
    (oauth2_fields FStr ++ [req "s3_access_key" FStr])
    ["rest_catalog_oauth2_client_secret"; "s3_secret_key"].

Definition iceberg_auth_schemas : list AuthSchema :=
  [IcebergRESTCatalogBearerS3BasicAuthSchema;
   IcebergRESTCatalogOAuth2ClientCredentialsS3BasicAuthSchema;
   IcebergRESTCatalogBearerAuthSchema;
   IcebergRESTCatalogOAuth2ClientCredentialsAuthSchema].

(** [ReadConnectionAuthDataSchema] *)
Definition all_auth_schemas : list AuthSchema :=
  [BasicAuthSchema; S3AuthSchema; SambaAuthSchema] ++ iceberg_auth_schemas.

Definition auth_union (fields : AuthSchema -> list Field) (l : list AuthSchema)
    : list (string * list Field) :=
  (fun a => (auth_type a, fields a)) <$> l.

(** [ReadAuthDataSchema(auth_data=...).model_dump(mode="json")] *)
Definition ReadAuthDataSchema : list Field :=
  [req "auth_data" (FUnion (auth_union read_auth_fields all_auth_schemas))].

(** ** Connection data *)

Definition port (d : Z) : Field := opt "port" (FIntIn 1 65535) (JInt d).
Definition opt_port (name : string) : Field := opt name (FOpt (FIntIn 1 65535)) JNull.
Definition additional_params : Field := opt "additional_params" FDict (JObj []).

Definition ClickhouseConnectionDataSchema : list Field :=
  [req "host" FStr; port 8123; opt "database_name" (FOpt FStr) JNull; additional_params].
Definition MSSQLConnectionDataSchema : list Field :=
  [req "host" FStr; port 1433; req "database_name" FStr; additional_params].
Definition MySQLConnectionDataSchema : list Field :=
  [req "host" FStr; port 3306; opt "database_name" (FOpt FStr) JNull; additional_params].
Definition PostgresConnectionDataSchema : list Field :=
  [req "host" FStr; port 5432; req "database_name" FStr; additional_params].
Definition HiveConnectionDataSchema : list Field := [req "cluster" FStr].
Definition HDFSConnectionDataSchema : list Field := [req "cluster" FStr].
Definition FTPConnectionDataSchema : list Field := [req "host" FStr; port 21].
Definition FTPSConnectionDataSchema : list Field := [req "host" FStr; port 21].
Definition SFTPConnectionDataSchema : list Field := [req "host" FStr; port 22].
Definition WebDAVConnectionDataSchema : list Field :=
  [req "host" FStr; opt_port "port"; opt "protocol" (FLiteral ["http"; "https"]) (JStr "https")].
Definition SambaConnectionDataSchema : list Field :=
  [req "host" FStr; req "share" FStr; opt_port "port";
   opt "protocol" (FLiteral ["SMB"; "NetBIOS"]) (JStr "SMB"); opt "domain" FStr (JStr "")].

(** [values.get(k)] is truthy *)
Definition truthy_key (k : string) (values : dict) : bool :=
  match dict_get k values with Some v => json_truthy v | None => false end.

(** [OracleConnectionDataSchema.validate_connection_identifiers]; a value that
    is no dict has no [get] *)
Definition validate_connection_identifiers (values : json) : result exc unit :=
  match values with
  | JObj d =>
      if truthy_key "sid" d && truthy_key "service_name" d
      then Raise (ValueError "You must specify either sid or service_name but not both") else Ok tt
  | _ => Raise AttributeError
  end.
Definition OracleConnectionDataSchema : list Field :=
  [req "host" FStr; port 1521; opt "service_name" (FOpt FStr) JNull; opt "sid" (FOpt FStr) JNull;
   additional_params].

(** [CreateS3ConnectionDataSchema.validate_port] *)
Definition validate_port (info : dict) (p : json) : result exc json :=
  match p with
  | JNull =>
      Ok (JInt (match dict_get "protocol" info with
                | Some (JStr pr) => if String.eqb pr "https" then 443 else 80
                | _ => 80
                end))
  | _ => Ok p
  end.
Definition s3_data_fields (after : dict -> json -> result exc json) : list Field :=
  [req "host" FStr; req "bucket" FStr; opt "protocol" (FLiteral ["http"; "https"]) (JStr "https");
   req "region" FStr;
   mkField "port" None (FOpt (FIntIn 1 65535)) (Some JNull) true after;
   opt "bucket_style" (FLiteral ["domain"; "path"]) (JStr "path"); additional_params].
Definition ReadS3ConnectionDataSchema : list Field := s3_data_fields keep.
Definition CreateS3ConnectionDataSchema : list Field := s3_data_fields validate_port.

Definition IcebergRESTCatalogS3DirectConnectionDataSchema : list Field :=
  [tag "iceberg_rest_s3_direct"; req "rest_catalog_url" FUrl; req "s3_warehouse_path" FStr;
   req "s3_host" FStr; opt_port "s3_port";
   opt "s3_protocol" (FLiteral ["http"; "https"]) (JStr "https");
   req "s3_bucket" FStr; req "s3_region" FStr;
   opt "s3_bucket_style" (FLiteral ["domain"; "path"]) (JStr "path");
   opt "s3_additional_params" FDict (JObj [])].
Definition IcebergRESTCatalogS3DelegatedConnectionDataSchema : list Field :=
  [tag "iceberg_rest_s3_delegated"; req "rest_catalog_url" FUrl;
   opt "s3_warehouse_name" (FOpt FStr) JNull;
   opt "s3_access_delegation" (FLiteral ["vended-credentials"; "remote-signing"])
     (JStr "vended-credentials")].
Definition IcebergConnectionDataSchema : FieldType :=
  FUnion [("iceberg_rest_s3_direct", IcebergRESTCatalogS3DirectConnectionDataSchema);
          ("iceberg_rest_s3_delegated", IcebergRESTCatalogS3DelegatedConnectionDataSchema)].

(** ** Connections *)

(** what the classes [Create...], [Read...] and [Update...ConnectionSchema] of a type
    declare: the [data] of creating and updating and of reading, the credentials, and
    whether the credentials of a reply have a default *)
Record ConnectionSchema := mkConnectionSchema {
  cs_type : ConnectionType;
  cs_data : FieldType;
  cs_read_data : FieldType;
  cs_auth : list AuthSchema;
  cs_auth_default : bool;
}.
Definition ClickhouseConnectionSchema : ConnectionSchema :=
  mkConnectionSchema CLICKHOUSE (FModel ClickhouseConnectionDataSchema) (FModel ClickhouseConnectionDataSchema) [BasicAuthSchema] false.
Definition HiveConnectionSchema : ConnectionSchema :=
  mkConnectionSchema HIVE (FModel HiveConnectionDataSchema) (FModel HiveConnectionDataSchema) [BasicAuthSchema] true.
Definition IcebergConnectionSchema : ConnectionSchema :=
  mkConnectionSchema ICEBERG IcebergConnectionDataSchema IcebergConnectionDataSchema iceberg_auth_schemas true.
Definition MSSQLConnectionSchema : ConnectionSchema :=
  mkConnectionSchema MSSQL (FModel MSSQLConnectionDataSchema) (FModel MSSQLConnectionDataSchema) [BasicAuthSchema] true.
Definition MySQLConnectionSchema : ConnectionSchema :=
  mkConnectionSchema MYSQL (FModel MySQLConnectionDataSchema) (FModel MySQLConnectionDataSchema) [BasicAuthSchema] true.
Definition OracleConnectionSchema : ConnectionSchema :=
  let data := FBefore validate_connection_identifiers (FModel OracleConnectionDataSchema) in
  mkConnectionSchema ORACLE data data [BasicAuthSchema] true.
Definition PostgresConnectionSchema : ConnectionSchema :=
  mkConnectionSchema POSTGRES (FModel PostgresConnectionDataSchema) (FModel PostgresConnectionDataSchema) [BasicAuthSchema] true.
Definition FTPConnectionSchema : ConnectionSchema :=
  mkConnectionSchema FTP (FModel FTPConnectionDataSchema) (FModel FTPConnectionDataSchema) [BasicAuthSchema] true.
Definition FTPSConnectionSchema : ConnectionSchema :=
  mkConnectionSchema FTPS (FModel FTPSConnectionDataSchema) (FModel FTPSConnectionDataSchema) [BasicAuthSchema] true.
Definition HDFSConnectionSchema : ConnectionSchema :=
  mkConnectionSchema HDFS (FModel HDFSConnectionDataSchema) (FModel HDFSConnectionDataSchema) [BasicAuthSchema] true.
Definition S3ConnectionSchema : ConnectionSchema :=
  mkConnectionSchema S3 (FModel CreateS3ConnectionDataSchema) (FModel ReadS3ConnectionDataSchema)
    [S3AuthSchema] true.
Definition SambaConnectionSchema : ConnectionSchema :=
  mkConnectionSchema SAMBA (FModel SambaConnectionDataSchema) (FModel SambaConnectionDataSchema) [SambaAuthSchema] true.
Definition SFTPConnectionSchema : ConnectionSchema :=
  mkConnectionSchema SFTP (FModel SFTPConnectionDataSchema) (FModel SFTPConnectionDataSchema) [BasicAuthSchema] true.
Definition WebDAVConnectionSchema : ConnectionSchema :=
  mkConnectionSchema WEBDAV (FModel WebDAVConnectionDataSchema) (FModel WebDAVConnectionDataSchema) [BasicAuthSchema] true.

Definition connection_schema (t : ConnectionType) : ConnectionSchema :=
  match t with
  | CLICKHOUSE => ClickhouseConnectionSchema
  | HIVE => HiveConnectionSchema
  | ICEBERG => IcebergConnectionSchema
  | MSSQL => MSSQLConnectionSchema
  | MYSQL => MySQLConnectionSchema
  | ORACLE => OracleConnectionSchema
  | POSTGRES => PostgresConnectionSchema
  | FTP => FTPConnectionSchema
  | FTPS => FTPSConnectionSchema
  | HDFS => HDFSConnectionSchema
  | S3 => S3ConnectionSchema
  | SAMBA => SambaConnectionSchema
  | SFTP => SFTPConnectionSchema
  | WEBDAV => WebDAVConnectionSchema
  end.
Definition data_type (t : ConnectionType) : FieldType := cs_data (connection_schema t).
Definition read_data_type (t : ConnectionType) : FieldType := cs_read_data (connection_schema t).
Definition auth_schemas (t : ConnectionType) : list AuthSchema := cs_auth (connection_schema t).
Definition auth_field_type (fields : AuthSchema -> list Field) (t : ConnectionType) : FieldType :=
  match auth_schemas t with
  | [a] => FModel (fields a)
  | l => FUnion (auth_union fields l)
  end.

Definition base_fields : list Field :=
  [req "group_id" FInt; req "name" NameConstr; req "description" FStr].
Definition data_field (t : FieldType) : Field :=
  mkField "data" (Some "connection_data") t None false keep.

Definition connection_fields (fields : AuthSchema -> list Field) (t : ConnectionType) : list Field :=
  base_fields ++
  [req "type" (FLiteral [connection_type_value t]); data_field (data_type t);
   req "auth_data" (auth_field_type fields t)].

Definition read_connection_fields (t : ConnectionType) : list Field :=
  base_fields ++
  [req "id" FInt; req "type" (FLiteral [connection_type_value t]); data_field (read_data_type t);
   mkField "auth_data" None (FOpt (auth_field_type read_auth_fields t))
     (if cs_auth_default (connection_schema t) then Some JNull else None) false keep].

(** [sub in s] for texts *)
Fixpoint str_contains (sub s : string) : bool :=
  String.prefix sub s ||
  match s with
  | EmptyString => false
  | String _ s' => str_contains sub s'
  end.

(** [CreateIcebergConnectionSchema.connection_and_auth_data_match] *)
Definition connection_and_auth_data_match (self : json) : result exc unit :=
  match self with
  | JObj d =>
      let data := str_of (dict_get "type" (obj_of (dict_get "data" d))) in
      let auth := str_of (dict_get "type" (obj_of (dict_get "auth_data" d))) in
      if String.eqb data "iceberg_rest_s3_direct" && negb (str_contains "s3" auth)
      then Raise (ValueError "Cannot create direct S3 connection without S3 credentials")
      else if String.eqb data "iceberg_rest_s3_delegated" && str_contains "s3" auth
      then Raise (ValueError "Cannot create delegated S3 connection with S3 credentials")
      else Ok tt
  | _ => Ok tt
  end.

Definition connection_model (fields : AuthSchema -> list Field) (t : ConnectionType) : FieldType :=
  match t with
  | ICEBERG => FAfter connection_and_auth_data_match (FModel (connection_fields fields t))
  | _ => FModel (connection_fields fields t)
  end.

Definition connection_type_of_str (s : string) : option ConnectionType :=
  find (fun t => String.eqb (connection_type_value t) s) all_connection_types.

(** a value of [CreateConnectionSchema] or [UpdateConnectionSchema] *)
Record ConnectionBody := mkConnectionBody {
  cb_group_id : Z;
  cb_name : string;
  cb_description : string;
  cb_type : ConnectionType;
  cb_data : dict;
  cb_auth_data : dict;
}.
Definition connection_body (t : ConnectionType) (d : dict) : ConnectionBody :=
  mkConnectionBody (int_Z (dict_get "group_id" d)) (str_of (dict_get "name" d))
    (str_of (dict_get "description" d)) t (obj_of (dict_get "data" d))
    (obj_of (dict_get "auth_data" d)).

(** a value of [ReadConnectionSchema] *)
Record ReadConnection := mkReadConnection {
  rc_id : Z;
  rc_group_id : Z;
  rc_name : string;
  rc_description : string;
  rc_type : ConnectionType;
  rc_data : dict;
  rc_auth_data : option dict;
}.

Section Connections.
Context `{PydanticCore}.

(** the discriminated unions on [type] of [schemas/v1/connections/__init__.py] *)
Definition discriminate {A} (j : json) (k : ConnectionType -> dict -> result exc A) : result exc A :=
  match j with
  | JObj input =>
      match dict_get "type" input with
      | Some (JStr s) =>
          match connection_type_of_str s with Some t => k t input | None => invalid j end
      | _ => invalid j
      end
  | _ => invalid j
  end.

Definition parse_connection (fields : AuthSchema -> list Field) (j : json)
    : result exc ConnectionBody :=
  discriminate j (fun t input =>
    v ← validate (connection_model fields t) (JObj input);
    Ok (connection_body t (obj_of (Some v)))).

Definition CreateConnectionSchema := parse_connection create_auth_fields.
Definition UpdateConnectionSchema := parse_connection update_auth_fields.

(** [TypeAdapter(ReadConnectionSchema).validate_python({...})] *)
Definition read_connection_schema (c : Connection) (auth_data : json) : result exc ReadConnection :=
  let t := conn_type c in
  d ← model_validate validate (read_connection_fields t)
        (JObj [("id", JInt (conn_id c)); ("group_id", JInt (conn_group_id c));
               ("name", JStr (conn_name c)); ("description", JStr (conn_description c));
               ("type", JStr (connection_type_value t)); ("data", JObj (conn_data c));
               ("auth_data", auth_data)]);
  Ok (mkReadConnection (int_Z (dict_get "id" d)) (int_Z (dict_get "group_id" d))
        (str_of (dict_get "name" d)) (str_of (dict_get "description" d)) t
        (obj_of (dict_get "data" d))
        (match dict_get "auth_data" d with Some (JObj a) => Some a | _ => None end)).

(** [ReadAuthDataSchema(auth_data=creds).model_dump(mode="json")] *)
Definition read_auth_data (creds : json) : result exc dict :=
  model_validate validate ReadAuthDataSchema (JObj [("auth_data", creds)]).
End Connections.

(** the class of the validated credentials, from their [type] *)
Definition auth_schema_of (t : ConnectionType) (auth_data : dict) : option AuthSchema :=
  find (fun a => String.eqb (auth_type a) (str_of (dict_get "type" auth_data))) (auth_schemas t).

(** [connection_data.auth_data.get_secret_fields()] *)
Definition body_secret_fields (b : ConnectionBody) : list string :=
  match auth_schema_of (cb_type b) (cb_auth_data b) with
  | Some a => get_secret_fields a
  | None => []
  end.

(** ** Pages ([schemas/v1/page.py]) *)

Record MetaPage := mkMetaPage {
  meta_page : Z; meta_pages : Z; meta_total : Z; meta_page_size : Z;
  meta_has_next : bool; meta_has_previous : bool;
  meta_next_page : option Z; meta_previous_page : option Z;
}.
Record Page (A : Type) := mkPage { page_meta : MetaPage; page_items : list A }.
Arguments mkPage {A}.
Arguments page_meta {A} _.
Arguments page_items {A} _.

Definition meta_of {A} (p : Pagination A) : MetaPage :=
  mkMetaPage (pg_page p) (pg_pages p) (pg_total p) (pg_page_size p) (pg_has_next p)
    (pg_has_previous p) (pg_next_page p) (pg_previous_page p).
Definition from_pagination {A} (p : Pagination A) : Page A := mkPage (meta_of p) (pg_items p).
