(* ===== verification/Database.v ===== *)
(** * The database: tables, constraints, statements and transactions

    The schema declared in [src/syncmaster/db/models] (and created by
    [db/migrations]) as an executable model: the tables, the constraints a row
    is checked against ([String(n)] sizes, primary keys, unique constraints,
    foreign keys, each under the name the naming convention of
    [db/models/base.py] gives it), and the SQL statements the repositories send.
    A statement that violates a constraint raises [IntegrityError] with the name
    of the constraint and changes nothing; [DELETE] cascades along the foreign
    keys, all of which are declared [ondelete="CASCADE"].

    [Session] is one SQLAlchemy session: what is committed, what the open
    transaction sees, the id sequences (PostgreSQL sequences are not rolled
    back) and the clock.  [unit_of_work] is [UnitOfWork.__aexit__]. *)

From S2P Require Import Prelude PyData Models Errors.

(** ** State *)

Record DB := mkDB {
  users : gmap Z User;
  groups : gmap Z Group;
  user_groups : gmap (Z * Z) UserGroup;      (* key: (user_id, group_id) *)
  connections : gmap Z Connection;
  auth_data : gmap Z AuthData;
  queues : gmap Z Queue;
  transfers : gmap Z Transfer;
  runs : gmap Z Run;
}.

Definition empty_db : DB := mkDB ∅ ∅ ∅ ∅ ∅ ∅ ∅ ∅.

Inductive SeqName := SeqUser | SeqGroup | SeqConnection | SeqQueue | SeqTransfer | SeqRun.
#[export] Instance SeqName_eq_dec : EqDecision SeqName.
Proof. solve_decision. Defined.

Record Session := mkSession {
  committed : DB;
  working : DB;
  seqs : SeqName -> Z;       (* the next value of each id sequence *)
  clock : Z;
}.

Abbreviation M := (SE Session exc).

(** a session on a committed database, nothing pending *)
Definition session_on (db : DB) (sq : SeqName -> Z) (now : Z) : Session :=
  mkSession db db sq now.

(** ** Tables *)

(** the row a foreign key points to *)
Inductive Ref :=
| RUser (i : Z) | RGroup (i : Z) | RConnection (i : Z) | RQueue (i : Z) | RTransfer (i : Z).

Definition ref_exists (db : DB) (r : Ref) : Prop :=
  match r with
  | RUser i => is_Some (users db !! i)
  | RGroup i => is_Some (groups db !! i)
  | RConnection i => is_Some (connections db !! i)
  | RQueue i => is_Some (queues db !! i)
  | RTransfer i => is_Some (transfers db !! i)
  end.
#[export] Instance ref_exists_dec db r : Decision (ref_exists db r).
Proof. destruct r; apply _. Defined.

(** what the model class of a table declares *)
Class Table (K R : Type) `{Countable K} := {
  tbl : DB -> gmap K R;
  with_tbl : gmap K R -> DB -> DB;
  row_key : R -> K;
  row_sizes : R -> list (nat * string);            (* String(n) columns *)
  pk_name : string;
  row_uniques : list (string * (R -> string * Z)); (* unique constraints: name, key *)
  row_refs : R -> list (string * Ref);             (* foreign keys: name, target *)
  touch : Z -> R -> R;                             (* the [onupdate] of [updated_at] *)
}.

#[export] Instance UserTable : Table Z User := {
  tbl := users;
  with_tbl m db := mkDB m (groups db) (user_groups db) (connections db) (auth_data db)
                     (queues db) (transfers db) (runs db);
  row_key := user_id;
  row_sizes u := [(256%nat, username u); (256%nat, default "" (user_email u));
                  (256%nat, default "" (user_first_name u));
                  (256%nat, default "" (user_last_name u));
                  (256%nat, default "" (user_middle_name u))];
  pk_name := "pk__user";
  row_uniques := [("ix__user__username", fun u => (username u, 0))];
  row_refs u := [];
  touch now u := mkUser (user_id u) (username u) (user_email u) (user_first_name u)
                   (user_last_name u) (user_middle_name u) (is_superuser u) (is_active u)
                   (user_created_at u) now;
}.

#[export] Instance GroupTable : Table Z Group := {
  tbl := groups;
  with_tbl m db := mkDB (users db) m (user_groups db) (connections db) (auth_data db)
                     (queues db) (transfers db) (runs db);
  row_key := group_id;
  row_sizes g := [(128%nat, group_name g); (512%nat, group_description g)];
  pk_name := "pk__group";
  row_uniques := [("uq__group__name", fun g => (group_name g, 0))];
  row_refs g := [("fk__group__owner_id__user", RUser (group_owner_id g))];
  touch now g := mkGroup (group_id g) (group_name g) (group_description g)
                   (group_owner_id g) (group_created_at g) now;
}.

#[export] Instance UserGroupTable : Table (Z * Z) UserGroup := {
  tbl := user_groups;
  with_tbl m db := mkDB (users db) (groups db) m (connections db) (auth_data db)
                     (queues db) (transfers db) (runs db);
  row_key ug := (ug_user_id ug, ug_group_id ug);
  row_sizes ug := [];
  pk_name := "pk__user_group";
  row_uniques := [];
  row_refs ug := [("fk__user_group__group_id__group", RGroup (ug_group_id ug));
                  ("fk__user_group__user_id__user", RUser (ug_user_id ug))];
  touch now ug := ug;
}.

#[export] Instance ConnectionTable : Table Z Connection := {
  tbl := connections;
  with_tbl m db := mkDB (users db) (groups db) (user_groups db) m (auth_data db)
                     (queues db) (transfers db) (runs db);
  row_key := conn_id;
  row_sizes c := [(128%nat, conn_name c); (512%nat, conn_description c)];
  pk_name := "pk__connection";
  row_uniques := [("uq__connection__name_group_id", fun c => (conn_name c, conn_group_id c))];
  row_refs c := [("fk__connection__group_id__group", RGroup (conn_group_id c))];
  touch now c := mkConnection (conn_id c) (conn_name c) (conn_group_id c)
                   (conn_description c) (conn_type c) (conn_data c) (conn_created_at c) now;
}.

#[export] Instance AuthDataTable : Table Z AuthData := {
  tbl := auth_data;
  with_tbl m db := mkDB (users db) (groups db) (user_groups db) (connections db) m
                     (queues db) (transfers db) (runs db);
  row_key := auth_connection_id;
  row_sizes a := [];
  pk_name := "pk__auth_data";
  row_uniques := [];
  row_refs a := [("fk__auth_data__connection_id__connection", RConnection (auth_connection_id a))];
  touch now a := mkAuthData (auth_connection_id a) (auth_value a) (auth_created_at a) now;
}.

#[export] Instance QueueTable : Table Z Queue := {
  tbl := queues;
  with_tbl m db := mkDB (users db) (groups db) (user_groups db) (connections db) (auth_data db)
                     m (transfers db) (runs db);
  row_key := queue_id;
  row_sizes q := [(128%nat, queue_name q); (512%nat, queue_description q); (256%nat, queue_slug q)];
  pk_name := "pk__queue";
  row_uniques := [("uq__queue__slug", fun q => (queue_slug q, 0))];
  row_refs q := [("fk__queue__group_id__group", RGroup (queue_group_id q))];
  touch now q := mkQueue (queue_id q) (queue_name q) (queue_group_id q) (queue_description q)
                   (queue_slug q) (queue_created_at q) now;
}.

#[export] Instance TransferTable : Table Z Transfer := {
  tbl := transfers;
  with_tbl m db := mkDB (users db) (groups db) (user_groups db) (connections db) (auth_data db)
                     (queues db) m (runs db);
  row_key := transfer_id;
  row_sizes t := [(128%nat, transfer_name t); (512%nat, transfer_description t);
                  (32%nat, schedule t)];
  pk_name := "pk__transfer";
  row_uniques := [("uq__transfer__name_group_id",
                   fun t => (transfer_name t, transfer_group_id t))];
  row_refs t := [("fk__transfer__group_id__group", RGroup (transfer_group_id t));
                 ("fk__transfer__queue_id__queue", RQueue (transfer_queue_id t));
                 ("fk__transfer__source_connection_id__connection",
                  RConnection (source_connection_id t));
                 ("fk__transfer__target_connection_id__connection",
                  RConnection (target_connection_id t))];
  touch now t := mkTransfer (transfer_id t) (transfer_name t) (transfer_group_id t)
                   (transfer_description t) (source_connection_id t) (target_connection_id t)
                   (strategy_params t) (source_params t) (target_params t) (transformations t)
                   (resources t) (is_scheduled t) (schedule t) (transfer_queue_id t)
                   (transfer_created_at t) now;
}.

#[export] Instance RunTable : Table Z Run := {
  tbl := runs;
  with_tbl m db := mkDB (users db) (groups db) (user_groups db) (connections db) (auth_data db)
                     (queues db) (transfers db) m;
  row_key := run_id;
  row_sizes r := [(512%nat, default "" (run_log_url r))];
  pk_name := "pk__run";
  row_uniques := [];
  row_refs r := [("fk__run__transfer_id__transfer", RTransfer (run_transfer_id r))];
  touch now r := mkRun (run_id r) (run_transfer_id r) (run_started_at r) (run_ended_at r)
                   (run_status r) (run_type r) (run_log_url r) (run_transfer_dump r)
                   (run_created_at r) now;
}.

(** ** Constraint checks *)

Section Checks.
Context {K R : Type} `{Table K R}.

Definition sizes_ok (r : R) : bool :=
  forallb (fun c => (String.length c.2 <=? c.1)%nat) (row_sizes r).

(** some other row has the same unique key *)
Definition unique_taken (db : DB) (f : R -> string * Z) (r : R) : Prop :=
  map_Exists (fun k' r' => k' <> row_key r /\ f r' = f r) (tbl db).
#[export] Instance unique_taken_dec db f r : Decision (unique_taken db f r).
Proof. unfold unique_taken. apply _. Defined.

Definition unique_violation (db : DB) (r : R) : option string :=
  fst <$> find (fun u => bool_decide (unique_taken db u.2 r)) row_uniques.

Definition fk_violation (db : DB) (r : R) : option string :=
  fst <$> find (fun x => bool_decide (~ ref_exists db x.2)) (row_refs r).

(** the checks PostgreSQL makes of a new or changed row *)
Definition check_row (db : DB) (r : R) : result exc unit :=
  if negb (sizes_ok r) then Raise DataError
  else match unique_violation db r with
       | Some name => Raise (IntegrityError name)
       | None =>
           match fk_violation db r with
           | Some name => Raise (IntegrityError name)
           | None => Ok tt
           end
       end.
End Checks.

(** ** Cascading deletes *)

Section Prune.
Context {K R : Type} `{Table K R}.

Definition refs_ok (db : DB) (r : R) : Prop := Forall (fun x => ref_exists db x.2) (row_refs r).
#[export] Instance refs_ok_dec db r : Decision (refs_ok db r).
Proof. unfold refs_ok. apply _. Defined.

(** drop the rows of a table that point to a row that is gone *)
Definition prune_table (db : DB) : DB :=
  with_tbl (filter (fun kr => refs_ok db kr.2) (tbl db)) db.
End Prune.

(** [ON DELETE CASCADE] along every foreign key, tables in dependency order *)
Definition cascade (db : DB) : DB :=
  let db := prune_table (R := Group) db in
  let db := prune_table (R := UserGroup) db in
  let db := prune_table (R := Connection) db in
  let db := prune_table (R := Queue) db in
  let db := prune_table (R := AuthData) db in
  let db := prune_table (R := Transfer) db in
  prune_table (R := Run) db.

(** ** Statements *)

Definition set_working (db : DB) (s : Session) : Session :=
  mkSession (committed s) db (seqs s) (clock s).

Definition nextval (q : SeqName) : M Z := fun s =>
  (Ok (seqs s q),
   mkSession (committed s) (working s)
     (fun q' => if decide (q' = q) then seqs s q + 1 else seqs s q') (clock s)).

Definition now : M Z := gets clock.

Section Statements.
Context {K R : Type} `{Table K R}.

(** [SELECT ... WHERE pk = k], also [session.get(Model, k)] *)
Definition select_by_key (k : K) : M (option R) := gets (fun s => tbl (working s) !! k).

(** the rows a [SELECT ... WHERE p] returns, before any [ORDER BY] *)
Definition select_where (p : R -> bool) (db : DB) : list R :=
  filter (fun r => p r = true) (snd <$> map_to_list (tbl db)).

(** [INSERT INTO ... VALUES (r) RETURNING] *)
Definition insert_row (r : R) : M R := fun s =>
  let db := working s in
  if negb (sizes_ok r) then (Raise DataError, s)
  else match tbl db !! row_key r with
       | Some _ => (Raise (IntegrityError pk_name), s)
       | None =>
           match check_row db r with
           | Raise e => (Raise e, s)
           | Ok _ => (Ok r, set_working (with_tbl (<[row_key r := r]> (tbl db)) db) s)
           end
       end.

(** [INSERT] into a table whose id defaults to the next value of a sequence *)
Definition insert_new (q : SeqName) (mk : Z -> R) : M R :=
  i ← nextval q;
  insert_row (mk i).

(** [UPDATE ... SET f WHERE pk = k RETURNING]; [None] when no row matches.
    [f] never changes the key columns. *)
Definition update_row (k : K) (f : R -> R) : M (option R) := fun s =>
  let db := working s in
  match tbl db !! k with
  | None => (Ok None, s)
  | Some r =>
      let r' := touch (clock s) (f r) in
      match check_row db r' with
      | Raise e => (Raise e, s)
      | Ok _ => (Ok (Some r'), set_working (with_tbl (<[k := r']> (tbl db)) db) s)
      end
  end.

(** [DELETE ... WHERE pk = k RETURNING] *)
Definition delete_row (k : K) : M (option R) := fun s =>
  let db := working s in
  match tbl db !! k with
  | None => (Ok None, s)
  | Some r => (Ok (Some r), set_working (cascade (with_tbl (delete k (tbl db)) db)) s)
  end.
End Statements.

(** ** Transactions ([UnitOfWork.__aexit__]) *)

Definition rollback (s : Session) : Session :=
  mkSession (committed s) (committed s) (seqs s) (clock s).
Definition commit (s : Session) : Session :=
  mkSession (working s) (working s) (seqs s) (clock s).

(** [async with unit_of_work: m] *)
Definition unit_of_work {A} (m : M A) : M A := fun s =>
  match m s with
  | (Ok a, s') => (Ok a, commit s')
  | (Raise e, s') => (Raise e, rollback s')
  end.
