(* ===== verification/Integrity.v ===== *)
(** * Referential integrity and transactions

    [db_wf] is what the declared constraints promise of a stored database:
    every row is stored under its key, unique constraints hold and every foreign
    key points to a row.  Each statement of Database.v keeps it, a deletion by
    cascading, and so does a unit of work; the statements are also the only way
    a session changes, which gives [no_commit] (a body cannot commit by itself)
    and hence the atomicity of [unit_of_work]. *)

From S2P Require Import Prelude PyData Models Errors Database.

(** ** Well-formed tables *)

Section TableWf.
Context {K R : Type} `{Table K R}.

Definition table_keys (db : DB) : Prop :=
  map_Forall (fun k r => row_key r = k) (tbl db).

Definition table_uniq (db : DB) : Prop :=
  forall k k' r r' u,
    tbl db !! k = Some r -> tbl db !! k' = Some r' -> u ∈ row_uniques ->
    u.2 r = u.2 r' -> k = k'.

Definition table_refs (db : DB) : Prop :=
  map_Forall (fun _ r => refs_ok db r) (tbl db).

Definition table_wf (db : DB) : Prop := table_keys db /\ table_uniq db /\ table_refs db.
End TableWf.

Definition db_wf (db : DB) : Prop :=
  table_wf (R := User) db /\ table_wf (R := Group) db /\ table_wf (R := UserGroup) db /\
  table_wf (R := Connection) db /\ table_wf (R := AuthData) db /\ table_wf (R := Queue) db /\
  table_wf (R := Transfer) db /\ table_wf (R := Run) db.

(** every row of [db] is still in [db'], for the tables foreign keys point to *)
Definition refs_mono (db db' : DB) : Prop := forall x, ref_exists db x -> ref_exists db' x.

Lemma refs_ok_mono {K R} `{Table K R} db db' (r : R) :
  refs_mono db db' -> refs_ok db r -> refs_ok db' r.
Proof. intros Hm Hr. eapply Forall_impl; [exact Hr|]. intros x. apply Hm. Qed.

Lemma table_wf_frame {K R} `{Table K R} db db' :
  tbl (R := R) db' = tbl db -> refs_mono db db' ->
  table_wf (R := R) db -> table_wf (R := R) db'.
Proof.
  intros Ht Hm (Hk & Hu & Hr). unfold table_wf, table_keys, table_uniq, table_refs.
  rewrite Ht. split_and!; [done|done|].
  intros k r Hkr. eapply refs_ok_mono; [done|]. by eapply Hr.
Qed.

(** ** What the checks establish *)

Section CheckFacts.
Context {K R : Type} `{Table K R}.

Lemma find_None {A} (p : A -> bool) l x : find p l = None -> x ∈ l -> p x = false.
Proof.
  induction l as [|y l IH]; cbn; [set_solver|].
  destruct (p y) eqn:Hy; [done|]. intros Hl [->|Hx]%elem_of_cons; [done|by apply IH].
Qed.

Lemma check_row_ok db (r : R) :
  check_row db r = Ok tt <->
  sizes_ok r = true /\
  (forall u, u ∈ row_uniques -> ~ unique_taken db u.2 r) /\
  refs_ok db r.
Proof.
  unfold check_row, unique_violation, fk_violation. split.
  - destruct (sizes_ok r); cbn; [|done].
    destruct (find _ row_uniques) eqn:Hu; cbn; [done|].
    destruct (find _ (row_refs r)) eqn:Hf; cbn; [done|]. intros _.
    split_and!; [done| |].
    + intros u Hin. apply (find_None _ _ _ Hu) in Hin.
      by apply bool_decide_eq_false in Hin.
    + apply Forall_forall. intros x Hin. apply (find_None _ _ _ Hf) in Hin.
      apply bool_decide_eq_false in Hin. by apply dec_stable.
  - intros (-> & Hu & Hr). cbn.
    destruct (find _ row_uniques) as [u|] eqn:Hfu; cbn.
    { apply find_some in Hfu as [Hin Hb]. apply bool_decide_eq_true in Hb.
      by destruct (Hu u); [apply list_elem_of_In|]. }
    destruct (find _ (row_refs r)) as [x|] eqn:Hfx; cbn; [|done].
    apply find_some in Hfx as [Hin Hb]. apply bool_decide_eq_true in Hb.
    unfold refs_ok in Hr. rewrite Forall_forall in Hr. destruct Hb.
    by apply Hr, list_elem_of_In.
Qed.

Lemma not_unique_taken db f (r : R) :
  ~ unique_taken db f r <->
  forall k' r', tbl db !! k' = Some r' -> f r' = f r -> k' = row_key r.
Proof.
  unfold unique_taken, map_Exists. split.
  - intros Hn k' r' Hk Hf. destruct (decide (k' = row_key r)); [done|].
    destruct Hn. eauto.
  - intros Ha (k' & r' & Hk & Hne & Hf). by destruct Hne; eapply Ha.
Qed.
End CheckFacts.

(** ** The frame of a table: what the other tables see of [with_tbl] *)

Class TableLaws (K R : Type) `{Table K R} := {
  tbl_with : forall m db, tbl (with_tbl m db) = m;
  touch_key : forall t (r : R), row_key (touch t r) = row_key r;
  touch_sizes : forall t (r : R), row_sizes (touch t r) = row_sizes r;
  touch_uniq : forall t (r : R) u, u ∈ row_uniques -> u.2 (touch t r) = u.2 r;
  touch_refs : forall t (r : R), row_refs (touch t r) = row_refs r;
  (* inserting or replacing a row dangles nothing *)
  with_tbl_mono : forall k (r : R) db, refs_mono db (with_tbl (<[k := r]> (tbl db)) db);
  (* and no other table moves *)
  with_tbl_frame : forall m db db',
    db' = with_tbl m db -> refs_mono db db' ->
    table_wf (R := R) db' -> db_wf db -> db_wf db';
}.

Ltac solve_mono :=
  let x := fresh in
  intros ? ? ? x; destruct x; cbn; try done; intros [??];
  rewrite lookup_insert; by case_decide.

Ltac solve_frame :=
  intros ? ? ? -> ? ? (?&?&?&?&?&?&?&?); split_and!;
  solve [ assumption
        | eapply table_wf_frame; [| eassumption | eassumption]; reflexivity ].

Ltac solve_laws :=
  constructor;
  [ done | done | done | by intros ? ? ? ?; set_solver | done | solve_mono | solve_frame ].

#[export] Instance UserLaws : TableLaws Z User. Proof. solve_laws. Qed.
#[export] Instance GroupLaws : TableLaws Z Group. Proof. solve_laws. Qed.
#[export] Instance UserGroupLaws : TableLaws (Z * Z) UserGroup. Proof. solve_laws. Qed.
#[export] Instance ConnectionLaws : TableLaws Z Connection. Proof. solve_laws. Qed.
#[export] Instance AuthDataLaws : TableLaws Z AuthData. Proof. solve_laws. Qed.
#[export] Instance QueueLaws : TableLaws Z Queue. Proof. solve_laws. Qed.
#[export] Instance TransferLaws : TableLaws Z Transfer. Proof. solve_laws. Qed.
#[export] Instance RunLaws : TableLaws Z Run. Proof. solve_laws. Qed.

(** ** Deletion *)

Section Subtable.
Context {K R : Type} `{Table K R}.

Lemma table_keys_sub db db' :
  tbl (R := R) db' ⊆ tbl db -> table_keys (R := R) db -> table_keys (R := R) db'.
Proof. intros Hs Hk k r Hr. by eapply Hk, lookup_weaken. Qed.

Lemma table_uniq_sub db db' :
  tbl (R := R) db' ⊆ tbl db -> table_uniq (R := R) db -> table_uniq (R := R) db'.
Proof.
  intros Hs Hu k k' r r' u Hr Hr' Hin Heq.
  eapply Hu; [by eapply lookup_weaken..|done|done].
Qed.
End Subtable.

(** [db'] has no row that [db] has not *)
Definition db_sub (db' db : DB) : Prop :=
  users db' ⊆ users db /\ groups db' ⊆ groups db /\ user_groups db' ⊆ user_groups db /\
  connections db' ⊆ connections db /\ auth_data db' ⊆ auth_data db /\
  queues db' ⊆ queues db /\ transfers db' ⊆ transfers db /\ runs db' ⊆ runs db.

Lemma db_sub_trans db1 db2 db3 : db_sub db1 db2 -> db_sub db2 db3 -> db_sub db1 db3.
Proof. unfold db_sub. intros ? ?. destruct_and!. split_and!; by etrans. Qed.
Lemma cascade_sub db : db_sub (cascade db) db.
Proof. unfold db_sub, cascade. cbn. split_and!; solve [ done | apply map_filter_subseteq ]. Qed.

Ltac unfold_refs := unfold refs_ok in *; cbn [row_refs UserTable GroupTable UserGroupTable
  ConnectionTable AuthDataTable QueueTable TransferTable RunTable] in *; rewrite ?Forall_cons in *.

(** a cascaded database has no dangling reference left *)
Lemma cascade_refs db :
  table_refs (R := User) (cascade db) /\ table_refs (R := Group) (cascade db) /\
  table_refs (R := UserGroup) (cascade db) /\ table_refs (R := Connection) (cascade db) /\
  table_refs (R := AuthData) (cascade db) /\ table_refs (R := Queue) (cascade db) /\
  table_refs (R := Transfer) (cascade db) /\ table_refs (R := Run) (cascade db).
Proof.
  unfold table_refs. split_and!; intros k r;
    [ intros _; by unfold_refs
    | intros [_ Hr]%map_lookup_filter_Some; unfold_refs; cbn in *; naive_solver .. ].
Qed.

(** removing rows from tables that were well-formed, then cascading *)
Lemma cascade_wf db db0 : db_wf db0 -> db_sub db db0 -> db_wf (cascade db).
Proof.
  intros (Hu&Hg&Hug&Hc&Ha&Hq&Ht&Hr) Hs.
  destruct (cascade_refs db) as (Fu&Fg&Fug&Fc&Fa&Fq&Ft&Fr).
  pose proof (cascade_sub db) as Hs'. unfold db_sub in *. destruct_and!.
  split_and!;
    lazymatch goal with
    | |- table_wf (R := ?R) _ =>
        match goal with
        | W : table_wf (R := R) db0 |- _ => destruct W as (?&?&_)
        end;
        split_and!;
        [ eapply table_keys_sub; [|eassumption]; cbn; by etrans
        | eapply table_uniq_sub; [|eassumption]; cbn; by etrans
        | assumption ]
    end.
Qed.

(** ** Statements keep a database well-formed *)

Section StatementWf.
Context {K R : Type} `{TableLaws K R}.

(** a checked row may be stored under its key *)
Lemma put_wf db k (r : R) :
  db_wf db -> table_wf (R := R) db -> row_key r = k -> check_row db r = Ok tt ->
  db_wf (with_tbl (<[k := r]> (tbl db)) db).
Proof.
  intros Hdb (Hk & Hu & Hr) Hkey (_ & Hc & Hrefs)%check_row_ok.
  assert (refs_mono db (with_tbl (<[k := r]> (tbl db)) db)) as Hm by apply with_tbl_mono.
  eapply with_tbl_frame; [done|done| |done]. split_and!.
  - intros k' r'. rewrite tbl_with, lookup_insert. case_decide as Hd.
    + intros [= <-]. congruence.
    + by apply Hk.
  - intros k1 k2 r1 r2 u. rewrite !tbl_with, !lookup_insert.
    intros Hr1 Hr2 Hin Heq. specialize (Hc u Hin). rewrite not_unique_taken in Hc.
    case_decide as Hd1; case_decide as Hd2; simplify_eq;
      [ done | first [ by eapply Hc | symmetry; by eapply Hc ] .. | by eapply Hu ].
  - intros k' r'. rewrite tbl_with, lookup_insert. case_decide as Hd.
    + intros [= <-]. by eapply refs_ok_mono.
    + intros Hk'. eapply refs_ok_mono; [done|]. by eapply Hr.
Qed.
End StatementWf.

(** [db_wf] has the well-formedness of each table *)
Class WfTable (K R : Type) `{Table K R} := db_wf_table : forall db, db_wf db -> table_wf (R := R) db.
#[export] Instance WfUser : WfTable Z User. Proof. by intros ? (?&?&?&?&?&?&?&?). Qed.
#[export] Instance WfGroup : WfTable Z Group. Proof. by intros ? (?&?&?&?&?&?&?&?). Qed.
#[export] Instance WfUserGroup : WfTable (Z * Z) UserGroup. Proof. by intros ? (?&?&?&?&?&?&?&?). Qed.
#[export] Instance WfConnection : WfTable Z Connection. Proof. by intros ? (?&?&?&?&?&?&?&?). Qed.
#[export] Instance WfAuthData : WfTable Z AuthData. Proof. by intros ? (?&?&?&?&?&?&?&?). Qed.
#[export] Instance WfQueue : WfTable Z Queue. Proof. by intros ? (?&?&?&?&?&?&?&?). Qed.
#[export] Instance WfTransfer : WfTable Z Transfer. Proof. by intros ? (?&?&?&?&?&?&?&?). Qed.
#[export] Instance WfRun : WfTable Z Run. Proof. by intros ? (?&?&?&?&?&?&?&?). Qed.

(** the invariant of a session *)
Definition session_wf (s : Session) : Prop := db_wf (committed s) /\ db_wf (working s).

(** deleting a row removes rows only *)
Class DeleteLaws (K R : Type) `{Table K R} := delete_sub :
  forall k db, db_sub (with_tbl (delete k (tbl db)) db) db.
Ltac solve_delete := intros ? ?; unfold db_sub; cbn; split_and!;
  solve [ done | apply delete_subseteq ].
#[export] Instance UserDelete : DeleteLaws Z User. Proof. solve_delete. Qed.
#[export] Instance GroupDelete : DeleteLaws Z Group. Proof. solve_delete. Qed.
#[export] Instance UserGroupDelete : DeleteLaws (Z * Z) UserGroup. Proof. solve_delete. Qed.
#[export] Instance ConnectionDelete : DeleteLaws Z Connection. Proof. solve_delete. Qed.
#[export] Instance AuthDataDelete : DeleteLaws Z AuthData. Proof. solve_delete. Qed.
#[export] Instance QueueDelete : DeleteLaws Z Queue. Proof. solve_delete. Qed.
#[export] Instance TransferDelete : DeleteLaws Z Transfer. Proof. solve_delete. Qed.
#[export] Instance RunDelete : DeleteLaws Z Run. Proof. solve_delete. Qed.

Section StatementPreserve.
Context {K R : Type} `{TableLaws K R, !WfTable K R, !DeleteLaws K R}.

Lemma insert_row_wf (r : R) : preserves session_wf (insert_row r).
Proof.
  intros s [Hc Hw]. unfold final, insert_row.
  destruct (sizes_ok r); cbn; [|done].
  destruct (tbl (working s) !! row_key r) eqn:Hk; [done|].
  destruct (check_row (working s) r) as [[]|e] eqn:Hchk; [|done].
  split; [done|]. cbn. apply put_wf; [done|by apply db_wf_table|done|done].
Qed.

Lemma nextval_wf q : preserves session_wf (nextval q).
Proof. by intros s []. Qed.

Lemma insert_new_wf q (mk : Z -> R) : preserves session_wf (insert_new q mk).
Proof. apply preserves_bind; [apply nextval_wf|]. intros i. apply insert_row_wf. Qed.

Lemma update_row_wf k (f : R -> R) :
  (forall r, row_key r = k -> row_key (f r) = k) -> preserves session_wf (update_row k f).
Proof.
  intros Hf s [Hc Hw]. unfold final, update_row.
  destruct (tbl (working s) !! k) as [r|] eqn:Hk; [|done].
  destruct (check_row (working s) _) as [[]|e] eqn:Hchk; [|done].
  split; [done|]. cbn. pose proof (db_wf_table _ Hw) as Ht.
  apply put_wf; [done|done| |done]. rewrite touch_key. apply Hf. by apply Ht.
Qed.

Lemma delete_row_wf (k : K) : preserves session_wf (delete_row (R := R) k).
Proof.
  intros s [Hc Hw]. unfold final, delete_row.
  destruct (tbl (working s) !! k) as [r|] eqn:Hk; [|done].
  split; [done|]. cbn. eapply cascade_wf; [exact Hw|]. apply delete_sub.
Qed.

Lemma select_by_key_read_only (k : K) : read_only (select_by_key (R := R) k).
Proof. done. Qed.
End StatementPreserve.

(** ** Predicates that statements keep

    [KeepsTable P R]: every statement on the table of [R] keeps [P];
    [KeepsSession P]: so do sequences, commits and rollbacks.  The facts of the
    repositories and the endpoints are proved once, for every such [P]. *)

Class KeepsTable (P : Session -> Prop) (R : Type) {K : Type} `{Table K R} := {
  keeps_insert : forall r : R, preserves P (insert_row r);
  keeps_update : forall (k : K) (f : R -> R),
    (forall r, row_key r = k -> row_key (f r) = k) -> preserves P (update_row k f);
  keeps_delete : forall k : K, preserves P (delete_row (R := R) k);
}.

Class KeepsSession (P : Session -> Prop) := {
  keeps_nextval : forall q, preserves P (nextval q);
  keeps_commit : forall s, P s -> P (commit s);
  keeps_rollback : forall s, P s -> P (rollback s);
}.

#[export] Instance session_wf_table {K R} `{TableLaws K R, !WfTable K R, !DeleteLaws K R} :
  KeepsTable session_wf R.
Proof.
  constructor; [apply insert_row_wf|apply update_row_wf|apply delete_row_wf].
Qed.

#[export] Instance session_wf_session : KeepsSession session_wf.
Proof. constructor; [apply nextval_wf|by intros s []|by intros s []]. Qed.

Section Keeps.
Context (P : Session -> Prop) `{KeepsSession P}.

Lemma keeps_insert_new {K R} `{KeepsTable P R (K := K)} q (mk : Z -> R) :
  preserves P (insert_new q mk).
Proof. apply preserves_bind; [apply keeps_nextval|]. intros i. apply keeps_insert. Qed.

Lemma keeps_unit_of_work {A} (m : M A) : preserves P m -> preserves P (unit_of_work m).
Proof.
  intros Hm s Hs. specialize (Hm s Hs). unfold final, unit_of_work in *.
  destruct (m s) as [[a|e] s']; [by apply keeps_commit|by apply keeps_rollback].
Qed.
End Keeps.

#[export] Hint Resolve select_by_key_read_only keeps_unit_of_work : se.
#[export] Hint Extern 1 (KeepsTable _ _) => typeclasses eauto : se.
#[export] Hint Extern 1 (KeepsSession _) => typeclasses eauto : se.

(** ** Atomicity *)

(** [m] does not touch what is committed *)
Definition no_commit {A} (m : M A) : Prop := forall s, committed (final m s) = committed s.

(** a run of [m] that raises leaves what is committed as it was *)
Definition atomic {A} (m : M A) : Prop :=
  forall s e s', m s = (Raise e, s') -> committed s' = committed s.

Section NoCommit.
Context {A B : Type}.

Lemma no_commit_ret (a : A) : no_commit (mret a). Proof. done. Qed.
Lemma no_commit_raise e : no_commit (raise (A := A) e). Proof. done. Qed.
Lemma no_commit_read_only (m : M A) : read_only m -> no_commit m.
Proof. intros Hm s. by rewrite Hm. Qed.
Lemma no_commit_bind (m : M A) (f : A -> M B) :
  no_commit m -> (forall a, no_commit (f a)) -> no_commit (m ≫= f).
Proof.
  intros Hm Hf s. specialize (Hm s). unfold final in *. rewrite bind_run.
  destruct (m s) as [[a|e] s']; cbn in *; [|done]. by rewrite <- Hm, <- (Hf a s').
Qed.
Lemma no_commit_if (b : bool) (m1 m2 : M A) :
  no_commit m1 -> no_commit m2 -> no_commit (if b then m1 else m2).
Proof. by destruct b. Qed.
Lemma no_commit_catch (m : M A) h :
  no_commit m -> (forall e k, h e = Some k -> no_commit k) -> no_commit (catch m h).
Proof.
  intros Hm Hh s. specialize (Hm s). unfold final, catch in *.
  destruct (m s) as [[a|e] s']; [done|].
  destruct (h e) eqn:He; cbn in *; [|done]. by rewrite <- Hm, <- (Hh _ _ He s').
Qed.

Lemma no_commit_atomic (m : M A) : no_commit m -> atomic m.
Proof. intros Hm s e s' Hr. specialize (Hm s). unfold final in Hm. by rewrite Hr in Hm. Qed.

(** [async with unit_of_work] commits the whole body or nothing of it *)
Lemma unit_of_work_atomic (m : M A) : no_commit m -> atomic (unit_of_work m).
Proof.
  intros Hm s e s'. specialize (Hm s). unfold unit_of_work, final in *.
  destruct (m s) as [[a|e'] s1]; [done|]. by intros [= <- <-].
Qed.

Lemma atomic_bind (m : M A) (f : A -> M B) :
  no_commit m -> (forall a, atomic (f a)) -> atomic (m ≫= f).
Proof.
  intros Hm Hf s e s'. specialize (Hm s). unfold final in Hm. rewrite bind_run.
  destruct (m s) as [[a|e'] s1]; cbn in *.
  - intros Hr. rewrite <- Hm. by eapply Hf.
  - intros [= <- <-]. done.
Qed.

(** nothing that can raise may follow a commit *)
Lemma atomic_then (m : M A) (f : A -> B) : atomic m -> atomic (a ← m; mret (f a)).
Proof.
  intros Hm s e s'. rewrite bind_run. destruct (m s) as [[a|e'] s1] eqn:Hr; [done|].
  intros [= -> ->]. by eapply Hm.
Qed.
Lemma atomic_if (b : bool) (m1 m2 : M A) :
  atomic m1 -> atomic m2 -> atomic (if b then m1 else m2).
Proof. by destruct b. Qed.
End NoCommit.

Section NoCommitStatements.
Context {K R : Type} `{Table K R}.
Lemma no_commit_insert (r : R) : no_commit (insert_row r).
Proof. intros s. unfold final, insert_row. by repeat case_match. Qed.
Lemma no_commit_nextval q : no_commit (nextval q). Proof. done. Qed.
Lemma no_commit_insert_new q (mk : Z -> R) : no_commit (insert_new q mk).
Proof. apply no_commit_bind; [done|]. intros i. apply no_commit_insert. Qed.
Lemma no_commit_update (k : K) (f : R -> R) : no_commit (update_row k f).
Proof. intros s. unfold final, update_row. by repeat case_match. Qed.
Lemma no_commit_delete (k : K) : no_commit (delete_row (R := R) k).
Proof. intros s. unfold final, delete_row. by repeat case_match. Qed.
End NoCommitStatements.

#[export] Hint Resolve no_commit_ret no_commit_raise no_commit_bind no_commit_if
  no_commit_insert no_commit_nextval no_commit_insert_new no_commit_update no_commit_delete
  unit_of_work_atomic atomic_then : se.
#[export] Hint Resolve no_commit_read_only | 5 : se.
