(* ===== verification/Deletion.v ===== *)
(** * What a deletion removes

    The tables after [cascade], for the deletions the endpoints make: a row
    nothing refers to, a connection no transfer uses, a queue no transfer uses, a
    transfer.  A row survives exactly when the rows it refers to do. *)

From S2P Require Import Prelude PyData Models Errors Database Integrity.

(** a database is its tables *)
Class TableEta (R : Type) {K} `{Table K R} :=
  with_tbl_id : forall db, with_tbl (tbl (R := R) db) db = db.
#[export] Instance GroupEta : TableEta Group. Proof. by intros []. Qed.
#[export] Instance UserGroupEta : TableEta UserGroup. Proof. by intros []. Qed.
#[export] Instance ConnectionEta : TableEta Connection. Proof. by intros []. Qed.
#[export] Instance AuthDataEta : TableEta AuthData. Proof. by intros []. Qed.
#[export] Instance QueueEta : TableEta Queue. Proof. by intros []. Qed.
#[export] Instance TransferEta : TableEta Transfer. Proof. by intros []. Qed.
#[export] Instance RunEta : TableEta Run. Proof. by intros []. Qed.

Lemma prune_id {K R} `{TableEta R (K := K)} db :
  (forall k r, tbl (R := R) db !! k = Some r -> refs_ok db r) -> prune_table (R := R) db = db.
Proof.
  intros Hr. unfold prune_table. rewrite map_filter_id; [apply with_tbl_id|].
  intros k r Hk. by eapply Hr.
Qed.

Lemma wf_refs {K R} `{WfTable K R} db k (r : R) : db_wf db -> tbl db !! k = Some r -> refs_ok db r.
Proof. intros Hwf Hk. destruct (db_wf_table (R := R) _ Hwf) as (_ & _ & Hr). by apply (Hr _ _ Hk). Qed.
Lemma wf_key {K R} `{WfTable K R} db k (r : R) : db_wf db -> tbl db !! k = Some r -> row_key r = k.
Proof. intros Hwf Hk. destruct (db_wf_table (R := R) _ Hwf) as (Ht & _). by apply (Ht _ _ Hk). Qed.

(** the foreign keys of a row, one conjunct each *)
Ltac open_refs := unfold refs_ok in *; cbn in *; rewrite ?Forall_cons, ?Forall_nil in *; cbn in *;
  destruct_and?; split_and?; try done.
(** a table none of whose rows loses what it refers to *)
Ltac kept W T := rewrite (prune_id (R := T));
  [ | let k := fresh "k" in let r := fresh "r" in let Hk := fresh "Hk" in intros k r Hk;
      cbn in Hk; pose proof (wf_refs (R := T) _ _ _ W Hk); open_refs ].

(** the table a row was deleted from *)
Ltac fewer W T := rewrite (prune_id (R := T));
  [ | let k := fresh "k" in let r := fresh "r" in let Hk := fresh "Hk" in intros k r Hk;
      cbn in Hk; apply lookup_delete_Some in Hk as [_ Hk];
      pose proof (wf_refs (R := T) _ _ _ W Hk); open_refs ].

Lemma cascade_wf_id db : db_wf db -> cascade db = db.
Proof. intros Hwf. unfold cascade. cbv zeta.
  kept Hwf Group. kept Hwf UserGroup. kept Hwf Connection. kept Hwf Queue. kept Hwf AuthData. kept Hwf Transfer. kept Hwf Run. done. Qed.

(** ** Deletions *)

Section Delete.
Variable db : DB.
Hypothesis Hwf : db_wf db.

(** nothing refers to a membership *)
Lemma cascade_user_group k :
  cascade (with_tbl (delete k (user_groups db)) db) = with_tbl (delete k (user_groups db)) db.
Proof.
  unfold cascade. cbv zeta. kept Hwf Group.
  fewer Hwf UserGroup.
  kept Hwf Connection. kept Hwf Queue. kept Hwf AuthData. kept Hwf Transfer. kept Hwf Run. done.
Qed.

Definition uses_connection (i : Z) (t : Transfer) : Prop :=
  source_connection_id t = i \/ target_connection_id t = i.

(** a connection no transfer uses takes its credentials with it *)
Lemma cascade_connection i :
  (forall k t, transfers db !! k = Some t -> ~ uses_connection i t) ->
  cascade (with_tbl (R := Connection) (delete i (connections db)) db) =
  mkDB (users db) (groups db) (user_groups db) (delete i (connections db)) (delete i (auth_data db))
    (queues db) (transfers db) (runs db).
Proof.
  intros Hun. unfold cascade. cbv zeta. kept Hwf Group. kept Hwf UserGroup.
  fewer Hwf Connection.
  kept Hwf Queue.
  replace (prune_table (R := AuthData) _) with
    (with_tbl (R := AuthData) (delete i (auth_data db)) (with_tbl (R := Connection) (delete i (connections db)) db)).
  2: { unfold prune_table. f_equal. apply map_eq. intros k. apply option_eq. intros r.
    rewrite map_lookup_filter_Some, lookup_delete_Some. cbn.
    split; [intros [Hne Hk]|intros [Hk Hr]]; split; try done.
    - pose proof (wf_refs (R := AuthData) _ _ _ Hwf Hk). pose proof (wf_key (R := AuthData) _ _ _ Hwf Hk).
      open_refs. by rewrite lookup_delete_ne by congruence.
    - intros ->. pose proof (wf_key (R := AuthData) _ _ _ Hwf Hk) as Hkey. open_refs.
      cbn in Hkey. subst. rewrite lookup_delete_eq in *. by match goal with Hs : is_Some None |- _ => destruct Hs end. }
  rewrite (prune_id (R := Transfer)).
  2: { intros k r Hk. pose proof (Hun _ _ Hk) as Hu. pose proof (wf_refs (R := Transfer) _ _ _ Hwf Hk).
    unfold uses_connection in Hu. open_refs; rewrite lookup_delete_ne; naive_solver. }
  kept Hwf Run. done.
Qed.

(** a queue no transfer uses goes alone *)
Lemma cascade_queue i : (forall k t, transfers db !! k = Some t -> transfer_queue_id t <> i) ->
  cascade (with_tbl (R := Queue) (delete i (queues db)) db) =
  with_tbl (R := Queue) (delete i (queues db)) db.
Proof.
  intros Hun. unfold cascade. cbv zeta. kept Hwf Group. kept Hwf UserGroup. kept Hwf Connection.
  fewer Hwf Queue.
  kept Hwf AuthData. rewrite (prune_id (R := Transfer)).
  2: { intros k r Hk. pose proof (Hun _ _ Hk) as Hu. pose proof (wf_refs (R := Transfer) _ _ _ Hwf Hk).
    open_refs. by rewrite lookup_delete_ne. }
  kept Hwf Run. done.
Qed.

(** a transfer takes its runs *)
Lemma cascade_transfer i :
  cascade (with_tbl (R := Transfer) (delete i (transfers db)) db) =
  with_tbl (R := Run) (filter (fun kr => run_transfer_id kr.2 <> i) (runs db))
    (with_tbl (R := Transfer) (delete i (transfers db)) db).
Proof.
  unfold cascade. cbv zeta.
  kept Hwf Group. kept Hwf UserGroup. kept Hwf Connection. kept Hwf Queue. kept Hwf AuthData.
  fewer Hwf Transfer.
  unfold prune_table. f_equal. apply map_eq. intros k. apply option_eq. intros r.
  rewrite !map_lookup_filter_Some. cbn.
  split; intros [Hk Hr]; split; try done; pose proof (wf_refs (R := Run) _ _ _ Hwf Hk); open_refs.
  - intros <-. rewrite lookup_delete_eq in *. by match goal with Hs : is_Some None |- _ => destruct Hs end.
  - by rewrite lookup_delete_ne.
Qed.

(** a group takes its members, connections and queues *)
Lemma cascade_group g :
  let db' := cascade (with_tbl (delete g (groups db)) db) in
  users db' = users db /\ groups db' = delete g (groups db) /\
  user_groups db' = filter (fun kr => ug_group_id kr.2 <> g) (user_groups db) /\
  connections db' = filter (fun kr => conn_group_id kr.2 <> g) (connections db) /\
  queues db' = filter (fun kr => queue_group_id kr.2 <> g) (queues db).
Proof.
  cbv zeta. unfold cascade. cbv zeta. fewer Hwf Group. unfold prune_table. cbn.
  split_and!; [done..| | |]; apply map_eq; intros k; apply option_eq; intros r;
    rewrite !map_lookup_filter_Some; cbn; split; intros [Hk Hr]; split; try done.
  all: try (intros <-; open_refs; rewrite lookup_delete_eq in *;
    match goal with Hs : is_Some None |- _ => destruct Hs end).
  all: match type of r with ?T => pose proof (wf_refs (R := T) _ _ _ Hwf Hk) end;
    open_refs; by rewrite lookup_delete_ne.
Qed.

#[export] Instance uses_connection_dec i t : Decision (uses_connection i t).
Proof. unfold uses_connection. apply _. Defined.

(** a connection that transfers use takes them along *)
Lemma cascade_connection_linked i :
  let db' := cascade (with_tbl (R := Connection) (delete i (connections db)) db) in
  users db' = users db /\ groups db' = groups db /\ user_groups db' = user_groups db /\
  connections db' = delete i (connections db) /\ queues db' = queues db /\
  auth_data db' = delete i (auth_data db) /\
  transfers db' = filter (fun kr => ~ uses_connection i kr.2) (transfers db).
Proof.
  cbv zeta. unfold cascade. cbv zeta. kept Hwf Group. kept Hwf UserGroup. fewer Hwf Connection.
  kept Hwf Queue. unfold prune_table. cbn.
  split_and!; [done..| |]; apply map_eq; intros k; apply option_eq; intros r.
  - rewrite map_lookup_filter_Some, lookup_delete_Some. cbn.
    split; [intros [Hk Hr]|intros [Hne Hk]]; split; try done;
      pose proof (wf_key (R := AuthData) _ _ _ Hwf Hk) as Hkey;
      pose proof (wf_refs (R := AuthData) _ _ _ Hwf Hk); cbn in Hkey; open_refs.
    + intros ->. rewrite Hkey, lookup_delete_eq in *.
      by match goal with Hs : is_Some None |- _ => destruct Hs end.
    + by rewrite lookup_delete_ne by congruence.
  - rewrite !map_lookup_filter_Some. cbn. unfold uses_connection.
    split; intros [Hk Hr]; split; try done; pose proof (wf_refs (R := Transfer) _ _ _ Hwf Hk); open_refs.
    + intros [<-|<-]; rewrite lookup_delete_eq in *;
      by match goal with Hs : is_Some None |- _ => destruct Hs end.
    + rewrite lookup_delete_ne; naive_solver.
    + rewrite lookup_delete_ne; naive_solver.
Qed.

(** a queue that transfers use takes them along *)
Lemma cascade_queue_linked i :
  let db' := cascade (with_tbl (R := Queue) (delete i (queues db)) db) in
  users db' = users db /\ groups db' = groups db /\ user_groups db' = user_groups db /\
  connections db' = connections db /\ queues db' = delete i (queues db) /\ auth_data db' = auth_data db /\
  transfers db' = filter (fun kr => transfer_queue_id kr.2 <> i) (transfers db).
Proof.
  cbv zeta. unfold cascade. cbv zeta. kept Hwf Group. kept Hwf UserGroup. kept Hwf Connection. fewer Hwf Queue.
  kept Hwf AuthData. unfold prune_table. cbn. split_and!; [done..|]. apply map_eq. intros k. apply option_eq. intros r.
  rewrite !map_lookup_filter_Some. cbn.
  split; intros [Hk Hr]; split; try done; pose proof (wf_refs (R := Transfer) _ _ _ Hwf Hk); open_refs.
  - intros <-. rewrite lookup_delete_eq in *. by match goal with Hs : is_Some None |- _ => destruct Hs end.
  - by rewrite lookup_delete_ne.
Qed.
End Delete.

(** the runs that stay are those of transfers that stay *)
Lemma cascade_runs db i r : runs (cascade db) !! i = Some r <->
  runs db !! i = Some r /\ is_Some (transfers (cascade db) !! run_transfer_id r).
Proof.
  unfold cascade. cbv zeta. set (db' := prune_table (R := Transfer) _).
  change (runs db) with (runs db'). change (transfers (prune_table (R := Run) db')) with (transfers db').
  clearbody db'. unfold prune_table. cbn. rewrite map_lookup_filter_Some. cbn. unfold refs_ok. cbn.
  rewrite Forall_singleton. done.
Qed.

(** nothing uses a connection that is not there *)
Lemma fresh_unused db i : db_wf db -> connections db !! i = None ->
  forall k t, transfers db !! k = Some t -> ~ uses_connection i t.
Proof.
  intros Hwf Hn k t Hk [Hu|Hu]; pose proof (wf_refs (R := Transfer) _ _ _ Hwf Hk) as Hr;
    open_refs; rewrite ?Hu, ?Hn in *; match goal with Hs : is_Some None |- _ => destruct Hs; discriminate end.
Qed.
(** nor has it credentials *)
Lemma fresh_no_auth db i : db_wf db -> connections db !! i = None -> auth_data db !! i = None.
Proof.
  intros Hwf Hn. destruct (auth_data db !! i) as [a|] eqn:Ha; [|done].
  pose proof (wf_refs (R := AuthData) _ _ _ Hwf Ha) as Hr. pose proof (wf_key (R := AuthData) _ _ _ Hwf Ha) as Hk.
  cbn in Hk. open_refs. rewrite Hk, Hn in *. match goal with Hs : is_Some None |- _ => by destruct Hs end.
Qed.
