(* ===== verification/Search.v ===== *)
(** * Full-text search ([db/repositories/search.py], the [search_vector] columns)

    [build_tsquery] turns what a user typed into the text of a PostgreSQL tsquery.
    The conversion and ranking functions of PostgreSQL are the class [TextSearch],
    a parameter of every definition that searches. *)

From S2P Require Import Prelude PyData Models Database.
From Stdlib Require Import Ascii.

(** ** Characters *)

Definition code (c : ascii) : nat := nat_of_ascii c.
Definition between (lo hi : nat) (c : ascii) : bool := (lo <=? code c)%nat && (code c <=? hi)%nat.

(** [string.punctuation] *)
Definition is_punctuation (c : ascii) : bool :=
  between 33 47 c || between 58 64 c || between 91 96 c || between 123 126 c.

(** the characters [str.split()] splits at *)
Definition is_space (c : ascii) : bool :=
  between 9 13 c || between 28 32 c || (code c =? 133)%nat || (code c =? 160)%nat.

Fixpoint string_map (f : ascii -> ascii) (s : string) : string :=
  match s with
  | EmptyString => EmptyString
  | String c s' => String (f c) (string_map f s')
  end.

Fixpoint string_forall (p : ascii -> bool) (s : string) : bool :=
  match s with
  | EmptyString => true
  | String c s' => p c && string_forall p s'
  end.

(** [s.split()]; [cur] is the word being read *)
Fixpoint split_ws_go (cur : string) (s : string) : list string :=
  match s with
  | EmptyString => if String.eqb cur "" then [] else [cur]
  | String c s' =>
      if is_space c then
        if String.eqb cur "" then split_ws_go "" s' else cur :: split_ws_go "" s'
      else split_ws_go (cur +:+ String c "") s'
  end.
Definition split_ws (s : string) : list string := split_ws_go "" s.

(** ** Building the query *)

Definition TSQUERY_UNSUPPORTED_CHARS (c : ascii) : bool :=
  is_punctuation c && negb (bool_decide (c ∈ ["/"; "."; "_"; "-"]%char)).

Definition TSQUERY_UNSUPPORTED_CHARS_REPLACEMENT (c : ascii) : ascii :=
  if TSQUERY_UNSUPPORTED_CHARS c then " "%char else c.
Definition TSQUERY_ALL_PUNCTUATION_REPLACEMENT (c : ascii) : ascii :=
  if is_punctuation c then " "%char else c.

Definition words_with_supported_punctuation (query : string) : list string :=
  let converted := string_map TSQUERY_UNSUPPORTED_CHARS_REPLACEMENT query in
  filter (fun part => negb (string_forall is_punctuation part) = true) (split_ws converted).

Definition words_without_any_punctuation (query : string) : list string :=
  split_ws (string_map TSQUERY_ALL_PUNCTUATION_REPLACEMENT query).

Definition nonempty (s : string) : Prop := s <> "".
#[export] Instance nonempty_dec s : Decision (nonempty s).
Proof. unfold nonempty. apply _. Defined.

Definition combine_words (words : list string) (by_prefix : bool) : string :=
  let modifier := if by_prefix then ":*" else "" in
  String.concat " & "
    ((fun word => "'" +:+ word +:+ "'" +:+ modifier) <$> filter nonempty words).

Definition combine_queries (queries : list string) : string :=
  String.concat " | " ((fun query => "(" +:+ query +:+ ")") <$> filter nonempty queries).

Definition build_tsquery (user_input : string) : string :=
  let original_words := words_with_supported_punctuation user_input in
  let only_words := words_without_any_punctuation user_input in
  combine_queries
    [combine_words original_words false;
     combine_words original_words true;
     if bool_decide (only_words = original_words) then "" else combine_words only_words true].

(** ** PostgreSQL *)

Class TextSearch := {
  TsQuery : Type;
  TsVector : Type;
  to_tsquery : string -> string -> TsQuery;           (* config, text *)
  plainto_tsquery : string -> string -> TsQuery;
  tsquery_or : TsQuery -> TsQuery -> TsQuery;
  to_tsvector : string -> string -> TsVector;
  tsvector_concat : TsVector -> TsVector -> TsVector;
  ts_match : TsVector -> TsQuery -> bool;              (* [@@] *)
  ts_rank : TsVector -> TsQuery -> Z;
  json_text : json -> string;                          (* [->>] of a non-string *)
  trgm_similar : string -> string -> bool;             (* [%] of pg_trgm *)
  collate : string -> string -> comparison;            (* the database collation *)
}.

Section SearchVector.
Context `{TextSearch}.

Definition make_tsquery (user_input : string) : TsQuery :=
  let simple_query := to_tsquery "simple" (build_tsquery user_input) in
  let stemmed_query := plainto_tsquery "russian" user_input in
  tsquery_or simple_query stemmed_query.

(** [translate(s, './-_:\', '      ')] *)
Definition split_technical (s : string) : string :=
  string_map (fun c => if bool_decide (c ∈ ["."; "/"; "-"; "_"; ":"; "\"]%char)
                       then " "%char else c) s.

(** [coalesce(d->>k, '')] *)
Definition json_field (d : dict) (k : string) : string :=
  match dict_get k d with
  | None | Some JNull => ""
  | Some (JStr s) => s
  | Some j => json_text j
  end.

Definition concat_vectors (v : TsVector) (vs : list TsVector) : TsVector :=
  foldl tsvector_concat v vs.

Definition name_vectors (name : string) : TsVector * list TsVector :=
  (to_tsvector "russian" name,
   [to_tsvector "simple" name; to_tsvector "simple" (split_technical name)]).

Definition exact (s : string) : TsVector := to_tsvector "simple" s.
Definition partial (s : string) : TsVector := to_tsvector "simple" (split_technical s).

Definition group_search_vector (g : Group) : TsVector :=
  let '(v, vs) := name_vectors (group_name g) in concat_vectors v vs.

Definition connection_search_vector (c : Connection) : TsVector :=
  let '(v, vs) := name_vectors (conn_name c) in
  concat_vectors v
    (vs ++ [exact (json_field (conn_data c) "host"); partial (json_field (conn_data c) "host")]).

Definition queue_search_vector (q : Queue) : TsVector :=
  let '(v, vs) := name_vectors (queue_name q) in concat_vectors v vs.

Definition transfer_search_vector (t : Transfer) : TsVector :=
  let '(v, vs) := name_vectors (transfer_name t) in
  let both (k : string) :=
    [exact (json_field (source_params t) k); exact (json_field (target_params t) k);
     partial (json_field (source_params t) k); partial (json_field (target_params t) k)] in
  concat_vectors v (vs ++ both "table_name" ++ both "directory_path").
End SearchVector.

(** ** Facts *)

Lemma string_app_cons c s t : String c s +:+ t = String c (s +:+ t).
Proof. done. Qed.

Lemma string_forall_app p s t : string_forall p (s +:+ t) = string_forall p s && string_forall p t.
Proof.
  induction s as [|c s IH]; [done|]. rewrite string_app_cons. cbn [string_forall].
  by rewrite IH, andb_assoc.
Qed.

Lemma string_forall_map p f s :
  (forall c, p (f c) = true) -> string_forall p (string_map f s) = true.
Proof. intros Hp. induction s as [|c s IH]; cbn; [done|]. by rewrite Hp, IH. Qed.

(** what holds of every character of the text holds of every word of it *)
Lemma split_ws_go_forall p s : forall cur,
  string_forall p cur = true -> string_forall p s = true ->
  Forall (fun w => string_forall p w = true) (split_ws_go cur s).
Proof.
  induction s as [|c s IH]; intros cur Hcur Hs; cbn in *.
  - case_match; by repeat constructor.
  - apply andb_true_iff in Hs as [Hc Hs].
    destruct (is_space c); [destruct (String.eqb cur ""); [|constructor; [done|]]|];
      apply IH; try done.
    by rewrite string_forall_app, Hcur; cbn; rewrite Hc.
Qed.

Lemma split_ws_go_nonempty s : forall cur, Forall nonempty (split_ws_go cur s).
Proof.
  induction s as [|c s IH]; intros cur; cbn.
  - destruct (String.eqb_spec cur ""); by repeat constructor.
  - repeat case_match; try constructor; try apply IH.
    by apply String.eqb_neq.
Qed.

(** neither a quote nor an escape *)
Definition quote_free (c : ascii) : bool := negb (Ascii.eqb c "'") && negb (Ascii.eqb c "\").

Lemma supported_quote_free c : quote_free (TSQUERY_UNSUPPORTED_CHARS_REPLACEMENT c) = true.
Proof.
  unfold TSQUERY_UNSUPPORTED_CHARS_REPLACEMENT. destruct (TSQUERY_UNSUPPORTED_CHARS c) eqn:Hc; [done|].
  unfold quote_free. destruct (Ascii.eqb_spec c "'"); [by subst c|]. destruct (Ascii.eqb_spec c "\"); by try subst c.
Qed.

Lemma punctuation_quote_free c : quote_free (TSQUERY_ALL_PUNCTUATION_REPLACEMENT c) = true.
Proof.
  unfold TSQUERY_ALL_PUNCTUATION_REPLACEMENT. destruct (is_punctuation c) eqn:Hc; [done|].
  unfold quote_free. destruct (Ascii.eqb_spec c "'"); [by subst c|]. destruct (Ascii.eqb_spec c "\"); by try subst c.
Qed.

Definition word_ok (w : string) : Prop := nonempty w /\ string_forall quote_free w = true.

Lemma words_with_supported_punctuation_ok q : Forall word_ok (words_with_supported_punctuation q).
Proof.
  unfold words_with_supported_punctuation. apply Forall_and. split.
  - apply Forall_filter_keep. apply split_ws_go_nonempty.
  - apply Forall_filter_keep. apply split_ws_go_forall; [done|].
    apply string_forall_map, supported_quote_free.
Qed.

Lemma words_without_any_punctuation_ok q : Forall word_ok (words_without_any_punctuation q).
Proof.
  unfold words_without_any_punctuation. apply Forall_and. split.
  - apply split_ws_go_nonempty.
  - apply split_ws_go_forall; [done|]. apply string_forall_map, punctuation_quote_free.
Qed.

(** ** Reading a query back: the quoted words of a tsquery text

    Between quotes PostgreSQL reads a doubled quote as a quote and a character after a
    backslash as itself; a word that is not closed is none. *)

Fixpoint quoted_go (inside : option string) (s : string) : list string :=
  match s with
  | EmptyString => []
  | String c s' =>
      match inside with
      | None => if Ascii.eqb c "'" then quoted_go (Some "") s' else quoted_go None s'
      | Some w =>
          if Ascii.eqb c "'" then
            match s' with
            | String c' s'' => if Ascii.eqb c' "'" then quoted_go (Some (w +:+ "'")) s'' else w :: quoted_go None s'
            | EmptyString => [w]
            end
          else if Ascii.eqb c "\" then
            match s' with
            | String c' s'' => quoted_go (Some (w +:+ String c' "")) s''
            | EmptyString => []
            end
          else quoted_go (Some (w +:+ String c "")) s'
      end
  end.
Definition quoted (s : string) : list string := quoted_go None s.
(** what follows a closing quote is no second one *)
Definition after_quote (s : string) : bool := negb (String.prefix "'" s).

Lemma string_app_assoc s t u : (s +:+ t) +:+ u = s +:+ (t +:+ u).
Proof. induction s as [|c s IH]; [done|]. by rewrite !string_app_cons, IH. Qed.

Lemma string_app_nil s : s +:+ "" = s.
Proof. induction s as [|c s IH]; [done|]. by rewrite !string_app_cons, IH. Qed.

Lemma quoted_skip t s : string_forall quote_free t = true -> quoted (t +:+ s) = quoted s.
Proof.
  unfold quoted. induction t as [|c t IH]; [done|]. intros [Hc Ht]%andb_true_iff.
  unfold quote_free in Hc. rewrite string_app_cons. cbn [quoted_go].
  destruct (Ascii.eqb c "'"); [done|]. by apply IH.
Qed.

Lemma quoted_go_word w s : forall acc, after_quote s = true ->
  string_forall quote_free w = true ->
  quoted_go (Some acc) (w +:+ String "'" s) = (acc +:+ w) :: quoted s.
Proof.
  induction w as [|c w IH]; intros acc Hs.
  - rewrite string_app_nil. intros _. destruct s as [|c s]; [done|]. change ("" +:+ ?x) with x. cbn [quoted_go].
    rewrite Ascii.eqb_refl. unfold after_quote in Hs. cbn [String.prefix] in Hs.
    destruct (ascii_dec "'" c) as [<-|Hne]; [by destruct s|].
    destruct (Ascii.eqb_spec c "'") as [->|_]; [done|].
    unfold quoted. cbn [quoted_go]. by destruct (Ascii.eqb_spec c "'").
  - intros [Hc Hw]%andb_true_iff. unfold quote_free in Hc. apply andb_true_iff in Hc as [Hq Hb].
    rewrite string_app_cons. cbn [quoted_go].
    destruct (Ascii.eqb c "'"); [done|]. destruct (Ascii.eqb c "\"); [done|]. rewrite IH by done.
    by rewrite string_app_assoc, string_app_cons.
Qed.

Lemma quoted_word w s : after_quote s = true -> string_forall quote_free w = true ->
  quoted ("'" +:+ w +:+ "'" +:+ s) = w :: quoted s.
Proof. intros Hs Hw. unfold quoted. change ("'" +:+ ?x) with (String "'" x). cbn [quoted_go]. by apply (quoted_go_word w s ""). Qed.

Lemma filter_nonempty ws : Forall word_ok ws -> filter nonempty ws = ws.
Proof.
  induction 1 as [|w ws [Hw _] _ IH]; [done|]. by rewrite filter_cons_True, IH.
Qed.

Lemma combine_words_cons w w' ws b : Forall word_ok (w :: w' :: ws) ->
  combine_words (w :: w' :: ws) b =
  "'" +:+ w +:+ "'" +:+ (if b then ":*" else "") +:+ " & " +:+ combine_words (w' :: ws) b.
Proof.
  intros Hws. unfold combine_words. rewrite !filter_nonempty by by (inversion Hws).
  cbn [fmap list_fmap String.concat]. by rewrite !string_app_assoc.
Qed.

Lemma quoted_combine_words ws b s : after_quote s = true -> Forall word_ok ws ->
  quoted (combine_words ws b +:+ s) = ws ++ quoted s.
Proof.
  intros Hs. induction 1 as [|w ws Hw Hws IH]; [done|]. destruct (Hw) as [Hne Hq].
  destruct ws as [|w' ws].
  - unfold combine_words. rewrite filter_nonempty by (by repeat constructor).
    cbn [fmap list_fmap String.concat]. rewrite !string_app_assoc, quoted_word by (by destruct b).
    cbn. f_equal. apply quoted_skip. by destruct b.
  - rewrite combine_words_cons by (by constructor).
    rewrite !string_app_assoc, quoted_word by (by destruct b). cbn [app]. f_equal.
    rewrite quoted_skip by (by destruct b). rewrite quoted_skip by done. exact IH.
Qed.

Lemma combine_words_empty ws b : Forall word_ok ws -> combine_words ws b = "" <-> ws = [].
Proof.
  intros Hws. destruct ws as [|w [|w' ws]]; [done| |].
  - unfold combine_words. by rewrite filter_nonempty.
  - by rewrite combine_words_cons.
Qed.

Lemma concat_cons2 sep s t l :
  String.concat sep (s :: t :: l) = s +:+ sep +:+ String.concat sep (t :: l).
Proof. done. Qed.

(** a text whose quotes are paired *)
Definition balanced (q : string) : Prop := forall s, after_quote s = true ->
  quoted (q +:+ s) = quoted q ++ quoted s.

Lemma combine_words_balanced ws b : Forall word_ok ws -> balanced (combine_words ws b).
Proof.
  intros Hws s Hs. rewrite quoted_combine_words by done.
  pose proof (quoted_combine_words ws b "" eq_refl Hws) as Hq.
  rewrite string_app_nil in Hq. by rewrite Hq, app_nil_r.
Qed.

Lemma quoted_combine ws b : Forall word_ok ws -> quoted (combine_words ws b) = ws.
Proof.
  intros Hws. pose proof (quoted_combine_words ws b "" eq_refl Hws) as Hq.
  by rewrite string_app_nil, app_nil_r in Hq.
Qed.

Lemma quoted_combine_queries qs : Forall balanced qs ->
  quoted (combine_queries qs) = concat (quoted <$> qs).
Proof.
  intros Hqs. trans (concat (quoted <$> filter nonempty qs)).
  - apply (Forall_filter_keep _ nonempty) in Hqs. unfold combine_queries.
    induction Hqs as [|q [|q' ql] Hq Hql IH]; [done| |].
    + cbn. by rewrite quoted_skip, Hq by done.
    + rewrite !fmap_cons, concat_cons2, !string_app_assoc, quoted_skip, Hq by done.
      cbn [concat]. f_equal. rewrite quoted_skip, quoted_skip by done. exact IH.
  - clear Hqs. induction qs as [|q qs IH]; [done|]. rewrite filter_cons. case_decide as Hq; cbn.
    + by rewrite IH.
    + apply dec_stable in Hq. by rewrite Hq.
Qed.

(** C39 No text a user types escapes the quotes of the tsquery: the parts of the
    query between quotes are exactly the words the text was split into, and the
    rest is operators the code wrote. *)
Theorem build_tsquery_quoted user_input :
  quoted (build_tsquery user_input) =
    let original_words := words_with_supported_punctuation user_input in
    let only_words := words_without_any_punctuation user_input in
    original_words ++ original_words ++
    (if bool_decide (only_words = original_words) then [] else only_words).
Proof.
  unfold build_tsquery. set (ows := words_with_supported_punctuation user_input).
  set (ons := words_without_any_punctuation user_input).
  assert (Forall word_ok ows) as Ho by apply words_with_supported_punctuation_ok.
  assert (Forall word_ok ons) as Hn by apply words_without_any_punctuation_ok.
  cbn zeta. rewrite quoted_combine_queries.
  - cbn. rewrite !quoted_combine, app_nil_r by done. do 2 f_equal.
    case_bool_decide; [done|]. by apply quoted_combine.
  - repeat constructor; try by apply combine_words_balanced.
    case_bool_decide; [by intros s|by apply combine_words_balanced].
Qed.
