(* ===== verification/Settings.v ===== *)
(** * Settings ([syncmaster/settings], [server/settings], [worker/settings], [scheduler/settings])

    The classes of settings as declared schemas, their validators, where their values
    come from and in which order, and what is made of them: URLs of the database, Celery
    applications, engines.  The URL types of pydantic and SQLAlchemy's parser, imports
    by name, the file system and the sources themselves are parameters. *)

From S2P Require Import Prelude PyData Models Errors Pydantic Search PyText.
From Stdlib Require Import Ascii.

Class SettingsCore := {
  postgres_dsn : string -> option string;         (* [str] of a [PostgresDsn] *)
  amqp_url : string -> option string;             (* [AnyUrl] with [UrlConstraints] of [RabbitMQURL] *)
  http_url : string -> option string;             (* [HttpUrl] *)
  importable : string -> bool;                    (* [ImportString] *)
  is_auth_provider : string -> bool;              (* [issubclass(value, AuthProvider)] *)
  timedelta : json -> option Z;                   (* seconds *)
  logging_settings : json -> result exc json;     (* [pydantic_settings_logging.LoggingSettings] *)
  path_exists : string -> bool;
  path_is_dir : string -> bool;
}.

(** [sqlalchemy.make_url] *)
Class MakeUrl := {
  url_database : string -> option string;
  url_username : string -> option string;
  url_password : string -> option string;
  render_as_string : string -> string;            (* [hide_password=True] *)
}.

(** [not x] for an optional text *)
Definition blank (o : option string) : bool := match o with Some s => String.eqb s "" | None => true end.

(** a field whose type converts texts *)
Definition convert (f : string -> option string) (data : dict) (v : json) : result exc json :=
  match v with
  | JStr s => match f s with Some u => Ok (JStr u) | None => invalid v end
  | _ => invalid v
  end.
Definition url_field (name : string) (f : string -> option string) : Field :=
  mkField name None FStr None false (convert f).
(** [Field(default_factory=Model)] *)
Definition nested (name : string) (t : FieldType) : Field := mkField name None t (Some (JObj [])) true keep.

Section Declarations.
Context `{SettingsCore}.

(** ** [settings] *)

(** [DatabaseSettings]; the annotated [PostgresURL] is not the type of its [url] *)
Definition DatabaseSettings : FieldType := FExtra [url_field "url" postgres_dsn].

(** [settings/broker.py] *)
Definition validate_url (data : dict) (value : json) : result exc json :=
  v ← convert amqp_url data value;
  match v with
  | JStr url =>
      let '(username, password) := url_userinfo url in
      if blank username || blank password
      then Raise (ValueError "RabbitMQ URL must contain username and password") else Ok v
  | _ => Ok v
  end.
Definition RabbitMQSettings : FieldType := FExtra [mkField "url" None FStr None false validate_url].

Definition CredentialsEncryptionSettings : FieldType := FModel [req "secret_key" FStr].

(** [DEFAULT_LOGGING_SETTINGS], as the keyword arguments it is made of *)
Definition logger (level : string) : json :=
  JObj [("handlers", JList [JStr "main"]); ("level", JStr level); ("propagate", JBool false)].
Definition DEFAULT_LOGGING_SETTINGS : dict :=
  [("disable_existing_loggers", JBool false);
   ("filters", JObj [("correlation_id", JObj
      [("callable", JStr "asgi_correlation_id.CorrelationIdFilter"); ("uuid_length", JInt 32);
       ("default_value", JStr "-")])]);
   ("formatters", JObj [("colored", JObj
      [("class_", JStr "coloredlogs.ColoredFormatter");
       ("format", JStr ("%(asctime)s.%(msecs)03d %(processName)s:%(process)d %(name)s:%(lineno)d " +:+
                        "[%(levelname)s] %(correlation_id)s %(message)s"));
       ("datefmt", JStr "%Y-%m-%d %H:%M:%S")])]);
   ("handlers", JObj [("main", JObj
      [("formatter", JStr "colored"); ("filters", JList [JStr "correlation_id"]);
       ("stream", JStr "ext://sys.stdout")])]);
   ("root", JObj [("handlers", JList [JStr "main"]); ("level", JStr "INFO")]);
   ("loggers", JObj
      [("uvicorn", logger "INFO"); ("celery", logger "INFO"); ("py4j", logger "WARNING");
       ("hdfs.client", logger "WARNING")])].
Definition logging_field : Field :=
  mkField "logging" None FAny (Some (JObj DEFAULT_LOGGING_SETTINGS)) false (fun _ v => logging_settings v).

(** ** [worker/settings] *)

(** [ImportString]: an object is its dotted name *)
Definition import_object (data : dict) (v : json) : result exc json :=
  match v with JStr s => if importable s then Ok v else invalid v | _ => invalid v end.
Definition WorkerSettings : FieldType := FModel
  [mkField "create_spark_session_function" None FAny
     (Some (JStr "syncmaster.worker.spark.get_worker_spark_session")) true import_object;
   opt "spark_session_default_config" FDict (JObj []);
   opt "log_url_template" FStr (JStr "")].

(** [getattr(self, field) is None] *)
Definition is_none (d : dict) (field : string) : bool :=
  match dict_get field d with Some JNull | None => true | _ => false end.
Definition check_required_fields_if_enabled (self : json) : result exc unit :=
  match self with
  | JObj d =>
      if json_truthy (default JNull (dict_get "enabled" d)) then
        let missing_fields := filter (fun f => is_none d f = true) ["type"; "url"; "user"; "password"; "namespace"] in
        match missing_fields with
        | [] => Ok tt
        | _ => Raise (ValueError ("All fields must be set with enabled HWMStore. Missing: "
                                  +:+ String.concat ", " missing_fields))
        end
      else Ok tt
  | _ => Ok tt
  end.
Definition HWMStoreSettings_fields : list Field :=
  [opt "enabled" FBool (JBool false); opt "type" (FOpt (FLiteral ["horizon"])) JNull;
   opt "url" (FOpt FStr) JNull; opt "user" (FOpt FStr) JNull; opt "password" (FOpt FStr) JNull;
   opt "namespace" (FOpt FStr) JNull].
Definition HWMStoreSettings : FieldType := FAfter check_required_fields_if_enabled (FModel HWMStoreSettings_fields).

Definition WorkerAppSettings : list Field :=
  [nested "database" DatabaseSettings; nested "broker" RabbitMQSettings; logging_field;
   req "worker" WorkerSettings; nested "encryption" CredentialsEncryptionSettings;
   nested "hwm_store" HWMStoreSettings].

(** ** [scheduler/settings] *)

Definition SchedulerSettings : FieldType := FModel
  [opt "transfer_fetching_timeout_seconds" FInt (JInt 180); opt "misfire_grace_time_seconds" FInt (JInt 300)].
Definition SchedulerAppSettings : list Field :=
  [nested "database" DatabaseSettings; nested "broker" RabbitMQSettings; logging_field;
   nested "scheduler" SchedulerSettings; nested "encryption" CredentialsEncryptionSettings].

(** ** [server/settings] *)

Definition CORSSettings : FieldType := FExtra
  [opt "enabled" FBool (JBool true); opt "allow_origins" (FList FStr) (JList []);
   opt "allow_credentials" FBool (JBool false); opt "allow_methods" (FList FStr) (JList [JStr "GET"]);
   opt "allow_headers" (FList FStr) (JList [JStr "X-Request-ID"; JStr "X-Request-With"]);
   opt "expose_headers" (FList FStr) (JList [JStr "X-Request-ID"])].

(** [set[str]]: an element is kept once *)
Definition as_set (data : dict) (v : json) : result exc json :=
  match v with JList l => Ok (JList (reverse (foldl (fun acc x =>
      if existsb (json_eqb x) acc then acc else x :: acc) [] l))) | _ => Ok v end.
Definition set_field (name : string) (d : list json) : Field :=
  mkField name None (FList FStr) (Some (JList d)) false as_set.
(** [dict[str, str]] *)
Definition text_values (data : dict) (v : json) : result exc json :=
  match v with
  | JObj d => if forallb (fun kv => match kv.2 with JStr _ => true | _ => false end) d then Ok v else invalid v
  | _ => invalid v
  end.
Definition MonitoringSettings : FieldType := FExtra
  [opt "enabled" FBool (JBool true); mkField "labels" None FDict (Some (JObj [])) false text_values;
   set_field "skip_paths" []; set_field "skip_methods" [JStr "OPTIONS"];
   opt "group_paths" FBool (JBool true); opt "filter_unhandled_paths" FBool (JBool true)].

Definition RequestIDSettings : FieldType := FModel
  [opt "enabled" FBool (JBool true); opt "header_name" FStr (JStr "X-Request-ID");
   opt "update_request_header" FBool (JBool false)].

(** [StaticFilesSettings._validate_directory]; a default is not validated *)
Definition _validate_directory (data : dict) (value : json) : result exc json :=
  if negb (json_truthy (default JNull (dict_get "enabled" data))) then Ok value
  else match value with
       | JStr path =>
           if negb (path_exists path) then Raise (ValueError ("Directory '" +:+ path +:+ "' does not exist"))
           else if negb (path_is_dir path) then Raise (ValueError ("Path '" +:+ path +:+ "' is not a directory"))
           else Ok value
       | _ => invalid value
       end.
Definition StaticFilesSettings : FieldType := FModel
  [opt "enabled" FBool (JBool true);
   mkField "directory" None FStr (Some (JStr "mddocs/docs/_static")) false _validate_directory].

Definition SwaggerSettings : FieldType := FModel
  [opt "enabled" FBool (JBool true);
   opt "js_url" FStr (JStr "https://cdn.jsdelivr.net/npm/swagger-ui-dist@5/swagger-ui-bundle.js");
   opt "css_url" FStr (JStr "https://cdn.jsdelivr.net/npm/swagger-ui-dist@5/swagger-ui.css");
   opt "extra_parameters" FDict (JObj [])].
Definition RedocSettings : FieldType := FModel
  [opt "enabled" FBool (JBool true);
   opt "js_url" FStr (JStr "https://cdn.jsdelivr.net/npm/redoc@next/bundles/redoc.standalone.js")].
Definition convert_opt (f : string -> option string) (data : dict) (v : json) : result exc json :=
  match v with JNull => Ok v | _ => convert f data v end.
Definition LogoSettings : FieldType := FModel
  [opt "url" FStr (JStr "/static/logo.svg"); opt "background_color" FStr (JStr "ffffff");
   opt "alt_text" (FOpt FStr) (JStr "Syncmaster logo");
   mkField "href" None (FOpt FStr) (Some (JStr "https://github.com/MTSWebServices/syncmaster")) false
     (convert_opt http_url)].
Definition FaviconSettings : FieldType := FModel [opt "url" FStr (JStr "/static/icon.svg")].
Definition OpenAPISettings : FieldType := FModel
  [opt "enabled" FBool (JBool true); nested "swagger" SwaggerSettings; nested "redoc" RedocSettings;
   nested "logo" LogoSettings; nested "favicon" FaviconSettings].

Definition ServerSettings : FieldType := FModel
  [opt "debug" FBool (JBool false); nested "request_id" RequestIDSettings; nested "cors" CORSSettings;
   nested "monitoring" MonitoringSettings; nested "openapi" OpenAPISettings;
   nested "static_files" StaticFilesSettings].

(** [AuthSettings._validate_provider]: a [TypeError] is no validation error *)
Definition _validate_provider (data : dict) (v : json) : result exc json :=
  value ← import_object data v;
  match value with
  | JStr s => if is_auth_provider s then Ok value else Raise TypeError
  | _ => Raise TypeError
  end.
Definition AuthSettings : FieldType := FExtra
  [mkField "provider" None FAny
     (Some (JStr "syncmaster.server.providers.auth.dummy_provider.DummyAuthProvider")) true _validate_provider].

Definition JWTSettings : FieldType := FModel
  [req "secret_key" FStr; opt "security_algorithm" FStr (JStr "HS256"); opt "expire_seconds" FInt (JInt (10 * 60 * 60))].
Definition DummyAuthProviderSettings : list Field := [req "access_token" JWTSettings].

Definition convert_timedelta (data : dict) (v : json) : result exc json :=
  match timedelta v with Some s => Ok (JInt s) | None => invalid v end.
Definition KeycloakSettings : FieldType := FModel
  [url_field "api_url" http_url; req "client_id" FStr; req "client_secret" FStr; req "realm_name" FStr;
   req "ui_callback_url" FStr; opt "verify_ssl" FBool (JBool true); opt "scope" FStr (JStr "openid");
   mkField "cert_cache_ttl" None FAny (Some (JInt 3600)) false convert_timedelta].
Definition KeycloakCookieSettings : FieldType := FExtra
  [req "secret_key" FStr; opt "name" FStr (JStr "session"); opt "max_age" (FOpt FInt) (JInt (14 * 24 * 60 * 60));
   opt "same_site" (FLiteral ["strict"; "lax"; "none"]) (JStr "lax"); opt "path" FStr (JStr "/");
   opt "https_only" FBool (JBool false); opt "domain" (FOpt FStr) JNull].
Definition KeycloakAuthProviderSettings : list Field :=
  [req "keycloak" KeycloakSettings; req "cookie" KeycloakCookieSettings].
Definition OAuth2GatewayKeycloakSettings : FieldType := FModel
  [url_field "api_url" http_url; req "client_id" FStr; req "client_secret" FStr; req "realm_name" FStr;
   opt "verify_ssl" FBool (JBool true)].
Definition OAuth2GatewayProviderSettings : list Field := [req "keycloak" OAuth2GatewayKeycloakSettings].

Definition ServerAppSettings : list Field :=
  [nested "database" DatabaseSettings; nested "broker" RabbitMQSettings; logging_field;
   nested "server" ServerSettings; nested "auth" AuthSettings;
   nested "encryption" CredentialsEncryptionSettings].

(** [db/migrations/env.py], [server/scripts/manage_superusers.py] *)
Definition MigrationAppSettings : list Field := [nested "database" DatabaseSettings; logging_field].
Definition SuperuserAppSettings : list Field :=
  [nested "database" DatabaseSettings; logging_field; opt "superusers" (FList FStr) (JList [])].
End Declarations.

(** ** Where the values come from ([settings/base.py]) *)

Inductive SettingsSource :=
| InitSettings | YamlSettings (yaml_file : string) | EnvSettings | DotenvSettings | FileSecretSettings.

(** [BaseSettings.settings_customise_sources]; [config_file] is [os.getenv("SYNCMASTER_CONFIG_FILE")] *)
Definition settings_customise_sources (config_file : option string) : list SettingsSource :=
  [InitSettings; YamlSettings (default "config.yml" config_file); EnvSettings; DotenvSettings; FileSecretSettings].

(** the values of each source, and the merge of pydantic *)
Class SettingsIO := {
  config_file : option string;
  source_values : SettingsSource -> dict;
  deep_update : dict -> dict -> dict;
}.
(** keys of the second dict win, dicts under one key are merged *)
Class SettingsIOLaws `{SettingsIO} := {
  deep_update_get : forall base upd k, dict_get k (deep_update base upd) =
    match dict_get k upd, dict_get k base with
    | Some (JObj u), Some (JObj b) => Some (JObj (deep_update b u))
    | Some v, _ => Some v
    | None, r => r
    end;
  init_values : source_values InitSettings = [];          (* [Settings()] has no arguments *)
}.

(** every source fills in what the ones before it left out *)
Definition merge_sources `{SettingsIO} (sources : list SettingsSource) : dict :=
  foldl (fun state source => deep_update (source_values source) state) [] sources.
Definition load_settings `{SettingsIO} `{PydanticCore} (fs : list Field) : result exc dict :=
  model_validate validate fs (JObj (merge_sources (settings_customise_sources config_file))).

(** the value at a path of keys, [database.url] *)
Fixpoint setting (path : list string) (j : json) : option json :=
  match path with
  | [] => Some j
  | k :: path' => match j with JObj d => v ← dict_get k d; setting path' v | _ => None end
  end.
Definition setting_str (path : list string) (d : dict) : result exc string :=
  match setting path (JObj d) with Some (JStr s) => Ok s | _ => Raise AttributeError end.

(** ** What is made of them *)

(** [settings/database.py]: [validate_url], which no field uses *)
Definition PostgresURL_validate_url `{MakeUrl} (value : string) : result exc string :=
  if blank (url_database value) then Raise (ValueError "Database URL must contain database name")
  else if blank (url_username value) || blank (url_password value)
  then Raise (ValueError "Database URL must contain username and password") else Ok value.

(** [DatabaseSettings.sync_url] *)
Definition sync_url (url : string) : string := str_replace (url_scheme url) "postgresql+psycopg2" url.

(** [__repr_args__] of [DatabaseSettings] and [RabbitMQSettings]; [extra] is the one of pydantic *)
Definition repr_args `{MakeUrl} (url : string) (extra : dict) : dict :=
  ("url", JStr (render_as_string url)) :: filter (fun item => item.1 <> "url") extra.

Record Celery := mkCelery {
  celery_main : string;
  celery_broker : string;
  celery_backend : string;
  celery_task_cls : option string;
  celery_imports : list string;
}.
Definition celery_app (main : string) (task_cls : option string) (imports : list string) (settings : dict)
    : result exc Celery :=
  broker ← setting_str ["broker"; "url"] settings;
  url ← setting_str ["database"; "url"] settings;
  Ok (mkCelery main broker ("db+" +:+ sync_url url) task_cls imports).
(** the three [celery_factory]; [__name__] is the module they are in *)
Definition server_celery_factory : dict -> result exc Celery := celery_app "syncmaster.server" None [].
Definition scheduler_celery_factory : dict -> result exc Celery := celery_app "syncmaster.scheduler" None [].
Definition worker_celery_factory : dict -> result exc Celery :=
  celery_app "syncmaster.worker" (Some "WorkerTask") ["syncmaster.worker.transfer"].

(** the arguments of [create_engine] and [create_async_engine] *)
Record EngineArgs := mkEngineArgs { engine_url : string; engine_kwargs : dict }.
Definition async_engine (settings : dict) : result exc EngineArgs :=
  url ← setting_str ["database"; "url"] settings;
  match dict_get "database" settings with
  | Some (JObj database) => Ok (mkEngineArgs url (dict_del "url" database))
  | _ => Raise AttributeError
  end.
(** [db/factory.py], [scheduler/utils.py] *)
Definition create_session_factory : dict -> result exc EngineArgs := async_engine.
Definition get_async_engine : dict -> result exc EngineArgs := async_engine.
(** [WorkerTask.__init__] *)
Definition WorkerTask_init (settings : dict) : result exc EngineArgs :=
  url ← setting_str ["database"; "url"] settings; Ok (mkEngineArgs (sync_url url) []).

(** the settings of the store of high water marks *)
Record HWMStore := mkHWMStore {
  hwm_enabled : bool;
  hwm_url : option string;
  hwm_user : option string;
  hwm_password : option string;
  hwm_namespace : option string;
}.
Definition optional_text (v : option json) : option string := match v with Some (JStr s) => Some s | _ => None end.
Definition hwm_store_settings (settings : dict) : HWMStore :=
  let get k := setting ["hwm_store"; k] (JObj settings) in
  mkHWMStore (json_truthy (default JNull (get "enabled"))) (optional_text (get "url"))
    (optional_text (get "user")) (optional_text (get "password")) (optional_text (get "namespace")).

(** [db/migrations/env.py]: [set_main_option("sqlalchemy.url", url.replace("%", "%%"))] *)
Definition main_option (url : string) : string := str_replace "%" "%%" url.
(** what [configparser] reads back: a percent sign stands before another one or a
    name in brackets, which this option never has *)
Fixpoint interpolate (s : string) : option string :=
  match s with
  | EmptyString => Some EmptyString
  | String "%"%char (String "%"%char s') => String "%"%char <$> interpolate s'
  | String "%"%char _ => None
  | String c s' => String c <$> interpolate s'
  end.
