(* ===== verification/TransferSchemas.v ===== *)
(** * Transfer schemas ([schemas/v1/transfers])

    The parameters of a transfer for each type of connection, file formats, file
    name templates ([str.format]), transformations, strategies, resources and the
    validators that relate them.  [re.compile], attribute access on the
    values of a template and the texts of containers are the parameters [PyLib]. *)

From S2P Require Import Prelude PyData Models Errors Database Search Pydantic ConnectionSchemas.
From Stdlib Require Import Ascii.

(** the values a template is formatted with *)
Inductive FormatValue :=
| IntValue (n : Z)
| StrValue (s : string).

Class PyLib := {
  re_compiles : string -> bool;
  (* [format(value.a1.a2..., "")]; [None] for [AttributeError] *)
  format_getattr : FormatValue -> list string -> option string;
  (* [str] of a list or a dict *)
  repr : json -> string;
}.

(** ** Texts *)

(** a character [\w] matches (code points below 256) *)
Definition is_word (c : ascii) : bool :=
  alnum c || Ascii.eqb c "_" ||
  let n := nat_of_ascii c in
  bool_decide (n ∈ [170; 178; 179; 181; 185; 186; 188; 189; 190]%nat) ||
  ((192 <=? n) && (n <=? 214) || (216 <=? n) && (n <=? 246) || (248 <=? n))%nat.

(** [re.match(r"^[\w\d]+\.[\w\d]+$", s)] and the pattern with [(\.[\w\d]+)+] *)
Fixpoint split_char (sep : ascii) (cur s : string) : list string :=
  match s with
  | EmptyString => [cur]
  | String c s' =>
      if Ascii.eqb c sep then cur :: split_char sep "" s' else split_char sep (cur +:+ String c "") s'
  end.
Definition is_word_part (p : string) : bool := negb (String.eqb p "") && str_all is_word p.
Definition TABLE_NAME_PATTERN (s : string) : bool :=
  match split_char "." "" (chomp s) with
  | [a; b] => is_word_part a && is_word_part b
  | _ => false
  end.
Definition ICEBERG_TABLE_NAME_PATTERN (s : string) : bool :=
  let parts := split_char "." "" (chomp s) in
  (2 <=? length parts)%nat && forallb is_word_part parts.

(** [_table_name_is_qualified]; [re.match] raises on what is no text *)
Definition _table_name_is_qualified (pattern : string -> bool) (value : json) : result exc unit :=
  match value with
  | JStr s =>
      if pattern s then Ok tt
      else Raise (ValueError "Table name should be in format myschema.mytable")
  | _ => Raise TypeError
  end.

Definition table_fields (pattern : string -> bool) (type : string) : list Field :=
  [req "table_name" (FBefore (_table_name_is_qualified pattern) FStr); req "type" (FLiteral [type])].
Definition DBTransferSourceOrTarget (type : string) : list Field := table_fields TABLE_NAME_PATTERN type.
Definition IcebergTransferSourceOrTarget : list Field :=
  table_fields ICEBERG_TABLE_NAME_PATTERN "iceberg".

(** ** [str.format] *)

Inductive Piece :=
| Lit (c : ascii)
| Subst (field : string).

Inductive Scan :=
| Done
| Next (p : Piece) (rest : string)
| Bad.                       (* [ValueError] *)

(** the field name up to the closing brace *)
Fixpoint scan_field (acc s : string) : Scan :=
  match s with
  | EmptyString => Bad
  | String c s' =>
      if Ascii.eqb c "{" then Bad
      else if Ascii.eqb c "}" then Next (Subst acc) s'
      else scan_field (acc +:+ String c "") s'
  end.

(** the next piece of a template without [:], [!] and brackets *)
Definition scan (s : string) : Scan :=
  match s with
  | EmptyString => Done
  | String c s' =>
      if Ascii.eqb c "{" then
        match s' with
        | String "{" s'' => Next (Lit "{") s''
        | EmptyString => Bad
        | _ => scan_field "" s'
        end
      else if Ascii.eqb c "}" then
        match s' with
        | String "}" s'' => Next (Lit "}") s''
        | _ => Bad
        end
      else Next (Lit c) s'
  end.

Definition is_digit (c : ascii) : bool := ((48 <=? nat_of_ascii c) && (nat_of_ascii c <=? 57))%nat.

Section Format.
Context `{PyLib}.

(** [format(value, "")]: an [int] in decimal *)
Definition format_value (v : FormatValue) : string :=
  match v with IntValue n => str_of_Z n | StrValue s => s end.

(** the text of a replacement field *)
Definition field_value (kwargs : list (string * FormatValue)) (field : string) : result exc string :=
  match split_char "." "" field with
  | [] => Raise IndexError
  | first :: attrs =>
      if str_all is_digit first then Raise IndexError      (* the empty name too: [args] is empty *)
      else
        v ← or_raise (dict_get first kwargs) (KeyError first);
        match attrs with
        | [] => Ok (format_value v)
        | _ =>
            if existsb (String.eqb "") attrs then Raise (ValueError "Empty attribute in format string")
            else or_raise (format_getattr v attrs) AttributeError
        end
  end.

(** [s.format] with keyword arguments; [fuel] bounds the pieces, one per character at most *)
Fixpoint format_go (fuel : nat) (s : string) (kwargs : list (string * FormatValue)) : result exc string :=
  match fuel with
  | O => Ok ""
  | S fuel' =>
      match scan s with
      | Done => Ok ""
      | Bad => Raise (ValueError "Single '}' encountered in format string")
      | Next (Lit c) rest => r ← format_go fuel' rest kwargs; Ok (String c r)
      | Next (Subst f) rest =>
          v ← field_value kwargs f;
          r ← format_go fuel' rest kwargs;
          Ok (v +:+ r)
      end
  end.
Definition py_format (s : string) (kwargs : list (string * FormatValue)) : result exc string :=
  format_go (S (String.length s)) s kwargs.

(** ** File transfers *)

(** [re.match(r"^[\w.{}-]+$", value)] *)
Definition FILE_NAME_PATTERN (s : string) : bool :=
  negb (String.eqb (chomp s) "") &&
  str_all (fun c => is_word c || bool_decide (c ∈ ["."; "{"; "}"; "-"]%char)) (chomp s).

Definition _validate_file_name_template (info : dict) (v : json) : result exc json :=
  match v with
  | JStr value =>
      if negb (FILE_NAME_PATTERN value) then
        Raise (ValueError "Template contains invalid characters")
      else if negb (str_contains "{extension}" value && str_contains "{index}" value) then
        Raise (ValueError "Missing required placeholders")
      else if negb (str_contains "{run_id}" value) && negb (str_contains "{run_created_at}" value) then
        Raise (ValueError "At least one of placeholders must be present")
      else
        match py_format value [("index", StrValue ""); ("extension", StrValue ""); ("run_created_at", StrValue "");
            ("run_id", StrValue "")] with
        | Ok _ => Ok v
        | Raise (KeyError k) => Raise (ValueError ("Invalid placeholder: " +:+ k))
        | Raise e => Raise e
        end
  | _ => Ok v
  end.
End Format.

(** [PurePosixPath(value).is_absolute()] *)
Definition _directory_path_is_valid_path (value : json) : result exc unit :=
  match value with
  | JStr s => if String.prefix "/" s then Ok tt else Raise (ValueError "Directory path must be absolute")
  | _ => Raise TypeError
  end.

(** ** File formats *)

Definition ORCCompression := ["none"; "snappy"; "zlib"; "lz4"].
Definition ParquetCompression := ["none"; "snappy"; "gzip"; "lz4"].
Definition JSONCompression := ["none"; "bzip2"; "gzip"; "lz4"; "snappy"; "deflate"].
Definition CSVCompression := ["none"; "bzip2"; "gzip"; "lz4"; "snappy"; "deflate"].
Definition XMLCompression := ["none"; "bzip2"; "gzip"; "lz4"; "snappy"].

Definition nl : string := String newline "".
Definition dquote : string := String (ascii_of_nat 34) "".

Definition CSV : list Field :=
  [tag "csv"; opt "delimiter" FStr (JStr ","); opt "encoding" FStr (JStr "utf-8");
   opt "quote" FStr (JStr dquote); opt "escape" FStr (JStr "\"); opt "include_header" FBool (JBool false);
   opt "line_sep" FStr (JStr nl); opt "compression" (FLiteral CSVCompression) (JStr "gzip")].
Definition JSONLine : list Field :=
  [tag "jsonline"; opt "encoding" FStr (JStr "utf-8"); opt "line_sep" FStr (JStr nl);
   opt "compression" (FLiteral JSONCompression) (JStr "gzip")].
Definition JSON : list Field :=
  [tag "json"; opt "encoding" FStr (JStr "utf-8"); opt "line_sep" FStr (JStr nl);
   opt "compression" (FLiteral JSONCompression) (JStr "gzip")].
Definition Excel : list Field :=
  [tag "excel"; opt "include_header" FBool (JBool false); opt "start_cell" (FOpt FStr) JNull].
Definition XML : list Field :=
  [tag "xml"; req "root_tag" FStr; req "row_tag" FStr;
   opt "compression" (FLiteral XMLCompression) (JStr "gzip")].
Definition ORC : list Field := [tag "orc"; opt "compression" (FLiteral ORCCompression) (JStr "zlib")].
Definition Parquet : list Field :=
  [tag "parquet"; opt "compression" (FLiteral ParquetCompression) (JStr "snappy")].

Definition TARGET_FILE_FORMAT : list (string * list Field) :=
  [("csv", CSV); ("jsonline", JSONLine); ("excel", Excel); ("xml", XML); ("orc", ORC);
   ("parquet", Parquet)].
Definition SOURCE_FILE_FORMAT : list (string * list Field) := TARGET_FILE_FORMAT ++ [("json", JSON)].

Definition directory_path_field : Field :=
  req "directory_path" (FBefore _directory_path_is_valid_path FStr).
Definition options_field : Field := opt "options" FDict (JObj []).

Definition FileTransferSource (type : string) : list Field :=
  [directory_path_field; req "file_format" (FUnion SOURCE_FILE_FORMAT); options_field;
   req "type" (FLiteral [type])].
Definition FileTransferTarget `{PyLib} (type : string) : list Field :=
  [directory_path_field; req "file_format" (FUnion TARGET_FILE_FORMAT);
   mkField "file_name_template" None FStr (Some (JStr "{run_created_at}-{index}.{extension}"))
     false _validate_file_name_template;
   options_field; req "type" (FLiteral [type])].

(** ** Transformations *)

Definition simple_filter (types : list string) : list (string * list Field) :=
  (fun t => (t, [req "field" FStr; tag t])) <$> types.
Definition value_filter (types : list string) : list (string * list Field) :=
  (fun t => (t, [req "field" FStr; tag t; req "value" FStr])) <$> types.

Definition RowsFilter : list (string * list Field) :=
  simple_filter ["is_null"; "is_not_null"] ++
  value_filter ["equal"; "not_equal"; "greater_than"; "greater_or_equal"; "less_than"; "less_or_equal";
                "like"; "ilike"; "not_like"; "not_ilike"; "regexp"].
Definition ColumnsFilter : list (string * list Field) :=
  [("include", [req "field" FStr; tag "include"]);
   ("rename", [req "field" FStr; tag "rename"; req "to" FStr]);
   ("cast", [req "field" FStr; tag "cast"; req "as_type" FStr])].

(** [glob.has_magic] *)
Fixpoint has_magic (s : string) : bool :=
  match s with
  | EmptyString => false
  | String c s' => bool_decide (c ∈ ["*"; "?"; "["]%char) || has_magic s'
  end.
Definition _validate_glob (value : json) : result exc unit :=
  match value with
  | JStr s => if has_magic s then Ok tt else Raise (ValueError "Invalid glob")
  | _ => Raise TypeError
  end.
Definition _validate_regexp `{PyLib} (value : json) : result exc unit :=
  match value with
  | JStr s => if re_compiles s then Ok tt else Raise (ValueError "Invalid regexp")
  | _ => Raise TypeError
  end.
Definition MetadataFilter `{PyLib} : list (string * list Field) :=
  [("name_glob", [tag "name_glob"; req "value" (FBefore _validate_glob FStr)]);
   ("name_regexp", [tag "name_regexp"; req "value" (FBefore _validate_regexp FStr)]);
   ("file_size_min", [tag "file_size_min"; req "value" (FByteSize None None)]);
   ("file_size_max", [tag "file_size_max"; req "value" (FByteSize None None)])].

(** the case-insensitive regular expressions of [sql.py] *)
Fixpoint skip_spaces (s : string) : string :=
  match s with
  | String c s' => if is_space c then skip_spaces s' else s
  | EmptyString => EmptyString
  end.
(** [s] starts with [w], then a word boundary *)
Fixpoint starts_word (w s : string) : bool :=
  match w, s with
  | EmptyString, EmptyString => true
  | EmptyString, String c _ => negb (is_word c)
  | String a w', String b s' =>
      Ascii.eqb (char_map lower_char a) (char_map lower_char b) && starts_word w' s'
  | _, _ => false
  end.
Fixpoint skip_prefix (n : nat) (s : string) : string :=
  match n, s with
  | S n', String _ s' => skip_prefix n' s'
  | _, _ => s
  end.
Definition starts_space (s : string) : bool :=
  match s with String c _ => is_space c | EmptyString => false end.

Definition ALLOWED_QUERY_TYPE (s : string) : bool :=
  let s' := skip_spaces s in starts_word "SELECT" s' || starts_word "WITH" s'.
Fixpoint from_source_go (prev_word : bool) (s : string) : bool :=
  match s with
  | EmptyString => false
  | String c s' =>
      (negb prev_word && starts_word "FROM" s && starts_space (skip_prefix 4 s)
       && starts_word "source" (skip_spaces (skip_prefix 4 s)))
      || from_source_go (is_word c) s'
  end.
Definition QUERY_CONTAINS_FROM_SOURCE (s : string) : bool := from_source_go false s.

Definition _validate_query (info : dict) (v : json) : result exc json :=
  match v with
  | JStr s =>
      if negb (ALLOWED_QUERY_TYPE s) then Raise (ValueError "Query must be a SELECT statement")
      else if negb (QUERY_CONTAINS_FROM_SOURCE s)
      then Raise (ValueError "Query must contain `FROM source` clause") else Ok v
  | _ => Ok v
  end.

Definition filters_field (alts : list (string * list Field)) : Field :=
  opt "filters" (FList (FUnion alts)) (JList []).
Definition TransformationSchema `{PyLib} : list (string * list Field) :=
  [("dataframe_rows_filter", [req "type" (FLiteral ["dataframe_rows_filter"]); filters_field RowsFilter]);
   ("dataframe_columns_filter", [tag "dataframe_columns_filter"; filters_field ColumnsFilter]);
   ("file_metadata_filter", [tag "file_metadata_filter"; filters_field MetadataFilter]);
   ("sql", [tag "sql"; mkField "query" None FStr None false _validate_query;
            opt "dialect" (FLiteral ["spark"]) (JStr "spark")])].

(** ** Strategy and resources *)

Definition Strategy : list (string * list Field) :=
  [("full", [tag "full"]); ("incremental", [tag "incremental"; req "increment_by" FStr])].

Definition ONE_MB : Z := 2 ^ 20.
Definition ONE_GB : Z := 2 ^ 30.
Definition Resources : list Field :=
  [opt "max_parallel_tasks" (FIntIn 1 100) (JInt 1);
   opt "cpu_cores_per_task" (FIntIn 1 32) (JInt 1);
   opt "ram_bytes_per_task" (FByteSize (Some (512 * ONE_MB)) (Some (64 * ONE_GB))) (JInt ONE_GB)].
Definition default_resources : json :=
  JObj [("max_parallel_tasks", JInt 1); ("cpu_cores_per_task", JInt 1);
        ("ram_bytes_per_task", JInt ONE_GB)].

(** ** Transfers *)

Definition DB_CONNECTION_TYPES : list string :=
  ["clickhouse"; "hive"; "iceberg"; "mssql"; "mysql"; "oracle"; "postgres"].
Definition FILE_CONNECTION_TYPES : list string :=
  ["ftp"; "ftps"; "hdfs"; "s3"; "samba"; "sftp"; "webdav"].

Definition db_alternatives : list (string * list Field) :=
  (fun t => (t, if String.eqb t "iceberg" then IcebergTransferSourceOrTarget
                else DBTransferSourceOrTarget t)) <$> DB_CONNECTION_TYPES.
Definition TransferSchemaSource : list (string * list Field) :=
  db_alternatives ++ ((fun t => (t, FileTransferSource t)) <$> FILE_CONNECTION_TYPES).
Definition TransferSchemaTarget `{PyLib} : list (string * list Field) :=
  db_alternatives ++ ((fun t => (t, FileTransferTarget t)) <$> FILE_CONNECTION_TYPES).

(** [value or None] on a falsy [schedule] *)
Definition validate_scheduling (info : dict) (value : json) : result exc json :=
  let scheduled := match dict_get "is_scheduled" info with Some v => json_truthy v | None => false end in
  if negb (json_truthy value) && scheduled
  then Raise (ValueError "If transfer must be scheduled then set schedule")
  else Ok (if json_truthy value then value else JNull).

Definition validate_strategy (info : dict) (value : json) : result exc json :=
  let d := obj_of (Some value) in
  if String.eqb (str_of (dict_get "type" d)) "incremental" then
    source ← or_raise (dict_get "source_params" info) (KeyError "source_params");
    let source_type := str_of (dict_get "type" (obj_of (Some source))) in
    if bool_decide (source_type ∈ ["s3"; "hdfs"]) then
      Raise (ValueError "S3 and HDFS sources do not support incremental strategy for now")
    else if bool_decide (source_type ∈ FILE_CONNECTION_TYPES)
         && negb (bool_decide (str_of (dict_get "increment_by" d) ∈ ["file_modified_since"; "file_name"]))
    then Raise (ValueError "Field 'increment_by' must be equal to 'file_modified_since' or 'file_name'")
    else Ok value
  else Ok value.

Section Transfers.
Context `{PyLib}.

Definition transfer_fields (after_strategy after_schedule : dict -> json -> result exc json)
    : list Field :=
  [req "group_id" FInt; req "queue_id" FInt; req "source_connection_id" FInt;
   req "target_connection_id" FInt; req "name" NameConstr; opt "description" FStr (JStr "");
   req "source_params" (FUnion TransferSchemaSource);
   req "target_params" (FUnion TransferSchemaTarget);
   mkField "strategy_params" None (FUnion Strategy) (Some (JObj [("type", JStr "full")])) false
     after_strategy;
   opt "transformations" (FList (FUnion TransformationSchema)) (JList []);
   opt "resources" (FModel Resources) default_resources;
   opt "is_scheduled" FBool (JBool false);
   mkField "schedule" None (FOpt FStr) (Some JNull) true after_schedule].

Definition TransferSchema : list Field := transfer_fields keep keep.
Definition CreateTransferSchema : list Field := transfer_fields validate_strategy validate_scheduling.
Definition ReadTransferSchema : list Field := TransferSchema ++ [req "id" FInt].

Definition CopyTransferSchema : list Field :=
  [req "new_group_id" FInt; req "new_queue_id" FInt;
   opt "new_source_connection_name" (FOpt NameConstr) JNull;
   opt "new_target_connection_name" (FOpt NameConstr) JNull;
   opt "new_name" (FOpt NameConstr) JNull; opt "remove_source" FBool (JBool false)].
End Transfers.

(** a value of [CreateTransferSchema] *)
Record TransferBody := mkTransferBody {
  tb_group_id : Z;
  tb_queue_id : Z;
  tb_source_connection_id : Z;
  tb_target_connection_id : Z;
  tb_name : string;
  tb_description : string;
  tb_source_type : ConnectionType;      (* [source_params.type] *)
  tb_source_params : dict;
  tb_target_type : ConnectionType;
  tb_target_params : dict;
  tb_strategy_params : dict;
  tb_transformations : list dict;
  tb_resources : dict;
  tb_is_scheduled : bool;
  tb_schedule : option string;
}.

Definition params_type (d : dict) : ConnectionType :=
  default POSTGRES (connection_type_of_str (str_of (dict_get "type" d))).

Definition dicts_of (j : option json) : list dict :=
  match j with Some (JList l) => (fun x => obj_of (Some x)) <$> l | _ => [] end.

Definition transfer_body (d : dict) : TransferBody :=
  mkTransferBody (int_Z (dict_get "group_id" d)) (int_Z (dict_get "queue_id" d))
    (int_Z (dict_get "source_connection_id" d)) (int_Z (dict_get "target_connection_id" d))
    (str_of (dict_get "name" d)) (str_of (dict_get "description" d))
    (params_type (obj_of (dict_get "source_params" d))) (obj_of (dict_get "source_params" d))
    (params_type (obj_of (dict_get "target_params" d))) (obj_of (dict_get "target_params" d))
    (obj_of (dict_get "strategy_params" d)) (dicts_of (dict_get "transformations" d))
    (obj_of (dict_get "resources" d)) (bool_of (dict_get "is_scheduled" d))
    (opt_str_of (dict_get "schedule" d)).

(** the attributes of a row, as [from_attributes] reads them *)
Definition transfer_attributes (t : Transfer) : dict :=
  [("id", JInt (transfer_id t)); ("group_id", JInt (transfer_group_id t));
   ("queue_id", JInt (transfer_queue_id t));
   ("source_connection_id", JInt (source_connection_id t));
   ("target_connection_id", JInt (target_connection_id t));
   ("name", JStr (transfer_name t)); ("description", JStr (transfer_description t));
   ("source_params", JObj (source_params t)); ("target_params", JObj (target_params t));
   ("strategy_params", JObj (strategy_params t));
   ("transformations", JList (JObj <$> transformations t)); ("resources", JObj (resources t));
   ("is_scheduled", JBool (is_scheduled t)); ("schedule", JStr (schedule t))].

Section Parse.
Context `{PydanticCore} `{PyLib}.

Definition parse_create_transfer (j : json) : result exc TransferBody :=
  d ← model_validate validate CreateTransferSchema j;
  Ok (transfer_body d).

(** [ReadTransferSchema.model_validate(transfer, from_attributes=True)] *)
Definition read_transfer_schema (t : Transfer) : result exc dict :=
  model_validate validate ReadTransferSchema (JObj (transfer_attributes t)).
End Parse.
