(* ===== verification/Repository.v ===== *)
(** * Repositories: the base class and the owned resources
    ([db/repositories/base.py], [db/repositories/repository_with_owner.py])

    [Query] is a SELECT being built: where clauses and an ORDER BY list.  The
    order of rows that ORDER BY leaves open is PostgreSQL's; the model keeps the
    order of the keys there. *)

From S2P Require Import Prelude PyData Models Errors Database Integrity Search.

(** [except IntegrityError as e: self._raise_error(e)] *)
Definition except_integrity {A} (raise_error : string -> exc) (m : M A) : M A :=
  catch m (fun e => match e with
                    | IntegrityError constraint => Some (raise (raise_error constraint))
                    | _ => None
                    end).

(** [except c as e: raise e'] *)
Definition except_class {A} (p : exc -> bool) (e' : exc) (m : M A) : M A :=
  catch m (fun e => if p e then Some (raise e') else None).

Definition is_NoResultFound (e : exc) : bool := isinstance e CNoResultFound.
Definition is_EntityNotFoundError (e : exc) : bool := isinstance e CEntityNotFoundError.

(** ** Queries *)

Record Query (R : Type) := mkQuery {
  q_where : list (DB -> R -> bool);
  q_order : list (R -> R -> comparison);
}.
Arguments mkQuery {R}.
Arguments q_where {R} _.
Arguments q_order {R} _.

Section QueryOps.
Context {R : Type}.

Definition select_all : Query R := mkQuery [] [].
Definition where_ (p : DB -> R -> bool) (q : Query R) : Query R :=
  mkQuery (q_where q ++ [p]) (q_order q).
Definition order_by (c : R -> R -> comparison) (q : Query R) : Query R :=
  mkQuery (q_where q) (q_order q ++ [c]).
(** [if cond is not None: stmt = stmt.where(...)] *)
Definition where_opt {A} (o : option A) (p : A -> DB -> R -> bool) (q : Query R) : Query R :=
  match o with Some a => where_ (p a) q | None => q end.

Fixpoint lex_compare (cs : list (R -> R -> comparison)) (a b : R) : comparison :=
  match cs with
  | [] => Eq
  | c :: cs' => match c a b with Eq => lex_compare cs' a b | r => r end
  end.
Definition order_le (cs : list (R -> R -> comparison)) (a b : R) : Prop :=
  lex_compare cs a b <> Gt.
#[export] Instance order_le_dec cs : RelDecision (order_le cs).
Proof. intros a b. unfold order_le. apply _. Defined.

Definition matches (db : DB) (q : Query R) (r : R) : bool :=
  forallb (fun p => p db r) (q_where q).

(** the rows the statement returns, in order, before LIMIT and OFFSET *)
Definition run_query (rows : list R) (db : DB) (q : Query R) : list R :=
  merge_sort (order_le (q_order q)) (filter (fun r => matches db q r = true) rows).
End QueryOps.

(** [.limit(page_size).offset((page - 1) * page_size)] *)
Definition page_slice {A} (rows : list A) (page page_size : Z) : list A :=
  take (Z.to_nat page_size) (drop (Z.to_nat ((page - 1) * page_size)) rows).

Definition paginate_list {A} (rows : list A) (page page_size : Z) : Pagination A :=
  make_pagination (page_slice rows page page_size) page page_size (Z.of_nat (length rows)).

(** ** [Repository] *)

Section Base.
Context {K R : Type} `{Table K R}.

Definition rows_of (db : DB) : list R := snd <$> map_to_list (tbl db).

Definition _read_by_id (id : K) : M R :=
  obj ← select_by_key id;
  match obj with
  | None => raise (EntityNotFoundError "")
  | Some obj => mret obj
  end.

(** [select(Model).where(pk = id)], then [.one()] *)
Definition select_one (id : K) : M R :=
  obj ← select_by_key id;
  match obj with
  | None => raise NoResultFound
  | Some obj => mret obj
  end.

(** [set kwargs] is the row with the values of [kwargs], everything else,
    the timestamps included, as in the origin; the id is a new one *)
Definition _copy (id : K) (seq : SeqName) (set : Z -> R -> R) : M R :=
  origin_model ← select_one id;
  insert_new seq (fun i => set i origin_model).

Definition _update (id : K) (set : R -> R) : M R :=
  obj ← update_row id set;
  match obj with
  | Some obj => mret obj
  | None => raise (EntityNotFoundError "")
  end.

Definition _delete (id : K) : M R :=
  obj ← delete_row (R := R) id;
  match obj with
  | Some obj => mret obj
  | None => raise NoResultFound
  end.

Definition _paginate_raw_result {A} (query : DB -> list A) (page page_size : Z)
  : M (Pagination A) :=
  gets (fun s => paginate_list (query (working s)) page page_size).

Definition _paginate_scalar_result (query : Query R) (page page_size : Z)
  : M (Pagination R) :=
  gets (fun s => paginate_list (run_query (rows_of (working s)) (working s) query) page page_size).

Definition _construct_vector_search `{TextSearch} (search_vector : R -> TsVector)
    (ts_query : TsQuery) (query : Query R) : Query R :=
  order_by (fun a b => ts_rank (search_vector b) ts_query ?= ts_rank (search_vector a) ts_query)
    (where_ (fun _ r => ts_match (search_vector r) ts_query) query).
End Base.

(** [if search_query: stmt = self._construct_vector_search(...)] *)
Definition search_opt `{TextSearch} {R} (search_vector : R -> TsVector)
    (search_query : option string) (query : Query R) : Query R :=
  match search_query with
  | Some s => if String.eqb s "" then query
              else _construct_vector_search search_vector (make_tsquery s) query
  | None => query
  end.

(** ** [RepositoryWithOwner]: models with a [group_id] *)

Class Owned (R : Type) `{!Table Z R} := resource_group_id : R -> Z.
#[export] Instance ConnectionOwned : Owned Connection := conn_group_id.
#[export] Instance QueueOwned : Owned Queue := queue_group_id.
#[export] Instance TransferOwned : Owned Transfer := transfer_group_id.

(** [exists(select(Group).where(owner_id = user, id = group))] *)
Definition owner_query (db : DB) (uid gid : Z) : bool :=
  match groups db !! gid with
  | Some g => group_owner_id g =? uid
  | None => false
  end.

(** [select(UserGroup).where(group_id = group, user_id = user)] *)
Definition group_role_query (db : DB) (uid gid : Z) : option UserGroup :=
  user_groups db !! (uid, gid).

Section Owner.
Context {R : Type} `{Owned R}.

(** the same two queries, joined with the resource *)
Definition resource_owner_query (db : DB) (uid rid : Z) : bool :=
  match tbl (R := R) db !! rid with
  | Some r => owner_query db uid (resource_group_id r)
  | None => false
  end.
Definition resource_role_query (db : DB) (uid rid : Z) : option UserGroup :=
  match tbl (R := R) db !! rid with
  | Some r => group_role_query db uid (resource_group_id r)
  | None => None
  end.

Definition get_resource_permission (user : User) (resource_id : Z) : M Permission :=
  is_exists ← select_by_key (R := R) resource_id;
  match is_exists with
  | None => mret NONE
  | Some _ =>
      if is_superuser user then mret DELETE
      else
        is_owner ← gets (fun s => resource_owner_query (working s) (user_id user) resource_id);
        match is_owner with
        | true => mret DELETE
        | false =>
            user_group ← gets (fun s => resource_role_query (working s) (user_id user) resource_id);
            match user_group with
            | None => mret NONE
            | Some ug =>
                if decide (ug_role ug = Maintainer) then mret DELETE
                else if decide (ug_role ug = Developer) then mret WRITE
                else mret READ
            end
        end
  end.
End Owner.

Definition get_group_permission (user : User) (gid : Z) : M Permission :=
  g ← select_by_key (R := Group) gid;
  match g with
  | None => raise GroupNotFoundError
  | Some _ =>
      if is_superuser user then mret DELETE
      else
        is_owner ← gets (fun s => owner_query (working s) (user_id user) gid);
        match is_owner with
        | true => mret DELETE
        | false =>
            user_group ← gets (fun s => group_role_query (working s) (user_id user) gid);
            match user_group with
            | None => mret NONE
            | Some ug =>
                if decide (ug_role ug = Maintainer) then mret DELETE
                else if decide (ug_role ug = Developer) then mret WRITE
                else mret READ
            end
        end
  end.

(** ** What the base operations keep *)

Lemma except_integrity_wf {A} f (m : M A) P : preserves P m -> preserves P (except_integrity f m).
Proof.
  intros Hm. apply preserves_catch; [done|]. intros [] k [= <-]; apply preserves_raise.
Qed.
Lemma except_class_wf {A} p e (m : M A) P : preserves P m -> preserves P (except_class p e m).
Proof.
  intros Hm. apply preserves_catch; [done|]. intros e' k. destruct (p e'); [|done].
  intros [= <-]. apply preserves_raise.
Qed.
Lemma except_integrity_no_commit {A} f (m : M A) : no_commit m -> no_commit (except_integrity f m).
Proof. intros Hm. apply no_commit_catch; [done|]. by intros [] k [= <-]. Qed.
Lemma except_class_no_commit {A} p e (m : M A) : no_commit m -> no_commit (except_class p e m).
Proof.
  intros Hm. apply no_commit_catch; [done|]. intros e' k. destruct (p e'); [|done].
  by intros [= <-].
Qed.

Section BaseFacts.
Context {K R : Type} `{Table K R}.

Lemma _read_by_id_read_only (id : K) : read_only (_read_by_id (R := R) id).
Proof. apply read_only_bind; [done|]. by intros []. Qed.
Lemma select_one_read_only (id : K) : read_only (select_one (R := R) id).
Proof. apply read_only_bind; [done|]. by intros []. Qed.

Section Keeps.
Context (P : Session -> Prop) `{!KeepsSession P, !KeepsTable P R}.
Lemma _copy_keeps (id : K) seq set : preserves P (_copy (R := R) id seq set).
Proof.
  apply preserves_bind; [apply read_only_preserves, select_one_read_only|].
  intros r. by apply keeps_insert_new.
Qed.
Lemma _update_keeps (id : K) (set : R -> R) :
  (forall r, row_key r = id -> row_key (set r) = id) -> preserves P (_update id set).
Proof.
  intros Hs. apply preserves_bind; [by apply keeps_update|].
  intros []; [apply preserves_ret|apply preserves_raise].
Qed.
Lemma _delete_keeps (id : K) : preserves P (_delete (R := R) id).
Proof.
  apply preserves_bind; [apply keeps_delete|].
  intros []; [apply preserves_ret|apply preserves_raise].
Qed.
End Keeps.

Lemma _copy_no_commit (id : K) seq set : no_commit (_copy (R := R) id seq set).
Proof.
  apply no_commit_bind; [apply no_commit_read_only, select_one_read_only|].
  intros r. apply no_commit_insert_new.
Qed.
Lemma _update_no_commit (id : K) (set : R -> R) : no_commit (_update id set).
Proof. apply no_commit_bind; [apply no_commit_update|]. by intros []. Qed.
Lemma _delete_no_commit (id : K) : no_commit (_delete (R := R) id).
Proof. apply no_commit_bind; [apply no_commit_delete|]. by intros []. Qed.
End BaseFacts.

Lemma get_resource_permission_read_only {R} `{Owned R} u i :
  read_only (get_resource_permission (R := R) u i).
Proof.
  apply read_only_bind; [done|]. intros [r|]; [|done]. case_match; [done|].
  apply read_only_bind; [done|]. intros []; [done|].
  apply read_only_bind; [done|]. intros []; repeat case_match; done.
Qed.

Lemma get_group_permission_read_only u i : read_only (get_group_permission u i).
Proof.
  apply read_only_bind; [done|]. intros [r|]; [|done]. case_match; [done|].
  apply read_only_bind; [done|]. intros []; [done|].
  apply read_only_bind; [done|]. intros []; repeat case_match; done.
Qed.

#[export] Hint Resolve except_integrity_wf except_class_wf except_integrity_no_commit
  except_class_no_commit _copy_no_commit _update_no_commit
  _delete_no_commit _read_by_id_read_only select_one_read_only
  get_resource_permission_read_only get_group_permission_read_only : se.
#[export] Hint Resolve read_only_preserves | 5 : se.

(** ** Inverting a run that succeeded *)

Lemma mret_ok {A} (a a' : A) (s s' : Session) : (mret a : M A) s = (Ok a', s') -> a' = a /\ s' = s.
Proof. by intros [= <- <-]. Qed.
Lemma gets_ok {A} (f : Session -> A) a s s' :
  (gets f : M A) s = (Ok a, s') -> a = f s /\ s' = s.
Proof. by intros [= <- <-]. Qed.
Lemma reads_ok {A} (f : Session -> result exc A) a s s' :
  (reads f : M A) s = (Ok a, s') -> f s = Ok a /\ s' = s.
Proof. by intros [= ? <-]. Qed.
Lemma raise_ok {A} e (a : A) s s' : (raise e : M A) s = (Ok a, s') -> False.
Proof. done. Qed.
Lemma when_ok b e u (s s' : Session) : (when b e : M unit) s = (Ok u, s') -> b = false /\ s' = s.
Proof. destruct b; [done|]. by intros [= <- <-]. Qed.

Lemma except_integrity_ok {A} f (m : M A) s a s' :
  except_integrity f m s = (Ok a, s') -> m s = (Ok a, s').
Proof. unfold except_integrity, catch. destruct (m s) as [[x|[]] s1]; naive_solver. Qed.
Lemma except_class_ok {A} p e (m : M A) s a s' :
  except_class p e m s = (Ok a, s') -> m s = (Ok a, s').
Proof.
  unfold except_class, catch. destruct (m s) as [[x|x] s1]; [done|]. by destruct (p x).
Qed.

Lemma read_only_run {A} (m : M A) s r s' : read_only m -> m s = (r, s') -> s' = s.
Proof. intros Hm Hr. specialize (Hm s). unfold final in Hm. by rewrite Hr in Hm. Qed.

Section StatementsOk.
Context {K R : Type} `{Table K R}.

Lemma insert_row_ok (r a : R) s s' : insert_row r s = (Ok a, s') ->
  a = r /\ tbl (working s) !! row_key r = None /\ check_row (working s) r = Ok tt /\
  s' = set_working (with_tbl (<[row_key r := r]> (tbl (working s))) (working s)) s.
Proof.
  unfold insert_row. destruct (sizes_ok r); cbn; [|done].
  destruct (tbl (working s) !! row_key r); [done|].
  destruct (check_row (working s) r) as [[]|]; [|done]. by intros [= <- <-].
Qed.

Lemma insert_new_ok q (mk : Z -> R) a s s' : insert_new q mk s = (Ok a, s') ->
  let i := seqs s q in
  let s1 := final (nextval q) s in
  a = mk i /\ tbl (working s) !! row_key (mk i) = None /\ check_row (working s) (mk i) = Ok tt /\
  s' = set_working (with_tbl (<[row_key (mk i) := mk i]> (tbl (working s))) (working s)) s1.
Proof.
  unfold insert_new. intros (i & s1 & [= <- <-] & Hr)%bind_ok.
  by apply insert_row_ok in Hr as (-> & ? & ? & ->).
Qed.

Lemma update_row_ok (k : K) (f : R -> R) o s s' : update_row k f s = (Ok o, s') ->
  (tbl (working s) !! k = None /\ o = None /\ s' = s) \/
  exists r, tbl (working s) !! k = Some r /\
    let r' := touch (clock s) (f r) in
    o = Some r' /\ check_row (working s) r' = Ok tt /\
    s' = set_working (with_tbl (<[k := r']> (tbl (working s))) (working s)) s.
Proof.
  unfold update_row. destruct (tbl (working s) !! k) as [r|]; [|intros [= <- <-]; by left].
  destruct (check_row _ _) as [[]|] eqn:Hc; [|done]. intros [= <- <-]. right. eauto.
Qed.

Lemma _update_ok (k : K) (f : R -> R) a s s' : _update k f s = (Ok a, s') ->
  exists r, tbl (working s) !! k = Some r /\ a = touch (clock s) (f r) /\
    check_row (working s) a = Ok tt /\
    s' = set_working (with_tbl (<[k := a]> (tbl (working s))) (working s)) s.
Proof.
  unfold _update. intros (o & s1 & Hu & Ho)%bind_ok.
  apply update_row_ok in Hu as [(_ & -> & ->)|(r & Hr & -> & Hc & ->)]; [done|].
  apply mret_ok in Ho as [-> ->]. eauto.
Qed.

Lemma delete_row_ok (k : K) (o : option R) s s' : delete_row k s = (Ok o, s') ->
  (tbl (R := R) (working s) !! k = None /\ o = None /\ s' = s) \/
  exists r, tbl (working s) !! k = Some r /\ o = Some r /\
    s' = set_working (cascade (with_tbl (delete k (tbl (R := R) (working s))) (working s))) s.
Proof.
  unfold delete_row. destruct (tbl (working s) !! k) as [r|]; intros [= <- <-]; eauto.
Qed.

Lemma _delete_ok (k : K) (a : R) s s' : _delete k s = (Ok a, s') ->
  tbl (working s) !! k = Some a /\
  s' = set_working (cascade (with_tbl (delete k (tbl (R := R) (working s))) (working s))) s.
Proof.
  unfold _delete. intros (o & s1 & Hd & Ho)%bind_ok.
  apply delete_row_ok in Hd as [(_ & -> & ->)|(r & Hr & -> & ->)]; [done|].
  by apply mret_ok in Ho as [-> ->].
Qed.

Lemma select_one_ok (k : K) (a : R) s s' : select_one k s = (Ok a, s') ->
  tbl (working s) !! k = Some a /\ s' = s.
Proof.
  unfold select_one. intros (o & s1 & [= <- <-] & Ho)%bind_ok.
  destruct (tbl (working s) !! k); [|done]. by apply mret_ok in Ho as [-> ->].
Qed.
End StatementsOk.

(** decompose every hypothesis that says a computation succeeded *)
Ltac inv_ok_step :=
  match goal with
  | H : (_ ≫= _) _ = (Ok _, _) |- _ => apply bind_ok in H as (? & ? & ? & H)
  | H : mret _ _ = (Ok _, _) |- _ => apply mret_ok in H as [? ?]; subst
  | H : SE_ret _ _ _ = (Ok _, _) |- _ => apply mret_ok in H as [? ?]; subst
  | H : gets _ _ = (Ok _, _) |- _ => apply gets_ok in H as [? ?]; subst
  | H : reads _ _ = (Ok _, _) |- _ => apply reads_ok in H as [? ?]; subst
  | H : raise _ _ = (Ok _, _) |- _ => by apply raise_ok in H
  | H : when _ _ _ = (Ok _, _) |- _ => apply when_ok in H as [? ?]; subst
  | H : except_integrity _ _ _ = (Ok _, _) |- _ => apply except_integrity_ok in H
  | H : except_class _ _ _ _ = (Ok _, _) |- _ => apply except_class_ok in H
  | H : select_one _ _ = (Ok _, _) |- _ => apply select_one_ok in H as [? ?]; subst
  | H : _delete _ _ = (Ok _, _) |- _ => apply _delete_ok in H as [? ?]; subst
  end.
Ltac inv_ok := repeat inv_ok_step.

(** a unit of work that succeeded committed what its body left *)
Lemma unit_of_work_ok {A} (m : M A) s a s' : unit_of_work m s = (Ok a, s') ->
  exists s1, m s = (Ok a, s1) /\ s' = commit s1.
Proof. unfold unit_of_work. destruct (m s) as [[x|e] s1]; [|done]. intros [= <- <-]. eauto. Qed.

(** skip a step that only reads *)
Lemma bind_read_ok {A B} (m : M A) (f : A -> M B) s b s' : read_only m -> (m ≫= f) s = (Ok b, s') ->
  exists a, m s = (Ok a, s) /\ f a s = (Ok b, s').
Proof.
  intros Hm (a & s1 & Ha & Hb)%bind_ok. pose proof (read_only_run _ _ _ _ Hm Ha) as ->. eauto.
Qed.
