(* ===== verification/Repositories.v ===== *)
(** * The repositories ([db/repositories])

    One Module per repository class, its methods under their own names.  Each
    method is an [M] computation on the session; [_raise_error] maps the name of
    a violated constraint to the exception the method raises instead. *)

From S2P Require Import Prelude PyData Models Errors Database Integrity Search Repository.

(** ** [GroupRepository] *)

Module GroupRepository.
(** the two constraints that also look at the detail text match PostgreSQL's
    only message for a missing referenced row *)
Definition _raise_error (constraint : string) : exc :=
  if String.eqb constraint "fk__group__owner_id__user" then UserNotFoundError
  else if String.eqb constraint "uq__group__name" then GroupAlreadyExistsError
  else if String.eqb constraint "pk__user_group" then AlreadyIsGroupMemberError
  else if String.eqb constraint "fk__user_group__group_id__group" then GroupNotFoundError
  else if String.eqb constraint "fk__user_group__user_id__user" then UserNotFoundError
  else SyncmasterError.

(** an item [{"data": group, "role": role}] *)
Record Item := mkItem { item_data : Group; item_role : GroupMemberRole }.

Definition paginate_for_superuser `{TextSearch} (page page_size : Z)
    (search_query : option string) : M (Pagination Item) :=
  let stmt := search_opt group_search_vector search_query select_all in
  paginated_result ← _paginate_scalar_result
    (order_by (fun a b => collate (group_name a) (group_name b)) stmt) page page_size;
  let items := (fun group => mkItem group Superuser) <$> pg_items paginated_result in
  mret (make_pagination items page page_size (pg_total paginated_result)).

Definition owned_groups_stmt `{TextSearch} (current_user_id : Z) (search_query : option string)
    : Query Group :=
  search_opt group_search_vector search_query
    (order_by (fun a b => collate (group_name a) (group_name b))
      (where_ (fun _ g => group_owner_id g =? current_user_id) select_all)).

(** [select(UserGroup).join(Group)] *)
Definition user_group_rows (db : DB) : list (UserGroup * Group) :=
  omap (fun ug => (fun g => (ug, g)) <$> groups db !! ug_group_id ug) (rows_of db).

Definition user_groups_stmt `{TextSearch} (current_user_id : Z)
    (roles : option (list GroupMemberRole)) (search_query : option string)
    : Query (UserGroup * Group) :=
  search_opt (fun x => group_search_vector x.2) search_query
    (where_opt roles (fun rs _ x => bool_decide (ug_role x.1 ∈ rs))
      (order_by (fun a b => collate (group_name a.2) (group_name b.2))
        (where_ (fun _ x => ug_user_id x.1 =? current_user_id) select_all))).

(** [if role: GroupMemberRole(role)]; the constructor of the enum raises
    [ValueError] on a text that is not a role *)
Definition parse_role (role : option string) : result exc (option GroupMemberRole) :=
  match role with
  | None => Ok None
  | Some r =>
      if String.eqb r "" then Ok None
      else match role_of_str r with
           | Some role => Ok (Some role)
           | None => Raise (ValueError r)
           end
  end.

Definition paginate_for_user `{TextSearch} (page page_size current_user_id : Z)
    (role : option string) (search_query : option string) : M (Pagination Item) :=
  role ← reads (fun _ => parse_role role);
  let roles := roles_at_least <$> role in
  let with_owned := match role with
                    | Some r => is_at_least_privilege_level Owner r
                    | None => true
                    end in
  owned_groups ← gets (fun s =>
    if with_owned then
      (fun group => mkItem group Owner) <$>
        run_query (rows_of (working s)) (working s) (owned_groups_stmt current_user_id search_query)
    else []);
  user_groups ← gets (fun s =>
    (fun x => mkItem x.2 (ug_role x.1)) <$>
      run_query (user_group_rows (working s)) (working s)
        (user_groups_stmt current_user_id roles search_query));
  let combined_groups := owned_groups ++ user_groups in
  let total_count := Z.of_nat (length owned_groups) + Z.of_nat (length user_groups) in
  mret (make_pagination (page_slice combined_groups page page_size) page page_size total_count).

Definition read_by_id (group_id : Z) : M Group :=
  except_class is_NoResultFound GroupNotFoundError (select_one group_id).

Definition create (name description : string) (owner_id : Z) : M Group :=
  t ← now;
  except_integrity _raise_error
    (insert_new SeqGroup (fun i => mkGroup i name description owner_id t t)).

Definition update (group_id : Z) (name description : string) (owner_id : Z) : M Group :=
  except_integrity _raise_error
    (except_class is_EntityNotFoundError GroupNotFoundError
      (_update group_id (fun g =>
        mkGroup (Models.group_id g) name description owner_id
          (group_created_at g) (group_updated_at g)))).

Definition get_member_role (user : User) (group_id : Z) : M GroupMemberRole :=
  if is_superuser user then mret Superuser
  else
    user_group ← select_by_key (R := UserGroup) (user_id user, group_id);
    mret (match user_group with Some ug => ug_role ug | None => Owner end).

Definition update_member_role (group_id user_id : Z) (role : GroupMemberRole) : M UserGroup :=
  obj ← except_integrity _raise_error
    (update_row (user_id, group_id) (fun _ => mkUserGroup user_id group_id role));
  match obj with
  | None => raise UserNotFoundError
  | Some obj => mret obj
  end.

(** the rows of [select(User, UserGroup.role)] of the active members *)
Definition member_rows (db : DB) (group_id : Z) : list (User * GroupMemberRole) :=
  omap (fun ug =>
    u ← users db !! ug_user_id ug;
    if is_active u && (ug_group_id ug =? group_id) then Some (u, ug_role ug) else None)
    (rows_of db).

Definition get_member_paginate `{TextSearch} (page page_size group_id : Z)
    : M (Pagination (User * GroupMemberRole)) :=
  group ← read_by_id group_id;
  _paginate_raw_result (fun db =>
    merge_sort (order_le [fun a b => collate (username a.1) (username b.1)])
      (member_rows db (Models.group_id group))) page page_size.

Definition delete (group_id : Z) : M unit :=
  _ ← except_class (fun e => is_EntityNotFoundError e || is_NoResultFound e) GroupNotFoundError
    (_delete (R := Group) group_id);
  mret tt.

Definition add_user (group_id new_user_id : Z) (role : GroupMemberRole) : M unit :=
  _ ← except_integrity _raise_error (insert_row (mkUserGroup new_user_id group_id role));
  mret tt.

Definition get_group_permission (user : User) (group_id : Z) : M Permission :=
  g ← select_by_key (R := Group) group_id;
  match g with
  | None => raise GroupNotFoundError
  | Some _ =>
      if is_superuser user then mret DELETE
      else
        is_owner ← gets (fun s => owner_query (working s) (user_id user) group_id);
        match is_owner with
        | true => mret DELETE
        | false =>
            user_group ← gets (fun s => group_role_query (working s) (user_id user) group_id);
            mret (match user_group with Some _ => READ | None => NONE end)
        end
  end.

Definition get_user_group (group_id user_id : Z) : M (option UserGroup) :=
  select_by_key (user_id, group_id).

Definition delete_user (group_id target_user_id : Z) : M unit :=
  user_group ← select_by_key (R := UserGroup) (target_user_id, group_id);
  match user_group with
  | None => raise AlreadyIsNotGroupMemberError
  | Some ug =>
      _ ← delete_row (R := UserGroup) (ug_user_id ug, ug_group_id ug);
      mret tt
  end.
End GroupRepository.

(** ** [ConnectionRepository] *)

Module ConnectionRepository.
Definition _raise_error (constraint : string) : exc :=
  if String.eqb constraint "fk__connection__group_id__group" then GroupNotFoundError
  else if String.eqb constraint "fk__connection__user_id__user" then UserNotFoundError
  else if String.eqb constraint "ck__connection__owner_constraint" then ConnectionOwnerError
  else if String.eqb constraint "uq__connection__name_group_id" then DuplicatedConnectionNameError
  else SyncmasterError.

Definition paginate `{TextSearch} (page page_size group_id : Z) (search_query : option string)
    (connection_type : option (list string)) : M (Pagination Connection) :=
  let stmt := where_ (fun _ c => conn_group_id c =? group_id) select_all in
  let stmt := search_opt connection_search_vector search_query stmt in
  let stmt := where_opt connection_type
                (fun types _ c => bool_decide (connection_type_value (conn_type c) ∈ types)) stmt in
  _paginate_scalar_result (order_by (fun a b => collate (conn_name a) (conn_name b)) stmt)
    page page_size.

Definition read_by_id (connection_id : Z) : M Connection :=
  except_class is_NoResultFound ConnectionNotFoundError (select_one connection_id).

Definition create (group_id : Z) (type : ConnectionType) (name description : string)
    (data : dict) : M Connection :=
  t ← now;
  except_integrity _raise_error
    (insert_new SeqConnection (fun i => mkConnection i name group_id description type data t t)).

Definition update (connection_id : Z) (name : string) (type : ConnectionType)
    (description : string) (data : dict) : M Connection :=
  except_integrity _raise_error
    (_update connection_id (fun c =>
      mkConnection (conn_id c) name (conn_group_id c) description type data
        (conn_created_at c) (conn_updated_at c))).

Definition delete (connection_id : Z) : M unit :=
  _ ← except_class (fun e => is_NoResultFound e || is_EntityNotFoundError e)
        ConnectionNotFoundError (_delete (R := Connection) connection_id);
  mret tt.

Definition copy (connection_id new_group_id : Z) (new_name : option string) : M Connection :=
  except_integrity _raise_error
    (_copy connection_id SeqConnection (fun i c =>
      mkConnection i (default (conn_name c) new_name) new_group_id (conn_description c)
        (conn_type c) (conn_data c) (conn_created_at c) (conn_updated_at c))).
End ConnectionRepository.

(** ** [CredentialsRepository] *)

(** Fernet and the [json] text codec; the key of the settings is [secret_key] *)
Class Cipher := {
  secret_key : string;
  fernet_encrypt : string -> string -> string;                  (* key, text *)
  fernet_decrypt : string -> string -> result exc string;
  json_dumps : json -> string;
  json_loads : string -> result exc json;
}.

Definition key_le (a b : string * json) : Prop := String.leb a.1 b.1 = true.
#[export] Instance key_le_dec : RelDecision key_le.
Proof. intros a b. unfold key_le. apply _. Defined.

(** [sort_keys=True] *)
Fixpoint sort_keys (j : json) : json :=
  match j with
  | JObj d => JObj (merge_sort key_le ((fix go (d : dict) : dict :=
                      match d with
                      | [] => []
                      | (k, v) :: d' => (k, sort_keys v) :: go d'
                      end) d))
  | JList l => JList ((fix go (l : list json) : list json :=
                      match l with
                      | [] => []
                      | x :: l' => sort_keys x :: go l'
                      end) l)
  | _ => j
  end.

Section Crypt.
Context `{Cipher}.

Definition decrypt_auth_data (value : string) : result exc json :=
  decrypted ← fernet_decrypt secret_key value;
  json_loads decrypted.

Definition encrypt_auth_data (value : dict) : string :=
  fernet_encrypt secret_key (json_dumps (sort_keys (JObj value))).
End Crypt.

Module CredentialsRepository.
Definition _raise_error (constraint : string) : exc := SyncmasterError.

Definition read `{Cipher} (connection_id : Z) : M json :=
  row ← except_class is_NoResultFound
    (AuthDataNotFoundError ("Connection id = " +:+ str_of_Z connection_id))
    (select_one (R := AuthData) connection_id);
  reads (fun _ => decrypt_auth_data (auth_value row)).

Definition read_bulk `{Cipher} (connection_ids : list Z) : M (list (Z * json)) :=
  reads (fun s =>
    mapM (fun item => (fun v => (auth_connection_id item, v)) <$> decrypt_auth_data (auth_value item))
      (filter (fun a => auth_connection_id a ∈ connection_ids) (rows_of (working s)))).

Definition create `{Cipher} (connection_id : Z) (data : dict) : M AuthData :=
  t ← now;
  except_integrity _raise_error
    (insert_row (mkAuthData connection_id (encrypt_auth_data data) t t)).

Definition update `{Cipher} (connection_id : Z) (data : dict) : M AuthData :=
  except_integrity _raise_error
    (_update connection_id (fun a =>
      mkAuthData (auth_connection_id a) (encrypt_auth_data data)
        (auth_created_at a) (auth_updated_at a))).
End CredentialsRepository.

(** ** [QueueRepository] *)

Module QueueRepository.
Definition _raise_error (constraint : string) : exc :=
  if String.eqb constraint "uq__queue__slug" then DuplicatedQueueNameError else SyncmasterError.

(** [queue_data] has [name], [group_id], [description] and [slug] *)
Definition create (name : string) (group_id : Z) (description slug : string) : M Queue :=
  t ← now;
  except_integrity _raise_error
    (insert_new SeqQueue (fun i => mkQueue i name group_id description slug t t)).

Definition read_by_id (queue_id : Z) : M Queue :=
  except_class is_NoResultFound QueueNotFoundError (select_one queue_id).

Definition paginate `{TextSearch} (page page_size group_id : Z) (search_query : option string)
    : M (Pagination Queue) :=
  let stmt := where_ (fun _ q => queue_group_id q =? group_id) select_all in
  let stmt := search_opt queue_search_vector search_query stmt in
  _paginate_scalar_result (order_by (fun a b => queue_id a ?= queue_id b) stmt) page page_size.

Definition update (queue_id : Z) (name description : string) : M Queue :=
  except_integrity _raise_error
    (_update queue_id (fun q =>
      mkQueue (Models.queue_id q) name (queue_group_id q) description (queue_slug q)
        (queue_created_at q) (queue_updated_at q))).

Definition delete (queue_id : Z) : M unit :=
  _ ← except_class (fun e => is_NoResultFound e || is_EntityNotFoundError e)
        QueueNotFoundError (_delete (R := Queue) queue_id);
  mret tt.

(** what a member of the group may do with its queues *)
Definition member_permission (user_group : option UserGroup) : Permission :=
  match user_group with
  | None => NONE
  | Some ug => if decide (ug_role ug = Maintainer) then DELETE else READ
  end.

Definition get_group_permission (user : User) (group_id : Z) : M Permission :=
  g ← select_by_key (R := Group) group_id;
  match g with
  | None => raise GroupNotFoundError
  | Some _ =>
      if is_superuser user then mret DELETE
      else
        is_owner ← gets (fun s => owner_query (working s) (user_id user) group_id);
        match is_owner with
        | true => mret DELETE
        | false =>
            user_group ← gets (fun s => group_role_query (working s) (user_id user) group_id);
            mret (member_permission user_group)
        end
  end.

Definition get_resource_permission (user : User) (resource_id : Z) : M Permission :=
  is_exists ← select_by_key (R := Queue) resource_id;
  match is_exists with
  | None => mret NONE
  | Some _ =>
      if is_superuser user then mret DELETE
      else
        is_owner ← gets (fun s => resource_owner_query (R := Queue) (working s) (user_id user) resource_id);
        match is_owner with
        | true => mret DELETE
        | false =>
            user_group ← gets (fun s =>
              resource_role_query (R := Queue) (working s) (user_id user) resource_id);
            mret (member_permission user_group)
        end
  end.
End QueueRepository.

(** ** [TransferRepository] *)

Module TransferRepository.
Definition _raise_error (constraint : string) : exc :=
  if String.eqb constraint "fk__transfer__group_id__group" then GroupNotFoundError
  else if String.eqb constraint "fk__transfer__user_id__user" then UserNotFoundError
  else if String.eqb constraint "fk__transfer__source_connection_id__connection"
       || String.eqb constraint "fk__transfer__target_connection_id__connection"
       then ConnectionNotFoundError
  else if String.eqb constraint "ck__transfer__owner_constraint" then TransferOwnerError
  else if String.eqb constraint "fk__transfer__queue_id__queue" then QueueNotFoundError
  else if String.eqb constraint "uq__transfer__name_group_id" then DuplicatedTransferNameError
  else SyncmasterError.

Record Filters := mkFilters {
  f_search_query : option string;
  f_source_connection_id : option Z;
  f_target_connection_id : option Z;
  f_queue_id : option Z;
  f_source_connection_type : option (list string);
  f_target_connection_type : option (list string);
  f_is_scheduled : option bool;
}.
Definition no_filters : Filters := mkFilters None None None None None None None.

(** the join with a connection and the filter on its type *)
Definition connection_type_in (cid : Transfer -> Z) (types : list string) (db : DB) (t : Transfer) : bool :=
  match connections db !! cid t with
  | Some c => bool_decide (connection_type_value (conn_type c) ∈ types)
  | None => false
  end.

Definition paginate_stmt `{TextSearch} (group_id : Z) (f : Filters) : Query Transfer :=
  let stmt := where_ (fun _ t => transfer_group_id t =? group_id) select_all in
  let stmt := search_opt transfer_search_vector (f_search_query f) stmt in
  let stmt := where_opt (f_source_connection_id f)
                (fun i _ t => source_connection_id t =? i) stmt in
  let stmt := where_opt (f_target_connection_id f)
                (fun i _ t => target_connection_id t =? i) stmt in
  let stmt := where_opt (f_queue_id f) (fun i _ t => transfer_queue_id t =? i) stmt in
  let stmt := where_opt (f_is_scheduled f) (fun b _ t => Bool.eqb (is_scheduled t) b) stmt in
  let stmt := where_opt (f_source_connection_type f) (connection_type_in source_connection_id) stmt in
  where_opt (f_target_connection_type f) (connection_type_in target_connection_id) stmt.

Definition paginate `{TextSearch} (page page_size group_id : Z) (f : Filters)
    : M (Pagination Transfer) :=
  _paginate_scalar_result
    (order_by (fun a b => collate (transfer_name a) (transfer_name b)) (paginate_stmt group_id f))
    page page_size.

Definition read_by_id (transfer_id : Z) : M Transfer :=
  except_class is_NoResultFound TransferNotFoundError (select_one transfer_id).

Definition create (group_id source_connection_id target_connection_id : Z)
    (name description : string) (source_params target_params strategy_params : dict)
    (transformations : list dict) (resources : dict) (queue_id : Z) (is_scheduled : bool)
    (schedule : option string) : M Transfer :=
  t ← now;
  except_integrity _raise_error
    (insert_new SeqTransfer (fun i =>
      mkTransfer i name group_id description source_connection_id target_connection_id
        strategy_params source_params target_params transformations resources
        is_scheduled (default "" schedule) queue_id t t)).

Definition update (transfer_id : Z) (name description : string)
    (source_connection_id target_connection_id : Z)
    (source_params target_params strategy_params : dict) (transformations : list dict)
    (resources : dict) (is_scheduled : bool) (schedule : option string) (queue_id : Z)
    : M Transfer :=
  except_integrity _raise_error
    (_update transfer_id (fun t =>
      mkTransfer (Models.transfer_id t) name (transfer_group_id t) description
        source_connection_id target_connection_id
        strategy_params source_params target_params transformations resources
        is_scheduled (default "" schedule) queue_id
        (transfer_created_at t) (transfer_updated_at t))).

Definition delete (transfer_id : Z) : M unit :=
  _ ← except_class (fun e => is_NoResultFound e || is_EntityNotFoundError e)
        TransferNotFoundError (_delete (R := Transfer) transfer_id);
  mret tt.

Definition copy (transfer_id new_queue_id : Z)
    (new_group_id new_source_connection new_target_connection : option Z)
    (new_name : option string) : M Transfer :=
  except_integrity _raise_error
    (_copy transfer_id SeqTransfer (fun i t =>
      mkTransfer i (default (transfer_name t) new_name)
        (default (transfer_group_id t) new_group_id) (transfer_description t)
        (default (source_connection_id t) new_source_connection)
        (default (target_connection_id t) new_target_connection)
        (strategy_params t) (source_params t) (target_params t) (transformations t)
        (resources t) (is_scheduled t) (schedule t) new_queue_id
        (transfer_created_at t) (transfer_updated_at t))).

Definition list_by_connection_id (conn_id : Z) : M (list Transfer) :=
  gets (fun s => filter (fun t => source_connection_id t = conn_id \/ target_connection_id t = conn_id)
                   (rows_of (working s))).
End TransferRepository.

(** ** [RunRepository] *)

Module RunRepository.
Definition _raise_error (constraint : string) : exc :=
  if String.eqb constraint "fk__run__transfer_id__transfer" then TransferNotFoundError
  else SyncmasterError.

(** a comparison with NULL selects nothing *)
Definition started_where (p : Z -> bool) (r : Run) : bool :=
  match run_started_at r with Some t => p t | None => false end.

Definition paginate (transfer_id page page_size : Z) (status : option (list Status))
    (started_at_since started_at_until : option Z) : M (Pagination Run) :=
  let query := where_ (fun _ r => run_transfer_id r =? transfer_id) select_all in
  let query := match status with
               | None | Some [] => query
               | Some st => where_ (fun _ r => bool_decide (run_status r ∈ st)) query
               end in
  let query := where_opt started_at_since (fun t _ => started_where (fun x => t <=? x)) query in
  let query := where_opt started_at_until (fun t _ => started_where (fun x => x <=? t)) query in
  _paginate_scalar_result (order_by (fun a b => run_created_at b ?= run_created_at a) query)
    page page_size.

Definition read_by_id (run_id : Z) : M Run :=
  run ← select_by_key run_id;
  match run with
  | None => raise RunNotFoundError
  | Some run => mret run
  end.

(** [creds["auth_data"]] *)
Definition creds_item (creds : dict) : M json :=
  reads (fun _ => or_raise (dict_get "auth_data" creds) (KeyError "auth_data")).

(** a relationship of the transfer: [None] has no attributes *)
Definition transfer_connection (cid : Z) : M Connection :=
  c ← select_by_key cid;
  match c with Some c => mret c | None => raise AttributeError end.

Definition dump_connection (c : Connection) (auth_data : json) : json :=
  JObj [("id", JInt (conn_id c)); ("group_id", JInt (conn_group_id c));
        ("name", JStr (conn_name c)); ("description", JStr (conn_description c));
        ("data", JObj (conn_data c)); ("auth_data", auth_data)].

Definition read_full_serialized_transfer (transfer_id : Z) (source_creds target_creds : dict)
    : M dict :=
  transfer ← select_one (R := Transfer) transfer_id;
  source ← transfer_connection (source_connection_id transfer);
  source_auth ← creds_item source_creds;
  target ← transfer_connection (target_connection_id transfer);
  target_auth ← creds_item target_creds;
  mret [("id", JInt (Models.transfer_id transfer));
        ("name", JStr (transfer_name transfer));
        ("group_id", JInt (transfer_group_id transfer));
        ("queue_id", JInt (transfer_queue_id transfer));
        ("source_connection_id", JInt (source_connection_id transfer));
        ("target_connection_id", JInt (target_connection_id transfer));
        ("is_scheduled", JBool (is_scheduled transfer));
        ("description", JStr (transfer_description transfer));
        ("schedule", JStr (schedule transfer));
        ("source_params", JObj (source_params transfer));
        ("target_params", JObj (target_params transfer));
        ("strategy_params", JObj (strategy_params transfer));
        ("source_connection", dump_connection source source_auth);
        ("target_connection", dump_connection target target_auth)].

Definition create (transfer_id : Z) (source_creds target_creds : dict) (type : RunType) : M Run :=
  transfer_dump ← read_full_serialized_transfer transfer_id source_creds target_creds;
  t ← now;
  except_integrity _raise_error
    (insert_new SeqRun (fun i =>
      mkRun i transfer_id None None CREATED type None transfer_dump t t)).

Definition set_status (status : Status) (r : Run) : Run :=
  mkRun (run_id r) (run_transfer_id r) (run_started_at r) (run_ended_at r) status
    (run_type r) (run_log_url r) (run_transfer_dump r) (run_created_at r) (run_updated_at r).

(** [kwargs] is only ever [status] *)
Definition update (run_id : Z) (status : Status) : M Run :=
  except_integrity _raise_error (_update run_id (set_status status)).

Definition stop (run_id : Z) : M Run :=
  run ← read_by_id run_id;
  _ ← when (negb (bool_decide (run_status run ∈ [CREATED; STARTED])))
        (CannotStopRunError run_id (run_status run));
  _update run_id (set_status SEND_STOP_SIGNAL).
End RunRepository.

(** ** [UserRepository] *)

Module UserRepository.
Definition _raise_error (constraint : string) : exc :=
  if String.eqb constraint "ix__user__username" then UsernameAlreadyExistsError else SyncmasterError.

Definition paginate `{TextSearch} (page page_size : Z) (is_superuser : bool)
    (search_query : option string) : M (Pagination User) :=
  let stmt := match search_query with
              | Some s => if String.eqb s "" then select_all
                          else where_ (fun _ u => trgm_similar (username u) s) select_all
              | None => select_all
              end in
  let stmt := if negb is_superuser then where_ (fun _ u => is_active u) stmt else stmt in
  _paginate_scalar_result (order_by (fun a b => collate (username a) (username b)) stmt)
    page page_size.

Definition read_by_id (user_id : Z) : M User :=
  except_class is_EntityNotFoundError UserNotFoundError (_read_by_id user_id).

Definition read_by_username (username : string) : M User :=
  rows ← gets (fun s => select_where (fun u => String.eqb (Models.username u) username) (working s));
  match rows with
  | [u] => mret u
  | _ => raise (EntityNotFoundError "")
  end.

Definition update (user_id : Z) (data : User -> User) : M User :=
  except_integrity _raise_error
    (except_class is_EntityNotFoundError UserNotFoundError (_update user_id data)).

Definition create (username : string) (email first_name middle_name last_name : option string)
    (is_superuser : bool) : M User :=
  t ← now;
  except_integrity _raise_error
    (insert_new SeqUser (fun i =>
      mkUser i username email first_name last_name middle_name is_superuser true t t)).
End UserRepository.
