(* ===== verification/RepositoryFacts.v ===== *)
(** * What every repository method keeps

    For each method: it keeps every predicate that the statements on its tables keep
    ([_keeps]) and commits nothing ([_nc]), or it does not touch the session at all
    ([_ro]).  The lemmas
    are hints of the database [se], which [solve_se] uses to walk through the
    endpoints of the server. *)

From S2P Require Import Prelude PyData Models Errors Database Integrity Search Repository.
From S2P Require Import Repositories.

Lemma catch_read_only {A} (m : M A) h : read_only m -> (forall e k, h e = Some k -> read_only k) ->
  read_only (catch m h).
Proof.
  intros Hm Hh s. specialize (Hm s). unfold final, catch in *.
  destruct (m s) as [[a|e] s']; [done|]. cbn in Hm. subst s'.
  destruct (h e) as [k|] eqn:Hk; [|done]. by apply (Hh _ _ Hk).
Qed.
Lemma except_class_read_only {A} p e (m : M A) : read_only m -> read_only (except_class p e m).
Proof.
  intros Hm. apply catch_read_only; [done|]. intros e' k. destruct (p e'); [|done]. by intros [= <-].
Qed.
(** walk through a monadic body: binds, branches and the operations of [se] *)
Ltac se_step :=
  first
    [ done
    | solve [ eauto 3 with se nocore ]
    | apply preserves_gets | apply preserves_ret | apply preserves_raise
    | apply keeps_insert_new; typeclasses eauto | apply keeps_insert | apply keeps_delete
    | apply _copy_keeps; typeclasses eauto | apply _delete_keeps; typeclasses eauto
    | apply no_commit_insert_new | apply no_commit_insert | apply no_commit_delete
    | apply no_commit_update | apply _copy_no_commit | apply _delete_no_commit
    | apply _update_no_commit
    | apply select_one_read_only
    | apply read_only_bind; [|intros ?]
    | apply preserves_bind; [|intros ?]
    | apply no_commit_bind; [|intros ?]
    | apply keeps_unit_of_work; [typeclasses eauto|]
    | apply unit_of_work_atomic
    | apply catch_read_only; [|intros ? ?; try (case_match; [|done]); intros [= <-]]
    | apply preserves_catch; [|intros ? ?; try (case_match; [|done]); intros [= <-]]
    | apply except_integrity_wf
    | apply except_class_wf
    | apply except_integrity_no_commit
    | apply except_class_no_commit
    | apply _update_keeps; [typeclasses eauto..|done]
    | apply keeps_update; done
    | match goal with
      | |- context [match ?x with _ => _ end] =>
          lazymatch goal with
          | |- _ (match x with _ => _ end) => destruct x
          | |- _ _ (match x with _ => _ end) => destruct x
          end
      end ].
Ltac solve_se := cbv zeta; repeat se_step.

#[export] Hint Resolve except_class_read_only : se.

Section Group.
Context (P : Session -> Prop) `{!KeepsSession P} `{!KeepsTable P Group, !KeepsTable P UserGroup}.
Context `{TextSearch}.
Import GroupRepository.
Lemma group_read_by_id_ro i : read_only (read_by_id i).
Proof. apply except_class_read_only, select_one_read_only. Qed.
Lemma group_paginate_for_superuser_ro p n q : read_only (paginate_for_superuser p n q).
Proof. unfold paginate_for_superuser. solve_se. Qed.
Lemma group_paginate_for_user_ro p n u r q : read_only (paginate_for_user p n u r q).
Proof. unfold paginate_for_user. solve_se. Qed.
Lemma group_get_member_role_ro u i : read_only (get_member_role u i).
Proof. unfold get_member_role. solve_se. Qed.
Lemma group_get_member_paginate_ro p n i : read_only (get_member_paginate p n i).
Proof. apply read_only_bind; [apply group_read_by_id_ro|done]. Qed.
Lemma group_get_group_permission_ro u i : read_only (get_group_permission u i).
Proof. unfold get_group_permission. solve_se. Qed.
Lemma group_get_user_group_ro g u : read_only (get_user_group g u).
Proof. done. Qed.

Lemma group_create_keeps n d o : preserves P (create n d o).
Proof. unfold create. solve_se. Qed.
Lemma group_update_keeps i n d o : preserves P (update i n d o).
Proof. unfold update. solve_se. Qed.
Lemma group_update_member_role_keeps g u r : preserves P (update_member_role g u r).
Proof. unfold update_member_role. solve_se. Qed.
Lemma group_delete_keeps i : preserves P (delete i).
Proof. unfold delete. solve_se. Qed.
Lemma group_add_user_keeps g u r : preserves P (add_user g u r).
Proof. unfold add_user. solve_se. Qed.
Lemma group_delete_user_keeps g u : preserves P (delete_user g u).
Proof. unfold delete_user. solve_se. Qed.

Lemma group_create_nc n d o : no_commit (create n d o).
Proof. unfold create. solve_se. Qed.
Lemma group_update_nc i n d o : no_commit (update i n d o).
Proof. unfold update. solve_se. Qed.
Lemma group_update_member_role_nc g u r : no_commit (update_member_role g u r).
Proof. unfold update_member_role. solve_se. Qed.
Lemma group_delete_nc i : no_commit (delete i).
Proof. unfold delete. solve_se. Qed.
Lemma group_add_user_nc g u r : no_commit (add_user g u r).
Proof. unfold add_user. solve_se. Qed.
Lemma group_delete_user_nc g u : no_commit (delete_user g u).
Proof. unfold delete_user. solve_se. Qed.
End Group.

Section Connection.
Context (P : Session -> Prop) `{!KeepsSession P} `{!KeepsTable P Connection}.
Context `{TextSearch}.
Import ConnectionRepository.
Lemma connection_paginate_ro p n g q t : read_only (paginate p n g q t).
Proof. done. Qed.
Lemma connection_read_by_id_ro i : read_only (read_by_id i).
Proof. apply except_class_read_only, select_one_read_only. Qed.
Lemma connection_create_keeps g t n d x : preserves P (create g t n d x).
Proof. unfold create. solve_se. Qed.
Lemma connection_update_keeps i n t d x : preserves P (update i n t d x).
Proof. unfold update. solve_se. Qed.
Lemma connection_delete_keeps i : preserves P (delete i).
Proof. unfold delete. solve_se. Qed.
Lemma connection_copy_keeps i g n : preserves P (copy i g n).
Proof. unfold copy. solve_se. Qed.
Lemma connection_create_nc g t n d x : no_commit (create g t n d x).
Proof. unfold create. solve_se. Qed.
Lemma connection_update_nc i n t d x : no_commit (update i n t d x).
Proof. unfold update. solve_se. Qed.
Lemma connection_delete_nc i : no_commit (delete i).
Proof. unfold delete. solve_se. Qed.
Lemma connection_copy_nc i g n : no_commit (copy i g n).
Proof. unfold copy. solve_se. Qed.
End Connection.

Section Credentials.
Context (P : Session -> Prop) `{!KeepsSession P} `{!KeepsTable P AuthData}.
Context `{Cipher}.
Import CredentialsRepository.
Lemma credentials_read_ro i : read_only (read i).
Proof. unfold read. solve_se. Qed.
Lemma credentials_read_bulk_ro l : read_only (read_bulk l).
Proof. done. Qed.
Lemma credentials_create_keeps i d : preserves P (create i d).
Proof. unfold create. solve_se. Qed.
Lemma credentials_update_keeps i d : preserves P (update i d).
Proof. unfold update. solve_se. Qed.
Lemma credentials_create_nc i d : no_commit (create i d).
Proof. unfold create. solve_se. Qed.
Lemma credentials_update_nc i d : no_commit (update i d).
Proof. unfold update. solve_se. Qed.
End Credentials.

Section Queue.
Context (P : Session -> Prop) `{!KeepsSession P} `{!KeepsTable P Queue}.
Context `{TextSearch}.
Import QueueRepository.
Lemma queue_read_by_id_ro i : read_only (read_by_id i).
Proof. apply except_class_read_only, select_one_read_only. Qed.
Lemma queue_paginate_ro p n g q : read_only (paginate p n g q).
Proof. done. Qed.
Lemma queue_get_group_permission_ro u i : read_only (get_group_permission u i).
Proof. unfold get_group_permission. solve_se. Qed.
Lemma queue_get_resource_permission_ro u i : read_only (get_resource_permission u i).
Proof. unfold get_resource_permission. solve_se. Qed.
Lemma queue_create_keeps n g d sl : preserves P (create n g d sl).
Proof. unfold create. solve_se. Qed.
Lemma queue_update_keeps i n d : preserves P (update i n d).
Proof. unfold update. solve_se. Qed.
Lemma queue_delete_keeps i : preserves P (delete i).
Proof. unfold delete. solve_se. Qed.
Lemma queue_create_nc n g d sl : no_commit (create n g d sl).
Proof. unfold create. solve_se. Qed.
Lemma queue_update_nc i n d : no_commit (update i n d).
Proof. unfold update. solve_se. Qed.
Lemma queue_delete_nc i : no_commit (delete i).
Proof. unfold delete. solve_se. Qed.
End Queue.

Section Transfer.
Context (P : Session -> Prop) `{!KeepsSession P} `{!KeepsTable P Transfer}.
Context `{TextSearch}.
Import TransferRepository.
Lemma transfer_paginate_ro p n g f : read_only (paginate p n g f).
Proof. done. Qed.
Lemma transfer_read_by_id_ro i : read_only (read_by_id i).
Proof. apply except_class_read_only, select_one_read_only. Qed.
Lemma transfer_list_by_connection_id_ro i : read_only (list_by_connection_id i).
Proof. done. Qed.
Lemma transfer_create_keeps g a b n d x y z w v q i k :
  preserves P (create g a b n d x y z w v q i k).
Proof. unfold create. solve_se. Qed.
Lemma transfer_update_keeps t n d a b x y z w v i k q :
  preserves P (update t n d a b x y z w v i k q).
Proof. unfold update. solve_se. Qed.
Lemma transfer_delete_keeps i : preserves P (delete i).
Proof. unfold delete. solve_se. Qed.
Lemma transfer_copy_keeps i q g a b n : preserves P (copy i q g a b n).
Proof. unfold copy. solve_se. Qed.
Lemma transfer_create_nc g a b n d x y z w v q i k : no_commit (create g a b n d x y z w v q i k).
Proof. unfold create. solve_se. Qed.
Lemma transfer_update_nc t n d a b x y z w v i k q : no_commit (update t n d a b x y z w v i k q).
Proof. unfold update. solve_se. Qed.
Lemma transfer_delete_nc i : no_commit (delete i).
Proof. unfold delete. solve_se. Qed.
Lemma transfer_copy_nc i q g a b n : no_commit (copy i q g a b n).
Proof. unfold copy. solve_se. Qed.
End Transfer.

Section Run.
Context (P : Session -> Prop) `{!KeepsSession P} `{!KeepsTable P Run}.
Import RunRepository.
Lemma run_paginate_ro t p n st a b : read_only (paginate t p n st a b).
Proof. done. Qed.
Lemma run_read_by_id_ro i : read_only (read_by_id i).
Proof. unfold read_by_id. solve_se. Qed.
Lemma run_transfer_connection_ro i : read_only (transfer_connection i).
Proof. unfold transfer_connection. solve_se. Qed.
Lemma run_serialized_ro t a b : read_only (read_full_serialized_transfer t a b).
Proof.
  unfold read_full_serialized_transfer.
  repeat first [ done | apply select_one_read_only | apply run_transfer_connection_ro
               | apply read_only_bind; [|intros ?] ].
Qed.
Lemma run_create_keeps t a b k : preserves P (create t a b k).
Proof.
  apply preserves_bind; [apply read_only_preserves, run_serialized_ro|]. intros d. solve_se.
Qed.
Lemma run_update_keeps i st : preserves P (update i st).
Proof. unfold update. solve_se. Qed.
Lemma run_stop_keeps i : preserves P (stop i).
Proof.
  apply preserves_bind; [apply read_only_preserves, run_read_by_id_ro|]. intros r. solve_se.
Qed.
Lemma run_create_nc t a b k : no_commit (create t a b k).
Proof.
  apply no_commit_bind; [apply no_commit_read_only, run_serialized_ro|]. intros d. solve_se.
Qed.
Lemma run_update_nc i st : no_commit (update i st).
Proof. unfold update. solve_se. Qed.
Lemma run_stop_nc i : no_commit (stop i).
Proof.
  apply no_commit_bind; [apply no_commit_read_only, run_read_by_id_ro|]. intros r. solve_se.
Qed.
End Run.

Section User.
Context (P : Session -> Prop) `{!KeepsSession P} `{!KeepsTable P User}.
Context `{TextSearch}.
Import UserRepository.
Lemma user_paginate_ro p n b q : read_only (paginate p n b q).
Proof. done. Qed.
Lemma user_read_by_id_ro i : read_only (read_by_id i).
Proof. apply except_class_read_only, _read_by_id_read_only. Qed.
Lemma user_read_by_username_ro n : read_only (read_by_username n).
Proof. apply read_only_bind; [done|]. by intros [|? []]. Qed.
Lemma user_create_keeps a b c d e f : preserves P (create a b c d e f).
Proof. unfold create. solve_se. Qed.
Lemma user_create_nc a b c d e f : no_commit (create a b c d e f).
Proof. unfold create. solve_se. Qed.
End User.

#[export] Hint Resolve group_read_by_id_ro group_paginate_for_superuser_ro group_paginate_for_user_ro
  group_get_member_role_ro group_get_member_paginate_ro group_get_group_permission_ro
  group_get_user_group_ro group_create_keeps group_update_keeps group_update_member_role_keeps
  group_delete_keeps group_add_user_keeps group_delete_user_keeps group_create_nc group_update_nc
  group_update_member_role_nc group_delete_nc group_add_user_nc group_delete_user_nc : se.
#[export] Hint Resolve connection_paginate_ro connection_read_by_id_ro connection_create_keeps
  connection_update_keeps connection_delete_keeps connection_copy_keeps connection_create_nc
  connection_update_nc connection_delete_nc connection_copy_nc credentials_read_ro
  credentials_read_bulk_ro credentials_create_keeps credentials_update_keeps credentials_create_nc
  credentials_update_nc : se.
#[export] Hint Resolve queue_read_by_id_ro queue_paginate_ro queue_get_group_permission_ro
  queue_get_resource_permission_ro queue_create_keeps queue_update_keeps queue_delete_keeps
  queue_create_nc queue_update_nc queue_delete_nc : se.
#[export] Hint Resolve transfer_paginate_ro transfer_read_by_id_ro transfer_list_by_connection_id_ro
  transfer_create_keeps transfer_update_keeps transfer_delete_keeps transfer_copy_keeps
  transfer_create_nc transfer_update_nc transfer_delete_nc transfer_copy_nc : se.
#[export] Hint Resolve run_paginate_ro run_read_by_id_ro run_create_keeps run_update_keeps run_stop_keeps
  run_create_nc run_update_nc run_stop_nc user_paginate_ro user_read_by_id_ro
  user_read_by_username_ro user_create_keeps user_create_nc : se.

(** invert the first step of a successful run, a step that only reads *)
Ltac skip_read H := let a := fresh "a" in let Ha := fresh "Hrun" in
  apply bind_read_ok in H as (a & Ha & H);
  [| solve [ eauto 3 with se nocore | apply group_get_group_permission_ro | apply group_read_by_id_ro
           | apply run_read_by_id_ro | solve_se ] ].
