(* ===== verification/Auth.v ===== *)
(** * Authentication ([server/services/get_user.py], [server/providers/auth])

    [AuthProvider] is the interface the endpoints see; [DummyAuthProvider] and
    [OAuth2GatewayProvider] are its instances here.  PyJWT and Keycloak are the
    parameters [Jwt] and [Keycloak]. *)

From S2P Require Import Prelude PyData Models Errors Database Integrity Search Repository.
From S2P Require Import Repositories RepositoryFacts Deletion.

Class AuthProvider := {
  get_current_user : option string -> M User;
}.

(** what a sign-in does to the database: nothing, or it stores one user under a new id and
    a new name, active and no superuser *)
Inductive signed_in (db : DB) : DB -> Prop :=
| signed_in_same : signed_in db db
| signed_in_new u : users db !! user_id u = None ->
    (forall i v, users db !! i = Some v -> username v <> username u) ->
    is_active u = true -> is_superuser u = false ->
    signed_in db (with_tbl (<[user_id u := u]> (users db)) db).
(** it is committed, and the user that is returned is stored *)
Definition signs_in (s : Session) (r : result exc User) (s' : Session) : Prop :=
  signed_in (committed s) (committed s') /\ working s' = committed s' /\
  forall u, r = Ok u -> users (committed s') !! user_id u = Some u.

(** what the endpoints rely on *)
Class AuthProviderLaws `{AuthProvider} := {
  get_current_user_keeps : forall P `{!KeepsSession P, !KeepsTable P User} t,
    preserves P (get_current_user t);
  get_current_user_atomic : forall t, atomic (get_current_user t);
  get_current_user_signs_in : forall t s r s', db_wf (working s) -> working s = committed s ->
    get_current_user t s = (r, s') -> signs_in s r s';
}.

(** the inner [wrapper] of [get_user], on the access token of the request *)
Definition get_user `{AuthProvider} (is_superuser : bool) (access_token : option string) : M User :=
  user ← get_current_user access_token;
  if negb (is_active user) then raise (ActionNotAllowedError "Inactive user")
  else if is_superuser && negb (Models.is_superuser user)
  then raise (ActionNotAllowedError "You have no power here")
  else mret user.

(** ** Tokens *)

(** [jwt.encode] and [jwt.decode] under the configured key and algorithm;
    [decode] has [None] for every [PyJWTError].  The clock counts fractions of a second. *)
Class Jwt := {
  jwt_encode : dict -> string;
  jwt_decode : Z -> string -> option dict;      (* the time it is decoded at *)
  expire_seconds : Z;
  second : Z;                                   (* in units of the clock *)
}.

Definition is_empty (s : option string) : bool :=
  match s with Some s => String.eqb s "" | None => true end.

Module DummyAuthProvider.
Definition decode_jwt `{Jwt} (at_ : Z) (token : string) : result exc dict :=
  match jwt_decode at_ token with
  | Some r =>
      if dict_mem "exp" r then Ok r else Raise (AuthorizationError "Invalid token")
  | None => Raise (AuthorizationError "Invalid token")
  end.

(** [int(v)] *)
Definition py_int (v : json) : result exc Z :=
  match v with
  | JInt z => Ok z
  | JBool b => Ok (if b then 1 else 0)
  | JStr s => or_raise (Z_of_str s) (ValueError s)
  | _ => Raise TypeError
  end.

Definition _get_user_id_from_token `{Jwt} (at_ : Z) (token : string) : result exc Z :=
  match
    payload ← decode_jwt at_ token;
    v ← or_raise (dict_get "user_id" payload) (KeyError "user_id");
    py_int v
  with
  | Ok z => Ok z
  | Raise e =>
      if isinstance e CKeyError || isinstance e CTypeError || isinstance e CValueError
      then Raise (AuthorizationError "Invalid token") else Raise e
  end.

Definition get_current_user `{Jwt} (access_token : option string) : M User :=
  match access_token with
  | None => raise (AuthorizationError "Missing auth credentials")
  | Some token =>
      if String.eqb token "" then raise (AuthorizationError "Missing auth credentials")
      else
        user_id ← reads (fun s => _get_user_id_from_token (clock s) token);
        UserRepository.read_by_id user_id
  end.

Definition _generate_access_token `{Jwt} (user_id at_ : Z) : string * Z :=
  let expires_at := at_ + expire_seconds * second in
  (jwt_encode [("user_id", JInt user_id); ("exp", JInt expires_at)], expires_at).

(** [async with uow: try: read_by_username except EntityNotFoundError: create] *)
Definition get_or_create (login : string) (email first_name middle_name last_name : option string)
    : M User :=
  unit_of_work
    (catch (UserRepository.read_by_username login)
       (fun e => if is_EntityNotFoundError e
                 then Some (UserRepository.create login email first_name middle_name last_name false)
                 else None)).

Definition get_token_password_grant `{Jwt} (login password : option string) : M (string * Z) :=
  match login with
  | Some l =>
      if is_empty login || is_empty password
      then raise (AuthorizationError "Missing auth credentials")
      else
        user ← get_or_create l None None None None;
        if negb (is_active user)
        then raise (AuthorizationError ("User '" +:+ username user +:+ "' is disabled"))
        else t ← now; mret (_generate_access_token (user_id user) t)
  | None => raise (AuthorizationError "Missing auth credentials")
  end.
End DummyAuthProvider.

#[export] Instance DummyProvider `{Jwt} : AuthProvider := {
  get_current_user := DummyAuthProvider.get_current_user;
}.

(** [a_introspect]; [None] for [KeycloakOperationError] *)
Class Keycloak := { introspect : string -> option dict }.

Module OAuth2GatewayProvider.
(** [token_info.get(k)] of a claim that is a text *)
Definition claim (k : string) (d : dict) : option string :=
  match dict_get k d with Some (JStr s) => Some s | _ => None end.

Definition get_current_user `{Keycloak} (access_token : option string) : M User :=
  match access_token with
  | None => raise (AuthorizationError "Missing auth credentials")
  | Some token =>
      if String.eqb token "" then raise (AuthorizationError "Missing auth credentials")
      else
        match introspect token with
        | None => raise (AuthorizationError "Invalid token payload")
        | Some token_info =>
            match dict_get "active" token_info with
            | None => raise (KeyError "active")
            | Some active =>
                if json_eqb active (JBool false)
                then raise (AuthorizationError "Token is not active")
                else
                  match claim "preferred_username" token_info with
                  | None => raise (AuthorizationError "Invalid token")
                  | Some login =>
                      if String.eqb login "" then raise (AuthorizationError "Invalid token")
                      else
                        DummyAuthProvider.get_or_create login (claim "email" token_info)
                          (claim "given_name" token_info) (claim "middle_name" token_info)
                          (claim "family_name" token_info)
                  end
            end
        end
  end.
End OAuth2GatewayProvider.

(** ** Facts *)

Lemma catch_no_commit_create a b c d e f :
  no_commit (catch (UserRepository.read_by_username a)
    (fun x => if is_EntityNotFoundError x then Some (UserRepository.create a b c d e f) else None)).
Proof.
  apply no_commit_catch; [apply no_commit_read_only, user_read_by_username_ro|].
  intros x k. case_match; [|done]. intros [= <-]. apply user_create_nc.
Qed.

Lemma get_or_create_keeps P `{!KeepsSession P, !KeepsTable P User} l a b c d :
  preserves P (DummyAuthProvider.get_or_create l a b c d).
Proof.
  apply keeps_unit_of_work; [done|]. apply preserves_catch.
  - apply read_only_preserves, user_read_by_username_ro.
  - intros x k. case_match; [|done]. intros [= <-]. by apply user_create_keeps.
Qed.

Lemma get_or_create_atomic l a b c d : atomic (DummyAuthProvider.get_or_create l a b c d).
Proof. apply unit_of_work_atomic, catch_no_commit_create. Qed.

Lemma read_by_username_ok l s u s' : db_wf (working s) ->
  UserRepository.read_by_username l s = (Ok u, s') ->
  users (working s) !! user_id u = Some u /\ username u = l.
Proof.
  intros Hwf Hr. unfold UserRepository.read_by_username in Hr.
  apply bind_ok in Hr as (rows & s1 & Hrows & Hr). apply gets_ok in Hrows as [Hrows ->].
  destruct rows as [|v [|]]; try done. apply mret_ok in Hr as [Huv ->]. subst v.
  assert (u ∈ select_where (fun u => String.eqb (username u) l) (working s)) as Hu
    by (rewrite <- Hrows; set_solver).
  unfold select_where in Hu. apply list_elem_of_filter in Hu as [Hn Hu]. apply String.eqb_eq in Hn.
  apply list_elem_of_fmap in Hu as ([k v] & Huv & Hkv). cbn in Huv. subst v. apply elem_of_map_to_list in Hkv.
  split; [|done]. pose proof (wf_key (R := User) (working s) k u Hwf Hkv) as Hk. cbn in Hk. by rewrite Hk.
Qed.

(** the user is found, or stored and committed *)
Lemma get_or_create_ok l a b c d s u s' : db_wf (working s) ->
  DummyAuthProvider.get_or_create l a b c d s = (Ok u, s') ->
  clock s' = clock s /\ username u = l /\ users (committed s') !! user_id u = Some u /\
  ((users (working s) !! user_id u = Some u /\ committed s' = working s) \/
   (users (working s) !! user_id u = None /\ is_active u = true /\ is_superuser u = false /\
    (forall i v, users (working s) !! i = Some v -> username v <> l) /\
    committed s' = with_tbl (<[user_id u := u]> (users (working s))) (working s))).
Proof.
  intros Hwf Hg. apply unit_of_work_ok in Hg as (s1 & Hg & ->).
  unfold catch in Hg. pose proof (user_read_by_username_ro l s) as Hro. unfold final in Hro.
  destruct (UserRepository.read_by_username l s) as [[v|e] s2] eqn:Hr; cbn in Hro; subst s2.
  - injection Hg as <- <-. apply read_by_username_ok in Hr as [Hv Hn]; [|done].
    split_and!; [done|done|done|by left].
  - destruct (is_EntityNotFoundError e); [|done]. unfold UserRepository.create in Hg.
    apply bind_ok in Hg as (t & s2 & Hnow & Hg). apply gets_ok in Hnow as [-> ->].
    apply except_integrity_ok, insert_new_ok in Hg as (-> & Hn & Hchk & ->).
    apply check_row_ok in Hchk as (_ & Hchk & _). cbn in *.
    split_and!; [done|done|by rewrite lookup_insert_eq|right]. split_and!; try done.
    intros i v Hv Hvl. apply (Hchk _ (list_elem_of_here _ _)). exists i, v. cbn.
    split_and!; [done|intros ->; congruence|by rewrite Hvl].
Qed.

Lemma get_or_create_raises l a b c d s e s' : DummyAuthProvider.get_or_create l a b c d s = (Raise e, s') ->
  committed s' = committed s /\ working s' = committed s'.
Proof.
  intros Hg. split; [by eapply get_or_create_atomic|]. unfold DummyAuthProvider.get_or_create, unit_of_work in Hg.
  destruct (catch _ _ s) as [[|] s1]; [done|]. by injection Hg as _ <-.
Qed.
Lemma get_or_create_signs_in l a b c d s r s' : db_wf (working s) -> working s = committed s ->
  DummyAuthProvider.get_or_create l a b c d s = (r, s') -> signs_in s r s'.
Proof.
  intros Hwf Hcl Hg. unfold signs_in. destruct r as [u|e].
  - assert (working s' = committed s') as Hcl' by (by apply unit_of_work_ok in Hg as (s1 & _ & ->)).
    apply get_or_create_ok in Hg as (_ & Hn & Hu & Hc); [|done]. rewrite Hcl in Hc.
    split_and!; [|done|by intros ? [= <-]]. destruct Hc as [[_ ->]|(? & ? & ? & Hl & ->)]; [constructor|].
    constructor; try done. by rewrite Hn.
  - apply get_or_create_raises in Hg as [-> ->]. split_and!; [constructor|done|done].
Qed.

Lemma dummy_get_current_user_ro `{Jwt} t : read_only (DummyAuthProvider.get_current_user t).
Proof.
  unfold DummyAuthProvider.get_current_user. destruct t as [t|]; [|done]. case_match; [done|].
  apply read_only_bind; [done|]. intros i. apply user_read_by_id_ro.
Qed.

#[export] Instance DummyProviderLaws `{Jwt} : AuthProviderLaws.
Proof.
  constructor; [intros P ? ? t|intros t|intros t s r s' Hwf Hcl Hr].
  - apply read_only_preserves, dummy_get_current_user_ro.
  - apply no_commit_atomic, no_commit_read_only, dummy_get_current_user_ro.
  - cbn in Hr. pose proof (dummy_get_current_user_ro t s) as Hro. unfold final in Hro. rewrite Hr in Hro. cbn in Hro.
    subst s'. split_and!; [constructor|done|]. intros u ->. unfold DummyAuthProvider.get_current_user in Hr.
    destruct t as [t|]; [|done]. destruct (String.eqb t ""); [done|]. unfold UserRepository.read_by_id in Hr.
    apply bind_ok in Hr as (i & s2 & Hi & Hr). inv_ok. unfold _read_by_id in Hr.
    apply bind_ok in Hr as (o & s3 & [= <- <-] & Hr). cbn [tbl UserTable] in Hr.
    destruct (users _ !! i) as [v|] eqn:Hv; [|done]. injection Hr as <-.
    pose proof (wf_key (R := User) _ _ _ Hwf Hv) as Hk. cbn in Hk. by rewrite Hk, <- Hcl.
Qed.

Lemma oauth2_get_current_user_cases `{Keycloak} t :
  (exists e, OAuth2GatewayProvider.get_current_user t = raise e) \/
  (exists l a b c d, OAuth2GatewayProvider.get_current_user t = DummyAuthProvider.get_or_create l a b c d).
Proof.
  unfold OAuth2GatewayProvider.get_current_user. repeat case_match; eauto 10.
Qed.

Lemma OAuth2GatewayProviderLaws `{Keycloak} :
  @AuthProviderLaws {| get_current_user := OAuth2GatewayProvider.get_current_user |}.
Proof.
  constructor; [intros P ? ? t|intros t|intros t s r s' Hwf Hcl]; cbn;
    destruct (oauth2_get_current_user_cases t) as [(e & ->)|(l&a&b&c&d&->)].
  - apply preserves_raise.
  - by apply get_or_create_keeps.
  - by intros s e' s' [= <- <-].
  - apply get_or_create_atomic.
  - intros [= <- <-]. split_and!; [constructor|done|done].
  - by apply get_or_create_signs_in.
Qed.

Lemma get_user_keeps P `{!KeepsSession P, !KeepsTable P User} `{AuthProviderLaws} b t :
  preserves P (get_user b t).
Proof.
  apply preserves_bind; [by apply get_current_user_keeps|]. intros u.
  repeat case_match; first [apply preserves_raise|apply preserves_ret].
Qed.

(** whoever [get_user] lets through is active, and a superuser when one is needed *)
Lemma get_user_ok `{AuthProvider} b t s u s' :
  get_user b t s = (Ok u, s') -> is_active u = true /\ (b = true -> is_superuser u = true).
Proof.
  unfold get_user. intros (u' & s1 & _ & Hr)%bind_ok.
  destruct (is_active u') eqn:Ha; cbn in Hr; [|done].
  destruct b, (is_superuser u') eqn:Hs; cbn in Hr; try done; by injection Hr as <- <-.
Qed.

(** the checks of [get_user] after the sign-in *)
Lemma get_user_signs_in `{AuthProviderLaws} b t s r s' : db_wf (working s) -> working s = committed s ->
  get_user b t s = (r, s') ->
  signs_in s r s' /\ (forall u, r = Ok u -> is_active u = true /\ (b = true -> is_superuser u = true)).
Proof.
  intros Hwf Hcl Hr. split; [|by intros u ->; eapply get_user_ok].
  unfold get_user in Hr. rewrite bind_run in Hr. destruct (get_current_user t s) as [[v|e] s1] eqn:Hg.
  - apply get_current_user_signs_in in Hg as (Hs & Hc & Hv); [|done..].
    destruct (is_active v), b, (is_superuser v); cbn in Hr; injection Hr as <- <-; split_and!; try done.
    all: by intros u [= <-]; apply Hv.
  - injection Hr as <- <-. by apply get_current_user_signs_in in Hg.
Qed.
Lemma get_user_ro `{AuthProvider} b t : read_only (get_current_user t) -> read_only (get_user b t).
Proof. intros Hr. apply read_only_bind; [done|]. intros u. by repeat case_match. Qed.
