(* ===== verification/ApiGroups.v ===== *)
(** * The endpoints of groups and users ([server/api/v1/groups.py], [users.py])

    An endpoint is the body of the function under its decorator, given the user
    [get_user] returned ([current_user]), its path and query parameters and its
    validated body. *)

From S2P Require Import Prelude PyData Models Errors Database Integrity Search Repository.
From S2P Require Import Repositories RepositoryFacts Pydantic ConnectionSchemas Auth.

(** [if resource_role == Permission.NONE: raise e] *)
Definition raise_if_none (p : Permission) (e : exc) : M unit := when (bool_decide (p = NONE)) e.
(** [if resource_role < level: raise ActionNotAllowedError] *)
Definition require (p level : Permission) : M unit := when (perm_lt p level) (ActionNotAllowedError "").

Lemma raise_if_none_ro p e : read_only (raise_if_none p e).
Proof. apply read_only_when. Qed.
Lemma require_ro p l : read_only (require p l).
Proof. apply read_only_when. Qed.
#[export] Hint Resolve raise_if_none_ro require_ro : se.

Record GroupWithUserRole := mkGroupWithUserRole { gw_data : Group; gw_role : GroupMemberRole }.
Record ReadGroupMember := mkReadGroupMember { gm_id : Z; gm_username : string; gm_role : GroupMemberRole }.
Record ReadUser := mkReadUser { ru_id : Z; ru_username : string; ru_is_superuser : bool }.

Definition read_user_schema (u : User) : ReadUser := mkReadUser (user_id u) (username u) (is_superuser u).
Definition as_group_member (x : User * GroupMemberRole) : ReadGroupMember :=
  mkReadGroupMember (user_id x.1) (username x.1) x.2.

(** [items=[f(x) for x in pagination.items]] *)
Definition page_map {A B} (f : A -> B) (p : Page A) : Page B := mkPage (page_meta p) (f <$> page_items p).

Section Groups.
Context `{TextSearch}.

Definition read_groups (current_user : User) (page page_size : Z) (role search_query : option string)
    : M (Page GroupRepository.Item) :=
  pagination ←
    (if is_superuser current_user
     then GroupRepository.paginate_for_superuser page page_size search_query
     else GroupRepository.paginate_for_user page page_size (user_id current_user) role search_query);
  mret (from_pagination pagination).

Definition create_group (current_user : User) (name description : string) : M Group :=
  unit_of_work (GroupRepository.create name description (user_id current_user)).

Definition read_group (group_id : Z) (current_user : User) : M GroupWithUserRole :=
  resource_role ← GroupRepository.get_group_permission current_user group_id;
  _ ← raise_if_none resource_role GroupNotFoundError;
  group ← GroupRepository.read_by_id group_id;
  user_role ← GroupRepository.get_member_role current_user group_id;
  mret (mkGroupWithUserRole group user_role).

(** the body of [async with unit_of_work] in [update_group] *)
Definition update_group_body (group_id : Z) (name description : string) (owner_id : Z) : M Group :=
  group ← GroupRepository.read_by_id group_id;
  let previous_owner_id := group_owner_id group in
  group ← GroupRepository.update group_id name description owner_id;
  _ ← (if negb (previous_owner_id =? owner_id) then
         new_owner_user_group ← GroupRepository.get_user_group group_id owner_id;
         _ ← match new_owner_user_group with
             | Some _ => GroupRepository.delete_user group_id owner_id
             | None => mret tt
             end;
         GroupRepository.add_user group_id previous_owner_id Guest
       else mret tt);
  mret group.

Definition update_group (group_id : Z) (name description : string) (owner_id : Z)
    (current_user : User) : M Group :=
  resource_rule ← GroupRepository.get_group_permission current_user group_id;
  _ ← raise_if_none resource_rule GroupNotFoundError;
  _ ← require resource_rule DELETE;
  unit_of_work (update_group_body group_id name description owner_id).

(** [dependencies=[Depends(get_user(is_superuser=True))]] is in the dispatch *)
Definition delete_group (group_id : Z) : M unit :=
  unit_of_work (GroupRepository.delete group_id).

Definition read_group_users (group_id : Z) (current_user : User) (page page_size : Z)
    : M (Page ReadGroupMember) :=
  resource_role ← GroupRepository.get_group_permission current_user group_id;
  _ ← raise_if_none resource_role GroupNotFoundError;
  pagination ← GroupRepository.get_member_paginate page page_size group_id;
  mret (page_map as_group_member (from_pagination pagination)).

Definition update_user_role_group (group_id user_id : Z) (role : GroupMemberRole)
    (current_user : User) : M GroupMemberRole :=
  resource_rule ← GroupRepository.get_group_permission current_user group_id;
  _ ← raise_if_none resource_rule GroupNotFoundError;
  _ ← require resource_rule DELETE;
  result ← unit_of_work (GroupRepository.update_member_role group_id user_id role);
  mret (ug_role result).

Definition add_user_to_group (group_id user_id : Z) (role : GroupMemberRole)
    (current_user : User) : M unit :=
  resource_rule ← GroupRepository.get_group_permission current_user group_id;
  _ ← raise_if_none resource_rule GroupNotFoundError;
  _ ← require resource_rule DELETE;
  group ← GroupRepository.read_by_id group_id;
  _ ← when (group_owner_id group =? user_id) AlreadyIsGroupOwnerError;
  unit_of_work (GroupRepository.add_user group_id user_id role).

Definition delete_user_from_group (group_id user_id : Z) (current_user : User) : M unit :=
  resource_rule ← GroupRepository.get_group_permission current_user group_id;
  _ ← raise_if_none resource_rule GroupNotFoundError;
  _ ← when (negb (user_id =? Models.user_id current_user) && perm_lt resource_rule DELETE)
        (ActionNotAllowedError "");
  unit_of_work (GroupRepository.delete_user group_id user_id).

(** ** Users *)

Definition get_users (current_user : User) (page page_size : Z) (search_query : option string)
    : M (Page ReadUser) :=
  pagination ← UserRepository.paginate page page_size (is_superuser current_user) search_query;
  mret (page_map read_user_schema (from_pagination pagination)).

Definition read_current_user (current_user : User) : M ReadUser := mret (read_user_schema current_user).

Definition read_user (user_id : Z) : M ReadUser :=
  user ← UserRepository.read_by_id user_id;
  mret (read_user_schema user).
End Groups.
