(* ===== verification/ApiQueues.v ===== *)
(** * The endpoints of queues ([server/api/v1/queue.py]) *)

From S2P Require Import Prelude PyData Models Errors Database Integrity Search Repository.
From S2P Require Import Repositories RepositoryFacts Pydantic ConnectionSchemas ApiGroups.

Section Queues.
Context `{TextSearch}.

Definition read_queues (group_id : Z) (current_user : User) (page page_size : Z)
    (search_query : option string) : M (Page Queue) :=
  resource_role ← QueueRepository.get_group_permission current_user group_id;
  _ ← raise_if_none resource_role GroupNotFoundError;
  pagination ← QueueRepository.paginate page page_size group_id search_query;
  mret (from_pagination pagination).

Definition read_queue (queue_id : Z) (current_user : User) : M Queue :=
  resource_role ← QueueRepository.get_resource_permission current_user queue_id;
  _ ← raise_if_none resource_role QueueNotFoundError;
  QueueRepository.read_by_id queue_id.

Definition create_queue (name : string) (group_id : Z) (description : string)
    (current_user : User) : M Queue :=
  group_permission ← QueueRepository.get_group_permission current_user group_id;
  _ ← raise_if_none group_permission GroupNotFoundError;
  _ ← require group_permission DELETE;
  unit_of_work (QueueRepository.create name group_id description (slug group_id name)).

Definition update_queue (queue_id : Z) (name description : string) (current_user : User) : M Queue :=
  resource_role ← QueueRepository.get_resource_permission current_user queue_id;
  _ ← raise_if_none resource_role QueueNotFoundError;
  _ ← require resource_role DELETE;
  unit_of_work (QueueRepository.update queue_id name description).

(** the check for transfers that use the queue *)
Definition check_queue_unused (queue : Queue) : M unit :=
  transfers ← TransferRepository.paginate 1 1 (queue_group_id queue)
    (TransferRepository.mkFilters None None None (Some (Models.queue_id queue)) None None None);
  match pg_items transfers with
  | [] => mret tt
  | _ => raise (QueueDeleteError
           ("The queue has an associated transfers(s). Number of the linked transfers: "
            +:+ str_of_Z (pg_total transfers)))
  end.

Definition delete_queue (queue_id : Z) (current_user : User) : M unit :=
  resource_role ← QueueRepository.get_resource_permission current_user queue_id;
  _ ← raise_if_none resource_role QueueNotFoundError;
  _ ← require resource_role DELETE;
  queue ← QueueRepository.read_by_id queue_id;
  _ ← check_queue_unused queue;
  unit_of_work (QueueRepository.delete queue_id).
End Queues.
