(* ===== verification/ApiConnections.v ===== *)
(** * The endpoints of connections ([server/api/v1/connections.py]) *)

From S2P Require Import Prelude PyData Models Errors Database Integrity Search Repository.
From S2P Require Import Repositories RepositoryFacts Pydantic ConnectionSchemas ApiGroups.

(** [d[k]] on a decoded JSON value *)
Definition json_item (j : json) (k : string) : result exc json :=
  match j with
  | JObj d => or_raise (dict_get k d) (KeyError k)
  | _ => Raise TypeError
  end.

(** the loop over the secret fields in [update_connection]: a secret left out
    is taken from the stored credentials when they have the same type *)
Fixpoint merge_secrets (secret_fields : list string) (existing_credentials : json) (auth_data : dict)
    : result exc dict :=
  match secret_fields with
  | [] => Ok auth_data
  | secret_field :: rest =>
      v ← or_raise (dict_get secret_field auth_data) (KeyError secret_field);
      match v with
      | JNull =>
          t ← json_item existing_credentials "type";
          t' ← or_raise (dict_get "type" auth_data) (KeyError "type");
          if negb (json_eqb t t') then Raise ConnectionAuthDataUpdateError
          else
            old ← json_item existing_credentials secret_field;
            merge_secrets rest existing_credentials (dict_set secret_field old auth_data)
      | _ => merge_secrets rest existing_credentials auth_data
      end
  end.

Section Connections.
Context `{TextSearch} `{Cipher} `{PydanticCore}.

Definition lift {A} (r : result exc A) : M A := reads (fun _ => r).

(** [credentials.get(item.id, None)] *)
Definition credentials_get (credentials : list (Z * json)) (id : Z) : json :=
  match find (fun x => x.1 =? id) credentials with Some x => x.2 | None => JNull end.

Definition read_connections (group_id : Z) (current_user : User) (page page_size : Z)
    (type : option (list ConnectionType)) (search_query : option string) : M (Page ReadConnection) :=
  resource_role ← get_group_permission current_user group_id;
  _ ← raise_if_none resource_role GroupNotFoundError;
  let connection_str_type := fmap (M := list) connection_type_value <$> type in
  pagination ← ConnectionRepository.paginate page page_size group_id search_query connection_str_type;
  items ←
    match pg_items pagination with
    | [] => mret []
    | its =>
        credentials ← CredentialsRepository.read_bulk (conn_id <$> its);
        lift (mapM (fun item => read_connection_schema item (credentials_get credentials (conn_id item))) its)
    end;
  mret (mkPage (meta_of pagination) items).

(** the body of [async with unit_of_work] in [create_connection] *)
Definition create_connection_body (b : ConnectionBody) : M Connection :=
  connection ← ConnectionRepository.create (cb_group_id b) (cb_type b) (cb_name b)
    (cb_description b) (cb_data b);
  _ ← CredentialsRepository.create (conn_id connection) (cb_auth_data b);
  mret connection.

Definition create_connection (connection_data : ConnectionBody) (current_user : User)
    : M ReadConnection :=
  group_permission ← get_group_permission current_user (cb_group_id connection_data);
  _ ← raise_if_none group_permission GroupNotFoundError;
  _ ← require group_permission WRITE;
  connection ← unit_of_work (create_connection_body connection_data);
  credentials ← CredentialsRepository.read (conn_id connection);
  lift (read_connection_schema connection credentials).

Definition CONNECTION_TYPES : list string :=
  ["clickhouse"; "hive"; "iceberg"; "mssql"; "mysql"; "oracle"; "postgres";
   "ftp"; "ftps"; "hdfs"; "s3"; "samba"; "sftp"; "webdav"].
Definition read_connection_types : M (list string) := mret CONNECTION_TYPES.

Definition read_connection (connection_id : Z) (current_user : User) : M ReadConnection :=
  resource_role ← get_resource_permission (R := Connection) current_user connection_id;
  _ ← raise_if_none resource_role ConnectionNotFoundError;
  connection ← ConnectionRepository.read_by_id connection_id;
  credentials ← catch (CredentialsRepository.read (conn_id connection))
    (fun e => if isinstance e CAuthDataNotFoundError then Some (mret JNull) else None);
  lift (read_connection_schema connection credentials).

(** the body of [async with unit_of_work] in [update_connection] *)
Definition update_connection_body (connection_id : Z) (b : ConnectionBody) : M Connection :=
  existing_connection ← ConnectionRepository.read_by_id connection_id;
  _ ← (if decide (cb_type b = conn_type existing_connection) then mret tt
       else
         linked_transfers ← TransferRepository.list_by_connection_id connection_id;
         match linked_transfers with
         | [] => mret tt
         | _ => raise ConnectionTypeUpdateError
         end);
  existing_credentials ← CredentialsRepository.read connection_id;
  auth_data ← lift (merge_secrets (body_secret_fields b) existing_credentials (cb_auth_data b));
  connection ← ConnectionRepository.update connection_id (cb_name b) (cb_type b)
    (cb_description b) (cb_data b);
  _ ← CredentialsRepository.update connection_id auth_data;
  mret connection.

Definition update_connection (connection_id : Z) (connection_data : ConnectionBody)
    (current_user : User) : M ReadConnection :=
  resource_role ← get_resource_permission (R := Connection) current_user connection_id;
  _ ← raise_if_none resource_role ConnectionNotFoundError;
  _ ← require resource_role WRITE;
  connection ← unit_of_work (update_connection_body connection_id connection_data);
  credentials ← CredentialsRepository.read connection_id;
  lift (read_connection_schema connection credentials).

Definition delete_connection (connection_id : Z) (current_user : User) : M unit :=
  resource_role ← get_resource_permission (R := Connection) current_user connection_id;
  _ ← raise_if_none resource_role ConnectionNotFoundError;
  _ ← require resource_role DELETE;
  connection ← ConnectionRepository.read_by_id connection_id;
  transfers ← TransferRepository.list_by_connection_id (conn_id connection);
  _ ← match transfers with
      | [] => mret tt
      | _ => raise (ConnectionDeleteError
               ("The connection has an associated transfers. Number of the connected transfers: "
                +:+ str_of_Z (Z.of_nat (length transfers))))
      end;
  unit_of_work (ConnectionRepository.delete connection_id).

Record ConnectionCopy := mkConnectionCopy {
  cc_new_group_id : Z; cc_new_name : option string; cc_remove_source : bool }.

Definition copy_connection_body (connection_id : Z) (c : ConnectionCopy) : M Connection :=
  connection ← ConnectionRepository.copy connection_id (cc_new_group_id c) (cc_new_name c);
  _ ← (if cc_remove_source c then ConnectionRepository.delete connection_id else mret tt);
  mret connection.

Definition copy_connection (connection_id : Z) (copy_connection_data : ConnectionCopy)
    (current_user : User) : M ReadConnection :=
  resource_role ← get_resource_permission (R := Connection) current_user connection_id;
  _ ← raise_if_none resource_role ConnectionNotFoundError;
  _ ← when (cc_remove_source copy_connection_data && perm_lt resource_role DELETE)
        (ActionNotAllowedError "");
  target_group_role ← get_group_permission current_user (cc_new_group_id copy_connection_data);
  _ ← raise_if_none target_group_role GroupNotFoundError;
  _ ← require target_group_role WRITE;
  connection ← unit_of_work (copy_connection_body connection_id copy_connection_data);
  lift (read_connection_schema connection JNull).
End Connections.
