(* ===== verification/ApiTransfers.v ===== *)
(** * The endpoints of transfers ([server/api/v1/transfers.py]) *)

From S2P Require Import Prelude PyData Models Errors Database Integrity Search Repository.
From S2P Require Import Repositories RepositoryFacts Pydantic ConnectionSchemas TransferSchemas.
From S2P Require Import ApiGroups.

Record CopyTransfer := mkCopyTransfer {
  ct_new_group_id : Z;
  ct_new_queue_id : Z;
  ct_new_source_connection_name : option string;
  ct_new_target_connection_name : option string;
  ct_new_name : option string;
  ct_remove_source : bool;
}.

Section Transfers.
Context `{TextSearch} `{PydanticCore} `{PyLib}.

Definition read_transfers (group_id : Z) (current_user : User) (page page_size : Z)
    (filters : TransferRepository.Filters) : M (Page dict) :=
  resource_role ← get_group_permission current_user group_id;
  _ ← raise_if_none resource_role GroupNotFoundError;
  pagination ← TransferRepository.paginate page page_size group_id filters;
  items ← reads (fun _ => mapM read_transfer_schema (pg_items pagination));
  mret (mkPage (meta_of pagination) items).

(** the checks that [create_transfer] and [update_transfer] both make of the
    connections, the parameters and the queue *)
Definition check_transfer_data (transfer_data : TransferBody)
    (target_connection source_connection : Connection) (queue : Queue) : M unit :=
  _ ← when (negb (conn_group_id target_connection =? conn_group_id source_connection)
            || negb (conn_group_id target_connection =? tb_group_id transfer_data)
            || negb (conn_group_id source_connection =? tb_group_id transfer_data))
        DifferentTransferAndConnectionsGroupsError;
  _ ← when (bool_decide (conn_type target_connection <> tb_target_type transfer_data))
        (DifferentTypeConnectionsAndParamsError (conn_type target_connection)
           (tb_target_type transfer_data) SideTarget);
  _ ← when (bool_decide (conn_type source_connection <> tb_source_type transfer_data))
        (DifferentTypeConnectionsAndParamsError (conn_type source_connection)
           (tb_source_type transfer_data) SideSource);
  when (negb (tb_group_id transfer_data =? queue_group_id queue)) DifferentTransferAndQueueGroupError.

Definition create_transfer (transfer_data : TransferBody) (current_user : User) : M dict :=
  group_permission ← get_group_permission current_user (tb_group_id transfer_data);
  _ ← require group_permission WRITE;
  target_connection ← ConnectionRepository.read_by_id (tb_target_connection_id transfer_data);
  source_connection ← ConnectionRepository.read_by_id (tb_source_connection_id transfer_data);
  queue ← QueueRepository.read_by_id (tb_queue_id transfer_data);
  _ ← check_transfer_data transfer_data target_connection source_connection queue;
  transfer ← unit_of_work
    (TransferRepository.create (tb_group_id transfer_data)
      (tb_source_connection_id transfer_data) (tb_target_connection_id transfer_data)
      (tb_name transfer_data) (tb_description transfer_data)
      (tb_source_params transfer_data) (tb_target_params transfer_data)
      (tb_strategy_params transfer_data) (tb_transformations transfer_data)
      (tb_resources transfer_data) (tb_queue_id transfer_data)
      (tb_is_scheduled transfer_data) (tb_schedule transfer_data));
  reads (fun _ => read_transfer_schema transfer).

Definition read_transfer (transfer_id : Z) (current_user : User) : M dict :=
  resource_role ← get_resource_permission (R := Transfer) current_user transfer_id;
  _ ← raise_if_none resource_role TransferNotFoundError;
  transfer ← TransferRepository.read_by_id transfer_id;
  reads (fun _ => read_transfer_schema transfer).

(** the body of [async with unit_of_work] in [copy_transfer] *)
Definition copy_transfer_body (transfer : Transfer) (transfer_data : CopyTransfer) : M Transfer :=
  copied_source_connection ← ConnectionRepository.copy (source_connection_id transfer)
    (ct_new_group_id transfer_data) (ct_new_source_connection_name transfer_data);
  copied_target_connection ←
    (if negb (source_connection_id transfer =? target_connection_id transfer)
     then ConnectionRepository.copy (target_connection_id transfer)
            (ct_new_group_id transfer_data) (ct_new_target_connection_name transfer_data)
     else mret copied_source_connection);
  copied_transfer ← TransferRepository.copy (transfer_id transfer) (ct_new_queue_id transfer_data)
    (Some (ct_new_group_id transfer_data)) (Some (conn_id copied_source_connection))
    (Some (conn_id copied_target_connection)) (ct_new_name transfer_data);
  _ ← (if ct_remove_source transfer_data
       then TransferRepository.delete (transfer_id transfer) else mret tt);
  mret copied_transfer.

Definition copy_transfer (transfer_id : Z) (transfer_data : CopyTransfer) (current_user : User)
    : M dict :=
  resource_role ← get_resource_permission (R := Transfer) current_user transfer_id;
  _ ← raise_if_none resource_role TransferNotFoundError;
  _ ← when (ct_remove_source transfer_data && perm_lt resource_role DELETE) (ActionNotAllowedError "");
  target_group_role ← get_group_permission current_user (ct_new_group_id transfer_data);
  _ ← require target_group_role WRITE;
  transfer ← TransferRepository.read_by_id transfer_id;
  source_connection_role ←
    get_resource_permission (R := Connection) current_user (source_connection_id transfer);
  _ ← raise_if_none source_connection_role ConnectionNotFoundError;
  target_connection_role ←
    get_resource_permission (R := Connection) current_user (target_connection_id transfer);
  _ ← raise_if_none target_connection_role ConnectionNotFoundError;
  new_queue ← QueueRepository.read_by_id (ct_new_queue_id transfer_data);
  _ ← when (negb (queue_group_id new_queue =? ct_new_group_id transfer_data))
        DifferentTransferAndQueueGroupError;
  copied_transfer ← unit_of_work (copy_transfer_body transfer transfer_data);
  reads (fun _ => read_transfer_schema copied_transfer).

Definition update_transfer (transfer_id : Z) (transfer_data : TransferBody) (current_user : User)
    : M dict :=
  resource_role ← get_resource_permission (R := Transfer) current_user transfer_id;
  _ ← raise_if_none resource_role TransferNotFoundError;
  _ ← require resource_role WRITE;
  target_connection ← ConnectionRepository.read_by_id (tb_target_connection_id transfer_data);
  source_connection ← ConnectionRepository.read_by_id (tb_source_connection_id transfer_data);
  queue ← QueueRepository.read_by_id (tb_queue_id transfer_data);
  target_connection_resource_role ←
    get_resource_permission (R := Connection) current_user (conn_id target_connection);
  source_connection_resource_role ←
    get_resource_permission (R := Connection) current_user (conn_id source_connection);
  _ ← when (bool_decide (NONE ∈ [source_connection_resource_role; target_connection_resource_role]))
        ConnectionNotFoundError;
  _ ← check_transfer_data transfer_data target_connection source_connection queue;
  transfer ← unit_of_work
    (TransferRepository.update transfer_id (tb_name transfer_data) (tb_description transfer_data)
      (tb_source_connection_id transfer_data) (tb_target_connection_id transfer_data)
      (tb_source_params transfer_data) (tb_target_params transfer_data)
      (tb_strategy_params transfer_data) (tb_transformations transfer_data)
      (tb_resources transfer_data) (tb_is_scheduled transfer_data) (tb_schedule transfer_data)
      (tb_queue_id transfer_data));
  reads (fun _ => read_transfer_schema transfer).

Definition delete_transfer (transfer_id : Z) (current_user : User) : M unit :=
  resource_role ← get_resource_permission (R := Transfer) current_user transfer_id;
  _ ← raise_if_none resource_role TransferNotFoundError;
  _ ← require resource_role DELETE;
  unit_of_work (TransferRepository.delete transfer_id).
End Transfers.
