(* ===== verification/ApiRuns.v ===== *)
(** * The endpoints of runs ([server/api/v1/runs.py])

    [Broker] is [celery.send_task]: whether the message of a run reached the
    task queue, or Kombu failed. *)

From S2P Require Import Prelude PyData Models Errors Database Integrity Search Repository.
From S2P Require Import Repositories RepositoryFacts Pydantic ConnectionSchemas ApiGroups.

(** [send_task "run_transfer_task" run_id queue_slug] *)
Class Broker := { send_task : string -> Z -> string -> result exc unit }.

(** what [ReadRunSchema] and [ShortRunSchema] show of a run *)
Record ShortRun := mkShortRun {
  sr_id : Z; sr_transfer_id : Z; sr_started_at : option Z; sr_ended_at : option Z;
  sr_status : Status; sr_log_url : option string; sr_type : RunType;
}.
Record ReadRun := mkReadRun { rr_short : ShortRun; rr_transfer_dump : dict }.

Definition short_run_schema (r : Run) : ShortRun :=
  mkShortRun (run_id r) (run_transfer_id r) (run_started_at r) (run_ended_at r) (run_status r)
    (run_log_url r) (run_type r).
Definition read_run_schema (r : Run) : ReadRun := mkReadRun (short_run_schema r) (run_transfer_dump r).

Section Runs.
Context `{Cipher} `{PydanticCore} `{Broker}.

Definition read_runs (transfer_id : Z) (current_user : User) (page page_size : Z)
    (status : option (list Status)) (started_at_since started_at_until : option Z)
    : M (Page ShortRun) :=
  resource_rule ← get_resource_permission (R := Transfer) current_user transfer_id;
  _ ← raise_if_none resource_rule TransferNotFoundError;
  pagination ← RunRepository.paginate transfer_id page page_size status started_at_since started_at_until;
  mret (page_map short_run_schema (from_pagination pagination)).

Definition read_run (run_id : Z) (current_user : User) : M ReadRun :=
  run ← RunRepository.read_by_id run_id;
  resource_role ← get_resource_permission (R := Transfer) current_user (run_transfer_id run);
  _ ← raise_if_none resource_role TransferNotFoundError;
  mret (read_run_schema run).

(** the body of the first [async with unit_of_work] in [start_run]; the
    schema that strips the secrets is evaluated inside it *)
Definition create_run_body (transfer_id : Z) (credentials_source credentials_target : json) : M Run :=
  source_creds ← reads (fun _ => read_auth_data credentials_source);
  target_creds ← reads (fun _ => read_auth_data credentials_target);
  RunRepository.create transfer_id source_creds target_creds MANUAL.

(** [try: celery.send_task(...) except KombuError: ...] *)
Definition send_run (run : Run) (queue : Queue) : M Run :=
  match send_task "run_transfer_task" (run_id run) (queue_slug queue) with
  | Ok _ => mret run
  | Raise e =>
      if isinstance e CKombuError then
        run ← unit_of_work (RunRepository.update (run_id run) FAILED);
        raise (CannotConnectToTaskQueueError (Models.run_id run))
      else raise e
  end.

Definition start_run (transfer_id : Z) (current_user : User) : M ReadRun :=
  resource_rule ← get_resource_permission (R := Transfer) current_user transfer_id;
  _ ← raise_if_none resource_rule TransferNotFoundError;
  _ ← require resource_rule WRITE;
  transfer ← TransferRepository.read_by_id transfer_id;
  queue ← QueueRepository.read_by_id (transfer_queue_id transfer);
  credentials_source ← CredentialsRepository.read (source_connection_id transfer);
  credentials_target ← CredentialsRepository.read (target_connection_id transfer);
  run ← unit_of_work (create_run_body transfer_id credentials_source credentials_target);
  run ← send_run run queue;
  mret (read_run_schema run).

Definition stop_run (run_id : Z) (current_user : User) : M ReadRun :=
  run ← RunRepository.read_by_id run_id;
  resource_rule ← get_resource_permission (R := Transfer) current_user (run_transfer_id run);
  _ ← raise_if_none resource_rule TransferNotFoundError;
  _ ← require resource_rule WRITE;
  run ← unit_of_work (RunRepository.stop run_id);
  mret (read_run_schema run).
End Runs.
