(* ===== verification/Server.v ===== *)
(** * The server: requests, dispatch and the states they lead to

    [Endpoint] has one constructor per route of [server/api/v1], with its path
    and query parameters and its validated body.  [serve] is one request: the
    dependency [get_user], the endpoint, and the end of the session, which drops
    what was not committed.  Requests are one step each: the model has no two
    requests in flight at once. *)

From S2P Require Import Prelude PyData Models Errors Database Integrity Search Repository.
From S2P Require Import Repositories RepositoryFacts Pydantic ConnectionSchemas TransferSchemas.
From S2P Require Import Auth ApiGroups ApiQueues ApiConnections ApiTransfers ApiRuns.

Inductive Endpoint :=
| ReadGroups (page page_size : Z) (role search_query : option string)
| CreateGroup (name description : string)
| ReadGroup (group_id : Z)
| UpdateGroup (group_id : Z) (name description : string) (owner_id : Z)
| DeleteGroup (group_id : Z)
| ReadGroupUsers (group_id page page_size : Z)
| UpdateUserRoleGroup (group_id user_id : Z) (role : GroupMemberRole)
| AddUserToGroup (group_id user_id : Z) (role : GroupMemberRole)
| DeleteUserFromGroup (group_id user_id : Z)
| GetUsers (page page_size : Z) (search_query : option string)
| ReadCurrentUser
| ReadUserById (user_id : Z)
| ReadQueues (group_id page page_size : Z) (search_query : option string)
| ReadQueue (queue_id : Z)
| CreateQueue (name : string) (group_id : Z) (description : string)
| UpdateQueue (queue_id : Z) (name description : string)
| DeleteQueue (queue_id : Z)
| ReadConnections (group_id page page_size : Z) (type : option (list ConnectionType))
    (search_query : option string)
| CreateConnection (connection_data : ConnectionBody)
| ReadConnectionTypes
| ReadConnectionById (connection_id : Z)
| UpdateConnection (connection_id : Z) (connection_data : ConnectionBody)
| DeleteConnection (connection_id : Z)
| CopyConnection (connection_id : Z) (copy_connection_data : ConnectionCopy)
| ReadTransfers (group_id page page_size : Z) (filters : TransferRepository.Filters)
| CreateTransfer (transfer_data : TransferBody)
| ReadTransfer (transfer_id : Z)
| CopyTransferTo (transfer_id : Z) (transfer_data : CopyTransfer)
| UpdateTransfer (transfer_id : Z) (transfer_data : TransferBody)
| DeleteTransfer (transfer_id : Z)
| ReadRuns (transfer_id page page_size : Z) (status : option (list Status))
    (started_at_since started_at_until : option Z)
| ReadRunById (run_id : Z)
| StartRun (transfer_id : Z)
| StopRun (run_id : Z).

Inductive Reply :=
| NoContent
| GroupReply (g : Group)
| GroupWithRoleReply (g : GroupWithUserRole)
| GroupPage (p : Page GroupRepository.Item)
| MemberPage (p : Page ReadGroupMember)
| RoleReply (r : GroupMemberRole)
| UserReply (u : ReadUser)
| UserPage (p : Page ReadUser)
| QueueReply (q : Queue)
| QueuePage (p : Page Queue)
| ConnectionReply (c : ReadConnection)
| ConnectionPage (p : Page ReadConnection)
| TypesReply (l : list string)
| TransferReply (t : dict)
| TransferPage (p : Page dict)
| RunReply (r : ReadRun)
| RunPage (p : Page ShortRun).

(** the constraints [Query(gt=0)] and [Query(gt=0, le=50)] on [page] and [page_size] *)
Definition page_params_ok (page page_size : Z) : bool :=
  (0 <? page) && (0 <? page_size) && (page_size <=? 50).

(** the routes that only a superuser may call *)
Definition superuser_only (e : Endpoint) : bool :=
  match e with DeleteGroup _ => true | _ => false end.

(** ** [server/scripts/manage_superusers.py] *)

Definition with_superuser (b : bool) (u : User) : User :=
  mkUser (user_id u) (username u) (user_email u) (user_first_name u) (user_last_name u)
    (user_middle_name u) b (is_active u) (user_created_at u) (user_updated_at u).

Fixpoint for_each {A} (l : list A) (f : A -> M unit) : M unit :=
  match l with
  | [] => mret tt
  | x :: l' => _ ← f x; for_each l' f
  end.

(** [user.is_superuser = b], flushed: no UPDATE when the value is the same *)
Definition set_superuser (b : bool) (u : User) : M unit :=
  if Bool.eqb (is_superuser u) b then mret tt
  else _ ← update_row (user_id u) (with_superuser b); mret tt.

Definition users_named (usernames : list string) : M (list User) :=
  gets (fun s => filter (fun u => username u ∈ usernames) (rows_of (working s))).

Definition add_superusers (usernames : list string) : M unit :=
  users ← users_named usernames;
  _ ← for_each users (set_superuser true);
  let not_found := filter (fun n => n ∉ username <$> users) (remove_dups usernames) in
  t ← now;
  for_each not_found (fun n =>
    _ ← insert_new SeqUser (fun i => mkUser i n None None None None true true t t); mret tt).

Definition remove_superusers (usernames : list string) : M unit :=
  users ← users_named usernames;
  for_each users (set_superuser false).

(** what request validation rejects before the endpoint runs *)
Definition request_valid (e : Endpoint) : bool :=
  match e with
  | ReadGroups p n _ _ | ReadGroupUsers _ p n | GetUsers p n _ | ReadQueues _ p n _
  | ReadConnections _ p n _ _ | ReadTransfers _ p n _ | ReadRuns _ p n _ _ _ => page_params_ok p n
  | UpdateUserRoleGroup _ _ r | AddUserToGroup _ _ r => is_public_role (role_value r)
  | _ => true
  end.

(** the arguments it rejects, those of the query as texts *)
Definition rejected_page (page page_size : Z) : list json :=
  (if 0 <? page then [] else [JStr (str_of_Z page)]) ++
  (if (0 <? page_size) && (page_size <=? 50) then [] else [JStr (str_of_Z page_size)]).
Definition rejected (e : Endpoint) : list json :=
  match e with
  | ReadGroups p n _ _ | ReadGroupUsers _ p n | GetUsers p n _ | ReadQueues _ p n _
  | ReadConnections _ p n _ _ | ReadTransfers _ p n _ | ReadRuns _ p n _ _ _ => rejected_page p n
  | UpdateUserRoleGroup _ _ r | AddUserToGroup _ _ r =>
      if is_public_role (role_value r) then [] else [JStr (role_value r)]
  | _ => []
  end.

Definition reply {A} (f : A -> Reply) (m : M A) : M Reply := x ← m; mret (f x).

Section Server.
Context `{TextSearch} `{Cipher} `{PydanticCore} `{PyLib} `{Broker} `{AuthProvider}.

Definition dispatch (e : Endpoint) (u : User) : M Reply :=
  match e with
  | ReadGroups p n r q => reply GroupPage (read_groups u p n r q)
  | CreateGroup n d => reply GroupReply (create_group u n d)
  | ReadGroup g => reply GroupWithRoleReply (read_group g u)
  | UpdateGroup g n d o => reply GroupReply (update_group g n d o u)
  | DeleteGroup g => reply (fun _ => NoContent) (delete_group g)
  | ReadGroupUsers g p n => reply MemberPage (read_group_users g u p n)
  | UpdateUserRoleGroup g i r => reply RoleReply (update_user_role_group g i r u)
  | AddUserToGroup g i r => reply (fun _ => NoContent) (add_user_to_group g i r u)
  | DeleteUserFromGroup g i => reply (fun _ => NoContent) (delete_user_from_group g i u)
  | GetUsers p n q => reply UserPage (get_users u p n q)
  | ReadCurrentUser => reply UserReply (read_current_user u)
  | ReadUserById i => reply UserReply (read_user i)
  | ReadQueues g p n q => reply QueuePage (read_queues g u p n q)
  | ReadQueue i => reply QueueReply (read_queue i u)
  | CreateQueue n g d => reply QueueReply (create_queue n g d u)
  | UpdateQueue i n d => reply QueueReply (update_queue i n d u)
  | DeleteQueue i => reply (fun _ => NoContent) (delete_queue i u)
  | ReadConnections g p n t q => reply ConnectionPage (read_connections g u p n t q)
  | CreateConnection b => reply ConnectionReply (create_connection b u)
  | ReadConnectionTypes => reply TypesReply read_connection_types
  | ReadConnectionById i => reply ConnectionReply (read_connection i u)
  | UpdateConnection i b => reply ConnectionReply (update_connection i b u)
  | DeleteConnection i => reply (fun _ => NoContent) (delete_connection i u)
  | CopyConnection i c => reply ConnectionReply (copy_connection i c u)
  | ReadTransfers g p n f => reply TransferPage (read_transfers g u p n f)
  | CreateTransfer b => reply TransferReply (create_transfer b u)
  | ReadTransfer i => reply TransferReply (read_transfer i u)
  | CopyTransferTo i c => reply TransferReply (copy_transfer i c u)
  | UpdateTransfer i b => reply TransferReply (update_transfer i b u)
  | DeleteTransfer i => reply (fun _ => NoContent) (delete_transfer i u)
  | ReadRuns t p n st a b => reply RunPage (read_runs t u p n st a b)
  | ReadRunById i => reply RunReply (read_run i u)
  | StartRun t => reply RunReply (start_run t u)
  | StopRun i => reply RunReply (stop_run i u)
  end.

(** one request on an open session; FastAPI resolves the dependency [get_user], then
    validates the arguments *)
Definition endpoint (e : Endpoint) (access_token : option string) : M Reply :=
  user ← get_user (superuser_only e) access_token;
  if request_valid e then dispatch e user else raise (ValidationError (rejected e)).

(** one request: the reply or the error response of a server without [debug], and the
    session it leaves *)
Definition serve (e : Endpoint) (access_token : option string) (s : Session)
    : (Reply + Response) * Session :=
  match endpoint e access_token s with
  | (Ok r, s') => (inl r, rollback s')
  | (Raise x, s') => (inr (handle_exception false x), rollback s')
  end.

(** [POST /v1/auth/token] is the one other route that writes *)
Definition login (name : string) (s : Session) : Session :=
  rollback (final (DummyAuthProvider.get_or_create name None None None None) s).

(** the states of the database between requests, of which [sent] holds *)
Inductive server_step_of (sent : Endpoint -> Prop) : Session -> Session -> Prop :=
| step_request e token s : sent e -> server_step_of sent s (serve e token s).2
| step_login name s : server_step_of sent s (login name s)
| step_superusers (add : bool) usernames s :
    server_step_of sent s (rollback (final
      (unit_of_work ((if add then add_superusers else remove_superusers) usernames)) s))
| step_tick s t : clock s <= t -> server_step_of sent s (mkSession (committed s) (working s) (seqs s) t).
Definition any_request (e : Endpoint) : Prop := True.

Inductive reachable : Session -> Prop :=
| reach_init sq t : reachable (session_on empty_db sq t)
| reach_step s s' : reachable s -> server_step_of any_request s s' -> reachable s'.
End Server.
Abbreviation server_step := (server_step_of any_request).
