(* ===== verification/ServerFacts.v ===== *)
(** * What the endpoints keep

    [dispatch_keeps]: an endpoint that does not write groups or memberships
    keeps every predicate the statements on the other tables keep.
    [dispatch_atomic]: a call that raises leaves what is committed as it was, for
    the endpoints that do nothing that may raise after their unit of work
    ([fails_after_commit]). *)

From S2P Require Import Prelude PyData Models Errors Database Integrity Search Repository.
From S2P Require Import Repositories RepositoryFacts Pydantic ConnectionSchemas TransferSchemas.
From S2P Require Import Auth ApiGroups ApiQueues ApiConnections ApiTransfers ApiRuns Server.

(** the endpoints that write groups or memberships *)
Definition writes_groups (e : Endpoint) : bool :=
  match e with
  | CreateGroup _ _ | UpdateGroup _ _ _ _ | DeleteGroup _ | UpdateUserRoleGroup _ _ _
  | AddUserToGroup _ _ _ | DeleteUserFromGroup _ _ => true
  | _ => false
  end.

Section Keeps.
Context `{TextSearch} `{Cipher} `{PydanticCore} `{PyLib} `{Broker}.
Context (P : Session -> Prop) `{!KeepsSession P}.

Lemma reply_keeps {A} (f : A -> Reply) (m : M A) : preserves P m -> preserves P (reply f m).
Proof. intros Hm. apply preserves_bind; [done|]. intros a. apply preserves_ret. Qed.
Lemma lift_keeps {A} (r : result exc A) : preserves P (lift r).
Proof. apply preserves_reads. Qed.

Lemma create_queue_keeps `{!KeepsTable P Queue} n g d u : preserves P (create_queue n g d u).
Proof. unfold create_queue. solve_se. Qed.
Lemma update_queue_keeps `{!KeepsTable P Queue} i n d u : preserves P (update_queue i n d u).
Proof. unfold update_queue. solve_se. Qed.
Lemma check_queue_unused_ro q : read_only (check_queue_unused q).
Proof. unfold check_queue_unused. solve_se. Qed.
Lemma delete_queue_keeps `{!KeepsTable P Queue} i u : preserves P (delete_queue i u).
Proof.
  unfold delete_queue. solve_se.
Qed.

Lemma create_connection_keeps `{!KeepsTable P Connection, !KeepsTable P AuthData} b u :
  preserves P (create_connection b u).
Proof. unfold create_connection, create_connection_body, lift. solve_se. Qed.
Lemma read_connection_keeps i u : preserves P (read_connection i u).
Proof. unfold read_connection, lift. solve_se. Qed.
Lemma update_connection_keeps `{!KeepsTable P Connection, !KeepsTable P AuthData} i b u :
  preserves P (update_connection i b u).
Proof. unfold update_connection, update_connection_body, lift. solve_se. Qed.
Lemma delete_connection_keeps `{!KeepsTable P Connection} i u : preserves P (delete_connection i u).
Proof. unfold delete_connection. solve_se. Qed.
Lemma copy_connection_keeps `{!KeepsTable P Connection} i c u : preserves P (copy_connection i c u).
Proof. unfold copy_connection, copy_connection_body, lift. solve_se. Qed.

Lemma create_transfer_keeps `{!KeepsTable P Transfer} b u : preserves P (create_transfer b u).
Proof. unfold create_transfer, check_transfer_data. solve_se. Qed.
Lemma copy_transfer_keeps `{!KeepsTable P Transfer, !KeepsTable P Connection} i c u :
  preserves P (copy_transfer i c u).
Proof. unfold copy_transfer, copy_transfer_body. solve_se. Qed.
Lemma update_transfer_keeps `{!KeepsTable P Transfer} i b u : preserves P (update_transfer i b u).
Proof. unfold update_transfer, check_transfer_data. solve_se. Qed.
Lemma delete_transfer_keeps `{!KeepsTable P Transfer} i u : preserves P (delete_transfer i u).
Proof. unfold delete_transfer. solve_se. Qed.

Lemma start_run_keeps `{!KeepsTable P Run} t u : preserves P (start_run t u).
Proof. unfold start_run, create_run_body, send_run. solve_se. Qed.
Lemma stop_run_keeps `{!KeepsTable P Run} i u : preserves P (stop_run i u).
Proof. unfold stop_run. solve_se. Qed.
End Keeps.

#[export] Hint Resolve create_queue_keeps update_queue_keeps delete_queue_keeps
  create_connection_keeps read_connection_keeps update_connection_keeps delete_connection_keeps
  copy_connection_keeps create_transfer_keeps copy_transfer_keeps update_transfer_keeps
  delete_transfer_keeps start_run_keeps stop_run_keeps : se.

Section Dispatch.
Context `{TextSearch} `{Cipher} `{PydanticCore} `{PyLib} `{Broker} `{AuthProviderLaws}.
Context (P : Session -> Prop) `{!KeepsSession P, !KeepsTable P Connection, !KeepsTable P AuthData,
  !KeepsTable P Queue, !KeepsTable P Transfer, !KeepsTable P Run, !KeepsTable P User}.

Lemma dispatch_keeps e u : writes_groups e = false -> preserves P (dispatch e u).
Proof.
  destruct e; cbn [writes_groups dispatch]; intros Hw; try discriminate Hw;
    apply reply_keeps.
  all: eauto 2 with se nocore.
  all: unfold read_groups, read_group, read_group_users, read_user, read_queues, read_queue,
    read_connections, read_transfers, read_transfer, read_runs, read_run, lift; solve_se.
Qed.
End Dispatch.

Section Scripts.
Context (P : Session -> Prop) `{!KeepsSession P, !KeepsTable P User}.

Lemma for_each_keeps {A} (l : list A) f : (forall x, preserves P (f x)) -> preserves P (for_each l f).
Proof.
  intros Hf. induction l as [|x l IH]; [apply preserves_ret|].
  by apply preserves_bind; [apply Hf|intros _].
Qed.
Lemma set_superuser_keeps b u : preserves P (set_superuser b u).
Proof. unfold set_superuser. solve_se. Qed.
Lemma superusers_keeps (add : bool) l :
  preserves P ((if add then add_superusers else remove_superusers) l).
Proof.
  destruct add; unfold add_superusers, remove_superusers, users_named.
  - apply preserves_bind; [apply preserves_gets|]. intros us.
    apply preserves_bind; [apply for_each_keeps, set_superuser_keeps|]. intros _.
    apply preserves_bind; [apply preserves_gets|]. intros t.
    apply for_each_keeps. intros n. solve_se.
  - apply preserves_bind; [apply preserves_gets|]. intros us.
    apply for_each_keeps, set_superuser_keeps.
Qed.
End Scripts.

(** ** Atomicity *)

(** the routes that may still fail after their unit of work: they validate the
    response, or send the run to the queue *)
Definition fails_after_commit (e : Endpoint) : bool :=
  match e with
  | CreateConnection _ | UpdateConnection _ _ | CopyConnection _ _ | CreateTransfer _
  | CopyTransferTo _ _ | UpdateTransfer _ _ | StartRun _ => true
  | _ => false
  end.

Section Atomicity.
Context `{TextSearch} `{Cipher} `{PydanticCore} `{PyLib} `{Broker}.

Lemma read_only_atomic {A} (m : M A) : read_only m -> atomic m.
Proof. intros Hm. by apply no_commit_atomic, no_commit_read_only. Qed.
Lemma reply_atomic {A} (f : A -> Reply) (m : M A) : atomic m -> atomic (reply f m).
Proof. apply atomic_then. Qed.

Lemma update_group_body_nc g n d o : no_commit (update_group_body g n d o).
Proof. unfold update_group_body. solve_se. Qed.
Lemma group_permission_nc u g : no_commit (GroupRepository.get_group_permission u g).
Proof. apply no_commit_read_only, group_get_group_permission_ro. Qed.
Lemma group_read_by_id_nc g : no_commit (GroupRepository.read_by_id g).
Proof. apply no_commit_read_only, group_read_by_id_ro. Qed.
Lemma run_read_by_id_nc i : no_commit (RunRepository.read_by_id i).
Proof. apply no_commit_read_only, run_read_by_id_ro. Qed.

Ltac atom := repeat first
  [ apply reply_atomic
  | apply unit_of_work_atomic; solve [eauto 2 using update_group_body_nc with se nocore]
  | apply atomic_bind;
      [ solve [ eauto 3 using group_permission_nc, group_read_by_id_nc, run_read_by_id_nc with se nocore
              | apply no_commit_read_only; solve_se ]
      | intros ? ]
  | apply atomic_then ].

Lemma dispatch_atomic e u : fails_after_commit e = false -> atomic (dispatch e u).
Proof.
  destruct e; cbn [fails_after_commit dispatch]; intros Hf; try discriminate Hf.
  all: try solve [ apply read_only_atomic; unfold reply;
    unfold read_groups, read_group, read_group_users, get_users, read_current_user, read_user,
      read_queues, read_queue, read_connections, read_connection_types, read_connection,
      read_transfers, read_transfer, read_runs, read_run, lift; solve_se ].
  all: try solve [ unfold create_group, update_group, delete_group, update_user_role_group,
    add_user_to_group, delete_user_from_group, create_queue, update_queue, delete_queue,
    check_queue_unused, delete_connection, delete_transfer, stop_run; atom ].
Qed.
End Atomicity.

(** ** The shape of an endpoint

    It reads, runs a unit of work and reads.  What holds of the stored rows before holds
    after, when it holds of what a body that succeeds leaves. *)

Definition both (Q : DB -> Prop) (s : Session) : Prop := Q (committed s) /\ Q (working s).

Section Shape.
Context (Q : DB -> Prop).

Lemma keep_read {A B} (m : M A) (f : A -> M B) s : read_only m -> both Q s ->
  (forall a, m s = (Ok a, s) -> both Q (final (f a) s)) -> both Q (final (m ≫= f) s).
Proof.
  intros Hm Hs Hf. unfold final. rewrite bind_run. specialize (Hm s). unfold final in Hm.
  destruct (m s) as [[a|e] s1] eqn:Hr; cbn in *; subst s1; [by apply Hf|done].
Qed.
Lemma keep_unit {A} (m : M A) s : no_commit m -> both Q s ->
  (forall a s', m s = (Ok a, s') -> Q (working s')) -> both Q (final (unit_of_work m) s).
Proof.
  intros Hm [Hc _] Hf. specialize (Hm s). unfold final, unit_of_work in *.
  destruct (m s) as [[a|e] s1] eqn:Hr; cbn in *.
  - split; cbn; by eapply Hf.
  - split; cbn; by rewrite Hm.
Qed.
Lemma keep_then {A B} (m : M A) (f : A -> M B) s : both Q (final m s) -> (forall a, read_only (f a)) ->
  both Q (final (m ≫= f) s).
Proof.
  intros Hm Hf. unfold final in *. rewrite bind_run. destruct (m s) as [[a|e] s1]; [|done].
  specialize (Hf a s1). unfold final in Hf. by rewrite Hf.
Qed.
Lemma keep_bind {A B} (m : M A) (f : A -> M B) s : both Q (final m s) ->
  (forall a s', m s = (Ok a, s') -> both Q (final (f a) s')) -> both Q (final (m ≫= f) s).
Proof.
  intros Hm Hf. unfold final in *. rewrite bind_run. destruct (m s) as [[a|e] s1] eqn:Hr; [|done].
  by apply Hf.
Qed.
End Shape.
