(* ===== verification/Superusers.v ===== *)
(** * The command line of [server/scripts/manage_superusers.py]

    The parser of [argparse], the list of superusers and the dispatch to
    [Server.add_superusers] and [Server.remove_superusers].  What SQLAlchemy's [in_]
    makes of the names is the parameter [InClause]. *)

From S2P Require Import Prelude PyData Models Errors Database Integrity Search Repository.
From S2P Require Import Repositories RepositoryFacts Pydantic ConnectionSchemas TransferSchemas.
From S2P Require Import Auth ApiGroups ApiQueues ApiConnections ApiTransfers ApiRuns Server.
From S2P Require Import ServerFacts.

(** [args.usernames]: with [nargs="?"] a text or [None]; the script puts the names of
    the settings in its place *)
Inductive Usernames := NoUsernames | OneText (s : string) | ManyNames (l : list string).

(** [User.username.in_(usernames)] *)
Class InClause := { in_ : Usernames -> result exc (list string) }.
(** a list of names is accepted; a text or [None] is no list *)
Class InClauseLaws `{InClause} := {
  in_names : forall l, in_ (ManyNames l) = Ok l;
  in_text : forall s, is_ok (in_ (OneText s)) = false;
  in_none : is_ok (in_ NoUsernames) = false;
}.

Inductive Command := Add | Remove | List_.
Record Namespace := mkNamespace { command : Command; usernames : Usernames }.

(** [create_parser().parse_args(argv)]; [None] where [argparse] exits, or where an
    argument starts with a dash, which it reads as an option *)
Definition parse_args (argv : list string) : option Namespace :=
  if existsb (String.prefix "-") argv then None
  else match argv with
       | ["list"] => Some (mkNamespace List_ NoUsernames)
       | ["add"] => Some (mkNamespace Add NoUsernames)
       | ["add"; name] => Some (mkNamespace Add (OneText name))
       | ["remove"] => Some (mkNamespace Remove NoUsernames)
       | ["remove"; name] => Some (mkNamespace Remove (OneText name))
       | _ => None
       end.

(** [if args.command == "add" and not args.usernames: args.usernames = settings.superusers] *)
Definition with_default_names (superusers : list string) (args : Namespace) : Namespace :=
  match args with
  | mkNamespace Add NoUsernames | mkNamespace Add (OneText "") => mkNamespace Add (ManyNames superusers)
  | _ => args
  end.

Section Script.
Context `{TextSearch} `{InClause}.

(** [list_superusers]: the names it logs *)
Definition list_superusers : M (list string) :=
  superusers ← gets (fun s => merge_sort (order_le [fun u v => collate (username u) (username v)])
                               (filter (fun u => is_superuser u = true) (rows_of (working s))));
  mret (username <$> superusers).

(** [main]; the session is closed whatever happened *)
Definition main (args : Namespace) : M (list string) :=
  match command args with
  | List_ => list_superusers
  | Add => unit_of_work (names ← reads (fun _ => in_ (usernames args)); _ ← add_superusers names; mret [])
  | Remove => unit_of_work (names ← reads (fun _ => in_ (usernames args)); _ ← remove_superusers names; mret [])
  end.
Definition script (superusers : list string) (argv : list string) (s : Session) : option (result exc (list string) * Session) :=
  (fun args => let '(r, s') := main (with_default_names superusers args) s in (r, rollback s')) <$> parse_args argv.
End Script.

(** names given on the command line never reach the database *)
Lemma cli_names_fail `{TextSearch} `{InClauseLaws} superusers cmd name s : cmd = "add" \/ cmd = "remove" ->
  name <> "" -> String.prefix "-" name = false ->
  exists e s', script superusers [cmd; name] s = Some (Raise e, s') /\ committed s' = committed s.
Proof.
  intros Hcmd Hn Hd. pose proof (in_text name) as Hin. destruct (in_ (OneText name)) as [l|e] eqn:He; [done|].
  exists e, (rollback s). unfold script, parse_args. destruct name as [|c name]; [done|].
  assert (existsb (String.prefix "-") [cmd; String c name] = false) as Hdash.
  { cbn [existsb]. rewrite Hd. by destruct Hcmd as [->| ->]. }
  rewrite Hdash. destruct Hcmd as [->| ->]; cbn -[in_]; unfold main, unit_of_work; cbn -[in_];
    rewrite bind_run; unfold reads; rewrite He; by destruct s.
Qed.
