(* ===== verification/Membership.v ===== *)
(** * Groups and their members: the invariant of the server

    Besides referential integrity, between requests: the owner of a group is
    never among its members, and every stored role is a public one.  It is what
    makes [get_member_role] report the right role (see Permissions.v). *)

From S2P Require Import Prelude PyData Models Errors Database Integrity Search Repository.
From S2P Require Import Repositories RepositoryFacts Pydantic ConnectionSchemas TransferSchemas.
From S2P Require Import Auth ApiGroups ApiQueues ApiConnections ApiTransfers ApiRuns Server.
From S2P Require Import ServerFacts Deletion.

Definition owners_ok (G : gmap Z Group) (U : gmap (Z * Z) UserGroup) : Prop :=
  forall uid gid ug g, U !! (uid, gid) = Some ug -> G !! gid = Some g -> group_owner_id g <> uid.
Definition roles_ok (U : gmap (Z * Z) UserGroup) : Prop :=
  map_Forall (fun _ ug => ug_role ug ∈ public_roles) U.

Definition members_ok (db : DB) : Prop :=
  owners_ok (groups db) (user_groups db) /\ roles_ok (user_groups db).
Definition db_inv (db : DB) : Prop := db_wf db /\ members_ok db.
Definition session_inv (s : Session) : Prop := db_inv (committed s) /\ db_inv (working s).

(** ** Statements *)

Lemma owners_ok_sub G G' U U' : G' ⊆ G -> U' ⊆ U -> owners_ok G U -> owners_ok G' U'.
Proof. intros HG HU Ho uid gid ug g Hu Hg. eapply Ho; by eapply lookup_weaken. Qed.

Lemma members_ok_sub db db' :
  groups db' ⊆ groups db -> user_groups db' ⊆ user_groups db -> members_ok db -> members_ok db'.
Proof.
  intros HG HU [Ho Hr]. split; [by eapply owners_ok_sub|].
  intros k ug Hk. eapply Hr. by eapply lookup_weaken.
Qed.

Lemma session_inv_wf s : session_inv s -> session_wf s.
Proof. by intros [[? _] [? _]]. Qed.

Lemma session_inv_run (m : Session -> Session) s :
  session_wf (m s) -> session_inv s -> members_ok (committed (m s)) -> members_ok (working (m s)) ->
  session_inv (m s).
Proof. by intros [??] _ ? ?. Qed.

(** a statement on a table that is neither groups nor memberships *)
Class Inert (R : Type) {K} `{Table K R} := inert : forall (m : gmap K R) db,
  groups (with_tbl m db) = groups db /\ user_groups (with_tbl m db) = user_groups db.
#[export] Instance InertUser : Inert User. Proof. done. Qed.
#[export] Instance InertConnection : Inert Connection. Proof. done. Qed.
#[export] Instance InertAuthData : Inert AuthData. Proof. done. Qed.
#[export] Instance InertQueue : Inert Queue. Proof. done. Qed.
#[export] Instance InertTransfer : Inert Transfer. Proof. done. Qed.
#[export] Instance InertRun : Inert Run. Proof. done. Qed.

Lemma delete_members_ok {K R} `{DeleteLaws K R} (k : K) db :
  members_ok db -> members_ok (cascade (with_tbl (delete k (tbl (R := R) db)) db)).
Proof.
  intros Hm. destruct (cascade_sub (with_tbl (delete k (tbl (R := R) db)) db)) as (?&?&?&_).
  destruct (delete_sub (R := R) k db) as (?&?&?&_).
  eapply members_ok_sub; [| |exact Hm]; by etrans.
Qed.

Lemma delete_row_inv {K R} `{TableLaws K R, !WfTable K R, !DeleteLaws K R} (k : K) :
  preserves session_inv (delete_row (R := R) k).
Proof.
  intros s Hs. pose proof (delete_row_wf (R := R) k s (session_inv_wf _ Hs)) as [??].
  destruct Hs as [[_ Hc] [_ Hw]]. unfold final, delete_row in *.
  destruct (tbl (working s) !! k); cbn in *; [|done].
  split; split; [done|done|done|]. by apply delete_members_ok.
Qed.

#[export] Instance inert_keeps {K R}
  `{TableLaws K R, !WfTable K R, !DeleteLaws K R, !Inert R} : KeepsTable session_inv R.
Proof.
  assert (forall m db, members_ok db -> members_ok (with_tbl (R := R) m db)) as Hin.
  { intros m db. unfold members_ok. by destruct (inert m db) as [-> ->]. }
  constructor; [intros r s Hs|intros k f Hf s Hs|apply delete_row_inv].
  - pose proof (insert_row_wf r s (session_inv_wf _ Hs)) as [??].
    destruct Hs as [[_ Hc] [_ Hw]]. unfold final, insert_row in *.
    repeat case_match; cbn in *; (split; split; [done|done|done|]); first [done|by apply Hin].
  - pose proof (update_row_wf k f Hf s (session_inv_wf _ Hs)) as [??].
    destruct Hs as [[_ Hc] [_ Hw]]. unfold final, update_row in *.
    repeat case_match; cbn in *; (split; split; [done|done|done|]); first [done|by apply Hin].
Qed.

#[export] Instance session_inv_session : KeepsSession session_inv.
Proof. constructor; [by intros q s []|by intros s []|by intros s []]. Qed.

(** ** A unit of work whose body only breaks the invariant while it runs *)

Lemma unit_of_work_inv {A} (m : M A) :
  no_commit m ->
  (forall s a s', session_inv s -> m s = (Ok a, s') -> db_inv (working s')) ->
  preserves session_inv (unit_of_work m).
Proof.
  intros Hn Hm s Hs. specialize (Hn s). specialize (Hm s). unfold final, unit_of_work in *.
  destruct (m s) as [[a|e] s'] eqn:Hr; cbn in *.
  - assert (db_inv (working s')) by (by eapply Hm). by split.
  - destruct Hs as [Hc _]. by rewrite <- Hn in Hc.
Qed.

(** ** The endpoints that write groups and memberships *)

Lemma group_insert_keeps (g : Group) : preserves session_inv (insert_row g).
Proof.
  intros s Hs. pose proof (insert_row_wf g s (session_inv_wf _ Hs)) as [??].
  destruct Hs as [[_ Hc] [Hwf [Ho Hr]]]. unfold final, insert_row in *.
  destruct (negb (sizes_ok g)); [done|].
  destruct (tbl (working s) !! row_key g) eqn:Hk; [done|].
  destruct (check_row (working s) g) as [[]|]; [|done]. cbn in *.
  split; split; [done|done|done|]. split; [|done].
  intros uid gid ug g' Hug. cbn. rewrite lookup_insert. case_decide as Hd; [|by eapply Ho].
  intros [= <-]. subst gid. exfalso.
  destruct (db_wf_table (R := UserGroup) _ Hwf) as (Hkeys & _ & Hrefs).
  pose proof (Hkeys _ _ Hug) as [= _ Hgid]. apply Hrefs in Hug.
  unfold refs_ok in Hug. cbn in Hug. apply Forall_cons in Hug as [[g0 Hg0] _].
  rewrite Hgid in Hg0. cbn in Hk. congruence.
Qed.

Lemma create_group_keeps u n d : preserves session_inv (create_group u n d).
Proof.
  apply keeps_unit_of_work; [apply _|]. apply preserves_bind; [apply preserves_gets|]. intros t.
  apply except_integrity_wf, preserves_bind; [apply keeps_nextval|]. intros i.
  apply group_insert_keeps.
Qed.

(** what a member's row becomes when it is written *)
Lemma user_group_put db ug :
  db_inv db -> check_row db ug = Ok tt -> ug_role ug ∈ public_roles ->
  (forall g, groups db !! ug_group_id ug = Some g -> group_owner_id g <> ug_user_id ug) ->
  db_inv (with_tbl (<[row_key ug := ug]> (user_groups db)) db).
Proof.
  intros (Hwf & Ho & Hr) Hchk Hrole Hown. split; [|split].
  - exact (put_wf db _ ug Hwf (db_wf_table _ Hwf) eq_refl Hchk).
  - intros uid gid ug' g. cbn. rewrite lookup_insert. case_decide as Hd.
    + injection Hd as <- <-. intros [= <-]. apply Hown.
    + by apply Ho.
  - intros k ug'. cbn. rewrite lookup_insert. case_decide.
    + by intros [= <-].
    + apply Hr.
Qed.

Lemma update_user_role_keeps g i r u : r ∈ public_roles ->
  preserves session_inv (update_user_role_group g i r u).
Proof.
  intros Hrole. unfold update_user_role_group.
  apply preserves_bind; [apply read_only_preserves, group_get_group_permission_ro|]. intros p.
  apply preserves_bind; [apply read_only_preserves, raise_if_none_ro|]. intros _.
  apply preserves_bind; [apply read_only_preserves, require_ro|]. intros _.
  apply preserves_bind; [|intros ?; apply preserves_ret].
  apply unit_of_work_inv; [apply group_update_member_role_nc|].
  intros s a s' Hs Hm. unfold GroupRepository.update_member_role in Hm.
  apply bind_ok in Hm as (o & s1 & Hu & Hm). apply except_integrity_ok in Hu.
  apply update_row_ok in Hu as [(_ & -> & ->)|(ug & Hug & -> & Hchk & ->)]; [done|].
  inv_ok. destruct Hs as [_ Hw].
  apply (user_group_put _ (mkUserGroup i g r)); [done|done|done|].
  intros g' Hg'. destruct Hw as (_ & Ho & _). by eapply Ho.
Qed.

Lemma add_user_run g i r s a s' :
  db_inv (working s) -> r ∈ public_roles ->
  (forall g', groups (working s) !! g = Some g' -> group_owner_id g' <> i) ->
  GroupRepository.add_user g i r s = (Ok a, s') -> db_inv (working s').
Proof.
  intros Hs Hrole Hown Hm. unfold GroupRepository.add_user in Hm.
  apply bind_ok in Hm as (o & s1 & Hu & Hm). apply except_integrity_ok in Hu.
  apply insert_row_ok in Hu as (-> & Hk & Hchk & ->). inv_ok.
  by apply (user_group_put _ (mkUserGroup i g r)).
Qed.

Lemma read_group_by_id_ok g a s s' : GroupRepository.read_by_id g s = (Ok a, s') ->
  groups (working s) !! g = Some a /\ s' = s.
Proof. unfold GroupRepository.read_by_id. intros Hr. by inv_ok. Qed.

(** ** The transfer of ownership in [update_group] *)

Lemma group_update_ok g n d o a s s' : db_wf (working s) -> GroupRepository.update g n d o s = (Ok a, s') ->
  exists g0, groups (working s) !! g = Some g0 /\
    a = mkGroup g n d o (group_created_at g0) (clock s) /\
    s' = set_working (with_tbl (<[g := a]> (groups (working s))) (working s)) s.
Proof.
  intros Hwf Hu. unfold GroupRepository.update in Hu. apply except_integrity_ok, except_class_ok in Hu.
  apply _update_ok in Hu as (g0 & Hg & -> & _ & ->). exists g0. split_and!; [done| |done].
  cbn. by rewrite <- (wf_key (R := Group) _ _ _ Hwf Hg).
Qed.

Lemma delete_user_ok g i x s s' : db_wf (working s) -> GroupRepository.delete_user g i s = (Ok x, s') ->
  is_Some (user_groups (working s) !! (i, g)) /\
  s' = set_working (with_tbl (delete (i, g) (user_groups (working s))) (working s)) s.
Proof.
  intros Hwf Hd. unfold GroupRepository.delete_user in Hd.
  apply bind_ok in Hd as (o & s1 & Hsel & Hd). apply gets_ok in Hsel as [-> ->]. cbn in Hd.
  destruct (user_groups (working s) !! (i, g)) as [ug|] eqn:Hug; [|done]. split; [done|].
  apply bind_ok in Hd as (o & s1 & Hd & Hr). apply mret_ok in Hr as [_ ->].
  pose proof (wf_key (R := UserGroup) _ _ _ Hwf Hug) as [= Hi Hg]. rewrite Hi, Hg in Hd.
  apply delete_row_ok in Hd as [(Hn & _)|(ug' & _ & _ & ->)]; [cbn in Hn; congruence|].
  f_equal. by apply cascade_user_group.
Qed.

Lemma add_user_ok g i r x s s' : GroupRepository.add_user g i r s = (Ok x, s') ->
  user_groups (working s) !! (i, g) = None /\ check_row (working s) (mkUserGroup i g r) = Ok tt /\
  s' = set_working (with_tbl (<[(i, g) := mkUserGroup i g r]> (user_groups (working s))) (working s)) s.
Proof.
  intros Hm. unfold GroupRepository.add_user in Hm. apply bind_ok in Hm as (o & s1 & Hu & Hm).
  apply except_integrity_ok, insert_row_ok in Hu as (-> & Hk & Hchk & ->). by inv_ok.
Qed.

(** the members of group [g] once its owner [prev] is [o] *)
Definition moved_members (prev o g : Z) (U : gmap (Z * Z) UserGroup) : gmap (Z * Z) UserGroup :=
  if prev =? o then U else <[(prev, g) := mkUserGroup prev g Guest]> (delete (o, g) U).

Lemma update_group_body_ok g n d o s a s' :
  session_wf s -> update_group_body g n d o s = (Ok a, s') ->
  exists g0, groups (working s) !! g = Some g0 /\
    a = mkGroup g n d o (group_created_at g0) (clock s) /\
    s' = set_working
      (with_tbl (R := UserGroup) (moved_members (group_owner_id g0) o g (user_groups (working s)))
        (with_tbl (<[g := a]> (groups (working s))) (working s))) s.
Proof.
  intros Hwf Hm. unfold update_group_body in Hm.
  apply bind_ok in Hm as (g0 & s1 & Hg & Hm). apply read_group_by_id_ok in Hg as [Hg ->].
  apply bind_ok in Hm as (g1 & s1 & Hu & Hm).
  assert (db_wf (working s1)) as Hwf1.
  { pose proof (group_update_keeps session_wf g n d o s Hwf) as [_ Hk].
    unfold final in Hk. by rewrite Hu in Hk. }
  apply group_update_ok in Hu as (g0' & Hg0 & Hg1 & Hs1); [|apply Hwf].
  assert (g0' = g0) as -> by congruence. exists g0. split; [done|].
  apply bind_ok in Hm as (? & s2 & Hm & Hret). apply mret_ok in Hret as [-> ->]. split; [done|].
  unfold moved_members. destruct (group_owner_id g0 =? o) eqn:Hprev; cbn in Hm.
  { apply mret_ok in Hm as [_ ->]. by subst s1. }
  apply bind_ok in Hm as (oug & s3 & Hget & Hm). apply gets_ok in Hget as [-> ->].
  apply bind_ok in Hm as (? & s4 & Hdel & Hm).
  assert (s4 = set_working (with_tbl (delete (o, g) (user_groups (working s1))) (working s1)) s1) as ->.
  { cbn in Hdel. destruct (user_groups (working s1) !! (o, g)) eqn:Hug.
    - by apply delete_user_ok in Hdel as [_ ->].
    - apply mret_ok in Hdel as [_ ->]. rewrite delete_id by done. by destruct s1 as [? [] ? ?]. }
  apply add_user_ok in Hm as (_ & _ & ->). by subst s1.
Qed.

Lemma moved_members_ok prev o g U G g1 : owners_ok G U -> roles_ok U -> group_owner_id g1 = o ->
  (exists g0, G !! g = Some g0 /\ group_owner_id g0 = prev) ->
  owners_ok (<[g := g1]> G) (moved_members prev o g U) /\ roles_ok (moved_members prev o g U).
Proof.
  intros Ho Hr Hg1 (g0 & Hg0 & Hprev). unfold moved_members.
  destruct (Z.eqb_spec prev o) as [->|Hne]; (split; [intros uid gid ug g'|]).
  - rewrite lookup_insert. intros Hug. case_decide as Hd; [|by eapply Ho].
    intros [= <-]. subst gid. rewrite Hg1, <- Hprev. by eapply Ho.
  - done.
  - destruct (decide (g = gid)) as [->|Hg].
    + rewrite lookup_insert_eq. intros Hug [= <-] Heq. rewrite Hg1 in Heq. subst uid.
      rewrite lookup_insert_ne, lookup_delete_eq in Hug by congruence. done.
    + rewrite !lookup_insert_ne, lookup_delete_ne by congruence. apply Ho.
  - apply map_Forall_insert_2; [set_solver|]. by apply map_Forall_delete.
Qed.

Lemma update_group_body_wf g n d o : preserves session_wf (update_group_body g n d o).
Proof. unfold update_group_body. solve_se. Qed.

Lemma update_group_keeps g n d o u : preserves session_inv (update_group g n d o u).
Proof.
  unfold update_group.
  apply preserves_bind; [apply read_only_preserves, group_get_group_permission_ro|]. intros p.
  apply preserves_bind; [apply read_only_preserves, raise_if_none_ro|]. intros _.
  apply preserves_bind; [apply read_only_preserves, require_ro|]. intros _.
  apply unit_of_work_inv; [apply update_group_body_nc|].
  intros s a s' Hs Hm. pose proof (update_group_body_wf g n d o s (session_inv_wf _ Hs)) as [_ Hwf].
  unfold final in Hwf. rewrite Hm in Hwf.
  apply update_group_body_ok in Hm as (g0 & Hg & -> & ->); [|by apply session_inv_wf].
  destruct Hs as [_ (Hwf0 & Ho & Hr)].
  split; [exact Hwf|]. apply moved_members_ok; by eauto.
Qed.

Lemma add_user_to_group_keeps g i r u : r ∈ public_roles ->
  preserves session_inv (add_user_to_group g i r u).
Proof.
  intros Hrole s Hs. unfold final, add_user_to_group.
  rewrite read_only_bind_run by apply group_get_group_permission_ro.
  destruct (outcome _ s) as [p|e]; [|done].
  rewrite read_only_bind_run by apply raise_if_none_ro. destruct (outcome _ s); [|done].
  rewrite read_only_bind_run by apply require_ro. destruct (outcome _ s); [|done].
  rewrite read_only_bind_run by apply group_read_by_id_ro.
  destruct (outcome _ s) as [g0|e] eqn:Hg; [|done].
  assert (groups (working s) !! g = Some g0) as Hg0.
  { unfold outcome in Hg. destruct (GroupRepository.read_by_id g s) as [rr s1] eqn:Hr.
    cbn in Hg. subst rr. by apply read_group_by_id_ok in Hr as [? _]. }
  rewrite bind_run. destruct (group_owner_id g0 =? i) eqn:Hi; cbn; [done|].
  apply Z.eqb_neq in Hi.
  pose proof (group_add_user_nc g i r s) as Hn. unfold final, unit_of_work in *.
  destruct (GroupRepository.add_user g i r s) as [[x|e] s'] eqn:Hr; cbn in *.
  - assert (db_inv (working s')); [|by split].
    eapply add_user_run; [apply Hs|exact Hrole| |exact Hr]. intros g' Hg'. congruence.
  - destruct Hs as [Hc _]. by rewrite <- Hn in Hc.
Qed.

Lemma delete_group_keeps g : preserves session_inv (delete_group g).
Proof.
  apply keeps_unit_of_work; [apply _|]. unfold GroupRepository.delete.
  apply preserves_bind; [|intros ?; apply preserves_ret].
  apply except_class_wf, preserves_bind; [apply delete_row_inv|].
  intros []; [apply preserves_ret|apply preserves_raise].
Qed.

Lemma delete_user_from_group_keeps g i u : preserves session_inv (delete_user_from_group g i u).
Proof.
  unfold delete_user_from_group.
  apply preserves_bind; [apply read_only_preserves, group_get_group_permission_ro|]. intros p.
  apply preserves_bind; [apply read_only_preserves, raise_if_none_ro|]. intros _.
  apply preserves_bind; [apply preserves_when|]. intros _.
  apply keeps_unit_of_work; [apply _|]. unfold GroupRepository.delete_user.
  apply preserves_bind; [apply preserves_gets|]. intros [ug|]; [|apply preserves_raise].
  apply preserves_bind; [apply delete_row_inv|]. intros ?. apply preserves_ret.
Qed.

(** ** Requests *)

Lemma is_public_role_spec r : is_public_role (role_value r) = true <-> r ∈ public_roles.
Proof. unfold is_public_role. by rewrite role_of_str_value, bool_decide_eq_true. Qed.

Section Reachable.
Context `{TextSearch} `{Cipher} `{PydanticCore} `{PyLib} `{Broker} `{AuthProviderLaws}.

Lemma endpoint_keeps e t : preserves session_inv (endpoint e t).
Proof.
  unfold endpoint. apply preserves_bind; [apply get_user_keeps; apply _|]. intros u.
  destruct (request_valid e) eqn:Hv; [|apply preserves_raise].
  destruct (writes_groups e) eqn:Hw; [|apply dispatch_keeps; [apply _..|done]].
  destruct e; try discriminate Hw; cbn [dispatch request_valid] in *; apply reply_keeps.
  - apply create_group_keeps.
  - apply update_group_keeps.
  - apply delete_group_keeps.
  - by apply update_user_role_keeps, is_public_role_spec.
  - by apply add_user_to_group_keeps, is_public_role_spec.
  - apply delete_user_from_group_keeps.
Qed.

Lemma serve_keeps e t s : session_inv s -> session_inv (serve e t s).2.
Proof.
  intros Hs. pose proof (endpoint_keeps e t s Hs) as He. unfold final, serve in *.
  destruct (endpoint e t s) as [[r|x] s']; by apply keeps_rollback.
Qed.

Lemma server_step_keeps s s' : server_step s s' -> session_inv s -> session_inv s'.
Proof.
  intros [e t s0|name s0|add l s0|s0 t Ht] Hs; [by apply serve_keeps| | |exact Hs].
  - apply keeps_rollback. by apply get_or_create_keeps; [apply _..|].
  - apply keeps_rollback. apply keeps_unit_of_work; [apply _| |done].
    apply superusers_keeps; apply _.
Qed.

Lemma empty_inv : db_inv empty_db.
Proof.
  split; [|split].
  - unfold db_wf, table_wf. split_and!;
      first [ apply map_Forall_empty
            | intros k k' r r' u Hk; cbn in Hk; by apply lookup_empty_Some in Hk ].
  - intros uid gid ug g Hk. cbn in Hk. by apply lookup_empty_Some in Hk.
  - apply map_Forall_empty.
Qed.

Lemma reachable_session_inv s : reachable s -> session_inv s.
Proof.
  induction 1 as [sq t|s s' _ IH Hstep]; [split; apply empty_inv|].
  by eapply server_step_keeps.
Qed.

(** between requests nothing is pending *)
Lemma reachable_clean s : reachable s -> working s = committed s.
Proof.
  induction 1 as [sq t|s s' _ IH Hstep]; [done|]. destruct Hstep as [e t s0|name s0|add l s0|s0 t Ht].
  - unfold serve. by destruct (endpoint e t s0) as [[]].
  - done.
  - done.
  - exact IH.
Qed.
End Reachable.
