(* ===== verification/Examples.v ===== *)
(** * A concrete instance of every parameter, and a small world

    Each class of parameters has an executable instance here that satisfies its
    laws, and [world] is the state a script of requests leads to from the empty
    database; the witnesses of the theorems are evaluated in it. *)

From S2P Require Import Prelude PyData Models Errors Database Integrity Search Repository.
From S2P Require Import Repositories RepositoryFacts Pydantic ConnectionSchemas TransferSchemas.
From S2P Require Import Auth ApiGroups ApiQueues ApiConnections ApiTransfers ApiRuns Server.
From S2P Require Import ServerFacts Membership.
From Stdlib Require Import Ascii.

(** ** A JSON codec: a prefix code of tokens *)

#[export] Instance json_eq_dec : EqDecision json.
Proof.
  refine (fix go (x y : json) : Decision (x = y) :=
    match x, y with
    | JNull, JNull => left eq_refl
    | JBool a, JBool b => cast_if (decide (a = b))
    | JInt a, JInt b => cast_if (decide (a = b))
    | JStr a, JStr b => cast_if (decide (a = b))
    | JList a, JList b => cast_if (@list_eq_dec json go a b)
    | JObj a, JObj b => cast_if (@list_eq_dec (string * json) (@prod_eq_dec _ _ json go) a b)
    | _, _ => right _
    end); abstract congruence.
Defined.

Fixpoint to_tree (j : json) : gen_tree (bool + Z + string) :=
  match j with
  | JNull => GenNode 0 []
  | JBool b => GenLeaf (inl (inl b))
  | JInt z => GenLeaf (inl (inr z))
  | JStr s => GenLeaf (inr s)
  | JList l => GenNode 1 (to_tree <$> l)
  | JObj d => GenNode 2 ((fun kv => GenNode 3 [GenLeaf (inr kv.1); to_tree kv.2]) <$> d)
  end.
Fixpoint of_tree (t : gen_tree (bool + Z + string)) : json :=
  match t with
  | GenLeaf (inl (inl b)) => JBool b
  | GenLeaf (inl (inr z)) => JInt z
  | GenLeaf (inr s) => JStr s
  | GenNode 1 l => JList (of_tree <$> l)
  | GenNode 2 l =>
      JObj ((fun t => match t with
                      | GenNode 3 [GenLeaf (inr k); v] => (k, of_tree v)
                      | _ => ("", JNull)
                      end) <$> l)
  | _ => JNull
  end.
Lemma of_to_tree : forall j, of_tree (to_tree j) = j.
Proof.
  fix IH 1. intros [| | | |l|d]; cbn; try reflexivity; f_equal.
  - induction l as [|x l IHl]; cbn; [done|]. by rewrite IH, IHl.
  - induction d as [|[k v] d IHd]; cbn; [done|]. by rewrite IH, IHd.
Qed.
#[export] Instance json_countable : Countable json := inj_countable' to_tree of_tree of_to_tree.

Fixpoint bits (p : positive) : string :=
  match p with
  | xH => ""
  | xO p => String "0"%char (bits p)
  | xI p => String "1"%char (bits p)
  end.
Fixpoint unbits (s : string) : positive :=
  match s with
  | EmptyString => xH
  | String c s' => if Ascii.eqb c "1"%char then xI (unbits s') else xO (unbits s')
  end.
Lemma unbits_bits p : unbits (bits p) = p.
Proof. induction p; cbn; congruence. Qed.

(** ** The parameters *)

#[export] Instance toy_cipher : Cipher := {
  secret_key := "k";
  fernet_encrypt key s := key +:+ s;
  fernet_decrypt key s := match s with String _ s' => Ok s' | _ => Raise InvalidToken end;
  json_dumps j := bits (encode j);
  json_loads s := or_raise (decode (unbits s)) (ValueError "json");
}.

#[export] Instance toy_search : TextSearch := {
  TsQuery := string; TsVector := string;
  to_tsquery c s := s; plainto_tsquery c s := s; tsquery_or a b := a;
  to_tsvector c s := s; tsvector_concat a b := a +:+ b;
  ts_match v q := str_contains q v; ts_rank v q := Z.of_nat (String.length v);
  json_text j := ""; trgm_similar a b := String.eqb a b;
  collate := String.compare;
}.

#[export] Instance toy_pydantic : PydanticCore := {
  lax_int j := match j with JInt z => Some z | _ => None end;
  lax_bool j := match j with JBool b => Some b | _ => None end;
  lax_url s := Some s;
  lax_bytesize j := match j with JInt z => Some z | _ => None end;
}.
#[export] Instance toy_pydantic_laws : PydanticLaws.
Proof. by constructor. Qed.

#[export] Instance toy_pylib : PyLib := { re_compiles s := true; format_getattr v l := match v, l with StrValue _, ["upper"] => Some "<built-in method upper of str object>" | _, _ => None end; repr j := "" }.

(** a broker that is up, and one that is down *)
#[export] Instance toy_broker : Broker := { send_task _ _ _ := Ok tt }.
Definition down_broker : Broker := {| send_task _ _ _ := Raise KombuError |}.

(** a token is the decimal user id *)
#[export] Instance toy_jwt : Jwt := {
  jwt_encode d := match dict_get "user_id" d with Some (JInt z) => str_of_Z z | _ => "" end;
  jwt_decode _ s := (fun z => [("user_id", JInt z); ("exp", JInt 0)]) <$> Z_of_str s;
  expire_seconds := 36000;
  second := 1;
}.

(** ** A world built by requests *)

Definition token (user : Z) : option string := Some (str_of_Z user).

Definition pg_data : dict :=
  [("host", JStr "db"); ("port", JInt 5432); ("database_name", JStr "d");
   ("additional_params", JObj [])].
Definition basic_auth (user password : string) : dict :=
  [("type", JStr "basic"); ("user", JStr user); ("password", JStr password)].
Definition pg_connection (gid : Z) (name : string) : ConnectionBody :=
  mkConnectionBody gid name "" POSTGRES pg_data (basic_auth "u" "secret").
Definition pg_params (table : string) : dict :=
  [("table_name", JStr table); ("type", JStr "postgres")].
Definition pg_transfer (gid qid source target : Z) (name : string) (sched : option string) : TransferBody :=
  mkTransferBody gid qid source target name "" POSTGRES (pg_params "s.t") POSTGRES (pg_params "s.u")
    [("type", JStr "full")] [] (obj_of (Some default_resources))
    (match sched with Some _ => true | None => false end) sched.

Inductive Action :=
| Login (name : string)
| Req (user : Z) (e : Endpoint)
| Tick (t : Z).

Definition act (a : Action) (s : Session) : Session :=
  match a with
  | Login n => login n s
  | Req u e => (serve e (token u) s).2
  | Tick t => mkSession (committed s) (working s) (seqs s) (Z.max t (clock s))
  end.
Definition play (l : list Action) : Session :=
  foldl (fun s a => act a s) (session_on empty_db (fun _ => 1) 0) l.

Lemma play_reachable l : reachable (play l).
Proof.
  unfold play. assert (reachable (session_on empty_db (fun _ => 1) 0)) as Hr by constructor.
  revert Hr. generalize (session_on empty_db (fun _ => 1) 0). induction l as [|a l IH]; [done|].
  intros s Hs. cbn. apply IH. eapply reach_step; [exact Hs|].
  destruct a; cbn; constructor; [done|lia].
Qed.

(** alice (1) owns group 1; bob (2) is its developer, carol (3) its guest; bob
    owns group 2 *)
Definition people : list Action :=
  [Login "alice"; Login "bob"; Login "carol";
   Req 1 (CreateGroup "group1" ""); Req 1 (AddUserToGroup 1 2 Developer);
   Req 1 (AddUserToGroup 1 3 Guest); Req 2 (CreateGroup "group2" "")].
Definition resources_1 : list Action :=
  [Req 1 (CreateQueue "queue1" 1 ""); Req 1 (CreateConnection (pg_connection 1 "source"));
   Req 1 (CreateConnection (pg_connection 1 "target"));
   Req 1 (CreateTransfer (pg_transfer 1 1 1 2 "transfer" None))].
Definition world : Session := play (people ++ resources_1).

Lemma world_reachable : reachable world.
Proof. apply play_reachable. Qed.
