(* ===== verification/Permissions.v ===== *)
(** * Who may do what

    The abstract access policy: the role of a user in a group ([group_role]) and
    the permission it gives on the resources, the queues and the settings of the
    group.  The three implementations of the permission methods refine it, and
    an endpoint that changes the stored state was called by someone the policy
    authorizes. *)

From S2P Require Import Prelude PyData Models Errors Database Integrity Search Repository.
From S2P Require Import Repositories RepositoryFacts Pydantic ConnectionSchemas TransferSchemas.
From S2P Require Import Auth ApiGroups ApiQueues ApiConnections ApiTransfers ApiRuns Server.
From S2P Require Import ServerFacts Membership Examples.

(** ** The policy *)

Definition group_role (db : DB) (u : User) (gid : Z) : option GroupMemberRole :=
  if is_superuser u then Some Superuser
  else match groups db !! gid with
       | Some g => if group_owner_id g =? user_id u then Some Owner
                   else ug_role <$> user_groups db !! (user_id u, gid)
       | None => None
       end.

(** connections and transfers *)
Definition resource_policy (r : option GroupMemberRole) : Permission :=
  match r with
  | Some (Superuser | Owner | Maintainer) => DELETE
  | Some Developer => WRITE
  | Some Guest => READ
  | None => NONE
  end.
(** queues: developers only read *)
Definition queue_policy (r : option GroupMemberRole) : Permission :=
  match r with
  | Some (Superuser | Owner | Maintainer) => DELETE
  | Some (Developer | Guest) => READ
  | None => NONE
  end.
(** the group itself: members only read *)
Definition group_policy (r : option GroupMemberRole) : Permission :=
  match r with
  | Some (Superuser | Owner) => DELETE
  | Some (Maintainer | Developer | Guest) => READ
  | None => NONE
  end.

Definition has_role (db : DB) (u : User) (gid : Z) (least : GroupMemberRole) : Prop :=
  exists r, group_role db u gid = Some r /\ is_at_least_privilege_level r least = true.

(** ** The implementations refine it *)

Lemma public_role_cases r : r ∈ public_roles -> r = Maintainer \/ r = Developer \/ r = Guest.
Proof. unfold public_roles. set_solver. Qed.

Lemma member_group db uid gid ug : db_wf db -> user_groups db !! (uid, gid) = Some ug ->
  is_Some (groups db !! gid).
Proof.
  intros Hwf Hug. destruct (db_wf_table (R := UserGroup) _ Hwf) as (Hk & _ & Hr).
  pose proof (Hk _ _ Hug) as [= _ Hg]. apply Hr in Hug. unfold refs_ok in Hug. cbn in Hug.
  apply Forall_cons in Hug as [Hg0 _]. by rewrite Hg in Hg0.
Qed.

(** run the reads of a computation *)
Ltac run_reads := cbv [outcome final mbind SE_bind mret SE_ret gets reads select_by_key raise when fst snd].

Section Refine.
Variables (u : User) (s : Session).
Hypothesis Hinv : db_inv (working s).

(** the queries the three implementations share *)
Lemma role_queries gid (f : option UserGroup -> Permission) (pol : option GroupMemberRole -> Permission) :
  pol (Some Superuser) = DELETE -> pol (Some Owner) = DELETE -> pol None = f None ->
  (forall ug, ug_role ug ∈ public_roles -> f (Some ug) = pol (Some (ug_role ug))) ->
  (if is_superuser u then DELETE
   else if owner_query (working s) (user_id u) gid then DELETE
   else f (group_role_query (working s) (user_id u) gid)) =
  pol (group_role (working s) u gid).
Proof.
  intros Hs Ho Hn Hf. destruct Hinv as (Hwf & _ & Hroles).
  unfold group_role, owner_query, group_role_query.
  destruct (is_superuser u); [done|]. destruct (groups (working s) !! gid) as [g|] eqn:Hg.
  - destruct (group_owner_id g =? user_id u); [done|].
    destruct (user_groups (working s) !! (user_id u, gid)) as [ug|] eqn:Hug; cbn; [|done].
    apply Hf. by eapply Hroles.
  - destruct (user_groups (working s) !! (user_id u, gid)) as [ug|] eqn:Hug; cbn; [|done].
    apply member_group in Hug as [? ?]; [|done]. congruence.
Qed.

Definition member_policy (o : option UserGroup) : Permission :=
  match o with
  | None => NONE
  | Some ug => if decide (ug_role ug = Maintainer) then DELETE
               else if decide (ug_role ug = Developer) then WRITE else READ
  end.

Lemma member_policy_ok ug : ug_role ug ∈ public_roles ->
  member_policy (Some ug) = resource_policy (Some (ug_role ug)).
Proof. unfold member_policy. by intros [->|[->| ->]]%public_role_cases. Qed.
Lemma queue_member_ok ug : ug_role ug ∈ public_roles ->
  QueueRepository.member_permission (Some ug) = queue_policy (Some (ug_role ug)).
Proof. unfold QueueRepository.member_permission. by intros [->|[->| ->]]%public_role_cases. Qed.

Lemma resource_permission_ok {R} `{Owned R} i :
  outcome (get_resource_permission (R := R) u i) s =
  Ok (match tbl (R := R) (working s) !! i with
      | Some r => resource_policy (group_role (working s) u (resource_group_id r))
      | None => NONE
      end).
Proof.
  unfold get_resource_permission, resource_owner_query, resource_role_query. run_reads.
  destruct (tbl (working s) !! i) as [r|] eqn:Hr; [|done].
  rewrite <- (role_queries (resource_group_id r) member_policy resource_policy) by
    first [done|apply member_policy_ok].
  destruct (is_superuser u); [done|]. cbn. rewrite Hr. destruct (owner_query _ _ _); [done|].
  cbn. rewrite Hr.
  destruct (group_role_query _ _ _) as [ug|]; [|done].
  unfold member_policy. by repeat case_decide.
Qed.

Lemma group_permission_ok gid :
  outcome (get_group_permission u gid) s =
  match groups (working s) !! gid with
  | Some _ => Ok (resource_policy (group_role (working s) u gid))
  | None => Raise GroupNotFoundError
  end.
Proof.
  unfold get_group_permission. run_reads. cbn [tbl GroupTable].
  destruct (groups (working s) !! gid) as [r|]; [|done].
  rewrite <- (role_queries gid member_policy resource_policy) by
    first [done|apply member_policy_ok].
  destruct (is_superuser u); [done|]. destruct (owner_query _ _ _); [done|].
  destruct (group_role_query _ _ _) as [ug|]; [|done].
  unfold member_policy. by repeat case_decide.
Qed.

Lemma queue_resource_permission_ok i :
  outcome (QueueRepository.get_resource_permission u i) s =
  Ok (match queues (working s) !! i with
      | Some q => queue_policy (group_role (working s) u (queue_group_id q))
      | None => NONE
      end).
Proof.
  unfold QueueRepository.get_resource_permission, resource_owner_query, resource_role_query.
  run_reads. cbn [tbl QueueTable].
  destruct (queues (working s) !! i) as [q|] eqn:Hq; [|done].
  rewrite <- (role_queries (queue_group_id q) QueueRepository.member_permission queue_policy) by
    first [done|apply queue_member_ok].
  destruct (is_superuser u); [done|]. cbn. rewrite Hq.
  destruct (owner_query _ _ _); [done|]. cbn. by rewrite Hq.
Qed.

Lemma queue_group_permission_ok gid :
  outcome (QueueRepository.get_group_permission u gid) s =
  match groups (working s) !! gid with
  | Some _ => Ok (queue_policy (group_role (working s) u gid))
  | None => Raise GroupNotFoundError
  end.
Proof.
  unfold QueueRepository.get_group_permission. run_reads. cbn [tbl GroupTable].
  destruct (groups (working s) !! gid) as [r|]; [|done].
  rewrite <- (role_queries gid QueueRepository.member_permission queue_policy) by
    first [done|apply queue_member_ok].
  destruct (is_superuser u); [done|]. by destruct (owner_query _ _ _).
Qed.

Lemma settings_permission_ok gid :
  outcome (GroupRepository.get_group_permission u gid) s =
  match groups (working s) !! gid with
  | Some _ => Ok (group_policy (group_role (working s) u gid))
  | None => Raise GroupNotFoundError
  end.
Proof.
  unfold GroupRepository.get_group_permission. run_reads. cbn [tbl GroupTable].
  destruct (groups (working s) !! gid) as [r|]; [|done].
  rewrite <- (role_queries gid (fun o => match o with Some _ => READ | None => NONE end) group_policy).
  - destruct (is_superuser u); [done|]. by destruct (owner_query _ _ _).
  - done.
  - done.
  - done.
  - by intros ug [->|[->| ->]]%public_role_cases.
Qed.
End Refine.

(** ** What an endpoint needs before it writes *)

Definition at_group {R} (g : R -> Z) (db : DB) (o : option R) (u : User) (least : GroupMemberRole) : Prop :=
  exists r, o = Some r /\ has_role db u (g r) least.

(** the policy of the endpoints: the least role of the caller in the group of
    what it changes; a reading endpoint changes nothing *)
Definition authorized (db : DB) (u : User) (e : Endpoint) : Prop :=
  match e with
  | CreateGroup _ _ => True
  | UpdateGroup g _ _ _ | UpdateUserRoleGroup g _ _ | AddUserToGroup g _ _ => has_role db u g Owner
  | DeleteGroup g => is_superuser u = true
  | DeleteUserFromGroup g i =>
      has_role db u g Owner \/ (i = user_id u /\ has_role db u g Guest)
  | CreateQueue _ g _ => has_role db u g Maintainer
  | UpdateQueue i _ _ | DeleteQueue i => at_group queue_group_id db (queues db !! i) u Maintainer
  | CreateConnection b => has_role db u (cb_group_id b) Developer
  | UpdateConnection i _ => at_group conn_group_id db (connections db !! i) u Developer
  | DeleteConnection i => at_group conn_group_id db (connections db !! i) u Maintainer
  | CopyConnection i c =>
      at_group conn_group_id db (connections db !! i) u
        (if cc_remove_source c then Maintainer else Guest) /\
      has_role db u (cc_new_group_id c) Developer
  | CreateTransfer b => has_role db u (tb_group_id b) Developer
  | CopyTransferTo i c =>
      at_group transfer_group_id db (transfers db !! i) u
        (if ct_remove_source c then Maintainer else Guest) /\
      has_role db u (ct_new_group_id c) Developer
  | UpdateTransfer i _ => at_group transfer_group_id db (transfers db !! i) u Developer
  | DeleteTransfer i => at_group transfer_group_id db (transfers db !! i) u Maintainer
  | StartRun t => at_group transfer_group_id db (transfers db !! t) u Developer
  | StopRun i =>
      exists r, runs db !! i = Some r /\
        at_group transfer_group_id db (transfers db !! run_transfer_id r) u Developer
  | _ => False
  end.

(** [m] changes what is stored *)
Definition changed {A} (m : M A) (s : Session) : Prop := committed (final m s) <> committed s.

Lemma changed_bind {A B} (m : M A) (f : A -> M B) s : read_only m -> changed (m ≫= f) s ->
  exists a, outcome m s = Ok a /\ changed (f a) s.
Proof.
  intros Hm. unfold changed, final. rewrite read_only_bind_run by done.
  destruct (outcome m s); [by eauto|done].
Qed.

Lemma not_changed {A} (m : M A) s : read_only m -> ~ changed m s.
Proof. intros Hm Hc. apply Hc. by rewrite Hm. Qed.

Lemma reply_changed {A} (f : A -> Reply) (m : M A) s : changed (reply f m) s -> changed m s.
Proof. unfold changed, final, reply. rewrite bind_run. by destruct (m s) as [[] ?]. Qed.

Lemma raise_if_none_outcome p e s x : outcome (raise_if_none p e) s = Ok x -> p <> NONE.
Proof. unfold raise_if_none. by destruct p. Qed.
Lemma require_outcome p l s x : outcome (require p l) s = Ok x -> perm_lt p l = false.
Proof. unfold require. by destruct (perm_lt p l). Qed.
Lemma when_outcome b (e : exc) (s : Session) x : outcome (when b e) s = Ok x -> b = false.
Proof. by destruct b. Qed.

Lemma read_by_id_outcome {R} `{Table Z R} p e i s a :
  outcome (except_class p e (select_one (R := R) i)) s = Ok a -> tbl (working s) !! i = Some a.
Proof.
  unfold outcome. destruct (except_class _ _ _ s) as [r s1] eqn:Hr. cbn. intros ->.
  by apply except_class_ok, select_one_ok in Hr as [? _].
Qed.

(** the least role behind a permission *)
Lemma policy_roles db u gid :
  (resource_policy (group_role db u gid) <> NONE -> has_role db u gid Guest) /\
  (perm_lt (resource_policy (group_role db u gid)) WRITE = false -> has_role db u gid Developer) /\
  (perm_lt (resource_policy (group_role db u gid)) DELETE = false -> has_role db u gid Maintainer) /\
  (perm_lt (queue_policy (group_role db u gid)) DELETE = false -> has_role db u gid Maintainer) /\
  (group_policy (group_role db u gid) <> NONE -> has_role db u gid Guest) /\
  (perm_lt (group_policy (group_role db u gid)) DELETE = false -> has_role db u gid Owner).
Proof.
  unfold has_role. destruct (group_role db u gid) as [[]|]; cbn; split_and!; intros H;
    solve [by destruct H | done | eexists; split; reflexivity].
Qed.

Ltac peel H a := let Ha := fresh "Ho" in apply changed_bind in H as (a & Ha & H);
  [| solve [solve_se | apply group_get_group_permission_ro]].

Section Authorized.
Context `{TextSearch} `{Cipher} `{PydanticCore} `{PyLib} `{Broker}.
Variables (u : User) (s : Session).
Hypothesis Hinv : db_inv (working s).

(** the permission prefixes of the endpoints, run *)
Lemma resource_prefix {R A} `{Owned R} i e l (k : M A) :
  changed (p ← get_resource_permission (R := R) u i; _ ← raise_if_none p e; _ ← require p l; k) s ->
  changed k s /\
  exists r, tbl (R := R) (working s) !! i = Some r /\
    perm_lt (resource_policy (group_role (working s) u (resource_group_id r))) l = false.
Proof.
  intros Hc. peel Hc p. peel Hc x. peel Hc y. split; [done|].
  rewrite resource_permission_ok in Ho by done. injection Ho as Ho.
  apply raise_if_none_outcome in Ho0. apply require_outcome in Ho1.
  destruct (tbl (working s) !! i) as [r|]; [|by subst p]. exists r. by rewrite Ho.
Qed.

Lemma queue_prefix {A} i e l (k : M A) :
  changed (p ← QueueRepository.get_resource_permission u i; _ ← raise_if_none p e;
           _ ← require p l; k) s ->
  changed k s /\
  exists q, queues (working s) !! i = Some q /\
    perm_lt (queue_policy (group_role (working s) u (queue_group_id q))) l = false.
Proof.
  intros Hc. peel Hc p. peel Hc x. peel Hc y. split; [done|].
  rewrite queue_resource_permission_ok in Ho by done. injection Ho as Ho.
  apply raise_if_none_outcome in Ho0. apply require_outcome in Ho1.
  destruct (queues (working s) !! i) as [q|]; [|by subst p]. exists q. by rewrite Ho.
Qed.

Lemma settings_prefix {A} g e l (k : M A) :
  changed (p ← GroupRepository.get_group_permission u g; _ ← raise_if_none p e;
           _ ← require p l; k) s ->
  perm_lt (group_policy (group_role (working s) u g)) l = false.
Proof.
  intros Hc. peel Hc p. peel Hc x. peel Hc y.
  rewrite settings_permission_ok in Ho by done. apply require_outcome in Ho1.
  destruct (groups (working s) !! g); [|done]. by injection Ho as <-.
Qed.

Lemma group_prefix {A} g (k : Permission -> M A) :
  changed (p ← get_group_permission u g; k p) s ->
  changed (k (resource_policy (group_role (working s) u g))) s.
Proof.
  intros Hc. peel Hc p. rewrite group_permission_ok in Ho by done.
  destruct (groups (working s) !! g); [|done]. by injection Ho as <-.
Qed.

Local Ltac roles := match goal with
  | |- has_role ?db ?v ?g _ =>
      destruct (policy_roles db v g) as (Hguest & Hdev & Hmnt & Hqueue & Hmember & Howner); eauto
  end.
Local Ltac at_its_group := eexists; split; [eassumption|]; roles.

(** a resource of the path and a permission on it *)
Lemma at_resource {R A} `{Owned R} i e l least (k : M A) :
  (l = WRITE /\ least = Developer) \/ (l = DELETE /\ least = Maintainer) ->
  changed (p ← get_resource_permission (R := R) u i; _ ← raise_if_none p e; _ ← require p l; k) s ->
  at_group resource_group_id (working s) (tbl (R := R) (working s) !! i) u least.
Proof.
  intros Hl Hc. apply resource_prefix in Hc as (_ & r & Hr & Hp).
  destruct Hl as [[-> ->]|[-> ->]]; at_its_group.
Qed.

Lemma at_queue i e k A (f : M A) : k = DELETE ->
  changed (p ← QueueRepository.get_resource_permission u i; _ ← raise_if_none p e;
           _ ← require p k; f) s ->
  at_group queue_group_id (working s) (queues (working s) !! i) u Maintainer.
Proof. intros -> Hc. apply queue_prefix in Hc as (_ & q & Hq & Hp). at_its_group. Qed.

Lemma at_settings {A} g e (k : M A) :
  changed (p ← GroupRepository.get_group_permission u g; _ ← raise_if_none p e;
           _ ← require p DELETE; k) s ->
  has_role (working s) u g Owner.
Proof. intros Hc%settings_prefix. roles. Qed.

Lemma in_group {A} g e (k : M A) :
  changed (p ← get_group_permission u g; _ ← raise_if_none p e; _ ← require p WRITE; k) s ->
  has_role (working s) u g Developer.
Proof. intros Hc%group_prefix. peel Hc x. peel Hc y. apply require_outcome in Ho0. roles. Qed.

Lemma delete_user_authorized g i : changed (delete_user_from_group g i u) s ->
  has_role (working s) u g Owner \/ (i = user_id u /\ has_role (working s) u g Guest).
Proof.
  unfold delete_user_from_group. intros Hc. peel Hc p. peel Hc x. peel Hc y.
  rewrite settings_permission_ok in Ho by done. apply raise_if_none_outcome in Ho0.
  apply when_outcome, andb_false_iff in Ho1. destruct (groups (working s) !! g); [|done].
  injection Ho as <-. destruct Ho1 as [Hi|Hl]; [right; split; [lia|]|left]; roles.
Qed.

Lemma create_queue_authorized n g d : changed (create_queue n g d u) s ->
  has_role (working s) u g Maintainer.
Proof.
  unfold create_queue. intros Hc. peel Hc p. peel Hc x. peel Hc y.
  rewrite queue_group_permission_ok in Ho by done. apply require_outcome in Ho1.
  destruct (groups (working s) !! g); [|done]. injection Ho as <-. roles.
Qed.

(** a copy needs a role at both ends *)
Lemma copy_prefix {R A} `{Owned R} i e (b : bool) g (k : Permission -> M A) :
  changed (p ← get_resource_permission (R := R) u i; _ ← raise_if_none p e;
           _ ← when (b && perm_lt p DELETE) (ActionNotAllowedError "");
           q ← get_group_permission u g; k q) s ->
  at_group resource_group_id (working s) (tbl (R := R) (working s) !! i) u
    (if b then Maintainer else Guest) /\
  changed (k (resource_policy (group_role (working s) u g))) s.
Proof.
  intros Hc. peel Hc p. peel Hc x. peel Hc y. apply group_prefix in Hc. split; [|done].
  rewrite resource_permission_ok in Ho by done. injection Ho as Ho.
  apply raise_if_none_outcome in Ho0. apply when_outcome in Ho1.
  destruct (tbl (working s) !! i) as [r|]; [|by subst p]. subst p. eexists; split; [done|].
  destruct b; cbn in Ho1; roles.
Qed.

Lemma copy_connection_authorized i c : changed (copy_connection i c u) s ->
  authorized (working s) u (CopyConnection i c).
Proof.
  intros Hc. apply copy_prefix in Hc as [Hr Hc]. split; [done|].
  peel Hc x. peel Hc y. apply require_outcome in Ho0. roles.
Qed.
Lemma copy_transfer_authorized i c : changed (copy_transfer i c u) s ->
  authorized (working s) u (CopyTransferTo i c).
Proof.
  intros Hc. apply copy_prefix in Hc as [Hr Hc]. split; [done|].
  peel Hc x. apply require_outcome in Ho. roles.
Qed.

Lemma create_transfer_authorized b : changed (create_transfer b u) s ->
  has_role (working s) u (tb_group_id b) Developer.
Proof. intros Hc%group_prefix. peel Hc x. apply require_outcome in Ho. roles. Qed.

Lemma stop_run_authorized i : changed (stop_run i u) s -> authorized (working s) u (StopRun i).
Proof.
  unfold stop_run. intros Hc. apply changed_bind in Hc as (r & Hr & Hc); [|apply run_read_by_id_ro].
  unfold RunRepository.read_by_id in Hr. revert Hr. run_reads. cbn [tbl RunTable].
  destruct (runs (working s) !! i) as [r'|] eqn:Hi; [|done]. intros [= ->].
  exists r. split; [done|].
  apply (at_resource (R := Transfer) _ _ _ Developer) in Hc; [exact Hc|by left].
Qed.

Lemma changes_authorized e :
  (superuser_only e = true -> is_superuser u = true) ->
  changed (dispatch e u) s -> authorized (working s) u e.
Proof.
  intros Hsu Hc. destruct e; cbn [dispatch authorized] in *; apply reply_changed in Hc.
  all: try solve [ exfalso; revert Hc; apply not_changed;
    unfold read_groups, read_group, read_group_users, get_users, read_current_user, read_user,
      read_queues, read_queue, read_connections, read_connection_types, read_connection,
      read_transfers, read_transfer, read_runs, read_run, lift; solve_se ].
  all: try solve [ done | by apply Hsu | by apply at_settings in Hc | by apply delete_user_authorized
    | by apply create_queue_authorized in Hc | by apply at_queue in Hc | by apply in_group in Hc
    | by apply copy_connection_authorized | by apply copy_transfer_authorized
    | by apply create_transfer_authorized | by apply stop_run_authorized
    | eapply (at_resource (R := Connection)) in Hc; [exact Hc|auto]
    | eapply (at_resource (R := Transfer)) in Hc; [exact Hc|auto] ].
Qed.
End Authorized.

(** ** Properties *)

Section Properties.
Context `{TextSearch} `{Cipher} `{PydanticCore} `{PyLib} `{Broker} `{Jwt}.

(** C4 The three implementations of the permission methods (connections and
    transfers, queues, the group itself) compute the policy of the caller's
    role, for every user, resource and group; a resource that does not exist
    gives no permission, a group that does not exist is an error. *)
Theorem permissions_refine_policy (u : User) (s : Session) : db_inv (working s) ->
  (forall i, outcome (get_resource_permission (R := Connection) u i) s =
     Ok (match connections (working s) !! i with
         | Some r => resource_policy (group_role (working s) u (conn_group_id r))
         | None => NONE end)) /\
  (forall i, outcome (get_resource_permission (R := Transfer) u i) s =
     Ok (match transfers (working s) !! i with
         | Some r => resource_policy (group_role (working s) u (transfer_group_id r))
         | None => NONE end)) /\
  (forall i, outcome (QueueRepository.get_resource_permission u i) s =
     Ok (match queues (working s) !! i with
         | Some r => queue_policy (group_role (working s) u (queue_group_id r))
         | None => NONE end)) /\
  (forall g, outcome (get_group_permission u g) s =
     match groups (working s) !! g with
     | Some _ => Ok (resource_policy (group_role (working s) u g))
     | None => Raise GroupNotFoundError end) /\
  (forall g, outcome (QueueRepository.get_group_permission u g) s =
     match groups (working s) !! g with
     | Some _ => Ok (queue_policy (group_role (working s) u g))
     | None => Raise GroupNotFoundError end) /\
  (forall g, outcome (GroupRepository.get_group_permission u g) s =
     match groups (working s) !! g with
     | Some _ => Ok (group_policy (group_role (working s) u g))
     | None => Raise GroupNotFoundError end).
Proof.
  intros Hinv. split_and!; intros i.
  - by apply resource_permission_ok.
  - by apply resource_permission_ok.
  - by apply queue_resource_permission_ok.
  - by apply group_permission_ok.
  - by apply queue_group_permission_ok.
  - by apply settings_permission_ok.
Qed.

(** Reading a group answers with the caller's role in it, and with "Group
    not found" to whoever has none, whether the group exists or not. *)
Theorem read_group_role (u : User) (gid : Z) (s : Session) : db_inv (working s) ->
  outcome (read_group gid u) s =
  match groups (working s) !! gid, group_role (working s) u gid with
  | Some g, Some r => Ok (mkGroupWithUserRole g r)
  | _, _ => Raise GroupNotFoundError
  end.
Proof.
  intros Hinv. pose proof (settings_permission_ok u s Hinv gid) as Hp.
  unfold read_group, outcome. rewrite read_only_bind_run by apply group_get_group_permission_ro.
  rewrite Hp. destruct (groups (working s) !! gid) as [g|] eqn:Hg; [|done]. clear Hp.
  destruct (group_role (working s) u gid) as [r|] eqn:Hr; [|done].
  unfold group_role in Hr. unfold GroupRepository.get_member_role.
  assert (outcome (GroupRepository.read_by_id gid) s = Ok g) as Hread.
  { unfold GroupRepository.read_by_id, except_class, select_one, catch. run_reads.
    cbn [tbl GroupTable]. by rewrite Hg. }
  rewrite read_only_bind_run by apply raise_if_none_ro.
  replace (outcome (raise_if_none (group_policy (Some r)) GroupNotFoundError) s) with
    (Ok tt : result exc unit) by (by destruct r).
  rewrite read_only_bind_run by apply group_read_by_id_ro. rewrite Hread.
  destruct (is_superuser u); [by injection Hr as <-|].
  run_reads. cbn [tbl UserGroupTable]. rewrite Hg in Hr.
  destruct (user_groups (working s) !! (user_id u, gid)) as [ug|] eqn:Hug;
    destruct (Z.eqb_spec (group_owner_id g) (user_id u)) as [Ho|Ho]; simplify_option_eq; try done.
  exfalso. destruct Hinv as (_ & Hown & _). by eapply Hown.
Qed.

End Properties.


Definition alice : User := mkUser 1 "alice" None None None None false true 0 0.
Definition carol : User := mkUser 3 "carol" None None None None false true 0 0.

Lemma world_inv : db_inv (working world).
Proof. exact (proj2 (reachable_session_inv _ world_reachable)). Qed.

Lemma permissions_refine_policy_witness :
  outcome (get_resource_permission (R := Transfer) alice 1) world = Ok DELETE /\
  outcome (QueueRepository.get_resource_permission carol 1) world = Ok READ.
Proof.
  pose proof (permissions_refine_policy alice world world_inv) as (_ & Ht & _).
  pose proof (permissions_refine_policy carol world world_inv) as (_ & _ & Hq & _).
  split; [rewrite Ht|rewrite Hq]; vm_compute; reflexivity.
Defined.

Lemma read_group_role_witness :
  outcome (read_group 1 carol) world = Ok (mkGroupWithUserRole (mkGroup 1 "group1" "" 1 0 0) Guest).
Proof. rewrite (read_group_role carol 1 world world_inv). vm_compute. reflexivity. Defined.

