(* ===== verification/ServerTheorems.v ===== *)
(** * The server as a whole

    The invariant of the states requests lead to, and the atomicity of requests.
    A property that mentions the database is stated for every reachable state. *)

From S2P Require Import Prelude PyData Models Errors Database Integrity Search Repository.
From S2P Require Import Repositories RepositoryFacts Pydantic ConnectionSchemas TransferSchemas.
From S2P Require Import Auth ApiGroups ApiQueues ApiConnections ApiTransfers ApiRuns Server.
From S2P Require Import ServerFacts Membership Examples Permissions.

Section Theorems.
Context `{TextSearch} `{Cipher} `{PydanticCore} `{PyLib} `{Broker}.

(** C3 In every state that requests, logins and the superuser script lead to,
    under every provider that keeps its laws: the database satisfies its
    constraints (unique names, no dangling foreign key), the owner of a group
    is never also among its members, every stored role is a public one, and
    nothing is left uncommitted. *)
Theorem reachable_invariant `{AuthProviderLaws} (s : Session) : reachable s ->
  db_wf (committed s) /\ working s = committed s /\
  (forall uid gid ug, user_groups (committed s) !! (uid, gid) = Some ug ->
     ug_role ug ∈ public_roles /\
     exists g, groups (committed s) !! gid = Some g /\ group_owner_id g <> uid).
Proof.
  intros Hr. destruct (reachable_session_inv _ Hr) as [(Hwf & Ho & Hroles) _].
  split_and!; [done|by apply reachable_clean|]. intros uid gid ug Hug.
  split; [by eapply Hroles|]. destruct (member_group _ _ _ _ Hwf Hug) as [g Hg].
  exists g. split; [done|]. by eapply Ho.
Qed.

(** C5 Under every authentication provider that keeps its laws, a request that is answered
    with an error leaves nothing pending and changes nothing in the database, whatever the
    exception, but the sign-in of its caller, which stores one new user at most; with a
    provider that only reads, as the dummy one, it changes nothing.  Excepted are the routes
    that validate their response or call the task queue after the commit. *)
Theorem failed_request_changes_nothing `{AuthProviderLaws} (e : Endpoint) (t : option string) (s : Session) r :
  db_wf (working s) -> working s = committed s ->
  fails_after_commit e = false -> (serve e t s).1 = inr r ->
  let s' := (serve e t s).2 in
  working s' = committed s' /\ signed_in (committed s) (committed s') /\
  (read_only (get_current_user t) -> committed s' = committed s).
Proof.
  intros Hwf Hcl Hf. pose proof (get_user_ro (superuser_only e) t) as Hro. unfold serve, endpoint. rewrite bind_run.
  destruct (get_user (superuser_only e) t s) as [o s1] eqn:Hu.
  destruct (get_user_signs_in _ _ _ _ _ Hwf Hcl Hu) as [(Hs & _ & _) _].
  assert (read_only (get_current_user t) -> committed s1 = committed s) as Hr1.
  { intros Hg. specialize (Hro Hg s). unfold final in Hro. rewrite Hu in Hro. by rewrite <- Hro. }
  destruct o as [u|x]; [|by intros _].
  destruct (request_valid e); [|by intros _].
  destruct (dispatch e u s1) as [[v|x] s2] eqn:Hd; [done|]. intros _. cbn. by rewrite (dispatch_atomic e u Hf _ _ _ Hd).
Qed.
End Theorems.

Lemma reachable_invariant_witness :
  exists g, groups (committed world) !! 1 = Some g /\ group_owner_id g <> 2.
Proof.
  pose proof (reachable_invariant world world_reachable) as (_ & _ & Hm).
  apply (Hm 2 1 (mkUserGroup 2 1 Developer)). vm_compute. reflexivity.
Defined.

Lemma failed_request_changes_nothing_witness :
  committed (serve (DeleteQueue 1) (token 1) world).2 = committed world.
Proof.
  pose proof (reachable_session_inv _ world_reachable) as Hinv.
  destruct (failed_request_changes_nothing (DeleteQueue 1) (token 1) world
    (mkResponse 409 "conflict"
      "The queue has an associated transfers(s). Number of the linked transfers: 1" None)
    (proj1 (proj2 Hinv)) (reachable_clean _ world_reachable)) as (_ & _ & Hc).
  - reflexivity.
  - vm_compute. reflexivity.
  - exact (Hc (dummy_get_current_user_ro _)).
Defined.
