(* ===== verification/GroupTheorems.v ===== *)
(** * Theorems about groups, members and users *)

From S2P Require Import Prelude PyData Models Errors Database Integrity Search Repository.
From S2P Require Import Repositories RepositoryFacts Pydantic ConnectionSchemas TransferSchemas.
From S2P Require Import Auth ApiGroups ApiQueues ApiConnections ApiTransfers ApiRuns Server.
From S2P Require Import ServerFacts Deletion Membership Examples.

Section Groups.
Context `{TextSearch}.

(** C29 Updating a group stores its new name, description and owner; when the
    owner changes, the new owner stops being a member and the previous owner
    becomes a guest; no other row changes. *)
Theorem update_group_spec g n d o u s a s' : session_wf s -> update_group g n d o u s = (Ok a, s') ->
  exists g0, groups (working s) !! g = Some g0 /\
    a = mkGroup g n d o (group_created_at g0) (clock s) /\
    committed s' =
      with_tbl (R := UserGroup)
        (if group_owner_id g0 =? o then user_groups (working s)
         else <[(group_owner_id g0, g) := mkUserGroup (group_owner_id g0) g Guest]>
                (delete (o, g) (user_groups (working s))))
        (with_tbl (<[g := a]> (groups (working s))) (working s)).
Proof.
  intros Hwf Hu. unfold update_group in Hu. do 3 skip_read Hu.
  apply unit_of_work_ok in Hu as (s1 & Hu & ->).
  apply update_group_body_ok in Hu as (g0 & Hg & -> & ->); [|done]. by exists g0.
Qed.

(** The three operations on members change one membership and nothing else:
    adding needs that the user is neither the owner nor a member, changing a
    role and removing need a member. *)
Theorem membership_spec g i r u s a s' : session_wf s ->
  (add_user_to_group g i r u s = (Ok a, s') ->
    user_groups (working s) !! (i, g) = None /\
    (exists g0, groups (working s) !! g = Some g0 /\ group_owner_id g0 <> i) /\
    committed s' =
      with_tbl (<[(i, g) := mkUserGroup i g r]> (user_groups (working s))) (working s)) /\
  (forall r', update_user_role_group g i r u s = (Ok r', s') ->
    is_Some (user_groups (working s) !! (i, g)) /\ r' = r /\
    committed s' =
      with_tbl (<[(i, g) := mkUserGroup i g r]> (user_groups (working s))) (working s)) /\
  (delete_user_from_group g i u s = (Ok a, s') ->
    is_Some (user_groups (working s) !! (i, g)) /\
    committed s' = with_tbl (delete (i, g) (user_groups (working s))) (working s)).
Proof.
  intros Hwf. split_and!.
  - intros Hu. unfold add_user_to_group in Hu. do 3 skip_read Hu. skip_read Hu. skip_read Hu.
    apply read_group_by_id_ok in Hrun2 as [Hg _]. apply when_ok in Hrun3 as [Ho _].
    apply unit_of_work_ok in Hu as (s1 & Hu & ->). apply add_user_ok in Hu as (Hn & _ & ->).
    split_and!; [done| |done]. eexists; split; [done|lia].
  - intros r' Hu. unfold update_user_role_group in Hu. do 3 skip_read Hu.
    apply bind_ok in Hu as (ug & s1 & Hu & Hr). apply mret_ok in Hr as [-> ->].
    apply unit_of_work_ok in Hu as (s2 & Hu & ->). unfold GroupRepository.update_member_role in Hu.
    apply bind_ok in Hu as (o & s3 & Hu & Hr). apply except_integrity_ok, update_row_ok in Hu.
    destruct Hu as [(_ & -> & ->)|(ug0 & Hug & -> & _ & ->)]; [done|].
    apply mret_ok in Hr as [-> ->]. by split_and!.
  - intros Hu. unfold delete_user_from_group in Hu. do 3 skip_read Hu.
    apply unit_of_work_ok in Hu as (s1 & Hu & ->). by apply delete_user_ok in Hu as [? ->]; [|apply Hwf].
Qed.

(** Deleting a group removes its members, connections and queues, and only
    those of its group; users and other groups stay. *)
Theorem delete_group_spec g s a s' : session_wf s -> delete_group g s = (Ok a, s') ->
  is_Some (groups (working s) !! g) /\
  users (committed s') = users (working s) /\
  groups (committed s') = delete g (groups (working s)) /\
  user_groups (committed s') = filter (fun kr => ug_group_id kr.2 <> g) (user_groups (working s)) /\
  connections (committed s') = filter (fun kr => conn_group_id kr.2 <> g) (connections (working s)) /\
  queues (committed s') = filter (fun kr => queue_group_id kr.2 <> g) (queues (working s)) /\
  db_wf (committed s').
Proof.
  intros Hwf Hd. pose proof (keeps_unit_of_work session_wf _ (group_delete_keeps session_wf g) s Hwf) as [Hwf' _].
  unfold final in Hwf'. unfold delete_group in Hd. rewrite Hd in Hwf'.
  apply unit_of_work_ok in Hd as (s1 & Hd & ->). unfold GroupRepository.delete in Hd.
  apply bind_ok in Hd as (g0 & s2 & Hd & Hr). inv_ok.
  split; [done|]. destruct (cascade_group _ (proj2 Hwf) g) as (?&?&?&?&?). by split_and!.
Qed.

(** Logging in finds the one user with the name, or creates one; other
    users keep their rows and no second user gets the name. *)
Theorem get_or_create_spec l s u s' : db_wf (working s) ->
  DummyAuthProvider.get_or_create l None None None None s = (Ok u, s') ->
  username u = l /\ users (committed s') !! user_id u = Some u /\
  ((users (working s) !! user_id u = Some u /\ committed s' = working s) \/
   (users (working s) !! user_id u = None /\ is_active u = true /\ is_superuser u = false /\
    (forall i v, users (working s) !! i = Some v -> username v <> l) /\
    committed s' = with_tbl (<[user_id u := u]> (users (working s))) (working s))).
Proof.
  intros Hwf Hg. pose proof (get_or_create_ok l _ _ _ _ s u s' Hwf Hg) as (_ & Hn & Hu & Hc).
  split_and!; [done..|]. destruct Hc as [?|(?&?&?&?&?)]; [by left|right; by split_and!].
Qed.
End Groups.

Definition renamed : Group := mkGroup 1 "renamed" "" 2 0 0.

Lemma world_wf : session_wf world.
Proof. exact (session_inv_wf _ (reachable_session_inv _ world_reachable)). Qed.
Definition user_1 : User := mkUser 1 "alice" None None None None false true 0 0.

(** bob, a developer, becomes the owner of group 1 *)
Lemma update_group_spec_witness :
  exists g0, groups (working world) !! 1 = Some g0 /\
    renamed = mkGroup 1 "renamed" "" 2 (group_created_at g0) (clock world) /\
    committed (update_group 1 "renamed" "" 2 user_1 world).2 =
      with_tbl (R := UserGroup)
        (if group_owner_id g0 =? 2 then user_groups (working world)
         else <[(group_owner_id g0, 1) := mkUserGroup (group_owner_id g0) 1 Guest]>
                (delete (2, 1) (user_groups (working world))))
        (with_tbl (<[1 := renamed]> (groups (working world))) (working world)).
Proof.
  apply (update_group_spec 1 "renamed" "" 2 user_1 world renamed
    (update_group 1 "renamed" "" 2 user_1 world).2 world_wf).
  vm_compute. reflexivity.
Defined.

Lemma membership_spec_witness :
  is_Some (user_groups (working world) !! (3, 1)) /\
  committed (delete_user_from_group 1 3 user_1 world).2 =
    with_tbl (delete (3, 1) (user_groups (working world))) (working world).
Proof.
  refine (proj2 (proj2 (membership_spec 1 3 Guest user_1 world tt
    (delete_user_from_group 1 3 user_1 world).2 world_wf)) _).
  vm_compute. reflexivity.
Defined.

Lemma delete_group_spec_witness :
  connections (committed (delete_group 1 world).2) =
    filter (fun kr => conn_group_id kr.2 <> 1) (connections (working world)).
Proof.
  refine (proj1 (proj2 (proj2 (proj2 (proj2 (delete_group_spec 1 world tt (delete_group 1 world).2
    world_wf _)))))).
  vm_compute. reflexivity.
Defined.

Definition dave : User := mkUser 4 "dave" None None None None false true 0 0.
Lemma get_or_create_spec_witness :
  users (committed (DummyAuthProvider.get_or_create "dave" None None None None world).2) !! 4 = Some dave.
Proof.
  refine (proj1 (proj2 (get_or_create_spec "dave" world dave
    (DummyAuthProvider.get_or_create "dave" None None None None world).2 (proj2 world_wf) _))).
  vm_compute. reflexivity.
Defined.
