(* ===== verification/ConnectionTheorems.v ===== *)
(** * Theorems about connections and credentials

    Credentials survive the database; an update takes the secrets it leaves out
    from the stored ones; no response carries a secret; what creating, copying
    and deleting a connection does to the database. *)

From S2P Require Import Prelude PyData Models Errors Database Integrity Search Repository.
From S2P Require Import Repositories RepositoryFacts Pydantic ConnectionSchemas TransferSchemas.
From S2P Require Import Auth ApiGroups ApiQueues ApiConnections ApiTransfers ApiRuns Server.
From S2P Require Import ServerFacts Deletion Membership Examples.

(** ** The cipher *)

(** decryption undoes encryption under the same key, and the JSON codec is faithful *)
Class CipherLaws `{Cipher} := {
  decrypt_encrypt : forall s, fernet_decrypt secret_key (fernet_encrypt secret_key s) = Ok s;
  loads_dumps : forall j, json_loads (json_dumps j) = Ok j;
}.
#[export] Instance toy_cipher_laws : CipherLaws.
Proof.
  split; [done|]. intros j. cbn. by rewrite unbits_bits, decode_encode.
Qed.

Lemma dict_get_perm {V} k (d d' : list (string * V)) : d ≡ₚ d' -> NoDup (dict_keys d) ->
  dict_get k d = dict_get k d'.
Proof.
  induction 1 as [|[k1 v1] d d' _ IH|[k1 v1] [k2 v2] d|d1 d2 d3 H1 IH1 _ IH2]; cbn; [done| | |].
  - intros [_ Hd]%NoDup_cons. by rewrite IH.
  - intros [Hn _]%NoDup_cons. destruct (String.eqb_spec k k1) as [->|]; [|done].
    destruct (String.eqb_spec k1 k2) as [->|]; [|done]. set_solver.
  - intros Hd. rewrite IH1 by done. apply IH2. unfold dict_keys in *. by rewrite <- H1.
Qed.

Lemma sort_keys_obj d : exists d', sort_keys (JObj d) = JObj d' /\
  d' ≡ₚ (fun kv => (kv.1, sort_keys kv.2)) <$> d.
Proof.
  eexists; split; [reflexivity|]. rewrite merge_sort_Permutation.
  induction d as [|[k v] d IH]; [done|]. cbn. by f_equiv.
Qed.

Section Crypt.
Context `{CipherLaws}.

Lemma crypt_roundtrip d : decrypt_auth_data (encrypt_auth_data d) = Ok (sort_keys (JObj d)).
Proof.
  unfold decrypt_auth_data, encrypt_auth_data. rewrite decrypt_encrypt. cbn. apply loads_dumps.
Qed.

Lemma credentials_create_ok i d s a s' : CredentialsRepository.create i d s = (Ok a, s') ->
  auth_data (working s) !! i = None /\
  a = mkAuthData i (encrypt_auth_data d) (clock s) (clock s) /\
  s' = set_working (with_tbl (<[i := a]> (auth_data (working s))) (working s)) s.
Proof.
  intros Hc. unfold CredentialsRepository.create in Hc.
  apply bind_ok in Hc as (t & s1 & Ht & Hc). apply gets_ok in Ht as [-> ->].
  apply except_integrity_ok, insert_row_ok in Hc as (-> & Hn & _ & ->). by split_and!.
Qed.

Lemma credentials_update_ok i d s a s' : CredentialsRepository.update i d s = (Ok a, s') ->
  exists a0, auth_data (working s) !! i = Some a0 /\
  a = mkAuthData (auth_connection_id a0) (encrypt_auth_data d) (auth_created_at a0) (clock s) /\
  s' = set_working (with_tbl (<[i := a]> (auth_data (working s))) (working s)) s.
Proof.
  intros Hc. unfold CredentialsRepository.update in Hc.
  apply except_integrity_ok, _update_ok in Hc as (a0 & Ha & -> & _ & ->). exists a0. by split_and!.
Qed.

Lemma credentials_read_at i s : outcome (CredentialsRepository.read i) s =
  match auth_data (working s) !! i with
  | Some a => decrypt_auth_data (auth_value a)
  | None => Raise (AuthDataNotFoundError ("Connection id = " +:+ str_of_Z i))
  end.
Proof.
  unfold CredentialsRepository.read, outcome. rewrite bind_run.
  unfold except_class, catch, select_one. rewrite bind_run. cbn.
  by destruct (auth_data (working s) !! i).
Qed.

(** C32 Credentials that were stored, on creation or on update, are read back as
    they were up to the order of the keys: every key of the dict has its value,
    nested objects sorted too. *)
Theorem credentials_roundtrip i d a s s' : NoDup (dict_keys d) ->
  CredentialsRepository.create i d s = (Ok a, s') \/ CredentialsRepository.update i d s = (Ok a, s') ->
  exists d', outcome (CredentialsRepository.read i) s' = Ok (JObj d') /\
    forall k, dict_get k d' = sort_keys <$> dict_get k d.
Proof.
  intros Hd Hs. destruct (sort_keys_obj d) as (d' & Hsort & Hperm). exists d'. split.
  - rewrite credentials_read_at, <- Hsort.
    destruct Hs as [(_ & -> & ->)%credentials_create_ok|(a0 & _ & -> & ->)%credentials_update_ok];
      cbn; rewrite lookup_insert_eq; apply crypt_roundtrip.
  - intros k. rewrite <- (dict_get_perm k _ _ (symmetry Hperm)).
    + clear. induction d as [|[k1 v] d IH]; cbn; [done|]. by destruct (String.eqb k k1).
    + unfold dict_keys. by rewrite <- list_fmap_compose.
Qed.
End Crypt.

(** ** Secrets *)

(** the first secret, left out: the rest runs with the stored one *)
Lemma merge_secrets_null f fields old d d' : dict_get f d = Some JNull ->
  merge_secrets (f :: fields) old d = Ok d' ->
  exists t t' v, json_item old "type" = Ok t /\ dict_get "type" d = Some t' /\ json_eqb t t' = true /\
    json_item old f = Ok v /\ merge_secrets fields old (dict_set f v d) = Ok d'.
Proof.
  intros Hf Hm. cbn in Hm. rewrite Hf in Hm. cbn in Hm.
  destruct (json_item old "type") as [t|] eqn:Ht; cbn in Hm; [|done].
  destruct (dict_get "type" d) as [t'|] eqn:Ht'; cbn in Hm; [|done].
  destruct (json_eqb t t') eqn:He; cbn in Hm; [|done].
  destruct (json_item old f) as [v|] eqn:Hv; cbn in Hm; [|done]. by exists t, t', v.
Qed.
Lemma merge_secrets_given f fields old d d' : dict_get f d <> Some JNull ->
  merge_secrets (f :: fields) old d = Ok d' -> merge_secrets fields old d = Ok d'.
Proof. intros Hf Hm. cbn in Hm. by destruct (dict_get f d) as [[]|]. Qed.

(** C31 What an update of the credentials stores: a secret the caller left out
    (null) is the stored one, every other key keeps the caller's value; a secret
    can only be left out when the stored credentials have the same type. *)
Theorem merge_secrets_spec fields old d d' : "type" ∉ fields -> merge_secrets fields old d = Ok d' ->
  (forall k, k ∈ fields -> dict_get k d = Some JNull ->
     (exists v, json_item old k = Ok v /\ dict_get k d' = Some v) /\
     exists t t', json_item old "type" = Ok t /\ dict_get "type" d = Some t' /\ json_eqb t t' = true) /\
  (forall k, k ∉ fields \/ dict_get k d <> Some JNull -> dict_get k d' = dict_get k d).
Proof.
  revert d. induction fields as [|f fields IH]; intros d Htype Hm.
  { injection Hm as ->. split; [set_solver|done]. }
  apply not_elem_of_cons in Htype as [Htf Htype].
  destruct (decide (dict_get f d = Some JNull)) as [Hf|Hf].
  - apply merge_secrets_null in Hm as (t & t' & v & Ht & Ht' & He & Hv & Hm); [|done].
    destruct (IH _ Htype Hm) as [IH1 IH2]. split; intros k Hk.
    + intros Hnull. split; [|by exists t, t']. destruct (decide (k = f)) as [->|Hkf].
      * exists v. split; [done|]. destruct (decide (f ∈ fields /\ v = JNull)) as [[Hin ->]|Hno].
        { destruct (IH1 f Hin) as [(w & Hw & Hd) _]; [by rewrite dict_get_set_eq|]. congruence. }
        rewrite IH2; rewrite dict_get_set_eq; [done|]. destruct (decide (f ∈ fields)); [right|by left].
        intros [= ->]. naive_solver.
      * apply elem_of_cons in Hk as [?|Hk]; [done|]. apply IH1; [done|]. by rewrite dict_get_set_ne.
    + destruct (decide (k = f)) as [->|Hkf]; [destruct Hk as [Hk|Hk]; [set_solver|done]|].
      rewrite IH2; [by rewrite dict_get_set_ne|]. rewrite dict_get_set_ne by done. destruct Hk; [left; set_solver|by right].
  - apply merge_secrets_given in Hm; [|done]. destruct (IH _ Htype Hm) as [IH1 IH2].
    split; intros k Hk.
    + intros Hnull. apply elem_of_cons in Hk as [->|Hk]; [done|by apply IH1].
    + apply IH2. destruct Hk as [Hk|Hk]; [left; set_solver|by right].
Qed.

(** ** No secret leaves the server *)

(** the keys of the secrets of every kind of credentials *)
Definition secret_keys : list string := all_auth_schemas ≫= auth_secrets.
Definition no_secret (d : dict) : Prop := forall k, k ∈ secret_keys -> dict_get k d = None.

Lemma public_keys : Forall (fun a => Forall (fun k => k ∉ field_name <$> read_auth_fields a) secret_keys)
  all_auth_schemas.
Proof. apply (bool_decide_eq_true_1 _). vm_compute. reflexivity. Qed.

Lemma public_dict a d : a ∈ all_auth_schemas -> dict_keys d = field_name <$> read_auth_fields a -> no_secret d.
Proof.
  intros Ha Hd k Hk. apply dict_get_None. rewrite Hd. pose proof public_keys as Hp.
  rewrite Forall_forall in Hp. specialize (Hp _ Ha). rewrite Forall_forall in Hp. by apply Hp.
Qed.

Lemma auth_schemas_all t a : a ∈ auth_schemas t -> a ∈ all_auth_schemas.
Proof.
  destruct t; cbn [auth_schemas]; unfold all_auth_schemas; set_solver.
Qed.

Section NoSecrets.
Context `{PydanticCore}.

Lemma union_keys fields l j d : union_validate validate (auth_union fields l) j = Ok d ->
  exists a, a ∈ l /\ dict_keys d = field_name <$> fields a.
Proof.
  destruct j as [| | | | |input]; try done. cbn. destruct (dict_get "type" input) as [[]|]; try done.
  rewrite pick_alternative_spec. destruct (dict_get s (auth_union fields l)) as [fs|] eqn:Hfs; [|done].
  intros Hd%validate_fields_keys. apply dict_get_elem in Hfs. unfold auth_union in Hfs.
  apply list_elem_of_fmap in Hfs as (a & [= -> ->] & Ha). by exists a.
Qed.

Lemma auth_value_public t j v : validate (FOpt (auth_field_type read_auth_fields t)) j = Ok v ->
  v = JNull \/ exists d, v = JObj d /\ no_secret d.
Proof.
  destruct (decide (j = JNull)) as [->|Hj]; [intros [= <-]; by left|].
  intros Hv. assert (validate (auth_field_type read_auth_fields t) j = Ok v) as Hv' by (by destruct j).
clear Hv; rename Hv' into Hv.
  right. unfold auth_field_type in Hv. pose proof (auth_schemas_all t) as Hall.
  destruct (auth_schemas t) as [|a [|a' l]]; cbn [validate] in Hv.
  - by destruct j as [| | | | |d]; cbn in Hv; try done; repeat case_match.
  - destruct (model_validate _ _ j) as [d|] eqn:Hd; [|done]. injection Hv as <-. exists d.
    split; [done|]. apply model_validate_keys in Hd. apply (public_dict a); [set_solver|done].
  - destruct (union_validate _ _ j) as [d|] eqn:Hd; [|done]. injection Hv as <-. exists d.
    split; [done|]. apply union_keys in Hd as (b & Hb & Hd). apply (public_dict b); [by apply Hall|done].
Qed.

(** the field of the credentials in every response schema *)
Lemma auth_field_read t : exists fs o,
  read_connection_fields t =
    fs ++ [mkField "auth_data" None (FOpt (auth_field_type read_auth_fields t)) o false keep] /\
  (o = None \/ o = Some JNull) /\ NoDup (field_name <$> read_connection_fields t).
Proof.
  destruct t; (eexists [_; _; _; _; _; _], _; split; [reflexivity|split];
    [first [by left|by right]|apply (bool_decide_eq_true_1 _); vm_compute; reflexivity]).
Qed.

Lemma read_auth_value t input d : validate_fields validate input (read_connection_fields t) [] None = Ok d ->
  forall a, dict_get "auth_data" d = Some (JObj a) -> no_secret a.
Proof.
  destruct (auth_field_read t) as (fs & o & Hfs & Ho & Hnd). rewrite Hfs in *. intros Hd a Ha.
  apply validate_fields_get in Hd as (data & v & Hv & Hget & _); [|done].
  cbn [field_name] in Hget. rewrite Ha in Hget. injection Hget as <-.
  cbn [validate_field] in Hv. destruct (field_input "auth_data" None input) as [j|].
  - destruct (validate _ j) as [w|] eqn:Hw; [|done]. injection Hv as ->.
    apply auth_value_public in Hw as [?|(d' & [= <-] & ?)]; done.
  - by destruct Ho as [->| ->].
Qed.

Lemma read_connection_schema_public c j rc : read_connection_schema c j = Ok rc ->
  forall d, rc_auth_data rc = Some d -> no_secret d.
Proof.
  unfold read_connection_schema. intros Hr. destruct (model_validate _ _ _) as [d|] eqn:Hd; [|done].
  injection Hr as <-. cbn [rc_auth_data]. intros a Ha. cbn [model_validate] in Hd.
  eapply read_auth_value; [exact Hd|]. by destruct (dict_get "auth_data" d) as [[]|]; simplify_eq.
Qed.

Lemma read_auth_data_public j d : read_auth_data j = Ok d ->
  exists a, dict_get "auth_data" d = Some (JObj a) /\ no_secret a.
Proof.
  unfold read_auth_data. cbn [model_validate]. intros Hd.
  apply (validate_fields_get _ _ [] _ []) in Hd as (data & v & Hv & Hget & _);
    [|apply NoDup_singleton].
  cbn [field_name req ReadAuthDataSchema] in Hget. cbn [validate_field req] in Hv.
  cbn [field_input dict_get String.eqb Ascii.eqb Bool.eqb] in Hv.
  destruct (validate _ j) as [w|] eqn:Hw; [|done]. injection Hv as ->. cbn [validate] in Hw.
  destruct (union_validate _ _ j) as [a|] eqn:Ha; [|done]. injection Hw as <-.
  exists a. split; [done|]. apply union_keys in Ha as (b & Hb & Hk). by apply (public_dict b).
Qed.
End NoSecrets.

(** every result of [m] satisfies [P] *)
Definition returns {A} (P : A -> Prop) (m : M A) : Prop := forall s a s', m s = (Ok a, s') -> P a.

Lemma returns_bind {A B} (P : B -> Prop) (m : M A) (f : A -> M B) :
  (forall a, returns P (f a)) -> returns P (m ≫= f).
Proof. intros Hf s b s' (a & s1 & _ & Hb)%bind_ok. by eapply Hf. Qed.
Lemma returns_reads {A} (P : A -> Prop) (f : Session -> result exc A) :
  (forall s a, f s = Ok a -> P a) -> returns P (reads f).
Proof. intros Hf s a s' [Ha _]%reads_ok. by eapply Hf. Qed.
Lemma returns_reply {A} (P : Reply -> Prop) (f : A -> Reply) (m : M A) :
  returns (fun a => P (f a)) m -> returns P (reply f m).
Proof.
  intros Hm s b s' Hr. unfold reply in Hr. apply bind_ok in Hr as (a & s1 & Ha & Hb).
  apply mret_ok in Hb as [-> _]. by eapply Hm.
Qed.
Lemma returns_any {A} (P : A -> Prop) (m : M A) : (forall a, P a) -> returns P m.
Proof. intros HP s a s' _. apply HP. Qed.

Definition public_connection (c : ReadConnection) : Prop :=
  forall d, rc_auth_data c = Some d -> no_secret d.
Definition public_connections (r : Reply) : Prop :=
  match r with
  | ConnectionReply c => public_connection c
  | ConnectionPage p => Forall public_connection (page_items p)
  | _ => True
  end.

(** the connections of the dump kept with a run *)
Definition public_dump (dump : dict) : Prop :=
  forall side, side ∈ ["source_connection"; "target_connection"] ->
  exists c a, dict_get side dump = Some (JObj c) /\ dict_get "auth_data" c = Some (JObj a) /\ no_secret a.

Section Public.
Context `{TextSearch} `{Cipher} `{PydanticCore} `{PyLib} `{Broker}.

Lemma schema_public c j : returns public_connection (lift (read_connection_schema c j)).
Proof. apply returns_reads. intros _ rc Hr d. by apply (read_connection_schema_public _ _ _ Hr). Qed.

Lemma read_connections_public g u p n t q :
  returns (fun pg => Forall public_connection (page_items pg)) (read_connections g u p n t q).
Proof.
  unfold read_connections. apply returns_bind. intros p0. apply returns_bind. intros _.
  cbv zeta. apply returns_bind. intros pg. intros s a s' (items & s1 & Hi & Ha)%bind_ok.
  apply mret_ok in Ha as [-> _]. cbn. destruct (pg_items pg) as [|c l].
  - by apply mret_ok in Hi as [-> _].
  - apply bind_ok in Hi as (creds & s2 & _ & Hi). apply reads_ok in Hi as [Hi _].
    eapply mapM_result; [|exact Hi]. intros x y Hxy d.
    by apply (read_connection_schema_public _ _ _ Hxy).
Qed.

(** No connection in a reply carries a secret: whatever the stored credentials, the reply
    has only the public fields of their kind. *)
Lemma connections_are_public (e : Endpoint) (u : User) : returns public_connections (dispatch e u).
Proof.
  destruct e; cbn [dispatch]; apply returns_reply; cbn [public_connections];
    try (apply returns_any; intros; done);
    try apply read_connections_public;
    unfold create_connection, read_connection, update_connection, copy_connection;
    repeat (apply returns_bind; intros ?); apply schema_public.
Qed.
End Public.

(** ** The endpoints *)

Lemma connection_read_ok i c s s' : ConnectionRepository.read_by_id i s = (Ok c, s') ->
  connections (working s) !! i = Some c /\ s' = s.
Proof. unfold ConnectionRepository.read_by_id. intros Hr. by inv_ok. Qed.

Lemma connection_delete_ok i x s s' : ConnectionRepository.delete i s = (Ok x, s') ->
  is_Some (connections (working s) !! i) /\
  s' = set_working (cascade (with_tbl (delete i (connections (working s))) (working s))) s.
Proof.
  unfold ConnectionRepository.delete. intros Hd. apply bind_ok in Hd as (c & s1 & Hd & Hr). inv_ok. by eauto.
Qed.

Lemma rows_of_elem {K R} `{WfTable K R} db (r : R) : db_wf db ->
  r ∈ rows_of (R := R) db <-> tbl db !! row_key r = Some r.
Proof.
  intros Hwf. unfold rows_of. rewrite list_elem_of_fmap. split.
  - intros ([k r'] & -> & Hk%elem_of_map_to_list). cbn.
    by rewrite (wf_key (R := R) _ _ _ Hwf Hk).
  - intros Hr. exists (row_key r, r). by rewrite elem_of_map_to_list.
Qed.

Lemma list_by_connection_elem i s l : db_wf (working s) ->
  (TransferRepository.list_by_connection_id i : M _) s = (Ok l, s) ->
  forall k t, transfers (working s) !! k = Some t -> uses_connection i t -> t ∈ l.
Proof.
  intros Hwf [= <-] k t Hk Hu. apply list_elem_of_filter. split; [exact Hu|].
  apply rows_of_elem; [done|]. pose proof (wf_key (R := Transfer) (working s) k t Hwf Hk) as Hkey.
  by rewrite Hkey.
Qed.

Lemma get_resource_none {R} `{Owned R} u i s : tbl (R := R) (working s) !! i = None ->
  outcome (get_resource_permission (R := R) u i) s = Ok NONE.
Proof. intros Hn. unfold get_resource_permission, outcome. rewrite bind_run. cbn. by rewrite Hn. Qed.

Section Update.
Context `{TextSearch} `{Cipher} `{PydanticCore}.

Lemma update_connection_body_ok i b s c s' : db_wf (working s) -> update_connection_body i b s = (Ok c, s') ->
  exists c0 old d' created, connections (working s) !! i = Some c0 /\
    (cb_type b <> conn_type c0 -> forall k t, transfers (working s) !! k = Some t -> ~ uses_connection i t) /\
    outcome (CredentialsRepository.read i) s = Ok old /\
    merge_secrets (body_secret_fields b) old (cb_auth_data b) = Ok d' /\
    c = mkConnection i (cb_name b) (conn_group_id c0) (cb_description b) (cb_type b) (cb_data b)
          (conn_created_at c0) (clock s) /\
    working s' = with_tbl (<[i := mkAuthData i (encrypt_auth_data d') created (clock s)]> (auth_data (working s)))
      (with_tbl (<[i := c]> (connections (working s))) (working s)).
Proof.
  intros Hwf Hu. unfold update_connection_body in Hu. skip_read Hu. skip_read Hu. skip_read Hu.
  apply bind_ok in Hu as (d' & s1 & Hd & Hu). unfold lift in Hd. apply reads_ok in Hd as [Hd ->].
  apply bind_ok in Hu as (c1 & s1 & Hc1 & Hu). apply bind_ok in Hu as (au & s2 & Hau & Hu).
  apply mret_ok in Hu as [-> ->]. apply connection_read_ok in Hrun as [Hc0 _].
  assert (conn_id a = i) as Hid by exact (wf_key (R := Connection) (working s) i a Hwf Hc0).
  unfold ConnectionRepository.update in Hc1.
  apply except_integrity_ok, _update_ok in Hc1 as (c0 & Hc0' & -> & _ & ->).
  assert (c0 = a) as -> by (cbn in Hc0'; congruence).
  apply credentials_update_ok in Hau as (a0' & Ha0' & -> & ->).
  assert (auth_connection_id a0' = i) as Haid by exact (wf_key (R := AuthData) (working s) i a0' Hwf Ha0').
  exists a, a1, d', (auth_created_at a0').
  split_and!; [done| |by unfold outcome; rewrite Hrun1|done|by cbn; rewrite Hid|by cbn; rewrite Hid, Haid].
  intros Hty k t Hk Hu. rewrite decide_False in Hrun0 by done.
  apply bind_ok in Hrun0 as (l & s1 & Hl & Hrun0).
  destruct l; [|done]. apply gets_ok in Hl as [Hl ->].
  assert (t ∈ ([] : list Transfer)) as Hin; [|set_solver].
  apply (list_by_connection_elem i s [] Hwf) with k; [unfold TransferRepository.list_by_connection_id, gets; by rewrite <- Hl|exact Hk|exact Hu].
Qed.
End Update.

Section Endpoints.
Context `{TextSearch} `{CipherLaws} `{PydanticCore}.

(** C30 Deleting a connection needs that no transfer uses it, and removes the
    connection and its credentials and nothing else. *)
Theorem delete_connection_spec i u s a s' : session_wf s -> delete_connection i u s = (Ok a, s') ->
  is_Some (connections (working s) !! i) /\
  (forall k t, transfers (working s) !! k = Some t ->
     source_connection_id t <> i /\ target_connection_id t <> i) /\
  committed s' =
    with_tbl (R := AuthData) (delete i (auth_data (working s)))
      (with_tbl (delete i (connections (working s))) (working s)).
Proof.
  intros [_ Hwf] Hd. unfold delete_connection in Hd. do 5 skip_read Hd.
  apply connection_read_ok in Hrun2 as [Hc _].
  assert (conn_id a3 = i) as Hid by exact (wf_key (R := Connection) (working s) i a3 Hwf Hc).
  assert (a4 = []) as -> by (by destruct a4).
  rewrite Hid in *. pose proof (list_by_connection_elem i s [] Hwf Hrun3) as Hun.
  apply bind_ok in Hd as (x & s1 & Hx & Hd). apply mret_ok in Hx as [_ ->].
  apply unit_of_work_ok in Hd as (s1 & Hd & ->). apply connection_delete_ok in Hd as [Hsome ->].
  assert (forall k t, transfers (working s) !! k = Some t -> ~ uses_connection i t) as Hno.
  { intros k t Hk Hu. pose proof (Hun _ _ Hk Hu). set_solver. }
  split_and!; [done| |].
  - intros k t Hk. specialize (Hno _ _ Hk). unfold uses_connection in Hno. naive_solver.
  - exact (cascade_connection _ Hwf _ Hno).
Qed.

Lemma create_connection_body_ok b s c s' : create_connection_body b s = (Ok c, s') ->
  connections (working s) !! conn_id c = None /\
  c = mkConnection (conn_id c) (cb_name b) (cb_group_id b) (cb_description b) (cb_type b) (cb_data b)
        (clock s) (clock s) /\
  working s' = with_tbl (<[conn_id c := mkAuthData (conn_id c) (encrypt_auth_data (cb_auth_data b)) (clock s) (clock s)]>
      (auth_data (working s))) (with_tbl (<[conn_id c := c]> (connections (working s))) (working s)).
Proof.
  intros Hc. unfold create_connection_body in Hc. apply bind_ok in Hc as (c' & s1 & Hn & Hc).
  unfold ConnectionRepository.create in Hn. apply bind_ok in Hn as (t & s0 & Ht & Hn).
  apply gets_ok in Ht as [-> ->]. apply except_integrity_ok, insert_new_ok in Hn as (-> & Hk & _ & ->).
  apply bind_ok in Hc as (a & s1 & Ha & Hc). apply mret_ok in Hc as [-> ->].
  by apply credentials_create_ok in Ha as (_ & -> & ->).
Qed.

(** Creating a connection stores it under a new id in the group of the body,
    with the body's name, type and data; its credentials are stored encrypted and
    read back, and the reply is the response schema of the two. *)
Theorem create_connection_spec b u s rc s' : create_connection b u s = (Ok rc, s') ->
  exists c, connections (working s) !! conn_id c = None /\
    c = mkConnection (conn_id c) (cb_name b) (cb_group_id b) (cb_description b) (cb_type b) (cb_data b)
          (clock s) (clock s) /\
    connections (committed s') = <[conn_id c := c]> (connections (working s)) /\
    outcome (CredentialsRepository.read (conn_id c)) s' = Ok (sort_keys (JObj (cb_auth_data b))) /\
    read_connection_schema c (sort_keys (JObj (cb_auth_data b))) = Ok rc.
Proof.
  intros Hc. unfold create_connection in Hc. do 3 skip_read Hc.
  apply bind_ok in Hc as (c & s1 & Hu & Hc). apply unit_of_work_ok in Hu as (s0 & Hu & ->).
  apply create_connection_body_ok in Hu as (Hn & Hcc & Hw).
  skip_read Hc. unfold lift in Hc. apply reads_ok in Hc as [Hrc ->].
  assert (outcome (CredentialsRepository.read (conn_id c)) (commit s0) =
          Ok (sort_keys (JObj (cb_auth_data b)))) as Hread.
  { rewrite credentials_read_at. cbn. rewrite Hw. cbn. rewrite lookup_insert_eq. apply crypt_roundtrip. }
  unfold outcome in Hread. rewrite Hrun2 in Hread. cbn in Hread. injection Hread as ->.
  exists c. split_and!; [done..|by cbn; rewrite Hw| |done]. unfold outcome. by rewrite Hrun2.
Qed.
Lemma connection_copy_ok i g n s c s' : ConnectionRepository.copy i g n s = (Ok c, s') ->
  exists c0, connections (working s) !! i = Some c0 /\ connections (working s) !! conn_id c = None /\
    c = mkConnection (conn_id c) (default (conn_name c0) n) g (conn_description c0) (conn_type c0)
          (conn_data c0) (conn_created_at c0) (conn_updated_at c0) /\
    working s' = with_tbl (<[conn_id c := c]> (connections (working s))) (working s) /\
    committed s' = committed s.
Proof.
  intros Hc. unfold ConnectionRepository.copy in Hc. apply except_integrity_ok in Hc.
  unfold _copy in Hc. apply bind_ok in Hc as (c0 & s1 & Hs & Hc). apply select_one_ok in Hs as [Hs ->].
  apply insert_new_ok in Hc as (-> & Hn & _ & ->). exists c0. by split_and!.
Qed.

(** Copying a connection stores its type and data under a new id, with the
    new group and name and the timestamps of the origin, and without
    credentials.  Moving it (remove_source) deletes the origin together with its
    credentials and with every transfer that used it, in whatever group: there
    is no check like the one [delete_connection] makes. *)
Theorem copy_connection_spec i cc u s rc s' : session_wf s -> copy_connection i cc u s = (Ok rc, s') ->
  exists c0 c, connections (working s) !! i = Some c0 /\ connections (working s) !! conn_id c = None /\
    c = mkConnection (conn_id c) (default (conn_name c0) (cc_new_name cc)) (cc_new_group_id cc)
          (conn_description c0) (conn_type c0) (conn_data c0) (conn_created_at c0) (conn_updated_at c0) /\
    connections (committed s') !! conn_id c = Some c /\ auth_data (committed s') !! conn_id c = None /\
    if cc_remove_source cc then
      connections (committed s') = delete i (<[conn_id c := c]> (connections (working s))) /\
      transfers (committed s') =
        filter (fun kt => source_connection_id kt.2 <> i /\ target_connection_id kt.2 <> i)
          (transfers (working s))
    else committed s' = with_tbl (<[conn_id c := c]> (connections (working s))) (working s).
Proof.
  intros Hwf Hc. unfold copy_connection in Hc. do 6 skip_read Hc.
  apply bind_ok in Hc as (c & s1 & Hu & Hc). unfold lift in Hc. apply reads_ok in Hc as [_ ->].
  apply unit_of_work_ok in Hu as (s1' & Hu & ->). unfold copy_connection_body in Hu.
  apply bind_ok in Hu as (c' & s2 & Hcopy & Hu).
  assert (db_wf (working s2)) as Hwf2.
  { pose proof (connection_copy_keeps session_wf i (cc_new_group_id cc) (cc_new_name cc) s Hwf) as [_ Hk].
    unfold final in Hk. by rewrite Hcopy in Hk. }
  apply connection_copy_ok in Hcopy as (c0 & Hc0 & Hn & Hcc & Hw & _).
  pose proof (fresh_no_auth _ _ (proj2 Hwf) Hn) as Hnone.
  assert (i <> conn_id c') as Hne by congruence.
  apply bind_ok in Hu as (x & s3 & Hdel & Hu). apply mret_ok in Hu as [-> ->]. exists c0, c'.
  do 3 (split; [done|]). destruct (cc_remove_source cc).
  - apply connection_delete_ok in Hdel as [_ ->].
    pose proof (cascade_connection_linked _ Hwf2 i) as Hcas. cbv zeta in Hcas.
    set (db1 := cascade _) in *. clearbody db1. destruct Hcas as (_&_&_&Hcs&_&Has&Hts).
    rewrite Hw in Hcs, Has, Hts. cbn in *. rewrite Hcs, Has, Hts.
    rewrite !lookup_delete_ne, lookup_insert_eq by done. split_and!; [done..|].
    apply map_filter_ext. intros k t _. cbn. unfold uses_connection. naive_solver.
  - apply mret_ok in Hdel as [_ ->]. cbn. rewrite Hw. cbn. by rewrite lookup_insert_eq.
Qed.

(** C7 Updating a connection changes its name, type, description and data and
    nothing else of it; its type changes only when no transfer uses it; the stored
    credentials become the caller's, with the secrets left out taken from what
    was stored. *)
Theorem update_connection_spec i b u s rc s' : session_wf s -> update_connection i b u s = (Ok rc, s') ->
  exists c0 old d', connections (working s) !! i = Some c0 /\
    (cb_type b <> conn_type c0 -> forall k t, transfers (working s) !! k = Some t -> ~ uses_connection i t) /\
    outcome (CredentialsRepository.read i) s = Ok old /\
    merge_secrets (body_secret_fields b) old (cb_auth_data b) = Ok d' /\
    connections (committed s') =
      <[i := mkConnection i (cb_name b) (conn_group_id c0) (cb_description b) (cb_type b) (cb_data b)
               (conn_created_at c0) (clock s)]> (connections (working s)) /\
    outcome (CredentialsRepository.read i) s' = Ok (sort_keys (JObj d')).
Proof.
  intros [_ Hwf] Hc. unfold update_connection in Hc. do 3 skip_read Hc.
  apply bind_ok in Hc as (c & s1 & Hu & Hc). apply unit_of_work_ok in Hu as (s0 & Hu & ->).
  skip_read Hc. unfold lift in Hc. apply reads_ok in Hc as [_ ->]. clear Hrun2.
  apply (update_connection_body_ok _ _ _ _ _ Hwf) in Hu as (c0 & old & d' & created & Hc0 & Ht & Ho & Hm & -> & Hw).
  exists c0, old, d'. split_and!; [done..|by cbn; rewrite Hw|].
  rewrite credentials_read_at. cbn. rewrite Hw. cbn. rewrite lookup_insert_eq. apply crypt_roundtrip.
Qed.

(** A connection without credentials, such as every copied one, cannot be
    given any: updating it reads the stored credentials first and answers that
    there are none. *)
Theorem update_without_credentials b c u s : db_inv (working s) ->
  connections (working s) !! conn_id c = Some c -> auth_data (working s) !! conn_id c = None ->
  cb_type b = conn_type c -> is_superuser u = true ->
  outcome (update_connection (conn_id c) b u) s =
    Raise (AuthDataNotFoundError ("Connection id = " +:+ str_of_Z (conn_id c))) /\
  committed (final (update_connection (conn_id c) b u) s) = committed s.
Proof.
  intros Hinv Hc Ha Ht Hu.
  assert (update_connection_body (conn_id c) b s =
    (Raise (AuthDataNotFoundError ("Connection id = " +:+ str_of_Z (conn_id c))), s)) as Hbody.
  { unfold update_connection_body, ConnectionRepository.read_by_id, except_class, select_one, catch.
    rewrite bind_run. unfold select_by_key. rewrite bind_run. cbn. rewrite Hc. cbn. rewrite decide_True by done.
    rewrite bind_run. cbn. rewrite read_only_bind_run by apply credentials_read_ro.
    by rewrite credentials_read_at, Ha. }
  assert (forall m : Connection -> M ReadConnection,
    (unit_of_work (update_connection_body (conn_id c) b) ≫= m) s =
    (Raise (AuthDataNotFoundError ("Connection id = " +:+ str_of_Z (conn_id c))), rollback s)) as Hm.
  { intros m. rewrite bind_run. unfold unit_of_work. by rewrite Hbody. }
  assert (outcome (get_resource_permission (R := Connection) u (conn_id c)) s = Ok DELETE) as Hp.
  { unfold get_resource_permission, outcome. rewrite bind_run. cbn. by rewrite Hc, Hu. }
  unfold outcome at 1, final, update_connection.
  rewrite !read_only_bind_run by apply get_resource_permission_read_only. rewrite Hp.
  rewrite !read_only_bind_run by apply raise_if_none_ro.
  change (outcome (raise_if_none DELETE _) s) with (Ok tt : result exc unit).
  rewrite !read_only_bind_run by apply require_ro.
  change (outcome (require DELETE WRITE) s) with (Ok tt : result exc unit). by rewrite !Hm.
Qed.
End Endpoints.

(** ** Witnesses *)

Definition alice_row : User := mkUser 1 "alice" None None None None false true 0 0.
Definition root_row : User := mkUser 9 "root" None None None None true true 0 0.
Lemma world_session_wf : session_wf world.
Proof. exact (session_inv_wf _ (reachable_session_inv _ world_reachable)). Qed.

(** a world with a connection no transfer uses, and a copy of connection 1 *)
Definition more_connections : list Action :=
  [Req 1 (CreateConnection (pg_connection 1 "unused"));
   Req 1 (CopyConnection 1 (mkConnectionCopy 1 (Some "copied") false))].
Definition world_2 : Session := play (people ++ resources_1 ++ more_connections).
Lemma world_2_inv : session_inv world_2.
Proof. exact (reachable_session_inv _ (play_reachable _)). Qed.

Definition some_auth : dict := [("user", JStr "u"); ("type", JStr "basic"); ("password", JStr "new")].
Definition rewritten : AuthData := mkAuthData 1 (encrypt_auth_data some_auth) 0 0.
Lemma credentials_roundtrip_witness :
  exists d', outcome (CredentialsRepository.read 1) (CredentialsRepository.update 1 some_auth world).2 = Ok (JObj d') /\
    forall k, dict_get k d' = sort_keys <$> dict_get k some_auth.
Proof.
  refine (credentials_roundtrip 1 some_auth rewritten world _ _ (or_intror _)).
  - apply (bool_decide_eq_true_1 _). vm_compute. reflexivity.
  - vm_compute. reflexivity.
Defined.

Definition kept_password : dict := [("type", JStr "basic"); ("user", JStr "v"); ("password", JStr "old")].
Definition left_out : dict := [("type", JStr "basic"); ("user", JStr "v"); ("password", JNull)].
Lemma merge_secrets_spec_witness :
  exists v, json_item (JObj (basic_auth "u" "old")) "password" = Ok v /\
            dict_get "password" kept_password = Some v.
Proof.
  refine (proj1 (proj1 (merge_secrets_spec ["password"] (JObj (basic_auth "u" "old")) left_out
    kept_password _ eq_refl) "password" _ eq_refl)); set_solver.
Defined.

Lemma delete_connection_spec_witness :
  committed (delete_connection 3 alice_row world_2).2 =
    with_tbl (R := AuthData) (delete 3 (auth_data (working world_2)))
      (with_tbl (delete 3 (connections (working world_2))) (working world_2)).
Proof.
  refine (proj2 (proj2 (delete_connection_spec 3 alice_row world_2 tt
    (delete_connection 3 alice_row world_2).2 (session_inv_wf _ world_2_inv) _))).
  vm_compute. reflexivity.
Defined.

Definition created_reply : ReadConnection := mkReadConnection 3 1 "new" "" POSTGRES pg_data
  (Some [("type", JStr "basic"); ("user", JStr "u")]).
Lemma create_connection_spec_witness :
  exists c, connections (working world) !! conn_id c = None /\
    c = mkConnection (conn_id c) "new" 1 "" POSTGRES pg_data (clock world) (clock world) /\
    connections (committed (create_connection (pg_connection 1 "new") alice_row world).2) =
      <[conn_id c := c]> (connections (working world)) /\
    outcome (CredentialsRepository.read (conn_id c)) (create_connection (pg_connection 1 "new") alice_row world).2
      = Ok (sort_keys (JObj (basic_auth "u" "secret"))) /\
    read_connection_schema c (sort_keys (JObj (basic_auth "u" "secret"))) = Ok created_reply.
Proof.
  refine (create_connection_spec (pg_connection 1 "new") alice_row world created_reply _ _).
  vm_compute. reflexivity.
Defined.

(** moving connection 1 takes transfer 1 with it *)
Definition moving : ConnectionCopy := mkConnectionCopy 1 (Some "moved") true.
Definition moved_reply : ReadConnection := mkReadConnection 3 1 "moved" "" POSTGRES pg_data None.
Lemma copy_connection_spec_witness :
  transfers (working world) !! 1 <> None /\
  transfers (committed (copy_connection 1 moving alice_row world).2) !! 1 = None.
Proof.
  split; [by vm_compute|].
  destruct (copy_connection_spec 1 moving alice_row world moved_reply
    (copy_connection 1 moving alice_row world).2 world_session_wf) as (c0 & c & _ & _ & _ & _ & _ & _ & Ht);
    [vm_compute; reflexivity|].
  rewrite Ht. vm_compute. reflexivity.
Defined.

Definition copied : Connection := mkConnection 4 "copied" 1 "" POSTGRES pg_data 0 0.
Lemma update_without_credentials_witness :
  outcome (update_connection 4 (pg_connection 1 "copied") root_row) world_2 =
    Raise (AuthDataNotFoundError ("Connection id = " +:+ str_of_Z 4)).
Proof.
  refine (proj1 (update_without_credentials (pg_connection 1 "copied") copied root_row world_2
    (proj2 world_2_inv) _ _ _ _)); vm_compute; reflexivity.
Defined.

(** renaming connection 1 without giving its password again *)
Definition renaming : ConnectionBody := mkConnectionBody 1 "renamed" "" POSTGRES pg_data
  [("type", JStr "basic"); ("user", JStr "u"); ("password", JNull)].
Definition renamed_reply : ReadConnection := mkReadConnection 1 1 "renamed" "" POSTGRES pg_data
  (Some [("type", JStr "basic"); ("user", JStr "u")]).
Lemma update_connection_spec_witness :
  exists old d', merge_secrets ["password"] old (cb_auth_data renaming) = Ok d' /\
    outcome (CredentialsRepository.read 1) (update_connection 1 renaming alice_row world).2 = Ok (sort_keys (JObj d')).
Proof.
  destruct (update_connection_spec 1 renaming alice_row world renamed_reply
    (update_connection 1 renaming alice_row world).2 world_session_wf) as (c0 & old & d' & _ & _ & _ & Hd & _ & Hr);
    [vm_compute; reflexivity|].
  exists old, d'. split; [exact Hd|exact Hr].
Defined.
