(* ===== verification/RunTheorems.v ===== *)
(** * Theorems about runs *)

From S2P Require Import Prelude PyData Models Errors Database Integrity Search Repository.
From S2P Require Import Repositories RepositoryFacts Pydantic ConnectionSchemas TransferSchemas.
From S2P Require Import Auth ApiGroups ApiQueues ApiConnections ApiTransfers ApiRuns Server.
From S2P Require Import ServerFacts Deletion Membership Examples ConnectionTheorems.

(** a run as it is created *)
Definition new_run (type : RunType) (i t : Z) (dump : dict) (at_ : Z) : Run :=
  mkRun i t None None CREATED type None dump at_ at_.

Section Runs.
Context `{Cipher} `{PydanticCore}.

Lemma transfer_connection_ok i c s s' : RunRepository.transfer_connection i s = (Ok c, s') ->
  connections (working s) !! i = Some c /\ s' = s.
Proof.
  unfold RunRepository.transfer_connection. intros Hc. apply bind_ok in Hc as (o & s1 & [= <- <-] & Hc).
  cbn in Hc. destruct (connections (working s) !! i); [|done]. by injection Hc as <- <-.
Qed.

Lemma serialized_ok t sc tc d s s' :
  RunRepository.read_full_serialized_transfer t sc tc s = (Ok d, s') ->
  s' = s /\ exists tr, transfers (working s) !! t = Some tr /\
    dict_get "id" d = Some (JInt (transfer_id tr)) /\
    forall a b, dict_get "auth_data" sc = Some a -> dict_get "auth_data" tc = Some b ->
    exists cs ct, dict_get "source_connection" d = Some (RunRepository.dump_connection cs a) /\
      dict_get "target_connection" d = Some (RunRepository.dump_connection ct b) /\
      connections (working s) !! source_connection_id tr = Some cs /\
      connections (working s) !! target_connection_id tr = Some ct.
Proof.
  intros Hd. unfold RunRepository.read_full_serialized_transfer in Hd.
  apply bind_ok in Hd as (tr & s1 & Htr & Hd). apply select_one_ok in Htr as [Htr ->].
  apply bind_ok in Hd as (cs & s1 & Hcs & Hd). apply transfer_connection_ok in Hcs as [Hcs ->].
  apply bind_ok in Hd as (a & s1 & Ha & Hd). apply reads_ok in Ha as [Ha ->].
  apply bind_ok in Hd as (ct & s1 & Hct & Hd). apply transfer_connection_ok in Hct as [Hct ->].
  apply bind_ok in Hd as (b & s1 & Hb & Hd). apply reads_ok in Hb as [Hb ->].
  apply mret_ok in Hd as [-> ->]. split; [done|]. exists tr. split; [done|]. split; [done|].
  intros a' b' Ha' Hb'. rewrite Ha' in Ha. rewrite Hb' in Hb. injection Ha as ->. injection Hb as ->.
  by exists cs, ct.
Qed.

(** the run and its dump, for a manual and for a scheduled run *)
Lemma create_run_ok type t cs ct r s s' :
  (sc ← reads (fun _ => read_auth_data cs); tc ← reads (fun _ => read_auth_data ct);
   RunRepository.create t sc tc type) s = (Ok r, s') ->
  exists dump tr, transfers (working s) !! t = Some tr /\ public_dump dump /\
    dict_get "id" dump = Some (JInt (transfer_id tr)) /\
    r = new_run type (run_id r) t dump (clock s) /\
    runs (working s) !! run_id r = None /\ check_row (working s) r = Ok tt /\
    working s' = with_tbl (<[run_id r := r]> (runs (working s))) (working s) /\
    committed s' = committed s /\ clock s' = clock s.
Proof.
  intros Hr.
  apply bind_ok in Hr as (sc & s1 & Hsc & Hr). apply reads_ok in Hsc as [Hsc ->].
  apply bind_ok in Hr as (tc & s1 & Htc & Hr). apply reads_ok in Htc as [Htc ->].
  unfold RunRepository.create in Hr. apply bind_ok in Hr as (dump & s1 & Hd & Hr).
  apply serialized_ok in Hd as (-> & tr & Htr & Hid & Hconn).
  apply bind_ok in Hr as (at_ & s1 & Hat & Hr). apply gets_ok in Hat as [-> ->].
  apply except_integrity_ok, insert_new_ok in Hr as (-> & Hn & Hchk & ->).
  apply read_auth_data_public in Hsc as (a & Ha & Hpa), Htc as (b & Hb & Hpb).
  destruct (Hconn _ _ Ha Hb) as (c1 & c2 & H1 & H2 & _).
  exists dump, tr. split_and!; try done. intros side Hside.
  apply elem_of_cons in Hside as [->|Hside]; [|apply list_elem_of_singleton in Hside as ->].
  - eexists _, a. by rewrite H1.
  - eexists _, b. by rewrite H2.
Qed.

(** marking a new run as failed cannot fail *)
Lemma fail_run_ok type i t dump s : runs (working s) !! i = Some (new_run type i t dump (clock s)) ->
  check_row (working s) (new_run type i t dump (clock s)) = Ok tt ->
  RunRepository.update i FAILED s =
    (Ok (RunRepository.set_status FAILED (new_run type i t dump (clock s))),
     set_working (with_tbl (<[i := RunRepository.set_status FAILED (new_run type i t dump (clock s))]>
       (runs (working s))) (working s)) s).
Proof.
  intros Hr Hchk. unfold RunRepository.update, except_integrity, catch, _update. rewrite bind_run.
  unfold update_row. cbn [tbl RunTable]. rewrite Hr.
  assert (check_row (working s) (touch (clock s) (RunRepository.set_status FAILED (new_run type i t dump (clock s)))) = Ok tt)
    as -> by exact Hchk.
  done.
Qed.

(** a run that was just committed can be marked as failed *)
Lemma mark_failed_ok type r t dump s s0 : r = new_run type (run_id r) t dump (clock s) ->
  check_row (working s) r = Ok tt ->
  working s0 = with_tbl (<[run_id r := r]> (runs (working s))) (working s) -> clock s0 = clock s ->
  exists s1, unit_of_work (RunRepository.update (run_id r) FAILED) (commit s0) =
      (Ok (RunRepository.set_status FAILED r), s1) /\
    committed s1 = with_tbl (<[run_id r := RunRepository.set_status FAILED r]> (runs (working s))) (working s).
Proof.
  intros Hr Hchk Hw Hc. unfold unit_of_work. rewrite Hr.
  rewrite fail_run_ok with (type := type) (t := t) (dump := dump); cbn [commit working clock run_id new_run];
    rewrite ?Hw, ?Hc.
  - eexists; split; [done|]. cbn. by rewrite insert_insert_eq.
  - cbn. rewrite lookup_insert_eq. by rewrite Hr at 1.
  - cbn [with_tbl RunTable]. by rewrite Hr in Hchk.
Qed.
End Runs.

Section Start.
Context `{Cipher} `{PydanticCore} `{Broker}.

(** C8 Starting a transfer creates one run of it in the state CREATED, commits
    it and hands it to the queue of the transfer; the dump it keeps has no
    secret; nothing else changes. *)
Theorem start_run_spec t u s rr s' : start_run t u s = (Ok rr, s') ->
  exists tr q r dump, transfers (working s) !! t = Some tr /\
    queues (working s) !! transfer_queue_id tr = Some q /\
    r = new_run MANUAL (run_id r) t dump (clock s) /\ rr = read_run_schema r /\ public_dump dump /\
    runs (working s) !! run_id r = None /\
    committed s' = with_tbl (<[run_id r := r]> (runs (working s))) (working s) /\
    send_task "run_transfer_task" (run_id r) (queue_slug q) = Ok tt.
Proof.
  intros Hr. unfold start_run in Hr. do 7 skip_read Hr.
  unfold TransferRepository.read_by_id in Hrun2. unfold QueueRepository.read_by_id in Hrun3.
  apply except_class_ok, select_one_ok in Hrun2 as [Htr _], Hrun3 as [Hq _].
  apply bind_ok in Hr as (r & s1 & Hu & Hr). apply unit_of_work_ok in Hu as (s0 & Hu & ->).
  apply create_run_ok in Hu as (dump & tr & Htr' & Hpub & _ & Hrr & Hn & _ & Hw & _ & _).
  apply bind_ok in Hr as (r' & s1 & Hs & Hr). apply mret_ok in Hr as [-> ->].
  unfold send_run in Hs. destruct (send_task _ _ _) as [[]|e] eqn:Hsend.
  - apply mret_ok in Hs as [-> ->]. exists a2, a3, r, dump. by split_and!.
  - destruct (isinstance e CKombuError); [|done]. by apply bind_ok in Hs as (? & ? & _ & Hs).
Qed.

(** C9 When the task queue cannot be reached a start never leaves a run that
    waits for nobody: either nothing was stored, or the new run is stored as
    FAILED and the answer names it. *)
Theorem start_run_without_broker t u s res s' : session_wf s ->
  (forall i slug, send_task "run_transfer_task" i slug = Raise KombuError) ->
  start_run t u s = (res, s') ->
  (exists e, res = Raise e /\ committed s' = committed s) \/
  exists i dump, res = Raise (CannotConnectToTaskQueueError i) /\ runs (working s) !! i = None /\
    committed s' =
      with_tbl (<[i := RunRepository.set_status FAILED (new_run MANUAL i t dump (clock s))]> (runs (working s)))
        (working s).
Proof.
  intros Hwf Hdown. unfold start_run.
  do 7 (rewrite read_only_bind_run by (first [solve [eauto 3 with se nocore]|solve_se]);
    destruct (outcome _ s) as [?|?]; [|intros [= <- <-]; left; by eauto]).
  rewrite bind_run. destruct (unit_of_work _ s) as [[r|e] s1] eqn:Hu.
  2: { intros [= <- <-]. left. eexists; split; [done|].
    eapply unit_of_work_atomic; [|exact Hu]. unfold create_run_body.
    repeat (apply no_commit_bind; [done|intros ?]). apply run_create_nc. }
  apply unit_of_work_ok in Hu as (s0 & Hu & ->).
  apply create_run_ok in Hu as (dump & tr & Htr' & Hpub & _ & Hrr & Hn & Hchk & Hw & _ & Hclk).
  rewrite bind_run. unfold send_run. rewrite Hdown. cbn [isinstance].
  replace (isinstance KombuError CKombuError) with true by (by vm_compute).
  destruct (mark_failed_ok _ _ _ _ s s0 Hrr Hchk Hw Hclk) as (s2 & Hf & Hc).
  rewrite bind_run, Hf. intros [= <- <-]. right. exists (run_id r), dump.
  rewrite Hc. split_and!; [done|done|]. by rewrite Hrr at 2.
Qed.
End Start.

(** ** Stopping *)

Lemma run_read_by_id_run i s : RunRepository.read_by_id i s =
  match runs (working s) !! i with Some r => (Ok r, s) | None => (Raise RunNotFoundError, s) end.
Proof.
  unfold RunRepository.read_by_id. rewrite bind_run. cbn. by destruct (runs (working s) !! i).
Qed.

(** Stopping a run answers by its state: a run that is CREATED or STARTED is
    sent the stop signal, and only its status and update time change; a run in
    any other state is left alone with an error that names it. *)
Theorem stop_spec i s : db_wf (working s) ->
  (forall r, runs (working s) !! i = Some r -> sizes_ok r = true) ->
  RunRepository.stop i s =
  match runs (working s) !! i with
  | None => (Raise RunNotFoundError, s)
  | Some r =>
      if bool_decide (run_status r = CREATED \/ run_status r = STARTED) then
        let r' := mkRun (run_id r) (run_transfer_id r) (run_started_at r) (run_ended_at r)
                    SEND_STOP_SIGNAL (run_type r) (run_log_url r) (run_transfer_dump r)
                    (run_created_at r) (clock s) in
        (Ok r', set_working (with_tbl (<[i := r']> (runs (working s))) (working s)) s)
      else (Raise (CannotStopRunError i (run_status r)), s)
  end.
Proof.
  intros Hwf Hsize. unfold RunRepository.stop. rewrite bind_run, run_read_by_id_run.
  destruct (runs (working s) !! i) as [r|] eqn:Hr; [|done]. specialize (Hsize _ eq_refl).
  assert (bool_decide (run_status r ∈ [CREATED; STARTED]) =
          bool_decide (run_status r = CREATED \/ run_status r = STARTED)) as ->
    by (apply bool_decide_ext; set_solver).
  rewrite bind_run. destruct (bool_decide (run_status r = CREATED \/ run_status r = STARTED)); [|done].
  cbn [negb when]. unfold _update. cbn -[update_row]. rewrite bind_run. unfold update_row. cbn [tbl RunTable].
  rewrite Hr. set (r' := touch _ _). assert (check_row (working s) r' = Ok tt) as ->; [|done].
  apply check_row_ok. split_and!; [exact Hsize|set_solver|].
  exact (wf_refs (R := Run) (working s) i r Hwf Hr).
Qed.

(** ** Witnesses *)

Definition run_dump : dict :=
  match runs (working (play (people ++ resources_1 ++ [Req 2 (StartRun 1)]))) !! 1 with
  | Some r => run_transfer_dump r
  | None => []
  end.
Definition run_1 : Run := new_run MANUAL 1 1 run_dump 0.

(** bob, a developer of the group, starts transfer 1 *)
Definition bob_row : User := mkUser 2 "bob" None None None None false true 0 0.
Lemma start_run_spec_witness :
  exists tr q r dump, transfers (working world) !! 1 = Some tr /\
    queues (working world) !! transfer_queue_id tr = Some q /\
    r = new_run MANUAL (run_id r) 1 dump (clock world) /\ read_run_schema run_1 = read_run_schema r /\
    public_dump dump /\ runs (working world) !! run_id r = None /\
    committed (start_run 1 bob_row world).2 = with_tbl (<[run_id r := r]> (runs (working world))) (working world) /\
    send_task "run_transfer_task" (run_id r) (queue_slug q) = Ok tt.
Proof.
  refine (start_run_spec 1 bob_row world (read_run_schema run_1) (start_run 1 bob_row world).2 _).
  vm_compute. reflexivity.
Defined.

Lemma start_run_without_broker_witness :
  (exists e, outcome (start_run (H1 := down_broker) 1 bob_row) world = Raise e /\
     committed (final (start_run (H1 := down_broker) 1 bob_row) world) = committed world) \/
  exists i dump, outcome (start_run (H1 := down_broker) 1 bob_row) world = Raise (CannotConnectToTaskQueueError i) /\
    runs (working world) !! i = None /\
    committed (final (start_run (H1 := down_broker) 1 bob_row) world) =
      with_tbl (<[i := RunRepository.set_status FAILED (new_run MANUAL i 1 dump (clock world))]> (runs (working world)))
        (working world).
Proof.
  apply (start_run_without_broker (H1 := down_broker) 1 bob_row world
    (outcome (start_run (H1 := down_broker) 1 bob_row) world)
    (final (start_run (H1 := down_broker) 1 bob_row) world) world_session_wf).
  - reflexivity.
  - unfold outcome, final. by destruct (start_run _ _ _).
Defined.

Definition world_running : Session := play (people ++ resources_1 ++ [Req 2 (StartRun 1)]).
Lemma stop_spec_witness :
  RunRepository.stop 1 world_running =
  (Ok (RunRepository.set_status SEND_STOP_SIGNAL run_1),
   set_working (with_tbl (<[1 := RunRepository.set_status SEND_STOP_SIGNAL run_1]> (runs (working world_running)))
     (working world_running)) world_running).
Proof.
  rewrite (stop_spec 1 world_running).
  - vm_compute. reflexivity.
  - exact (proj2 (session_inv_wf _ (reachable_session_inv _ (play_reachable _)))).
  - intros r Hr. vm_compute in Hr. by injection Hr as <-.
Defined.
