(* ===== verification/TransferTheorems.v ===== *)
(** * Theorems about transfers and queues *)

From S2P Require Import Prelude PyData Models Errors Database Integrity Search Repository.
From S2P Require Import Repositories RepositoryFacts Pydantic ConnectionSchemas TransferSchemas.
From S2P Require Import Auth ApiGroups ApiQueues ApiConnections ApiTransfers ApiRuns Server.
From S2P Require Import ServerFacts Deletion Membership Examples ConnectionTheorems.

(** the row a body describes *)
Definition transfer_row (i g : Z) (b : TransferBody) (created updated : Z) : Transfer :=
  mkTransfer i (tb_name b) g (tb_description b) (tb_source_connection_id b) (tb_target_connection_id b)
    (tb_strategy_params b) (tb_source_params b) (tb_target_params b) (tb_transformations b)
    (tb_resources b) (tb_is_scheduled b) (default "" (tb_schedule b)) (tb_queue_id b) created updated.

(** the connections and the queue of a body are of its group and of the types of
    its parameters *)
Definition body_fits (db : DB) (b : TransferBody) : Prop :=
  exists cs ct q,
    connections db !! tb_source_connection_id b = Some cs /\
    connections db !! tb_target_connection_id b = Some ct /\
    queues db !! tb_queue_id b = Some q /\
    conn_group_id cs = tb_group_id b /\ conn_group_id ct = tb_group_id b /\
    queue_group_id q = tb_group_id b /\
    conn_type cs = tb_source_type b /\ conn_type ct = tb_target_type b.

Section Transfers.
Context `{TextSearch} `{PydanticCore} `{PyLib}.

Lemma check_transfer_data_ok b ct cs q x s s' : check_transfer_data b ct cs q s = (Ok x, s') ->
  conn_group_id cs = tb_group_id b /\ conn_group_id ct = tb_group_id b /\
  queue_group_id q = tb_group_id b /\
  conn_type cs = tb_source_type b /\ conn_type ct = tb_target_type b.
Proof.
  unfold check_transfer_data. intros Hc. apply bind_ok in Hc as (? & s1 & Hw1 & Hc). apply when_ok in Hw1 as [Hw1 ->].
  apply bind_ok in Hc as (? & s1 & Hw2 & Hc). apply when_ok in Hw2 as [Hw2 ->].
  apply bind_ok in Hc as (? & s1 & Hw3 & Hc). apply when_ok in Hw3 as [Hw3 ->].
  apply when_ok in Hc as [Hw4 ->]. apply bool_decide_eq_false in Hw2, Hw3.
  split_and!; [lia..| |]; by apply dec_stable.
Qed.

Lemma queue_read_ok i q s s' : QueueRepository.read_by_id i s = (Ok q, s') ->
  queues (working s) !! i = Some q.
Proof. unfold QueueRepository.read_by_id. intros Hr. by inv_ok. Qed.

(** C33 Creating a transfer stores the body under a new id with the current
    time; it needs that both connections and the queue are of the transfer's
    group and that the parameters fit the types of the connections. *)
Theorem create_transfer_spec b u s d s' : create_transfer b u s = (Ok d, s') ->
  body_fits (working s) b /\
  exists i, transfers (working s) !! i = None /\
    committed s' =
      with_tbl (<[i := transfer_row i (tb_group_id b) b (clock s) (clock s)]> (transfers (working s)))
        (working s) /\
    read_transfer_schema (transfer_row i (tb_group_id b) b (clock s) (clock s)) = Ok d.
Proof.
  intros Hc. unfold create_transfer in Hc. do 5 skip_read Hc.
  apply connection_read_ok in Hrun1 as [Ht _], Hrun2 as [Hs _]. apply queue_read_ok in Hrun3.
  apply bind_ok in Hc as (x & s1 & Hchk & Hc).
  assert (s1 = s) as -> by (revert Hchk; apply read_only_run; unfold check_transfer_data; solve_se).
  apply check_transfer_data_ok in Hchk as (?&?&?&?&?).
  apply bind_ok in Hc as (t & s1 & Hu & Hc). apply reads_ok in Hc as [Hd ->].
  apply unit_of_work_ok in Hu as (s0 & Hu & ->). unfold TransferRepository.create in Hu.
  apply bind_ok in Hu as (c & s1 & Hnow & Hu). apply gets_ok in Hnow as [-> ->].
  apply except_integrity_ok, insert_new_ok in Hu as (-> & Hn & _ & ->).
  split; [by exists a2, a1, a3|]. eexists; split; [exact Hn|]. by split.
Qed.

(** Updating a transfer stores the body in place, in the group the transfer
    already had.  Only the body is checked against the connections and the
    queue: when it names another group, the transfer ends up with the
    connections and the queue of that group. *)
Theorem update_transfer_spec i b u s d s' : session_wf s -> update_transfer i b u s = (Ok d, s') ->
  body_fits (working s) b /\
  exists t0, transfers (working s) !! i = Some t0 /\
    committed s' =
      with_tbl (<[i := transfer_row i (transfer_group_id t0) b (transfer_created_at t0) (clock s)]>
        (transfers (working s))) (working s).
Proof.
  intros [_ Hwf] Hc. unfold update_transfer in Hc. do 9 skip_read Hc.
  apply connection_read_ok in Hrun2 as [Ht _], Hrun3 as [Hs _]. apply queue_read_ok in Hrun4.
  apply bind_ok in Hc as (x & s1 & Hchk & Hc).
  assert (s1 = s) as -> by (revert Hchk; apply read_only_run; unfold check_transfer_data; solve_se).
  apply check_transfer_data_ok in Hchk as (?&?&?&?&?).
  apply bind_ok in Hc as (t & s1 & Hu & Hc). apply reads_ok in Hc as [_ ->].
  apply unit_of_work_ok in Hu as (s0 & Hu & ->). unfold TransferRepository.update in Hu.
  apply except_integrity_ok, _update_ok in Hu as (t0 & Ht0 & -> & _ & ->).
  split; [by exists a3, a2, a4|]. exists t0. split; [exact Ht0|]. cbn.
  pose proof (wf_key (R := Transfer) (working s) i t0 Hwf Ht0) as Hkey. cbn in Hkey. by rewrite Hkey.
Qed.

(** Deleting a transfer removes it with its runs and nothing else. *)
Theorem delete_transfer_spec i u s x s' : session_wf s -> delete_transfer i u s = (Ok x, s') ->
  is_Some (transfers (working s) !! i) /\
  committed s' =
    with_tbl (R := Run) (filter (fun kr => run_transfer_id kr.2 <> i) (runs (working s)))
      (with_tbl (R := Transfer) (delete i (transfers (working s))) (working s)).
Proof.
  intros [_ Hwf] Hd. unfold delete_transfer in Hd. do 3 skip_read Hd.
  apply unit_of_work_ok in Hd as (s1 & Hd & ->). unfold TransferRepository.delete in Hd.
  apply bind_ok in Hd as (t & s2 & Hd & Hr). inv_ok. split; [done|].
  exact (cascade_transfer _ Hwf i).
Qed.

(** the one-element page of the transfers of a group that use a queue *)
Lemma check_queue_unused_ok q x s s' : db_wf (working s) -> check_queue_unused q s = (Ok x, s') ->
  forall k t, transfers (working s) !! k = Some t -> transfer_group_id t = queue_group_id q ->
    transfer_queue_id t <> queue_id q.
Proof.
  intros Hwf Hc k t Hk Hg Hq. unfold check_queue_unused in Hc.
  apply bind_ok in Hc as (pg & s1 & Hpg & Hc). unfold TransferRepository.paginate, _paginate_scalar_result in Hpg.
  apply gets_ok in Hpg as [Hpg _]. destruct (pg_items pg) eqn:Hitems; [|done]. subst pg.
  cbn [paginate_list make_pagination pg_items] in Hitems. unfold paginate_list in Hitems. cbn in Hitems.
  set (query := order_by _ _) in Hitems.
  assert (t ∈ run_query (rows_of (working s)) (working s) query) as Hin.
  { unfold run_query. rewrite merge_sort_Permutation. apply list_elem_of_filter. split.
    - unfold matches, query. cbn. rewrite Hg, Hq, !Z.eqb_refl. done.
    - apply rows_of_elem; [done|]. pose proof (wf_key (R := Transfer) (working s) k t Hwf Hk) as Hkey.
      by rewrite Hkey. }
  destruct (run_query _ _ _); [set_solver|done].
Qed.

(** Deleting a queue needs that no transfer of the queue's group uses it;
    when no transfer of another group does, the queue goes and nothing else
    changes. *)
Theorem delete_queue_spec i u s x s' : session_wf s -> delete_queue i u s = (Ok x, s') ->
  exists q, queues (working s) !! i = Some q /\
    (forall k t, transfers (working s) !! k = Some t -> transfer_group_id t = queue_group_id q ->
       transfer_queue_id t <> i) /\
    ((forall k t, transfers (working s) !! k = Some t -> transfer_queue_id t = i ->
        transfer_group_id t = queue_group_id q) ->
     committed s' = with_tbl (R := Queue) (delete i (queues (working s))) (working s)).
Proof.
  intros [_ Hwf] Hd. unfold delete_queue in Hd. do 4 skip_read Hd. apply queue_read_ok in Hrun2.
  apply bind_ok in Hd as (y & s1 & Hchk & Hd).
  assert (s1 = s) as -> by (revert Hchk; apply read_only_run, check_queue_unused_ro).
  pose proof (check_queue_unused_ok _ _ _ _ Hwf Hchk) as Hun.
  pose proof (wf_key (R := Queue) (working s) i a2 Hwf Hrun2) as Hkey. cbn in Hkey. rewrite Hkey in Hun. clear Hkey.
  apply unit_of_work_ok in Hd as (s1 & Hd & ->). unfold QueueRepository.delete in Hd.
  apply bind_ok in Hd as (q & s2 & Hd & Hr). inv_ok. exists a2. split_and!; [done|done|].
  intros Hgrp. refine (cascade_queue _ Hwf i _). intros k t Hk Hq. by eapply Hun; [|by eapply Hgrp|].
Qed.
Lemma transfer_copy_ok i q g a b n s t s' :
  TransferRepository.copy i q (Some g) (Some a) (Some b) n s = (Ok t, s') ->
  exists t0, transfers (working s) !! i = Some t0 /\ transfers (working s) !! transfer_id t = None /\
    t = mkTransfer (transfer_id t) (default (transfer_name t0) n) g (transfer_description t0) a b
          (strategy_params t0) (source_params t0) (target_params t0) (transformations t0) (resources t0)
          (is_scheduled t0) (schedule t0) q (transfer_created_at t0) (transfer_updated_at t0) /\
    working s' = with_tbl (<[transfer_id t := t]> (transfers (working s))) (working s).
Proof.
  intros Hc. unfold TransferRepository.copy in Hc. apply except_integrity_ok in Hc.
  unfold _copy in Hc. apply bind_ok in Hc as (t0 & s1 & Hs & Hc). apply select_one_ok in Hs as [Hs ->].
  apply insert_new_ok in Hc as (-> & Hn & _ & ->). exists t0. by split_and!.
Qed.

(** the copy of a connection in another group *)
Definition connection_copy (i g : Z) (n : option string) (c : Connection) : Connection :=
  mkConnection i (default (conn_name c) n) g (conn_description c) (conn_type c) (conn_data c)
    (conn_created_at c) (conn_updated_at c).

(** the connections of the copied transfer: one copy when it had one connection *)
Definition copied_connections (c : CopyTransfer) (tr : Transfer) (db : DB) (cs ct : Connection) : Prop :=
  exists cs0 ct0, connections db !! source_connection_id tr = Some cs0 /\
    connections db !! target_connection_id tr = Some ct0 /\
    cs = connection_copy (conn_id cs) (ct_new_group_id c) (ct_new_source_connection_name c) cs0 /\
    if source_connection_id tr =? target_connection_id tr then ct = cs
    else ct = connection_copy (conn_id ct) (ct_new_group_id c) (ct_new_target_connection_name c) ct0.

Lemma copy_connections_ok tr i c s cs s1 ct s2 : session_wf s -> transfers (working s) !! i = Some tr ->
  ConnectionRepository.copy (source_connection_id tr) (ct_new_group_id c)
    (ct_new_source_connection_name c) s = (Ok cs, s1) ->
  (if negb (source_connection_id tr =? target_connection_id tr)
   then ConnectionRepository.copy (target_connection_id tr) (ct_new_group_id c)
          (ct_new_target_connection_name c)
   else mret cs) s1 = (Ok ct, s2) ->
  session_wf s2 /\ copied_connections c tr (working s) cs ct /\
  working s2 = with_tbl (<[conn_id ct := ct]> (<[conn_id cs := cs]> (connections (working s)))) (working s).
Proof.
  intros Hwf Htr Hcs Hct. assert (session_wf s1 /\ (session_wf s1 -> session_wf s2)) as [Hwf1 Hwf2].
  { pose proof (connection_copy_keeps session_wf (source_connection_id tr) (ct_new_group_id c)
      (ct_new_source_connection_name c) s Hwf) as Hk1. unfold final in Hk1. rewrite Hcs in Hk1.
    split; [done|]. pose proof (connection_copy_keeps session_wf (target_connection_id tr) (ct_new_group_id c)
      (ct_new_target_connection_name c) s1) as Hk2. unfold final in Hk2.
    destruct (negb _); [by rewrite Hct in Hk2|]. by apply mret_ok in Hct as [_ ->]. }
  apply connection_copy_ok in Hcs as (cs0 & Hcs0 & Hncs & Hcseq & Hw1 & _).
  assert (is_Some (connections (working s) !! target_connection_id tr)) as [ct1 Hct1].
  { pose proof (wf_refs (R := Transfer) _ _ _ (proj2 Hwf) Htr) as Hrefs. by open_refs. }
  split; [by apply Hwf2|]. unfold copied_connections.
  destruct (Z.eqb_spec (source_connection_id tr) (target_connection_id tr)) as [Heq|Hne]; cbn [negb] in Hct.
  - apply mret_ok in Hct as [-> ->]. rewrite <- Heq, Hw1. split; [by exists cs0, cs0|].
    by rewrite insert_insert_eq.
  - apply connection_copy_ok in Hct as (ct0 & Hct0 & Hnct & Hcteq & Hw2 & _).
    rewrite Hw1 in Hct0, Hw2. cbn in Hct0, Hw2. rewrite lookup_insert_ne in Hct0.
    + split; [by exists cs0, ct0|done].
    + congruence.
Qed.

Lemma transfer_delete_ok i x s s' : db_wf (working s) -> TransferRepository.delete i s = (Ok x, s') ->
  transfers (working s') = delete i (transfers (working s)) /\
  connections (working s') = connections (working s) /\ auth_data (working s') = auth_data (working s).
Proof.
  intros Hwf Hd. unfold TransferRepository.delete in Hd. apply bind_ok in Hd as (t & s1 & Hd & Hr). inv_ok.
  cbn [working set_working].
  pose proof (cascade_transfer _ Hwf i) as Hcas. cbn [tbl TransferTable].
  set (db1 := cascade _) in *. clearbody db1. by subst db1.
Qed.

(** C34 Copying a transfer copies its connections into the new group (one copy
    when source and target are one connection), without credentials, and stores a
    transfer with the parameters, schedule and timestamps of the origin under a
    new id; moving it (remove_source) deletes the origin. *)
Theorem copy_transfer_spec i c u s d s' : session_wf s -> copy_transfer i c u s = (Ok d, s') ->
  exists tr cs ct t q, transfers (working s) !! i = Some tr /\
    queues (working s) !! ct_new_queue_id c = Some q /\ queue_group_id q = ct_new_group_id c /\
    copied_connections c tr (working s) cs ct /\
    t = mkTransfer (transfer_id t) (default (transfer_name tr) (ct_new_name c)) (ct_new_group_id c)
          (transfer_description tr) (conn_id cs) (conn_id ct) (strategy_params tr) (source_params tr)
          (target_params tr) (transformations tr) (resources tr) (is_scheduled tr) (schedule tr)
          (ct_new_queue_id c) (transfer_created_at tr) (transfer_updated_at tr) /\
    connections (committed s') = <[conn_id ct := ct]> (<[conn_id cs := cs]> (connections (working s))) /\
    auth_data (committed s') = auth_data (working s) /\
    transfers (working s) !! transfer_id t = None /\
    transfers (committed s') =
      (if ct_remove_source c then delete i else id) (<[transfer_id t := t]> (transfers (working s))).
Proof.
  intros Hwf Hc. unfold copy_transfer in Hc. do 12 skip_read Hc.
  unfold TransferRepository.read_by_id in Hrun4. apply except_class_ok, select_one_ok in Hrun4 as [Htr _].
  apply queue_read_ok in Hrun9. apply when_ok in Hrun10 as [Hq _].
  pose proof (wf_key (R := Transfer) (working s) i a4 (proj2 Hwf) Htr) as Hkey. cbn in Hkey, Htr.
  apply bind_ok in Hc as (t & s1 & Hu & Hc). apply reads_ok in Hc as [_ ->].
  apply unit_of_work_ok in Hu as (s0 & Hu & ->). unfold copy_transfer_body in Hu.
  apply bind_ok in Hu as (cs & s1 & Hcs & Hu). apply bind_ok in Hu as (ct & s2 & Hct & Hu).
  destruct (copy_connections_ok _ _ _ _ _ _ _ _ Hwf Htr Hcs Hct) as (Hwf2 & Hcopied & Hw2).
  apply bind_ok in Hu as (t' & s3 & Hcopy & Hu). rewrite Hkey in *.
  pose proof (transfer_copy_keeps session_wf i (ct_new_queue_id c) (Some (ct_new_group_id c))
    (Some (conn_id cs)) (Some (conn_id ct)) (ct_new_name c) s2 Hwf2) as Hwf3.
  unfold final in Hwf3. rewrite Hcopy in Hwf3. cbn in Hwf3.
  apply transfer_copy_ok in Hcopy as (tr & Htr' & Hn & Ht & Hw3). rewrite Hw2 in Htr', Hn, Hw3. cbn in Htr', Hn, Hw3.
  assert (tr = a4) as -> by congruence. apply bind_ok in Hu as (x & s4 & Hdel & Hu). apply mret_ok in Hu as [-> ->].
  exists a4, cs, ct, t', a9. split_and!; try done; [lia| | |];
    (destruct (ct_remove_source c);
      [apply transfer_delete_ok in Hdel as (Hd1 & Hd2 & Hd3); [|apply Hwf3]; cbn; rewrite ?Hd1, ?Hd2, ?Hd3, Hw3
      |apply mret_ok in Hdel as [_ ->]; cbn; rewrite Hw3]; done).
Qed.
End Transfers.

(** ** A transfer can leave its group *)

(** bob, a developer of group 1, updates its transfer with a body of group 2 *)
Definition group_2_resources : list Action :=
  [Req 2 (CreateQueue "queue2" 2 ""); Req 2 (CreateConnection (pg_connection 2 "source"));
   Req 2 (CreateConnection (pg_connection 2 "target"))].
Definition elsewhere : TransferBody := pg_transfer 2 2 3 4 "transfer" None.
Definition world_moved : Session :=
  play (people ++ resources_1 ++ group_2_resources ++ [Req 2 (UpdateTransfer 1 elsewhere)]).

(** There is a reachable state in which a transfer of one group uses the queue
    of another; deleting that queue, which the check for transfers of the queue's
    own group lets through, deletes the transfer of the other group. *)
Theorem queue_deletion_crosses_groups :
  reachable world_moved /\
  (exists t q, transfers (committed world_moved) !! 1 = Some t /\
     queues (committed world_moved) !! transfer_queue_id t = Some q /\
     transfer_group_id t = 1 /\ queue_group_id q = 2) /\
  (serve (DeleteQueue 2) (token 2) world_moved).1 = inl NoContent /\
  transfers (committed (serve (DeleteQueue 2) (token 2) world_moved).2) !! 1 = None.
Proof.
  split; [apply play_reachable|]. split; [|split; vm_compute; reflexivity].
  eexists _, _. split; [vm_compute; reflexivity|]. split; [vm_compute; reflexivity|]. by split.
Qed.

(** ** Witnesses *)

Definition third_transfer : TransferBody := pg_transfer 1 1 1 2 "third" (Some "* * * * *").
Definition third_reply : dict :=
  match outcome (create_transfer third_transfer alice_row) world with Ok d => d | Raise _ => [] end.
Lemma create_transfer_spec_witness :
  body_fits (working world) third_transfer /\
  exists i, transfers (working world) !! i = None /\
    committed (create_transfer third_transfer alice_row world).2 =
      with_tbl (<[i := transfer_row i 1 third_transfer (clock world) (clock world)]> (transfers (working world)))
        (working world) /\
    read_transfer_schema (transfer_row i 1 third_transfer (clock world) (clock world)) = Ok third_reply.
Proof.
  refine (create_transfer_spec third_transfer alice_row world third_reply
    (create_transfer third_transfer alice_row world).2 _).
  vm_compute. reflexivity.
Defined.

Definition update_reply : dict :=
  match outcome (update_transfer 1 third_transfer alice_row) world with Ok d => d | Raise _ => [] end.
Lemma update_transfer_spec_witness :
  body_fits (working world) third_transfer /\
  exists t0, transfers (working world) !! 1 = Some t0 /\
    committed (update_transfer 1 third_transfer alice_row world).2 =
      with_tbl (<[1 := transfer_row 1 (transfer_group_id t0) third_transfer (transfer_created_at t0) (clock world)]>
        (transfers (working world))) (working world).
Proof.
  refine (update_transfer_spec 1 third_transfer alice_row world update_reply
    (update_transfer 1 third_transfer alice_row world).2 world_session_wf _).
  vm_compute. reflexivity.
Defined.

Lemma delete_transfer_spec_witness :
  committed (delete_transfer 1 alice_row world).2 =
    with_tbl (R := Run) (filter (fun kr => run_transfer_id kr.2 <> 1) (runs (working world)))
      (with_tbl (R := Transfer) (delete 1 (transfers (working world))) (working world)).
Proof.
  refine (proj2 (delete_transfer_spec 1 alice_row world tt (delete_transfer 1 alice_row world).2
    world_session_wf _)).
  vm_compute. reflexivity.
Defined.

Definition world_two_queues : Session := play (people ++ resources_1 ++ group_2_resources).
Definition bob_row' : User := mkUser 2 "bob" None None None None false true 0 0.
Lemma delete_queue_spec_witness :
  exists q, queues (working world_two_queues) !! 2 = Some q /\
    committed (delete_queue 2 bob_row' world_two_queues).2 =
      with_tbl (R := Queue) (delete 2 (queues (working world_two_queues))) (working world_two_queues).
Proof.
  destruct (delete_queue_spec 2 bob_row' world_two_queues tt (delete_queue 2 bob_row' world_two_queues).2)
    as (q & Hq & _ & Hd).
  - exact (session_inv_wf _ (reachable_session_inv _ (play_reachable _))).
  - vm_compute. reflexivity.
  - exists q. split; [exact Hq|]. apply Hd. intros k t Hk Hi. exfalso.
    assert (map_Forall (fun _ t => transfer_queue_id t <> 2) (transfers (working world_two_queues))) as Hno.
    + apply (bool_decide_eq_true_1 _). vm_compute. reflexivity.
    + exact (Hno _ _ Hk Hi).
Defined.

Definition copying : CopyTransfer := mkCopyTransfer 1 1 (Some "source2") (Some "target2") (Some "copied") true.
Definition copy_reply : dict :=
  match outcome (copy_transfer 1 copying alice_row) world with Ok d => d | Raise _ => [] end.
Lemma copy_transfer_spec_witness :
  transfers (committed (copy_transfer 1 copying alice_row world).2) !! 1 = None /\
  auth_data (committed (copy_transfer 1 copying alice_row world).2) = auth_data (working world).
Proof.
  destruct (copy_transfer_spec 1 copying alice_row world copy_reply
    (copy_transfer 1 copying alice_row world).2 world_session_wf) as
    (tr & cs & ct & t & q & _ & _ & _ & _ & _ & _ & Ha & _ & Ht); [vm_compute; reflexivity|].
  split; [rewrite Ht; apply lookup_delete_eq|exact Ha].
Defined.
