(* ===== verification/Isolation.v ===== *)
(** * Groups are isolated

    What a request can change of a group its caller has no role in.  [isolated g db db']:
    the group, its members, its connections with their credentials and its queues are the
    same in [db'] as in [db]; its transfers are at most fewer, and a transfer whose
    connections and queue are of the group stays, with its runs. *)

From S2P Require Import Prelude PyData Models Errors Database Integrity Search Repository.
From S2P Require Import Repositories RepositoryFacts Pydantic ConnectionSchemas TransferSchemas.
From S2P Require Import Auth ApiGroups ApiQueues ApiConnections ApiTransfers ApiRuns Server.
From S2P Require Import ServerFacts Deletion Membership Examples Permissions.
From S2P Require Import ConnectionTheorems RunTheorems TransferTheorems.

(** the rows of a table in a group *)
Definition of_group {R} (grp : R -> Z) (g : Z) (m : gmap Z R) : gmap Z R := filter (fun kr => grp kr.2 = g) m.
Definition outside {R} (grp : R -> Z) (g : Z) (o : option R) : Prop := forall r, o = Some r -> grp r <> g.

Definition own_resources (g : Z) (db : DB) (t : Transfer) : Prop :=
  is_Some (of_group conn_group_id g (connections db) !! source_connection_id t) /\
  is_Some (of_group conn_group_id g (connections db) !! target_connection_id t) /\
  is_Some (of_group queue_group_id g (queues db) !! transfer_queue_id t).

Record isolated (g : Z) (db db' : DB) : Prop := mkIsolated {
  is_group : groups db' !! g = groups db !! g;
  is_members : forall u, user_groups db' !! (u, g) = user_groups db !! (u, g);
  is_connections : of_group conn_group_id g (connections db') = of_group conn_group_id g (connections db);
  is_credentials : forall i, is_Some (of_group conn_group_id g (connections db) !! i) -> auth_data db' !! i = auth_data db !! i;
  is_queues : of_group queue_group_id g (queues db') = of_group queue_group_id g (queues db);
  is_transfers : of_group transfer_group_id g (transfers db') ⊆ of_group transfer_group_id g (transfers db);
  is_kept : forall i t, transfers db !! i = Some t -> transfer_group_id t = g -> own_resources g db t ->
    transfers db' !! i = Some t;
  is_runs : forall i r t, transfers db' !! run_transfer_id r = Some t -> transfer_group_id t = g ->
    runs db' !! i = Some r <-> runs db !! i = Some r;
}.

Section OfGroup.
Context {R} (grp : R -> Z) (g : Z).
Lemma of_group_lookup m i r : of_group grp g m !! i = Some r <-> m !! i = Some r /\ grp r = g.
Proof. unfold of_group. rewrite map_lookup_filter_Some. done. Qed.
Lemma of_group_insert m i r : outside grp g (m !! i) -> grp r <> g -> of_group grp g (<[i := r]> m) = of_group grp g m.
Proof.
  intros Ho Hr. apply map_eq. intros k. apply option_eq. intros x. rewrite !of_group_lookup, lookup_insert.
  case_decide as Hk; [|done]. subst k. split; [by intros [[= <-] ?]|]. intros [Hi Hx]. by destruct (Ho x).
Qed.
Lemma of_group_delete m i : outside grp g (m !! i) -> of_group grp g (delete i m) = of_group grp g m.
Proof.
  intros Ho. apply map_eq. intros k. apply option_eq. intros x. rewrite !of_group_lookup, lookup_delete.
  case_decide as Hk; [|done]. subst k. split; [by intros [? ?]|]. intros [Hi Hx]. by destruct (Ho x).
Qed.
Lemma of_group_sub (m m' : gmap Z R) : m' ⊆ m -> of_group grp g m' ⊆ of_group grp g m.
Proof.
  intros Hm. apply map_subseteq_spec. intros i r. rewrite !of_group_lookup. intros [Hi ?].
  split; [|done]. by eapply lookup_weaken.
Qed.
Lemma outside_none : outside grp g None.
Proof. done. Qed.
Lemma outside_some r : grp r <> g -> outside grp g (Some r).
Proof. by intros Hr ? [= <-]. Qed.
Lemma not_outside m i : outside grp g (m !! i) -> ~ is_Some (of_group grp g m !! i).
Proof. intros Ho [r [Hr Hg]%of_group_lookup]. by apply (Ho r). Qed.
End OfGroup.

Section Isolated.
Variable g : Z.

#[export] Instance isolated_refl : Reflexive (isolated g).
Proof. by constructor. Qed.
#[export] Instance isolated_trans : Transitive (isolated g).
Proof.
  intros d1 d2 d3 [G1 M1 C1 A1 Q1 T1 K1 R1] [G2 M2 C2 A2 Q2 T2 K2 R2]. constructor; try congruence.
  - intros i Hi. rewrite A2, A1 by congruence. done.
  - by etrans.
  - intros i t Hi Ht Ho. apply K2; [by apply K1|done|]. unfold own_resources. by rewrite C1, Q1.
  - intros i r t Ht Hg. rewrite (R2 i r t Ht Hg). apply (R1 i r t); [|done].
    eapply (of_group_lookup transfer_group_id g), lookup_weaken; [|exact T2]. by apply of_group_lookup.
Qed.

(** ** Rows of other groups *)

Lemma iso_group h r db : h <> g -> isolated g db (with_tbl (<[h := r]> (groups db)) db).
Proof. intros Hh. constructor; try done. cbn. by rewrite lookup_insert_ne. Qed.
Lemma iso_members (U : gmap (Z * Z) UserGroup) db : (forall u, U !! (u, g) = user_groups db !! (u, g)) ->
  isolated g db (with_tbl U db).
Proof. by constructor. Qed.
Lemma iso_connection i c db : outside conn_group_id g (connections db !! i) -> conn_group_id c <> g ->
  isolated g db (with_tbl (<[i := c]> (connections db)) db).
Proof. intros Ho Hc. constructor; try done. by apply of_group_insert. Qed.
Lemma iso_credentials i a A db : A = auth_data db -> outside conn_group_id g (connections db !! i) ->
  isolated g db (with_tbl (<[i := a]> A) db).
Proof.
  intros -> Ho. constructor; try done. intros k Hk. cbn. apply lookup_insert_ne. intros ->. by eapply not_outside.
Qed.
Lemma iso_queue i q db : outside queue_group_id g (queues db !! i) -> queue_group_id q <> g ->
  isolated g db (with_tbl (<[i := q]> (queues db)) db).
Proof. intros Ho Hq. constructor; try done. by apply of_group_insert. Qed.
Lemma iso_transfer i t db : outside transfer_group_id g (transfers db !! i) -> transfer_group_id t <> g ->
  isolated g db (with_tbl (<[i := t]> (transfers db)) db).
Proof.
  intros Ho Ht. constructor; try done.
  - cbn. by rewrite of_group_insert.
  - intros k t' Hk Hg _. cbn. rewrite lookup_insert_ne; [done|]. intros ->. by apply (Ho t').
Qed.
Lemma iso_run i r db : outside transfer_group_id g (transfers db !! run_transfer_id r) ->
  (forall r0, runs db !! i = Some r0 -> run_transfer_id r0 = run_transfer_id r) ->
  isolated g db (with_tbl (<[i := r]> (runs db)) db).
Proof.
  intros Ho Hr. constructor; try done. intros k r' t Ht Hg. cbn in Ht |- *. rewrite lookup_insert.
  case_decide as Hk; [|done]. subst k. split; [intros [= <-]; by destruct (Ho t)|]. intros Hr'.
  rewrite (Hr r' Hr') in Ht. by destruct (Ho t).
Qed.

(** rows that go with a row of another group *)
Lemma iso_fewer db db' : groups db' = groups db -> user_groups db' = user_groups db ->
  of_group conn_group_id g (connections db') = of_group conn_group_id g (connections db) ->
  (forall i, is_Some (of_group conn_group_id g (connections db) !! i) -> auth_data db' !! i = auth_data db !! i) ->
  of_group queue_group_id g (queues db') = of_group queue_group_id g (queues db) ->
  transfers db' ⊆ transfers db ->
  (forall i t, transfers db !! i = Some t -> transfer_group_id t = g -> own_resources g db t -> transfers db' !! i = Some t) ->
  (forall i r, runs db' !! i = Some r <-> runs db !! i = Some r /\ is_Some (transfers db' !! run_transfer_id r)) ->
  isolated g db db'.
Proof.
  intros Hg Hm Hc Ha Hq Ht Hk Hr. constructor; try done; rewrite ?Hg, ?Hm; try done.
  - by apply of_group_sub.
  - intros i r t Hi _. rewrite Hr. naive_solver.
Qed.

Lemma iso_delete_connection i db : db_wf db -> outside conn_group_id g (connections db !! i) ->
  isolated g db (cascade (with_tbl (delete i (connections db)) db)).
Proof.
  intros Hwf Ho. pose proof (cascade_connection_linked _ Hwf i) as Hcas.
  pose proof (cascade_runs (with_tbl (delete i (connections db)) db)) as Hruns. cbv zeta in *.
  set (db1 := cascade _) in *. clearbody db1. destruct Hcas as (_ & Hg & Hm & Hc & Hq & Ha & Ht).
  apply iso_fewer; rewrite ?Hg, ?Hm, ?Hc, ?Hq, ?Ha, ?Ht; try done.
  - by apply of_group_delete.
  - intros k Hk. apply lookup_delete_ne. intros ->. by eapply not_outside.
  - apply map_filter_subseteq.
  - intros k t Hk _ (Hs & Htg & _). apply map_lookup_filter_Some. split; [done|]. cbn.
    intros [He|He]; subst i; by eapply not_outside.
  - intros k r. rewrite Hruns. by rewrite Ht.
Qed.
Lemma iso_delete_queue i db : db_wf db -> outside queue_group_id g (queues db !! i) ->
  isolated g db (cascade (with_tbl (delete i (queues db)) db)).
Proof.
  intros Hwf Ho. pose proof (cascade_queue_linked _ Hwf i) as Hcas.
  pose proof (cascade_runs (with_tbl (delete i (queues db)) db)) as Hruns. cbv zeta in *.
  set (db1 := cascade _) in *. clearbody db1. destruct Hcas as (_ & Hg & Hm & Hc & Hq & Ha & Ht).
  apply iso_fewer; rewrite ?Hg, ?Hm, ?Hc, ?Hq, ?Ha, ?Ht; try done.
  - by apply of_group_delete.
  - apply map_filter_subseteq.
  - intros k t Hk _ (_ & _ & Hs). apply map_lookup_filter_Some. split; [done|]. cbn.
    intros <-. by eapply not_outside.
  - intros k r. rewrite Hruns. by rewrite Ht.
Qed.
Lemma iso_delete_transfer i db : db_wf db -> outside transfer_group_id g (transfers db !! i) ->
  isolated g db (cascade (with_tbl (delete i (transfers db)) db)).
Proof.
  intros Hwf Ho. pose proof (cascade_transfer _ Hwf i) as Hcas.
  pose proof (cascade_runs (with_tbl (delete i (transfers db)) db)) as Hruns. cbn [tbl TransferTable] in *.
  set (db1 := cascade _) in *. clearbody db1. subst db1.
  apply iso_fewer; try done.
  - apply delete_subseteq.
  - intros k t Hk Hg _. cbn. rewrite lookup_delete_ne; [done|]. intros ->. by apply (Ho t).
Qed.
End Isolated.

(** ** The endpoints *)

Section Stranger.
Context `{TextSearch} `{Cipher} `{PydanticCore} `{PyLib} `{Broker}.
Variables (g : Z) (u : User) (s : Session).
Hypothesis Hinv : db_inv (working s).
Hypothesis Hclean : committed s = working s.
Hypothesis Hrole : group_role (working s) u g = None.
Hypothesis Hthere : is_Some (groups (working s) !! g).
Notation Q := (isolated g (working s)).

Lemma stranger_start : both Q s.
Proof. split; [by rewrite Hclean|done]. Qed.
Lemma stranger_reads {A} (m : M A) : read_only m -> both Q (final m s).
Proof. intros Hm. rewrite Hm. exact stranger_start. Qed.
Lemma stranger_no_superuser : is_superuser u = false.
Proof. revert Hrole. unfold group_role. by destruct (is_superuser u). Qed.

(** what a permission says of the group *)
Lemma resource_role {R} `{Owned R} i p : get_resource_permission (R := R) u i s = (Ok p, s) ->
  p = NONE \/ outside resource_group_id g (tbl (R := R) (working s) !! i).
Proof.
  intros Hp. pose proof (resource_permission_ok (R := R) u s Hinv i) as Ho. unfold outcome in Ho. rewrite Hp in Ho.
  cbn in Ho. injection Ho as ->. destruct (tbl (working s) !! i) as [r|] eqn:Hr; [|by left].
  destruct (decide (resource_group_id r = g)) as [Hg|Hg]; [left; by rewrite Hg, Hrole|right; by apply outside_some].
Qed.
Lemma queue_role i p : QueueRepository.get_resource_permission u i s = (Ok p, s) ->
  p = NONE \/ outside queue_group_id g (queues (working s) !! i).
Proof.
  intros Hp. pose proof (queue_resource_permission_ok u s Hinv i) as Ho. unfold outcome in Ho. rewrite Hp in Ho.
  cbn in Ho. injection Ho as ->. destruct (queues (working s) !! i) as [r|] eqn:Hr; [|by left].
  destruct (decide (queue_group_id r = g)) as [Hg|Hg]; [left; by rewrite Hg, Hrole|right; by apply outside_some].
Qed.
(** the three permissions on a group *)
Definition role_in_group (m : M Permission) (h : Z) : Prop := forall p, m s = (Ok p, s) -> p = NONE \/ h <> g.
Lemma role_by_policy (m : M Permission) h (pol : option GroupMemberRole -> Permission) : pol None = NONE ->
  outcome m s = match groups (working s) !! h with
                | Some _ => Ok (pol (group_role (working s) u h))
                | None => Raise GroupNotFoundError
                end -> role_in_group m h.
Proof.
  intros Hpol Ho p Hp. unfold outcome in Ho. rewrite Hp in Ho. cbn in Ho.
  destruct (decide (h = g)) as [->|]; [left|by right]. destruct (groups (working s) !! g); [|done].
  injection Ho as ->. by rewrite Hrole.
Qed.
Lemma group_role_ok h : role_in_group (get_group_permission u h) h.
Proof. by apply (role_by_policy _ _ resource_policy), group_permission_ok. Qed.
Lemma queue_group_role_ok h : role_in_group (QueueRepository.get_group_permission u h) h.
Proof. by apply (role_by_policy _ _ queue_policy), queue_group_permission_ok. Qed.
Lemma settings_role_ok h : role_in_group (GroupRepository.get_group_permission u h) h.
Proof. by apply (role_by_policy _ _ group_policy), settings_permission_ok. Qed.

(** read on; run the unit of work *)
Ltac skip := apply keep_read; [solve [eauto 3 using group_get_group_permission_ro with se nocore | solve_se]|exact stranger_start|intros ? _].
Ltac role L := apply keep_read;
  [solve [eauto 3 using group_get_group_permission_ro with se nocore | solve_se]|exact stranger_start|];
  let p := fresh "p" in let Hp := fresh "Hp" in let Hg := fresh "Hg" in
  intros p Hp; apply L in Hp as [->|Hg]; [exact stranger_start|].
Ltac unit := apply keep_unit; [solve [eauto 3 using update_group_body_nc with se nocore | solve_se]|exact stranger_start|].

Lemma iso_create_group n d : both Q (final (create_group u n d) s).
Proof.
  unfold create_group. unit. intros x s' Hc. unfold GroupRepository.create in Hc.
  apply bind_ok in Hc as (t & s1 & Ht & Hc). apply gets_ok in Ht as [-> ->].
  apply except_integrity_ok, insert_new_ok in Hc as (-> & Hn & _ & ->). apply iso_group. cbn in *.
  intros Hx. rewrite Hx in Hn. destruct Hthere as [? Hg]. congruence.
Qed.

Lemma iso_update_group h n d o : both Q (final (update_group h n d o u) s).
Proof.
  unfold update_group. role (settings_role_ok h). skip. skip. unit. intros x s' Hu.
  apply update_group_body_ok in Hu as (g0 & _ & -> & ->); [|split; [rewrite Hclean|]; apply Hinv].
  etrans; [by apply (iso_group g h)|]. apply iso_members. intros v. unfold moved_members.
  destruct (group_owner_id g0 =? o); [done|]. rewrite lookup_insert_ne, lookup_delete_ne by congruence. done.
Qed.

Lemma iso_update_user_role h i r : both Q (final (update_user_role_group h i r u) s).
Proof.
  unfold update_user_role_group. role (settings_role_ok h). skip. skip.
  apply keep_then; [|by intros ? ?]. unit. intros x s' Hm. unfold GroupRepository.update_member_role in Hm.
  apply bind_ok in Hm as (o & s1 & Hu & Hm). apply except_integrity_ok in Hu.
  apply update_row_ok in Hu as [(_ & -> & ->)|(ug & Hug & -> & Hchk & ->)]; [done|]. inv_ok.
  apply iso_members. intros v. cbn. rewrite lookup_insert_ne by congruence. done.
Qed.

Lemma iso_add_user h i r : both Q (final (add_user_to_group h i r u) s).
Proof.
  unfold add_user_to_group. role (settings_role_ok h). skip. skip.
  apply keep_read; [apply group_read_by_id_ro|exact stranger_start|intros ? _]. skip. unit.
  intros x s' (_ & _ & ->)%add_user_ok. apply iso_members. intros v. rewrite lookup_insert_ne by congruence. done.
Qed.

Lemma iso_delete_user h i : both Q (final (delete_user_from_group h i u) s).
Proof.
  unfold delete_user_from_group. role (settings_role_ok h). skip. skip. unit.
  intros x s' [_ ->]%delete_user_ok; [|apply Hinv]. apply iso_members. intros v.
  rewrite lookup_delete_ne by congruence. done.
Qed.

Lemma iso_create_queue n h d : both Q (final (create_queue n h d u) s).
Proof.
  unfold create_queue. role (queue_group_role_ok h). skip. skip. unit. intros x s' Hc.
  unfold QueueRepository.create in Hc. apply bind_ok in Hc as (t & s1 & Ht & Hc). apply gets_ok in Ht as [-> ->].
  apply except_integrity_ok, insert_new_ok in Hc as (-> & Hn & _ & ->). apply iso_queue; [|done]. intros q Hq. cbn in Hq, Hn. congruence.
Qed.

Lemma iso_update_queue i n d : both Q (final (update_queue i n d u) s).
Proof.
  unfold update_queue. role queue_role. skip. skip. unit. intros x s' Hu.
  unfold QueueRepository.update in Hu. apply except_integrity_ok, _update_ok in Hu as (q & Hq & -> & _ & ->).
  apply iso_queue; [done|]. exact (Hg q Hq).
Qed.

Lemma iso_delete_queue_endpoint i : both Q (final (delete_queue i u) s).
Proof.
  unfold delete_queue. role queue_role. skip. skip. skip.
  apply keep_read; [apply check_queue_unused_ro|exact stranger_start|intros ? _]. unit. intros x s' Hd.
  unfold QueueRepository.delete in Hd. apply bind_ok in Hd as (q & s2 & Hd & Hr). inv_ok.
  apply iso_delete_queue; [apply Hinv|exact Hg].
Qed.

Lemma iso_create_connection b : both Q (final (create_connection b u) s).
Proof.
  unfold create_connection. role (group_role_ok (cb_group_id b)). skip. skip.
  apply keep_then; [|intros c; unfold lift; solve_se]. apply keep_unit; [unfold create_connection_body; solve_se|exact stranger_start|].
  intros c s' (Hn & Hc & Hw)%create_connection_body_ok. rewrite Hw.
  assert (conn_group_id c <> g) as Hcg by (by rewrite Hc).
  etrans; [apply (iso_connection g (conn_id c) c); [by rewrite Hn|done]|].
  apply iso_credentials; [done|]. cbn.
  rewrite lookup_insert_eq. by apply outside_some.
Qed.

Lemma iso_update_connection i b : both Q (final (update_connection i b u) s).
Proof.
  unfold update_connection. role (resource_role (R := Connection)). skip. skip.
  apply keep_then; [|intros c; unfold lift; solve_se]. apply keep_unit; [unfold update_connection_body, lift; solve_se|exact stranger_start|].
  intros c s' (c0 & old & d' & created & Hc0 & _ & _ & _ & -> & Hw)%update_connection_body_ok; [|apply Hinv]. rewrite Hw.
  assert (conn_group_id c0 <> g) as Hcg by (by apply Hg).
  set (c := mkConnection i _ _ _ _ _ _ _) in *.
  etrans; [apply (iso_connection g i c); [exact Hg|exact Hcg]|].
  apply iso_credentials; [done|]. cbn.
  rewrite lookup_insert_eq. by apply outside_some.
Qed.

Lemma iso_delete_connection_endpoint i : both Q (final (delete_connection i u) s).
Proof.
  unfold delete_connection. role (resource_role (R := Connection)). do 5 skip. unit.
  intros x s' [_ ->]%connection_delete_ok. apply iso_delete_connection; [apply Hinv|exact Hg].
Qed.

(** a copy into another group leaves the group as it is *)
Lemma iso_copy i h n s0 c s1 : h <> g -> ConnectionRepository.copy i h n s0 = (Ok c, s1) ->
  isolated g (working s0) (working s1) /\ conn_id c <> i /\ connections (working s1) !! i = connections (working s0) !! i.
Proof.
  intros Hh (c0 & Hc0 & Hn & Hc & -> & _)%connection_copy_ok. assert (conn_id c <> i) by congruence.
  split_and!; [|done|by cbn; rewrite lookup_insert_ne].
  apply iso_connection; [by rewrite Hn|by rewrite Hc].
Qed.

Lemma iso_copy_connection i c : both Q (final (copy_connection i c u) s).
Proof.
  unfold copy_connection. role (resource_role (R := Connection)). skip. skip.
  role (group_role_ok (cc_new_group_id c)). skip. skip.
  apply keep_then; [|intros c1; unfold lift; solve_se].
  apply keep_unit; [unfold copy_connection_body; solve_se|exact stranger_start|]. intros c1 s' Hb.
  unfold copy_connection_body in Hb. apply bind_ok in Hb as (c2 & s1 & Hcopy & Hb).
  assert (db_wf (working s1)) as Hwf1.
  { assert (session_wf s) as Hwf by (split; [rewrite Hclean|]; apply Hinv).
    pose proof (connection_copy_keeps session_wf i (cc_new_group_id c) (cc_new_name c) s Hwf) as [_ Hk].
    unfold final in Hk. by rewrite Hcopy in Hk. }
  apply iso_copy in Hcopy as (Hiso & _ & Hi); [|done].
  apply bind_ok in Hb as (x & s2 & Hdel & Hb). apply mret_ok in Hb as [-> ->].
  destruct (cc_remove_source c); [apply connection_delete_ok in Hdel as [_ ->]|by apply mret_ok in Hdel as [_ ->]].
  etrans; [exact Hiso|]. apply iso_delete_connection; [done|]. by rewrite Hi.
Qed.

Lemma iso_create_transfer b : both Q (final (create_transfer b u) s).
Proof.
  unfold create_transfer. role (group_role_ok (tb_group_id b)). skip. do 3 skip.
  apply keep_read; [unfold check_transfer_data; solve_se|exact stranger_start|intros ? _].
  apply keep_then; [|intros t; solve_se]. unit. intros t s' Hu.
  unfold TransferRepository.create in Hu. apply bind_ok in Hu as (now & s1 & Hnow & Hu). apply gets_ok in Hnow as [-> ->].
  apply except_integrity_ok, insert_new_ok in Hu as (-> & Hn & _ & ->).
  apply iso_transfer; [|exact Hg]. intros t Ht. cbn in Ht, Hn. congruence.
Qed.

Lemma iso_update_transfer i b : both Q (final (update_transfer i b u) s).
Proof.
  unfold update_transfer. role (resource_role (R := Transfer)). do 8 skip.
  apply keep_read; [unfold check_transfer_data; solve_se|exact stranger_start|intros ? _].
  apply keep_then; [|intros t; solve_se]. unit. intros t s' Hu.
  unfold TransferRepository.update in Hu. apply except_integrity_ok, _update_ok in Hu as (t0 & Ht0 & -> & _ & ->).
  apply iso_transfer; [exact Hg|]. exact (Hg t0 Ht0).
Qed.

Lemma iso_delete_transfer_endpoint i : both Q (final (delete_transfer i u) s).
Proof.
  unfold delete_transfer. role (resource_role (R := Transfer)). do 2 skip. unit. intros x s' Hd.
  unfold TransferRepository.delete in Hd. apply bind_ok in Hd as (t & s1 & Hd & Hr). inv_ok.
  apply iso_delete_transfer; [apply Hinv|exact Hg].
Qed.

Lemma iso_copy_transfer i c : both Q (final (copy_transfer i c u) s).
Proof.
  unfold copy_transfer. role (resource_role (R := Transfer)). skip. skip.
  role (group_role_ok (ct_new_group_id c)). skip.
  apply keep_read; [solve_se|exact stranger_start|intros tr Htr]. do 6 skip.
  unfold TransferRepository.read_by_id in Htr. apply except_class_ok, select_one_ok in Htr as [Htr _].
  pose proof (wf_key (R := Transfer) (working s) i tr (proj1 Hinv) Htr) as Hkey. cbn in Hkey, Htr. subst i.
  assert (session_wf s) as Hwf by (split; [rewrite Hclean|]; apply Hinv).
  apply keep_then; [|intros t; solve_se]. apply keep_unit; [unfold copy_transfer_body; solve_se|exact stranger_start|].
  intros t s' Hu. unfold copy_transfer_body in Hu.
  apply bind_ok in Hu as (cs & s1 & Hcs & Hu). apply bind_ok in Hu as (ct & s2 & Hct & Hu).
  assert (isolated g (working s) (working s2)) as Hiso.
  { destruct (iso_copy _ _ _ _ _ _ Hg0 Hcs) as [Hiso1 _].
    destruct (negb _); [|by apply mret_ok in Hct as [_ ->]]. etrans; [exact Hiso1|]. by eapply iso_copy. }
  destruct (copy_connections_ok _ _ _ _ _ _ _ _ Hwf Htr Hcs Hct) as (Hwf2 & _ & Hw2).
  assert (transfers (working s2) = transfers (working s)) as Ht2 by (by rewrite Hw2).
  apply bind_ok in Hu as (t' & s3 & Hcopy & Hu).
  pose proof (transfer_copy_keeps session_wf (transfer_id tr) (ct_new_queue_id c) (Some (ct_new_group_id c))
    (Some (conn_id cs)) (Some (conn_id ct)) (ct_new_name c) s2 Hwf2) as Hwf3.
  unfold final in Hwf3. rewrite Hcopy in Hwf3. cbn in Hwf3.
  apply transfer_copy_ok in Hcopy as (t0 & Ht0 & Hn & Ht & Hw3).
  assert (isolated g (working s) (working s3)) as Hiso3.
  { etrans; [exact Hiso|]. rewrite Hw3. apply iso_transfer; [by rewrite Hn|]. by rewrite Ht. }
  apply bind_ok in Hu as (x & s4 & Hdel & Hu). apply mret_ok in Hu as [-> ->].
  destruct (ct_remove_source c); [|by apply mret_ok in Hdel as [_ ->]].
  unfold TransferRepository.delete in Hdel. apply bind_ok in Hdel as (t4 & s5 & Hdel & Hr). inv_ok.
  etrans; [exact Hiso3|]. apply iso_delete_transfer; [apply Hwf3|]. intros t1.
  rewrite Hw3. cbn. rewrite lookup_insert_ne by congruence. rewrite Ht2. apply Hg.
Qed.

(** a run of a transfer of another group *)
Lemma iso_update_run i f s0 r s1 : isolated g (working s) (working s0) ->
  (forall r0, run_transfer_id (f r0) = run_transfer_id r0) ->
  (forall r0, runs (working s0) !! i = Some r0 -> outside transfer_group_id g (transfers (working s0) !! run_transfer_id r0)) ->
  _update i f s0 = (Ok r, s1) -> isolated g (working s) (working s1).
Proof.
  intros Hiso Hf Ho Hu. apply _update_ok in Hu as (r0 & Hr0 & -> & _ & ->). etrans; [exact Hiso|]. apply iso_run.
  - cbn. rewrite Hf. by apply Ho.
  - intros r1 Hr1. cbn in Hr0, Hr1 |- *. rewrite Hf. congruence.
Qed.

Lemma iso_start_run t : both Q (final (start_run t u) s).
Proof.
  unfold start_run. role (resource_role (R := Transfer)). do 6 skip. apply keep_bind.
  - apply keep_unit; [unfold create_run_body; solve_se|exact stranger_start|].
    intros r s' (dump & tr & Htr & _ & _ & Hr & Hn & _ & Hw & _)%create_run_ok. rewrite Hw.
    apply iso_run; [rewrite Hr; exact Hg|by rewrite Hn].
  - intros r s' Hu. apply unit_of_work_ok in Hu as (s1 & Hu & ->).
    apply create_run_ok in Hu as (dump & tr & Htr & _ & _ & Hr & Hn & _ & Hw & _).
    assert (isolated g (working s) (working s1)) as Hiso.
    { rewrite Hw. apply iso_run; [rewrite Hr; exact Hg|by rewrite Hn]. }
    assert (both Q (commit s1)) as Hs1 by (by split).
    apply keep_then; [|by intros ? ?]. unfold send_run. destruct (send_task _ _ _); [exact Hs1|].
    destruct (isinstance _ _); [|exact Hs1]. apply keep_then; [|by intros ? ?].
    apply keep_unit; [solve_se|exact Hs1|]. intros r1 s2 Hup. unfold RunRepository.update in Hup.
    apply except_integrity_ok in Hup. apply (iso_update_run (run_id r) (RunRepository.set_status FAILED) (commit s1) r1); [exact Hiso|done| |exact Hup].
    cbn. rewrite Hw. cbn. intros r0. rewrite lookup_insert_eq. intros [= <-]. rewrite Hr. exact Hg.
Qed.

Lemma iso_stop_run i : both Q (final (stop_run i u) s).
Proof.
  unfold stop_run. apply keep_read; [apply run_read_by_id_ro|exact stranger_start|]. intros r Hr.
  role (resource_role (R := Transfer)). do 2 skip. apply keep_then; [|by intros ? ?]. unit. intros r1 s' Hs.
  assert (runs (working s) !! i = Some r) as Hi.
  { unfold RunRepository.read_by_id in Hr. apply bind_ok in Hr as (o & s0 & [= <- <-] & Hr). cbn in Hr.
    destruct (runs (working s) !! i); [|done]. by injection Hr as <-. }
  unfold RunRepository.stop in Hs. apply bind_read_ok in Hs as (r2 & _ & Hs); [|apply run_read_by_id_ro].
  apply bind_ok in Hs as (? & s0 & Hw & Hs). apply when_ok in Hw as [_ ->].
  apply (iso_update_run i (RunRepository.set_status SEND_STOP_SIGNAL) s r1); [reflexivity|done| |exact Hs]. intros r0 Hr0. rewrite Hi in Hr0. by injection Hr0 as <-.
Qed.

Lemma dispatch_isolated e : (superuser_only e = true -> is_superuser u = true) -> both Q (final (dispatch e u) s).
Proof.
  intros Hsu. destruct e; cbn [dispatch superuser_only] in *; (apply keep_then; [|by intros ? ?]).
  all: try solve [ apply stranger_reads;
    unfold read_groups, read_group, read_group_users, get_users, read_current_user, read_user,
      read_queues, read_queue, read_connections, read_connection_types, read_connection,
      read_transfers, read_transfer, read_runs, read_run, lift; solve_se ].
  all: try solve [ apply iso_create_group | apply iso_update_group | apply iso_update_user_role | apply iso_add_user
    | apply iso_delete_user | apply iso_create_queue | apply iso_update_queue | apply iso_delete_queue_endpoint
    | apply iso_create_connection | apply iso_update_connection | apply iso_delete_connection_endpoint
    | apply iso_copy_connection | apply iso_create_transfer | apply iso_update_transfer
    | apply iso_delete_transfer_endpoint | apply iso_copy_transfer | apply iso_start_run | apply iso_stop_run ].
  rewrite stranger_no_superuser in Hsu. by specialize (Hsu eq_refl).
Qed.
End Stranger.

(** ** The property *)

(** a sign-in only touches the users *)
Lemma signed_in_isolated g db db' : signed_in db db' -> isolated g db db'.
Proof. intros [|u _ _ _ _]; [reflexivity|by constructor]. Qed.
Lemma signed_in_groups db db' : signed_in db db' -> groups db = groups db'.
Proof. by intros []. Qed.
Lemma signed_in_role db db' u g : signed_in db db' -> group_role db u g = group_role db' u g.
Proof. by intros []. Qed.

Section Property.
Context `{TextSearch} `{Cipher} `{PydanticCore} `{PyLib} `{Broker} `{AuthProviderLaws}.

(** C2 Groups are isolated, under every authentication provider that keeps its laws:
    whatever a request whose caller has no role in the group [g] does, and whether it
    fails or not, the group, its members, its connections, their credentials and its
    queues stay as they are, and no transfer of the group is changed or added.  A transfer of the group can only disappear when a connection or the queue
    it uses is of another group; the runs of those that stay are the same. *)
Theorem groups_isolated (e : Endpoint) (t : option string) (s : Session) (g : Z) : reachable s ->
  is_Some (groups (committed s) !! g) ->
  (forall u, outcome (get_user (superuser_only e) t) s = Ok u -> group_role (committed s) u g = None) ->
  isolated g (committed s) (committed (serve e t s).2).
Proof.
  intros Hr Hg Hrole. pose proof (reachable_session_inv _ Hr) as Hinv. pose proof (reachable_clean _ Hr) as Hcl.
  pose proof (get_user_keeps session_inv (superuser_only e) t s Hinv) as Hk.
  unfold serve, endpoint. rewrite bind_run. unfold outcome in Hrole.
  destruct (get_user (superuser_only e) t s) as [r s1] eqn:Hu. unfold final in Hk. rewrite Hu in Hk. cbn [fst snd] in *.
  destruct (get_user_signs_in _ _ _ _ _ (proj1 (proj2 Hinv)) Hcl Hu) as [(Hs & Hcl1 & _) Hok].
  pose proof (signed_in_isolated g _ _ Hs) as Hiso.
  destruct r as [u|x]; [|exact Hiso]. destruct (request_valid e); [|exact Hiso].
  specialize (Hrole u eq_refl). etrans; [exact Hiso|]. rewrite (signed_in_groups _ _ Hs) in Hg.
  rewrite (signed_in_role _ _ _ _ Hs) in Hrole. rewrite <- Hcl1 in Hrole, Hg |- *.
  assert (both (isolated g (working s1)) (final (dispatch e u) s1)) as Hb
    by (apply dispatch_isolated; try done; [apply Hk|by apply (Hok u)]).
  revert Hb. unfold final. by destruct (dispatch e u s1) as [[v|x] s2]; intros [Hb _].
Qed.
End Property.

(** alice, who has no role in group 2, deletes a transfer of hers *)
Lemma groups_isolated_witness :
  isolated 2 (committed world) (committed (serve (DeleteTransfer 1) (token 1) world).2) /\
  transfers (committed (serve (DeleteTransfer 1) (token 1) world).2) !! 1 = None.
Proof.
  split; [|vm_compute; reflexivity].
  apply (groups_isolated (DeleteTransfer 1) (token 1) world 2 world_reachable).
  - apply (bool_decide_eq_true_1 _). vm_compute. reflexivity.
  - intros u Hu. assert (user_id u = 1 /\ is_superuser u = false) as [Hid Hsu].
    { assert (match outcome (get_user (superuser_only (DeleteTransfer 1)) (token 1)) world with
        | Ok v => (user_id v, is_superuser v)
        | Raise _ => (0, true)
        end = (1, false)) as Hv by (vm_compute; reflexivity).
      rewrite Hu in Hv. exact (conj (f_equal fst Hv) (f_equal snd Hv)). }
    unfold group_role. rewrite Hsu, Hid. vm_compute. reflexivity.
Defined.
