(* ===== verification/SchemaTheorems.v ===== *)
(** * Theorems about pages, error responses and schemas *)

From S2P Require Import Prelude PyData Models Errors Database Integrity Search Repository.
From S2P Require Import Repositories Pydantic ConnectionSchemas TransferSchemas Auth Examples.
From Stdlib Require Import Ascii.

(** ** Pages *)

Section Pages.
Context {A : Type}.

Lemma page_slice_app (rows : list A) (n : nat) (size : Z) : 0 < size ->
  take (Z.to_nat size * S n) rows =
  take (Z.to_nat size * n) rows ++ page_slice rows (Z.of_nat n + 1) size.
Proof.
  intros Hs. unfold page_slice. replace (Z.to_nat ((Z.of_nat n + 1 - 1) * size)) with (Z.to_nat size * n)%nat by lia.
  rewrite take_take_drop. f_equal. lia.
Qed.

Lemma pages_prefix (rows : list A) (size : Z) n : 0 < size ->
  (seqZ 1 (Z.of_nat n) ≫= fun p => page_slice rows p size) = take (Z.to_nat size * n) rows.
Proof.
  intros Hs. induction n as [|n IH]; [by rewrite Nat.mul_0_r|].
  rewrite page_slice_app, <- IH by done. replace (Z.of_nat (S n)) with (Z.of_nat n + 1) by lia.
  rewrite seqZ_app, bind_app by lia. f_equal. rewrite (seqZ_cons _ 1) by lia.
  rewrite (seqZ_nil _ (Z.pred 1)) by lia. cbn. rewrite app_nil_r. f_equal. lia.
Qed.

Lemma ceil_div_bounds a b : 0 <= a -> 0 < b -> (ceil_div a b - 1) * b < a <= ceil_div a b * b \/ (a = 0 /\ ceil_div a b = 0).
Proof.
  intros Ha Hb. unfold ceil_div. pose proof (Z.div_mod (- a) b ltac:(lia)) as Hd.
  pose proof (Z.mod_pos_bound (- a) b Hb) as Hm. nia.
Qed.

(** C38 The pages of a result put together are the result: page after page, up
    to the number of pages each of them reports, no row is lost, repeated or
    moved; every page holds at most the page size, reports the same total, and
    says there is a next page exactly when it is not the last. *)
Theorem pages_partition (rows : list A) (size : Z) : 0 < size ->
  let pages := pg_pages (paginate_list rows 1 size) in
  (seqZ 1 pages ≫= fun p => pg_items (paginate_list rows p size)) = rows /\
  1 <= pages /\
  forall p, 1 <= p <= pages ->
    Z.of_nat (length (pg_items (paginate_list rows p size))) <= size /\
    pg_total (paginate_list rows p size) = Z.of_nat (length rows) /\
    pg_pages (paginate_list rows p size) = pages /\
    pg_has_next (paginate_list rows p size) = bool_decide (p < pages) /\
    pg_has_previous (paginate_list rows p size) = bool_decide (1 < p).
Proof.
  intros Hs. cbv zeta. set (n := Z.of_nat (length rows)).
  pose proof (ceil_div_bounds n size ltac:(lia) Hs) as Hc.
  assert (pg_pages (paginate_list rows 1 size) = Z.max 1 (ceil_div n size)) as Hp.
  { cbn. fold n. destruct (Z.eqb_spec (ceil_div n size) 0); nia. }
  rewrite Hp. set (k := Z.max 1 (ceil_div n size)).
  split_and!; [|lia|].
  - cbn. replace k with (Z.of_nat (Z.to_nat k)) by lia. rewrite pages_prefix by done.
    apply take_ge. nia.
  - intros p Hpk. assert (Z.of_nat (length (page_slice rows p size)) =
      Z.min size (Z.max 0 (n - (p - 1) * size))) as Hlen.
    { unfold page_slice. rewrite length_take, length_drop. fold n. nia. }
    cbn. fold n. rewrite Hlen. split_and!; [lia|done| | |].
    + destruct (Z.eqb_spec (ceil_div n size) 0); lia.
    + apply eq_bool_prop_intro. rewrite bool_decide_spec, Is_true_true, Z.ltb_lt. nia.
    + apply eq_bool_prop_intro. rewrite bool_decide_spec, Is_true_true, Z.ltb_lt. lia.
Qed.
End Pages.

Lemma pages_partition_witness :
  pg_items (paginate_list [1;2;3;4;5] 3 2) = [5] /\
  (seqZ 1 (pg_pages (paginate_list [1;2;3;4;5] 1 2)) ≫= fun p => pg_items (paginate_list [1;2;3;4;5] p 2))
    = [1;2;3;4;5].
Proof. split; [reflexivity|]. apply (pages_partition [1;2;3;4;5] 2). lia. Defined.

(** ** Error responses *)

(** The exception handler answers every exception with the branch of its own
    class: no branch for a base class comes first.  An exception is answered
    with status 500 exactly when it is neither a validation error nor one of the
    classes with a branch. *)
Theorem handler_picks_own_branch (e : exc) :
  (forall br, (class_of e, br) ∈ handler_branches -> isinstance e CSyncmasterError = true ->
     forall debug, handle_exception debug e =
       exception_json_response (br_status br) (default "bad_request" (br_code br))
         (default (message_attr e) (br_message br e)) (br_details br e)) /\
  (forall debug, resp_status (handle_exception debug e) = 500 <->
     class_of e <> CValidationError /\ class_of e ∉ handler_branches.*1).
Proof.
  split.
  - intros br Hin Hs debug. destruct e; cbn [class_of] in Hin; try (vm_compute in Hs; discriminate Hs);
      unfold handler_branches, handler_branches_1, handler_branches_2 in Hin; cbn [app] in Hin;
      repeat (apply elem_of_cons in Hin as [[=]|Hin]; subst); try reflexivity; by apply elem_of_nil in Hin.
  - intros debug. rewrite <- !(bool_decide_eq_true (class_of e ∉ _)). destruct e; vm_compute; naive_solver.
Qed.

(** ** File name templates *)

Section Templates.
Context `{PyLib}.

Lemma scan_field_shorter acc s p rest : scan_field acc s = Next p rest ->
  (String.length rest < String.length s)%nat.
Proof.
  revert acc. induction s as [|c s IH]; intros acc; cbn; [done|].
  destruct (Ascii.eqb c "{"); [done|]. destruct (Ascii.eqb c "}").
  - intros [= <- <-]. lia.
  - intros Hs%IH. lia.
Qed.
Lemma scan_shorter s p rest : scan s = Next p rest -> (String.length rest < String.length s)%nat.
Proof.
  destruct s as [|c s]; cbn [scan]; [done|]. destruct (Ascii.eqb c "{").
  - destruct s as [|c' s]; [done|]. destruct (decide (c' = "{"%char)) as [->|Hc].
    + intros [= <- <-]. cbn. lia.
    + intros Hs. assert (scan_field "" (String c' s) = Next p rest) as Hf.
      { revert Hs. destruct c' as [[] [] [] [] [] [] [] []]; cbn; done. }
      apply scan_field_shorter in Hf. cbn in *. lia.
  - destruct (Ascii.eqb c "}").
    + destruct s as [|c' s]; [done|]. destruct (decide (c' = "}"%char)) as [->|Hc].
      * intros [= <- <-]. cbn. lia.
      * by destruct c' as [[] [] [] [] [] [] [] []].
    + intros [= <- <-]. cbn. lia.
Qed.

(** Formatting terminates: every step consumes a character of the template,
    so more fuel than its length never changes the result. *)
Lemma format_fuel n s kwargs : (String.length s < n)%nat -> format_go n s kwargs = py_format s kwargs.
Proof.
  unfold py_format. assert (forall n m s, (String.length s < n)%nat -> (String.length s < m)%nat ->
    format_go n s kwargs = format_go m s kwargs) as Hfuel; [|intros; apply Hfuel; lia].
  clear n s. induction n as [|n IH]; intros m s Hn Hm; [lia|]. destruct m as [|m]; [lia|].
  cbn [format_go]. destruct (scan s) as [|[c|f] rest|] eqn:Hs; try done;
    apply scan_shorter in Hs; by rewrite (IH m rest) by lia.
Qed.
End Templates.

(** ** Accepted bodies *)

Section Bodies.
Context `{PydanticCore} `{PyLib}.

Lemma transfer_fields_nodup a b : NoDup (field_name <$> transfer_fields a b).
Proof. apply (bool_decide_eq_true_1 _). vm_compute. reflexivity. Qed.

(** a field of a validated body: [n] fields come before it *)
Lemma transfer_field input d n f :
  validate_fields validate input CreateTransferSchema [] None = Ok d ->
  CreateTransferSchema !! n = Some f ->
  exists data v, validate_field validate input data f = Ok v /\ dict_get (field_name f) d = Some v /\
    dict_keys data = take n (field_name <$> CreateTransferSchema) /\
    (forall k w, dict_get k data = Some w -> dict_get k d = Some w).
Proof.
  intros Hd Hf. rewrite <- (take_drop_middle _ _ _ Hf) in Hd.
  apply validate_fields_get in Hd as (data & v & Hv & Hget & Hk & Hm).
  - exists data, v. split_and!; [done..| |done]. rewrite Hk, <- fmap_take. done.
  - rewrite take_drop_middle by done. apply transfer_fields_nodup.
Qed.

Lemma body_name input d : validate_fields validate input CreateTransferSchema [] None = Ok d ->
  (3 <= String.length (str_of (dict_get "name" d)) <= 128)%nat.
Proof.
  intros Hd. destruct (transfer_field _ _ 4 _ Hd eq_refl) as (data & v & Hv & Hget & _). clear Hd.
  cbn [field_name req NameConstr] in Hget. rewrite Hget. cbn [validate_field req] in Hv.
  destruct (field_input "name" None input) as [x|]; [|done].
  destruct x as [| | |s| |]; try done. cbn [validate NameConstr with_str] in Hv.
  destruct (andb _ _) eqn:Hlen; [|done]. injection Hv as <-. cbn [str_of].
  apply andb_true_iff in Hlen as [?%Nat.leb_le ?%Nat.leb_le]. lia.
Qed.

(** the value [validate_scheduling] leaves *)
Lemma validate_scheduling_ok data x v : validate_scheduling data x = Ok v ->
  (forall b, dict_get "is_scheduled" data = Some (JBool b) -> b = true -> json_truthy x = true) /\
  v = (if json_truthy x then x else JNull).
Proof.
  unfold validate_scheduling. intros Hv. destruct (json_truthy x) eqn:Hx; cbn in Hv.
  - injection Hv as <-. by split.
  - destruct (match dict_get "is_scheduled" data with Some y => json_truthy y | None => false end) eqn:Hs; [done|].
    injection Hv as <-. split; [|done]. intros b Hb ->. by rewrite Hb in Hs.
Qed.

Lemma body_schedule input d : validate_fields validate input CreateTransferSchema [] None = Ok d ->
  bool_of (dict_get "is_scheduled" d) = true ->
  exists s, opt_str_of (dict_get "schedule" d) = Some s /\ s <> "".
Proof.
  intros Hd Hsch. destruct (transfer_field _ _ 12 _ Hd eq_refl) as (data & v & Hv & Hget & Hk & Hm). clear Hd.
  cbn [field_name] in Hget. rewrite Hget.
  assert (exists x, validate_scheduling data x = Ok v /\ (x = JNull \/ exists s, x = JStr s)) as (x & Hx & Hkind).
  { cbn [validate_field] in Hv. destruct (field_input "schedule" None input) as [y|].
    - destruct (validate (FOpt FStr) y) as [z|] eqn:Hz; [|done]. exists z. split; [done|].
      destruct y as [| | |s| |]; try done; injection Hz as <-; [by left|right; by exists s].
    - exists JNull. split; [exact Hv|by left]. }
  apply validate_scheduling_ok in Hx as [Hx ->].
  assert (dict_get "is_scheduled" data = Some (JBool true)) as Hdata.
  { destruct (dict_get "is_scheduled" data) as [y|] eqn:Hy.
    - pose proof (Hm _ _ Hy) as Hd'. rewrite Hd' in Hsch. by destruct y as [|[]| | | |].
    - apply dict_get_None in Hy. rewrite Hk in Hy. destruct Hy. cbn. set_solver. }
  specialize (Hx _ Hdata eq_refl). rewrite Hx.
  destruct Hkind as [->|[s ->]]; [done|]. exists s. split; [done|]. intros ->. done.
Qed.

Lemma validate_strategy_ok data x v : validate_strategy data x = Ok v ->
  v = x /\ (str_of (dict_get "type" (obj_of (Some x))) = "incremental" -> exists src,
    dict_get "source_params" data = Some src /\
    let source := str_of (dict_get "type" (obj_of (Some src))) in
    source <> "s3" /\ source <> "hdfs" /\
    (source ∈ FILE_CONNECTION_TYPES ->
       str_of (dict_get "increment_by" (obj_of (Some x))) ∈ ["file_modified_since"; "file_name"])).
Proof.
  unfold validate_strategy. intros Hv. destruct (String.eqb_spec (str_of (dict_get "type" (obj_of (Some x)))) "incremental").
  - destruct (dict_get "source_params" data) as [src|]; [|done]. cbn [or_raise mbind result_bind] in Hv.
    destruct (bool_decide_reflect (str_of (dict_get "type" (obj_of (Some src))) ∈ ["s3"; "hdfs"])) as [|Hno]; [done|].
    destruct (bool_decide_reflect (str_of (dict_get "type" (obj_of (Some src))) ∈ FILE_CONNECTION_TYPES)) as [Hf|Hf];
      [destruct (bool_decide_reflect (str_of (dict_get "increment_by" (obj_of (Some x))) ∈ ["file_modified_since"; "file_name"])); [|done]|];
      (injection Hv as <-; split; [done|]; intros _; exists src; split_and!; [done|set_solver..]).
  - injection Hv as <-. by split.
Qed.

Lemma body_strategy input d : validate_fields validate input CreateTransferSchema [] None = Ok d ->
  let strategy := obj_of (dict_get "strategy_params" d) in
  let source := str_of (dict_get "type" (obj_of (dict_get "source_params" d))) in
  str_of (dict_get "type" strategy) = "incremental" ->
  source <> "s3" /\ source <> "hdfs" /\
  (source ∈ FILE_CONNECTION_TYPES ->
     str_of (dict_get "increment_by" strategy) ∈ ["file_modified_since"; "file_name"]).
Proof.
  intros Hd. destruct (transfer_field _ _ 8 _ Hd eq_refl) as (data & v & Hv & Hget & Hk & Hm). clear Hd.
  cbn [field_name] in Hget. rewrite Hget. cbv zeta. intros Hinc.
  cbn [validate_field] in Hv. destruct (field_input "strategy_params" None input) as [y|].
  - destruct (validate (FUnion Strategy) y) as [z|]; [|done]. cbn [mbind result_bind] in Hv.
    apply validate_strategy_ok in Hv as [-> Hs]. destruct (Hs Hinc) as (src & Hsrc & Hrest).
    by rewrite (Hm _ _ Hsrc).
  - injection Hv as <-. discriminate Hinc.
Qed.

(** A transfer body the server accepts can be run: an incremental strategy
    has a source that supports it and a column (for files, the modification
    time or the name), a scheduled transfer has a schedule, the name has 3 to
    128 characters. *)
Theorem accepted_transfer j b : parse_create_transfer j = Ok b ->
  (3 <= String.length (tb_name b) <= 128)%nat /\
  (tb_is_scheduled b = true -> exists s, tb_schedule b = Some s /\ s <> "") /\
  (str_of (dict_get "type" (tb_strategy_params b)) = "incremental" ->
     let source := str_of (dict_get "type" (tb_source_params b)) in
     source <> "s3" /\ source <> "hdfs" /\
     (source ∈ FILE_CONNECTION_TYPES ->
        str_of (dict_get "increment_by" (tb_strategy_params b)) ∈ ["file_modified_since"; "file_name"])).
Proof.
  unfold parse_create_transfer. intros Hp. destruct (model_validate _ _ j) as [d|] eqn:Hd; [|done].
  injection Hp as <-. destruct j as [| | | | |input]; try done. cbn [model_validate] in Hd.
  split; [|split]; [by eapply body_name|by eapply body_schedule|by eapply body_strategy].
Qed.
End Bodies.

Definition incremental_input : json := JObj
  [("group_id", JInt 1); ("queue_id", JInt 1); ("source_connection_id", JInt 1);
   ("target_connection_id", JInt 2); ("name", JStr "nightly");
   ("source_params", JObj [("type", JStr "ftp"); ("directory_path", JStr "/data");
                           ("file_format", JObj [("type", JStr "csv")])]);
   ("target_params", JObj (pg_params "s.u"));
   ("strategy_params", JObj [("type", JStr "incremental"); ("increment_by", JStr "file_name")]);
   ("is_scheduled", JBool true); ("schedule", JStr "0 0 * * *")].
Definition incremental_body : TransferBody :=
  match parse_create_transfer incremental_input with
  | Ok b => b
  | Raise _ => pg_transfer 0 0 0 0 "" None
  end.
Lemma accepted_transfer_witness :
  tb_name incremental_body = "nightly" /\
  str_of (dict_get "increment_by" (tb_strategy_params incremental_body)) ∈ ["file_modified_since"; "file_name"].
Proof.
  split; [vm_compute; reflexivity|].
  refine (proj2 (proj2 (proj2 (proj2 (accepted_transfer incremental_input incremental_body _)) _)) _).
  - vm_compute. reflexivity.
  - vm_compute. reflexivity.
  - apply (bool_decide_eq_true_1 _). vm_compute. reflexivity.
Defined.
