(* ===== verification/AuthTheorems.v ===== *)
(** * Theorems about authentication *)

From S2P Require Import Prelude PyData Models Errors Database Integrity Search Repository.
From S2P Require Import Repositories RepositoryFacts Auth ApiGroups Server ServerFacts Deletion.
From S2P Require Import Membership Examples GroupTheorems.

(** PyJWT compares the time with [int(exp)], the whole seconds of the claim *)
Definition whole_seconds `{Jwt} (exp : Z) : Z := exp / second * second.
(** a token holds its claims until then *)
Class JwtLaws `{Jwt} := {
  second_pos : 0 < second;
  decode_encode_jwt : forall d t e, dict_get "exp" d = Some (JInt e) -> t < whole_seconds e ->
    jwt_decode t (jwt_encode d) = Some d;
  decode_expired : forall d t e, dict_get "exp" d = Some (JInt e) -> whole_seconds e <= t ->
    jwt_decode t (jwt_encode d) = None;
  encode_nonempty : forall d, jwt_encode d <> "";
}.

Section Tokens.
Context `{JwtLaws}.

Lemma whole_seconds_near e : e - second < whole_seconds e <= e.
Proof.
  unfold whole_seconds. pose proof second_pos as Hs. rewrite (Z.mul_comm _ second).
  pose proof (Z.mod_pos_bound e second Hs). rewrite Z.mod_eq in * by lia. lia.
Qed.

Lemma current_user_run tok uid e t s : jwt_encode [("user_id", JInt uid); ("exp", JInt e)] = tok ->
  t = clock s ->
  outcome (DummyAuthProvider.get_current_user (Some tok)) s =
  if t <? whole_seconds e then match users (working s) !! uid with
                 | Some u => Ok u
                 | None => Raise UserNotFoundError
                 end
  else Raise (AuthorizationError "Invalid token").
Proof.
  intros <- ->. unfold DummyAuthProvider.get_current_user.
  destruct (String.eqb_spec (jwt_encode [("user_id", JInt uid); ("exp", JInt e)]) "") as [Hn|_];
    [by apply encode_nonempty in Hn|].
  unfold outcome. rewrite bind_run. unfold reads, DummyAuthProvider._get_user_id_from_token, DummyAuthProvider.decode_jwt.
  destruct (Z.ltb_spec (clock s) (whole_seconds e)).
  - rewrite (decode_encode_jwt _ _ e) by done. cbn [or_raise mbind result_bind dict_mem dict_get String.eqb Ascii.eqb Bool.eqb DummyAuthProvider.py_int].
    unfold UserRepository.read_by_id, except_class, catch, _read_by_id. rewrite bind_run. cbn.
    by destruct (users (working s) !! uid).
  - by rewrite (decode_expired _ _ e).
Qed.

(** C35 Logging in gives a token of the one user with that name, who is active;
    until it expires, in whole seconds and so less than a second before the time the
    answer names, the token authenticates that user, as they are stored at the time of
    the request, and afterwards nobody. *)
Theorem token_roundtrip l p s tok e s1 : db_wf (working s) ->
  DummyAuthProvider.get_token_password_grant (Some l) (Some p) s = (Ok (tok, e), s1) ->
  exists u, username u = l /\ is_active u = true /\ users (committed s1) !! user_id u = Some u /\
    e = clock s + expire_seconds * second /\ e - second < whole_seconds e <= e /\
    forall s2, outcome (DummyAuthProvider.get_current_user (Some tok)) s2 =
      if clock s2 <? whole_seconds e then match users (working s2) !! user_id u with
                            | Some u' => Ok u'
                            | None => Raise UserNotFoundError
                            end
      else Raise (AuthorizationError "Invalid token").
Proof.
  intros Hwf Hg. unfold DummyAuthProvider.get_token_password_grant in Hg.
  destruct (is_empty (Some l) || is_empty (Some p)); [done|].
  apply bind_ok in Hg as (u & s2 & Hu & Hg).
  apply get_or_create_ok in Hu as (Hclk & Hn & Hu & _); [|done].
  destruct (is_active u) eqn:Ha; cbn [negb] in Hg; [|done].
  apply bind_ok in Hg as (t & s3 & Ht & Hg). apply gets_ok in Ht as [-> ->].
  unfold DummyAuthProvider._generate_access_token in Hg. apply mret_ok in Hg as [Hte ->].
  injection Hte as -> ->. rewrite Hclk. exists u. destruct (whole_seconds_near (clock s + expire_seconds * second)). split_and!; try done.
  intros s2'. by apply current_user_run.
Qed.
End Tokens.

(** tokens that spell out their claims *)
Definition json_jwt : Jwt := {|
  jwt_encode d := String Ascii.zero (bits (encode (JObj d)));
  jwt_decode t s :=
    match s with
    | String _ s =>
        match decode (unbits s) with
        | Some (JObj d) =>
            match dict_get "exp" d with
            | Some (JInt e) => if t <? e / 1000 * 1000 then Some d else None
            | Some _ => None
            | None => Some d
            end
        | _ => None
        end
    | EmptyString => None
    end;
  expire_seconds := 36000;
  second := 1000;
|}.
#[local] Existing Instance json_jwt | 0.

Lemma json_jwt_laws : @JwtLaws json_jwt.
Proof.
  constructor; unfold whole_seconds; cbn -[Z.div Z.mul]; [done|intros d t e He Ht|intros d t e He Ht|done];
    rewrite unbits_bits, decode_encode, He; by destruct (Z.ltb_spec t (e / 1000 * 1000)); (done || lia).
Qed.

(** carol logs in, and is known by her token until it expires *)
Definition carol_login : result exc (string * Z) * Session :=
  DummyAuthProvider.get_token_password_grant (Some "carol") (Some "p") world.
Lemma token_roundtrip_witness :
  match carol_login with
  | (Ok (tok, e), _) =>
      exists u, username u = "carol" /\
        outcome (DummyAuthProvider.get_current_user (Some tok)) world =
          match users (working world) !! user_id u with Some u' => Ok u' | None => Raise UserNotFoundError end
  | _ => False
  end.
Proof.
  destruct carol_login as [[[tok e]|x] s1] eqn:Hl; [|revert Hl; vm_compute; discriminate].
  destruct (@token_roundtrip json_jwt json_jwt_laws "carol" "p" world tok e s1 (proj2 world_wf) Hl)
    as (u & Hn & _ & _ & He & _ & Hu).
  exists u. split; [exact Hn|]. rewrite Hu, He.
  by replace (clock world <? whole_seconds (clock world + expire_seconds * second)) with true.
Defined.
