(* ===== verification/Application.v ===== *)
(** * The application ([server/__init__.py], [server/middlewares], [AuthProvider.setup])

    What the factory does with the settings: the calls it makes on the FastAPI object,
    in order, and the attributes it writes.  The pages of the documentation read these
    attributes back, and the schema is cached in one.  FastAPI's [get_openapi] and other
    providers than those of the repository are parameters. *)

From S2P Require Import Prelude PyData Models Errors Pydantic Search PyText Settings.
From Stdlib Require Import Ascii.

(** ** The object *)

(** classes [exception_handler] is called with; those of FastAPI are no [cls] *)
Inductive Handled := RequestValidationError | HTTPException | Class_ (c : cls).
#[export] Instance Handled_eq_dec : EqDecision Handled.
Proof. solve_decision. Defined.

(** functions registered for paths and for exceptions *)
Inductive PageHandler := CustomOpenapi | CustomSwaggerUiHtml | CustomSwaggerUiRedirect | CustomRedocHtml.
Inductive ErrorHandler := OnError (f : bool -> exc -> Response) | OnHTTPException.

Inductive AppCall :=
| IncludeRouter (name : string)
| SetExceptionHandler (c : Handled) (handler : ErrorHandler)
| AddMiddleware (cls : string) (kwargs : dict)
| AddRoute (path : string) (handler : PageHandler)
| Mount (path : string) (directory : json) (name : string).

Record FastAPI := mkFastAPI {
  title : string;
  version : string;
  debug : bool;
  openapi_url : option string;
  docs_url : option string;
  redoc_url : option string;
  swagger_ui_oauth2_redirect_url : option string;
  servers : list dict;
  root_path_in_servers : bool;
  openapi_schema : option dict;
  openapi : option json;                (* the settings of the [partial] in [app.openapi] *)
  state_settings : dict;
  state_celery : option Celery;
  state_session_factory : option EngineArgs;
  auth_provider : option (string * dict);     (* its class and its settings *)
  app_calls : list AppCall;
}.

Definition with_urls (openapi_url docs_url redoc_url redirect_url : option string) (a : FastAPI) : FastAPI :=
  mkFastAPI (title a) (version a) (debug a) openapi_url docs_url redoc_url redirect_url (servers a)
    (root_path_in_servers a) (openapi_schema a) (openapi a) (state_settings a) (state_celery a)
    (state_session_factory a) (auth_provider a) (app_calls a).
Definition with_schema (servers : list dict) (schema : option dict) (openapi : option json) (a : FastAPI) : FastAPI :=
  mkFastAPI (title a) (version a) (debug a) (openapi_url a) (docs_url a) (redoc_url a)
    (swagger_ui_oauth2_redirect_url a) servers (root_path_in_servers a) schema openapi (state_settings a)
    (state_celery a) (state_session_factory a) (auth_provider a) (app_calls a).
Definition with_state (settings : dict) (celery : option Celery) (factory : option EngineArgs)
    (provider : option (string * dict)) (a : FastAPI) : FastAPI :=
  mkFastAPI (title a) (version a) (debug a) (openapi_url a) (docs_url a) (redoc_url a)
    (swagger_ui_oauth2_redirect_url a) (servers a) (root_path_in_servers a) (openapi_schema a) (openapi a)
    settings celery factory provider (app_calls a).
Definition with_call (c : AppCall) (a : FastAPI) : FastAPI :=
  mkFastAPI (title a) (version a) (debug a) (openapi_url a) (docs_url a) (redoc_url a)
    (swagger_ui_oauth2_redirect_url a) (servers a) (root_path_in_servers a) (openapi_schema a) (openapi a)
    (state_settings a) (state_celery a) (state_session_factory a) (auth_provider a) (app_calls a ++ [c]).

Abbreviation App := (SE FastAPI exc).
Definition modify (f : FastAPI -> FastAPI) : App unit := fun a => (Ok tt, f a).
Definition on_app (c : AppCall) : App unit := modify (with_call c).

(** [settings.a.b] *)
Definition attr (path : list string) (settings : json) : result exc json :=
  or_raise (setting path settings) AttributeError.
Definition flag (path : list string) (settings : json) : result exc bool := json_truthy <$> attr path settings.
Definition text (path : list string) (settings : json) : result exc string :=
  v ← attr path settings; match v with JStr s => Ok s | _ => Raise AttributeError end.
(** [str(x)] of a text or [None] *)
Definition str_of_opt (v : json) : string := match v with JStr s => s | _ => "None" end.
(** [settings.model_dump(exclude=names)] *)
Definition model_dump (exclude : list string) (settings : json) : dict :=
  match settings with JObj d => filter (fun kv => kv.1 ∉ exclude) d | _ => [] end.
(** a pydantic model has no [__bool__] and no [__len__]: it is true *)
Definition model_truthy (settings : json) : bool := true.

(** [s.rstrip("/")] *)
Definition rstrip_slash (s : string) : string := rstrip (is_char (ascii_of_nat 47)) s.

Definition lift_result {A} (r : result exc A) : App A := reads (fun _ => r).

(** ** [server/middlewares] *)

Definition apply_cors_middleware (settings : json) : App unit :=
  if negb (model_truthy settings) then mret tt
  else on_app (AddMiddleware "CORSMiddleware" (model_dump ["enabled"] settings)).

(** [server/utils/slug.py] *)
Definition slugify (text : string) : string := str_replace " " "-" (str_strip (str_lower text)).

Definition DEFAULT_SKIP_PATHS : list string :=
  ["/monitoring/metrics"; "/monitoring/ping"; "/static"; "/docs"; "/redoc"; "/openapi.json"; "/favicon.ico"].
Definition string_leb (s t : string) : bool := match String.compare s t with Gt => false | _ => true end.
(** [sorted] of a set of texts *)
Definition insert_text (s : string) : list string -> list string :=
  fix go l := match l with [] => [s] | t :: l' => if string_leb s t then s :: l else t :: go l' end.
Definition sorted (l : list string) : list string := foldr insert_text [] l.
Definition texts_of (v : json) : list string :=
  match v with JList l => omap (fun j => match j with JStr s => Some s | _ => None end) l | _ => [] end.
Definition apply_monitoring_metrics_middleware (settings : json) : App unit :=
  enabled ← lift_result (flag ["enabled"] settings);
  if negb enabled then mret tt
  else
    custom ← lift_result (attr ["skip_paths"] settings);
    labels ← lift_result (attr ["labels"] settings);
    app ← gets (fun a => a);
    let skip_paths := DEFAULT_SKIP_PATHS ++ filter (fun p => p ∉ DEFAULT_SKIP_PATHS) (texts_of custom) in
    let labels := dict_setdefault "version" (JStr (version app)) (model_dump [] labels) in
    _ ← on_app (AddMiddleware "PrometheusMiddleware"
      ([("app_name", JStr (slugify (title app))); ("skip_paths", JList (JStr <$> sorted skip_paths));
        ("labels", JObj labels)] ++ model_dump ["enabled"; "skip_paths"; "labels"] settings));
    on_app (IncludeRouter "monitoring").

(** a function among the arguments is its text *)
Definition apply_request_id_middleware (settings : json) : App unit :=
  enabled ← lift_result (flag ["enabled"] settings);
  if negb enabled then mret tt
  else on_app (AddMiddleware "CorrelationIdMiddleware"
    ([("generator", JStr "lambda: uuid8().hex"); ("validator", JNull)] ++ model_dump ["enabled"] settings)).

Definition apply_openapi_middleware (settings : json) : App unit :=
  enabled ← lift_result (flag ["enabled"] settings);
  _ ← (if enabled : bool then
         _ ← modify (fun a => with_urls (Some "/openapi.json") (docs_url a) (redoc_url a)
                                (swagger_ui_oauth2_redirect_url a) a);
         on_app (AddRoute "/openapi.json" CustomOpenapi)
       else mret tt);
  swagger ← lift_result (flag ["swagger"; "enabled"] settings);
  _ ← (if swagger : bool then
         _ ← modify (fun a => with_urls (openapi_url a) (Some "/docs") (redoc_url a) (Some "/docs/oauth2-redirect") a);
         _ ← on_app (AddRoute "/docs" CustomSwaggerUiHtml);
         on_app (AddRoute "/docs/oauth2-redirect" CustomSwaggerUiRedirect)
       else mret tt);
  redoc ← lift_result (flag ["redoc"; "enabled"] settings);
  _ ← (if redoc : bool then
         _ ← modify (fun a => with_urls (openapi_url a) (docs_url a) (Some "/redoc")
                                (swagger_ui_oauth2_redirect_url a) a);
         on_app (AddRoute "/redoc" CustomRedocHtml)
       else mret tt);
  modify (fun a => with_schema (servers a) (openapi_schema a) (Some settings) a).

Definition apply_static_files (settings : json) : App unit :=
  enabled ← lift_result (flag ["enabled"] settings);
  if negb enabled then mret tt
  else
    directory ← lift_result (attr ["directory"] settings);
    on_app (Mount "/static" directory "static").

Definition apply_middlewares (settings : dict) : App unit :=
  let server name := lift_result (attr ["server"; name] (JObj settings)) in
  cors ← server "cors"; _ ← apply_cors_middleware cors;
  monitoring ← server "monitoring"; _ ← apply_monitoring_metrics_middleware monitoring;
  request_id ← server "request_id"; _ ← apply_request_id_middleware request_id;
  openapi ← server "openapi"; _ ← apply_openapi_middleware openapi;
  static_files ← server "static_files"; apply_static_files static_files.

(** ** [AuthProvider.setup] *)

(** the setup of a provider the repository does not have *)
Class OtherProvider := { other_setup : string -> App unit }.

Section Factory.
Context `{PydanticCore} `{SettingsCore} `{OtherProvider}.

(** [AuthProviderSettings.model_validate(app.state.settings.auth.model_dump(exclude={"provider"}))] *)
Definition provider_settings (fs : list Field) : App dict :=
  app ← gets (fun a => a);
  auth ← lift_result (attr ["auth"] (JObj (state_settings app)));
  reads (fun _ => model_validate validate fs (JObj (model_dump ["provider"] auth))).
Definition set_auth_provider (cls : string) (settings : dict) : App unit :=
  modify (fun a => with_state (state_settings a) (state_celery a) (state_session_factory a) (Some (cls, settings)) a).

Definition DummyAuthProvider_setup : App unit :=
  settings ← provider_settings DummyAuthProviderSettings; set_auth_provider "DummyAuthProvider" settings.
(** the arguments of [KeycloakOpenID] in the constructors of two providers *)
Definition keycloak_openid (settings : dict) : result exc dict :=
  let keycloak k := attr ["keycloak"; k] (JObj settings) in
  api_url ← text ["keycloak"; "api_url"] (JObj settings);
  client_id ← keycloak "client_id";
  realm_name ← keycloak "realm_name";
  client_secret ← keycloak "client_secret";
  verify_ssl ← keycloak "verify_ssl";
  Ok [("server_url", JStr (rstrip_slash api_url +:+ "/")); ("client_id", client_id); ("realm_name", realm_name);
      ("client_secret_key", client_secret); ("verify", verify_ssl)].
Definition OAuth2GatewayProvider_setup : App unit :=
  settings ← provider_settings OAuth2GatewayProviderSettings;
  _ ← lift_result (keycloak_openid settings);
  set_auth_provider "OAuth2GatewayProvider" settings.
(** the arguments of [SessionMiddleware]: argument, setting of the cookie *)
Definition session_arguments : list (string * string) :=
  [("secret_key", "secret_key"); ("session_cookie", "name"); ("max_age", "max_age"); ("path", "path");
   ("same_site", "same_site"); ("https_only", "https_only"); ("domain", "domain")].
Definition KeycloakAuthProvider_setup : App unit :=
  settings ← provider_settings KeycloakAuthProviderSettings;
  _ ← lift_result (keycloak_openid settings);
  _ ← set_auth_provider "KeycloakAuthProvider" settings;
  kwargs ← lift_result (mapM (fun a => v ← attr ["cookie"; a.2] (JObj settings); Ok (a.1, v)) session_arguments);
  on_app (AddMiddleware "SessionMiddleware" kwargs).

Definition auth_class_setup (provider : string) : App unit :=
  if String.eqb provider "syncmaster.server.providers.auth.dummy_provider.DummyAuthProvider"
  then DummyAuthProvider_setup
  else if String.eqb provider "syncmaster.server.providers.auth.keycloak_provider.KeycloakAuthProvider"
  then KeycloakAuthProvider_setup
  else if String.eqb provider "syncmaster.server.providers.auth.oauth2_gateway_provider.OAuth2GatewayProvider"
  then OAuth2GatewayProvider_setup
  else other_setup provider.

(** ** [application_factory] *)

(** a new [FastAPI(title=..., version=..., debug=..., openapi_url=None, ...)] *)
Definition new_app (version : string) (debug : bool) (settings : dict) : FastAPI :=
  mkFastAPI "SyncMaster" version debug None None None (Some "/docs/oauth2-redirect") [] true None None
    settings None None None [].
Definition exception_handlers : list (Handled * ErrorHandler) :=
  [(RequestValidationError, OnError validation_exception_handler);
   (Class_ CValidationError, OnError validation_exception_handler);
   (Class_ CSyncmasterError, OnError syncmaster_exception_handler);
   (HTTPException, OnHTTPException);
   (Class_ CException, OnError unknown_exception_handler)].
Fixpoint register_handlers (l : list (Handled * ErrorHandler)) : App unit :=
  match l with
  | [] => mret tt
  | (c, h) :: l' => _ ← on_app (SetExceptionHandler c h); register_handlers l'
  end.
Definition factory_body (settings : dict) : App unit :=
  celery ← lift_result (server_celery_factory settings);
  _ ← modify (fun a => with_state settings (Some celery) (state_session_factory a) (auth_provider a) a);
  factory ← lift_result (create_session_factory settings);
  _ ← modify (fun a => with_state settings (state_celery a) (Some factory) (auth_provider a) a);
  _ ← on_app (IncludeRouter "api_router");
  _ ← register_handlers exception_handlers;
  provider ← lift_result (text ["auth"; "provider"] (JObj settings));
  _ ← auth_class_setup provider;
  apply_middlewares settings.
Definition application_factory (version : string) (settings : dict) : result exc FastAPI :=
  debug ← flag ["server"; "debug"] (JObj settings);
  match factory_body settings (new_app version debug settings) with
  | (Ok _, app) => Ok app
  | (Raise e, _) => Raise e
  end.
(** [get_application], without the logging of the process *)
Definition get_application `{SettingsIO} (version : string) : result exc FastAPI :=
  settings ← load_settings ServerAppSettings; application_factory version settings.
End Factory.

(** [server/__main__.py]: the program name and the arguments of uvicorn; [argv] is [sys.argv] *)
Definition main (here : string) (prog_name : option string) (args : option (list string)) (argv : list string)
    : result exc (string * list string) :=
  name_args ← match args with
              | Some l => Ok (prog_name, l)
              | None => match argv with name :: rest => Ok (Some name, rest) | [] => Raise IndexError end
              end;
  let prog_name := match name_args.1 with Some n => if String.eqb n "" then here else n | None => here end in
  Ok (prog_name, "--factory" :: "syncmaster.server:get_application" :: name_args.2).

(** [server/api/monitoring.py]: the constant reply of [/monitoring/ping] *)
Definition ping : dict := [("status", JStr "ok")].

(** the handler of an exception: the one of the first class of its [mro] that has one.  The
    handler of [Exception] itself belongs to Starlette's [ServerErrorMiddleware], which in
    debug mode answers with the text of the traceback instead. *)
Definition registered (calls : list AppCall) (c : Handled) : option ErrorHandler :=
  foldl (fun acc call => match call with
                         | SetExceptionHandler c' h => if decide (c' = c) then Some h else acc
                         | _ => acc
                         end) None calls.
Fixpoint first_registered (calls : list AppCall) (classes : list cls) : option ErrorHandler :=
  match classes with
  | [] => None
  | c :: rest =>
      match registered calls (Class_ c) with Some h => Some h | None => first_registered calls rest end
  end.
Inductive ErrorAnswer := ErrorResponse (r : Response) | DebugTraceback (e : exc).
Definition answer_error (app : FastAPI) (e : exc) : option ErrorAnswer :=
  match first_registered (app_calls app) (filter (fun c => c <> CException) (mro (class_of e))) with
  | Some (OnError f) => Some (ErrorResponse (f (debug app) e))
  | Some OnHTTPException => None
  | None =>
      if debug app then Some (DebugTraceback e)
      else match registered (app_calls app) (Class_ CException) with
           | Some (OnError f) => Some (ErrorResponse (f false e))
           | _ => None
           end
  end.

(** ** The pages of the documentation ([middlewares/openapi.py]) *)

(** [fastapi.openapi.utils.get_openapi] of the attributes of the application *)
Class OpenAPICore := { get_openapi : FastAPI -> dict }.

(** what a page is made of: the arguments of FastAPI's function *)
Inductive Page :=
| SwaggerUiHtml (kwargs : dict) | SwaggerUiOauth2RedirectHtml | RedocHtml (kwargs : dict) | JSONResponse (content : dict).

(** [a + b] with [None] *)
Definition add_text (a : string) (b : option string) : result exc string :=
  match b with Some s => Ok (a +:+ s) | None => Raise TypeError end.

Section Pages.
Context `{OpenAPICore}.

Definition x_logo (settings : json) : result exc json :=
  url ← attr ["logo"; "url"] settings;
  alt_text ← attr ["logo"; "alt_text"] settings;
  background_color ← attr ["logo"; "background_color"] settings;
  href ← attr ["logo"; "href"] settings;
  Ok (JObj [("url", JStr (str_of_opt url)); ("altText", JStr (str_of_opt alt_text));
            ("backgroundColor", JStr ("#" +:+ str_of_opt background_color)); ("href", JStr (str_of_opt href))]).
(** an empty schema is no schema *)
Definition cached (schema : option dict) : option dict := match schema with Some [] => None | o => o end.
Definition custom_openapi_schema (settings : json) : App dict :=
  app ← gets (fun a => a);
  match cached (openapi_schema app) with
  | Some schema => mret schema
  | None =>
      let schema := get_openapi app in
      info ← lift_result (or_raise (dict_get "info" schema) (KeyError "info"));
      logo ← lift_result (x_logo settings);
      match info with
      | JObj i =>
          let schema := dict_set "info" (JObj (dict_set "x-logo" logo i)) schema in
          _ ← modify (fun a => with_schema (servers a) (Some schema) (openapi a) a);
          mret schema
      | _ => raise TypeError
      end
  end.

(** the URLs of the servers, without [None] and the empty text *)
Definition server_urls (l : list dict) : list string :=
  omap (fun d => match dict_get "url" d with Some (JStr s) => if String.eqb s "" then None else Some s | _ => None end) l.
Definition custom_openapi (root_path : string) : App Page :=
  let root_path := rstrip_slash root_path in
  app ← gets (fun a => a);
  _ ← (if negb (String.eqb root_path "") && root_path_in_servers app
          && bool_decide (root_path ∉ server_urls (servers app))
       then modify (fun a => with_schema ([("url", JStr root_path)] :: servers a) (openapi_schema a) (openapi a) a)
       else mret tt);
  schema ← match openapi app with
           | Some settings => custom_openapi_schema settings
           | None => raise AttributeError
           end;
  mret (JSONResponse schema).

Definition openapi_settings (app : FastAPI) : result exc json :=
  attr ["server"; "openapi"] (JObj (state_settings app)).
Definition custom_swagger_ui_html (root_path : string) : App Page :=
  app ← gets (fun a => a);
  settings ← lift_result (openapi_settings app);
  openapi_url ← lift_result (add_text (rstrip_slash root_path) (openapi_url app));
  js_url ← lift_result (attr ["swagger"; "js_url"] settings);
  css_url ← lift_result (attr ["swagger"; "css_url"] settings);
  favicon ← lift_result (attr ["favicon"; "url"] settings);
  mret (SwaggerUiHtml
    [("openapi_url", JStr openapi_url); ("title", JStr (title app +:+ " - Swagger UI"));
     ("oauth2_redirect_url", match swagger_ui_oauth2_redirect_url app with Some s => JStr s | None => JNull end);
     ("swagger_js_url", JStr (str_of_opt js_url)); ("swagger_css_url", JStr (str_of_opt css_url));
     ("swagger_favicon_url", JStr (str_of_opt favicon))]).
Definition custom_swagger_ui_redirect : App Page := mret SwaggerUiOauth2RedirectHtml.
Definition custom_redoc_html (root_path : string) : App Page :=
  app ← gets (fun a => a);
  settings ← lift_result (openapi_settings app);
  openapi_url ← lift_result (add_text (rstrip_slash root_path) (openapi_url app));
  js_url ← lift_result (attr ["redoc"; "js_url"] settings);
  favicon ← lift_result (attr ["favicon"; "url"] settings);
  mret (RedocHtml
    [("openapi_url", JStr openapi_url); ("title", JStr (title app +:+ " - ReDoc")); ("redoc_js_url", js_url);
     ("redoc_favicon_url", favicon); ("with_google_fonts", JBool false)]).

Definition run_page (h : PageHandler) (root_path : string) : App Page :=
  match h with
  | CustomOpenapi => custom_openapi root_path
  | CustomSwaggerUiHtml => custom_swagger_ui_html root_path
  | CustomSwaggerUiRedirect => custom_swagger_ui_redirect
  | CustomRedocHtml => custom_redoc_html root_path
  end.
(** the first route added for the path *)
Definition route (calls : list AppCall) (path : string) : option PageHandler :=
  head (omap (fun c => match c with AddRoute p h => if String.eqb p path then Some h else None | _ => None end) calls).
(** GET of a page: [None] when there is no route *)
Definition get_page (path root_path : string) : App (option Page) :=
  app ← gets (fun a => a);
  match route (app_calls app) path with
  | Some h => page ← run_page h root_path; mret (Some page)
  | None => mret None
  end.
End Pages.
