(* ===== verification/ApplicationTheorems.v ===== *)
(** * Theorems about the application

    What the factory makes of accepted settings: which middlewares, routes and handlers
    of exceptions the application has, and what the pages of the documentation answer. *)

From S2P Require Import Prelude PyData Models Errors Pydantic Search PyText Settings.
From S2P Require Import Examples SettingsTheorems Application.

(** names of concrete fields are distinct *)
Ltac distinct := apply (bool_decide_eq_true_1 _); reflexivity.

(** ** Accepted settings of a server *)

Section Accepted.
Context `{PydanticCore} `{SettingsCore}.

Lemma model_nodes fs x v : validate (FModel fs) x = Ok v ->
  exists d input, v = JObj d /\ validate_fields validate input fs [] None = Ok d.
Proof.
  cbn [validate]. intros (d & Hd & [= <-])%result_bind_Ok. destruct x as [| | | | |input]; try done. by exists d, input.
Qed.
Lemma model_at n fs name fs' input d : validate_fields validate input fs [] None = Ok d ->
  fs !! n = Some (nested name (FModel fs')) -> NoDup (field_name <$> fs) ->
  exists d' input', dict_get name d = Some (JObj d') /\ validate_fields validate input' fs' [] None = Ok d'.
Proof.
  intros Hd Hn Hnd. destruct (nested_at _ _ _ _ _ _ Hd Hn Hnd) as (v & x & Hg & (d' & i & -> & Hd')%model_nodes). by exists d', i.
Qed.
Lemma some_at n fs f input d : validate_fields validate input fs [] None = Ok d -> fs !! n = Some f ->
  NoDup (field_name <$> fs) -> exists v, dict_get (field_name f) d = Some v.
Proof. intros Hd Hn Hnd. destruct (field_at _ _ _ _ _ Hd Hn Hnd) as (data & v & _ & Hg). by exists v. Qed.
Lemma bool_field input data name b v : validate_field validate input data (opt name FBool (JBool b)) = Ok v -> exists b', v = JBool b'.
Proof.
  cbn [validate_field opt]. destruct (field_input name None input) as [x|]; cbn; [|intros [= <-]; by exists b].
  destruct (lax_bool x) as [b'|]; [|done]. intros [= <-]. by exists b'.
Qed.
Lemma bool_at n fs name b input d : validate_fields validate input fs [] None = Ok d ->
  fs !! n = Some (opt name FBool (JBool b)) -> NoDup (field_name <$> fs) -> exists b', dict_get name d = Some (JBool b').
Proof.
  intros Hd Hn Hnd. destruct (field_at _ _ _ _ _ Hd Hn Hnd) as (data & v & Hv & Hg). apply bool_field in Hv as [b' ->].
  by exists b'.
Qed.

(** the switches of a server *)
Record Switches := mkSwitches {
  sw_debug : bool; sw_monitoring : bool; sw_request_id : bool; sw_openapi : bool; sw_swagger : bool;
  sw_redoc : bool; sw_static : bool;
}.

(** what of the settings the factory reads *)
Record server_settings (d : dict) (s : Switches) (cors : dict) (provider : string) : Prop := mkServerSettings {
  ss_celery : exists c, server_celery_factory d = Ok c;
  ss_engine : exists e, create_session_factory d = Ok e;
  ss_provider : text ["auth"; "provider"] (JObj d) = Ok provider;
  ss_is_provider : is_auth_provider provider = true;
  ss_debug : flag ["server"; "debug"] (JObj d) = Ok (sw_debug s);
  ss_cors : attr ["server"; "cors"] (JObj d) = Ok (JObj cors);
  ss_monitoring : exists m, attr ["server"; "monitoring"] (JObj d) = Ok m /\ flag ["enabled"] m = Ok (sw_monitoring s) /\
    (exists v, attr ["skip_paths"] m = Ok v) /\ exists v, attr ["labels"] m = Ok v;
  ss_request_id : exists r, attr ["server"; "request_id"] (JObj d) = Ok r /\ flag ["enabled"] r = Ok (sw_request_id s);
  ss_openapi : exists o, attr ["server"; "openapi"] (JObj d) = Ok o /\ flag ["enabled"] o = Ok (sw_openapi s) /\
    flag ["swagger"; "enabled"] o = Ok (sw_swagger s) /\ flag ["redoc"; "enabled"] o = Ok (sw_redoc s) /\
    Forall (fun p => exists v, attr p o = Ok v)
      [["swagger"; "js_url"]; ["swagger"; "css_url"]; ["redoc"; "js_url"]; ["favicon"; "url"]; ["logo"; "url"];
       ["logo"; "alt_text"]; ["logo"; "background_color"]; ["logo"; "href"]];
  ss_static : exists f, attr ["server"; "static_files"] (JObj d) = Ok f /\ flag ["enabled"] f = Ok (sw_static s) /\
    exists v, attr ["directory"] f = Ok v;
}.

Lemma attr_cons k path d v : dict_get k d = Some v -> attr (k :: path) (JObj d) = attr path v.
Proof. intros Hk. unfold attr. cbn. by rewrite Hk. Qed.
Lemma flag_cons k path d v : dict_get k d = Some v -> flag (k :: path) (JObj d) = flag path v.
Proof. intros Hk. unfold flag. by rewrite (attr_cons _ _ _ _ Hk). Qed.
Lemma text_cons k path d v : dict_get k d = Some v -> text (k :: path) (JObj d) = text path v.
Proof. intros Hk. unfold text. by rewrite (attr_cons _ _ _ _ Hk). Qed.
Lemma flag_bool k d b : dict_get k d = Some (JBool b) -> flag [k] (JObj d) = Ok b.
Proof. intros Hk. by rewrite (flag_cons _ _ _ _ Hk). Qed.
Lemma attr_some k d v : dict_get k d = Some v -> attr [k] (JObj d) = Ok v.
Proof. intros Hk. by rewrite (attr_cons _ _ _ _ Hk). Qed.

Lemma openapi_accepted input d : validate_fields validate input
    [opt "enabled" FBool (JBool true); nested "swagger" SwaggerSettings; nested "redoc" RedocSettings;
     nested "logo" LogoSettings; nested "favicon" FaviconSettings] [] None = Ok d ->
  exists b1 b2 b3, flag ["enabled"] (JObj d) = Ok b1 /\ flag ["swagger"; "enabled"] (JObj d) = Ok b2 /\
    flag ["redoc"; "enabled"] (JObj d) = Ok b3 /\
    Forall (fun p => exists v, attr p (JObj d) = Ok v)
      [["swagger"; "js_url"]; ["swagger"; "css_url"]; ["redoc"; "js_url"]; ["favicon"; "url"]; ["logo"; "url"];
       ["logo"; "alt_text"]; ["logo"; "background_color"]; ["logo"; "href"]].
Proof.
  intros Hd. destruct (bool_at 0 _ _ _ _ _ Hd eq_refl) as [b1 H1]; [distinct|].
  destruct (model_at 1 _ _ _ _ _ Hd eq_refl) as (sw & i1 & Hsw & Hswd); [distinct|].
  destruct (model_at 2 _ _ _ _ _ Hd eq_refl) as (rd & i2 & Hrd & Hrdd); [distinct|].
  destruct (model_at 3 _ _ _ _ _ Hd eq_refl) as (lo & i3 & Hlo & Hlod); [distinct|].
  destruct (model_at 4 _ _ _ _ _ Hd eq_refl) as (fv & i4 & Hfv & Hfvd); [distinct|].
  destruct (bool_at 0 _ _ _ _ _ Hswd eq_refl) as [b2 H2]; [distinct|].
  destruct (bool_at 0 _ _ _ _ _ Hrdd eq_refl) as [b3 H3]; [distinct|].
  exists b1, b2, b3. rewrite (flag_cons _ _ _ _ Hsw), (flag_cons _ _ _ _ Hrd). split_and!; [by apply flag_bool..|].
  rewrite !Forall_cons, Forall_nil, !(attr_cons _ _ _ _ Hsw), !(attr_cons _ _ _ _ Hrd), !(attr_cons _ _ _ _ Hlo),
    !(attr_cons _ _ _ _ Hfv).
  assert (forall n k fs i m, validate_fields validate i fs [] None = Ok m -> field_name <$> fs !! n = Some k ->
    NoDup (field_name <$> fs) -> exists v, attr [k] (JObj m) = Ok v) as Hs.
  { intros n k fs i m Hm Hk Hnd. destruct (fs !! n) as [f|] eqn:Hf; [|done]. injection Hk as <-.
    destruct (some_at _ _ _ _ _ Hm Hf Hnd) as [v Hv]. exists v. by apply attr_some. }
  split_and!; [eapply (Hs 1%nat); [exact Hswd|..]|eapply (Hs 2%nat); [exact Hswd|..]|eapply (Hs 1%nat); [exact Hrdd|..]|
    eapply (Hs 0%nat); [exact Hfvd|..]|eapply (Hs 0%nat); [exact Hlod|..]|eapply (Hs 2%nat); [exact Hlod|..]|
    eapply (Hs 1%nat); [exact Hlod|..]|eapply (Hs 3%nat); [exact Hlod|..]|done].
  all: try reflexivity. all: distinct.
Qed.

Lemma provider_accepted x v : validate AuthSettings x = Ok v ->
  exists d p, v = JObj d /\ dict_get "provider" d = Some (JStr p) /\ is_auth_provider p = true.
Proof.
  intros Hv. destruct (extra_field _ 0 _ _ _ Hv eq_refl) as (d & input & data & w & -> & Hw & Hg); [apply NoDup_singleton|].
  assert (exists data y, _validate_provider data y = Ok w) as (data' & y & Hy).
  { cbn [validate_field] in Hw. destruct (field_input _ None input); cbn [validate mbind result_bind] in Hw;
      eexists _, _; exact Hw. }
  unfold _validate_provider in Hy. apply result_bind_Ok in Hy as (u & _ & Hy). destruct u as [| | |p| |]; try done.
  destruct (is_auth_provider p) eqn:Hp; [|done]. injection Hy as <-. by exists d, p.
Qed.

Lemma server_accepted `{SettingsIO} d : load_settings ServerAppSettings = Ok d ->
  exists s cors provider, server_settings d s cors provider.
Proof.
  unfold load_settings. cbn [model_validate]. intros Hd.
  assert (NoDup (field_name <$> ServerAppSettings)) as Hnd by distinct.
  destruct (nested_at 0 _ _ _ _ _ Hd eq_refl Hnd) as (v0 & x0 & Hg0 & (db & url & raw & -> & Hurl & _)%database_ok).
  destruct (nested_at 1 _ _ _ _ _ Hd eq_refl Hnd) as (v1 & x1 & Hg1 & (br & broker & un & pw & -> & Hbr & _)%broker_ok).
  destruct (model_at 3 _ _ _ _ _ Hd eq_refl Hnd) as (sv & i3 & Hg3 & Hsv).
  destruct (nested_at 4 _ _ _ _ _ Hd eq_refl Hnd) as (v4 & x4 & Hg4 & (au & p & -> & Hp & Hip)%provider_accepted).
  destruct (bool_at 0 _ _ _ _ _ Hsv eq_refl) as [dbg Hdbg]; [distinct|].
  destruct (model_at 1 _ _ _ _ _ Hsv eq_refl) as (rid & ir & Hrid & Hridd); [distinct|].
  destruct (nested_at 2 _ _ _ _ _ Hsv eq_refl) as (vc & xc & Hcors & Hcv); [distinct|].
  destruct (nested_at 3 _ _ _ _ _ Hsv eq_refl) as (vm & xm & Hmon & Hmv); [distinct|].
  destruct (model_at 4 _ _ _ _ _ Hsv eq_refl) as (oa & io & Hoa & Hoad); [distinct|].
  destruct (model_at 5 _ _ _ _ _ Hsv eq_refl) as (st & is_ & Hst & Hstd); [distinct|].
  assert (exists cors, vc = JObj cors) as [cors ->].
  { cbn [validate CORSSettings] in Hcv. apply result_bind_Ok in Hcv as (c & _ & [= <-]). by eexists. }
  destruct (openapi_accepted _ _ Hoad) as (bo & bs & bd & Hbo & Hbs & Hbd & Hall).
  destruct (bool_at 0 _ _ _ _ _ Hridd eq_refl) as [br' Hbr']; [distinct|].
  destruct (bool_at 0 _ _ _ _ _ Hstd eq_refl) as [bst Hbst]; [distinct|].
  destruct (some_at 1 _ _ _ _ Hstd eq_refl) as [dir Hdir]; [distinct|].
  destruct (extra_field _ 0 _ _ _ Hmv eq_refl) as (mon & im & dm & bv & -> & Hbv & Hbm); [distinct|].
  apply bool_field in Hbv as [bm ->].
  destruct (extra_field _ 1 _ _ _ Hmv eq_refl) as (? & ? & ? & lab & [= <-] & _ & Hlab); [distinct|].
  destruct (extra_field _ 2 _ _ _ Hmv eq_refl) as (? & ? & ? & sk & [= <-] & _ & Hsk); [distinct|].
  exists (mkSwitches dbg bm br' bo bs bd bst), cors, p. constructor.
  - unfold server_celery_factory, celery_app. rewrite (setting_str_at _ _ _ _ Hg0 Hurl), (setting_str_at _ _ _ _ Hg1 Hbr). by eexists.
  - unfold create_session_factory, async_engine. rewrite (setting_str_at _ _ _ _ Hg0 Hurl), Hg0. by eexists.
  - by rewrite (text_cons _ _ _ _ Hg4), (text_cons _ _ _ _ Hp).
  - done.
  - rewrite (flag_cons _ _ _ _ Hg3). by apply flag_bool.
  - rewrite (attr_cons _ _ _ _ Hg3). by apply attr_some.
  - exists (JObj mon). rewrite (attr_cons _ _ _ _ Hg3). split_and!; [by apply attr_some|by apply flag_bool|..]; eexists; by apply attr_some.
  - exists (JObj rid). rewrite (attr_cons _ _ _ _ Hg3). split; [by apply attr_some|by apply flag_bool].
  - exists (JObj oa). rewrite (attr_cons _ _ _ _ Hg3). split_and!; [by apply attr_some|done..].
  - exists (JObj st). rewrite (attr_cons _ _ _ _ Hg3). split_and!; [by apply attr_some|by apply flag_bool|eexists; by apply attr_some].
Qed.
End Accepted.

(** ** The middlewares *)

Section Middlewares.

Definition cors_calls (cors : dict) : list AppCall := [AddMiddleware "CORSMiddleware" (model_dump ["enabled"] (JObj cors))].
Definition monitoring_kwargs (version title : string) (settings custom labels : json) : dict :=
  [("app_name", JStr (slugify title));
   ("skip_paths", JList (JStr <$> sorted (DEFAULT_SKIP_PATHS ++ filter (fun p => p ∉ DEFAULT_SKIP_PATHS) (texts_of custom))));
   ("labels", JObj (dict_setdefault "version" (JStr version) (model_dump [] labels)))] ++
  model_dump ["enabled"; "skip_paths"; "labels"] settings.
Definition openapi_calls (s : Switches) : list AppCall :=
  (if sw_openapi s then [AddRoute "/openapi.json" CustomOpenapi] else []) ++
  (if sw_swagger s then [AddRoute "/docs" CustomSwaggerUiHtml; AddRoute "/docs/oauth2-redirect" CustomSwaggerUiRedirect] else []) ++
  (if sw_redoc s then [AddRoute "/redoc" CustomRedocHtml] else []).

(** the calls of [apply_middlewares], with the arguments of the settings *)
Definition middleware_calls (s : Switches) (cors monitoring request_id : dict) (directory : json) : list AppCall :=
  cors_calls cors ++
  (if sw_monitoring s then [AddMiddleware "PrometheusMiddleware" monitoring; IncludeRouter "monitoring"] else []) ++
  (if sw_request_id s then [AddMiddleware "CorrelationIdMiddleware" request_id] else []) ++
  openapi_calls s ++
  (if sw_static s then [Mount "/static" directory "static"] else []).

Definition add_calls (l : list AppCall) (a : FastAPI) : FastAPI :=
  mkFastAPI (title a) (version a) (debug a) (openapi_url a) (docs_url a) (redoc_url a)
    (swagger_ui_oauth2_redirect_url a) (servers a) (root_path_in_servers a) (openapi_schema a) (openapi a)
    (state_settings a) (state_celery a) (state_session_factory a) (auth_provider a) (app_calls a ++ l).
Lemma add_calls_nil a : add_calls [] a = a.
Proof. unfold add_calls. rewrite app_nil_r. by destruct a. Qed.
Lemma add_calls_app l l' a : add_calls l' (add_calls l a) = add_calls (l ++ l') a.
Proof. unfold add_calls. cbn. by rewrite app_assoc. Qed.

Lemma on_app_run c a : on_app c a = (Ok tt, add_calls [c] a).
Proof. done. Qed.
Lemma lift_run {A B} (r : result exc A) (f : A -> App B) a :
  (lift_result r ≫= f) a = match r with Ok x => f x a | Raise e => (Raise e, a) end.
Proof. by destruct r. Qed.

Lemma monitoring_ok m b sk lab a : flag ["enabled"] m = Ok b -> attr ["skip_paths"] m = Ok sk ->
  attr ["labels"] m = Ok lab ->
  apply_monitoring_metrics_middleware m a = (Ok tt, add_calls
    (if b then [AddMiddleware "PrometheusMiddleware" (monitoring_kwargs (version a) (title a) m sk lab); IncludeRouter "monitoring"]
     else []) a).
Proof.
  intros Hb Hs Hl. unfold apply_monitoring_metrics_middleware. rewrite lift_run, Hb. destruct b; cbn [negb].
  - rewrite lift_run, Hs, lift_run, Hl, bind_run. unfold gets. rewrite bind_run, on_app_run, on_app_run, add_calls_app. done.
  - by rewrite add_calls_nil.
Qed.
Lemma request_id_ok r b a : flag ["enabled"] r = Ok b -> exists kw,
  apply_request_id_middleware r a = (Ok tt, add_calls (if b then [AddMiddleware "CorrelationIdMiddleware" kw] else []) a).
Proof.
  intros Hb. unfold apply_request_id_middleware. rewrite lift_run, Hb. destruct b; cbn [negb]; [by eexists|].
  exists []. by rewrite add_calls_nil.
Qed.
Lemma static_ok f b dir a : flag ["enabled"] f = Ok b -> attr ["directory"] f = Ok dir ->
  apply_static_files f a = (Ok tt, add_calls (if b then [Mount "/static" dir "static"] else []) a).
Proof.
  intros Hb Hd. unfold apply_static_files. rewrite lift_run, Hb. destruct b; cbn [negb]; [by rewrite lift_run, Hd|].
  by rewrite add_calls_nil.
Qed.

Definition with_docs (s : Switches) (o : json) (a : FastAPI) : FastAPI :=
  with_schema (servers a) (openapi_schema a) (Some o)
    (with_urls (if sw_openapi s then Some "/openapi.json" else openapi_url a)
       (if sw_swagger s then Some "/docs" else docs_url a) (if sw_redoc s then Some "/redoc" else redoc_url a)
       (if sw_swagger s then Some "/docs/oauth2-redirect" else swagger_ui_oauth2_redirect_url a) a).
Lemma with_docs_calls s o l a : with_docs s o (add_calls l a) = add_calls l (with_docs s o a).
Proof. by destruct a. Qed.
Lemma optional_step (b : bool) g c a :
  (if b then _ ← modify g; on_app c else mret tt) a = (Ok (E := exc) tt, if b then add_calls [c] (g a) else a).
Proof. by destruct b. Qed.
Lemma optional_steps (b : bool) g c1 c2 a :
  (if b then _ ← modify g; _ ← on_app c1; on_app c2 else mret tt) a =
    (Ok (E := exc) tt, if b then add_calls [c1; c2] (g a) else a).
Proof. destruct b; [|done]. rewrite bind_run. unfold modify at 1. by rewrite bind_run, !on_app_run, add_calls_app. Qed.
Lemma openapi_ok s o a : flag ["enabled"] o = Ok (sw_openapi s) -> flag ["swagger"; "enabled"] o = Ok (sw_swagger s) ->
  flag ["redoc"; "enabled"] o = Ok (sw_redoc s) ->
  apply_openapi_middleware o a = (Ok tt, add_calls (openapi_calls s) (with_docs s o a)).
Proof.
  intros Ho Hs Hr. unfold apply_openapi_middleware. rewrite lift_run, Ho, bind_run, optional_step, lift_run, Hs, bind_run.
  rewrite optional_steps, lift_run, Hr, bind_run, optional_step. unfold modify, openapi_calls, with_docs.
  destruct a; destruct (sw_openapi s), (sw_swagger s), (sw_redoc s); lazy -[app];
    by rewrite <- ?app_assoc, ?app_nil_r.
Qed.

Lemma middlewares_ok `{PydanticCore} `{SettingsCore} d s cors p a : server_settings d s cors p ->
  exists m r dir o, attr ["server"; "openapi"] (JObj d) = Ok o /\
    apply_middlewares d a = (Ok tt, add_calls (middleware_calls s cors m r dir) (with_docs s o a)).
Proof.
  intros [_ _ _ _ _ Hc (m & Hm & Hmb & [sk Hsk] & [lab Hlab]) (r & Hr & Hrb) (o & Ho & Hob & Hsb & Hrb' & _) (f & Hf & Hfb & [dir Hdir])].
  set (a1 := add_calls (cors_calls cors) a).
  destruct (request_id_ok r _ (add_calls (if sw_monitoring s then [AddMiddleware "PrometheusMiddleware"
    (monitoring_kwargs (version a1) (title a1) m sk lab); IncludeRouter "monitoring"] else []) a1) Hrb) as [kw Hrq].
  exists (monitoring_kwargs (version a1) (title a1) m sk lab), kw, dir, o. split; [done|].
  unfold apply_middlewares. rewrite lift_run, Hc.
  change (apply_cors_middleware (JObj cors)) with (on_app (AddMiddleware "CORSMiddleware" (model_dump ["enabled"] (JObj cors)))).
  rewrite bind_run. cbn [on_app modify]. change (with_call _ a) with a1.
  rewrite lift_run, Hm, bind_run, (monitoring_ok m _ sk lab a1 Hmb Hsk Hlab), lift_run, Hr, bind_run, Hrq.
  rewrite lift_run, Ho, bind_run, (openapi_ok s o _ Hob Hsb Hrb'), lift_run, Hf, (static_ok f _ dir _ Hfb Hdir).
  unfold a1, middleware_calls. by rewrite !with_docs_calls, !add_calls_app.
Qed.
End Middlewares.

(** ** Handlers of exceptions *)

Definition no_handler (c : AppCall) : bool := match c with SetExceptionHandler _ _ => false | _ => true end.
Lemma registered_app l l' c : forallb no_handler l' = true -> registered (l ++ l') c = registered l c.
Proof.
  unfold registered. rewrite foldl_app. generalize (foldl (fun acc call => match call with
    SetExceptionHandler c' h => if decide (c' = c) then Some h else acc | _ => acc end) None l).
  induction l' as [|x l' IH]; [done|]. intros o [Hx Hl]%andb_true_iff. cbn. rewrite IH by done. by destruct x.
Qed.
Lemma first_registered_ext calls calls' classes : (forall c, registered calls c = registered calls' c) ->
  first_registered calls classes = first_registered calls' classes.
Proof. intros Hr. induction classes as [|c classes IH]; [done|]. cbn. by rewrite Hr, IH. Qed.

(** the calls before the setup of the provider *)
Definition handler_calls : list AppCall :=
  IncludeRouter "api_router" :: ((fun ch => SetExceptionHandler ch.1 ch.2) <$> exception_handlers).
(** what a server answers an exception with *)
Definition expected_answer (debug : bool) (e : exc) : ErrorAnswer :=
  if debug && negb (isinstance e CValidationError || isinstance e CSyncmasterError) then DebugTraceback e
  else ErrorResponse (handle_exception debug e).
Lemma registered_answers app l e : app_calls app = handler_calls ++ l -> forallb no_handler l = true ->
  answer_error app e = Some (expected_answer (debug app) e).
Proof.
  intros Ha Hl. unfold answer_error. rewrite Ha.
  rewrite (first_registered_ext _ handler_calls), registered_app by (done || intros c; by apply registered_app).
  destruct (debug app); by destruct e; vm_compute.
Qed.

(** ** The factory *)

Section Factory.
Context `{PydanticCore} `{SettingsCore} `{OtherProvider}.

(** a provider of the repository: its setup adds no handler and leaves the rest of the
    application as it was, or its settings are refused *)
Definition known_provider (p : string) : Prop :=
  p ∈ ["syncmaster.server.providers.auth.dummy_provider.DummyAuthProvider";
       "syncmaster.server.providers.auth.keycloak_provider.KeycloakAuthProvider";
       "syncmaster.server.providers.auth.oauth2_gateway_provider.OAuth2GatewayProvider"].
Definition provider_fields (p : string) : list Field :=
  if String.eqb p "syncmaster.server.providers.auth.dummy_provider.DummyAuthProvider" then DummyAuthProviderSettings
  else if String.eqb p "syncmaster.server.providers.auth.keycloak_provider.KeycloakAuthProvider"
  then KeycloakAuthProviderSettings else OAuth2GatewayProviderSettings.
Definition is_keycloak (p : string) : bool :=
  String.eqb p "syncmaster.server.providers.auth.keycloak_provider.KeycloakAuthProvider".
Definition session_calls (p : string) (kwargs : dict) : list AppCall :=
  if is_keycloak p then [AddMiddleware "SessionMiddleware" kwargs] else [].

Definition with_provider (p : string * dict) (a : FastAPI) : FastAPI :=
  with_state (state_settings a) (state_celery a) (state_session_factory a) (Some p) a.

Lemma provider_settings_run {A} fs (f : dict -> App A) a auth : attr ["auth"] (JObj (state_settings a)) = Ok auth ->
  (provider_settings fs ≫= f) a =
  match model_validate validate fs (JObj (model_dump ["provider"] auth)) with Ok d => f d a | Raise e => (Raise e, a) end.
Proof.
  intros Ha. unfold provider_settings. rewrite bind_assoc, bind_run. unfold gets. rewrite bind_run, lift_run, Ha.
  by destruct (model_validate _ _ _).
Qed.

Lemma cookie_arguments input d : validate_fields validate input KeycloakAuthProviderSettings [] None = Ok d ->
  exists kwargs, mapM (fun a => v ← attr ["cookie"; a.2] (JObj d); Ok (a.1, v)) session_arguments = Ok kwargs /\
    dict_keys kwargs = session_arguments.*1.
Proof.
  intros Hd. destruct (field_at 1 _ _ _ _ Hd eq_refl) as (data & v & Hv & Hg); [distinct|].
  cbn [field_name req] in Hg. cbn [validate_field req] in Hv.
  destruct (field_input "cookie" None input) as [x|]; [|done]. apply result_bind_Ok in Hv as (c & Hc & [= ->]).
  assert (forall n f, [req "secret_key" FStr; opt "name" FStr (JStr "session"); opt "max_age" (FOpt FInt) (JInt (14 * 24 * 60 * 60));
   opt "same_site" (FLiteral ["strict"; "lax"; "none"]) (JStr "lax"); opt "path" FStr (JStr "/");
   opt "https_only" FBool (JBool false); opt "domain" (FOpt FStr) JNull] !! n = Some f ->
   exists w, attr ["cookie"; field_name f] (JObj d) = Ok w) as Hf.
  { intros n f Hn. destruct (extra_field _ n _ _ _ Hc Hn) as (ck & i & dt & w & -> & _ & Hw); [distinct|].
    exists w. rewrite (attr_cons _ _ _ _ Hg). by apply attr_some. }
  destruct (Hf 0%nat _ eq_refl) as [w0 H0w], (Hf 1%nat _ eq_refl) as [w1 H1w], (Hf 2%nat _ eq_refl) as [w2 H2w],
    (Hf 3%nat _ eq_refl) as [w3 H3w], (Hf 4%nat _ eq_refl) as [w4 H4w], (Hf 5%nat _ eq_refl) as [w5 H5w],
    (Hf 6%nat _ eq_refl) as [w6 H6w].
  cbn [field_name req opt] in *. unfold session_arguments. cbn -[attr]. rewrite H0w, H1w, H2w, H3w, H4w, H5w, H6w.
  by eexists.
Qed.

(** the constructor of the client, from the settings of a provider that has one *)
Lemma openid_ok fs ks input d : validate_fields validate input fs [] None = Ok d ->
  fs !! 0%nat = Some (req "keycloak" (FModel ks)) -> NoDup (field_name <$> fs) -> NoDup (field_name <$> ks) ->
  ks !! 0%nat = Some (url_field "api_url" http_url) ->
  Forall (fun k => k ∈ field_name <$> ks) ["client_id"; "realm_name"; "client_secret"; "verify_ssl"] ->
  exists kwargs, keycloak_openid d = Ok kwargs.
Proof.
  intros Hd Hf Hnd Hks Hurl Hall. destruct (field_at 0 _ _ _ _ Hd Hf Hnd) as (data & v & Hv & Hg).
  cbn [field_name req] in Hg. cbn [validate_field req] in Hv.
  destruct (field_input "keycloak" None input) as [x|]; [|done]. apply result_bind_Ok in Hv as (w & Hm & [= ->]).
  apply model_nodes in Hm as (k & i & -> & Hk). destruct (field_at 0 _ _ _ _ Hk Hurl Hks) as (dt & u & Hu & Hgu).
  apply text_field in Hu as [s (url & _ & ->)%convert_ok].
  assert (forall n, n ∈ field_name <$> ks -> exists y, attr ["keycloak"; n] (JObj d) = Ok y) as Hat.
  { intros n (f & -> & Hin)%list_elem_of_fmap. apply list_elem_of_lookup in Hin as [m Hin].
    destruct (some_at _ _ _ _ _ Hk Hin Hks) as [y Hy]. exists y. rewrite (attr_cons _ _ _ _ Hg). by apply attr_some. }
  rewrite !Forall_cons in Hall. destruct Hall as (Ha & Hb & Hc & He & _).
  destruct (Hat _ Ha) as [a Ha'], (Hat _ Hb) as [b Hb'], (Hat _ Hc) as [c Hc'], (Hat _ He) as [e He'].
  unfold keycloak_openid. rewrite (text_cons _ _ _ _ Hg), (text_cons _ _ _ _ Hgu). cbn -[attr].
  rewrite Ha', Hb', Hc', He'. by eexists.
Qed.
Lemma keycloak_openid_ok input d : validate_fields validate input KeycloakAuthProviderSettings [] None = Ok d ->
  exists kwargs, keycloak_openid d = Ok kwargs.
Proof.
  intros Hd. eapply openid_ok; [exact Hd|reflexivity|distinct|distinct|reflexivity|].
  apply (bool_decide_eq_true_1 _). reflexivity.
Qed.
Lemma oauth2_openid_ok input d : validate_fields validate input OAuth2GatewayProviderSettings [] None = Ok d ->
  exists kwargs, keycloak_openid d = Ok kwargs.
Proof.
  intros Hd. eapply openid_ok; [exact Hd|reflexivity|distinct|distinct|reflexivity|].
  apply (bool_decide_eq_true_1 _). reflexivity.
Qed.

Lemma setup_ok p a auth : known_provider p -> attr ["auth"] (JObj (state_settings a)) = Ok auth ->
  match model_validate validate (provider_fields p) (JObj (model_dump ["provider"] auth)) with
  | Ok d => exists cls kwargs, auth_class_setup p a = (Ok tt, add_calls (session_calls p kwargs) (with_provider (cls, d) a)) /\
      (is_keycloak p = true -> dict_keys kwargs = session_arguments.*1)
  | Raise e => auth_class_setup p a = (Raise e, a)
  end.
Proof.
  unfold known_provider. rewrite !elem_of_cons, elem_of_nil.
  intros [->|[->|[->|[]]]] Ha; unfold auth_class_setup, provider_fields; cbn [String.eqb Ascii.eqb Bool.eqb].
  - unfold DummyAuthProvider_setup. rewrite (provider_settings_run _ _ _ _ Ha).
    destruct (model_validate _ _ _) as [d|e]; [|done]. exists "DummyAuthProvider", []. split; [|done].
    cbn [session_calls is_keycloak String.eqb Ascii.eqb Bool.eqb]. by rewrite add_calls_nil.
  - unfold KeycloakAuthProvider_setup. rewrite (provider_settings_run _ _ _ _ Ha).
    destruct (model_validate _ _ _) as [d|e] eqn:Hd; [|done]. cbn [model_validate] in Hd.
    destruct (cookie_arguments _ _ Hd) as (kwargs & Hk & Hkeys). exists "KeycloakAuthProvider", kwargs. split; [|done].
    destruct (keycloak_openid_ok _ _ Hd) as [client Hcl]. rewrite lift_run, Hcl.
    rewrite bind_run. unfold set_auth_provider, modify at 1. rewrite lift_run, Hk. by rewrite on_app_run.
  - unfold OAuth2GatewayProvider_setup. rewrite (provider_settings_run _ _ _ _ Ha).
    destruct (model_validate _ _ _) as [d|e] eqn:Hd; [|done]. cbn [model_validate] in Hd.
    destruct (oauth2_openid_ok _ _ Hd) as [client Hcl]. rewrite lift_run, Hcl.
    exists "OAuth2GatewayProvider", []. split; [|done].
    cbn [session_calls is_keycloak String.eqb Ascii.eqb Bool.eqb]. by rewrite add_calls_nil.
Qed.

Lemma register_run l a : register_handlers l a = (Ok tt, add_calls ((fun ch => SetExceptionHandler ch.1 ch.2) <$> l) a).
Proof.
  revert a. induction l as [|[c h] l IH]; intros a; [by rewrite add_calls_nil|]. cbn [register_handlers].
  by rewrite bind_run, on_app_run, IH, add_calls_app.
Qed.

(** names of the middlewares, the last added first: a request meets them in this order *)
Definition middleware_names (calls : list AppCall) : list string :=
  reverse (omap (fun c => match c with AddMiddleware cls _ => Some cls | _ => None end) calls).

Lemma factory_ok version d s cors p : server_settings d s cors p -> known_provider p ->
  exists auth, attr ["auth"] (JObj d) = Ok auth /\
  match model_validate validate (provider_fields p) (JObj (model_dump ["provider"] auth)) with
  | Raise e => application_factory version d = Raise e
  | Ok ps => exists celery factory cls session m r dir o,
      (is_keycloak p = true -> dict_keys session = session_arguments.*1) /\
      attr ["server"; "openapi"] (JObj d) = Ok o /\
      application_factory version d = Ok
        (add_calls (middleware_calls s cors m r dir) (with_docs s o
          (add_calls (session_calls p session) (with_provider (cls, ps)
            (add_calls handler_calls (with_state d (Some celery) (Some factory) None (new_app version (sw_debug s) d)))))))
  end.
Proof.
  intros Hs Hk. pose proof Hs as [[celery Hc] [factory He] Hp _ Hdbg _ _ _ _ _].
  assert (exists auth, attr ["auth"] (JObj d) = Ok auth) as [auth Ha].
  { unfold text, attr in Hp |- *. cbn in Hp |- *. destruct (dict_get "auth" d) as [v|]; [by exists v|done]. }
  set (a1 := add_calls handler_calls (with_state d (Some celery) (Some factory) None (new_app version (sw_debug s) d))).
  assert (factory_body d (new_app version (sw_debug s) d) = (auth_class_setup p ≫= (fun _ => apply_middlewares d)) a1) as Hbody.
  { unfold factory_body. rewrite lift_run, Hc, bind_run. unfold modify at 1. rewrite lift_run, He, bind_run. unfold modify at 1.
    by rewrite bind_run, on_app_run, bind_run, register_run, lift_run, Hp, add_calls_app. }
  exists auth. split; [done|]. unfold application_factory. rewrite Hdbg. cbn [mbind result_bind]. rewrite Hbody, bind_run.
  pose proof (setup_ok p a1 auth Hk Ha) as Hset. destruct (model_validate _ _ _) as [ps|e]; [|by rewrite Hset].
  destruct Hset as (cls & kwargs & Hrun & Hkeys). rewrite Hrun.
  destruct (middlewares_ok d s cors p (add_calls (session_calls p kwargs) (with_provider (cls, ps) a1)) Hs) as (m & r & dir & o & Ho & Hmw).
  rewrite Hmw. exists celery, factory, cls, kwargs, m, r, dir, o. by split_and!.
Qed.

Lemma no_handlers s cors m r dir : forallb no_handler (middleware_calls s cors m r dir) = true.
Proof. destruct s as [? [] [] [] [] [] []]; reflexivity. Qed.

Definition no_session (c : AppCall) : bool :=
  match c with AddMiddleware cls _ => negb (String.eqb cls "SessionMiddleware") | _ => true end.
Lemma no_sessions s cors m r dir : forallb no_session (middleware_calls s cors m r dir) = true.
Proof. destruct s as [? [] [] [] [] [] []]; reflexivity. Qed.
Lemma session_free calls kwargs : forallb no_session calls = true -> AddMiddleware "SessionMiddleware" kwargs ∉ calls.
Proof. intros Hc Hin. rewrite forallb_forall in Hc. apply list_elem_of_In, Hc in Hin. discriminate Hin. Qed.

End Factory.

(** ** The pages of the documentation *)

Section Pages.
Context `{PydanticCore} `{SettingsCore} `{OtherProvider} `{OpenAPICore}.

Definition page_urls (s : Switches) (root_path : string) (page : string) (make : dict -> Page) (on : bool)
    (r : result exc (option Page)) : Prop :=
  if on then
    if sw_openapi s then exists kwargs, r = Ok (Some (make kwargs)) /\
      dict_get "openapi_url" kwargs = Some (JStr (rstrip_slash root_path +:+ "/openapi.json"))
    else r = Raise TypeError
  else r = Ok None.

(** a schema that is made or cached stays *)
Lemma schema_stays settings schema a a' : custom_openapi_schema settings a = (Ok schema, a') ->
  cached (openapi_schema a') = Some schema /\ openapi a' = openapi a /\ app_calls a' = app_calls a.
Proof.
  unfold custom_openapi_schema. rewrite bind_run. unfold gets. destruct (cached (openapi_schema a)) as [sc|] eqn:Hc.
  - by intros [= <- <-].
  - rewrite lift_run. destruct (or_raise _ _) as [info|]; [|done]. rewrite lift_run.
    destruct (x_logo settings) as [logo|]; [|done]. destruct info as [| | | | |i]; try done.
    rewrite bind_run. cbn. intros [= <- <-]. cbn. split_and!; [|done..].
    assert (forall k (v : json) d, cached (Some (dict_set k v d)) = Some (dict_set k v d)) as Hd; [|apply Hd].
    intros k v [|[k' v'] d]; [done|]. cbn. by destruct (String.eqb k k').
Qed.
Lemma openapi_page root a page a' : custom_openapi root a = (Ok page, a') -> exists settings schema,
  openapi a = Some settings /\ page = JSONResponse schema /\ cached (openapi_schema a') = Some schema /\
  openapi a' = Some settings /\ app_calls a' = app_calls a.
Proof.
  unfold custom_openapi. rewrite bind_run. unfold gets at 1. set (b := _ && _ && _). rewrite bind_run.
  set (a1 := if b then with_schema ([("url", JStr (rstrip_slash root))] :: servers a) (openapi_schema a) (openapi a) a else a).
  replace ((if b then _ else _) a) with (Ok (E := exc) tt, a1) by (unfold a1; by destruct b).
  assert (app_calls a1 = app_calls a) as Hcalls by (unfold a1; by destruct b).
  assert (openapi a1 = openapi a) as Hopen by (unfold a1; by destruct b).
  rewrite bind_run. destruct (openapi a) as [settings|]; [|done].
  destruct (custom_openapi_schema settings a1) as [[schema|e] a2] eqn:Hs; [|done]. intros [= <- <-].
  apply schema_stays in Hs as (Hc & Ho & Hcl). exists settings, schema. split_and!; [done|done|done|congruence|congruence].
Qed.
Lemma openapi_again root a page a' root' r a'' : custom_openapi root a = (Ok page, a') ->
  custom_openapi root' a' = (r, a'') -> r = Ok page.
Proof.
  intros (settings & schema & _ & -> & Hc & Ho & _)%openapi_page. unfold custom_openapi. rewrite bind_run.
  unfold gets at 1. set (b := _ && _ && _). rewrite bind_run.
  set (a1 := if b then with_schema ([("url", JStr (rstrip_slash root'))] :: servers a') (openapi_schema a') (openapi a') a' else a').
  replace ((if b then _ else _) a') with (Ok (E := exc) tt, a1) by (unfold a1; by destruct b).
  assert (openapi_schema a1 = openapi_schema a') as Hsc by (unfold a1; by destruct b).
  rewrite bind_run, Ho. unfold custom_openapi_schema. rewrite bind_run. unfold gets. rewrite Hsc, Hc. by intros [= <- <-].
Qed.

Lemma routes p session s cors m r dir :
  let calls := handler_calls ++ session_calls p session ++ middleware_calls s cors m r dir in
  route calls "/openapi.json" = (if sw_openapi s then Some CustomOpenapi else None) /\
  route calls "/docs" = (if sw_swagger s then Some CustomSwaggerUiHtml else None) /\
  route calls "/redoc" = (if sw_redoc s then Some CustomRedocHtml else None).
Proof. unfold session_calls. destruct s as [? [] [] [] [] [] []], (is_keycloak p); by vm_compute. Qed.

Lemma page_run path root app : get_page path root app =
  match route (app_calls app) path with
  | Some h => match run_page h root app with (Ok pg, a') => (Ok (Some pg), a') | (Raise e, a') => (Raise e, a') end
  | None => (Ok None, app)
  end.
Proof. unfold get_page. rewrite bind_run. unfold gets. by destruct (route _ _). Qed.

(** what the pages read of an application the factory made *)
Record made (d : dict) (s : Switches) (app : FastAPI) : Prop := mkMade {
  md_openapi : route (app_calls app) "/openapi.json" = if sw_openapi s then Some CustomOpenapi else None;
  md_docs : route (app_calls app) "/docs" = if sw_swagger s then Some CustomSwaggerUiHtml else None;
  md_redoc : route (app_calls app) "/redoc" = if sw_redoc s then Some CustomRedocHtml else None;
  md_settings : state_settings app = d;
  md_url : openapi_url app = if sw_openapi s then Some "/openapi.json" else None;
}.
Lemma factory_made version d s cors p app : server_settings d s cors p -> known_provider p ->
  application_factory version d = Ok app -> made d s app.
Proof.
  intros Hs Hk Happ. destruct (factory_ok version d s cors p Hs Hk) as (auth & _ & Hf).
  destruct (model_validate _ _ _) as [ps|e]; [|congruence].
  destruct Hf as (celery & factory & cls & session & m & r & dir & o & _ & _ & Hf). rewrite Hf in Happ.
  injection Happ as <-. destruct (routes p session s cors m r dir) as (H1r & H2r & H3r).
  constructor; cbn -[app route handler_calls session_calls middleware_calls]; rewrite ?app_nil_l, <- ?app_assoc; done.
Qed.

Lemma docs_page d s app root : made d s app -> (exists cors p, server_settings d s cors p) ->
  page_urls s root "/docs" SwaggerUiHtml (sw_swagger s) (outcome (get_page "/docs" root) app).
Proof.
  intros [_ Hr _ Hset Hurl] (cors & p & Hs). unfold page_urls, outcome. rewrite page_run, Hr.
  destruct (sw_swagger s); [|done]. cbn [run_page]. unfold custom_swagger_ui_html.
  destruct (ss_openapi _ _ _ _ Hs) as (o & Ho & _ & _ & _ & Hall).
  rewrite !Forall_cons in Hall. destruct Hall as ([js Hjs] & [css Hcss] & _ & [fav Hfav] & _).
  unfold openapi_settings.
  destruct (sw_openapi s); rewrite bind_run; unfold gets at 1; rewrite Hset, lift_run, Ho, Hurl; [|done].
  cbn [add_text]. rewrite lift_run, lift_run, Hjs, lift_run, Hcss, lift_run, Hfav. by eexists.
Qed.
Lemma redoc_page d s app root : made d s app -> (exists cors p, server_settings d s cors p) ->
  page_urls s root "/redoc" RedocHtml (sw_redoc s) (outcome (get_page "/redoc" root) app).
Proof.
  intros [_ _ Hr Hset Hurl] (cors & p & Hs). unfold page_urls, outcome. rewrite page_run, Hr.
  destruct (sw_redoc s); [|done]. cbn [run_page]. unfold custom_redoc_html.
  destruct (ss_openapi _ _ _ _ Hs) as (o & Ho & _ & _ & _ & Hall).
  rewrite !Forall_cons in Hall. destruct Hall as (_ & _ & [js Hjs] & [fav Hfav] & _).
  unfold openapi_settings.
  destruct (sw_openapi s); rewrite bind_run; unfold gets at 1; rewrite Hset, lift_run, Ho, Hurl; [|done].
  cbn [add_text]. rewrite lift_run, lift_run, Hjs, lift_run, Hfav. by eexists.
Qed.

(** C24 The pages of the documentation of an application: a page that is switched on is
    served under any root path and asks for the schema there, unless the schema itself is
    switched off: then the page raises [TypeError].  The schema is made once: later
    requests, also under another root path, are answered with the first one. *)
Theorem documentation_pages `{SettingsIO} version d p app : load_settings ServerAppSettings = Ok d ->
  text ["auth"; "provider"] (JObj d) = Ok p -> known_provider p -> application_factory version d = Ok app ->
  exists s cors, server_settings d s cors p /\
  (forall root, page_urls s root "/docs" SwaggerUiHtml (sw_swagger s) (outcome (get_page "/docs" root) app)) /\
  (forall root, page_urls s root "/redoc" RedocHtml (sw_redoc s) (outcome (get_page "/redoc" root) app)) /\
  (forall root, sw_openapi s = false -> outcome (get_page "/openapi.json" root) app = Ok None) /\
  (forall root page app' root' reply app'',
    get_page "/openapi.json" root app = (Ok (Some page), app') -> get_page "/openapi.json" root' app' = (reply, app'') ->
    reply = Ok (Some page)).
Proof.
  intros Hd Hp Hk Happ. destruct (server_accepted d Hd) as (s & cors & p' & Hs).
  assert (p' = p) as -> by (pose proof (ss_provider _ _ _ _ Hs) as Hp'; congruence).
  pose proof (factory_made version d s cors p app Hs Hk Happ) as Hm. exists s, cors. split; [done|].
  split_and!; [intros root; eapply docs_page; eauto|intros root; eapply redoc_page; eauto| |].
  - intros root Hoff. unfold outcome. by rewrite page_run, (md_openapi _ _ _ Hm), Hoff.
  - intros root page app' root' reply app''. rewrite !page_run, (md_openapi _ _ _ Hm).
    destruct (sw_openapi s) eqn:Hon; [|done]. cbn [run_page].
    destruct (custom_openapi root app) as [[pg|e] a1] eqn:H1p; [|done]. intros [= <- <-].
    pose proof (openapi_page _ _ _ _ H1p) as (_ & _ & _ & _ & _ & _ & Hcalls).
    rewrite Hcalls, (md_openapi _ _ _ Hm), Hon. cbn [run_page].
    destruct (custom_openapi root' a1) as [r2 a2] eqn:H2p. rewrite (openapi_again _ _ _ _ _ _ _ H1p H2p). by intros [= <- _].
Qed.
End Pages.

(** ** Witnesses *)

#[export] Instance toy_other_provider : OtherProvider := { other_setup _ := mret tt }.
#[export] Instance toy_openapi : OpenAPICore := {
  get_openapi a := [("openapi", JStr "3.1.0"); ("info", JObj [("title", JStr (title a))]);
                    ("servers", JList (JObj <$> servers a))];
}.
(** Keycloak, no CORS wanted, the schema on or off *)
Definition server_file (schema : bool) : dict :=
  [("database", JObj [("url", JStr "postgresql+asyncpg://u:p@db/main")]);
   ("broker", JObj [("url", JStr "amqp://guest:guest@mq:5672/")]);
   ("encryption", JObj [("secret_key", JStr "k")]);
   ("server", JObj [("cors", JObj [("enabled", JBool false)]); ("openapi", JObj [("enabled", JBool schema)])]);
   ("auth", JObj
      [("provider", JStr "syncmaster.server.providers.auth.keycloak_provider.KeycloakAuthProvider");
       ("keycloak", JObj [("api_url", JStr "http://keycloak"); ("client_id", JStr "c"); ("client_secret", JStr "s");
                          ("realm_name", JStr "r"); ("ui_callback_url", JStr "http://ui")]);
       ("cookie", JObj [("secret_key", JStr "c"); ("extra_option", JInt 1)])])].
Definition server_io (schema : bool) : SettingsIO := {|
  config_file := None;
  source_values s := match s with YamlSettings _ => server_file schema | _ => [] end;
  deep_update := merge_dicts;
|}.
Definition server_settings_of (schema : bool) : dict :=
  match @load_settings (server_io schema) _ ServerAppSettings with Ok d => d | Raise _ => [] end.
Definition server_app (schema : bool) : FastAPI :=
  match application_factory "0.3.5" (server_settings_of schema) with
  | Ok app => app
  | Raise _ => new_app "" false []
  end.

Lemma known_keycloak : known_provider "syncmaster.server.providers.auth.keycloak_provider.KeycloakAuthProvider".
Proof. right. by left. Qed.


(** without the schema the page of Swagger raises *)
Lemma documentation_pages_witness : exists app, application_factory "0.3.5" (server_settings_of false) = Ok app /\
  outcome (get_page "/docs" "/api/") app = Raise TypeError.
Proof.
  destruct (application_factory "0.3.5" (server_settings_of false)) as [app|e] eqn:Happ;
    [|exfalso; apply (f_equal is_ok) in Happ; vm_compute in Happ; discriminate Happ].
  destruct (@documentation_pages _ _ _ _ (server_io false) "0.3.5" (server_settings_of false)
    "syncmaster.server.providers.auth.keycloak_provider.KeycloakAuthProvider" app) as (s & cors & Hs & Hd & _);
    [vm_compute; reflexivity|vm_compute; reflexivity|exact known_keycloak|exact Happ|].
  specialize (Hd "/api/"). unfold page_urls in Hd. destruct (ss_openapi _ _ _ _ Hs) as (o & Ho & Hob & Hsb & _).
  destruct s as [dbg mon rid oa sw rd st]. cbn [sw_openapi sw_swagger] in *.
  vm_compute in Ho. injection Ho as <-. vm_compute in Hob. injection Hob as <-. vm_compute in Hsb. injection Hsb as <-.
  exists app. split; [reflexivity|exact Hd].
Defined.
