(* ===== verification/KeycloakAuth.v ===== *)
(** * Authentication by Keycloak ([server/providers/auth/keycloak_provider.py])

    The login of a browser: its tokens live in the signed cookie [request.session], the
    keys of Keycloak are cached in the provider, and an access token that no longer
    holds is refreshed.  The requests to Keycloak are the calls made so far; what they
    answer, the clock [time.monotonic] among it, is the parameter [KeycloakServer]. *)

From S2P Require Import Prelude PyData Models Errors Database Integrity Search Repository.
From S2P Require Import Repositories RepositoryFacts Auth.

(** an exception of [keycloak] or [jwcrypto], or any other *)
Inductive failure := KeycloakOperationError | JWException | Raised (e : exc).
Definition is_keycloak_failure (e : failure) : bool :=
  match e with KeycloakOperationError | JWException => true | Raised _ => false end.
Definition is_operation_error (e : failure) : bool :=
  match e with KeycloakOperationError => true | _ => false end.

(** [jwk.JWK(...)] of a certificate *)
Class Jwk := { JWK : Type; make_jwk : json -> result failure JWK }.
Abbreviation JWKSet := (list JWK).

Inductive KeycloakCall `{Jwk} :=
| ACerts
| ADecodeToken (token : json) (key : JWKSet)
| ARefreshToken (refresh_token : json)
| AAuthUrl
| AToken (code : string)
| ALogout (refresh_token : json).

(** what each call answers, after the calls before it *)
Class KeycloakServer `{Jwk} := {
  answer : list KeycloakCall -> KeycloakCall -> result failure dict;
  auth_url : list KeycloakCall -> result failure string;
  done_ : list KeycloakCall -> KeycloakCall -> result failure unit;
  monotonic : list KeycloakCall -> Z;
  cert_cache_ttl : Z;                             (* [settings.keycloak.cert_cache_ttl] *)
}.

(** the provider and the request it serves: the database, the cookie, the cached keys *)
Record Web `{Jwk} := mkWeb {
  web_db : Session;
  session_cookie : dict;
  key : option JWKSet;
  key_expiration : Z;
  calls : list KeycloakCall;
}.
Arguments mkWeb {_} _ _ _ _ _.

Module KeycloakAuthProvider.
Abbreviation K := (SE Web failure).

Section Provider.
Context `{KeycloakServer}.

Definition ask {A} (reply : list KeycloakCall -> KeycloakCall -> result failure A) (c : KeycloakCall) : K A :=
  fun w => (reply (calls w) c, mkWeb (web_db w) (session_cookie w) (key w) (key_expiration w) (calls w ++ [c])).
(** a step on the database *)
Definition with_db {A} (m : M A) : K A := fun w =>
  match m (web_db w) with
  | (Ok a, s) => (Ok a, mkWeb s (session_cookie w) (key w) (key_expiration w) (calls w))
  | (Raise e, s) => (Raise (Raised e), mkWeb s (session_cookie w) (key w) (key_expiration w) (calls w))
  end.
(** [request.session[k] = v] *)
Definition set_cookie (k : string) (v : json) : K unit := fun w =>
  (Ok tt, mkWeb (web_db w) (dict_set k v (session_cookie w)) (key w) (key_expiration w) (calls w)).
(** [request.session.clear()] *)
Definition clear_cookie : K unit := fun w =>
  (Ok tt, mkWeb (web_db w) [] (key w) (key_expiration w) (calls w)).
(** [request.session.get(k)] *)
Definition cookie_get (k : string) : K json := gets (fun w => default JNull (dict_get k (session_cookie w))).
(** [d[k]] *)
Definition item (k : string) (d : dict) : K json :=
  reads (fun _ => or_raise (dict_get k d) (Raised (KeyError k))).

(** the loop over [certs["keys"]] *)
Fixpoint add_keys (certs : list json) (key : JWKSet) : result failure JWKSet :=
  match certs with
  | [] => Ok key
  | cert :: rest => k ← make_jwk cert; add_keys rest (key ++ [k])
  end.
Definition keys_of (certs : json) : result failure JWKSet :=
  match certs with JList l => add_keys l [] | _ => Raise (Raised TypeError) end.
(** [self._key = key] and its expiration *)
Definition store_key (k : JWKSet) : K unit := fun w =>
  (Ok tt, mkWeb (web_db w) (session_cookie w) (Some k) (monotonic (calls w) + cert_cache_ttl) (calls w)).

Definition _get_key : K JWKSet :=
  cached ← gets (fun w => match key w with
                          | Some k => if monotonic (calls w) <? key_expiration w then Some k else None
                          | None => None
                          end);
  match cached with
  | Some k => mret k
  | None =>
      certs ← ask answer ACerts;
      certs ← item "keys" certs;
      k ← reads (fun _ => keys_of certs);
      _ ← store_key k;
      mret k
  end.

Definition redirect_to_auth {A} : K A :=
  url ← (fun w => (auth_url (calls w),
                   mkWeb (web_db w) (session_cookie w) (key w) (key_expiration w) (calls w ++ [AAuthUrl])));
  raise (Raised (RedirectError url)).

(** decode the token of the request; [None] for a token that does not hold *)
Definition decode_access_token (access_token : json) : K (option dict) :=
  catch (k ← _get_key; info ← ask answer (ADecodeToken access_token k); mret (Some info))
    (fun e => if is_keycloak_failure e then Some (mret None) else None).

(** the [try] block that refreshes it *)
Definition refresh_access_token (refresh_token : json) : K dict :=
  catch
    (new_tokens ← ask answer (ARefreshToken refresh_token);
     new_access_token ← item "access_token" new_tokens;
     new_refresh_token ← item "refresh_token" new_tokens;
     _ ← set_cookie "access_token" new_access_token;
     _ ← set_cookie "refresh_token" new_refresh_token;
     k ← _get_key;
     ask answer (ADecodeToken new_access_token k))
    (fun e => if is_keycloak_failure e then Some redirect_to_auth else None).

(** [not token_info] *)
Definition no_info (token_info : option dict) : bool :=
  match token_info with Some (_ :: _) => false | _ => true end.

Definition user_of_claims (token_info : dict) : K User :=
  match OAuth2GatewayProvider.claim "preferred_username" token_info with
  | None => raise (Raised (AuthorizationError "Invalid token"))
  | Some login =>
      if String.eqb login "" then raise (Raised (AuthorizationError "Invalid token"))
      else
        let claim k := OAuth2GatewayProvider.claim k token_info in
        with_db (DummyAuthProvider.get_or_create login (claim "email") (claim "given_name")
                   (claim "middle_name") (claim "family_name"))
  end.

Definition get_current_user (access_token : json) : K User :=
  if negb (json_truthy access_token) then redirect_to_auth
  else
    refresh_token ← cookie_get "refresh_token";
    token_info ← decode_access_token access_token;
    token_info ← (if no_info token_info && json_truthy refresh_token
                  then info ← refresh_access_token refresh_token; mret (Some info)
                  else mret token_info);
    match token_info with
    | Some ((_ :: _) as info) => user_of_claims info
    | _ => raise (Raised (AuthorizationError "Invalid token payload"))
    end.

Definition get_token_authorization_code_grant (code : string) : K dict :=
  catch (ask answer (AToken code))
    (fun e => if is_operation_error e then Some (raise (Raised (AuthorizationError "Failed to get token"))) else None).

Definition logout (user : User) (refresh_token : json) : K unit :=
  if negb (json_truthy refresh_token) then mret tt
  else catch (ask done_ (ALogout refresh_token))
         (fun e => if is_operation_error e
                   then Some (raise (Raised (LogoutError ("Can't logout user: " +:+ username user)))) else None).

(** ** The routes ([server/api/v1/auth.py], [server/services/get_user.py]) *)

(** where [get_user] finds the token: a bearer token, an OAuth token, the cookie *)
Definition request_token (bearer oauth : option string) : K json :=
  match bearer, oauth with
  | Some t, _ => mret (JStr t)
  | None, Some t => if String.eqb t "" then cookie_get "access_token" else mret (JStr t)
  | None, None => cookie_get "access_token"
  end.
Definition get_user (is_superuser : bool) (bearer oauth : option string) : K User :=
  access_token ← request_token bearer oauth;
  user ← get_current_user access_token;
  if negb (is_active user) then raise (Raised (ActionNotAllowedError "Inactive user"))
  else if is_superuser && negb (Models.is_superuser user)
  then raise (Raised (ActionNotAllowedError "You have no power here"))
  else mret user.

Definition auth_callback (code : string) : K unit :=
  token ← get_token_authorization_code_grant code;
  access_token ← item "access_token" token;
  _ ← set_cookie "access_token" access_token;
  refresh_token ← item "refresh_token" token;
  set_cookie "refresh_token" refresh_token.

Definition logout_route (bearer oauth : option string) : K unit :=
  current_user ← get_user false bearer oauth;
  refresh_token ← cookie_get "refresh_token";
  _ ← clear_cookie;
  logout current_user refresh_token.
End Provider.
End KeycloakAuthProvider.

(** ** What the endpoints see of the provider

    The request has the cookie [cookie], the provider the keys [k] until [expiration], and
    [l] are the calls made so far.  An exception of the libraries is none of the program's. *)

Definition as_exc (e : failure) : exc := match e with Raised e => e | _ => LibraryError end.
Definition KeycloakProvider `{KeycloakServer} (cookie : dict) (k : option JWKSet) (expiration : Z)
    (l : list KeycloakCall) : AuthProvider := {|
  get_current_user access_token := fun s =>
    match (token ← KeycloakAuthProvider.request_token access_token None;
           KeycloakAuthProvider.get_current_user token) (mkWeb s cookie k expiration l) with
    | (Ok user, w) => (Ok user, web_db w)
    | (Raise e, w) => (Raise (as_exc e), web_db w)
    end
|}.
