(* ===== verification/KeycloakTheorems.v ===== *)
(** * Theorems about the login by Keycloak *)

From S2P Require Import Prelude PyData Models Errors Database Integrity Search Repository.
From S2P Require Import Repositories RepositoryFacts Auth ApiGroups Server Membership Examples.
From S2P Require Import GroupTheorems KeycloakAuth.
Import KeycloakAuthProvider.

Section Keycloak.
Context `{KeycloakServer}.

(** [k] was made of the certificates answered at time [t], among the calls [l] *)
Definition fetched (k : JWKSet) (l : list KeycloakCall) (t : Z) : Prop :=
  exists l0 d certs, l0 ++ [ACerts] `prefix_of` l /\ answer l0 ACerts = Ok d /\
    dict_get "keys" d = Some certs /\ keys_of certs = Ok k /\ monotonic (l0 ++ [ACerts]) = t.

(** Keycloak decoded [token] to [info] under keys that were fetched less than the
    lifetime of the cache before *)
Definition verified (token : json) (info : dict) (l : list KeycloakCall) : Prop :=
  exists k l0 t, l0 ++ [ADecodeToken token k] `prefix_of` l /\
    answer l0 (ADecodeToken token k) = Ok info /\ fetched k l0 t /\ monotonic l0 < t + cert_cache_ttl.

(** the cached keys expire when they should *)
Definition key_ok (w : Web) : Prop :=
  forall k, key w = Some k -> exists t, fetched k (calls w) t /\ key_expiration w = t + cert_cache_ttl.

Lemma fetched_mono k l l' t : l `prefix_of` l' -> fetched k l t -> fetched k l' t.
Proof. intros Hl (l0 & d & c & Hp & Hr). exists l0, d, c. split; [by etrans|done]. Qed.
Lemma verified_mono tok i l l' : l `prefix_of` l' -> verified tok i l -> verified tok i l'.
Proof. intros Hl (k & l0 & t & Hp & Hr). exists k, l0, t. split; [by etrans|done]. Qed.

Lemma catch_ok {S E A} (m : SE S E A) h s a s' : catch m h s = (Ok a, s') ->
  m s = (Ok a, s') \/ exists e s1 k, m s = (Raise e, s1) /\ h e = Some k /\ k s1 = (Ok a, s').
Proof.
  unfold catch. destruct (m s) as [[b|e] s1]; [by left|]. destruct (h e) as [k|] eqn:He; [|done].
  intros Hk. right. by exists e, s1, k.
Qed.
Lemma redirect_raises {A} w (a : A) w' : redirect_to_auth w <> (Ok a, w').
Proof. unfold redirect_to_auth. rewrite bind_run. by destruct (auth_url (calls w)). Qed.

(** ** Steps keep the cache right and only add calls *)

Definition steps {A} (m : K A) : Prop := forall w r w', m w = (r, w') -> key_ok w ->
  key_ok w' /\ calls w `prefix_of` calls w'.

Lemma key_ok_calls w s d l : key_ok w -> calls w `prefix_of` l ->
  key_ok (mkWeb s d (key w) (key_expiration w) l).
Proof.
  intros Hk Hl k0 Hk0. destruct (Hk k0 Hk0) as (t & Ht & He). exists t. split; [|done]. by eapply fetched_mono.
Qed.

Lemma steps_ret {A} (a : A) : steps (mret a).
Proof. by intros w r w' [= <- <-]. Qed.
Lemma steps_raise {A} e : steps (raise (A := A) e).
Proof. by intros w r w' [= <- <-]. Qed.
Lemma steps_gets {A} (f : Web -> A) : steps (gets f).
Proof. by intros w r w' [= <- <-]. Qed.
Lemma steps_reads {A} (f : Web -> result failure A) : steps (reads f).
Proof. by intros w r w' [= <- <-]. Qed.
Lemma steps_bind {A B} (m : K A) (f : A -> K B) : steps m -> (forall a, steps (f a)) -> steps (m ≫= f).
Proof.
  intros Hm Hf w r w' Hr Hk. rewrite bind_run in Hr. destruct (m w) as [[a|e] w1] eqn:Hw.
  - destruct (Hm _ _ _ Hw Hk) as [Hk1 Hp]. destruct (Hf _ _ _ _ Hr Hk1). split; [done|by etrans].
  - injection Hr as <- <-. by apply (Hm _ _ _ Hw).
Qed.
Lemma steps_catch {A} (m : K A) h : steps m -> (forall e k, h e = Some k -> steps k) -> steps (catch m h).
Proof.
  intros Hm Hh w r w' Hr Hk. unfold catch in Hr. destruct (m w) as [[a|e] w1] eqn:Hw.
  - injection Hr as <- <-. by apply (Hm _ _ _ Hw).
  - destruct (Hm _ _ _ Hw Hk) as [Hk1 Hp]. destruct (h e) as [k|] eqn:He.
    + destruct (Hh _ _ He _ _ _ Hr Hk1). split; [done|by etrans].
    + by injection Hr as <- <-.
Qed.
Lemma steps_ask {A} (f : list KeycloakCall -> KeycloakCall -> result failure A) c : steps (ask f c).
Proof.
  intros w r w' [= <- <-] Hk. cbn. split; [apply key_ok_calls; [done|]|]; by apply prefix_app_r.
Qed.
Lemma steps_with_db {A} (m : M A) : steps (with_db m).
Proof.
  intros w r w' Hr Hk. unfold with_db in Hr.
  destruct (m (web_db w)) as [[a|e] s]; injection Hr as <- <-; (split; [by apply key_ok_calls|done]).
Qed.
Lemma steps_set_cookie k v : steps (set_cookie k v).
Proof. intros w r w' [= <- <-] Hk. split; [by apply key_ok_calls|done]. Qed.
Lemma steps_clear_cookie : steps clear_cookie.
Proof. intros w r w' [= <- <-] Hk. split; [by apply key_ok_calls|done]. Qed.
Lemma steps_redirect {A} : steps (redirect_to_auth (A := A)).
Proof.
  intros w r w' Hr Hk. unfold redirect_to_auth in Hr. rewrite bind_run in Hr.
  destruct (auth_url (calls w)); injection Hr as <- <-; cbn;
    (split; [apply key_ok_calls; [done|]|]; by apply prefix_app_r).
Qed.
Lemma get_key_run w r w' : 0 < cert_cache_ttl -> _get_key w = (r, w') -> key_ok w ->
  key_ok w' /\ calls w `prefix_of` calls w' /\ web_db w' = web_db w /\ session_cookie w' = session_cookie w /\
  forall k, r = Ok k -> exists t, fetched k (calls w') t /\ monotonic (calls w') < t + cert_cache_ttl.
Proof.
  intros Httl Hr Hk. unfold _get_key in Hr. rewrite bind_run in Hr. unfold gets at 1 in Hr.
  assert (forall k, key w = Some k -> monotonic (calls w) < key_expiration w -> exists t,
    fetched k (calls w) t /\ monotonic (calls w) < t + cert_cache_ttl) as Hcached.
  { intros k Hk1 Hlt. destruct (Hk k Hk1) as (t & Ht & He). exists t. split; [done|lia]. }
  set (cached := match key w with Some k => _ | None => None end) in Hr.
  destruct cached as [k|] eqn:Hc; subst cached.
  { injection Hr as <- <-. split_and!; try done. intros k' [= <-]. destruct (key w) as [k0|]; [|done].
    destruct (Z.ltb_spec (monotonic (calls w)) (key_expiration w)); [|done]. injection Hc as ->. by apply Hcached. }
  clear Hc Hcached. rewrite bind_run in Hr. unfold ask in Hr.
  set (l := calls w ++ [ACerts]) in Hr. assert (calls w `prefix_of` l) as Hp by by apply prefix_app_r.
  destruct (answer (calls w) ACerts) as [d|e] eqn:Ha.
  2:{ injection Hr as <- <-. split_and!; [by apply key_ok_calls|done..]. }
  rewrite bind_run in Hr. unfold item, reads in Hr. destruct (dict_get "keys" d) as [certs|] eqn:Hd; cbn in Hr.
  2:{ injection Hr as <- <-. split_and!; [by apply key_ok_calls|done..]. }
  rewrite bind_run in Hr. destruct (keys_of certs) as [k|e] eqn:Hks.
  2:{ injection Hr as <- <-. split_and!; [by apply key_ok_calls|done..]. }
  injection Hr as <- <-. cbn. assert (fetched k l (monotonic l)) as Hf by (exists (calls w), d, certs; by split_and!).
  split_and!; [|done..|].
  - intros k' [= <-]. by exists (monotonic l).
  - intros k' [= <-]. exists (monotonic l). split; [done|lia].
Qed.

Lemma steps_get_key : 0 < cert_cache_ttl -> steps _get_key.
Proof. intros Ht w r w' Hr Hk. by destruct (get_key_run _ _ _ Ht Hr Hk) as (?&?&_). Qed.

(** keys, then a token decoded under them *)
Lemma decode_run tok w r w' : 0 < cert_cache_ttl ->
  (k ← _get_key; ask answer (ADecodeToken tok k)) w = (r, w') -> key_ok w ->
  key_ok w' /\ calls w `prefix_of` calls w' /\ web_db w' = web_db w /\ session_cookie w' = session_cookie w /\
  forall info, r = Ok info -> verified tok info (calls w').
Proof.
  intros Ht Hr Hk. rewrite bind_run in Hr. destruct (_get_key w) as [[k|e] w1] eqn:Hw;
    destruct (get_key_run _ _ _ Ht Hw Hk) as (Hk1 & Hp & Hdb & Hs & Hf).
  - destruct (Hf k eq_refl) as (t & Hft & Hlt). unfold ask in Hr. injection Hr as <- <-. cbn.
    split_and!; [apply key_ok_calls; [done|by apply prefix_app_r]|by apply prefix_app_r|done..|].
    intros info Hi. by exists k, (calls w1), t.
  - injection Hr as <- <-. by split_and!.
Qed.

Lemma decode_access_token_run tok w r w' : 0 < cert_cache_ttl -> decode_access_token tok w = (r, w') -> key_ok w ->
  key_ok w' /\ calls w `prefix_of` calls w' /\ web_db w' = web_db w /\ session_cookie w' = session_cookie w /\
  forall info, r = Ok (Some info) -> verified tok info (calls w').
Proof.
  intros Ht Hr Hk. unfold decode_access_token, catch in Hr.
  assert ((k ← _get_key; info ← ask answer (ADecodeToken tok k); mret (Some info)) w =
    match (k ← _get_key; ask answer (ADecodeToken tok k)) w with
    | (Ok i, w1) => (Ok (Some i), w1) | (Raise e, w1) => (Raise e, w1) end) as Heq.
  { rewrite !bind_run. destruct (_get_key w) as [[k|e] w1]; [|done]. by rewrite bind_run. }
  rewrite Heq in Hr. clear Heq. destruct ((k ← _get_key; ask answer (ADecodeToken tok k)) w) as [[i|e] w1] eqn:Hw;
    destruct (decode_run _ _ _ _ Ht Hw Hk) as (Hk1 & Hp & Hdb & Hs & Hf).
  - injection Hr as <- <-. split_and!; [done..|]. intros i' [= <-]. by apply Hf.
  - destruct (is_keycloak_failure e); injection Hr as <- <-; by split_and!.
Qed.

(** the request goes on under the tokens a refresh brought *)
Definition refreshed (token : json) (w : Web) : Prop :=
  exists rt tokens l0, l0 ++ [ARefreshToken rt] `prefix_of` calls w /\ answer l0 (ARefreshToken rt) = Ok tokens /\
    dict_get "access_token" tokens = Some token /\ dict_get "access_token" (session_cookie w) = Some token /\
    dict_get "refresh_token" (session_cookie w) = dict_get "refresh_token" tokens.

Lemma refresh_run rt w info w' : 0 < cert_cache_ttl -> refresh_access_token rt w = (Ok info, w') -> key_ok w ->
  key_ok w' /\ calls w `prefix_of` calls w' /\ web_db w' = web_db w /\
  exists tok, verified tok info (calls w') /\ refreshed tok w'.
Proof.
  intros Ht Hr Hk. apply catch_ok in Hr as [Hw|(e & w1 & k & _ & He & Hr)].
  2:{ destruct (is_keycloak_failure e); [|done]. injection He as <-. by apply redirect_raises in Hr. }
  apply bind_ok in Hw as (tokens & w1 & Ha & Hw). unfold ask in Ha. injection Ha as Ha <-.
  apply bind_ok in Hw as (tok & w1 & Hi & Hw). unfold item, reads in Hi. injection Hi as Hi <-.
  apply bind_ok in Hw as (rt' & w1 & Hi' & Hw). unfold item, reads in Hi'. injection Hi' as Hi' <-.
  destruct (dict_get "access_token" tokens) as [tok'|] eqn:Hat; [injection Hi as ->|done].
  destruct (dict_get "refresh_token" tokens) as [rt''|] eqn:Hrt; [injection Hi' as ->|done].
  apply bind_ok in Hw as (u & w1 & [= _ <-] & Hw). apply bind_ok in Hw as (u' & w1 & [= _ <-] & Hw). cbn in Hw.
  set (l := calls w ++ [ARefreshToken rt]) in *. assert (calls w `prefix_of` l) as Hp by by apply prefix_app_r.
  destruct (decode_run _ _ _ _ Ht Hw) as (Hk' & Hp' & Hdb & Hs & Hv); [by apply key_ok_calls|]. cbn in *.
  split_and!; [done|by etrans|done|]. exists tok. split; [by apply Hv|].
  exists rt, tokens, (calls w). rewrite Hs, Hrt. split_and!; try done.
  - by rewrite dict_get_set_ne, dict_get_set_eq.
  - by rewrite dict_get_set_eq.
Qed.
Lemma user_of_claims_run info w u w' : db_wf (working (web_db w)) -> user_of_claims info w = (Ok u, w') ->
  OAuth2GatewayProvider.claim "preferred_username" info = Some (username u) /\
  users (committed (web_db w')) !! user_id u = Some u /\
  (committed (web_db w') = working (web_db w) \/
   users (working (web_db w)) !! user_id u = None /\ is_active u = true /\ is_superuser u = false /\
   committed (web_db w') = with_tbl (<[user_id u := u]> (users (working (web_db w)))) (working (web_db w))) /\
  calls w' = calls w /\ session_cookie w' = session_cookie w /\ key w' = key w /\ key_expiration w' = key_expiration w.
Proof.
  intros Hwf Hr. unfold user_of_claims in Hr.
  destruct (OAuth2GatewayProvider.claim "preferred_username" info) as [login|]; [|done].
  destruct (String.eqb login ""); [done|]. unfold with_db in Hr. cbv zeta in Hr.
  destruct (DummyAuthProvider.get_or_create _ _ _ _ _ _) as [[v|e] s] eqn:Hg; [|done]. injection Hr as -> <-. cbn.
  apply get_or_create_ok in Hg as (_ & Hn & Hu & Hc); [|done]. subst login. split_and!; try done.
  destruct Hc as [[_ ?]|(?&?&?&_&?)]; [by left|right; by split_and!].
Qed.

(** C26 A request is served to a user by Keycloak only on a token that Keycloak decoded
    under keys fetched within the lifetime of the cache: the token of the request, or
    the one a refresh brought, which the cookie then holds.  The user is the one the
    token names, stored, and new users are no superusers.  Without a token the caller
    is sent to the login page. *)
Theorem keycloak_user_spec tok w u w' : 0 < cert_cache_ttl -> key_ok w -> db_wf (working (web_db w)) ->
  get_current_user tok w = (Ok u, w') ->
  key_ok w' /\ json_truthy tok = true /\
  exists token info, verified token info (calls w') /\
    ((token = tok /\ session_cookie w' = session_cookie w) \/ refreshed token w') /\
    OAuth2GatewayProvider.claim "preferred_username" info = Some (username u) /\
    users (committed (web_db w')) !! user_id u = Some u /\
    (committed (web_db w') = working (web_db w) \/
     users (working (web_db w)) !! user_id u = None /\ is_active u = true /\ is_superuser u = false /\
     committed (web_db w') = with_tbl (<[user_id u := u]> (users (working (web_db w)))) (working (web_db w))).
Proof.
  intros Ht Hk Hwf Hr. unfold get_current_user in Hr. destruct (json_truthy tok); cbn [negb] in Hr;
    [|by apply redirect_raises in Hr].
  apply bind_ok in Hr as (rt & w1 & [= Hrt <-] & Hr). apply bind_ok in Hr as (i0 & w1 & Hi0 & Hr).
  destruct (decode_access_token_run _ _ _ _ Ht Hi0 Hk) as (Hk1 & Hp1 & Hdb1 & Hs1 & Hv1).
  apply bind_ok in Hr as (i1 & w2 & Hi1 & Hr).
  assert (key_ok w2 /\ web_db w2 = web_db w /\ forall info, i1 = Some info -> exists token,
    verified token info (calls w2) /\ ((token = tok /\ session_cookie w2 = session_cookie w) \/ refreshed token w2))
    as (Hk2 & Hdb2 & Htok).
  { destruct (no_info i0 && json_truthy rt).
    - apply bind_ok in Hi1 as (i & w3 & Hi & Hi1). injection Hi1 as <- <-.
      destruct (refresh_run _ _ _ _ Ht Hi Hk1) as (Hk3 & _ & Hdb3 & token & Hv & Hf).
      split_and!; [done|by etrans|]. intros info [= ->]. exists token. split; [done|by right].
    - injection Hi1 as <- <-. split_and!; [done..|]. intros info ->. exists tok. split; [by apply Hv1|by left]. }
  destruct i1 as [[|kv info]|]; [done| |done]. destruct (Htok _ eq_refl) as (token & Hv & Ho).
  rewrite <- Hdb2 in Hwf. destruct (user_of_claims_run _ _ _ _ Hwf Hr) as (Hn & Hu & Hc & Hcl & Hs & Hkw & Hke).
  rewrite Hdb2 in Hc. split_and!; [|done|].
  - intros k0 Hk0. rewrite Hkw in Hk0. rewrite Hcl, Hke. by apply Hk2.
  - exists token, (kv :: info). rewrite Hcl. split_and!; try done.
    destruct Ho as [[-> Ho]|Ho]; [left; by rewrite Hs|right].
    destruct Ho as (rt' & tokens & l0 & Ho). exists rt', tokens, l0. by rewrite Hcl, Hs.
Qed.

(** ** The laws of the provider *)

Section Database.
Context (s : Session).
Notation P := (fun w => web_db w = s).

Lemma db_ask {A} (f : list KeycloakCall -> KeycloakCall -> result failure A) c : preserves P (ask f c).
Proof. intros w Hw. exact Hw. Qed.
Lemma db_get_key : preserves P _get_key.
Proof.
  unfold _get_key. apply preserves_bind; [apply preserves_gets|]. intros [k|]; [apply preserves_ret|].
  apply preserves_bind; [apply db_ask|]. intros d. apply preserves_bind; [apply preserves_reads|]. intros c.
  apply preserves_bind; [apply preserves_reads|]. intros k. apply preserves_bind; [intros ? ?; done|]. intros _. apply preserves_ret.
Qed.
Lemma db_redirect {A} : preserves P (redirect_to_auth (A := A)).
Proof. apply preserves_bind; [intros ? ?; done|]. intros url. apply preserves_raise. Qed.
Lemma db_decode tok : preserves P (decode_access_token tok).
Proof.
  apply preserves_catch.
  - apply preserves_bind; [apply db_get_key|]. intros k. apply preserves_bind; [apply db_ask|]. intros i. apply preserves_ret.
  - intros e k. destruct (is_keycloak_failure e); [|done]. intros [= <-]. apply preserves_ret.
Qed.
Lemma db_refresh rt : preserves P (refresh_access_token rt).
Proof.
  apply preserves_catch.
  - apply preserves_bind; [apply db_ask|]. intros d. apply preserves_bind; [apply preserves_reads|]. intros a.
    apply preserves_bind; [apply preserves_reads|]. intros b. apply preserves_bind; [intros ? ?; done|]. intros _.
    apply preserves_bind; [intros ? ?; done|]. intros _. apply preserves_bind; [apply db_get_key|]. intros k. apply db_ask.
  - intros e k. destruct (is_keycloak_failure e); [|done]. intros [= <-]. apply db_redirect.
Qed.
End Database.

(** a sign-in raises and leaves the database, or it is [get_or_create] on it *)
Definition signs_in_by (r : result failure User) (s0 s : Session) : Prop :=
  (exists e, r = Raise e) /\ s = s0 \/
  exists l a b c d, match DummyAuthProvider.get_or_create l a b c d s0 with
                    | (Ok u, s1) => r = Ok u /\ s = s1
                    | (Raise e, s1) => r = Raise (Raised e) /\ s = s1
                    end.
Lemma user_of_claims_cases info w r w' : user_of_claims info w = (r, w') -> signs_in_by r (web_db w) (web_db w').
Proof.
  intros Hr. unfold user_of_claims in Hr.
  destruct (OAuth2GatewayProvider.claim "preferred_username" info) as [login|]; [|injection Hr as <- <-; left; eauto].
  destruct (String.eqb login ""); [injection Hr as <- <-; left; eauto|]. cbv zeta in Hr. unfold with_db in Hr. right.
  match type of Hr with context [DummyAuthProvider.get_or_create ?l ?a ?b ?c ?d ?w] => exists l, a, b, c, d;
    destruct (DummyAuthProvider.get_or_create l a b c d w) as [[u|e] s]; injection Hr as <- <-; by split
  end.
Qed.
Lemma current_user_cases tok w r w' : get_current_user tok w = (r, w') -> signs_in_by r (web_db w) (web_db w').
Proof.
  intros Hr. unfold get_current_user in Hr. destruct (json_truthy tok); cbn [negb] in Hr.
  2: { left. pose proof (db_redirect (A := User) (web_db w) w eq_refl) as Hd. unfold final in Hd. rewrite Hr in Hd.
       split; [|done]. destruct r as [u|e]; [by apply redirect_raises in Hr|by eexists]. }
  rewrite bind_run in Hr. cbn -[mbind] in Hr. rewrite bind_run in Hr.
  pose proof (db_decode (web_db w) tok w eq_refl) as Hd. unfold final in Hd.
  destruct (decode_access_token tok w) as [[i|e] w1]; [|injection Hr as <- <-; left; eauto]. cbn in Hd.
  rewrite bind_run in Hr. set (m := if no_info i && _ then _ else _) in Hr.
  assert (preserves (fun w => web_db w = web_db w1) m) as Hm.
  { subst m. destruct (no_info i && _); [|apply preserves_ret]. apply preserves_bind; [apply db_refresh|].
    intros x. apply preserves_ret. }
  specialize (Hm w1 eq_refl). unfold final in Hm. destruct (m w1) as [[o|e] w2]; [|injection Hr as <- <-; left; cbn in Hm; split; [eauto|congruence]].
  cbn in Hm. rewrite <- Hd, <- Hm. destruct o as [[|kv o]|]; [injection Hr as <- <-; left; eauto| |injection Hr as <- <-; left; eauto].
  by apply user_of_claims_cases in Hr.
Qed.

(** whatever the cookie, the cached keys and the answers of Keycloak are *)
Lemma keycloak_run cookie k expiration l t s r s' :
  @Auth.get_current_user (KeycloakProvider cookie k expiration l) t s = (r, s') ->
  (exists e, r = Raise e) /\ s' = s \/ exists n a b c d, DummyAuthProvider.get_or_create n a b c d s = (r, s').
Proof.
  cbn. rewrite bind_run. assert (exists tok, request_token t None (mkWeb s cookie k expiration l) = (Ok tok, mkWeb s cookie k expiration l)) as [tok ->]
    by (destruct t; by eexists).
  destruct (get_current_user tok _) as [r1 w'] eqn:Hr. apply current_user_cases in Hr as [[[e ->] Hs]|(n & a & b & c & d & Hg)].
  - intros [= <- <-]. left. eauto.
  - cbn in Hg. intros Hr. right. exists n, a, b, c, d.
    destruct (DummyAuthProvider.get_or_create n a b c d s) as [[u|e] s1]; destruct Hg as [-> <-]; by injection Hr as <- <-.
Qed.
Lemma KeycloakProviderLaws cookie k expiration l : @AuthProviderLaws (KeycloakProvider cookie k expiration l).
Proof.
  constructor.
  - intros P ? ? t s Hs. unfold final. destruct (Auth.get_current_user t s) as [r s'] eqn:Hr.
    apply keycloak_run in Hr as [[_ ->]|(n & a & b & c & d & Hg)]; [done|].
    pose proof (get_or_create_keeps P n a b c d s Hs) as Hp. unfold final in Hp. by rewrite Hg in Hp.
  - intros t s e s' Hr. apply keycloak_run in Hr as [[_ ->]|(n & a & b & c & d & Hg)]; [done|]. by eapply get_or_create_atomic.
  - intros t s r s' Hwf Hcl Hr. apply keycloak_run in Hr as [[[e ->] ->]|(n & a & b & c & d & Hg)].
    + split_and!; [constructor|done|done].
    + by eapply get_or_create_signs_in.
Qed.

(** After the callback the cookie holds the tokens Keycloak gave for the code, and the
    next request without another token is made with them.  Logging out empties the
    cookie, also when Keycloak refuses. *)
Lemma keycloak_session_spec :
  (forall code w w', auth_callback code w = (Ok tt, w') ->
    exists tokens token, answer (calls w) (AToken code) = Ok tokens /\ dict_get "access_token" tokens = Some token /\
      dict_get "refresh_token" (session_cookie w') = dict_get "refresh_token" tokens /\
      request_token None None w' = (Ok token, w')) /\
  (forall b o w r w', logout_route b o w = (r, w') ->
    match get_user false b o w with
    | (Ok u, w1) => session_cookie w' = [] /\ web_db w' = web_db w1 /\
        (json_truthy (default JNull (dict_get "refresh_token" (session_cookie w1))) = false -> r = Ok tt)
    | (Raise e, w1) => r = Raise e /\ w' = w1
    end).
Proof.
  split.
  - intros code w w' Hr. unfold auth_callback in Hr. apply bind_ok in Hr as (tokens & w1 & Hg & Hr).
    apply catch_ok in Hg as [Hg|(e & w2 & k & _ & He & Hg)].
    2:{ destruct (is_operation_error e); [|done]. by injection He as <-. }
    unfold ask in Hg. injection Hg as Hg <-. exists tokens.
    apply bind_ok in Hr as (tok & w1 & Hi & Hr). unfold item, reads in Hi. injection Hi as Hi <-.
    apply bind_ok in Hr as (u & w1 & [= _ <-] & Hr).
    apply bind_ok in Hr as (rt & w1 & Hi' & Hr). unfold item, reads in Hi'. injection Hi' as Hi' <-.
    destruct (dict_get "access_token" tokens) as [tok'|]; [injection Hi as ->|done].
    destruct (dict_get "refresh_token" tokens) as [rt'|]; [injection Hi' as ->|done].
    unfold set_cookie in Hr. injection Hr as <-. cbn. exists tok. rewrite dict_get_set_eq. split_and!; try done.
    unfold cookie_get, gets. cbn. by rewrite dict_get_set_ne, dict_get_set_eq.
  - intros b o w r w' Hr. unfold logout_route in Hr. rewrite bind_run in Hr.
    destruct (get_user false b o w) as [[u|e] w1]; [|by injection Hr as <- <-].
    rewrite bind_run in Hr. cbn in Hr. rewrite bind_run in Hr. cbn in Hr. unfold logout in Hr.
    destruct (json_truthy _); cbn [negb] in Hr.
    + unfold catch, ask in Hr. cbn in Hr. destruct (done_ _ _) as [[]|e]; [by injection Hr as <- <-|].
      destruct (is_operation_error e); by injection Hr as <- <-.
    + by injection Hr as <- <-.
Qed.
End Keycloak.
#[export] Hint Resolve steps_ret steps_raise steps_gets steps_reads steps_ask steps_with_db steps_set_cookie
  steps_clear_cookie steps_redirect steps_get_key : keycloak.
Ltac steps :=
  repeat first
    [ solve [eauto with keycloak]
    | apply steps_bind; [|intros ?]
    | apply steps_catch; [|intros e k He; destruct e; try discriminate He; injection He as <-]
    | case_match ].

(** every route keeps the cache of keys right, from the start, where it is empty *)
Lemma routes_keep_keys `{KeycloakServer} : 0 < cert_cache_ttl ->
  (forall b bearer oauth, steps (get_user b bearer oauth)) /\
  (forall code, steps (auth_callback code)) /\
  (forall bearer oauth, steps (logout_route bearer oauth)).
Proof.
  intros Ht. assert (forall b bearer oauth, steps (get_user b bearer oauth)) as Hu.
  { intros b bearer oauth. unfold get_user, request_token, get_current_user, cookie_get, decode_access_token,
      refresh_access_token, item, user_of_claims. cbv zeta. steps. }
  split_and!; [done| |].
  - intros code. unfold auth_callback, get_token_authorization_code_grant, item. steps.
  - intros bearer oauth. unfold logout_route. apply steps_bind; [done|]. intros u. unfold cookie_get, logout. steps.
Qed.

(** ** Witness: an expired token that is refreshed *)

Definition plain_jwk : Jwk := {| JWK := json; make_jwk := Ok |}.
#[local] Existing Instance plain_jwk | 0.
Definition small_keycloak : KeycloakServer := {|
  answer _ c :=
    match c with
    | ACerts => Ok [("keys", JList [JInt 1])]
    | ADecodeToken (JStr "new") _ => Ok [("preferred_username", JStr "alice")]
    | ARefreshToken _ => Ok [("access_token", JStr "new"); ("refresh_token", JStr "r2")]
    | _ => Raise JWException
    end;
  auth_url _ := Ok "https://keycloak/login";
  done_ _ _ := Ok tt;
  monotonic l := Z.of_nat (length l);
  cert_cache_ttl := 3600;
|}.
#[local] Existing Instance small_keycloak | 0.
Definition browser : Web :=
  mkWeb world [("access_token", JStr "old"); ("refresh_token", JStr "r1")] None 0 [].

Lemma keycloak_user_spec_witness :
  match get_current_user (JStr "old") browser with
  | (Ok u, w') => username u = "alice" /\ exists token info, verified token info (calls w') /\
      OAuth2GatewayProvider.claim "preferred_username" info = Some (username u)
  | (Raise _, _) => False
  end.
Proof.
  destruct (get_current_user (JStr "old") browser) as [[u|e] w'] eqn:Hr;
    [|assert (is_ok (get_current_user (JStr "old") browser).1 = true) as Hok by (vm_compute; reflexivity);
      rewrite Hr in Hok; discriminate Hok].
  assert (0 < cert_cache_ttl) as Httl by reflexivity.
  assert (key_ok browser) as Hk by discriminate.
  destruct (keycloak_user_spec (JStr "old") browser u w' Httl Hk (proj2 world_wf) Hr) as (_ & _ & token & info & Hv & _ & Hn & _).
  split; [|exact (ex_intro _ token (ex_intro _ info (conj Hv Hn)))].
  assert (username <$> (get_current_user (JStr "old") browser).1 = Ok "alice") as Hn' by (vm_compute; reflexivity).
  rewrite Hr in Hn'. injection Hn' as Hn'. exact Hn'.
Defined.
