(* ===== verification/Ddl.v ===== *)
(** * Schemas and the operations of migrations ([alembic.op])

    What a migration changes: tables with their columns and constraints, indexes,
    sequences and extensions, by the operations of Alembic the migrations use and the
    errors PostgreSQL answers them with. *)

From S2P Require Import Prelude PyData.
From Stdlib Require Import Ascii.

Inductive ColumnType :=
| BigInteger | Integer | StringType (length : option Z) | Boolean | DateTime (timezone : bool)
| JSON | TSVECTOR | Float (precision : Z) | LargeBinary | PickleType | Text.
#[export] Instance ColumnType_eq_dec : EqDecision ColumnType.
Proof. solve_decision. Defined.

Record Column := mkColumn {
  col_name : string;
  col_type : ColumnType;
  col_nullable : bool;
  col_server_default : option string;
  col_computed : option string;
}.
#[export] Instance Column_eq_dec : EqDecision Column.
Proof. solve_decision. Defined.

Inductive Constraint :=
| PrimaryKey (columns : list string)
| Unique (columns : list string)
| ForeignKey (columns : list string) (table : string) (referred : list string) (ondelete : string).
#[export] Instance Constraint_eq_dec : EqDecision Constraint.
Proof. solve_decision. Defined.
Definition constrained (c : Constraint) : list string :=
  match c with PrimaryKey l | Unique l | ForeignKey l _ _ _ => l end.

Record TableDef := mkTableDef {
  columns : gmap string Column;
  constraints : gmap string Constraint;            (* by name *)
}.
#[export] Instance TableDef_eq_dec : EqDecision TableDef.
Proof. solve_decision. Defined.

Record IndexDef := mkIndexDef {
  index_table : string;
  index_columns : list string;
  index_unique : bool;
  index_using : option string;
}.
#[export] Instance IndexDef_eq_dec : EqDecision IndexDef.
Proof. solve_decision. Defined.

Record Schema := mkSchema {
  tables : gmap string TableDef;
  indexes : gmap string IndexDef;
  sequences : gset string;
  extensions : gset string;
}.
#[export] Instance Schema_eq_dec : EqDecision Schema.
Proof. solve_decision. Defined.
Definition empty_schema : Schema := mkSchema ∅ ∅ ∅ ∅.

(** what PostgreSQL answers *)
Inductive DdlError :=
| DuplicateTable (name : string) | UndefinedTable (name : string)
| DuplicateColumn (name : string) | UndefinedColumn (name : string)
| DuplicateObject (name : string) | UndefinedObject (name : string)
| DependentObjectsStillExist (name : string).
#[export] Instance DdlError_eq_dec : EqDecision DdlError.
Proof. solve_decision. Defined.

Abbreviation D := (SE Schema DdlError).

(** ** The text of an expression

    PostgreSQL keeps the parsed expression: comments go, and white space between
    tokens is no more than a separator. *)

Definition newline_char : ascii := ascii_of_nat 10.
Definition is_blank (c : ascii) : bool := Ascii.eqb c " "%char || Ascii.eqb c newline_char.
(** in a literal; in a comment; after a blank; outside *)
Inductive SqlState := InLiteral | InComment | AfterBlank | Outside.
Definition quote_char : ascii := "'"%char.
Fixpoint normalize_go (st : SqlState) (s : string) : string :=
  match s with
  | EmptyString => EmptyString
  | String c s' =>
      match st with
      | InComment => normalize_go (if Ascii.eqb c newline_char then AfterBlank else InComment) s'
      | InLiteral => String c (normalize_go (if Ascii.eqb c quote_char then Outside else InLiteral) s')
      | _ =>
          if Ascii.eqb c "-"%char && String.prefix "-" s' then normalize_go InComment s'
          else if is_blank c then normalize_go AfterBlank s'
          else
            let rest := String c (normalize_go (if Ascii.eqb c quote_char then InLiteral else Outside) s') in
            match st with AfterBlank => String " "%char rest | _ => rest end
      end
  end.
Definition normalize (s : string) : string :=
  match normalize_go AfterBlank s with String _ s' => s' | EmptyString => EmptyString end.

(** ** Columns *)

Definition column (name : string) (type : ColumnType) (nullable : bool) : Column :=
  mkColumn name type nullable None None.
Definition timestamp_column (name : string) : Column :=
  mkColumn name (DateTime true) false (Some "now()") None.
(** [sa.Computed(expression, persisted=True)] *)
Definition computed_column (name expression : string) : Column :=
  mkColumn name TSVECTOR false None (Some (normalize expression)).

Definition column_map (l : list Column) : gmap string Column :=
  list_to_map ((fun c => (col_name c, c)) <$> l).

(** ** Operations *)

Definition set_tables (t : gmap string TableDef) (s : Schema) : Schema :=
  mkSchema t (indexes s) (sequences s) (extensions s).
Definition set_indexes (i : gmap string IndexDef) (s : Schema) : Schema :=
  mkSchema (tables s) i (sequences s) (extensions s).

(** the first of the texts that is missing *)
Definition missing {A} (m : gmap string A) (l : list string) : option string :=
  find (fun n => bool_decide (m !! n = None)) l.

Definition check_constraint (name : string) (cols : gmap string Column) (s : Schema) (c : Constraint)
    : result DdlError unit :=
  match missing cols (constrained c) with
  | Some n => Raise (UndefinedColumn n)
  | None =>
      match c with
      | ForeignKey _ t referred _ =>
          match (if String.eqb t name then Some cols else columns <$> tables s !! t) with
          | None => Raise (UndefinedTable t)
          | Some there => match missing there referred with Some n => Raise (UndefinedColumn n) | None => Ok tt end
          end
      | _ => Ok tt
      end
  end.

Definition create_table (name : string) (cols : list Column) (cs : list (string * Constraint)) : D unit := fun s =>
  match tables s !! name with
  | Some _ => (Raise (DuplicateTable name), s)
  | None =>
      match mapM (fun c => check_constraint name (column_map cols) s c.2) cs with
      | Raise e => (Raise e, s)
      | Ok _ => (Ok tt, set_tables (<[name := mkTableDef (column_map cols) (list_to_map cs)]> (tables s)) s)
      end
  end.

(** a foreign key of a table to another *)
Definition refers_to (name : string) (t : TableDef) : Prop :=
  map_Exists (fun _ c => match c with ForeignKey _ t' _ _ => t' = name | _ => False end) (constraints t).
#[export] Instance refers_to_dec name t : Decision (refers_to name t).
Proof. apply map_Exists_dec. intros i [| |? t' ? ?]; apply _. Defined.

Definition drop_table (name : string) : D unit := fun s =>
  match tables s !! name with
  | None => (Raise (UndefinedTable name), s)
  | Some _ =>
      if bool_decide (map_Exists (fun n t => n <> name /\ refers_to name t) (tables s))
      then (Raise (DependentObjectsStillExist name), s)
      else (Ok tt, set_indexes (filter (fun ni => index_table ni.2 <> name) (indexes s))
                     (set_tables (delete name (tables s)) s))
  end.

Definition create_index (if_not_exists : bool) (name table : string) (cols : list string) (unique : bool)
    (using_ : option string) : D unit := fun s =>
  match indexes s !! name with
  | Some _ => if if_not_exists then (Ok tt, s) else (Raise (DuplicateObject name), s)
  | None =>
      match tables s !! table with
      | None => (Raise (UndefinedTable table), s)
      | Some t =>
          match missing (columns t) cols with
          | Some n => (Raise (UndefinedColumn n), s)
          | None => (Ok tt, set_indexes (<[name := mkIndexDef table cols unique using_]> (indexes s)) s)
          end
      end
  end.
Definition drop_index (if_exists : bool) (name : string) : D unit := fun s =>
  match indexes s !! name with
  | Some _ => (Ok tt, set_indexes (delete name (indexes s)) s)
  | None => if if_exists then (Ok tt, s) else (Raise (UndefinedObject name), s)
  end.

Definition add_column (table : string) (c : Column) : D unit := fun s =>
  match tables s !! table with
  | None => (Raise (UndefinedTable table), s)
  | Some t =>
      match columns t !! col_name c with
      | Some _ => (Raise (DuplicateColumn (col_name c)), s)
      | None =>
          (Ok tt, set_tables (<[table := mkTableDef (<[col_name c := c]> (columns t)) (constraints t)]> (tables s)) s)
      end
  end.
(** the indexes and the constraints of the table on the column go with it; the
    columns dropped here are referred to by no other table *)
Definition drop_column (table name : string) : D unit := fun s =>
  match tables s !! table with
  | None => (Raise (UndefinedTable table), s)
  | Some t =>
      match columns t !! name with
      | None => (Raise (UndefinedColumn name), s)
      | Some _ =>
          let t' := mkTableDef (delete name (columns t)) (filter (fun nc => name ∉ constrained nc.2) (constraints t)) in
          (Ok tt, set_indexes (filter (fun ni => index_table ni.2 <> table \/ name ∉ index_columns ni.2) (indexes s))
                    (set_tables (<[table := t']> (tables s)) s))
      end
  end.

(** [CREATE SEQUENCE IF NOT EXISTS], [DROP SEQUENCE] *)
Definition create_sequence (name : string) : D unit := fun s =>
  (Ok tt, mkSchema (tables s) (indexes s) ({[name]} ∪ sequences s) (extensions s)).
Definition drop_sequence (name : string) : D unit := fun s =>
  if bool_decide (name ∈ sequences s)
  then (Ok tt, mkSchema (tables s) (indexes s) (sequences s ∖ {[name]}) (extensions s))
  else (Raise (UndefinedObject name), s).
(** [CREATE EXTENSION IF NOT EXISTS], [DROP EXTENSION IF EXISTS] *)
Definition create_extension (name : string) : D unit := fun s =>
  (Ok tt, mkSchema (tables s) (indexes s) (sequences s) ({[name]} ∪ extensions s)).
Definition drop_extension (name : string) : D unit := fun s =>
  (Ok tt, mkSchema (tables s) (indexes s) (sequences s) (extensions s ∖ {[name]})).
Definition exists_table (name : string) : D bool := gets (fun s => bool_decide (is_Some (tables s !! name))).
