(* ===== verification/Migrations.v ===== *)
(** * Migrations ([db/migrations])

    The thirteen revisions of [db/migrations/versions], each with the operations of its
    [upgrade] and [downgrade] in their order, Alembic's walk along [down_revision], and
    the next revision number of [env.py].  Names PostgreSQL chooses for constraints
    without one are written out. *)

From S2P Require Import Prelude PyData TransferSchemas Ddl.
From Stdlib Require Import Ascii.

Record Migration := mkMigration {
  revision : string;
  down_revision : option string;
  upgrade : D unit;
  downgrade : D unit;
}.

(** ** [2023-11-23_0001_create_user_table.py] *)

Definition upgrade_0001 : D unit :=
  _ ← create_table "user"
    [column "id" BigInteger false;
     column "username" (StringType (Some 256)) false;
     column "email" (StringType (Some 256)) true;
     column "first_name" (StringType (Some 256)) true;
     column "last_name" (StringType (Some 256)) true;
     column "middle_name" (StringType (Some 256)) true;
     column "is_superuser" Boolean false;
     column "is_active" Boolean false;
     timestamp_column "created_at";
     timestamp_column "updated_at"]
    [("pk__user", PrimaryKey ["id"])];
  create_index false "ix__user__username" "user" ["username"] true None.

Definition downgrade_0001 : D unit :=
  _ ← drop_index false "ix__user__username";
  drop_table "user".

Definition revision_0001 : Migration :=
  mkMigration "0001" None upgrade_0001 downgrade_0001.

(** ** [2023-11-23_0002_create_group_table.py] *)

Definition group_search_0002 : string := "to_tsvector('english'::regconfig, name)".

Definition upgrade_0002 : D unit :=
  _ ← create_table "group"
    [column "id" BigInteger false;
     column "name" (StringType (Some 128)) false;
     column "description" (StringType (Some 512)) false;
     column "owner_id" BigInteger false;
     timestamp_column "created_at";
     timestamp_column "updated_at";
     computed_column "search_vector" group_search_0002]
    [("fk__group__owner_id__user", ForeignKey ["owner_id"] "user" ["id"] "CASCADE");
     ("pk__group", PrimaryKey ["id"]);
     ("uq__group__name", Unique ["name"])];
  create_index false "ix__group__owner_id" "group" ["owner_id"] false None.

Definition downgrade_0002 : D unit :=
  _ ← drop_index false "ix__group__owner_id";
  drop_table "group".

Definition revision_0002 : Migration :=
  mkMigration "0002" (Some "0001") upgrade_0002 downgrade_0002.

(** ** [2023-11-23_0003_create_queue_table.py] *)

Definition queue_search_0003 : string := "to_tsvector('english'::regconfig, name)".

Definition upgrade_0003 : D unit :=
  _ ← create_table "queue"
    [column "id" BigInteger false;
     column "name" (StringType (Some 128)) false;
     column "slug" (StringType (Some 256)) false;
     column "group_id" BigInteger false;
     column "description" (StringType (Some 512)) false;
     timestamp_column "created_at";
     timestamp_column "updated_at";
     computed_column "search_vector" queue_search_0003]
    [("fk__queue__group_id__group", ForeignKey ["group_id"] "group" ["id"] "CASCADE");
     ("pk__queue", PrimaryKey ["id"]);
     ("uq__queue__slug", Unique ["slug"])];
  create_index false "ix__queue__group_id" "queue" ["group_id"] false None.

Definition downgrade_0003 : D unit :=
  _ ← drop_index false "ix__queue__group_id";
  drop_table "queue".

Definition revision_0003 : Migration :=
  mkMigration "0003" (Some "0002") upgrade_0003 downgrade_0003.

(** ** [2023-11-23_0004_create_connection_table.py] *)

Definition connection_search_0004 : string := 
  "to_tsvector('english'::regconfig, name || ' ' || " +:+
  "COALESCE(json_extract_path_text(data, 'host'), '') || ' ' || " +:+
  "COALESCE(translate(json_extract_path_text(data, 'host'), '.', ' '), ''))".

Definition upgrade_0004 : D unit :=
  _ ← create_table "connection"
    [column "id" BigInteger false;
     column "group_id" BigInteger false;
     column "type" (StringType (Some 32)) false;
     column "name" (StringType (Some 128)) false;
     column "description" (StringType (Some 512)) false;
     column "data" JSON false;
     timestamp_column "created_at";
     timestamp_column "updated_at";
     computed_column "search_vector" connection_search_0004]
    [("fk__connection__group_id__group", ForeignKey ["group_id"] "group" ["id"] "CASCADE");
     ("pk__connection", PrimaryKey ["id"]);
     ("uq__connection__name_group_id", Unique ["name"; "group_id"])];
  _ ← create_index false "ix__connection__group_id" "connection" ["group_id"] false None;
  create_index false "idx_connection_search_vector" "connection" ["search_vector"] false (Some "gin").

Definition downgrade_0004 : D unit :=
  _ ← drop_index false "ix__connection__group_id";
  _ ← drop_index false "idx_connection_search_vector";
  drop_table "connection".

Definition revision_0004 : Migration :=
  mkMigration "0004" (Some "0003") upgrade_0004 downgrade_0004.

(** ** [2023-11-23_0005_create_user_group_table.py] *)

Definition upgrade_0005 : D unit :=
  _ ← create_table "user_group"
    [column "user_id" BigInteger false;
     column "group_id" BigInteger false;
     column "role" (StringType (Some 255)) false]
    [("fk__user_group__group_id__group", ForeignKey ["group_id"] "group" ["id"] "CASCADE");
     ("fk__user_group__user_id__user", ForeignKey ["user_id"] "user" ["id"] "CASCADE");
     ("pk__user_group", PrimaryKey ["user_id"; "group_id"])];
  _ ← create_index false "ix__user_group__group_id" "user_group" ["group_id"] false None;
  create_index false "ix__user_group__user_id" "user_group" ["user_id"] false None.

Definition downgrade_0005 : D unit :=
  _ ← drop_index false "ix__user_group__user_id";
  _ ← drop_index false "ix__user_group__group_id";
  drop_table "user_group".

Definition revision_0005 : Migration :=
  mkMigration "0005" (Some "0004") upgrade_0005 downgrade_0005.

(** ** [2023-11-23_0006_create_auth_data_table.py] *)

Definition upgrade_0006 : D unit :=
  create_table "auth_data"
    [column "connection_id" BigInteger false;
     column "value" (StringType None) false;
     timestamp_column "created_at";
     timestamp_column "updated_at"]
    [("fk__auth_data__connection_id__connection", ForeignKey ["connection_id"] "connection" ["id"] "CASCADE");
     ("pk__auth_data", PrimaryKey ["connection_id"])].

Definition downgrade_0006 : D unit :=
  drop_table "auth_data".

Definition revision_0006 : Migration :=
  mkMigration "0006" (Some "0005") upgrade_0006 downgrade_0006.

(** ** [2023-11-23_0007_create_transfer_table.py] *)

Definition transfer_search_0007 : string := 
  "to_tsvector('english'::regconfig, name || ' ' || " +:+
  "COALESCE(json_extract_path_text(source_params, 'table_name'), '') || ' ' || " +:+
  "COALESCE(json_extract_path_text(target_params, 'table_name'), '') || ' ' || " +:+
  "COALESCE(json_extract_path_text(source_params, 'directory_path'), '') || ' ' || " +:+
  "COALESCE(json_extract_path_text(target_params, 'directory_path'), '') || ' ' || " +:+
  "translate(name, './', '  ') || ' ' || " +:+
  "COALESCE(translate(json_extract_path_text(source_params, 'table_name'), './', '  '), '') || ' ' || " +:+
  "COALESCE(translate(json_extract_path_text(target_params, 'table_name'), './', '  '), '') || ' ' || " +:+
  "COALESCE(translate(json_extract_path_text(source_params, 'directory_path'), './', '  '), '') || ' ' || " +:+
  "COALESCE(translate(json_extract_path_text(target_params, 'directory_path'), './', '  '), ''))".

Definition upgrade_0007 : D unit :=
  _ ← create_table "transfer"
    [column "id" BigInteger false;
     column "group_id" BigInteger false;
     column "name" (StringType (Some 128)) false;
     column "description" (StringType (Some 512)) false;
     column "source_connection_id" BigInteger false;
     column "target_connection_id" BigInteger false;
     column "strategy_params" JSON false;
     column "source_params" JSON false;
     column "target_params" JSON false;
     column "transformations" JSON false;
     column "resources" JSON false;
     column "is_scheduled" Boolean false;
     column "schedule" (StringType (Some 32)) false;
     column "queue_id" BigInteger false;
     timestamp_column "created_at";
     timestamp_column "updated_at";
     computed_column "search_vector" transfer_search_0007]
    [("fk__transfer__group_id__group", ForeignKey ["group_id"] "group" ["id"] "CASCADE");
     ("fk__transfer__queue_id__queue", ForeignKey ["queue_id"] "queue" ["id"] "CASCADE");
     ("fk__transfer__source_connection_id__connection", ForeignKey ["source_connection_id"] "connection" ["id"] "CASCADE");
     ("fk__transfer__target_connection_id__connection", ForeignKey ["target_connection_id"] "connection" ["id"] "CASCADE");
     ("pk__transfer", PrimaryKey ["id"]);
     ("uq__transfer__name_group_id", Unique ["name"; "group_id"])];
  _ ← create_index false "ix__transfer__group_id" "transfer" ["group_id"] false None;
  _ ← create_index false "ix__transfer__source_connection_id" "transfer" ["source_connection_id"] false None;
  _ ← create_index false "ix__transfer__target_connection_id" "transfer" ["target_connection_id"] false None;
  create_index false "idx_transfer_search_vector" "transfer" ["search_vector"] false (Some "gin").

Definition downgrade_0007 : D unit :=
  _ ← drop_index false "ix__transfer__target_connection_id";
  _ ← drop_index false "ix__transfer__source_connection_id";
  _ ← drop_index false "ix__transfer__group_id";
  _ ← drop_index false "idx_transfer_search_vector";
  drop_table "transfer".

Definition revision_0007 : Migration :=
  mkMigration "0007" (Some "0006") upgrade_0007 downgrade_0007.

(** ** [2023-11-23_0008_create_run_table.py] *)

Definition upgrade_0008 : D unit :=
  _ ← create_table "run"
    [column "id" BigInteger false;
     column "transfer_id" BigInteger false;
     column "started_at" (DateTime true) true;
     column "ended_at" (DateTime true) true;
     column "status" (StringType (Some 255)) false;
     column "type" (StringType (Some 64)) false;
     column "log_url" (StringType (Some 512)) true;
     column "transfer_dump" JSON false;
     timestamp_column "created_at";
     timestamp_column "updated_at"]
    [("fk__run__transfer_id__transfer", ForeignKey ["transfer_id"] "transfer" ["id"] "CASCADE");
     ("pk__run", PrimaryKey ["id"])];
  _ ← create_index false "ix__run__type" "run" ["type"] false None;
  _ ← create_index false "ix__run__status" "run" ["status"] false None;
  create_index false "ix__run__transfer_id" "run" ["transfer_id"] false None.

Definition downgrade_0008 : D unit :=
  _ ← drop_index false "ix__run__transfer_id";
  _ ← drop_index false "ix__run__status";
  _ ← drop_index false "ix__run__type";
  drop_table "run".

Definition revision_0008 : Migration :=
  mkMigration "0008" (Some "0007") upgrade_0008 downgrade_0008.

(** ** [2023-11-23_0009_create_celery_tables.py] *)

Definition upgrade_0009 : D unit :=
  there ← exists_table "celery_taskmeta";
  if there : bool then mret tt else
  _ ← create_sequence "task_id_sequence";
  _ ← create_table "celery_taskmeta"
    [column "id" Integer false;
     column "task_id" (StringType (Some 155)) true;
     column "status" (StringType (Some 50)) true;
     column "result" PickleType true;
     column "date_done" (DateTime false) true;
     column "traceback" Text true;
     column "name" (StringType (Some 155)) true;
     column "args" LargeBinary true;
     column "kwargs" LargeBinary true;
     column "worker" (StringType (Some 155)) true;
     column "retries" Integer true;
     column "queue" (StringType (Some 155)) true]
    [("celery_taskmeta_pkey", PrimaryKey ["id"]);
     ("celery_taskmeta_task_id_key", Unique ["task_id"])];
  _ ← create_sequence "taskset_id_sequence";
  create_table "celery_tasksetmeta"
    [column "id" Integer false;
     column "taskset_id" (StringType (Some 155)) true;
     column "result" PickleType true;
     column "date_done" (DateTime false) true]
    [("celery_tasksetmeta_pkey", PrimaryKey ["id"]);
     ("celery_tasksetmeta_taskset_id_key", Unique ["taskset_id"])].

Definition downgrade_0009 : D unit :=
  _ ← drop_table "celery_tasksetmeta";
  _ ← drop_table "celery_taskmeta";
  _ ← drop_sequence "task_id_sequence";
  drop_sequence "taskset_id_sequence".

Definition revision_0009 : Migration :=
  mkMigration "0009" (Some "0008") upgrade_0009 downgrade_0009.

(** ** [2024-10-07_0010_add_pg_trgm_extension.py] *)

Definition upgrade_0010 : D unit :=
  create_extension "pg_trgm".

Definition downgrade_0010 : D unit :=
  drop_extension "pg_trgm".

Definition revision_0010 : Migration :=
  mkMigration "0010" (Some "0009") upgrade_0010 downgrade_0010.

(** ** [2024-11-01_0011_create_apscheduler_table.py] *)

Definition upgrade_0011 : D unit :=
  there ← exists_table "apscheduler_jobs";
  if there : bool then mret tt else
  _ ← create_table "apscheduler_jobs"
    [column "id" (StringType (Some 191)) false;
     column "next_run_time" (Float 25) true;
     column "job_state" LargeBinary false]
    [("apscheduler_jobs_pkey", PrimaryKey ["id"])];
  create_index false "ix_apscheduler_jobs_next_run_time" "apscheduler_jobs" ["next_run_time"] false None.

Definition downgrade_0011 : D unit :=
  _ ← drop_index false "ix_apscheduler_jobs_next_run_time";
  drop_table "apscheduler_jobs".

Definition revision_0011 : Migration :=
  mkMigration "0011" (Some "0010") upgrade_0011 downgrade_0011.

(** ** [2025-08-10_0012_update_ts.py] *)

Definition connection_search_0012 : string := "
                -- === NAME FIELD ===
                -- Russian stemming for better morphological matching of regular words
                to_tsvector('russian', coalesce(name, ''))
                -- Simple dictionary (no stemming) for exact token match
                || to_tsvector('simple', coalesce(name, ''))
                -- Simple dictionary with translate(): split by . / - _ :                 -- (used when 'name' contains technical fields)
                || to_tsvector(
                    'simple',
                    translate(coalesce(name, ''), './-_:\', '      ')
                )

                -- === HOST FIELD (from JSON) ===
                -- Simple dictionary (no stemming) for exact match
                || to_tsvector('simple', coalesce(data->>'host', ''))
                -- Simple dictionary with translate(): split by . / - _ : \ for partial token matching
                || to_tsvector(
                    'simple',
                    translate(coalesce(data->>'host', ''), './-_:\', '      ')
                )
                ".

Definition group_search_0012 : string := "
                -- === NAME FIELD ===
                -- Russian stemming for better morphological matching of regular words
                to_tsvector('russian', coalesce(name, ''))
                -- Simple dictionary (no stemming) for exact token match
                || to_tsvector('simple', coalesce(name, ''))
                -- Simple dictionary with translate(): split by . / - _ :                 -- (used when 'name' contains technical fields)
                || to_tsvector(
                    'simple',
                    translate(coalesce(name, ''), './-_:\', '      ')
                )
                ".

Definition queue_search_0012 : string := "
                -- === NAME FIELD ===
                -- Russian stemming for better morphological matching of regular words
                to_tsvector('russian', coalesce(name, ''))
                -- Simple dictionary (no stemming) for exact token match
                || to_tsvector('simple', coalesce(name, ''))
                -- Simple dictionary with translate(): split by . / - _ :                 -- (used when 'name' contains technical fields)
                || to_tsvector(
                    'simple',
                    translate(coalesce(name, ''), './-_:\', '      ')
                )
                ".

Definition transfer_search_0012 : string := "
                -- === NAME FIELD ===
                -- Russian stemming for better morphological matching of regular words
                to_tsvector('russian', coalesce(name, ''))
                -- Simple dictionary (no stemming) for exact token match
                || to_tsvector('simple', coalesce(name, ''))
                -- Simple dictionary with translate(): split by . / - _ :                 -- (used when 'name' contains technical fields)
                || to_tsvector(
                    'simple',
                    translate(coalesce(name, ''), './-_:\', '      ')
                )

                -- === TABLE NAME FIELDS ===
                -- Simple dictionary (no stemming) for exact match
                || to_tsvector('simple', coalesce(source_params->>'table_name', ''))
                || to_tsvector('simple', coalesce(target_params->>'table_name', ''))
                -- Simple dictionary with translate(): split by . / - _ : \ for partial token matching
                || to_tsvector(
                    'simple',
                    translate(coalesce(source_params->>'table_name', ''), './-_:\', '      ')
                )
                || to_tsvector(
                    'simple',
                    translate(coalesce(target_params->>'table_name', ''), './-_:\', '      ')
                )

                -- === DIRECTORY PATH FIELDS ===
                -- Simple dictionary (no stemming) for exact match
                || to_tsvector('simple', coalesce(source_params->>'directory_path', ''))
                || to_tsvector('simple', coalesce(target_params->>'directory_path', ''))
                -- Simple dictionary with translate(): split by . / - _ : \ for partial token matching
                || to_tsvector(
                    'simple',
                    translate(coalesce(source_params->>'directory_path', ''), './-_:\', '      ')
                )
                || to_tsvector(
                    'simple',
                    translate(coalesce(target_params->>'directory_path', ''), './-_:\', '      ')
                )
                ".

Definition transfer_search_0012_down : string := 
  "to_tsvector('english'::regconfig, name || ' ' || " +:+
  "COALESCE(json_extract_path_text(source_params, VARIADIC ARRAY['table_name']), '') || ' ' || " +:+
  "COALESCE(json_extract_path_text(target_params, VARIADIC ARRAY['table_name']), '') || ' ' || " +:+
  "COALESCE(json_extract_path_text(source_params, VARIADIC ARRAY['directory_path']), '') || ' ' || " +:+
  "COALESCE(json_extract_path_text(target_params, VARIADIC ARRAY['directory_path']), '') || ' ' || " +:+
  "translate(name, './', '  ') || ' ' || " +:+
  "COALESCE(translate(json_extract_path_text(source_params, VARIADIC ARRAY['table_name']), './', '  '), '') || ' ' || " +:+
  "COALESCE(translate(json_extract_path_text(target_params, VARIADIC ARRAY['table_name']), './', '  '), '') || ' ' || " +:+
  "COALESCE(translate(json_extract_path_text(source_params, VARIADIC ARRAY['directory_path']), './', '  '), '') || ' ' || " +:+
  "COALESCE(translate(json_extract_path_text(target_params, VARIADIC ARRAY['directory_path']), './', '  '), ''))".

Definition group_search_0012_down : string := "to_tsvector('english'::regconfig, name)".

Definition connection_search_0012_down : string := 
  "to_tsvector('english'::regconfig, name || ' ' || " +:+
  "COALESCE(json_extract_path_text(data, VARIADIC ARRAY['host']), '') || ' ' || " +:+
  "COALESCE(translate(json_extract_path_text(data, VARIADIC ARRAY['host']), '.', ' '), ''))".

Definition queue_search_0012_down : string := "to_tsvector('english'::regconfig, name)".

Definition upgrade_0012 : D unit :=
  _ ← drop_index false "idx_connection_search_vector";
  _ ← drop_column "connection" "search_vector";
  _ ← drop_column "group" "search_vector";
  _ ← drop_index false "idx_transfer_search_vector";
  _ ← drop_column "transfer" "search_vector";
  _ ← drop_column "queue" "search_vector";
  _ ← add_column "connection" (computed_column "search_vector" connection_search_0012);
  _ ← create_index false "idx_connection_search_vector" "connection" ["search_vector"] false (Some "gin");
  _ ← add_column "group" (computed_column "search_vector" group_search_0012);
  _ ← add_column "queue" (computed_column "search_vector" queue_search_0012);
  _ ← add_column "transfer" (computed_column "search_vector" transfer_search_0012);
  create_index false "idx_transfer_search_vector" "transfer" ["search_vector"] false (Some "gin").

Definition downgrade_0012 : D unit :=
  _ ← drop_index false "idx_transfer_search_vector";
  _ ← drop_column "transfer" "search_vector";
  _ ← drop_column "group" "search_vector";
  _ ← drop_index false "idx_connection_search_vector";
  _ ← drop_column "connection" "search_vector";
  _ ← drop_column "queue" "search_vector";
  _ ← add_column "transfer" (computed_column "search_vector" transfer_search_0012_down);
  _ ← create_index false "idx_transfer_search_vector" "transfer" ["search_vector"] false (Some "gin");
  _ ← add_column "group" (computed_column "search_vector" group_search_0012_down);
  _ ← add_column "connection" (computed_column "search_vector" connection_search_0012_down);
  _ ← create_index false "idx_connection_search_vector" "connection" ["search_vector"] false (Some "gin");
  add_column "queue" (computed_column "search_vector" queue_search_0012_down).

Definition revision_0012 : Migration :=
  mkMigration "0012" (Some "0011") upgrade_0012 downgrade_0012.

(** ** [2026-04-02_0013_add_celery_date_done_indexes.py] *)

Definition upgrade_0013 : D unit :=
  _ ← create_index true "ix_celery_taskmeta_date_done" "celery_taskmeta" ["date_done"] false None;
  create_index true "ix_celery_tasksetmeta_date_done" "celery_tasksetmeta" ["date_done"] false None.

Definition downgrade_0013 : D unit :=
  _ ← drop_index true "ix_celery_tasksetmeta_date_done";
  drop_index true "ix_celery_taskmeta_date_done".

Definition revision_0013 : Migration :=
  mkMigration "0013" (Some "0012") upgrade_0013 downgrade_0013.

(** ** Alembic *)

Definition versions : list Migration :=
  [revision_0001; revision_0002; revision_0003; revision_0004; revision_0005; revision_0006;
   revision_0007; revision_0008; revision_0009; revision_0010; revision_0011; revision_0012;
   revision_0013].

(** the schema and the revision the table [alembic_version] holds *)
Record Migrated := mkMigrated { schema : Schema; alembic_version : option string }.

(** [alembic upgrade]: from the current revision, the one that names it as its
    [down_revision], until there is none; at most as many as there are *)
Fixpoint upgrade_from (fuel : nat) (db : Migrated) : result DdlError Migrated :=
  match fuel, find (fun m => bool_decide (down_revision m = alembic_version db)) versions with
  | S fuel, Some m =>
      match upgrade m (schema db) with
      | (Ok _, s) => upgrade_from fuel (mkMigrated s (Some (revision m)))
      | (Raise e, _) => Raise e
      end
  | _, _ => Ok db
  end.
(** one transaction: a failure leaves the database as it was *)
Definition transaction (step : Migrated -> result DdlError Migrated) (db : Migrated) : Migrated :=
  match step db with Ok db' => db' | Raise _ => db end.
Definition upgrade_by (n : nat) : Migrated -> result DdlError Migrated := upgrade_from n.
Definition upgrade_head : Migrated -> result DdlError Migrated := upgrade_from (length versions).

(** [alembic downgrade -n] *)
Fixpoint downgrade_by (n : nat) (db : Migrated) : result DdlError Migrated :=
  match n, find (fun m => bool_decide (Some (revision m) = alembic_version db)) versions with
  | S n, Some m =>
      match downgrade m (schema db) with
      | (Ok _, s) => downgrade_by n (mkMigrated s (down_revision m))
      | (Raise e, _) => Raise e
      end
  | _, _ => Ok db
  end.

(** [get_next_revision_id] of the names of the files: [int] of the second part *)
Definition id_part (name : string) : option Z :=
  match split_char "_"%char "" name with
  | _ :: part :: _ => Z_of_str part
  | _ => None
  end.
Definition get_next_revision_id (files : list string) : Z :=
  match omap id_part files with
  | [] => 1
  | id :: ids => foldr Z.max id ids + 1
  end.
