(* ===== verification/TableModels.v ===== *)
(** * The tables the models declare ([db/models], [db/mixins])

    What the declarative classes say about their tables: columns with their keys,
    indexes and foreign keys, and the names the naming convention of the metadata gives
    to constraints and indexes. *)

From S2P Require Import Prelude PyData Ddl.

(** [mapped_column(...)] *)
Record ModelColumn := mkModelColumn {
  mc_name : string;
  mc_type : option ColumnType;                     (* [None]: that of the column referred to *)
  mc_nullable : bool;
  mc_primary_key : bool;
  mc_unique : bool;
  mc_index : bool;
  mc_foreign_key : option (string * string);       (* table and column; [ondelete="CASCADE"] *)
  mc_server_default : option string;
  mc_computed : option string;
}.
Definition mapped_column (name : string) (type : option ColumnType) (nullable : bool) : ModelColumn :=
  mkModelColumn name type nullable false false false None None None.
Definition primary_key (c : ModelColumn) : ModelColumn :=
  mkModelColumn (mc_name c) (mc_type c) (mc_nullable c) true (mc_unique c) (mc_index c) (mc_foreign_key c)
    (mc_server_default c) (mc_computed c).
Definition unique (c : ModelColumn) : ModelColumn :=
  mkModelColumn (mc_name c) (mc_type c) (mc_nullable c) (mc_primary_key c) true (mc_index c) (mc_foreign_key c)
    (mc_server_default c) (mc_computed c).
Definition indexed (c : ModelColumn) : ModelColumn :=
  mkModelColumn (mc_name c) (mc_type c) (mc_nullable c) (mc_primary_key c) (mc_unique c) true (mc_foreign_key c)
    (mc_server_default c) (mc_computed c).
Definition foreign_key (table : string) (c : ModelColumn) : ModelColumn :=
  mkModelColumn (mc_name c) (mc_type c) (mc_nullable c) (mc_primary_key c) (mc_unique c) (mc_index c)
    (Some (table, "id")) (mc_server_default c) (mc_computed c).
Definition bigint (name : string) : ModelColumn := mapped_column name (Some BigInteger) false.
Definition text (name : string) (length : Z) : ModelColumn :=
  mapped_column name (Some (StringType (Some length))) false.
Definition search_vector (expression : string) : ModelColumn :=
  mkModelColumn "search_vector" (Some TSVECTOR) false false false false None None (Some expression).

(** [ChoiceType(Enum, impl=...)] of sqlalchemy_utils: a column of [impl], by default
    [Unicode(255)] *)
Definition choice (name : string) (impl : option Z) : ModelColumn := text name (default 255 impl).

(** what [__table_args__] lists *)
Inductive TableArg :=
| PrimaryKeyConstraint (columns : list string)
| UniqueConstraint (columns : list string)
| Index (name : string) (columns : list string) (using_ : option string).

Record ModelTable := mkModelTable {
  mt_name : string;
  mt_columns : list ModelColumn;
  mt_args : list TableArg;
}.

(** ** Mixins *)

Definition server_now (name : string) : ModelColumn :=
  mkModelColumn name (Some (DateTime true)) false false false false None (Some "now()") None.
Definition TimestampMixin : list ModelColumn := [server_now "created_at"; server_now "updated_at"].
Definition ResourceMixin : list ModelColumn :=
  [primary_key (bigint "id"); text "name" 128; indexed (foreign_key "group" (bigint "group_id"));
   text "description" 512].

(** ** Models *)

Definition optional_text (name : string) (length : Z) : ModelColumn :=
  mapped_column name (Some (StringType (Some length))) true.
Definition User : ModelTable := mkModelTable "user"
  ([primary_key (bigint "id"); indexed (unique (text "username" 256)); optional_text "email" 256;
    optional_text "first_name" 256; optional_text "last_name" 256; optional_text "middle_name" 256;
    mapped_column "is_superuser" (Some Boolean) false; mapped_column "is_active" (Some Boolean) false]
   ++ TimestampMixin) [].

Definition group_search_vector : string := "
            -- === NAME FIELD ===
            -- Russian stemming for better morphological matching of regular words
            to_tsvector('russian', coalesce(name, ''))
            -- Simple dictionary (no stemming) for exact token match
            || to_tsvector('simple', coalesce(name, ''))
            -- Simple dictionary with translate(): split by . / - _ :             -- (used when 'name' contains technical fields)
            || to_tsvector(
                'simple',
                translate(coalesce(name, ''), './-_:\', '      ')
            )
            ".
Definition Group : ModelTable := mkModelTable "group"
  ([primary_key (bigint "id"); unique (text "name" 128); text "description" 512;
    indexed (foreign_key "user" (mapped_column "owner_id" None false));
    search_vector group_search_vector] ++ TimestampMixin) [].

Definition UserGroup : ModelTable := mkModelTable "user_group"
  [indexed (foreign_key "user" (bigint "user_id")); indexed (foreign_key "group" (bigint "group_id"));
   choice "role" None]
  [PrimaryKeyConstraint ["user_id"; "group_id"]].

Definition queue_search_vector : string := "
            -- === NAME FIELD ===
            -- Russian stemming for better morphological matching of regular words
            to_tsvector('russian', coalesce(name, ''))
            -- Simple dictionary (no stemming) for exact token match
            || to_tsvector('simple', coalesce(name, ''))
            -- Simple dictionary with translate(): split by . / - _ :             -- (used when 'name' contains technical fields)
            || to_tsvector(
                'simple',
                translate(coalesce(name, ''), './-_:\', '      ')
            )
            ".
(** the class declares [name] again *)
Definition Queue : ModelTable := mkModelTable "queue"
  (ResourceMixin ++ [unique (text "slug" 256); search_vector queue_search_vector] ++ TimestampMixin) [].

Definition connection_search_vector : string := "
            -- === NAME FIELD ===
            -- Russian stemming for better morphological matching of regular words
            to_tsvector('russian', coalesce(name, ''))
            -- Simple dictionary (no stemming) for exact token match
            || to_tsvector('simple', coalesce(name, ''))
            -- Simple dictionary with translate(): split by . / - _ :             -- (used when 'name' contains technical fields)
            || to_tsvector(
                'simple',
                translate(coalesce(name, ''), './-_:\', '      ')
            )

            -- === HOST FIELD (from JSON) ===
            -- Simple dictionary (no stemming) for exact match
            || to_tsvector('simple', coalesce(data->>'host', ''))
            -- Simple dictionary with translate(): split by . / - _ : \ for partial token matching
            || to_tsvector(
                'simple',
                translate(coalesce(data->>'host', ''), './-_:\', '      ')
            )
            ".
Definition Connection : ModelTable := mkModelTable "connection"
  (ResourceMixin ++
   [choice "type" (Some 32); mapped_column "data" (Some JSON) false;
    search_vector connection_search_vector] ++ TimestampMixin)
  [UniqueConstraint ["name"; "group_id"];
   Index "idx_connection_search_vector" ["search_vector"] (Some "gin")].

Definition AuthData : ModelTable := mkModelTable "auth_data"
  ([primary_key (foreign_key "connection" (bigint "connection_id"));
    mapped_column "value" (Some (StringType None)) false] ++ TimestampMixin) [].

Definition transfer_search_vector : string := "
            -- === NAME FIELD ===
            -- Russian stemming for better morphological matching of regular words
            to_tsvector('russian', coalesce(name, ''))
            -- Simple dictionary (no stemming) for exact token match
            || to_tsvector('simple', coalesce(name, ''))
            -- Simple dictionary with translate(): split by . / - _ :             -- (used when 'name' contains technical fields)
            || to_tsvector(
                'simple',
                translate(coalesce(name, ''), './-_:\', '      ')
            )

            -- === TABLE NAME FIELDS ===
            -- Simple dictionary (no stemming) for exact match
            || to_tsvector('simple', coalesce(source_params->>'table_name', ''))
            || to_tsvector('simple', coalesce(target_params->>'table_name', ''))
            -- Simple dictionary with translate(): split by . / - _ : \ for partial token matching
            || to_tsvector(
                'simple',
                translate(coalesce(source_params->>'table_name', ''), './-_:\', '      ')
            )
            || to_tsvector(
                'simple',
                translate(coalesce(target_params->>'table_name', ''), './-_:\', '      ')
            )

            -- === DIRECTORY PATH FIELDS ===
            -- Simple dictionary (no stemming) for exact match
            || to_tsvector('simple', coalesce(source_params->>'directory_path', ''))
            || to_tsvector('simple', coalesce(target_params->>'directory_path', ''))
            -- Simple dictionary with translate(): split by . / - _ : \ for partial token matching
            || to_tsvector(
                'simple',
                translate(coalesce(source_params->>'directory_path', ''), './-_:\', '      ')
            )
            || to_tsvector(
                'simple',
                translate(coalesce(target_params->>'directory_path', ''), './-_:\', '      ')
            )
            ".
Definition Transfer : ModelTable := mkModelTable "transfer"
  (ResourceMixin ++
   [indexed (foreign_key "connection" (bigint "source_connection_id"));
    indexed (foreign_key "connection" (bigint "target_connection_id"));
    mapped_column "strategy_params" (Some JSON) false; mapped_column "source_params" (Some JSON) false;
    mapped_column "target_params" (Some JSON) false; mapped_column "transformations" (Some JSON) false;
    mapped_column "resources" (Some JSON) false; mapped_column "is_scheduled" (Some Boolean) false;
    text "schedule" 32; foreign_key "queue" (bigint "queue_id");
    search_vector transfer_search_vector] ++ TimestampMixin)
  [UniqueConstraint ["name"; "group_id"];
   Index "idx_transfer_search_vector" ["search_vector"] (Some "gin")].

Definition Run : ModelTable := mkModelTable "run"
  ([primary_key (bigint "id"); indexed (foreign_key "transfer" (bigint "transfer_id"));
    mapped_column "started_at" (Some (DateTime true)) true;
    mapped_column "ended_at" (Some (DateTime true)) true;
    indexed (choice "status" None); indexed (text "type" 64); optional_text "log_url" 512;
    mapped_column "transfer_dump" (Some JSON) false] ++ TimestampMixin) [].

Definition APSchedulerJob : ModelTable := mkModelTable "apscheduler_jobs"
  [primary_key (text "id" 191); mapped_column "next_run_time" (Some (Float 25)) true;
   mapped_column "job_state" (Some LargeBinary) false]
  [Index "ix_apscheduler_jobs_next_run_time" ["next_run_time"] None].

(** the tables of the server; the scheduler's library makes its own *)
Definition server_tables : list ModelTable :=
  [User; Group; UserGroup; Queue; Connection; AuthData; Transfer; Run].
Definition syncmaster_metadata : list ModelTable := server_tables ++ [APSchedulerJob].

(** ** What they declare, under the names of the convention *)

Definition all_column_names (columns : list string) : string := String.concat "_" columns.
Definition ix_name (table : string) (cols : list string) : string := "ix__" +:+ table +:+ "__" +:+ all_column_names cols.
Definition uq_name (table : string) (cols : list string) : string := "uq__" +:+ table +:+ "__" +:+ all_column_names cols.
Definition fk_name (table : string) (cols : list string) (referred : string) : string :=
  "fk__" +:+ table +:+ "__" +:+ all_column_names cols +:+ "__" +:+ referred.
Definition pk_name (table : string) : string := "pk__" +:+ table.

Definition find_table (name : string) : option ModelTable :=
  find (fun m => String.eqb (mt_name m) name) syncmaster_metadata.
Definition find_column (name : string) (m : ModelTable) : option ModelColumn :=
  find (fun c => String.eqb (mc_name c) name) (mt_columns m).
(** the type of a column, or of the column it refers to *)
Definition type_of (c : ModelColumn) : option ColumnType :=
  match mc_type c, mc_foreign_key c with
  | Some t, _ => Some t
  | None, Some (table, col) => m ← find_table table; c' ← find_column col m; mc_type c'
  | None, None => None
  end.
Definition declared_column (c : ModelColumn) : option Column :=
  type ← type_of c;
  Some (mkColumn (mc_name c) type (mc_nullable c) (mc_server_default c) (normalize <$> mc_computed c)).
Definition declared_columns (m : ModelTable) : gmap string Column :=
  column_map (omap declared_column (mt_columns m)).

Definition primary_columns (m : ModelTable) : list string :=
  (mc_name <$> filter (fun c => mc_primary_key c = true) (mt_columns m)) ++
  mjoin ((fun a => match a with PrimaryKeyConstraint l => l | _ => [] end) <$> mt_args m).
Definition column_constraints (table : string) (c : ModelColumn) : list (string * Constraint) :=
  (if mc_unique c && negb (mc_index c) then [(uq_name table [mc_name c], Unique [mc_name c])] else []) ++
  match mc_foreign_key c with
  | Some (t, col) => [(fk_name table [mc_name c] t, ForeignKey [mc_name c] t [col] "CASCADE")]
  | None => []
  end.
Definition declared_constraints (m : ModelTable) : gmap string Constraint :=
  list_to_map (
    (pk_name (mt_name m), PrimaryKey (primary_columns m)) ::
    mjoin (column_constraints (mt_name m) <$> mt_columns m) ++
    mjoin ((fun a => match a with UniqueConstraint l => [(uq_name (mt_name m) l, Unique l)] | _ => [] end)
             <$> mt_args m)).
Definition declared_table (m : ModelTable) : TableDef := mkTableDef (declared_columns m) (declared_constraints m).

Definition declared_indexes (m : ModelTable) : gmap string IndexDef :=
  list_to_map (
    ((fun c => (ix_name (mt_name m) [mc_name c], mkIndexDef (mt_name m) [mc_name c] (mc_unique c) None))
       <$> filter (fun c => mc_index c = true) (mt_columns m)) ++
    mjoin ((fun a => match a with Index n l u => [(n, mkIndexDef (mt_name m) l false u)] | _ => [] end)
             <$> mt_args m)).
