(* ===== verification/MigrationTheorems.v ===== *)
(** * Theorems about the migrations *)

From S2P Require Import Prelude PyData Ddl Migrations TableModels Models Errors Database.

(** ** A schema without loose ends, and migrations that undo each other *)

Definition target_exists (s : Schema) (c : Constraint) : Prop :=
  match c with ForeignKey _ t' _ _ => is_Some (tables s !! t') | _ => True end.
#[export] Instance target_exists_dec s c : Decision (target_exists s c).
Proof. destruct c; apply _. Defined.
Definition refs_exist (s : Schema) : Prop := forall n t k c,
  tables s !! n = Some t -> constraints t !! k = Some c -> target_exists s c.
Definition schema_wf (s : Schema) : Prop :=
  refs_exist s /\ forall n i, indexes s !! n = Some i -> is_Some (tables s !! index_table i).

(** [d] takes back what [u] did, from every schema without loose ends *)
Definition undoes (u d : D unit) : Prop := forall s s', schema_wf s -> u s = (Ok tt, s') ->
  schema_wf s' /\ d s' = (Ok tt, s).

Lemma undoes_seq u1 u2 d1 d2 : undoes u1 d1 -> undoes u2 d2 ->
  undoes (_ ← u1; u2) (_ ← d2; d1).
Proof.
  intros H1 H2 s s' Hwf Hu. apply bind_ok in Hu as ([] & s1 & Hu1 & Hu2).
  destruct (H1 _ _ Hwf Hu1) as [Hwf1 Hd1]. destruct (H2 _ _ Hwf1 Hu2) as [Hwf2 Hd2].
  split; [done|]. by rewrite bind_run, Hd2.
Qed.

Lemma undoes_index n t cols u w : undoes (create_index false n t cols u w) (drop_index false n).
Proof.
  intros s s' [Hr Hi] Hc. unfold create_index in Hc. destruct (indexes s !! n) eqn:Hn; [done|].
  destruct (tables s !! t) as [td|] eqn:Ht; [|done]. destruct (missing _ _); [done|]. injection Hc as <-. split.
  - split; [exact Hr|]. intros m i. cbn. intros [[<- <-]|[_ Hm]]%lookup_insert_Some; [cbn; by rewrite Ht|].
    by eapply Hi.
  - unfold drop_index. cbn. rewrite lookup_insert_eq. f_equal. destruct s as [ts xs ss es].
    unfold set_indexes. cbn in *. by rewrite delete_insert_id.
Qed.

Lemma undoes_table n cols cs : undoes (create_table n cols cs) (drop_table n).
Proof.
  intros s s' [Hr Hi] Hc. unfold create_table in Hc. destruct (tables s !! n) eqn:Hn; [done|].
  destruct (mapM _ cs) as [us|] eqn:Hm; [|done]. injection Hc as <-. split; [split|].
  - intros m t k c Ht Hk. cbn in *. apply lookup_insert_Some in Ht as [[<- <-]|[Hne Ht]]; cbn in Hk.
    + apply elem_of_list_to_map_2 in Hk. apply list_elem_of_lookup_1 in Hk as [j Hj].
      assert (exists u, check_constraint n (column_map cols) s c = Ok u) as [u Hu].
      { clear -Hm Hj. revert j us Hm Hj. induction cs as [|x cs IH]; intros j us Hm Hj; [done|]. cbn in Hm.
        destruct (check_constraint n _ s x.2) eqn:Hx; [|done]. cbn in Hm.
        destruct (mapM _ cs) eqn:Hcs; [|done]. destruct j; cbn in Hj; [injection Hj as ->; by eexists|by eapply IH]. }
      unfold check_constraint in Hu. destruct (missing _ (constrained c)); [done|]. destruct c; try done. cbn.
      destruct (String.eqb_spec table n) as [->|Hne']; [by rewrite lookup_insert_eq|].
      rewrite lookup_insert_ne by done. by destruct (tables s !! table).
    + specialize (Hr _ _ _ _ Ht Hk). destruct c; try done. cbn in *.
      destruct (decide (n = table)) as [->|]; [by rewrite lookup_insert_eq|by rewrite lookup_insert_ne].
  - intros m i Hm'. cbn in *. destruct (decide (n = index_table i)) as [->|]; [by rewrite lookup_insert_eq|].
    rewrite lookup_insert_ne by done. by eapply Hi.
  - unfold drop_table. cbn. rewrite lookup_insert_eq, bool_decide_false.
    + f_equal. destruct s as [ts xs ss es]. unfold set_indexes, set_tables. cbn in *.
      rewrite delete_insert_id by done. f_equal. apply map_filter_id. intros k i Hk Heq. cbn in Heq.
      destruct (Hi _ _ Hk) as [? Ht]. congruence.
    + intros (m & t & Ht & Hne & Hrf)%map_Exists_lookup. rewrite lookup_insert_ne in Ht by done.
      unfold refers_to in Hrf. apply map_Exists_lookup in Hrf as (k & c & Hk & Hc).
      specialize (Hr _ _ _ _ Ht Hk). destruct c; try done. cbn in Hr. subst. destruct Hr as [? Hr]. congruence.
Qed.

(** operations in a row *)
Fixpoint steps (l : list (D unit)) : D unit :=
  match l with
  | [] => mret tt
  | [m] => m
  | m :: l' => _ ← m; steps l'
  end.
Lemma steps_cons m l s : l <> [] -> steps (m :: l) s = (_ ← m; steps l) s.
Proof. by destruct l. Qed.
Lemma steps_snoc l m s : l <> [] -> steps (l ++ [m]) s = (_ ← steps l; m) s.
Proof.
  intros Hl. revert s. induction l as [|x l IH]; intros s; [done|]. destruct (decide (l = [])) as [->|Hne]; [done|].
  change ((x :: l) ++ [m]) with (x :: (l ++ [m])). rewrite steps_cons by (by destruct l).
  rewrite !bind_run, steps_cons, bind_run by done. destruct (x s) as [[a|e] s1]; [|done].
  by rewrite IH, bind_run.
Qed.
Lemma undoes_steps us ds : Forall2 undoes us ds -> us <> [] -> undoes (steps us) (steps (reverse ds)).
Proof.
  induction 1 as [|u d us ds Hu Hl IH]; intros Hne; [done|].
  destruct us as [|u' us]; [inversion Hl; subst; by apply Hu|].
  assert (undoes (_ ← u; steps (u' :: us)) (_ ← steps (reverse ds); d)) as H by (apply undoes_seq; [done|by apply IH]).
  intros s s' Hwf Hs. rewrite steps_cons in Hs by done. destruct (H s s' Hwf Hs) as [Hwf' Hd]. split; [done|].
  rewrite reverse_cons, steps_snoc; [done|]. destruct ds; [by inversion Hl|]. rewrite reverse_cons.
  by intros [_ ?]%app_nil.
Qed.

(** the order in which indexes are dropped does not matter *)
Definition drops (l : list string) (k : D unit) : D unit := steps ((drop_index false <$> l) ++ [k]).
Lemma drops_cons n l k s : drops (n :: l) k s = (_ ← drop_index false n; drops l k) s.
Proof. unfold drops. cbn. by destruct (drop_index false <$> l). Qed.
Lemma drops_swap a b l k s : drops (a :: b :: l) k s =
  match indexes s !! a with
  | None => (Raise (UndefinedObject a), s)
  | Some _ =>
      if decide (a = b) then (Raise (UndefinedObject b), set_indexes (delete a (indexes s)) s)
      else match indexes s !! b with
           | None => (Raise (UndefinedObject b), set_indexes (delete a (indexes s)) s)
           | Some _ => drops l k (set_indexes (delete b (delete a (indexes s))) s)
           end
  end.
Proof.
  rewrite drops_cons, bind_run. unfold drop_index at 1. destruct (indexes s !! a) as [ia|]; [|done].
  rewrite drops_cons, bind_run. unfold drop_index at 1. cbn. destruct (decide (a = b)) as [->|Hne].
  - by rewrite lookup_delete_eq.
  - rewrite lookup_delete_ne by done. by destruct (indexes s !! b).
Qed.
Lemma drops_perm l l' k : l ≡ₚ l' -> forall s, outcome (drops l k) s = Ok tt -> drops l' k s = drops l k s.
Proof.
  unfold outcome. induction 1 as [|n l l' _ IH|a b l|l1 l2 l3 _ IH1 _ IH2]; intros s Hok; [done| | |].
  - rewrite drops_cons, bind_run in Hok |- *. rewrite drops_cons, bind_run.
    destruct (drop_index false n s) as [[u|e] s1]; [|done]. by apply IH.
  - rewrite !drops_swap in *. destruct (indexes s !! a) as [ia|] eqn:Ha, (indexes s !! b) as [ib|] eqn:Hb;
      repeat case_decide; subst; try done. by rewrite delete_delete.
  - pose proof (IH1 s Hok) as H1. rewrite IH2; rewrite H1; done.
Qed.

(** a table with its indexes, and what takes it away again *)
Record TableScript := mkTableScript {
  ts_table : string;
  ts_columns : list Column;
  ts_constraints : list (string * Constraint);
  ts_indexes : list (string * (list string * bool * option string));
}.
Definition create_script (c : TableScript) : D unit :=
  steps (create_table (ts_table c) (ts_columns c) (ts_constraints c) ::
         ((fun i => create_index false i.1 (ts_table c) i.2.1.1 i.2.1.2 i.2.2) <$> ts_indexes c)).
Lemma undoes_script c names : names ≡ₚ reverse (ts_indexes c).*1 ->
  undoes (create_script c) (drops names (drop_table (ts_table c))).
Proof.
  intros Hp s s' Hwf Hs.
  assert (undoes (create_script c) (drops (reverse (ts_indexes c).*1) (drop_table (ts_table c)))) as H.
  { unfold create_script, drops. rewrite fmap_reverse, <- list_fmap_compose, <- reverse_cons.
    apply undoes_steps; [|done]. constructor; [apply undoes_table|]. rewrite Forall2_fmap.
    apply Forall_Forall2_diag, Forall_forall. intros i _. apply undoes_index. }
  destruct (H s s' Hwf Hs) as [Hwf' Hd]. split; [done|]. rewrite <- Hd. apply drops_perm; [by symmetry|].
  unfold outcome. by rewrite Hd.
Qed.

(** ** The revisions that make the tables of the server *)

Lemma undone_tables : Forall (fun m => undoes (upgrade m) (downgrade m)) (take 8 versions).
Proof.
  repeat apply List.Forall_cons; [..|apply List.Forall_nil].
  - exact (undoes_script (mkTableScript _ _ _ [(_, (_, _, _))]) [_] (reflexivity _)).
  - exact (undoes_script (mkTableScript _ _ _ [(_, (_, _, _))]) [_] (reflexivity _)).
  - exact (undoes_script (mkTableScript _ _ _ [(_, (_, _, _))]) [_] (reflexivity _)).
  - exact (undoes_script (mkTableScript _ _ _ [(_, (_, _, _)); (_, (_, _, _))]) [_; _] (perm_swap _ _ _)).
  - exact (undoes_script (mkTableScript _ _ _ [(_, (_, _, _)); (_, (_, _, _))]) [_; _] (reflexivity _)).
  - exact (undoes_script (mkTableScript _ _ _ []) [] (reflexivity _)).
  - refine (undoes_script (mkTableScript _ _ _ [(_, (_, _, _)); (_, (_, _, _)); (_, (_, _, _)); (_, (_, _, _))])
             [_; _; _; _] _). cbn. solve_Permutation.
  - exact (undoes_script (mkTableScript _ _ _ [(_, (_, _, _)); (_, (_, _, _)); (_, (_, _, _))]) [_; _; _] (reflexivity _)).
Qed.

(** ** The revisions that make something only when it is not there *)

Definition with_sequences (q : gset string) (s : Schema) : Schema := mkSchema (tables s) (indexes s) q (extensions s).
Lemma create_table_sequences n cols cs q s :
  create_table n cols cs (with_sequences q s) =
  ((create_table n cols cs s).1, with_sequences q (create_table n cols cs s).2).
Proof.
  unfold create_table, with_sequences. cbn [tables]. destruct (tables s !! n); [done|].
  change (check_constraint n (column_map cols) (mkSchema (tables s) (indexes s) q (extensions s)))
    with (check_constraint n (column_map cols) s).
  by destruct (mapM _ cs).
Qed.
Lemma create_table_keeps_sequences n cols cs s s' : create_table n cols cs s = (Ok tt, s') -> sequences s' = sequences s.
Proof.
  unfold create_table. destruct (tables s !! n); [done|]. destruct (mapM _ cs); [|done]. by intros [= <-].
Qed.

(** two tables and their sequences, dropped in another order than they were made *)
Lemma undoes_celery q1 n1 cols1 cs1 q2 n2 cols2 cs2 s s' : schema_wf s ->
  q1 ∉ sequences s -> q2 ∉ sequences s -> q1 <> q2 ->
  (_ ← create_sequence q1; _ ← create_table n1 cols1 cs1; _ ← create_sequence q2; create_table n2 cols2 cs2) s = (Ok tt, s') ->
  schema_wf s' /\ (_ ← drop_table n2; _ ← drop_table n1; _ ← drop_sequence q1; drop_sequence q2) s' = (Ok tt, s).
Proof.
  intros Hwf Hq1 Hq2 Hne Hu. rewrite bind_run in Hu. cbn -[mbind] in Hu. rewrite bind_run in Hu.
  change (mkSchema _ _ ({[q1]} ∪ sequences s) _) with (with_sequences ({[q1]} ∪ sequences s) s) in Hu.
  rewrite create_table_sequences in Hu. destruct (create_table n1 cols1 cs1 s) as [[[]|e] s1] eqn:H1; [|done].
  cbn -[mbind] in Hu. rewrite bind_run in Hu. cbn in Hu.
  change (mkSchema _ _ _ _) with (with_sequences ({[q2]} ∪ ({[q1]} ∪ sequences s)) s1) in Hu.
  rewrite create_table_sequences in Hu. destruct (create_table n2 cols2 cs2 s1) as [[[]|e] s2] eqn:H2; [|done].
  cbn in Hu. injection Hu as <-.
  assert (create_table n1 cols1 cs1 (with_sequences ({[q2]} ∪ ({[q1]} ∪ sequences s)) s) =
    (Ok tt, with_sequences ({[q2]} ∪ ({[q1]} ∪ sequences s)) s1)) as H1' by by rewrite create_table_sequences, H1.
  assert (create_table n2 cols2 cs2 (with_sequences ({[q2]} ∪ ({[q1]} ∪ sequences s)) s1) =
    (Ok tt, with_sequences ({[q2]} ∪ ({[q1]} ∪ sequences s)) s2)) as H2' by by rewrite create_table_sequences, H2.
  apply undoes_table in H1' as [Hw1 Hd1]; [|exact Hwf]. apply undoes_table in H2' as [Hw2 Hd2]; [|exact Hw1].
  split; [exact Hw2|]. rewrite bind_run, Hd2, bind_run, Hd1, bind_run. unfold drop_sequence. cbn.
  rewrite bool_decide_true by set_solver. cbn. rewrite bool_decide_true by set_solver.
  f_equal. destruct s as [ts xs ss es]. cbn in *. f_equal. set_solver.
Qed.

Lemma undoes_index_if n t cols u w s s' : schema_wf s -> indexes s !! n = None ->
  create_index true n t cols u w s = (Ok tt, s') ->
  schema_wf s' /\ drop_index true n s' = (Ok tt, s) /\ forall m, m <> n -> indexes s' !! m = indexes s !! m.
Proof.
  intros Hwf Hn Hc. assert (create_index false n t cols u w s = (Ok tt, s')) as Hc'
    by (unfold create_index in *; by rewrite Hn in *).
  destruct (undoes_index _ _ _ _ _ _ _ Hwf Hc') as [Hwf' Hd]. split_and!; [done| |].
  - unfold drop_index in *. by destruct (indexes s' !! n).
  - unfold create_index in Hc. rewrite Hn in Hc. intros m Hm. destruct (tables s !! t); [|done].
    destruct (missing _ _); [done|]. injection Hc as <-. cbn. by rewrite lookup_insert_ne.
Qed.

(** what a revision makes if it is not there, is not there *)
Definition not_there (m : Migration) (s : Schema) : Prop :=
  (revision m = "0009" -> tables s !! "celery_taskmeta" = None /\
     "task_id_sequence" ∉ sequences s /\ "taskset_id_sequence" ∉ sequences s) /\
  (revision m = "0010" -> "pg_trgm" ∉ extensions s) /\
  (revision m = "0011" -> tables s !! "apscheduler_jobs" = None) /\
  (revision m = "0013" -> indexes s !! "ix_celery_taskmeta_date_done" = None /\
     indexes s !! "ix_celery_tasksetmeta_date_done" = None).

Lemma undone_0009 s s' : schema_wf s -> not_there revision_0009 s -> upgrade_0009 s = (Ok tt, s') ->
  schema_wf s' /\ downgrade_0009 s' = (Ok tt, s).
Proof.
  intros Hwf ((Ht & Hq1 & Hq2) & _) Hu; [done|]. unfold upgrade_0009 in Hu. rewrite bind_run in Hu.
  unfold exists_table, gets in Hu. rewrite Ht, bool_decide_false in Hu by by intros [].
  by eapply undoes_celery; [..|exact Hu].
Qed.
Lemma undone_0010 s s' : schema_wf s -> not_there revision_0010 s -> upgrade_0010 s = (Ok tt, s') ->
  schema_wf s' /\ downgrade_0010 s' = (Ok tt, s).
Proof.
  intros Hwf (_ & He & _) Hu. specialize (He eq_refl).
  pose proof (f_equal snd Hu : _ = s') as <-. split; [exact Hwf|].
  unfold downgrade_0010, drop_extension. f_equal. destruct s as [ts xs ss es]. cbn in *. f_equal. set_solver.
Qed.
Lemma undone_0011 s s' : schema_wf s -> not_there revision_0011 s -> upgrade_0011 s = (Ok tt, s') ->
  schema_wf s' /\ downgrade_0011 s' = (Ok tt, s).
Proof.
  intros Hwf (_ & _ & Ht & _) Hu. specialize (Ht eq_refl). unfold upgrade_0011 in Hu. rewrite bind_run in Hu.
  unfold exists_table, gets in Hu. rewrite Ht, bool_decide_false in Hu by by intros [].
  exact (undoes_script (mkTableScript _ _ _ [(_, (_, _, _))]) [_] (reflexivity _) _ _ Hwf Hu).
Qed.
Lemma undone_0013 s s' : schema_wf s -> not_there revision_0013 s -> upgrade_0013 s = (Ok tt, s') ->
  schema_wf s' /\ downgrade_0013 s' = (Ok tt, s).
Proof.
  intros Hwf (_ & _ & _ & H1 & H2) Hu; [done|]. apply bind_ok in Hu as ([] & s1 & Hu1 & Hu2).
  destruct (undoes_index_if _ _ _ _ _ _ _ Hwf H1 Hu1) as (Hwf1 & Hd1 & Hk).
  rewrite <- (Hk "ix_celery_tasksetmeta_date_done") in H2 by discriminate.
  destruct (undoes_index_if _ _ _ _ _ _ _ Hwf1 H2 Hu2) as (Hwf2 & Hd2 & _).
  split; [done|]. unfold downgrade_0013. by rewrite bind_run, Hd2.
Qed.

(** C37 A downgrade right after the upgrade restores the schema, from every schema whose
    foreign keys and indexes have their tables, whatever else it holds: for each revision
    but 0012, which replaces the search columns, and for those that make something only if
    it is not there when it is not. *)
Theorem revisions_undone m s s' : m ∈ versions -> revision m <> "0012" -> schema_wf s -> not_there m s ->
  upgrade m s = (Ok tt, s') -> schema_wf s' /\ downgrade m s' = (Ok tt, s).
Proof.
  intros Hm Hr Hwf Hn Hu. rewrite <- (take_drop 8 versions), elem_of_app in Hm.
  destruct Hm as [Hm|Hm]; [exact (proj1 (Forall_forall _ _) undone_tables m Hm s s' Hwf Hu)|].
  change (drop 8 versions) with [revision_0009; revision_0010; revision_0011; revision_0012; revision_0013] in Hm.
  rewrite !elem_of_cons, elem_of_nil in Hm. destruct Hm as [->|[->|[->|[->|[->|[]]]]]].
  - by apply undone_0009.
  - by apply undone_0010.
  - by apply undone_0011.
  - done.
  - by apply undone_0013.
Qed.

Definition base : Migrated := mkMigrated empty_schema None.
Definition head : Migrated := match upgrade_head base with Ok db => db | Raise _ => base end.

#[local] Instance result_eq_dec {E A} `{EqDecision E, EqDecision A} : EqDecision (result E A).
Proof. solve_decision. Defined.
#[export] Instance Migrated_eq_dec : EqDecision Migrated.
Proof. solve_decision. Defined.

Lemma revisions_undone_witness :
  outcome upgrade_0001 empty_schema = Ok tt /\
  downgrade_0001 (final upgrade_0001 empty_schema) = (Ok tt, empty_schema).
Proof.
  assert (outcome upgrade_0001 empty_schema = Ok tt) as Ho by (vm_compute; reflexivity). split; [exact Ho|].
  assert (schema_wf empty_schema) as Hwf by (split; intros n ?; [intros ? ? Hn|intros Hn]; discriminate Hn).
  refine (proj2 (revisions_undone revision_0001 empty_schema (final upgrade_0001 empty_schema) _ _ Hwf _ _)).
  - by left.
  - discriminate.
  - split_and!; discriminate.
  - change (upgrade revision_0001) with upgrade_0001. unfold outcome, final in *.
    rewrite <- Ho. apply surjective_pairing.
Defined.

(** Walking along the revisions: up from nothing to any of them and back down leaves
    nothing, and a database of the newest revision that is taken down to any other and
    up again is what it was. *)
Definition walk_ok (n : nat) : Prop :=
  match upgrade_by n base with
  | Ok up => match downgrade_by n up with Ok db => db = base | Raise _ => False end
  | Raise _ => False
  end /\
  match downgrade_by (length versions - n) head with
  | Ok down => match upgrade_head down with Ok db => db = head | Raise _ => False end
  | Raise _ => False
  end.
#[export] Instance walk_ok_dec n : Decision (walk_ok n).
Proof. unfold walk_ok. repeat case_match; apply _. Defined.
Lemma alembic_walk n : (n <= length versions)%nat -> walk_ok n.
Proof.
  intros Hn. assert (Forall walk_ok (seq 0 (S (length versions)))) as H
    by (apply (bool_decide_eq_true_1 _); vm_compute; reflexivity).
  rewrite Forall_seq in H. apply H. lia.
Qed.

(** ** The migrated schema is the declared one, and the one the statements work on *)

Definition column_length (c : Column) : option Z :=
  match col_type c with StringType n => n | _ => None end.
Definition lengths (t : TableDef) : list Z := omap column_length ((map_to_list (columns t)).*2).
Definition ref_table (r : Ref) : string :=
  match r with
  | RUser _ => "user" | RGroup _ => "group" | RConnection _ => "connection" | RQueue _ => "queue"
  | RTransfer _ => "transfer"
  end.

(** the constraints of a table: the names of its primary key and its unique keys, and
    its foreign keys with what they refer to *)
Definition primary_keys (t : TableDef) : list string :=
  omap (fun nc => match nc.2 with PrimaryKey _ => Some nc.1 | _ => None end) (map_to_list (constraints t)).
Definition unique_keys (s : Schema) (name : string) (t : TableDef) : list string :=
  omap (fun nc => match nc.2 with Unique _ => Some nc.1 | _ => None end) (map_to_list (constraints t)) ++
  (filter (fun ni => index_table ni.2 = name /\ index_unique ni.2 = true) (map_to_list (indexes s))).*1.
Definition foreign_keys (t : TableDef) : list (string * string * list string * string) :=
  omap (fun nc => match nc.2 with ForeignKey _ t' refs od => Some (nc.1, t', refs, od) | _ => None end)
    (map_to_list (constraints t)).

(** the table [name] of a schema has exactly the keys that [Database] checks, every
    foreign key with the cascade that [Database] follows; and every length it checks
    is that of a column *)
Definition implements {K} R `{Table K R} (s : Schema) (name : string) : Prop :=
  exists t, tables s !! name = Some t /\
    primary_keys t = [Database.pk_name (R := R)] /\
    unique_keys s name t ≡ₚ (row_uniques (R := R)).*1 /\
    forall r : R,
      foreign_keys t ≡ₚ (fun x => (x.1, ref_table x.2, ["id"], "CASCADE")) <$> row_refs r /\
      Forall (fun x => Z.of_nat x.1 ∈ lengths t) (row_sizes r).

Ltac by_computation := apply (bool_decide_eq_true_1 _); vm_compute; reflexivity.
Ltac implements_table :=
  match goal with |- implements _ ?s ?name =>
    eexists (default (mkTableDef ∅ ∅) (tables s !! name)); split; [by_computation|];
    split; [by_computation|split; [by_computation|intros r; split; by_computation]]
  end.

(** From an empty database the migrations run to the newest revision and make the schema
    the models declare: every table of the server with its columns, constraints and
    indexes, under the names of the convention, the scheduler's table up to the name of
    its key, and the two tables of Celery, which no model declares.  Its primary, unique and foreign keys are exactly the ones the
    statements of [Database] check, and every foreign key cascades. *)
Theorem upgrade_builds_models :
  exists s, upgrade_head base = Ok (mkMigrated s (Some "0013")) /\ schema_wf s /\
    Forall (fun m => tables s !! mt_name m = Some (declared_table m)) server_tables /\
    Forall (fun m => filter (fun ni => index_table ni.2 = mt_name m) (indexes s) = declared_indexes m)
      syncmaster_metadata /\
    columns <$> tables s !! mt_name APSchedulerJob = Some (declared_columns APSchedulerJob) /\
    dom (tables s) = list_to_set ("celery_taskmeta" :: "celery_tasksetmeta" :: (mt_name <$> syncmaster_metadata)) /\
    implements Models.User s "user" /\ implements Models.Group s "group" /\
    implements Models.UserGroup s "user_group" /\ implements Models.Connection s "connection" /\
    implements Models.AuthData s "auth_data" /\ implements Models.Queue s "queue" /\
    implements Models.Transfer s "transfer" /\ implements Models.Run s "run".
Proof.
  exists (schema head). split; [by_computation|]. split.
  { split.
    - assert (map_Forall (fun _ t => map_Forall (fun _ c => target_exists (schema head) c) (constraints t))
        (tables (schema head))) as H by by_computation.
      intros n t k c Ht Hk. exact (H n t Ht k c Hk).
    - assert (map_Forall (fun _ i => is_Some (tables (schema head) !! index_table i)) (indexes (schema head))) as H
        by by_computation.
      exact H. }
  split; [by_computation|]. split; [by_computation|]. split; [by_computation|]. split; [by_computation|].
  split_and!; implements_table.
Qed.
