(* ===== verification/Scheduler.v ===== *)
(** * The scheduler ([src/syncmaster/scheduler])

    [SchedulerState] is what the scheduler process keeps: the job store, which
    APScheduler keeps in the database and which survives a restart, and
    [TransferFetcher.last_updated_at], which does not.  [tick] is one iteration of
    the loop in [main]; its two queries run in sessions of their own, so they see
    two committed databases, and APScheduler reads the clock [now] for the jobs it adds.
    Parsing a crontab and its fire times are the parameter [Cron]. *)

From S2P Require Import Prelude PyData Models Errors Database Integrity Search Repository.
From S2P Require Import Repositories RepositoryFacts Pydantic ConnectionSchemas ApiRuns.

(** [CronTrigger.from_crontab], the first time a trigger fires after a time, and the
    settings of the scheduler *)
Class Cron := {
  CronTrigger : Type;
  from_crontab : string -> result exc CronTrigger;
  get_next_fire_time : CronTrigger -> Z -> option Z;
  misfire_grace_time_seconds : Z;
}.

Record Job `{Cron} := mkJob {
  job_id : string;
  job_trigger : CronTrigger;
  job_misfire_grace_time : Z;
  job_transfer_id : Z;           (* [args=(transfer.id,)] *)
  job_next_run_time : option Z;  (* [None] for a job that never fires *)
}.

Record SchedulerState `{Cron} := mkSchedulerState {
  jobs : gmap string Job;
  last_updated_at : option Z;
}.

Arguments mkJob {_} _ _ _ _ _.
Arguments mkSchedulerState {_} _ _.

Section Scheduler.
Context `{Cron}.
#[local] Notation S := (SE SchedulerState exc).

(** ** The job store *)

Definition get_job (id : string) : S (option Job) := gets (fun s => jobs s !! id).
Definition get_jobs : S (list Job) := gets (fun s => snd <$> map_to_list (jobs s)).
Definition put_job (j : Job) : S unit := fun s =>
  (Ok tt, mkSchedulerState (<[job_id j := j]> (jobs s)) (last_updated_at s)).
(** [modify_job] sets the attributes it is given: the next run time stays what it was,
    though the trigger is another ([reschedule_job] is the call that computes it anew) *)
Definition modify_job (id : string) (trigger : CronTrigger) (misfire_grace_time transfer_id : Z) : S unit :=
  existing ← get_job id;
  match existing with
  | None => raise (KeyError id)
  | Some j => put_job (mkJob id trigger misfire_grace_time transfer_id (job_next_run_time j))
  end.
(** a job with the id of another is a [ConflictingIdError], which is a [KeyError] *)
Definition add_job (now : Z) (id : string) (trigger : CronTrigger) (misfire_grace_time transfer_id : Z) : S unit :=
  existing ← get_job id;
  match existing with
  | None => put_job (mkJob id trigger misfire_grace_time transfer_id (get_next_fire_time trigger now))
  | Some _ => raise (KeyError id)
  end.
(** [JobLookupError] is a [KeyError] *)
Definition remove_job (id : string) : S unit := fun s =>
  match jobs s !! id with
  | None => (Raise (KeyError id), s)
  | Some _ => (Ok tt, mkSchedulerState (delete id (jobs s)) (last_updated_at s))
  end.

(** ** [TransferJobManager] *)

(** one iteration of the loop in [update_jobs] *)
Definition update_job (now : Z) (transfer : Transfer) : S unit :=
  let job_id := str_of_Z (transfer_id transfer) in
  existing_job ← get_job job_id;
  if negb (is_scheduled transfer) then
    match existing_job with
    | Some _ => remove_job job_id
    | None => mret tt
    end
  else
    trigger ← reads (fun _ => from_crontab (schedule transfer));
    match existing_job with
    | Some _ => modify_job job_id trigger misfire_grace_time_seconds (transfer_id transfer)
    | None => add_job now job_id trigger misfire_grace_time_seconds (transfer_id transfer)
    end.

Fixpoint update_jobs (now : Z) (transfers : list Transfer) : S unit :=
  match transfers with
  | [] => mret tt
  | transfer :: rest => _ ← update_job now transfer; update_jobs now rest
  end.

Fixpoint remove_jobs (job_ids : list Z) : S unit :=
  match job_ids with
  | [] => mret tt
  | job_id :: rest => _ ← remove_job (str_of_Z job_id); remove_jobs rest
  end.

(** [int(job.id)] *)
Definition job_transfer_ids (l : list Job) : result exc (list Z) :=
  mapM (fun j => or_raise (Z_of_str (job_id j)) (ValueError (job_id j))) l.

(** [db] is the committed database the query sees *)
Definition remove_orphan_jobs (db : DB) : S unit :=
  all_jobs ← get_jobs;
  ids ← reads (fun _ => job_transfer_ids all_jobs);
  let missing_job_ids := filter (fun i => transfers db !! i = None) (remove_dups ids) in
  remove_jobs missing_job_ids.

(** ** [TransferFetcher] *)

Definition fetch_updated_jobs (db : DB) : S (list Transfer) :=
  gets (fun s =>
    match last_updated_at s with
    | None => rows_of db
    | Some last => filter (fun t => last < transfer_updated_at t) (rows_of db)
    end).

(** ** The loop of [main] *)

Definition set_last_updated_at (t : Z) : S unit := fun s =>
  (Ok tt, mkSchedulerState (jobs s) (Some t)).

(** [max(t.updated_at for t in transfers)] *)
Definition max_updated_at (t : Transfer) (rest : list Transfer) : Z :=
  foldr Z.max (transfer_updated_at t) (transfer_updated_at <$> rest).

Definition tick (now : Z) (db1 db2 : DB) : S unit :=
  _ ← remove_orphan_jobs db1;
  transfers ← fetch_updated_jobs db2;
  match transfers with
  | [] => mret tt
  | t :: rest =>
      _ ← update_jobs now transfers;
      set_last_updated_at (max_updated_at t rest)
  end.

(** a process that starts finds the stored jobs and has fetched nothing *)
Definition restart (s : SchedulerState) : SchedulerState := mkSchedulerState (jobs s) None.
End Scheduler.

(** ** A job that fires ([TransferJobManager.send_job_to_celery]) *)

Section SendJob.
Context `{Cipher} `{PydanticCore} `{Broker}.

(** the body of the first [async with unit_of_work] *)
Definition create_scheduled_run (transfer_id : Z) (credentials_source credentials_target : json)
    : M Run :=
  source_creds ← reads (fun _ => read_auth_data credentials_source);
  target_creds ← reads (fun _ => read_auth_data credentials_target);
  RunRepository.create transfer_id source_creds target_creds SCHEDULED.

(** [transfer.queue.slug], of the queue loaded with the transfer *)
Definition transfer_queue (t : Transfer) : M (option Queue) := select_by_key (transfer_queue_id t).

Definition send_scheduled_run (run : Run) (queue : option Queue) : M unit :=
  match queue with
  | None => raise AttributeError
  | Some q =>
      match send_task "run_transfer_task" (run_id run) (queue_slug q) with
      | Ok _ => mret tt
      | Raise e =>
          if isinstance e CKombuError then
            _ ← unit_of_work (RunRepository.update (run_id run) FAILED);
            raise (CannotConnectToTaskQueueError (run_id run))
          else raise e
      end
  end.

Definition send_job_to_celery (transfer_id : Z) : M unit :=
  transfer ← catch (t ← TransferRepository.read_by_id transfer_id; mret (Some t))
    (fun e => if isinstance e CTransferNotFoundError then Some (mret None) else None);
  match transfer with
  | None => mret tt
  | Some transfer =>
      queue ← transfer_queue transfer;
      credentials_source ← CredentialsRepository.read (source_connection_id transfer);
      credentials_target ← CredentialsRepository.read (target_connection_id transfer);
      run ← unit_of_work (create_scheduled_run transfer_id credentials_source credentials_target);
      send_scheduled_run run queue
  end.
End SendJob.
