(* ===== verification/SchedulerFacts.v ===== *)
(** * What an iteration of the scheduler does

    The job store after [remove_orphan_jobs] and [update_jobs], when an iteration
    fails, and what the requests of the server leave of the transfers: unchanged, or
    with a new [updated_at], but for the route that copies transfers. *)

From S2P Require Import Prelude PyData Models Errors Database Integrity Search Repository.
From S2P Require Import Repositories RepositoryFacts Pydantic ConnectionSchemas TransferSchemas.
From S2P Require Import Auth ApiGroups ApiQueues ApiConnections ApiTransfers ApiRuns Server.
From S2P Require Import ServerFacts Deletion Membership ConnectionTheorems.
From S2P Require Import Scheduler.

Lemma transfer_key db k t : db_wf db -> transfers db !! k = Some t -> transfer_id t = k.
Proof. exact (fun Hwf Hk => wf_key (R := Transfer) db k t Hwf Hk). Qed.

Section Jobs.
Context `{Cron}.

(** the job of a transfer *)
Definition make_job (t : Transfer) (trigger : CronTrigger) (next_run_time : option Z) : Job :=
  mkJob (str_of_Z (transfer_id t)) trigger misfire_grace_time_seconds (transfer_id t) next_run_time.

(** what the job store should hold for a transfer *)
Definition mirrored (js : gmap string Job) (t : Transfer) : Prop :=
  if is_scheduled t
  then exists trigger next, from_crontab (schedule t) = Ok trigger /\
    js !! str_of_Z (transfer_id t) = Some (make_job t trigger next)
  else js !! str_of_Z (transfer_id t) = None.

(** the next run of a job: the one it had, or the first of its trigger *)
Definition next_run (now : Z) (before : option Job) (trigger : CronTrigger) : option Z :=
  match before with Some j => job_next_run_time j | None => get_next_fire_time trigger now end.
Definition timely (now : Z) (js js' : gmap string Job) (id : string) : Prop :=
  forall j, js' !! id = Some j -> job_next_run_time j = next_run now (js !! id) (job_trigger j).
Lemma timely_same now js js' id : js' !! id = js !! id -> timely now js js' id.
Proof. intros He j Hj. unfold next_run. by rewrite <- He, Hj. Qed.
Lemma timely_ext now js1 js2 js1' js2' id : js1 !! id = js2 !! id -> js1' !! id = js2' !! id ->
  timely now js2 js2' id -> timely now js1 js1' id.
Proof. unfold timely. by intros -> ->. Qed.

(** jobs are stored under their ids, which are the ids of transfers *)
Definition jobs_wf (js : gmap string Job) : Prop :=
  map_Forall (fun id j => job_id j = id /\ exists k, id = str_of_Z k) js.

Lemma mirrored_ext js js' t :
  js' !! str_of_Z (transfer_id t) = js !! str_of_Z (transfer_id t) -> mirrored js t -> mirrored js' t.
Proof. unfold mirrored. by intros ->. Qed.

Lemma put_job_ok now j s s' : put_job j s = (Ok tt, s') ->
  job_next_run_time j = next_run now (jobs s !! job_id j) (job_trigger j) ->
  last_updated_at s' = last_updated_at s /\ jobs s' = <[job_id j := j]> (jobs s) /\
  forall id, timely now (jobs s) (jobs s') id.
Proof.
  intros [= <-] Hn. split_and!; [done..|]. intros id. cbn. destruct (decide (id = job_id j)) as [->|Hne].
  - intros j'. rewrite lookup_insert_eq. by intros [= <-].
  - apply timely_same. by rewrite lookup_insert_ne.
Qed.

(** [modify_job] of a job that is there, [add_job] of one that is not *)
Lemma set_job_ok now t trigger s s' :
  match jobs s !! str_of_Z (transfer_id t) with
  | Some _ => modify_job (str_of_Z (transfer_id t)) trigger misfire_grace_time_seconds (transfer_id t)
  | None => add_job now (str_of_Z (transfer_id t)) trigger misfire_grace_time_seconds (transfer_id t)
  end s = (Ok tt, s') ->
  exists next, last_updated_at s' = last_updated_at s /\
    jobs s' = <[str_of_Z (transfer_id t) := make_job t trigger next]> (jobs s) /\
    forall id, timely now (jobs s) (jobs s') id.
Proof.
  destruct (jobs s !! str_of_Z (transfer_id t)) as [j|] eqn:Hj; unfold modify_job, add_job; intros Hs;
    apply bind_ok in Hs as (o & s1 & [= <- <-] & Hs); rewrite Hj in Hs;
    apply (put_job_ok now) in Hs; [by eexists|cbn; by rewrite Hj|by eexists|cbn; by rewrite Hj].
Qed.
Lemma set_job_total now t trigger s :
  exists s', match jobs s !! str_of_Z (transfer_id t) with
  | Some _ => modify_job (str_of_Z (transfer_id t)) trigger misfire_grace_time_seconds (transfer_id t)
  | None => add_job now (str_of_Z (transfer_id t)) trigger misfire_grace_time_seconds (transfer_id t)
  end s = (Ok tt, s').
Proof.
  destruct (jobs s !! str_of_Z (transfer_id t)) as [j|] eqn:Hj; unfold modify_job, add_job; rewrite bind_run;
    cbn -[put_job]; rewrite Hj; by eexists.
Qed.

Lemma update_job_ok now t s s' : update_job now t s = (Ok tt, s') ->
  last_updated_at s' = last_updated_at s /\ mirrored (jobs s') t /\
  (forall id, id <> str_of_Z (transfer_id t) -> jobs s' !! id = jobs s !! id) /\
  (jobs_wf (jobs s) -> jobs_wf (jobs s')) /\ (forall id, timely now (jobs s) (jobs s') id).
Proof.
  unfold update_job, mirrored. cbv zeta. intros Hu.
  apply bind_ok in Hu as (o & s1 & [= <- <-] & Hu).
  destruct (is_scheduled t); cbn [negb] in Hu.
  - apply bind_ok in Hu as (tr & s1 & Htr & Hu). unfold reads in Htr. injection Htr as Htr <-.
    apply set_job_ok in Hu as (next & Hl & -> & Ht). rewrite lookup_insert_eq. split_and!; [done|by eauto| | |done].
    + intros id Hid. by rewrite lookup_insert_ne.
    + intros Hwf. apply map_Forall_insert_2; [|done]. cbn. by eauto.
  - destruct (jobs s !! _) eqn:Hj.
    + unfold remove_job in Hu. rewrite Hj in Hu. injection Hu as <-. cbn.
      rewrite lookup_delete_eq. split_and!; [done|done| |by apply map_Forall_delete|].
      * intros id Hid. by rewrite lookup_delete_ne.
      * intros id j0 [_ Hid]%lookup_delete_Some. by rewrite Hid.
    + injection Hu as <-. split_and!; try done. intros id. by apply timely_same.
Qed.

Lemma update_jobs_ok now ts : forall s s', update_jobs now ts s = (Ok tt, s') ->
  NoDup (transfer_id <$> ts) ->
  last_updated_at s' = last_updated_at s /\ (forall t, t ∈ ts -> mirrored (jobs s') t) /\
  (forall k, k ∉ (transfer_id <$> ts) -> jobs s' !! str_of_Z k = jobs s !! str_of_Z k) /\
  (jobs_wf (jobs s) -> jobs_wf (jobs s')) /\ (forall id, timely now (jobs s) (jobs s') id).
Proof.
  induction ts as [|t ts IH]; intros s s' Hu Hnd.
  - injection Hu as <-. split_and!; try done; [|intros id; by apply timely_same].
    intros t Ht. by apply not_elem_of_nil in Ht.
  - apply bind_ok in Hu as ([] & s1 & Ht & Hu). apply update_job_ok in Ht as (Hl & Hm & Hf & Hwf & Htm).
    rewrite fmap_cons in Hnd. apply NoDup_cons in Hnd as [Hn Hnd].
    apply IH in Hu as (Hl' & Hm' & Hf' & Hwf' & Htm'); [|done]. rewrite Hl'. split_and!; [done| | |by auto|].
    + intros t' [->|Hin]%elem_of_cons; [|by apply Hm'].
      eapply mirrored_ext; [|exact Hm]. by apply Hf'.
    + intros k Hk. rewrite fmap_cons, not_elem_of_cons in Hk. destruct Hk as [Hkt Hk].
      rewrite Hf' by done. apply Hf. by intros ->%(inj _).
    + intros id. destruct (decide (id = str_of_Z (transfer_id t))) as [->|Hne].
      * eapply timely_ext; [done|by apply Hf'|apply Htm].
      * eapply timely_ext; [symmetry; by apply Hf|done|apply Htm'].
Qed.

(** an iteration over the transfers can only fail on a schedule that is no crontab *)
Lemma update_jobs_total now ts : forall s e s', update_jobs now ts s = (Raise e, s') ->
  exists t, t ∈ ts /\ is_scheduled t = true /\ from_crontab (schedule t) = Raise e.
Proof.
  induction ts as [|t ts IH]; intros s e s' Hu; [done|]. cbn in Hu. rewrite bind_run in Hu.
  destruct (update_job now t s) as [[[]|e'] s1] eqn:Ht.
  - apply IH in Hu as (t' & Hin & Ht'). exists t'. split; [by right|done].
  - injection Hu as -> _. exists t. split; [by left|]. unfold update_job in Ht.
    cbn in Ht. rewrite bind_run in Ht. cbn in Ht. destruct (is_scheduled t); cbn in Ht.
    + rewrite bind_run in Ht. cbn -[modify_job add_job] in Ht. destruct (from_crontab (schedule t)) as [tr|]; [|by injection Ht as -> _].
      destruct (set_job_total now t tr s) as [s2 Hs]. by rewrite Hs in Ht.
    + destruct (jobs s !! _) eqn:Hj; [|done]. unfold remove_job in Ht. by rewrite Hj in Ht.
Qed.

(** ... and what it did before stays well-formed *)
Lemma update_jobs_stops now ts : forall s e s', update_jobs now ts s = (Raise e, s') -> jobs_wf (jobs s) ->
  last_updated_at s' = last_updated_at s /\ jobs_wf (jobs s').
Proof.
  induction ts as [|t ts IH]; intros s e s' Hu Hj; [done|]. cbn in Hu. rewrite bind_run in Hu.
  destruct (update_job now t s) as [[[]|e'] s1] eqn:Ht.
  - apply update_job_ok in Ht as (Hl & _ & _ & Hw & _). rewrite <- Hl. eapply IH; [exact Hu|by apply Hw].
  - injection Hu as -> ->. unfold update_job in Ht. cbn in Ht. rewrite bind_run in Ht. cbn in Ht.
    destruct (is_scheduled t); cbn in Ht.
    + rewrite bind_run in Ht. cbn -[modify_job add_job] in Ht. destruct (from_crontab (schedule t)) as [tr|]; [|by injection Ht as _ ->].
      destruct (set_job_total now t tr s) as [s2 Hs]. by rewrite Hs in Ht.
    + destruct (jobs s !! _) eqn:Hjs; [|done]. unfold remove_job in Ht. by rewrite Hjs in Ht.
Qed.

Lemma remove_jobs_run ids : forall s, NoDup ids -> (forall i, i ∈ ids -> is_Some (jobs s !! str_of_Z i)) ->
  exists s', remove_jobs ids s = (Ok tt, s') /\ last_updated_at s' = last_updated_at s /\
    jobs s' ⊆ jobs s /\
    forall k, jobs s' !! str_of_Z k = if decide (k ∈ ids) then None else jobs s !! str_of_Z k.
Proof.
  induction ids as [|i ids IH]; intros s Hnd Hs.
  - exists s. split_and!; [done..|]. intros k. by rewrite decide_False by apply not_elem_of_nil.
  - apply NoDup_cons in Hnd as [Hi Hnd]. destruct (Hs i) as [j Hj]; [by left|].
    destruct (IH (mkSchedulerState (delete (str_of_Z i) (jobs s)) (last_updated_at s)) Hnd)
      as (s' & Hr & Hl & Hsub & Hk).
    { intros i' Hi'. cbn. rewrite lookup_delete_ne; [apply Hs; by right|].
      by intros ->%(inj _). }
    exists s'. cbn. rewrite bind_run. unfold remove_job. rewrite Hj. split_and!; [done..| |].
    + etrans; [exact Hsub|]. apply delete_subseteq.
    + intros k. rewrite Hk. cbn. destruct (decide (k = i)) as [->|Hne].
      * rewrite lookup_delete_eq. rewrite (decide_True (P := i ∈ i :: ids)) by (by left).
        by destruct (decide _).
      * rewrite lookup_delete_ne by (by intros ?%(inj _)).
        destruct (decide (k ∈ ids)); [rewrite decide_True by (by right)|rewrite decide_False by set_solver];
          done.
Qed.
End Jobs.

Section Tick.
Context `{Cron}.

Lemma job_ids_ok (js : gmap string Job) : jobs_wf js ->
  exists ids, job_transfer_ids (snd <$> map_to_list js) = Ok ids /\
    forall k, k ∈ ids <-> is_Some (js !! str_of_Z k).
Proof.
  intros Hwf. unfold job_transfer_ids.
  assert (forall l, (forall x, x ∈ l -> js !! x.1 = Some x.2) ->
    exists ids, mapM (fun j => or_raise (E := exc) (Z_of_str (job_id j)) (ValueError (job_id j))) (snd <$> l) = Ok ids /\
      forall k, k ∈ ids <-> exists j, (str_of_Z k, j) ∈ l) as Hl.
  { induction l as [|[id j] l IH]; intros Hin.
    - exists []. split; [done|]. intros k. set_solver.
    - destruct IH as (ids & Hids & Hk); [intros x Hx; apply Hin; by right|].
      destruct (Hwf id j) as [Hj [k0 ->]]; [apply (Hin (id, j)); by left|]. cbn in Hj.
      exists (k0 :: ids). cbn. rewrite Hj, Z_of_str_of_Z. cbn. rewrite Hids. split; [done|].
      intros k. rewrite elem_of_cons, Hk. split.
      + intros [->|[j' Hj']]; [exists j; by left|exists j'; by right].
      + intros [j' [[= ->%(inj _) ->]|Hj']%elem_of_cons]; [by left|right; by exists j']. }
  destruct (Hl (map_to_list js)) as (ids & Hids & Hk).
  { intros [id j] Hx. by apply elem_of_map_to_list. }
  exists ids. split; [exact Hids|]. intros k. rewrite Hk. split.
  - intros [j Hj%elem_of_map_to_list]. by exists j.
  - intros [j Hj]. exists j. by apply elem_of_map_to_list.
Qed.

(** removing orphan jobs never fails, and leaves the jobs of stored transfers *)
Lemma remove_orphan_jobs_run db s : jobs_wf (jobs s) ->
  exists s', remove_orphan_jobs db s = (Ok tt, s') /\ last_updated_at s' = last_updated_at s /\
    jobs_wf (jobs s') /\
    forall k, jobs s' !! str_of_Z k =
      match transfers db !! k with Some _ => jobs s !! str_of_Z k | None => None end.
Proof.
  intros Hwf. destruct (job_ids_ok (jobs s) Hwf) as (ids & Hids & Hk).
  destruct (remove_jobs_run (filter (fun i => transfers db !! i = None) (remove_dups ids)) s)
    as (s' & Hr & Hl & Hsub & Hj).
  { apply NoDup_filter, NoDup_remove_dups. }
  { intros i Hi%list_elem_of_filter. apply Hk, elem_of_remove_dups, Hi. }
  exists s'. unfold remove_orphan_jobs, get_jobs, gets. rewrite bind_run. cbv beta iota.
  rewrite bind_run. unfold reads. rewrite Hids. cbv beta iota zeta.
  split_and!; [exact Hr|exact Hl| |].
  - intros id j Hid. apply Hwf. by eapply lookup_weaken.
  - intros k. rewrite Hj. destruct (decide _) as [Hd|Hd];
      rewrite list_elem_of_filter, elem_of_remove_dups, Hk in Hd.
    + by destruct Hd as [-> _].
    + destruct (transfers db !! k); [done|]. destruct (jobs s !! str_of_Z k); [|done].
      exfalso. apply Hd. by eauto.
Qed.

(** the last fetch saw this version of a transfer *)
Definition fetched (s : SchedulerState) (t : Transfer) : Prop :=
  match last_updated_at s with None => False | Some last => transfer_updated_at t <= last end.

#[export] Instance fetched_dec s t : Decision (fetched s t).
Proof. unfold fetched. destruct (last_updated_at s); apply _. Defined.

(** what holds between iterations *)
Definition following (db : DB) (s : SchedulerState) : Prop :=
  jobs_wf (jobs s) /\ forall k t, transfers db !! k = Some t -> fetched s t -> mirrored (jobs s) t.

Lemma fetch_updated_elem db s t : db_wf db ->
  t ∈ match last_updated_at s with
      | None => rows_of db
      | Some last => filter (fun t => last < transfer_updated_at t) (rows_of db)
      end <->
  transfers db !! transfer_id t = Some t /\ ~ fetched s t.
Proof.
  intros Hwf. unfold fetched. destruct (last_updated_at s) as [last|].
  - rewrite list_elem_of_filter, (rows_of_elem (R := Transfer)) by done. cbn. rewrite Z.nle_gt. naive_solver.
  - rewrite (rows_of_elem (R := Transfer)) by done. cbn. naive_solver.
Qed.

Lemma rows_of_ids db : db_wf db -> NoDup (transfer_id <$> rows_of (R := Transfer) db).
Proof.
  intros Hwf. unfold rows_of. rewrite <- list_fmap_compose.
  assert ((transfer_id ∘ snd) <$> map_to_list (tbl (R := Transfer) db) =
          fst <$> map_to_list (tbl (R := Transfer) db)) as ->; [|apply NoDup_fst_map_to_list].
  apply list_fmap_ext. intros i [k t] Hk. cbn.
  apply list_elem_of_lookup_2, elem_of_map_to_list in Hk.
  exact (transfer_key db k t Hwf Hk).
Qed.

End Tick.

Section Iteration.
Context `{Cron}.

(** one iteration: what the two queries saw, and what it leaves *)
Lemma tick_ok now db s s' : db_wf db -> following db s -> tick now db db s = (Ok tt, s') ->
  following db s' /\
  (forall k t, transfers db !! k = Some t -> mirrored (jobs s') t) /\
  (forall k, is_Some (jobs s' !! str_of_Z k) -> is_Some (transfers db !! k)) /\
  (forall k, timely now (jobs s) (jobs s') (str_of_Z k)).
Proof.
  intros Hwf [Hjobs Hf] Ht. unfold tick in Ht.
  destruct (remove_orphan_jobs_run db s Hjobs) as (s1 & Hr & Hl & Hjobs1 & Hk).
  apply bind_ok in Ht as ([] & s1' & Hr' & Ht). rewrite Hr in Hr'. injection Hr' as <-.
  apply bind_ok in Ht as (ts & s2 & Hts & Ht). unfold fetch_updated_jobs, gets in Hts.
  injection Hts as Hts <-.
  assert (forall t, t ∈ ts <-> transfers db !! transfer_id t = Some t /\ ~ fetched s1 t) as Hin.
  { intros t. rewrite <- Hts. by apply fetch_updated_elem. }
  assert (NoDup (transfer_id <$> ts)) as Hnd.
  { rewrite <- Hts. destruct (last_updated_at s1); [|by apply rows_of_ids].
    eapply sublist_NoDup; [apply rows_of_ids, Hwf|]. apply fmap_sublist, sublist_filter. }
  assert (forall k t, transfers db !! k = Some t -> t ∉ ts -> mirrored (jobs s1) t) as Hold.
  { intros k t Hkt Hn. pose proof (transfer_key db k t Hwf Hkt) as Hid. subst k.
    apply (mirrored_ext (jobs s)); [by rewrite Hk, Hkt|]. apply (Hf (transfer_id t)); [done|].
    unfold fetched in *. rewrite Hl in Hin. destruct (decide (fetched s t)) as [?|Hn']; [done|].
    exfalso. apply Hn, Hin. by split. }
  assert (exists s2, update_jobs now ts s1 = (Ok tt, s2) /\ jobs s' = jobs s2) as (s2 & Hu & Hjs).
  { destruct ts as [|t rest]; [injection Ht as <-; by exists s1|].
    apply bind_ok in Ht as ([] & s2 & Hu & Ht). injection Ht as <-. by exists s2. }
  apply update_jobs_ok in Hu as (_ & Hm & Hfr & Hjw & Htm); [|done].
  assert (forall k t, transfers db !! k = Some t -> mirrored (jobs s') t) as Hall.
  { intros k t Hkt. rewrite Hjs.
    assert (transfer_id t = k) as Hid by exact (transfer_key db k t Hwf Hkt).
    destruct (decide (k ∈ transfer_id <$> ts)) as [(t' & -> & Ht')%list_elem_of_fmap|Hn].
    - apply Hm. apply Hin in Ht' as Ht''. destruct Ht'' as [Ht'' _]. rewrite Hkt in Ht''.
      by injection Ht'' as ->.
    - eapply mirrored_ext; [apply Hfr; by rewrite Hid|]. eapply Hold; [done|].
      intros Ht'. apply Hn. rewrite <- Hid. by apply list_elem_of_fmap_2. }
  assert (forall k, is_Some (jobs s' !! str_of_Z k) -> is_Some (transfers db !! k)) as Hback.
  { intros k Hj. destruct (decide (k ∈ transfer_id <$> ts)) as [(t & -> & Ht'%Hin)%list_elem_of_fmap|Hn].
    - destruct Ht' as [-> _]. done.
    - rewrite Hjs, Hfr, Hk in Hj by done. destruct (transfers db !! k); [done|by destruct Hj]. }
  split_and!; [split|exact Hall|exact Hback|].
  - rewrite Hjs. by apply Hjw.
  - intros k t Hkt _. by eapply Hall.
  - intros k j Hj. destruct (Hback k) as [t Hkt]; [by exists j|]. rewrite Hjs in Hj. rewrite (Htm _ _ Hj).
    by rewrite Hk, Hkt.
Qed.
End Iteration.

(** ** What requests do to the transfers *)

(** the transfers of [db] are those of [db0], or carry the time [at_] *)
Definition fresh (at_ : Z) (db0 db : DB) : Prop :=
  forall k t, transfers db !! k = Some t -> transfers db0 !! k = Some t \/ transfer_updated_at t = at_.
Definition fresh_session (at_ : Z) (db0 : DB) (s : Session) : Prop :=
  clock s = at_ /\ fresh at_ db0 (committed s) /\ fresh at_ db0 (working s).

Section Fresh.
Context (at_ : Z) (db0 : DB).

Lemma fresh_sub db db' : transfers db' ⊆ transfers db -> fresh at_ db0 db -> fresh at_ db0 db'.
Proof. intros Hs Hf k t Hk. apply Hf. by eapply lookup_weaken. Qed.

#[export] Instance fresh_keeps_session : KeepsSession (fresh_session at_ db0).
Proof. constructor; [by intros q s|by intros s (?&?&?)|by intros s (?&?&?)]. Qed.

(** a statement on another table *)
Class NoTransfers (R : Type) {K} `{Table K R} := no_transfers : forall (m : gmap K R) db,
  transfers (with_tbl m db) = transfers db.
#[export] Instance NoTransfersUser : NoTransfers User. Proof. done. Qed.
#[export] Instance NoTransfersGroup : NoTransfers Group. Proof. done. Qed.
#[export] Instance NoTransfersUserGroup : NoTransfers UserGroup. Proof. done. Qed.
#[export] Instance NoTransfersConnection : NoTransfers Connection. Proof. done. Qed.
#[export] Instance NoTransfersAuthData : NoTransfers AuthData. Proof. done. Qed.
#[export] Instance NoTransfersQueue : NoTransfers Queue. Proof. done. Qed.
#[export] Instance NoTransfersRun : NoTransfers Run. Proof. done. Qed.

Lemma fresh_cascade db : fresh at_ db0 db -> fresh at_ db0 (cascade db).
Proof. apply fresh_sub. by destruct (cascade_sub db) as (?&?&?&?&?&?&?&?). Qed.

#[export] Instance fresh_keeps_table {K R} `{NoTransfers R (K := K)} : KeepsTable (fresh_session at_ db0) R.
Proof.
  assert (forall m db, fresh at_ db0 db -> fresh at_ db0 (with_tbl (R := R) m db)) as Hin.
  { intros m db. unfold fresh. by rewrite no_transfers. }
  constructor; [intros r s (?&?&?)|intros k f _ s (?&?&?)|intros k s (?&?&?)];
    unfold final, insert_row, update_row, delete_row; repeat case_match;
    (split; [|split]); cbn [committed working clock set_working snd]; auto using fresh_cascade.
Qed.

Lemma fresh_update_transfer k (f : Transfer -> Transfer) : preserves (fresh_session at_ db0) (update_row k f).
Proof.
  intros s (Hc & Hcom & Hw). unfold final, update_row. repeat case_match; (split; [|split]); try done.
  intros k' t'. cbn. rewrite lookup_insert. case_decide; [|apply Hw]. intros [= <-]. by right.
Qed.
Lemma fresh_delete_transfer k : preserves (fresh_session at_ db0) (delete_row (R := Transfer) k).
Proof.
  intros s (Hc & Hcom & Hw). unfold final, delete_row. repeat case_match; (split; [|split]); try done.
  apply fresh_cascade. eapply fresh_sub; [|exact Hw]. apply delete_subseteq.
Qed.
Lemma fresh_insert_transfer (t : Transfer) :
  transfer_updated_at t = at_ -> preserves (fresh_session at_ db0) (insert_row t).
Proof.
  intros Ht s (Hc & Hcom & Hw). unfold final, insert_row. repeat case_match; (split; [|split]); try done.
  intros k' t'. cbn. rewrite lookup_insert. case_decide; [|apply Hw]. intros [= <-]. by right.
Qed.
End Fresh.

Section FreshEndpoints.
Context `{TextSearch} `{Cipher} `{PydanticCore} `{PyLib} `{Broker} `{AuthProviderLaws}.
Context (at_ : Z) (db0 : DB).
Notation P := (fresh_session at_ db0).

Lemma fresh_transfer_create a1 a2 a3 a4 a5 a6 a7 a8 a9 a10 a11 a12 a13 :
  preserves P (TransferRepository.create a1 a2 a3 a4 a5 a6 a7 a8 a9 a10 a11 a12 a13).
Proof.
  intros s Hs. unfold TransferRepository.create, final. rewrite bind_run. cbv beta iota delta [now gets].
  revert s Hs. intros s Hs. pose proof Hs as (Hc & _).
  refine (except_integrity_wf _ _ P _ s Hs). apply preserves_bind; [apply keeps_nextval|]. intros i.
  by apply fresh_insert_transfer.
Qed.
Lemma fresh_transfer_update a1 a2 a3 a4 a5 a6 a7 a8 a9 a10 a11 a12 a13 :
  preserves P (TransferRepository.update a1 a2 a3 a4 a5 a6 a7 a8 a9 a10 a11 a12 a13).
Proof.
  apply except_integrity_wf, preserves_bind; [apply fresh_update_transfer|].
  intros []; [apply preserves_ret|apply preserves_raise].
Qed.
Lemma fresh_transfer_delete i : preserves P (TransferRepository.delete i).
Proof.
  apply preserves_bind; [|intros ?; apply preserves_ret].
  apply except_class_wf, preserves_bind; [apply fresh_delete_transfer|].
  intros []; [apply preserves_ret|apply preserves_raise].
Qed.
#[local] Hint Resolve fresh_transfer_create fresh_transfer_update fresh_transfer_delete : se.

(** the one route that writes a transfer with an old time *)
Definition copies_transfer (e : Endpoint) : bool := match e with CopyTransferTo _ _ => true | _ => false end.

Lemma fresh_group_endpoints e u : writes_groups e = true -> preserves P (dispatch e u).
Proof.
  destruct e; cbn [writes_groups dispatch]; intros Hw; try discriminate Hw; apply reply_keeps;
    unfold create_group, update_group, update_group_body, delete_group, update_user_role_group,
      add_user_to_group, delete_user_from_group; solve_se.
Qed.

Lemma fresh_dispatch e u : copies_transfer e = false -> preserves P (dispatch e u).
Proof.
  destruct (writes_groups e) eqn:Hg; [intros _; by apply fresh_group_endpoints|]. revert Hg.
  destruct e; cbn [copies_transfer writes_groups dispatch]; intros Hg Hc; try discriminate;
    apply reply_keeps; try solve [eauto 2 with se nocore].
  all: unfold read_groups, read_group, read_group_users, read_user, read_queues, read_queue,
    read_connections, read_transfers, read_transfer, read_runs, read_run, lift, create_transfer,
    update_transfer, delete_transfer, check_transfer_data; solve_se.
Qed.
End FreshEndpoints.

(** ** Iterations that fail *)

Section Failure.
Context `{Cron}.

Lemma tick_raises now db s e s' : db_wf db -> jobs_wf (jobs s) -> tick now db db s = (Raise e, s') ->
  last_updated_at s' = last_updated_at s /\ jobs_wf (jobs s') /\
  exists k t, transfers db !! k = Some t /\ is_scheduled t = true /\ from_crontab (schedule t) = Raise e.
Proof.
  intros Hwf Hj Ht. destruct (remove_orphan_jobs_run db s Hj) as (s1 & Hr & Hl & Hj1 & _).
  unfold tick in Ht. rewrite bind_run, Hr, bind_run in Ht. cbn -[update_jobs fetch_updated_jobs] in Ht.
  unfold fetch_updated_jobs, gets in Ht.
  pose proof (fetch_updated_elem db s1) as Hin. set (ts := match last_updated_at s1 with None => _ | _ => _ end) in *.
  destruct ts as [|t rest]; [done|]. rewrite bind_run in Ht.
  destruct (update_jobs now (t :: rest) s1) as [[[]|e'] s2] eqn:Hu; [done|]. injection Ht as -> ->.
  pose proof (update_jobs_stops _ _ _ _ _ Hu Hj1) as [Hl2 Hj2].
  apply update_jobs_total in Hu as (t' & Ht' & Hsch & Hbad). split_and!; [congruence|done|].
  exists (transfer_id t'), t'. split_and!; [|done..]. by apply Hin.
Qed.
End Failure.

