(* ===== verification/SchedulerTheorems.v ===== *)
(** * Theorems about the scheduler

    After an iteration of its loop the job store mirrors the transfers of the
    database: a job per scheduled transfer, with its schedule, and no other.  This
    rests on every change of a transfer carrying an [updated_at] later than the newest the
    scheduler has fetched, which copies of transfers do not. *)

From S2P Require Import Prelude PyData Models Errors Database Integrity Search Repository.
From S2P Require Import Repositories RepositoryFacts Pydantic ConnectionSchemas TransferSchemas.
From S2P Require Import Auth ApiGroups ApiQueues ApiConnections ApiTransfers ApiRuns Server.
From S2P Require Import ServerFacts Deletion Membership Examples ConnectionTheorems RunTheorems.
From S2P Require Import Scheduler SchedulerFacts.

(** ** The server, the scheduler and its jobs together *)

Section System.
Context `{TextSearch} `{Cipher} `{PydanticCore} `{PyLib} `{Broker} `{AuthProviderLaws} `{Cron}.

Lemma send_job_keeps P `{!KeepsSession P, !KeepsTable P Run} i : preserves P (send_job_to_celery i).
Proof.
  unfold send_job_to_celery, create_scheduled_run, send_scheduled_run, transfer_queue. solve_se.
Qed.

(** what changes the database, but for copies of transfers *)
Inductive change (s : Session) : Session -> Prop :=
| change_request e token : copies_transfer e = false -> change s (serve e token s).2
| change_login name : change s (login name s)
| change_superusers (add : bool) usernames :
    change s (rollback (final (unit_of_work ((if add then add_superusers else remove_superusers) usernames)) s))
| change_job i : change s (rollback (final (send_job_to_celery i) s)).

(** the clock is past the last fetch *)
Definition fetched_before (sc : SchedulerState) (s : Session) : Prop :=
  match last_updated_at sc with None => True | Some last => last < clock s end.

(** the job of id [id] runs next at [next] *)
Definition rearmed (id : string) (j : Job) (next : Z) (sc : SchedulerState) : SchedulerState :=
  mkSchedulerState (<[id := mkJob id (job_trigger j) (job_misfire_grace_time j) (job_transfer_id j) (Some next)]>
    (jobs sc)) (last_updated_at sc).

(** the states of the database and of the scheduler; the jobs a first process finds are
    any, and APScheduler gives a job that fires the time of its next run *)
Inductive scheduled : Session -> SchedulerState -> Prop :=
| sch_start s js : reachable s -> jobs_wf js -> scheduled s (mkSchedulerState js None)
| sch_change s s' sc : scheduled s sc -> fetched_before sc s -> change s s' -> scheduled s' sc
| sch_time s sc t : scheduled s sc -> clock s <= t ->
    scheduled (mkSession (committed s) (working s) (seqs s) t) sc
| sch_restart s sc : scheduled s sc -> scheduled s (restart sc)
| sch_fire s sc id j next : scheduled s sc -> jobs sc !! id = Some j -> scheduled s (rearmed id j next sc)
| sch_tick s sc sc' now : scheduled s sc -> tick now (committed s) (committed s) sc = (Ok tt, sc') ->
    scheduled s sc'.

Lemma following_rearmed db id j next sc : following db sc -> jobs sc !! id = Some j ->
  following db (rearmed id j next sc).
Proof.
  intros [Hj Hf] Hid. split.
  - apply map_Forall_insert_2; [|done]. split; [done|]. exact (proj2 (Hj _ _ Hid)).
  - intros k t Hk Hfe. specialize (Hf k t Hk Hfe). unfold mirrored in *. cbn.
    destruct (decide (str_of_Z (transfer_id t) = id)) as [<-|Hne]; [|by rewrite lookup_insert_ne].
    rewrite lookup_insert_eq. rewrite Hid in Hf. destruct (is_scheduled t); [|done].
    destruct Hf as (tr & nx & Htr & [= ->]). by eexists _, _.
Qed.

Lemma change_fresh s s' : working s = committed s -> change s s' -> fresh_session (clock s) (committed s) s'.
Proof.
  intros Hw Hch. assert (fresh_session (clock s) (committed s) s) as Hs.
  { split; [done|]. rewrite Hw. split; by intros k t Hk; left. }
  destruct Hch as [e token Hc|name|add us|i].
  - unfold serve. assert (preserves (fresh_session (clock s) (committed s)) (endpoint e token)) as He.
    { unfold endpoint. apply preserves_bind; [apply get_user_keeps; apply _|]. intros u.
      destruct (request_valid e); [by apply fresh_dispatch|apply preserves_raise]. }
    specialize (He s Hs). unfold final in He.
    destruct (endpoint e token s) as [[r|x] s1]; by apply keeps_rollback.
  - apply keeps_rollback. by apply get_or_create_keeps; [apply _..|].
  - apply keeps_rollback. apply keeps_unit_of_work; [apply _| |done]. apply superusers_keeps; apply _.
  - apply keeps_rollback. by apply send_job_keeps; [apply _..|].
Qed.

Lemma change_inv s s' : session_inv s -> change s s' -> session_inv s' /\ working s' = committed s'.
Proof.
  intros Hs [e token Hc|name|add us|i].
  - split; [by apply serve_keeps|]. unfold serve. by destruct (endpoint e token s) as [[]].
  - split; [|done]. by eapply server_step_keeps; [apply step_login|].
  - split; [|done]. by eapply server_step_keeps; [apply step_superusers|].
  - split; [|done]. apply keeps_rollback. by apply send_job_keeps; [apply _..|].
Qed.

Lemma following_fresh db db' sc at_ : following db sc -> fresh at_ db db' ->
  match last_updated_at sc with None => True | Some last => last < at_ end -> following db' sc.
Proof.
  intros [Hj Hf] Hfr Hl. split; [done|]. intros k t Hk Ht.
  destruct (Hfr k t Hk) as [Hk'|Hu]; [by eapply Hf|]. unfold fetched in Ht.
  destruct (last_updated_at sc); [lia|done].
Qed.

Lemma scheduled_inv s sc : scheduled s sc ->
  session_inv s /\ working s = committed s /\ following (committed s) sc.
Proof.
  induction 1 as [s js Hr Hj|s s' sc _ (Hs & Hw & Hf) Hb Hc|s sc t _ IH _|s sc _ (Hs & Hw & Hj & _)
                 |s sc id j next _ (Hs & Hw & Hf) Hj|s sc sc' now _ (Hs & Hw & Hf) Ht].
  - split_and!; [by apply reachable_session_inv|by apply reachable_clean|split; [done|]].
    intros k t Hk Hfe. by unfold fetched in Hfe.
  - destruct (change_inv _ _ Hs Hc) as [Hs' Hw']. split_and!; [done..|].
    destruct (change_fresh _ _ Hw Hc) as (_ & Hfr & _). by eapply following_fresh.
  - exact IH.
  - split_and!; [done..|split; [done|]]. intros k t Hk Hfe. by unfold fetched in Hfe.
  - split_and!; [done..|]. by apply following_rearmed.
  - split_and!; [done..|]. eapply tick_ok in Ht as [? _]; [done| |done]. apply Hs.
Qed.

(** C10 After an iteration of the scheduler there is a job for every scheduled transfer
    of the database, with its schedule, and no other job.  Its next run is the first time
    of the schedule when the iteration made the job, and what it was before when there was
    one, even if the schedule is another.  An iteration only fails on a scheduled transfer
    whose schedule is no crontab.  This is after any history of requests, jobs and restarts
    in which no request copies a transfer and every change of the database comes at a time
    later than the newest [updated_at] the process has fetched ([fetched_before]):
    [copied_transfer_not_scheduled] and [same_time_change_missed] show that a change
    outside of these is missed. *)
Theorem scheduler_mirrors now s sc : scheduled s sc ->
  match tick now (committed s) (committed s) sc with
  | (Ok _, sc') => forall id j, jobs sc' !! id = Some j <->
      exists k t trigger, transfers (committed s) !! k = Some t /\ is_scheduled t = true /\
        from_crontab (schedule t) = Ok trigger /\ id = str_of_Z k /\
        j = make_job t trigger (next_run now (jobs sc !! id) trigger)
  | (Raise e, _) => exists k t, transfers (committed s) !! k = Some t /\ is_scheduled t = true /\
      from_crontab (schedule t) = Raise e
  end.
Proof.
  intros Hsch. destruct (scheduled_inv _ _ Hsch) as (((Hwf & _) & _) & _ & Hf).
  destruct (tick _ _ _ sc) as [[[]|e] sc'] eqn:Ht; [|by destruct (tick_raises _ _ _ _ _ Hwf (proj1 Hf) Ht) as (_ & _ & ?)].
  apply tick_ok in Ht as ([Hj _] & Hall & Hback & Htm); [|done..]. intros id j. split.
  - intros Hid. destruct (Hj _ _ Hid) as [_ [k ->]]. destruct (Hback k) as [t Hk]; [by exists j|].
    exists k, t. specialize (Hall k t Hk). unfold mirrored in Hall.
    rewrite (transfer_key _ k t Hwf Hk) in Hall.
    destruct (is_scheduled t); [|congruence]. destruct Hall as (tr & next & Htr & Hjob).
    exists tr. rewrite Hid in Hjob. injection Hjob as ->. split_and!; [done..|].
    specialize (Htm k _ Hid). cbn in Htm. by rewrite <- Htm.
  - intros (k & t & tr & Hk & Hs & Htr & -> & ->). specialize (Hall k t Hk). unfold mirrored in Hall.
    rewrite Hs, (transfer_key _ k t Hwf Hk) in Hall.
    destruct Hall as (tr' & next & Htr' & Hjob). rewrite Htr in Htr'. injection Htr' as <-.
    specialize (Htm k _ Hjob). cbn in Htm. by rewrite <- Htm.
Qed.

(** One scheduled transfer whose schedule is no crontab stops the scheduler:
    an iteration of a process that just started raises and has fetched nothing, so
    that the next process is back where this one was. *)
Theorem bad_schedule_stops_scheduler now db sc k t e : db_wf db -> jobs_wf (jobs sc) ->
  transfers db !! k = Some t -> is_scheduled t = true -> from_crontab (schedule t) = Raise e ->
  exists e' sc', tick now db db (restart sc) = (Raise e', sc') /\
    last_updated_at sc' = None /\ jobs_wf (jobs sc').
Proof.
  intros Hwf Hj Hk Hs Hbad. destruct (tick now db db (restart sc)) as [[[]|e'] sc'] eqn:Ht.
  - apply tick_ok in Ht as (_ & Hall & _ & _); [|done|split; [done|by intros ? ? _ ?]].
    specialize (Hall k t Hk). unfold mirrored in Hall. rewrite Hs in Hall.
    destruct Hall as (tr & next & Htr & _). congruence.
  - apply tick_raises in Ht as (Hl & Hj' & _); [|done..]. by exists e', sc'.
Qed.
End System.

Section Jobs.
Context `{Cipher} `{PydanticCore} `{Broker}.

(** [read_by_id], with [None] for a transfer that is not there *)
Lemma load_transfer_run t s :
  catch (x ← TransferRepository.read_by_id t; mret (Some x))
    (fun e => if isinstance e CTransferNotFoundError then Some (mret None) else None) s =
  (Ok (transfers (working s) !! t), s).
Proof.
  unfold catch, TransferRepository.read_by_id, except_class, catch, select_one. rewrite bind_run. cbn.
  rewrite bind_run. cbn. by destruct (transfers (working s) !! t).
Qed.

Lemma create_scheduled_run_nc t cs ct : no_commit (create_scheduled_run t cs ct).
Proof. unfold create_scheduled_run. repeat (apply no_commit_bind; [done|intros ?]). apply run_create_nc. Qed.

(** C11 A job that fires creates one scheduled run of its transfer, commits it and
    hands it to the queue of the transfer, with a dump that has no secret; when the
    task queue cannot be reached the run is stored as FAILED and the error names it.
    A job of a transfer that is gone does nothing. *)
Theorem scheduled_run_spec t s res s' : session_wf s -> send_job_to_celery t s = (res, s') ->
  (committed s' = committed s /\ (res = Ok tt -> transfers (working s) !! t = None)) \/
  exists tr q r dump, transfers (working s) !! t = Some tr /\
    queues (working s) !! transfer_queue_id tr = Some q /\
    r = new_run SCHEDULED (run_id r) t dump (clock s) /\ public_dump dump /\
    runs (working s) !! run_id r = None /\
    match send_task "run_transfer_task" (run_id r) (queue_slug q) with
    | Ok _ => res = Ok tt /\
        committed s' = with_tbl (<[run_id r := r]> (runs (working s))) (working s)
    | Raise e =>
        if isinstance e CKombuError then
          res = Raise (CannotConnectToTaskQueueError (run_id r)) /\
          committed s' = with_tbl (<[run_id r := RunRepository.set_status FAILED r]> (runs (working s)))
                           (working s)
        else res = Raise e /\
          committed s' = with_tbl (<[run_id r := r]> (runs (working s))) (working s)
    end.
Proof.
  intros [Hwfc Hwf] Hj. unfold send_job_to_celery in Hj. rewrite bind_run, load_transfer_run in Hj.
  destruct (transfers (working s) !! t) as [tr|] eqn:Htr; [|injection Hj as <- <-; by left].
  rewrite bind_run in Hj. cbn [transfer_queue select_by_key gets] in Hj.
  unfold transfer_queue, select_by_key, gets in Hj. cbv beta iota in Hj. cbn [tbl QueueTable] in Hj.
  do 2 (rewrite read_only_bind_run in Hj by apply credentials_read_ro;
    destruct (outcome _ s) as [?|?] in Hj; [|injection Hj as <- <-; left; by split]).
  rewrite bind_run in Hj. destruct (unit_of_work _ s) as [[r|e] s1] eqn:Hu.
  2: { injection Hj as <- <-. left. split; [|done].
    eapply unit_of_work_atomic; [|exact Hu]. apply create_scheduled_run_nc. }
  apply unit_of_work_ok in Hu as (s0 & Hu & ->).
  apply create_run_ok in Hu as (dump & tr' & Htr' & Hpub & _ & Hrr & Hn & Hchk & Hw & _ & Hclk).
  right. pose proof (wf_refs (R := Transfer) (working s) t tr Hwf Htr) as Hrefs.
  unfold refs_ok in Hrefs. cbn in Hrefs. rewrite !Forall_cons in Hrefs.
  destruct Hrefs as (_ & [q Hq] & _). rewrite Hq in Hj. exists tr, q, r, dump. cbn [send_scheduled_run] in Hj.
  split_and!; [done..|]. destruct (send_task _ _ _) as [[]|e]; [|destruct (isinstance e CKombuError)].
  - injection Hj as <- <-. by split.
  - destruct (mark_failed_ok _ _ _ _ s s0 Hrr Hchk Hw Hclk) as (s2 & Hf & Hc).
    rewrite bind_run, Hf in Hj. injection Hj as <- <-. by split.
  - injection Hj as <- <-. by split.
Qed.
End Jobs.

(** ** Examples *)

(** a crontab is five words, and fires on the hour *)
#[export] Instance toy_cron : Cron := {
  CronTrigger := string;
  from_crontab s := if (length (split_ws s) =? 5)%nat then Ok s else Raise (ValueError s);
  get_next_fire_time _ now := Some ((now / 3600 + 1) * 3600);
  misfire_grace_time_seconds := 300;
}.

Definition sc_0 : SchedulerState := mkSchedulerState ∅ None.
Definition iterate (s : Session) (sc : SchedulerState) : SchedulerState :=
  (tick (clock s) (committed s) (committed s) sc).2.
Lemma iterate_ok s sc : outcome (tick (clock s) (committed s) (committed s)) sc = Ok tt ->
  tick (clock s) (committed s) (committed s) sc = (Ok tt, iterate s sc).
Proof. unfold outcome, iterate. destruct (tick _ _ _ sc) as [r sc']. by intros [= ->]. Qed.
Lemma iterate_scheduled s sc : scheduled s sc -> outcome (tick (clock s) (committed s) (committed s)) sc = Ok tt ->
  scheduled s (iterate s sc).
Proof. intros Hs Ht. by eapply sch_tick, iterate_ok. Qed.

(** transfer 2 runs every hour *)
Definition hourly : list Action :=
  [Req 1 (CreateTransfer (pg_transfer 1 1 1 2 "hourly" (Some "0 * * * *"))); Tick 10].
Definition world_hourly : Session := play (people ++ resources_1 ++ hourly).
Definition hourly_copy : Endpoint :=
  CopyTransferTo 2 (mkCopyTransfer 1 1 (Some "source2") (Some "target2") (Some "copy") false).
Definition world_copied : Session := (serve hourly_copy (token 1) world_hourly).2.

Lemma hourly_tick : outcome (tick (clock world_hourly) (committed world_hourly) (committed world_hourly)) sc_0 = Ok tt.
Proof. vm_compute. reflexivity. Qed.
Lemma hourly_scheduled : scheduled world_hourly sc_0.
Proof. apply sch_start; [apply play_reachable|apply map_Forall_empty]. Qed.
Lemma hourly_row : exists t, transfers (committed world_hourly) !! 2 = Some t /\
  is_scheduled t = true /\ from_crontab (schedule t) = Ok (schedule t) /\ transfer_id t = 2.
Proof. eexists. split_and!; vm_compute; reflexivity. Qed.

(** A copy of a scheduled transfer keeps the time of the origin, which the
    scheduler has already seen: the next iteration does not fetch it and there is no
    job for it. *)
Theorem copied_transfer_not_scheduled :
  scheduled world_hourly (iterate world_hourly sc_0) /\
  (exists t, transfers (committed world_copied) !! 3 = Some t /\ is_scheduled t = true) /\
  let sc := iterate world_copied (iterate world_hourly sc_0) in
  outcome (tick (clock world_copied) (committed world_copied) (committed world_copied)) (iterate world_hourly sc_0) = Ok tt /\
  job_transfer_id <$> jobs sc !! str_of_Z 2 = Some 2 /\ job_transfer_id <$> jobs sc !! str_of_Z 3 = None.
Proof.
  split_and!.
  - exact (iterate_scheduled _ _ hourly_scheduled hourly_tick).
  - eexists. split; vm_compute; reflexivity.
  - intros sc. split_and!; vm_compute; reflexivity.
Qed.

Lemma scheduler_mirrors_witness :
  exists j, jobs (iterate world_hourly sc_0) !! str_of_Z 2 = Some j /\ job_transfer_id j = 2.
Proof.
  pose proof (scheduler_mirrors (clock world_hourly) world_hourly sc_0 hourly_scheduled) as Hm.
  rewrite (iterate_ok _ _ hourly_tick) in Hm.
  destruct hourly_row as (t & Hk & Hsch & Hc & Hi).
  exists (@make_job toy_cron t (schedule t) (@next_run toy_cron (clock world_hourly) None (schedule t))). split; [|exact Hi].
  apply Hm. exists 2, t, (schedule t : @CronTrigger toy_cron).
  split_and!; [exact Hk|exact Hsch|exact Hc|reflexivity|reflexivity].
Defined.

(** The schedule of a transfer changes at the very time the last iteration fetched: the
    comparison is strict, so the next one does not fetch it, and the job of the transfer
    keeps the old schedule. *)
Definition world_created : Session := play (people ++ resources_1 ++ take 1 hourly).
Definition world_moved : Session :=
  (serve (UpdateTransfer 2 (pg_transfer 1 1 1 2 "hourly" (Some "30 0 * * *"))) (token 1) world_created).2.
Lemma same_time_change_missed :
  schedule <$> transfers (committed world_moved) !! 2 = Some "30 0 * * *" /\
  outcome (tick (clock world_created) (committed world_created) (committed world_created)) sc_0 = Ok tt /\
  let sc := iterate world_created sc_0 in
  last_updated_at sc = Some (clock world_created) /\ clock world_moved = clock world_created /\
  outcome (tick (clock world_moved) (committed world_moved) (committed world_moved)) sc = Ok tt /\
  job_trigger <$> jobs (iterate world_moved sc) !! str_of_Z 2 = Some ("0 * * * *" : @CronTrigger toy_cron).
Proof. cbv zeta. split_and!; vm_compute; reflexivity. Qed.

(** Later it is fetched, and the job has the new schedule, but runs next when the old one
    says: [modify_job] does not compute the time of the next run. *)
Definition world_moved_later : Session :=
  (serve (UpdateTransfer 2 (pg_transfer 1 1 1 2 "hourly" (Some "30 0 * * *"))) (token 1) world_hourly).2.
Lemma rescheduled_job_runs_when_it_did :
  let sc := iterate world_hourly sc_0 in
  let sc' := iterate world_moved_later sc in
  job_trigger <$> jobs sc' !! str_of_Z 2 = Some ("30 0 * * *" : @CronTrigger toy_cron) /\
  (jobs sc' !! str_of_Z 2) ≫= job_next_run_time = (jobs sc !! str_of_Z 2) ≫= job_next_run_time /\
  is_Some ((jobs sc !! str_of_Z 2) ≫= job_next_run_time).
Proof. cbv zeta. split_and!; [vm_compute; reflexivity..|eexists; vm_compute; reflexivity]. Qed.

(** a schedule the server takes *)
Definition never : list Action :=
  [Req 1 (CreateTransfer (pg_transfer 1 1 1 2 "never" (Some "never")))].
Definition world_never : Session := play (people ++ resources_1 ++ never).
Lemma never_row : exists t, transfers (committed world_never) !! 2 = Some t /\
  is_scheduled t = true /\ from_crontab (schedule t) = Raise (ValueError "never").
Proof. eexists. split_and!; vm_compute; reflexivity. Qed.
Lemma bad_schedule_stops_scheduler_witness :
  exists e' sc', tick 0 (committed world_never) (committed world_never) (restart sc_0) = (Raise e', sc') /\
    last_updated_at sc' = None /\ jobs_wf (jobs sc').
Proof.
  destruct never_row as (t & Ht & Hs & Hc).
  apply (bad_schedule_stops_scheduler 0 (committed world_never) sc_0 2 t (ValueError "never"));
    [|apply map_Forall_empty|exact Ht|exact Hs|exact Hc].
  exact (proj1 (session_inv_wf _ (reachable_session_inv _ (play_reachable _)))).
Defined.

Lemma scheduled_run_spec_witness :
  exists tr q r dump, transfers (working world_hourly) !! 2 = Some tr /\
    queues (working world_hourly) !! transfer_queue_id tr = Some q /\
    r = new_run SCHEDULED (run_id r) 2 dump (clock world_hourly) /\ public_dump dump /\
    runs (working world_hourly) !! run_id r = None /\
    committed (final (send_job_to_celery 2) world_hourly) =
      with_tbl (<[run_id r := r]> (runs (working world_hourly))) (working world_hourly).
Proof.
  assert (session_wf world_hourly) as Hwf
    by exact (session_inv_wf _ (reachable_session_inv _ (play_reachable _))).
  destruct (scheduled_run_spec 2 world_hourly (Ok tt) (final (send_job_to_celery 2) world_hourly) Hwf)
    as [[_ Hn]|(tr & q & r & dump & ? & ? & ? & ? & ? & Hs)].
  - vm_compute. reflexivity.
  - specialize (Hn eq_refl). revert Hn. vm_compute. discriminate.
  - exists tr, q, r, dump. split_and!; try assumption. exact (proj2 Hs).
Defined.
