(* ===== verification/Dto.v ===== *)
(** * Data transfer objects of the worker ([src/syncmaster/dto])

    A dataclass is its name, its bases, the class variable [type] and its fields
    with their defaults; [dataclass_init] is the generated [__init__], which takes
    keyword arguments and rejects unknown and missing ones.  What the worker keeps
    of a connection, a transfer and a run are instances of these classes.  The file
    formats of onETL are the parameter [OneTLFormats]. *)

From S2P Require Import Prelude PyData Models Errors Repositories.

(** ** Dataclasses *)

Record Dataclass (V : Type) := mkDataclass {
  dc_name : string;
  dc_bases : list string;
  dc_type : string;
  dc_fields : list (string * option V);        (* [None]: no default *)
}.
Arguments mkDataclass {V}.
Arguments dc_name {V} _.
Arguments dc_bases {V} _.
Arguments dc_type {V} _.
Arguments dc_fields {V} _.

Section Init.
Context {V : Type}.

Definition init_field (kwargs : list (string * V)) (f : string * option V) : result exc (string * V) :=
  match dict_get f.1 kwargs, f.2 with
  | Some v, _ => Ok (f.1, v)
  | None, Some v => Ok (f.1, v)
  | None, None => Raise TypeError
  end.
Definition dataclass_init (c : Dataclass V) (kwargs : list (string * V)) : result exc (list (string * V)) :=
  if forallb (fun kv => dict_mem kv.1 (dc_fields c)) kwargs then mapM (init_field kwargs) (dc_fields c)
  else Raise TypeError.
End Init.

(** an instance: its class and its attributes *)
Record Obj (V : Type) := mkObj { obj_class : Dataclass V; obj_attrs : list (string * V) }.
Arguments mkObj {V}.
Arguments obj_class {V} _.
Arguments obj_attrs {V} _.
Definition instance_of {V} (o : Obj V) (cls : string) : bool :=
  bool_decide (cls ∈ dc_name (obj_class o) :: dc_bases (obj_class o)).
Definition make {V} (c : Dataclass V) (kwargs : list (string * V)) : result exc (Obj V) :=
  attrs ← dataclass_init c kwargs; Ok (mkObj c attrs).

(** ** Connections ([dto/connections.py]) *)

Abbreviation ConnectionDTO := (Obj json).

Definition field (n : string) : string * option json := (n, None).
Definition field_dict (n : string) : string * option json := (n, Some (JObj [])).
Definition field_or (n : string) (d : json) : string * option json := (n, Some d).
Definition connection_class (name type : string) (fields : list (string * option json)) : Dataclass json :=
  mkDataclass name ["ConnectionDTO"] type fields.

Definition PostgresConnectionDTO := connection_class "PostgresConnectionDTO" "postgres"
  [field "host"; field "port"; field "user"; field "password"; field "database_name";
   field_dict "additional_params"].
Definition ClickhouseConnectionDTO := connection_class "ClickhouseConnectionDTO" "clickhouse"
  [field "host"; field "port"; field "user"; field "password"; field_or "database_name" JNull;
   field_dict "additional_params"].
Definition MSSQLConnectionDTO := connection_class "MSSQLConnectionDTO" "mssql"
  [field "host"; field "port"; field "user"; field "password"; field "database_name";
   field_dict "additional_params"].
Definition MySQLConnectionDTO := connection_class "MySQLConnectionDTO" "mysql"
  [field "host"; field "port"; field "user"; field "password"; field_or "database_name" JNull;
   field_dict "additional_params"].
Definition OracleConnectionDTO := connection_class "OracleConnectionDTO" "oracle"
  [field "host"; field "port"; field "user"; field "password"; field_dict "additional_params";
   field_or "sid" JNull; field_or "service_name" JNull].
Definition HiveConnectionDTO := connection_class "HiveConnectionDTO" "hive"
  [field "user"; field "password"; field "cluster"].

(** the dataclasses of Iceberg, their bases first *)
Definition IcebergConnectionBaseDTO : list (string * option json) := [field "rest_catalog_url"].
Definition IcebergRESTCatalogS3DirectConnectionBaseDTO : list (string * option json) :=
  IcebergConnectionBaseDTO ++
  [field "s3_warehouse_path"; field "s3_host"; field "s3_bucket"; field "s3_bucket_style";
   field "s3_region"; field "s3_access_key"; field "s3_secret_key"; field "s3_port";
   field "s3_protocol"; field_dict "s3_additional_params"].
Definition IcebergRESTCatalogS3DelegatedConnectionBaseDTO : list (string * option json) :=
  IcebergConnectionBaseDTO ++
  [field_or "s3_warehouse_name" JNull; field_or "s3_access_delegation" (JStr "vended-credentials")].
Definition bearer_fields : list (string * option json) :=
  [field "rest_catalog_token"; field_or "rest_catalog_auth_type" (JStr "bearer")].
Definition oauth2_dto_fields : list (string * option json) :=
  [field "rest_catalog_oauth2_client_id"; field "rest_catalog_oauth2_client_secret";
   field "rest_catalog_oauth2_scopes"; field_or "rest_catalog_oauth2_resource" JNull;
   field_or "rest_catalog_oauth2_audience" JNull; field_or "rest_catalog_oauth2_token_endpoint" JNull;
   field_or "rest_catalog_auth_type" (JStr "oauth2")].
Definition iceberg_class (name base : string) (fields : list (string * option json)) : Dataclass json :=
  mkDataclass name [base; "IcebergConnectionBaseDTO"; "ConnectionDTO"] "iceberg" fields.
Definition direct_base := "IcebergRESTCatalogS3DirectConnectionBaseDTO".
Definition delegated_base := "IcebergRESTCatalogS3DelegatedConnectionBaseDTO".

Definition IcebergRESTCatalogBearerAuthS3BasicDTO :=
  iceberg_class "IcebergRESTCatalogBearerAuthS3BasicDTO" direct_base
    (IcebergRESTCatalogS3DirectConnectionBaseDTO ++ bearer_fields).
Definition IcebergRESTCatalogOAuth2ClientCredentialsS3BasicDTO :=
  iceberg_class "IcebergRESTCatalogOAuth2ClientCredentialsS3BasicDTO" direct_base
    (IcebergRESTCatalogS3DirectConnectionBaseDTO ++ oauth2_dto_fields).
Definition IcebergRESTCatalogBearerAuthS3DelegatedDTO :=
  iceberg_class "IcebergRESTCatalogBearerAuthS3DelegatedDTO" delegated_base
    (IcebergRESTCatalogS3DelegatedConnectionBaseDTO ++ bearer_fields).
Definition IcebergRESTCatalogOAuth2ClientCredentialsS3DelegatedDTO :=
  iceberg_class "IcebergRESTCatalogOAuth2ClientCredentialsS3DelegatedDTO" delegated_base
    (IcebergRESTCatalogS3DelegatedConnectionBaseDTO ++ oauth2_dto_fields).

Definition get_iceberg_rest_catalog_s3_direct_connection_dto (data : dict) : result exc ConnectionDTO :=
  if dict_mem "rest_catalog_oauth2_client_id" data
  then make IcebergRESTCatalogOAuth2ClientCredentialsS3BasicDTO data
  else make IcebergRESTCatalogBearerAuthS3BasicDTO data.
Definition get_iceberg_rest_catalog_s3_delegated_connection_dto (data : dict) : result exc ConnectionDTO :=
  if dict_mem "rest_catalog_oauth2_client_id" data
  then make IcebergRESTCatalogOAuth2ClientCredentialsS3DelegatedDTO data
  else make IcebergRESTCatalogBearerAuthS3DelegatedDTO data.
Definition get_iceberg_connection_dto (data : dict) : result exc ConnectionDTO :=
  if dict_mem "s3_warehouse_path" data
  then get_iceberg_rest_catalog_s3_direct_connection_dto data
  else get_iceberg_rest_catalog_s3_delegated_connection_dto data.

Definition HDFSConnectionDTO := connection_class "HDFSConnectionDTO" "hdfs"
  [field "user"; field "password"; field "cluster"].
Definition S3ConnectionDTO := connection_class "S3ConnectionDTO" "s3"
  [field "host"; field "port"; field "access_key"; field "secret_key"; field "bucket";
   field "bucket_style"; field "region"; field_dict "additional_params";
   field_or "protocol" (JStr "https")].
Definition SFTPConnectionDTO := connection_class "SFTPConnectionDTO" "sftp"
  [field "host"; field "port"; field "user"; field "password"].
Definition FTPConnectionDTO := connection_class "FTPConnectionDTO" "ftp"
  [field "host"; field "port"; field "user"; field "password"].
Definition FTPSConnectionDTO := connection_class "FTPSConnectionDTO" "ftps"
  [field "host"; field "port"; field "user"; field "password"].
Definition SambaConnectionDTO := connection_class "SambaConnectionDTO" "samba"
  [field "host"; field "share"; field "user"; field "password"; field_or "protocol" (JStr "SMB");
   field_or "auth_type" (JStr "NTLMv2"); field_or "domain" (JStr ""); field_or "port" JNull].
Definition WebDAVConnectionDTO := connection_class "WebDAVConnectionDTO" "webdav"
  [field "host"; field "port"; field "user"; field "password"; field_or "protocol" (JStr "https")].

(** ** Strategies, resources and runs *)

Inductive Strategy :=
| FullStrategy (type : json)
| IncrementalStrategy (type increment_by : json).

Definition strategy_type (s : Strategy) : json :=
  match s with FullStrategy t => t | IncrementalStrategy t _ => t end.
Definition strategy_fields (type : string) : option (list (string * option json)) :=
  if String.eqb type "full" then Some [field "type"]
  else if String.eqb type "incremental" then Some [field "type"; field "increment_by"] else None.

(** [Strategy.from_dict] *)
Definition from_dict (data : dict) : result exc Strategy :=
  match dict_get "type" data with
  | Some (JStr t) =>
      match strategy_fields t with
      | None => Raise (ValueError ("Unknown strategy type: " +:+ t))
      | Some fields =>
          attrs ← dataclass_init (mkDataclass t ["Strategy"] t fields) data;
          match dict_get "increment_by" attrs with
          | Some i => Ok (IncrementalStrategy (JStr t) i)
          | None => Ok (FullStrategy (JStr t))
          end
      end
  | _ => Raise (ValueError "Unknown strategy type")
  end.

Definition Resources : Dataclass json :=
  mkDataclass "Resources" [] "" [field "max_parallel_tasks"; field "cpu_cores_per_task";
    field "ram_bytes_per_task"].

(** [created_at] in microseconds, as the database keeps it *)
Record RunDTO := mkRunDTO { rd_id : Z; rd_created_at : Z }.

(** ** Transfers ([dto/transfers.py]) *)

(** [CSV.parse_obj] and the like: the options the format object has *)
Class OneTLFormats := { parse_obj : string -> dict -> result exc dict }.

(** what an attribute of a transfer holds *)
Inductive Value :=
| Json (j : json)
| StrategyObj (s : Strategy)
| ResourcesObj (o : Obj json)
| FormatObj (cls : string) (options : dict).

Abbreviation TransferDTO := (Obj Value).

Definition tfield (n : string) : string * option Value := (n, None).
Definition tfield_or (n : string) (d : json) : string * option Value := (n, Some (Json d)).

Definition TransferDTO_fields : list (string * option Value) :=
  [tfield "id"; tfield "name"; tfield "group_name"; tfield "strategy"; tfield "resources";
   tfield_or "transformations" (JList []); tfield_or "options" (JObj [])].
Definition DBTransferDTO_fields : list (string * option Value) := TransferDTO_fields ++ [tfield "table_name"].
Definition FileTransferDTO_fields : list (string * option Value) :=
  TransferDTO_fields ++
  [tfield "directory_path"; tfield "file_format"; tfield_or "file_name_template" JNull;
   tfield_or "df_schema" JNull].

Definition db_class (name type : string) : Dataclass Value :=
  mkDataclass name ["DBTransferDTO"; "TransferDTO"] type DBTransferDTO_fields.
Definition file_class (name type : string) : Dataclass Value :=
  mkDataclass name ["FileTransferDTO"; "TransferDTO"] type FileTransferDTO_fields.

Definition PostgresTransferDTO := db_class "PostgresTransferDTO" "postgres".
Definition OracleTransferDTO := db_class "OracleTransferDTO" "oracle".
Definition ClickhouseTransferDTO := db_class "ClickhouseTransferDTO" "clickhouse".
Definition MSSQLTransferDTO := db_class "MSSQLTransferDTO" "mssql".
Definition MySQLTransferDTO := db_class "MySQLTransferDTO" "mysql".
Definition HiveTransferDTO := db_class "HiveTransferDTO" "hive".
(** [catalog_name] defaults to a name made of a random identifier *)
Definition IcebergTransferDTO (catalog_name : string) : Dataclass Value :=
  mkDataclass "IcebergTransferDTO" ["DBTransferDTO"; "TransferDTO"] "iceberg"
    (DBTransferDTO_fields ++ [tfield_or "catalog_name" (JStr catalog_name)]).
Definition S3TransferDTO := file_class "S3TransferDTO" "s3".
Definition HDFSTransferDTO := file_class "HDFSTransferDTO" "hdfs".
Definition SFTPTransferDTO := file_class "SFTPTransferDTO" "sftp".
Definition FTPTransferDTO := file_class "FTPTransferDTO" "ftp".
Definition FTPSTransferDTO := file_class "FTPSTransferDTO" "ftps".
Definition SambaTransferDTO := file_class "SambaTransferDTO" "samba".
Definition WebDAVTransferDTO := file_class "WebDAVTransferDTO" "webdav".

(** [self.options.setdefault(k, v)]; only a dict has [setdefault] *)
Definition options_setdefault (v : string) (attrs : list (string * Value))
    : result exc (list (string * Value)) :=
  match dict_get "options" attrs with
  | Some (Json (JObj d)) => Ok (dict_set "options" (Json (JObj (dict_setdefault "if_exists" (JStr v) d))) attrs)
  | _ => Raise AttributeError
  end.

(** [DBTransferDTO.__post_init__] *)
Definition db_post_init (attrs : list (string * Value)) : result exc (list (string * Value)) :=
  let attrs := match dict_get "options" attrs with
               | Some (Json JNull) => dict_set "options" (Json (JObj [])) attrs
               | _ => attrs
               end in
  options_setdefault "replace_entire_table" attrs.
(** [HiveTransferDTO.__post_init__], [IcebergTransferDTO.__post_init__] *)
Definition hive_post_init (attrs : list (string * Value)) : result exc (list (string * Value)) :=
  attrs ← db_post_init attrs;
  options_setdefault "replace_overlapping_partitions" attrs.

Definition _rewrite_option_name (from_name to_name : string) (file_format : dict) : dict :=
  match dict_get from_name file_format with
  | Some v => dict_set to_name v (dict_del from_name file_format)
  | None => file_format
  end.

(** the options passed to the parser of [file_type] *)
Definition rewrite_options (file_type : string) (ff : dict) : dict :=
  let ff := if String.eqb file_type "xml" then
              let ff := _rewrite_option_name "row_tag" "rowTag" (_rewrite_option_name "root_tag" "rootTag" ff) in
              match dict_get "compression" ff with
              | Some v => if json_eqb v (JStr "none") then dict_del "compression" ff else ff
              | None => ff
              end
            else ff in
  let ff := if String.eqb file_type "excel" then
              _rewrite_option_name "start_cell" "dataAddress" (_rewrite_option_name "include_header" "header" ff)
            else ff in
  let ff := if String.eqb file_type "csv" then
              _rewrite_option_name "include_header" "header" (_rewrite_option_name "line_sep" "lineSep" ff)
            else ff in
  if String.eqb file_type "json" || String.eqb file_type "jsonline"
  then _rewrite_option_name "line_sep" "lineSep" ff else ff.

Definition _format_parsers : list (string * string) :=
  [("csv", "CSV"); ("jsonline", "JSONLine"); ("json", "JSON"); ("excel", "Excel"); ("orc", "ORC");
   ("parquet", "Parquet"); ("xml", "XML")].

Section Transfers.
Context `{Cipher} `{OneTLFormats}.

Definition _get_file_format (file_format : dict) : result exc Value :=
  let file_type := match dict_get "type" file_format with Some (JStr s) => s | _ => "None" end in
  let ff := rewrite_options file_type (dict_del "type" file_format) in
  match dict_get file_type _format_parsers with
  | Some cls => o ← parse_obj cls ff; Ok (FormatObj cls o)
  | None => Raise (ValueError ("Unknown file type: " +:+ file_type))
  end.

(** [FileTransferDTO.__post_init__] *)
Definition file_post_init (attrs : list (string * Value)) : result exc (list (string * Value)) :=
  attrs ← match dict_get "file_format" attrs with
          | Some (Json (JObj d)) => f ← _get_file_format d; Ok (dict_set "file_format" f attrs)
          | _ => Ok attrs
          end;
  attrs ← match dict_get "df_schema" attrs with
          | Some (Json (JStr s)) => j ← json_loads s; Ok (dict_set "df_schema" (Json j) attrs)
          | _ => Ok attrs
          end;
  options_setdefault "replace_overlapping_partitions" attrs.

(** [transfer_dto(...)]: the generated [__init__], then [__post_init__] *)
Definition make_transfer (c : Dataclass Value) (kwargs : list (string * Value)) : result exc TransferDTO :=
  attrs ← dataclass_init c kwargs;
  attrs ← (if bool_decide ("FileTransferDTO" ∈ dc_bases c) then file_post_init attrs
           else if bool_decide (dc_name c ∈ ["HiveTransferDTO"; "IcebergTransferDTO"])
           then hive_post_init attrs else db_post_init attrs);
  Ok (mkObj c attrs).
End Transfers.
