(* ===== verification/FilterExpressions.v ===== *)
(** * Filters and file names of the worker's handlers ([worker/handlers])

    The pure part of the handlers: the SQL expressions of row and column filters in
    the dialect of each database, the filters on file metadata, the names and the
    extension of the files a run writes. *)

From S2P Require Import Prelude PyData Models Errors TransferSchemas.

(** one class of [worker/handlers] per type of connection *)
Inductive HandlerClass :=
| ClickhouseHandler | HiveHandler | IcebergRESTCatalogS3Handler | MSSQLHandler | MySQLHandler
| OracleHandler | PostgresHandler
| S3Handler | HDFSHandler | SFTPHandler | FTPHandler | FTPSHandler | SambaHandler | WebDAVHandler.
#[export] Instance HandlerClass_eq_dec : EqDecision HandlerClass.
Proof. solve_decision. Defined.

Definition is_file_handler (h : HandlerClass) : bool :=
  match h with
  | S3Handler | HDFSHandler | SFTPHandler | FTPHandler | FTPSHandler | SambaHandler | WebDAVHandler => true
  | _ => false
  end.

(** [d[k]] on a decoded JSON value *)
Definition getitem (k : string) (j : json) : result exc json :=
  match j with
  | JObj d => or_raise (dict_get k d) (KeyError k)
  | _ => Raise TypeError
  end.
(** [d.get(k)] *)
Definition getopt (k : string) (j : json) : json :=
  match j with JObj d => default JNull (dict_get k d) | _ => JNull end.

(** ** Operators *)

(** [DBHandler._operators] *)
Definition base_operators : list (string * string) :=
  [("is_null", "IS NULL"); ("is_not_null", "IS NOT NULL"); ("equal", "="); ("not_equal", "!=");
   ("greater_than", ">"); ("greater_or_equal", ">="); ("less_than", "<"); ("less_or_equal", "<=");
   ("like", "LIKE"); ("ilike", "ILIKE"); ("not_like", "NOT LIKE"); ("not_ilike", "NOT ILIKE")].
Definition ClickhouseHandler_operators := ("regexp", "REGEXP") :: base_operators.
Definition PostgresHandler_operators := ("regexp", "~") :: base_operators.
Definition OracleHandler_operators := ("regexp", "REGEXP_LIKE") :: base_operators.
Definition MSSQLHandler_operators := ("regexp", "LIKE") :: base_operators.
Definition HiveHandler_operators := ("regexp", "RLIKE") :: base_operators.
Definition IcebergRESTCatalogS3Handler_operators := ("regexp", "RLIKE") :: base_operators.
Definition MySQLHandler_operators := ("regexp", "RLIKE") :: base_operators.
(** [FileHandler._operators] *)
Definition file_operators : list (string * string) :=
  [("is_null", "IS NULL"); ("is_not_null", "IS NOT NULL"); ("equal", "="); ("not_equal", "!=");
   ("greater_than", ">"); ("greater_or_equal", ">="); ("less_than", "<"); ("less_or_equal", "<=");
   ("like", "LIKE"); ("ilike", "ILIKE"); ("not_like", "NOT LIKE"); ("not_ilike", "NOT ILIKE");
   ("regexp", "RLIKE")].
Definition _operators (h : HandlerClass) : list (string * string) :=
  match h with
  | ClickhouseHandler => ClickhouseHandler_operators
  | PostgresHandler => PostgresHandler_operators
  | OracleHandler => OracleHandler_operators
  | MSSQLHandler => MSSQLHandler_operators
  | HiveHandler => HiveHandler_operators
  | IcebergRESTCatalogS3Handler => IcebergRESTCatalogS3Handler_operators
  | MySQLHandler => MySQLHandler_operators
  | S3Handler | HDFSHandler | SFTPHandler | FTPHandler | FTPSHandler | SambaHandler | WebDAVHandler =>
      file_operators
  end.

Section Expressions.
Context `{PyLib}.

(** [f"{j}"] *)
Definition py_str (j : json) : string :=
  match j with
  | JNull => "None"
  | JBool b => if b then "True" else "False"
  | JInt z => str_of_Z z
  | JStr s => s
  | _ => repr j
  end.

Definition dq : string := dquote.
(** [_quote_field]; handlers of files do not quote *)
Definition _quote_field (h : HandlerClass) (field : string) : string :=
  match h with
  | MySQLHandler | HiveHandler | IcebergRESTCatalogS3Handler => "`" +:+ field +:+ "`"
  | _ => if is_file_handler h then field else dq +:+ field +:+ dq
  end.

(** ** Row filters *)

(** the text of one filter: every handler but Postgres, ClickHouse and the files
    spells ILIKE with LOWER, and Oracle its regular expressions as a function *)
Definition lower_ilike (h : HandlerClass) : bool :=
  match h with
  | HiveHandler | IcebergRESTCatalogS3Handler | MSSQLHandler | MySQLHandler | OracleHandler => true
  | _ => false
  end.
(** [self._operators[filter_["type"]]] *)
Definition operator (h : HandlerClass) (filter_ : json) : result exc string :=
  t ← getitem "type" filter_;
  match t with
  | JStr t => or_raise (dict_get t (_operators h)) (KeyError t)
  | _ => Raise (KeyError "")
  end.
(** the two lookups; these four handlers look up the operator first *)
Definition operator_and_field (h : HandlerClass) (filter_ : json) : result exc (string * json) :=
  match h with
  | HiveHandler | IcebergRESTCatalogS3Handler | MSSQLHandler | MySQLHandler =>
      op ← operator h filter_; f ← getitem "field" filter_; Ok (op, f)
  | _ => f ← getitem "field" filter_; op ← operator h filter_; Ok (op, f)
  end.
Definition filter_expression (h : HandlerClass) (filter_ : json) : result exc string :=
  op_f ← operator_and_field h filter_;
  let op := op_f.1 in
  let field := _quote_field h (py_str op_f.2) in
  match getopt "value" filter_ with
  | JNull => Ok (field +:+ " " +:+ op)
  | v =>
      let value := py_str v in
      if lower_ilike h && String.eqb op "REGEXP_LIKE"
      then Ok ("REGEXP_LIKE(" +:+ field +:+ ", '" +:+ value +:+ "')")
      else if lower_ilike h && String.eqb op "ILIKE"
      then Ok ("LOWER(" +:+ field +:+ ") LIKE LOWER('" +:+ value +:+ "')")
      else if lower_ilike h && String.eqb op "NOT ILIKE"
      then Ok ("NOT LOWER(" +:+ field +:+ ") LIKE LOWER('" +:+ value +:+ "')")
      else Ok (field +:+ " " +:+ op +:+ " '" +:+ value +:+ "'")
  end.

(** [" AND ".join(expressions) or None] *)
Definition or_none (s : string) : option string := if String.eqb s "" then None else Some s.
Definition _make_rows_filter_expression (h : HandlerClass) (filters : list json)
    : result exc (option string) :=
  expressions ← mapM (filter_expression h) filters;
  Ok (or_none (String.concat " AND " expressions)).

(** ** Column filters *)

Definition column_expression (h : HandlerClass) (filter_ : json) : result exc (list string) :=
  filter_type ← getitem "type" filter_;
  f ← getitem "field" filter_;
  let field := _quote_field h (py_str f) in
  if json_eqb filter_type (JStr "include") then Ok [field]
  else if json_eqb filter_type (JStr "rename") then
    to ← getitem "to" filter_;
    Ok [field +:+ " AS " +:+ _quote_field h (py_str to)]
  else if json_eqb filter_type (JStr "cast") then
    cast_type ← getitem "as_type" filter_;
    Ok ["CAST(" +:+ field +:+ " AS " +:+ py_str cast_type +:+ ") AS " +:+ field]
  else Ok [].
Definition _make_columns_filter_expressions (h : HandlerClass) (filters : list json)
    : result exc (option (list string)) :=
  expressions ← mapM (column_expression h) filters;
  Ok (match concat expressions with [] => None | l => Some l end).

(** ** Transformations *)

(** the filters of every transformation of a type, in order *)
Fixpoint filters_of (type : string) (transformations : list json) : result exc (list json) :=
  match transformations with
  | [] => Ok []
  | transformation :: rest =>
      t ← getitem "type" transformation;
      own ← (if json_eqb t (JStr type) then
               fs ← getitem "filters" transformation;
               match fs with JList l => Ok l | _ => Raise TypeError end
             else Ok []);
      others ← filters_of type rest;
      Ok (own ++ others)
  end.
Definition _get_rows_filter_expression (h : HandlerClass) (transformations : list json)
    : result exc (option string) :=
  filters ← filters_of "dataframe_rows_filter" transformations;
  _make_rows_filter_expression h filters.
Definition _get_columns_filter_expressions (h : HandlerClass) (transformations : list json)
    : result exc (option (list string)) :=
  filters ← filters_of "dataframe_columns_filter" transformations;
  _make_columns_filter_expressions h filters.
Fixpoint _get_sql_query (transformations : list json) : result exc (option json) :=
  match transformations with
  | [] => Ok None
  | transformation :: rest =>
      t ← getitem "type" transformation;
      if json_eqb t (JStr "sql") then q ← getitem "query" transformation; Ok (Some q)
      else _get_sql_query rest
  end.

(** ** Filters on files ([LocalDFFileHandler._make_file_metadata_filters]) *)

Inductive FileFilter :=
| Glob (pattern : json) | Regexp (pattern : json) | FileSizeMin (v : json) | FileSizeMax (v : json).

Definition file_filter (filter_ : json) : result exc (list FileFilter) :=
  filter_type ← getitem "type" filter_;
  value ← getitem "value" filter_;
  Ok (if json_eqb filter_type (JStr "name_glob") then [Glob value]
      else if json_eqb filter_type (JStr "name_regexp") then [Regexp value]
      else if json_eqb filter_type (JStr "file_size_min") then [FileSizeMin value]
      else if json_eqb filter_type (JStr "file_size_max") then [FileSizeMax value]
      else []).
Definition _get_file_metadata_filters (transformations : list json) : result exc (list FileFilter) :=
  filters ← filters_of "file_metadata_filter" transformations;
  l ← mapM file_filter filters;
  Ok (concat l).
End Expressions.
