(* ===== verification/FileNames.v ===== *)
(** * The files a run writes ([worker/handlers/file])

    Their extension and names ([FileHandler._get_file_extension],
    [_get_file_name]), the loop that renames them, on a directory as a finite map
    from names to contents, and the filter of the files that are moved.  A file is
    renamed over another as POSIX does, without a warning. *)

From S2P Require Import Prelude PyData Models Errors ConnectionSchemas TransferSchemas Dto.

(** ** [datetime.strftime("%Y_%m_%d_%H_%M_%S")] *)

(** the civil date of a day number (days since 1970-01-01), by eras of 400 years *)
Record Date := mkDate { year : Z; month : Z; day : Z }.
Definition civil_from_days (days : Z) : Date :=
  let z := days + 719468 in
  let era := z / 146097 in
  let doe := z - era * 146097 in
  let yoe := (doe - doe / 1460 + doe / 36524 - doe / 146096) / 365 in
  let doy := doe - (365 * yoe + yoe / 4 - yoe / 100) in
  let mp := (5 * doy + 2) / 153 in
  let d := doy - (153 * mp + 2) / 5 + 1 in
  let m := if mp <? 10 then mp + 3 else mp - 9 in
  mkDate (yoe + era * 400 + (if m <=? 2 then 1 else 0)) m d.

Definition two_digits (n : Z) : string := if n <? 10 then "0" +:+ str_of_Z n else str_of_Z n.

(** of a time in microseconds, in UTC *)
Definition strftime (t : Z) : string :=
  let seconds := t / 1000000 in
  let days := seconds / 86400 in
  let s := seconds - days * 86400 in
  let date := civil_from_days days in
  str_of_Z (year date) +:+ "_" +:+ two_digits (month date) +:+ "_" +:+ two_digits (day date) +:+ "_" +:+
  two_digits (s / 3600) +:+ "_" +:+ two_digits (s / 60 - 60 * (s / 3600)) +:+ "_" +:+
  two_digits (s - 60 * (s / 60)).

Example strftime_epoch : strftime 0 = "1970_01_01_00_00_00". Proof. vm_compute. reflexivity. Qed.
Example strftime_leap : strftime 1709210096000000 = "2024_02_29_12_34_56".
Proof. vm_compute. reflexivity. Qed.

(** ** Extensions *)

Definition _compression_to_file_suffix : list (string * string) :=
  [("gzip", "gz"); ("snappy", "snappy"); ("zlib", "zlib"); ("lz4", "lz4"); ("bzip2", "bz2");
   ("deflate", "deflate")].
Definition _file_format_to_file_suffix : list (string * string) :=
  [("json", "json"); ("jsonline", "jsonl"); ("csv", "csv"); ("xml", "xml"); ("excel", "xlsx");
   ("parquet", "parquet"); ("orc", "orc")].
Definition COLUMN_FORMATS : list string := ["parquet"; "orc"].

(** [file_format.__class__.__name__.lower()] *)
Definition class_lower (cls : string) : string := ConnectionSchemas.lower cls.

(** [getattr(file_format, "compression", None) or "none"] *)
Definition compression_of (options : dict) : string :=
  match dict_get "compression" options with
  | Some (JStr s) => if String.eqb s "" then "none" else s
  | _ => "none"
  end.

Definition _get_file_extension (cls : string) (options : dict) : result exc string :=
  let file_format := class_lower cls in
  extension_suffix ← or_raise (dict_get file_format _file_format_to_file_suffix) (KeyError file_format);
  let compression := compression_of options in
  if String.eqb compression "none" then Ok extension_suffix
  else
    compression_suffix ← or_raise (dict_get compression _compression_to_file_suffix) (KeyError compression);
    if String.eqb extension_suffix "parquet" && String.eqb compression_suffix "lz4"
    then Ok "lz4hadoop.parquet"
    else if bool_decide (extension_suffix ∈ COLUMN_FORMATS)
    then Ok (compression_suffix +:+ "." +:+ extension_suffix)
    else Ok (extension_suffix +:+ "." +:+ compression_suffix).

(** ** Names *)

(** a directory: names and contents *)
Abbreviation Directory := (gmap string string).

Section Names.
Context `{PyLib}.

(** the attributes of the run and the transfer a name is made of; the index and the id are
    numbers *)
Definition name_kwargs (run : RunDTO) (index : Z) (extension : string) : list (string * FormatValue) :=
  [("index", IntValue index); ("extension", StrValue extension); ("run_id", IntValue (rd_id run));
   ("run_created_at", StrValue (strftime (rd_created_at run)))].
Definition _get_file_name (template : string) (run : RunDTO) (index : Z) (extension : string)
    : result exc string :=
  py_format template (name_kwargs run index extension).

(** [rename(old, new)]: what was at [new] is gone *)
Definition rename (old new : string) (dir : Directory) : Directory :=
  match dir !! old with
  | Some content => <[new := content]> (delete old dir)
  | None => dir
  end.

(** the loop of [_rename_files] over the names the directory listed *)
Fixpoint rename_loop (template : string) (run : RunDTO) (extension : string) (index : Z)
    (files : list string) (dir : Directory) : result exc Directory :=
  match files with
  | [] => Ok dir
  | old :: rest =>
      new ← _get_file_name template run index extension;
      rename_loop template run extension (index + 1) rest (rename old new dir)
  end.
Definition _rename_files (template : string) (run : RunDTO) (cls : string) (options : dict)
    (files : list string) (dir : Directory) : result exc Directory :=
  match files with
  | [] => Ok dir                                         (* the extension is computed per file *)
  | _ => extension ← _get_file_extension cls options;
         rename_loop template run extension 0 files dir
  end.

(** [Glob(f"*.{extension}")] on a name *)
Definition str_ends (suffix s : string) : bool :=
  let n := (String.length s - String.length suffix)%nat in
  (String.length suffix <=? String.length s)%nat && String.eqb (String.substring n (String.length suffix) s) suffix.
Definition moved (extension name : string) : bool := str_ends ("." +:+ extension) name.

(** what [RemoteDFFileHandler.write] moves from the temporary directory to the
    target: the files the filter lets through; the rest goes with the temporary
    directory, which is removed *)
Definition moved_files (template : string) (run : RunDTO) (cls : string) (options : dict)
    (files : list string) (tmp : Directory) : result exc Directory :=
  tmp ← _rename_files template run cls options files tmp;
  extension ← _get_file_extension cls options;
  Ok (filter (fun nc => moved extension nc.1 = true) tmp).
End Names.
