(* ===== verification/FileNameTheorems.v ===== *)
(** * Theorems about the names of files

    A template is a list of pieces; the name of a file is the text of the pieces.
    With a replacement field for the index, names of different files differ, and the
    renaming loop keeps every file. *)

From S2P Require Import Prelude PyData Models Errors Search ConnectionSchemas TransferSchemas.
From S2P Require Import Dto.
From S2P Require Import FileNames Pydantic Examples SchemaTheorems.
From Stdlib Require Import Ascii.

(** ** Texts made of pieces *)

Fixpoint pieces_go (fuel : nat) (s : string) : option (list Piece) :=
  match fuel with
  | O => None
  | S fuel' =>
      match scan s with
      | Done => Some []
      | Bad => None
      | Next p rest => cons p <$> pieces_go fuel' rest
      end
  end.
Definition pieces (s : string) : option (list Piece) := pieces_go (S (String.length s)) s.

Definition piece_text (value : string -> string) (p : Piece) : string :=
  match p with Lit c => String c "" | Subst f => value f end.
Fixpoint text (value : string -> string) (ps : list Piece) : string :=
  match ps with [] => "" | p :: ps => piece_text value p +:+ text value ps end.

Lemma string_app_length (s t : string) :
  String.length (s +:+ t) = (String.length s + String.length t)%nat.
Proof. induction s as [|c s IH]; [done|]. rewrite string_app_cons. cbn. by f_equal. Qed.

(** texts that begin alike cancel *)
Lemma string_app_inj (s s' t t' : string) : String.length s = String.length s' ->
  s +:+ t = s' +:+ t' -> s = s' /\ t = t'.
Proof.
  revert s'. induction s as [|c s IH]; intros [|c' s'] Hl Heq; try done.
  rewrite !string_app_cons in Heq. injection Heq as -> Heq. destruct (IH s') as [-> ->]; [by injection Hl|exact Heq|done].
Qed.

(** how often the index occurs *)
Definition is_index (p : Piece) : bool := match p with Subst f => String.eqb f "index" | Lit _ => false end.
Definition indices (ps : list Piece) : nat := length (List.filter is_index ps).

Section Inj.
Context (v v' : string -> string).

Hypothesis Hv : forall f, f <> "index" -> v f = v' f.

Lemma text_length ps :
  (String.length (text v ps) + indices ps * String.length (v' "index") =
   String.length (text v' ps) + indices ps * String.length (v "index"))%nat.
Proof.
  induction ps as [|p ps IH]; [done|]. unfold indices in *. cbn -[Nat.mul piece_text].
  rewrite !string_app_length. destruct p as [c|f]; cbn -[Nat.mul].
  - lia.
  - destruct (String.eqb_spec f "index") as [->|Hne]; cbn -[Nat.mul]; [|rewrite (Hv f Hne)]; lia.
Qed.

Lemma text_inj ps : (0 < indices ps)%nat -> text v ps = text v' ps -> v "index" = v' "index".
Proof.
  intros Hpos Heq. assert (String.length (v "index") = String.length (v' "index")) as Hl.
  { pose proof (text_length ps) as Hl. rewrite Heq in Hl. nia. }
  revert Hpos Heq. unfold indices. induction ps as [|p ps IH]; cbn; [lia|].
  destruct p as [c|f]; cbn.
  - intros Hpos Heq. apply string_app_inj in Heq as [_ Heq]; [|done]. by apply IH.
  - destruct (String.eqb_spec f "index") as [->|Hne]; cbn; intros Hpos Heq.
    + by apply string_app_inj in Heq as [? _].
    + rewrite (Hv f Hne) in Heq. apply string_app_inj in Heq as [_ Heq]; [|done]. by apply IH.
Qed.
End Inj.

(** ** Renaming by an injective naming *)

Section Renames.
Context (name : Z -> string) `{!Inj (=) (=) name}.

Fixpoint renames (index : Z) (files : list string) (dir : Directory) : Directory :=
  match files with
  | [] => dir
  | old :: rest => renames (index + 1) rest (rename old (name index) dir)
  end.

(** the names that are still to be given out are free *)
Lemma renames_ok files : forall k dir, NoDup files -> (forall f, f ∈ files -> is_Some (dir !! f)) ->
  (forall i, k <= i -> dir !! name i = None) ->
  size (renames k files dir) = size dir /\
  (forall (j : nat) old, files !! j = Some old -> renames k files dir !! name (k + Z.of_nat j) = dir !! old) /\
  (forall f, f ∉ files -> (forall i, k <= i -> f <> name i) -> renames k files dir !! f = dir !! f).
Proof.
  induction files as [|old rest IH]; intros k dir Hnd Hin Hfree; [split_and!; [done|done|done]|].
  apply NoDup_cons in Hnd as [Hold Hnd]. destruct (Hin old) as [c Hc]; [by left|]. cbn [renames].
  assert (rename old (name k) dir = <[name k := c]> (delete old dir)) as -> by (unfold rename; by rewrite Hc).
  assert (forall f, f ∈ old :: rest -> f <> name k) as Hne.
  { intros f Hf ->. destruct (Hin _ Hf) as [c' Hc']. rewrite Hfree in Hc' by lia. done. }
  destruct (IH (k + 1) (<[name k := c]> (delete old dir))) as (Hsize & Hnew & Hold').
  - done.
  - intros f Hf. rewrite lookup_insert_ne, lookup_delete_ne; [apply Hin; by right|by intros ->|].
    apply not_eq_sym, Hne. by right.
  - intros i Hi. rewrite lookup_insert_ne by (intros ?%(inj name); lia).
    destruct (decide (old = name i)) as [->|]; [apply lookup_delete_eq|].
    rewrite lookup_delete_ne by done. apply Hfree. lia.
  - split_and!.
    + rewrite Hsize, map_size_insert_None, map_size_delete_Some by
        first [done|rewrite lookup_delete_ne by (apply Hne; by left); apply Hfree; lia].
      pose proof (map_size_ne_0_lookup_2 dir old). assert (size dir <> 0)%nat by (by eauto). lia.
    + intros [|j] old' Hj; cbn in Hj.
      * injection Hj as <-. rewrite Z.add_0_r, Hold', lookup_insert_eq; [done| |].
        -- intros Hf. apply (Hne (name k)); [by right|done].
        -- intros i Hi ?%(inj name). lia.
      * replace (k + Z.of_nat (S j)) with (k + 1 + Z.of_nat j) by lia. rewrite (Hnew _ _ Hj).
        apply list_elem_of_lookup_2 in Hj. rewrite lookup_insert_ne by (apply not_eq_sym, Hne; by right).
        apply lookup_delete_ne. by intros ->.
    + intros f Hf Hi. rewrite not_elem_of_cons in Hf. destruct Hf as [Hfo Hf]. rewrite Hold'; [|done|].
      * rewrite lookup_insert_ne by (apply not_eq_sym, Hi; lia). by rewrite lookup_delete_ne.
      * intros i Hk. apply Hi. lia.
Qed.
End Renames.

(** ** Templates *)

Section Templates.
Context `{PyLib}.

(** the text of a field that is the name of a value *)
Definition kwarg_text (kw : list (string * FormatValue)) (f : string) : string :=
  match dict_get f kw with Some v => format_value v | None => "" end.
Definition name_fields : list string := ["index"; "extension"; "run_id"; "run_created_at"].
(** replacement fields for the four values only, and one for the index *)
Definition indexed (template : string) : bool :=
  match pieces template with
  | Some ps =>
      forallb (fun p => match p with Lit _ => true | Subst f => bool_decide (f ∈ name_fields) end) ps &&
      existsb is_index ps
  | None => false
  end.

Lemma format_text kw n : forall s ps, pieces_go n s = Some ps ->
  (forall f, Subst f ∈ ps -> field_value kw f = Ok (kwarg_text kw f)) ->
  format_go n s kw = Ok (text (kwarg_text kw) ps).
Proof.
  induction n as [|n IH]; intros s ps Hp Hf; [done|]. cbn [pieces_go format_go] in *.
  destruct (scan s) as [|p rest|]; [by injection Hp as <-| |done].
  destruct (pieces_go n rest) as [ps'|] eqn:Hr; [|done]. injection Hp as <-.
  assert (format_go n rest kw = Ok (text (kwarg_text kw) ps')) as Hrest.
  { apply IH; [done|]. intros f Hin. apply Hf. by right. }
  destruct p as [c|f].
  - by rewrite Hrest.
  - rewrite (Hf f) by (by left). cbn [mbind result_bind]. by rewrite Hrest.
Qed.

Lemma field_value_name run index extension f : f ∈ name_fields ->
  field_value (name_kwargs run index extension) f = Ok (kwarg_text (name_kwargs run index extension) f).
Proof. intros Hf. repeat (apply elem_of_cons in Hf as [->|Hf]; [reflexivity|]). by apply not_elem_of_nil in Hf. Qed.

(** the name of a file, and that no other index has it *)
Lemma indexed_name template run extension : indexed template = true ->
  exists name : Z -> string, Inj (=) (=) name /\
    forall index, _get_file_name template run index extension = Ok (name index).
Proof.
  unfold indexed. destruct (pieces template) as [ps|] eqn:Hp; [|done].
  intros [Hall Hidx]%andb_true_iff. rewrite forallb_forall in Hall.
  exists (fun index => text (kwarg_text (name_kwargs run index extension)) ps). split.
  - intros i j Heq. apply text_inj in Heq.
    + unfold kwarg_text in Heq. cbn in Heq. by apply (inj str_of_Z).
    + intros f Hne. unfold kwarg_text. cbn. by destruct (String.eqb_spec f "index").
    + apply existsb_exists in Hidx as (p & Hin & Hp'). unfold indices.
      destruct (List.filter is_index ps) eqn:Hfil; cbn; [|lia].
      assert (List.In p (List.filter is_index ps)) as Hin' by (apply filter_In; by split). by rewrite Hfil in Hin'.
  - intros index. apply format_text; [exact Hp|]. intros f Hin. apply field_value_name.
    apply list_elem_of_In in Hin. specialize (Hall _ Hin). by apply bool_decide_eq_true in Hall.
Qed.
End Templates.

(** ** Templates the server accepts *)

Section Accepted.
Context `{PyLib}.

(** a field that names an attribute, as [index.upper] *)
Definition attribute_field (f : string) : bool := (1 <? length (split_char "."%char "" f))%nat.
Definition attribute_template (template : string) : Prop :=
  exists ps f, pieces template = Some ps /\ Subst f ∈ ps /\ attribute_field f = true.

(** values under the same names: only an attribute can be missing *)
Lemma field_value_keys kw kw' f r : (forall k, k ∈ dict_keys kw -> k ∈ dict_keys kw') ->
  field_value kw f = Ok r ->
  (exists r', field_value kw' f = Ok r') \/ field_value kw' f = Raise AttributeError /\ attribute_field f = true.
Proof.
  intros Hk. unfold field_value, attribute_field. destruct (split_char "." "" f) as [|first attrs]; [done|].
  destruct (str_all is_digit first); [done|].
  destruct (dict_get first kw) as [v|] eqn:Hv; cbn; [|done].
  assert (exists v', dict_get first kw' = Some v') as [v' ->].
  { destruct (dict_get first kw') eqn:Hv'; [by eauto|]. apply dict_get_None in Hv'. exfalso. apply Hv', Hk.
    apply list_elem_of_fmap. exists (first, v). split; [done|by apply dict_get_elem]. }
  cbn. destruct attrs as [|a attrs]; [by eauto|]. destruct (existsb _ _); [done|].
  destruct (format_getattr v' (a :: attrs)); [by eauto|by right].
Qed.
Lemma format_go_keys kw kw' n s r : (forall k, k ∈ dict_keys kw -> k ∈ dict_keys kw') ->
  format_go n s kw = Ok r ->
  (exists r', format_go n s kw' = Ok r') \/ format_go n s kw' = Raise AttributeError /\
    forall ps, pieces_go n s = Some ps -> exists f, Subst f ∈ ps /\ attribute_field f = true.
Proof.
  intros Hk. revert s r. induction n as [|n IH]; intros s r; cbn [format_go pieces_go]; [by eauto|].
  destruct (scan s) as [|[c|f] rest|]; [by eauto| | |done].
  - destruct (format_go n rest kw) as [x|] eqn:Hx; [|done]. intros _.
    destruct (IH _ _ Hx) as [[r' ->]|[-> Hp]]; [by eauto|]. right. split; [done|]. intros ps.
    destruct (pieces_go n rest) as [ps'|]; [|done]. intros [= <-].
    destruct (Hp ps' eq_refl) as (f & Hf & Ha). exists f. split; [by right|done].
  - destruct (field_value kw f) as [v|] eqn:Hv; [|done]. cbn [mbind result_bind].
    destruct (format_go n rest kw) as [x|] eqn:Hx; [|done]. intros _.
    destruct (field_value_keys _ _ _ _ Hk Hv) as [[v' ->]|[-> Ha]].
    + destruct (IH _ _ Hx) as [[r' ->]|[-> Hp]]; [by eauto|]. right. split; [done|]. intros ps.
      destruct (pieces_go n rest) as [ps'|]; [|done]. intros [= <-].
      destruct (Hp ps' eq_refl) as (g & Hg & Ha). exists g. split; [by right|done].
    + right. split; [done|]. intros ps. destruct (pieces_go n rest); [|done]. intros [= <-]. exists f. split; [by left|done].
Qed.
(** what is formatted has pieces *)
Lemma format_go_pieces kw n s r : (String.length s < n)%nat -> format_go n s kw = Ok r -> exists ps, pieces_go n s = Some ps.
Proof.
  revert s r. induction n as [|n IH]; intros s r Hn; [lia|]. cbn [format_go pieces_go].
  destruct (scan s) as [|p rest|] eqn:Hs; [by eauto| |done]. apply scan_shorter in Hs.
  assert (forall x, format_go n rest kw = Ok x -> exists ps, cons p <$> pieces_go n rest = Some ps) as Hr.
  { intros x Hx. destruct (IH rest x) as [ps ->]; [lia|done|by eexists]. }
  destruct p as [c|f]; [|destruct (field_value kw f); [|done]; cbn [mbind result_bind]];
    (destruct (format_go n rest kw) as [x|]; [|done]); intros _; by eapply Hr.
Qed.

(** a checked template names a file, or asks a number for an attribute of a text *)
Lemma template_name info t v run index extension : _validate_file_name_template info (JStr t) = Ok v ->
  (exists name, _get_file_name t run index extension = Ok name) \/
  _get_file_name t run index extension = Raise AttributeError /\ attribute_template t.
Proof.
  intros Hv. unfold _validate_file_name_template in Hv. repeat (case_match; [done|]).
  destruct (py_format t _) as [x|[]] eqn:Hf; try done. unfold _get_file_name, py_format in *.
  eapply (format_go_keys _ (name_kwargs run index extension)) in Hf as Hn.
  - destruct Hn as [|[-> Hp]]; [by left|right]. split; [done|].
    apply format_go_pieces in Hf as [ps Hps]; [|lia]. destruct (Hp ps Hps) as (f & Hin & Ha). by exists ps, f.
  - intros k. cbn. rewrite !elem_of_cons. tauto.
Qed.


(** The server formats a template with texts, the worker with numbers for the index and
    the run: where [str] has an attribute [upper] and [int] has none, a template the
    server accepts leaves the worker without a name for any file of any run. *)
Lemma accepted_template_fails : is_Some (format_getattr (StrValue "") ["upper"]) ->
  (forall n, format_getattr (IntValue n) ["upper"] = None) ->
  let t := "{run_id}-{index}.{extension}.{index.upper}" in
  is_ok (_validate_file_name_template [] (JStr t)) = true /\
  forall run index extension, _get_file_name t run index extension = Raise AttributeError.
Proof.
  intros [x Hx] Hn t. split.
  - vm_compute in Hx |- *. rewrite Hx. reflexivity.
  - intros run index extension. unfold _get_file_name, py_format, name_kwargs.
    generalize (strftime (rd_created_at run)), (rd_id run). clear Hx. intros created id. specialize (Hn index).
    remember (IntValue index) as v eqn:Hv. remember (IntValue id) as w. vm_compute in Hn |- *. by rewrite Hn.
Qed.
End Accepted.

Section Files.
Context `{PyLib}.

Lemma rename_loop_renames template run extension (name : Z -> string) files : forall k dir,
  (forall i, _get_file_name template run i extension = Ok (name i)) ->
  rename_loop template run extension k files dir = Ok (renames name k files dir).
Proof.
  induction files as [|old rest IH]; intros k dir Hn; [done|]. cbn [rename_loop renames]. rewrite Hn. by apply IH.
Qed.

(** C23 When the fields of the template are the four values, the index among them, and no
    file of the directory has a name the template makes, renaming the files of a run keeps
    them all: every file is found under the name made for its index with the content it
    had, and no file is renamed over another.  A file that has such a name already can be
    lost ([rename_overwrites]). *)
Theorem rename_keeps_files template run cls options extension files dir :
  indexed template = true -> _get_file_extension cls options = Ok extension ->
  NoDup files -> (forall f, f ∈ files <-> is_Some (dir !! f)) ->
  (forall i name, _get_file_name template run i extension = Ok name -> name ∉ files) ->
  exists dir', _rename_files template run cls options files dir = Ok dir' /\ size dir' = size dir /\
    forall (j : nat) old, files !! j = Some old ->
      exists new, _get_file_name template run (Z.of_nat j) extension = Ok new /\ dir' !! new = dir !! old.
Proof.
  intros Ht He Hnd Hdir Hfree. destruct (indexed_name template run extension Ht) as (name & Hinj & Hn).
  exists (renames name 0 files dir). destruct (renames_ok name files 0 dir) as (Hsize & Hnew & _); [done| | |].
  - intros f. apply Hdir.
  - intros i _. destruct (dir !! name i) eqn:Hi; [|done]. exfalso. apply (Hfree i (name i) (Hn i)), Hdir. by eauto.
  - split_and!; [|done|].
    + unfold _rename_files. destruct files; [done|]. rewrite He. by apply rename_loop_renames.
    + intros j old Hj. exists (name (Z.of_nat j)). split; [apply Hn|]. by apply Hnew.
Qed.
End Files.

(** ** Witness, and two templates that lose files *)

Definition run_7 : RunDTO := mkRunDTO 7 1709210096000000.
Definition parts : list string := ["part-0.csv"; "part-1.csv"].
Definition parts_dir : Directory := {[ "part-0.csv" := "a"; "part-1.csv" := "b" ]}.
Definition default_template : string := "{run_created_at}-{index}.{extension}".

Lemma rename_keeps_files_witness :
  exists dir', _rename_files default_template run_7 "CSV" [] parts parts_dir = Ok dir' /\ size dir' = 2%nat /\
    dir' !! "2024_02_29_12_34_56-1.csv" = Some "b".
Proof.
  destruct (rename_keeps_files default_template run_7 "CSV" [] "csv" parts parts_dir) as (dir' & Hr & Hs & Hf).
  - vm_compute. reflexivity.
  - vm_compute. reflexivity.
  - apply (bool_decide_unpack _). vm_compute. exact I.
  - intros f. rewrite <- elem_of_dom. unfold parts_dir. rewrite dom_insert_L, dom_singleton_L. unfold parts. set_solver.
  - intros i name Hn Hin. destruct (indexed_name default_template run_7 "csv" eq_refl) as (nm & _ & Hnm).
    vm_compute in Hn. injection Hn as <-. unfold parts in Hin. set_solver.
  - exists dir'. split_and!; [exact Hr|exact Hs|]. destruct (Hf 1%nat "part-1.csv" eq_refl) as (new & Hn & Hc).
    vm_compute in Hn. injection Hn as <-. exact Hc.
Defined.

Lemma accepted_template_fails_witness :
  _get_file_name "{run_id}-{index}.{extension}.{index.upper}" run_7 0 "csv" = Raise AttributeError.
Proof.
  refine (proj2 (accepted_template_fails _ _) run_7 0 "csv"); [by eexists|reflexivity].
Defined.

(** a file that has the name of another one's index before its own turn is overwritten *)
Example rename_overwrites :
  let dir : Directory := {[ "part-0.csv" := "a"; "2024_02_29_12_34_56-0.csv" := "b" ]} in
  exists dir', _rename_files default_template run_7 "CSV" [] ["part-0.csv"; "2024_02_29_12_34_56-0.csv"] dir = Ok dir' /\
    map_to_list dir' = [("2024_02_29_12_34_56-1.csv", "a")].
Proof. eexists. split; [vm_compute; reflexivity|vm_compute; reflexivity]. Qed.

(** Two templates the server takes lose files.  With the index in double braces,
    which spells the text [{index}], every file gets the same name and all but one
    are lost; with an extension that is not at the end, no file passes the filter of
    the move, and all are removed with the temporary directory. *)
Theorem accepted_templates_lose_files :
  let literal := "{{index}}-{run_id}.{extension}" in
  let inner := "{extension}-{index}-{run_id}" in
  is_ok (_validate_file_name_template [] (JStr literal)) = true /\
  is_ok (_validate_file_name_template [] (JStr inner)) = true /\
  size parts_dir = 2%nat /\
  size <$> _rename_files literal run_7 "CSV" [] parts parts_dir = Ok 1%nat /\
  size <$> moved_files inner run_7 "CSV" [] parts parts_dir = Ok 0%nat /\
  size <$> moved_files default_template run_7 "CSV" [] parts parts_dir = Ok 2%nat.
Proof. cbv zeta. split_and!; vm_compute; reflexivity. Qed.
