(* ===== verification/Handlers.v ===== *)
(** * The handlers of the worker ([worker/handlers])

    What a handler does when it connects, reads and writes: the sequence of calls to
    onETL and Spark with their arguments.  [Call] has one constructor per call; the
    data frames, the high water marks and the answers of the calls are parameters
    ([Engine], [Answers]), and [Worker] keeps the calls made so far. *)

From S2P Require Import Prelude PyData Models Errors Search ConnectionSchemas TransferSchemas.
From S2P Require Import Repositories Dto.
From S2P Require Import FilterExpressions FileNames.

(** the classes of [pyspark.sql.types] the code tells apart *)
Inductive DataType :=
| ByteType | ShortType | IntegerType | LongType | FloatType | DoubleType | BooleanType
| DecimalType | StringType | DateType | TimestampType | TimestampNTZType | ArrayType | MapType
| OtherType.

Class Engine := {
  DataFrame : Type;
  df_columns : DataFrame -> list string;
  (* [df.schema[column]]: its type and whether it is nullable *)
  df_schema : DataFrame -> string -> option (DataType * bool);
  HWM : Type;
  hwm_value : HWM -> bool;          (* the truth value of [hwm.value] *)
  (* whether the connection class of a handler is a [ContainsGetDFSchemaMethod] *)
  contains_get_df_schema : HandlerClass -> bool;
}.

Inductive FileHWM := FileModifiedTimeHWM (name : string) | FileListHWM (name : string).

(** what [coalesce] puts in place of a null, of the type of the column *)
Inductive Sentinel :=
| LitZero (t : DataType) | LitDecimalZero | LitEmptyString | LitEpoch (t : DataType)
| EmptyArray | EmptyMap.

(** [Path(p1, p2, ...)] *)
Abbreviation Path := (list string).

Inductive Call `{Engine} :=
(* the controller *)
| KinitPassword (user password : json)
| GetOrCreateSession (app_name : string) (config : dict) (hive_support : bool)
| StopSpark
| CleanupTempDir
| OpenHWMStore (api_url login password namespace : option string) | CloseHWMStore
| EnterIncrementalStrategy
| ExitIncrementalStrategy (failed : bool)                     (* saves the mark when it did not fail *)
| GetHWM (name : string)
| ResetHWM (hwm : HWM) | SetHWM (hwm : HWM)
(* connecting: [Class(args).check()] *)
| RegisterDialect
| CheckConnection (cls : string) (args : list (string * json))
(* databases *)
| RefreshTable (table : string)
| GetDFSchema (table : json) (columns : option (list string))
| DBReaderRun (table : json) (where_ : option string) (columns : option (list string))
    (hwm : option (string * string)) (options : option dict)
| SqlQuery (query : json)
| CreateTempView (df : DataFrame)
| WithColumnRenamed (df : DataFrame) (existing new : string)
| WithColumnCoalesce (df : DataFrame) (column : string) (sentinel : Sentinel)
| DBWriterRun (table : json) (options : dict) (df : DataFrame)
(* files *)
| FileDownloaderRun (source_path : json) (local_path : string) (filters : list FileFilter)
    (hwm : option FileHWM)
| FileDFReaderRun (source_path : json) (format : string * dict) (df_schema : option json)
    (options : option dict)
| WhereDF (df : DataFrame) (expression : string)
| SelectExpr (df : DataFrame) (expressions : list string)
| FileDFWriterRun (format : string * dict) (target_path : Path) (options : option dict) (df : DataFrame)
| IterDir (path : Path)                  (* names of files of the local directory *)
| ListDir (path : Path)                  (* [file_connection.list_dir] *)
| Unlink (path : Path)
| RenameFile (old_path new_path : Path)
| FileUploaderRun (local_path : string) (target_path : json)
| FileMoverRun (source_path : Path) (target_path : json) (glob : string)
| RemoveDir (path : Path).

(** what each call answers, after the calls before it *)
Class Answers `{Engine} := {
  done_ : list Call -> Call -> result exc unit;
  frame : list Call -> Call -> result exc DataFrame;
  names : list Call -> Call -> result exc (list string);
  mark : list Call -> Call -> result exc (option HWM);
}.

Abbreviation Worker := (SE (list Call) exc).

Definition call `{Engine} {A} (answer : list Call -> Call -> result exc A) (c : Call) : Worker A :=
  fun calls => (answer calls c, calls ++ [c]).

(** [with]: [exit failed] after the body, whatever it did; [try: m finally: k] *)
Definition with_exit `{Engine} {A} (m : Worker A) (exit : bool -> Worker unit) : Worker A := fun calls =>
  match m calls with
  | (r, calls1) =>
      match exit (negb (is_ok r)) calls1 with
      | (Ok _, calls2) => (r, calls2)
      | (Raise e, calls2) => (Raise e, calls2)
      end
  end.
Definition finally_ `{Engine} {A} (m : Worker A) (k : Worker unit) : Worker A := with_exit m (fun _ => k).
Definition pure `{Engine} {A} (r : result exc A) : Worker A := reads (fun _ => r).

(** ** The objects *)

Record Handler `{Engine} := mkHandler {
  handler_class : HandlerClass;
  connection_dto : ConnectionDTO;
  transfer_dto : TransferDTO;
  run_dto : RunDTO;
  temp_dir : string;                     (* the name of the temporary directory *)
  hwm : option HWM;
}.
Arguments mkHandler {_} _ _ _ _ _ _.
(** [handler.hwm = value] *)
Definition with_hwm `{Engine} (v : option HWM) (h : Handler) : Handler :=
  mkHandler (handler_class h) (connection_dto h) (transfer_dto h) (run_dto h) (temp_dir h) v.

(** [obj.name] *)
Definition getattr {V} (name : string) (o : Obj V) : result exc V :=
  or_raise (dict_get name (obj_attrs o)) AttributeError.
Definition json_attr (name : string) (o : TransferDTO) : result exc json :=
  v ← getattr name o;
  match v with Json j => Ok j | _ => Raise AttributeError end.
Definition strategy_attr (o : TransferDTO) : result exc Strategy :=
  v ← getattr "strategy" o;
  match v with StrategyObj s => Ok s | _ => Raise AttributeError end.
Definition format_attr (o : TransferDTO) : result exc (string * dict) :=
  v ← getattr "file_format" o;
  match v with FormatObj cls d => Ok (cls, d) | _ => Raise AttributeError end.
Definition transformations_attr (o : TransferDTO) : result exc (list json) :=
  j ← json_attr "transformations" o;
  match j with JList l => Ok l | _ => Raise TypeError end.
Definition options_attr (o : TransferDTO) : result exc dict :=
  j ← json_attr "options" o;
  match j with JObj d => Ok d | _ => Raise TypeError end.
Definition max_parallel_tasks (o : TransferDTO) : result exc json :=
  v ← getattr "resources" o;
  match v with ResourcesObj r => getattr "max_parallel_tasks" r | _ => Raise AttributeError end.

Definition is_incremental (s : Strategy) : bool :=
  match s with IncrementalStrategy _ _ => true | FullStrategy _ => false end.

Section Connect.
Context `{Answers}.

(** ** [connect] *)

(** the keyword arguments taken from the connection: argument, attribute *)
Definition db_args (attributes : list (string * string)) (c : ConnectionDTO) : result exc (list (string * json)) :=
  mapM (fun a => v ← getattr a.2 c; Ok (a.1, v)) attributes.
Definition same (names : list string) : list (string * string) := (fun n => (n, n)) <$> names.

Definition check (cls : string) (args : result exc (list (string * json))) : Worker unit :=
  a ← pure args; call done_ (CheckConnection cls a).

Definition s3_path_style (attribute : string) (c : ConnectionDTO) : result exc (string * json) :=
  v ← getattr attribute c; Ok ("path_style_access", JBool (json_eqb v (JStr "path"))).

(** [IcebergRESTCatalogS3Handler._make_auth] *)
Definition _make_auth (c : ConnectionDTO) : result exc (list (string * json)) :=
  if instance_of c "IcebergRESTCatalogOAuth2ClientCredentialsS3BasicDTO"
     || instance_of c "IcebergRESTCatalogOAuth2ClientCredentialsS3DelegatedDTO" then
    db_args [("client_id", "rest_catalog_oauth2_client_id");
             ("client_secret", "rest_catalog_oauth2_client_secret");
             ("scopes", "rest_catalog_oauth2_scopes"); ("resource", "rest_catalog_oauth2_resource");
             ("audience", "rest_catalog_oauth2_audience");
             ("oauth2_token_endpoint", "rest_catalog_oauth2_token_endpoint")] c
  else if instance_of c "IcebergRESTCatalogBearerAuthS3DelegatedDTO"
          || instance_of c "IcebergRESTCatalogBearerAuthS3BasicDTO" then
    db_args [("access_token", "rest_catalog_token")] c
  else Ok [].

Definition iceberg_args (catalog_name : json) (c : ConnectionDTO) : result exc (list (string * json)) :=
  url ← getattr "rest_catalog_url" c;
  auth ← _make_auth c;
  warehouse ←
    (if instance_of c "IcebergRESTCatalogS3DirectConnectionBaseDTO" then
       a ← db_args [("path", "s3_warehouse_path"); ("host", "s3_host"); ("port", "s3_port");
                    ("protocol", "s3_protocol"); ("bucket", "s3_bucket")] c;
       style ← s3_path_style "s3_bucket_style" c;
       b ← db_args [("region", "s3_region"); ("access_key", "s3_access_key");
                    ("secret_key", "s3_secret_key")] c;
       Ok (a ++ [style] ++ b)
     else db_args [("name", "s3_warehouse_name"); ("access_delegation", "s3_access_delegation")] c);
  Ok ([("catalog_name", catalog_name); ("url", url)] ++ auth ++ warehouse).

Definition jdbc_args (database : list (string * string)) : list (string * string) :=
  same ["host"; "port"; "user"; "password"] ++ database ++ [("extra", "additional_params")].

(** [extra={"trustServerCertificate": "true", **additional_params}] *)
Definition mssql_args (c : ConnectionDTO) : result exc (list (string * json)) :=
  a ← db_args (same ["host"; "port"; "user"; "password"] ++ [("database", "database_name")]) c;
  extra ← getattr "additional_params" c;
  match extra with
  | JObj d => Ok (a ++ [("extra", JObj (dict_update [("trustServerCertificate", JStr "true")] d))])
  | _ => Raise TypeError
  end.
Definition s3_args (c : ConnectionDTO) : result exc (list (string * json)) :=
  db_args (same ["host"; "port"; "access_key"; "secret_key"; "bucket"; "protocol"; "region"]) c.
Definition spark_s3_args (c : ConnectionDTO) : result exc (list (string * json)) :=
  a ← db_args (same ["host"; "port"; "access_key"; "secret_key"; "bucket"]) c;
  style ← s3_path_style "bucket_style" c;
  b ← db_args (same ["protocol"; "region"] ++ [("extra", "additional_params")]) c;
  Ok (a ++ [style] ++ b).

Definition ClickhouseHandler_connect (c : ConnectionDTO) : Worker unit :=
  _ ← call done_ RegisterDialect;
  check "Clickhouse" (db_args (jdbc_args [("database", "database_name")]) c).
Definition PostgresHandler_connect (c : ConnectionDTO) : Worker unit :=
  check "Postgres" (db_args (jdbc_args [("database", "database_name")]) c).
Definition MySQLHandler_connect (c : ConnectionDTO) : Worker unit :=
  check "MySQL" (db_args (jdbc_args [("database", "database_name")]) c).
Definition MSSQLHandler_connect (c : ConnectionDTO) : Worker unit := check "MSSQL" (mssql_args c).
Definition OracleHandler_connect (c : ConnectionDTO) : Worker unit :=
  check "Oracle" (db_args (jdbc_args (same ["sid"; "service_name"])) c).
Definition HiveHandler_connect (c : ConnectionDTO) : Worker unit :=
  check "Hive" (db_args (same ["cluster"]) c).
Definition IcebergRESTCatalogS3Handler_connect (t : TransferDTO) (c : ConnectionDTO) : Worker unit :=
  catalog_name ← pure (json_attr "catalog_name" t);
  check "Iceberg" (iceberg_args catalog_name c).
Definition S3Handler_connect (c : ConnectionDTO) : Worker unit :=
  _ ← check "SparkS3" (spark_s3_args c); check "S3" (s3_args c).
Definition HDFSHandler_connect (c : ConnectionDTO) : Worker unit :=
  _ ← check "SparkHDFS" (db_args (same ["cluster"]) c);
  check "HDFS" (db_args (same ["cluster"; "user"; "password"]) c).

(** the handlers that download: a connection to the server, one to the local files *)
Definition file_server (cls : string) (arguments : list string) (constants : list (string * json))
    (c : ConnectionDTO) : Worker unit :=
  _ ← check cls (a ← db_args (same arguments) c; Ok (a ++ constants));
  check "SparkLocalFS" (Ok []).
Definition SFTPHandler_connect : ConnectionDTO -> Worker unit :=
  file_server "SFTP" ["host"; "port"; "user"; "password"] [("compress", JBool false)].
Definition FTPHandler_connect : ConnectionDTO -> Worker unit :=
  file_server "FTP" ["host"; "port"; "user"; "password"] [].
Definition FTPSHandler_connect : ConnectionDTO -> Worker unit :=
  file_server "FTPS" ["host"; "port"; "user"; "password"] [].
Definition SambaHandler_connect : ConnectionDTO -> Worker unit :=
  file_server "Samba" ["host"; "port"; "share"; "protocol"; "domain"; "user"; "password"; "auth_type"] [].
Definition WebDAVHandler_connect : ConnectionDTO -> Worker unit :=
  file_server "WebDAV" ["host"; "port"; "protocol"; "user"; "password"] [("ssl_verify", JBool false)].

Definition connect (h : Handler) : Worker unit :=
  match handler_class h with
  | ClickhouseHandler => ClickhouseHandler_connect
  | PostgresHandler => PostgresHandler_connect
  | MySQLHandler => MySQLHandler_connect
  | MSSQLHandler => MSSQLHandler_connect
  | OracleHandler => OracleHandler_connect
  | HiveHandler => HiveHandler_connect
  | IcebergRESTCatalogS3Handler => IcebergRESTCatalogS3Handler_connect (transfer_dto h)
  | S3Handler => S3Handler_connect
  | HDFSHandler => HDFSHandler_connect
  | SFTPHandler => SFTPHandler_connect
  | FTPHandler => FTPHandler_connect
  | FTPSHandler => FTPSHandler_connect
  | SambaHandler => SambaHandler_connect
  | WebDAVHandler => WebDAVHandler_connect
  end (connection_dto h).
End Connect.
