(* ===== verification/ReadWrite.v ===== *)
(** * Reading and writing ([worker/handlers]: [read], [write])

    The bodies of [read] and [write] of the three families of handlers: databases
    ([DBHandler], with what ClickHouse, Hive and Iceberg add), file systems Spark
    reads itself ([RemoteDFFileHandler], with what S3 adds) and file systems whose
    files are downloaded first ([LocalDFFileHandler]).  Each is the sequence of its
    calls, in the order of the code. *)

From S2P Require Import Prelude PyData Models Errors Search ConnectionSchemas TransferSchemas.
From S2P Require Import Repositories Dto.
From S2P Require Import FilterExpressions FileNames Handlers PyText.

(** [x == 1] *)
Definition equals_one (j : json) : bool := json_eqb j (JInt 1) || json_eqb j (JBool true).

Section ReadWrite.
Context `{PyLib} `{Answers}.

Definition transformations_of (h : Handler) : result exc (list json) := transformations_attr (transfer_dto h).
(** [self.hwm and self.hwm.value] *)
Definition hwm_known (h : Handler) : bool :=
  match hwm h with Some v => hwm_value v | None => false end.
(** [f"{self.transfer_dto.id}_{self.connection_dto.type}_{suffix}"] *)
Definition hwm_name (h : Handler) (suffix : json) : result exc string :=
  id ← json_attr "id" (transfer_dto h);
  Ok (py_str id +:+ "_" +:+ dc_type (obj_class (connection_dto h)) +:+ "_" +:+ py_str suffix).

(** ** [DBHandler] *)

(** [increment_by] is the quoted column by now *)
Definition _get_reading_options (h : Handler) (increment_by : option string) : Worker (option dict) :=
  match handler_class h with
  | HiveHandler | IcebergRESTCatalogS3Handler => mret None
  | _ =>
      tasks ← pure (max_parallel_tasks (transfer_dto h));
      if equals_one tasks then mret None
      else
        let partitioning column mode :=
          [("partition_column", JStr column); ("num_partitions", tasks);
           ("partitioning_mode", JStr mode)] in
        match increment_by with
        | Some column => mret (Some (partitioning column (if hwm_known h then "range" else "hash")))
        | None =>
            if contains_get_df_schema (handler_class h) then
              table_name ← pure (json_attr "table_name" (transfer_dto h));
              columns ← pure (ts ← transformations_of h; _get_columns_filter_expressions (handler_class h) ts);
              schema ← call names (GetDFSchema table_name columns);
              first ← pure (or_raise (head schema) IndexError);
              mret (Some (partitioning (_quote_field (handler_class h) first) "hash"))
            else mret None
        end
  end.

Definition apply_sql (query : json) (df : DataFrame) : Worker DataFrame :=
  _ ← call done_ (CreateTempView df); call frame (SqlQuery query).

(** [DBHandler.read]; it replaces [strategy.increment_by] by the quoted column *)
Definition db_read (h : Handler) : Worker DataFrame :=
  strategy ← pure (strategy_attr (transfer_dto h));
  table_name ← pure (json_attr "table_name" (transfer_dto h));
  let increment_by := match strategy with
                      | IncrementalStrategy _ column => Some (_quote_field (handler_class h) (py_str column))
                      | FullStrategy _ => None
                      end in
  hwm ← pure (match increment_by with
              | Some column => name ← hwm_name h table_name; Ok (Some (name, column))
              | None => Ok None
              end);
  options ← _get_reading_options h increment_by;
  where_ ← pure (ts ← transformations_of h; _get_rows_filter_expression (handler_class h) ts);
  columns ← pure (ts ← transformations_of h; _get_columns_filter_expressions (handler_class h) ts);
  df ← call frame (DBReaderRun table_name where_ columns hwm options);
  sql_query ← pure (ts ← transformations_of h; _get_sql_query ts);
  match sql_query with
  | Some query => if json_truthy query then apply_sql query df else mret df
  | None => mret df
  end.

(** [_normalize_column_names]: the loop runs over the columns of the first frame *)
Definition case_of (h : HandlerClass) : string -> string :=
  match h with OracleHandler => str_upper | _ => str_lower end.
Fixpoint rename_columns (case : string -> string) (columns : list string) (df : DataFrame)
    : Worker DataFrame :=
  match columns with
  | [] => mret df
  | column_name :: rest =>
      df ← call frame (WithColumnRenamed df column_name (case column_name));
      rename_columns case rest df
  end.
Definition _normalize_column_names (h : HandlerClass) (df : DataFrame) : Worker DataFrame :=
  rename_columns (case_of h) (df_columns df) df.

(** [options["if_exists"] = "append"] when the transfer goes on from a known mark *)
Definition write_options (h : Handler) (options : dict) : result exc dict :=
  strategy ← strategy_attr (transfer_dto h);
  Ok (if json_eqb (strategy_type strategy) (JStr "incremental") && hwm_known h
      then dict_set "if_exists" (JStr "append") options else options).

Definition db_write (h : Handler) (df : DataFrame) : Worker unit :=
  options ← pure (o ← options_attr (transfer_dto h); write_options h o);
  table_name ← pure (json_attr "table_name" (transfer_dto h));
  df ← _normalize_column_names (handler_class h) df;
  call done_ (DBWriterRun table_name options df).

(** ** [ClickhouseHandler.write] *)

Definition sort_column (columns : list string) : result exc string :=
  first ← or_raise (head columns) IndexError;            (* evaluated before [next] *)
  Ok (default first (snd <$> list_find (fun c => str_ends "id" (str_lower c) = true) columns)).

Definition sentinel (t : DataType) : result exc Sentinel :=
  match t with
  | ByteType | ShortType | IntegerType | LongType | FloatType | DoubleType | BooleanType => Ok (LitZero t)
  | DecimalType => Ok LitDecimalZero
  | StringType => Ok LitEmptyString
  | DateType | TimestampType | TimestampNTZType => Ok (LitEpoch t)
  | ArrayType => Ok EmptyArray
  | MapType => Ok EmptyMap
  | OtherType => Raise TypeError
  end.
Definition _normalize_column_to_non_nullable (df : DataFrame) (column : string) : Worker DataFrame :=
  field ← pure (or_raise (df_schema df column) (KeyError column));
  if negb field.2 then mret df
  else
    s ← pure (sentinel field.1);
    call frame (WithColumnCoalesce df column s).

Definition clickhouse_write (h : Handler) (df : DataFrame) : Worker unit :=
  df ← _normalize_column_names (handler_class h) df;
  column ← pure (sort_column (df_columns df));
  df ← _normalize_column_to_non_nullable df column;
  options ← pure (o ← options_attr (transfer_dto h);
                  write_options h (dict_set "createTableOptions"
                    (JStr ("ENGINE = MergeTree() ORDER BY " +:+ _quote_field (handler_class h) column)) o));
  table_name ← pure (json_attr "table_name" (transfer_dto h));
  call done_ (DBWriterRun table_name options df).

(** ** What the handlers of files share *)

(** [StructType.fromJson(df_schema) if df_schema else None] *)
Definition df_schema_attr (o : TransferDTO) : result exc (option json) :=
  j ← json_attr "df_schema" o; Ok (if json_truthy j then Some j else None).

(** [.where] and [.selectExpr] of the filters, when there are any *)
Definition filter_frame (h : Handler) (df : DataFrame) : Worker DataFrame :=
  rows ← pure (ts ← transformations_of h; _get_rows_filter_expression (handler_class h) ts);
  df ← match rows with Some e => call frame (WhereDF df e) | None => mret df end;
  columns ← pure (ts ← transformations_of h; _get_columns_filter_expressions (handler_class h) ts);
  match columns with Some es => call frame (SelectExpr df es) | None => mret df end.

Definition file_extension (h : Handler) : result exc string :=
  f ← format_attr (transfer_dto h); _get_file_extension f.1 f.2.
Definition file_name (h : Handler) (index : Z) (extension : string) : result exc string :=
  template ← json_attr "file_name_template" (transfer_dto h);
  match template with
  | JStr t => _get_file_name t (run_dto h) index extension
  | _ => Raise AttributeError                               (* [None.format] *)
  end.
(** the loop of [_rename_files]: [new_path = Path(directory, new_name)] *)
Fixpoint rename_calls (h : Handler) (directory : Path) (index : Z) (files : list Path) : Worker unit :=
  match files with
  | [] => mret tt
  | old_path :: rest =>
      extension ← pure (file_extension h);
      new_name ← pure (file_name h index extension);
      _ ← call done_ (RenameFile old_path (directory ++ [new_name]));
      rename_calls h directory (index + 1) rest
  end.

(** ** [RemoteDFFileHandler] and [S3Handler] *)

(** the options of the reader; only S3 asks for the schema of Excel and XML files *)
Definition remote_read_options (h : Handler) : result exc dict :=
  options ← options_attr (transfer_dto h);
  match handler_class h with
  | S3Handler =>
      f ← format_attr (transfer_dto h);
      Ok (dict_update (if bool_decide (f.1 ∈ ["Excel"; "XML"]) then [("inferSchema", JBool true)] else [])
            options)
  | _ => Ok options
  end.
Definition remote_read (h : Handler) : Worker DataFrame :=
  file_format ← pure (format_attr (transfer_dto h));
  directory_path ← pure (json_attr "directory_path" (transfer_dto h));
  schema ← pure (df_schema_attr (transfer_dto h));
  options ← pure (remote_read_options h);
  df ← call frame (FileDFReaderRun directory_path file_format schema (Some options));
  df ← filter_frame h df;
  sql_query ← pure (ts ← transformations_of h; _get_sql_query ts);
  match sql_query with
  | Some query => if json_truthy query then apply_sql query df else mret df
  | None => mret df
  end.

(** [FileHandler._rename_files] *)
Definition rename_remote (h : Handler) (tmp_path : Path) : Worker unit :=
  files ← call names (ListDir tmp_path);
  rename_calls h tmp_path 0 ((fun f => [f]) <$> files).

Definition remote_write (h : Handler) (df : DataFrame) : Worker unit :=
  directory_path ← pure (json_attr "directory_path" (transfer_dto h));
  let tmp_path := [py_str directory_path; ".tmp"; str_of_Z (rd_id (run_dto h))] in
  finally_
    (file_format ← pure (format_attr (transfer_dto h));
     _ ← call done_ (FileDFWriterRun file_format tmp_path None df);
     _ ← rename_remote h tmp_path;
     extension ← pure (file_extension h);
     call done_ (FileMoverRun tmp_path directory_path ("*." +:+ extension)))
    (call done_ (RemoveDir tmp_path)).

(** ** [LocalDFFileHandler] *)

Definition file_hwm (h : Handler) : result exc (option FileHWM) :=
  strategy ← strategy_attr (transfer_dto h);
  match strategy with
  | FullStrategy _ => Ok None
  | IncrementalStrategy _ increment_by =>
      directory_path ← json_attr "directory_path" (transfer_dto h);
      name ← hwm_name h directory_path;
      Ok (if json_eqb increment_by (JStr "file_modified_since") then Some (FileModifiedTimeHWM name)
          else if json_eqb increment_by (JStr "file_name") then Some (FileListHWM name)
          else None)
  end.

(** the last step asks for [self.df_connection], which these handlers never set
    (they have a [local_df_connection]) *)
Definition local_sql (df : DataFrame) : Worker DataFrame :=
  _ ← call done_ (CreateTempView df); raise AttributeError.
Definition local_read (h : Handler) : Worker DataFrame :=
  hwm ← pure (file_hwm h);
  directory_path ← pure (json_attr "directory_path" (transfer_dto h));
  filters ← pure (ts ← transformations_of h; _get_file_metadata_filters ts);
  _ ← call done_ (FileDownloaderRun directory_path (temp_dir h) filters hwm);
  file_format ← pure (format_attr (transfer_dto h));
  schema ← pure (df_schema_attr (transfer_dto h));
  df ← call frame (FileDFReaderRun (JStr (temp_dir h)) file_format schema None);
  df ← filter_frame h df;
  sql_query ← pure (ts ← transformations_of h; _get_sql_query ts);
  match sql_query with
  | Some query => if json_truthy query then local_sql df else mret df
  | None => mret df
  end.

Fixpoint unlink_crc (directory : Path) (files : list string) : Worker unit :=
  match files with
  | [] => mret tt
  | file :: rest =>
      _ ← (if str_ends ".crc" file then call done_ (Unlink (directory ++ [file])) else mret tt);
      unlink_crc directory rest
  end.
(** [LocalDFFileHandler._rename_files] *)
Definition rename_local (h : Handler) : Worker unit :=
  files ← call names (IterDir [temp_dir h]);
  rename_calls h [temp_dir h] 0 ((fun f => [temp_dir h; f]) <$> files).

Definition local_write (h : Handler) (df : DataFrame) : Worker unit :=
  file_format ← pure (format_attr (transfer_dto h));
  options ← pure (options_attr (transfer_dto h));
  _ ← call done_ (FileDFWriterRun file_format [temp_dir h] (Some options) df);
  crc_files ← call names (IterDir [temp_dir h]);
  _ ← unlink_crc [temp_dir h] crc_files;
  _ ← rename_local h;
  directory_path ← pure (json_attr "directory_path" (transfer_dto h));
  call done_ (FileUploaderRun (temp_dir h) directory_path).

(** ** The methods of the handlers *)

Definition read (h : Handler) : Worker DataFrame :=
  match handler_class h with
  | HiveHandler =>
      table_name ← pure (json_attr "table_name" (transfer_dto h));
      _ ← call done_ (RefreshTable (py_str table_name));
      db_read h
  | IcebergRESTCatalogS3Handler =>
      catalog_name ← pure (json_attr "catalog_name" (transfer_dto h));
      table_name ← pure (json_attr "table_name" (transfer_dto h));
      _ ← call done_ (RefreshTable (py_str catalog_name +:+ "." +:+ py_str table_name));
      db_read h
  | ClickhouseHandler | PostgresHandler | MySQLHandler | MSSQLHandler | OracleHandler => db_read h
  | S3Handler | HDFSHandler => remote_read h
  | SFTPHandler | FTPHandler | FTPSHandler | SambaHandler | WebDAVHandler => local_read h
  end.

Definition write (h : Handler) (df : DataFrame) : Worker unit :=
  match handler_class h with
  | ClickhouseHandler => clickhouse_write h df
  | HiveHandler | IcebergRESTCatalogS3Handler | PostgresHandler | MySQLHandler | MSSQLHandler
  | OracleHandler => db_write h df
  | S3Handler | HDFSHandler => remote_write h df
  | SFTPHandler | FTPHandler | FTPSHandler | SambaHandler | WebDAVHandler => local_write h df
  end.
End ReadWrite.
