(* ===== verification/Spark.v ===== *)
(** * The Spark session of a run ([worker/spark.py], [worker/ivy2.py])

    The configuration of the session: the Maven packages the two connections need,
    the resources of the transfer and the committers of S3; and the calls that make
    it.  The packages of onETL's connections and the name of the host are the
    parameters [Environment]. *)

From S2P Require Import Prelude PyData Models Errors Search ConnectionSchemas TransferSchemas.
From S2P Require Import Repositories Dto.
From S2P Require Import FilterExpressions FileNames Handlers.

Class Environment := {
  packages : string -> list string;           (* [Postgres.get_packages()] and the like, by class *)
  exclude_packages : list string;             (* [SparkS3.get_exclude_packages()] *)
  gethostname : string;
}.

(** a run with what [selectinload] loads *)
Record LoadedRun := mkLoadedRun {
  lr_run : Run;
  lr_transfer : Transfer;
  lr_group : Group;
  lr_source_connection : Connection;
  lr_target_connection : Connection;
}.

Section Spark.
Context `{PyLib} `{Environment}.

Definition get_packages (connection_types : list string) : list string :=
  let uses names := existsb (fun t => bool_decide (t ∈ names)) connection_types in
  (if uses ["postgres"; "all"] then packages "Postgres" else []) ++
  (if uses ["oracle"; "all"] then packages "Oracle" else []) ++
  (if uses ["clickhouse"; "all"]
   then "io.github.mtsongithub.doetl:spark-dialect-extension_2.12:0.0.4" :: packages "Clickhouse" else []) ++
  (if uses ["mssql"; "all"] then packages "MSSQL" else []) ++
  (if uses ["mysql"; "all"] then packages "MySQL" else []) ++
  (if uses ["s3"; "all"] then packages "SparkS3" else []) ++
  (if uses ["iceberg"; "all"] then packages "Iceberg" ++ packages "Iceberg.S3Warehouse" else []) ++
  (if uses ["s3"; "hdfs"; "sftp"; "ftp"; "ftps"; "samba"; "webdav"; "all"]
   then packages "XML" ++ packages "Excel" else []).
Definition get_excluded_packages : list string := exclude_packages.

(** ** [docker/download_ivy2_packages.py] *)

Definition get_spark_session_conf_for_docker_image (connection_types : list string) : dict :=
  let maven_packages := get_packages (match connection_types with [] => ["all"] | _ => connection_types end) in
  [("spark.jars.packages", JStr (String.concat "," maven_packages));
   ("spark.jars.excludes", JStr (String.concat "," get_excluded_packages));
   ("spark.sql.pyspark.jvmStacktrace.enabled", JStr "true");
   ("spark.driver.cores", JStr "1"); ("spark.driver.memory", JStr "512M");
   ("spark.executor.cores", JStr "1"); ("spark.executor.memory", JStr "512M");
   ("spark.executor.instances", JStr "1"); ("spark.ui.enabled", JStr "false")].
(** [set(connection_types)]: of a text, its characters *)
Definition docker_connection_types (argv : list string) : list string :=
  match argv with
  | [] => remove_dups ((fun c => String c "") <$> String.list_ascii_of_string "all")
  | _ => remove_dups argv
  end.
(** the name of the application, the master and the configuration of the session *)
Definition get_worker_spark_session_for_docker (connection_types : list string) : string * string * dict :=
  ("syncmaster_jar_downloader", "local[1]", get_spark_session_conf_for_docker_image connection_types).
(** the script, up to the session it opens *)
Definition download_maven_packages (argv : list string) : string * string * dict :=
  get_worker_spark_session_for_docker (docker_connection_types argv).

(** [resources[k]], an [int] *)
Definition int_item (k : string) (d : dict) : result exc Z :=
  match dict_get k d with
  | Some (JInt z) => Ok z
  | Some _ => Raise TypeError
  | None => Raise (KeyError k)
  end.

(** [math.ceil(ram / 1024 / 1024)]; dividing a float by 1024 is exact *)
Definition memory_mb (ram_bytes : Z) : Z := ceil_div ram_bytes (1024 * 1024).

(** [spark_master and spark_master.startswith("local")] *)
Definition is_local (spark_master : option json) : result exc bool :=
  match spark_master with
  | Some (JStr s) => Ok (String.prefix "local" s)
  | Some j => if json_truthy j then Raise AttributeError else Ok false
  | None => Ok false
  end.

Definition s3_committer_config : dict :=
  [("spark.hadoop.fs.s3a.committer.magic.enabled", JStr "true");
   ("spark.hadoop.fs.s3a.committer.name", JStr "magic");
   ("spark.hadoop.mapreduce.outputcommitter.factory.scheme.s3a",
      JStr "org.apache.hadoop.fs.s3a.commit.S3ACommitterFactory");
   ("spark.sql.parquet.output.committer.class",
      JStr "org.apache.spark.internal.io.cloud.BindingParquetOutputCommitter");
   ("spark.sql.sources.commitProtocolClass",
      JStr "org.apache.spark.internal.io.cloud.PathOutputCommitProtocol")].

Definition dto_type (c : ConnectionDTO) : string := dc_type (obj_class c).

Definition get_spark_session_conf (spark_master : option json) (source target : ConnectionDTO)
    (resources : dict) : result exc dict :=
  let maven_packages := get_packages [dto_type source; dto_type target] in
  let excluded_packages := get_excluded_packages in
  tasks ← int_item "max_parallel_tasks" resources;
  cores_per_task ← int_item "cpu_cores_per_task" resources;
  ram ← int_item "ram_bytes_per_task" resources;
  let memory := JStr (str_of_Z (memory_mb ram) +:+ "M") in
  local ← is_local spark_master;
  let config :=
    [("spark.sql.pyspark.jvmStacktrace.enabled", JStr "true");
     ("spark.hadoop.mapreduce.fileoutputcommitter.marksuccessfuljobs", JStr "false")] ++
    (if local : bool
     then [("spark.master", JStr ("local[" +:+ str_of_Z tasks +:+ "]"));
           ("spark.driver.memory", memory)]
     else [("spark.executor.memory", memory); ("spark.executor.instances", JInt tasks)]) ++
    [("spark.executor.cores", JInt cores_per_task);
     ("spark.default.parallelism", JInt (tasks * cores_per_task));
     ("spark.dynamicAllocation.maxExecutors", JInt tasks);
     ("spark.kubernetes.executor.limit.cores", JInt cores_per_task);
     ("spark.kubernetes.driver.pod.name", JStr gethostname)] ++
    (if bool_decide (maven_packages = []) then []
     else [("spark.jars.packages", JStr (String.concat "," maven_packages))]) ++
    (if bool_decide (excluded_packages = []) then []
     else [("spark.jars.excludes", JStr (String.concat "," excluded_packages))]) in
  Ok (if String.eqb (dto_type target) "s3" then dict_update config s3_committer_config else config).

(** ** [get_worker_spark_session] *)

Context `{Answers}.

(** one step of the loop over [source, target]: whether Hive support is on *)
Definition authenticate (hive_support : bool) (entity : ConnectionDTO) : Worker bool :=
  let hive := instance_of entity "HiveConnectionDTO" in
  _ ← (if hive || instance_of entity "HDFSConnectionDTO" then
         user ← pure (getattr "user" entity);
         password ← pure (getattr "password" entity);
         call done_ (KinitPassword user password)
       else mret tt);
  mret (hive_support || hive).

Definition get_worker_spark_session (spark_session_default_config : dict) (run : LoadedRun)
    (source target : ConnectionDTO) : Worker unit :=
  let name := group_name (lr_group run) +:+ "_" +:+ transfer_name (lr_transfer run) in
  let master := dict_get "spark.master" spark_session_default_config in
  conf ← pure (get_spark_session_conf master source target (resources (lr_transfer run)));
  hive_support ← authenticate false source;
  hive_support ← authenticate hive_support target;
  call done_ (GetOrCreateSession ("SyncMaster__" +:+ name)
                (dict_update spark_session_default_config conf) hive_support).
End Spark.

(** without arguments the script asks for the connections [a] and [l], that is none *)
Lemma docker_without_arguments `{PyLib} `{Environment} : get_packages (docker_connection_types []) = [].
Proof. reflexivity. Qed.
Lemma docker_with_arguments `{PyLib} `{Environment} : get_packages (docker_connection_types ["all"]) = get_packages ["all"].
Proof. reflexivity. Qed.
