(* ===== verification/Controller.v ===== *)
(** * The transfer controller ([worker/controller.py])

    [get_handler] makes the handler of one side of a transfer from the stored
    connection, its credentials and the parameters of the transfer;
    [perform_transfer] connects both, reads and writes, with the high water mark of
    an incremental transfer.  [connection.data] is a dict the handlers' construction
    changes in place: it is the state of [get_handler], and it is shared when both
    sides are the same connection. *)

From S2P Require Import Prelude PyData Models Errors Search ConnectionSchemas TransferSchemas.
From S2P Require Import Repositories Settings Dto.
From S2P Require Import FilterExpressions FileNames Handlers ReadWrite Spark.

(** the settings the controller reads *)
Record WorkerAppSettings `{Engine} := mkWorkerAppSettings {
  create_spark_session_function : LoadedRun -> ConnectionDTO -> ConnectionDTO -> SE (list Call) exc unit;
  hwm_store : HWMStore;
}.
Arguments mkWorkerAppSettings {_} _ _.
Arguments create_spark_session_function {_} _ _ _ _.
Arguments hwm_store {_} _.

(** random names: of the directories [TemporaryDirectory] makes and the default
    names of the catalogs *)
Record Fresh := mkFresh {
  downloaded_dir : string;
  written_dir : string;
  source_catalog : string;
  target_catalog : string;
}.

Section Controller.
Context `{PyLib} `{Cipher} `{OneTLFormats}.

(** the handler, the connection and the transfer classes of a type; [catalog] is the
    default name of an Iceberg catalog *)
Definition connection_handler_proxy (catalog : string)
    : list (string * (HandlerClass * (dict -> result exc ConnectionDTO) * Dataclass Value)) :=
  [("hive", (HiveHandler, make HiveConnectionDTO, HiveTransferDTO));
   ("iceberg", (IcebergRESTCatalogS3Handler, get_iceberg_connection_dto, IcebergTransferDTO catalog));
   ("oracle", (OracleHandler, make OracleConnectionDTO, OracleTransferDTO));
   ("clickhouse", (ClickhouseHandler, make ClickhouseConnectionDTO, ClickhouseTransferDTO));
   ("mssql", (MSSQLHandler, make MSSQLConnectionDTO, MSSQLTransferDTO));
   ("mysql", (MySQLHandler, make MySQLConnectionDTO, MySQLTransferDTO));
   ("postgres", (PostgresHandler, make PostgresConnectionDTO, PostgresTransferDTO));
   ("s3", (S3Handler, make S3ConnectionDTO, S3TransferDTO));
   ("hdfs", (HDFSHandler, make HDFSConnectionDTO, HDFSTransferDTO));
   ("sftp", (SFTPHandler, make SFTPConnectionDTO, SFTPTransferDTO));
   ("ftp", (FTPHandler, make FTPConnectionDTO, FTPTransferDTO));
   ("ftps", (FTPSHandler, make FTPSConnectionDTO, FTPSTransferDTO));
   ("samba", (SambaHandler, make SambaConnectionDTO, SambaTransferDTO));
   ("webdav", (WebDAVHandler, make WebDAVConnectionDTO, WebDAVTransferDTO))].

(** [connection_handler_proxy.get(handler_type)]; a list or a dict is no key *)
Definition find_handler (catalog : string) (handler_type : option json)
    : result exc (HandlerClass * (dict -> result exc ConnectionDTO) * Dataclass Value) :=
  match handler_type with
  | Some (JStr t) => or_raise (dict_get t (connection_handler_proxy catalog)) ConnectionTypeNotRecognizedError
  | Some (JList _) | Some (JObj _) => Raise TypeError
  | _ => Raise ConnectionTypeNotRecognizedError
  end.

(** [f(k1=v1, ..., **params)]: a keyword given twice is an error *)
Definition merge_kwargs {V} (explicit params : list (string * V)) : result exc (list (string * V)) :=
  if existsb (fun kv => dict_mem kv.1 explicit) params then Raise TypeError else Ok (explicit ++ params).

(** [d.update(other)] and [d.pop(k)] on the state *)
Definition update_data (other : dict) : SE dict exc unit := fun d => (Ok tt, dict_update d other).
Definition pop_data (k : string) : SE dict exc unit := fun d =>
  if dict_mem k d then (Ok tt, dict_del k d) else (Raise (KeyError k), d).

Section GetHandler.
Context `{Engine}.

(** one side of a transfer: its random names, credentials and parameters *)
Record Side := mkSide {
  side_catalog : string;
  side_temp_dir : string;
  side_auth_data : dict;
  side_params : dict;
}.

Definition get_handler (side : Side) (run : RunDTO) (t : Transfer) (group : string) : SE dict exc Handler :=
  _ ← update_data (side_auth_data side);
  _ ← pop_data "type";
  let handler_type := dict_get "type" (side_params side) in
  let transfer_params := dict_del "type" (side_params side) in
  classes ← reads (fun _ => find_handler (side_catalog side) handler_type);
  let '(handler, new_connection, transfer_class) := classes in
  connection ← reads new_connection;
  transfer ← reads (fun _ =>
    strategy ← from_dict (strategy_params t);
    r ← make Resources (resources t);
    kwargs ← merge_kwargs
      [("id", Json (JInt (transfer_id t))); ("name", Json (JStr (transfer_name t)));
       ("group_name", Json (JStr group)); ("strategy", StrategyObj strategy);
       ("resources", ResourcesObj r);
       ("transformations", Json (JList (JObj <$> transformations t)))]
      ((fun kv => (kv.1, Json kv.2)) <$> transfer_params);
    make_transfer transfer_class kwargs);
  mret (mkHandler handler connection transfer run (side_temp_dir side) None).

(** ** [TransferController] *)

Record TransferController := mkTransferController {
  source_handler : Handler;
  target_handler : Handler;
}.

(** [__init__]; the second [get_handler] finds the dict of the first when the
    two connections are one row, hence one object *)
Definition init (run : LoadedRun) (source_auth_data target_auth_data : dict) (names : Fresh)
    : result exc TransferController :=
  let t := lr_transfer run in
  let source := lr_source_connection run in
  let target := lr_target_connection run in
  let run_data := mkRunDTO (run_id (lr_run run)) (run_created_at (lr_run run)) in
  let group := group_name (lr_group run) in
  match get_handler (mkSide (source_catalog names) (downloaded_dir names) source_auth_data (source_params t))
          run_data t group (conn_data source) with
  | (Raise e, _) => Raise e
  | (Ok source_handler, source_data) =>
      let target_data := if conn_id source =? conn_id target then source_data else conn_data target in
      target_handler ←
        outcome (get_handler (mkSide (target_catalog names) (written_dir names) target_auth_data
                                (target_params t)) run_data t group) target_data;
      Ok (mkTransferController source_handler target_handler)
  end.
End GetHandler.

(** ** Running the transfer *)

Section Perform.
Context `{Answers}.

Definition _get_transfer_hwm_name (source : Handler) : result exc string :=
  let dto := transfer_dto source in
  suffix ← json_attr (if instance_of dto "FileTransferDTO" then "directory_path" else "table_name") dto;
  id ← json_attr "id" dto;
  match suffix with
  | JStr s => Ok (String.concat "_" [py_str id; dto_type (connection_dto source); s])
  | _ => Raise TypeError                                         (* [str.join] *)
  end.

Definition _get_hwm_store (store : HWMStore) : Worker unit :=
  call done_ (OpenHWMStore (hwm_url store) (hwm_user store) (hwm_password store) (hwm_namespace store)).
(** the [with] statement over the store *)
Definition with_hwm_store {A} (store : HWMStore) (body : Worker A) : Worker A :=
  _ ← _get_hwm_store store;
  finally_ body (call done_ CloseHWMStore).

Definition _perform_incremental_transfer (store : HWMStore) (c : TransferController) : Worker unit :=
  with_hwm_store store (
    _ ← call done_ EnterIncrementalStrategy;
    with_exit (
      hwm_name ← pure (_get_transfer_hwm_name (source_handler c));
      hwm ← call mark (GetHWM hwm_name);
      df ← read (with_hwm hwm (source_handler c));
      write (with_hwm hwm (target_handler c)) df)
    (fun failed => call done_ (ExitIncrementalStrategy failed))).

Definition _reset_transfer_hwm (store : HWMStore) (c : TransferController) : Worker unit :=
  with_hwm_store store (
    hwm_name ← pure (_get_transfer_hwm_name (source_handler c));
    hwm ← call mark (GetHWM hwm_name);
    match hwm with
    | Some v => if hwm_value v then _ ← call done_ (ResetHWM v); call done_ (SetHWM v) else mret tt
    | None => mret tt
    end).

Definition session_body (settings : WorkerAppSettings) (c : TransferController) : Worker unit :=
  _ ← connect (source_handler c);
  _ ← connect (target_handler c);
  strategy ← pure (strategy_attr (transfer_dto (source_handler c)));
  if json_eqb (strategy_type strategy) (JStr "incremental") then _perform_incremental_transfer (hwm_store settings) c
  else
    _ ← (if json_eqb (strategy_type strategy) (JStr "full") && hwm_enabled (hwm_store settings)
         then _reset_transfer_hwm (hwm_store settings) c else mret tt);
    df ← read (source_handler c);
    write (target_handler c) df.

Definition perform_transfer (settings : WorkerAppSettings) (run : LoadedRun) (c : TransferController)
    : Worker unit :=
  finally_
    (_ ← create_spark_session_function settings run (connection_dto (source_handler c))
           (connection_dto (target_handler c));
     finally_ (session_body settings c) (call done_ StopSpark))
    (call done_ CleanupTempDir).
End Perform.
End Controller.
