(* ===== verification/RunTask.v ===== *)
(** * The task of the worker ([worker/transfer.py])

    [begin_run] is the first session of [run_transfer]: it takes a run that is
    CREATED, loads what the controller needs and marks the run STARTED.  [execute]
    makes the controller and performs the transfer; it holds no session.
    [finish_run] is the last session, which stores the outcome.  [run_transfer] puts
    them together for a worker nobody interrupts; [RunLifecycle] has the steps of
    several workers, the server and the scheduler interleaved.  The text of the log
    URL (jinja2) is the parameter [LogUrl]. *)

From S2P Require Import Prelude PyData Models Errors Database Integrity Search Repository.
From S2P Require Import ConnectionSchemas TransferSchemas Repositories Dto.
From S2P Require Import FilterExpressions FileNames Handlers ReadWrite Spark Controller.

(** [Template(settings.worker.log_url_template).render(run=run, ...)] *)
Class LogUrl := { render_log_url : Run -> result exc string }.

Section RunTask.
Context `{Cipher} `{LogUrl}.

(** ** The first session *)

(** [select(Run).where(Run.id == run_id, Run.status == Status.CREATED)] *)
Definition select_created (run_id : Z) : M (option Run) :=
  run ← select_by_key run_id;
  mret (match run with
        | Some r => if bool_decide (run_status r = CREATED) then Some r else None
        | None => None
        end).

(** a relationship [selectinload] loads; the code reads an attribute of it *)
Definition related {K R} `{Table K R} (k : K) : M R :=
  r ← select_by_key k;
  match r with Some r => mret r | None => raise AttributeError end.

(** [session.scalars(select(AuthData).where(...)).one()], decrypted *)
Definition load_auth_data (connection_id : Z) : M json :=
  row ← select_one (R := AuthData) connection_id;
  reads (fun _ => decrypt_auth_data (auth_value row)).

Definition set_started (started_at : Z) (r : Run) : Run :=
  mkRun (run_id r) (run_transfer_id r) (Some started_at) (run_ended_at r) STARTED (run_type r)
    (run_log_url r) (run_transfer_dump r) (run_created_at r) (run_updated_at r).
Definition set_log_url (url : string) (r : Run) : Run :=
  mkRun (run_id r) (run_transfer_id r) (run_started_at r) (run_ended_at r) (run_status r) (run_type r)
    (Some url) (run_transfer_dump r) (run_created_at r) (run_updated_at r).

(** [commit] writes the columns of an object that were changed, to the row as it is by
    then; nothing holds the row between the SELECT and this UPDATE *)
Definition flush (changes : Run -> Run) (r : Run) : M Run :=
  o ← update_row (run_id r) changes;
  match o with
  | Some _ => at_ ← now; mret (touch at_ (changes r))
  | None => raise SyncmasterError      (* [StaleDataError]: no row was matched *)
  end.

(** what the worker holds of a run it read *)
Record Taken := mkTaken {
  taken_run : LoadedRun;
  taken_source_auth : json;
  taken_target_auth : json;
}.

(** the statements that read, up to the log message "Starting run" *)
Definition read_created (run_id : Z) : M (option Taken) :=
  run ← select_created run_id;
  match run with
  | None => mret None
  | Some run =>
      transfer ← related (R := Transfer) (run_transfer_id run);
      group ← related (R := Group) (transfer_group_id transfer);
      source_connection ← related (R := Connection) (source_connection_id transfer);
      source_auth_data ← load_auth_data (conn_id source_connection);
      target_connection ← related (R := Connection) (target_connection_id transfer);
      target_auth_data ← load_auth_data (conn_id target_connection);
      mret (Some (mkTaken (mkLoadedRun run transfer group source_connection target_connection)
                    source_auth_data target_auth_data))
  end.

(** the assignments to the run the session holds, and the flush of [commit] *)
Definition mark_started (t : Taken) : M Taken :=
  let '(mkLoadedRun run transfer group source_connection target_connection) := taken_run t in
  started_at ← now;
  log_url ← reads (fun _ => render_log_url (set_started started_at run));
  run ← flush (fun r => set_log_url log_url (set_started started_at r)) run;
  mret (mkTaken (mkLoadedRun run transfer group source_connection target_connection)
          (taken_source_auth t) (taken_target_auth t)).

Definition begin_body (run_id : Z) : M (option Taken) :=
  run ← read_created run_id;
  match run with
  | None => mret None
  | Some t => t ← mark_started t; mret (Some t)
  end.
Definition begin_run (run_id : Z) : M (option Taken) := unit_of_work (begin_body run_id).

(** ** The last session *)

Definition set_ended (status : Status) (ended_at : Z) (r : Run) : Run :=
  mkRun (run_id r) (run_transfer_id r) (run_started_at r) (Some ended_at) status (run_type r)
    (run_log_url r) (run_transfer_dump r) (run_created_at r) (run_updated_at r).

Definition finish_body (run_id : Z) (status : Status) : M unit :=
  run ← select_by_key run_id;
  match run with
  | Some run =>
      ended_at ← now;
      _ ← flush (set_ended status ended_at) run;
      mret tt
  | None => mret tt
  end.
Definition finish_run (run_id : Z) (status : Status) : M unit := unit_of_work (finish_body run_id status).

Definition final_status {A} (r : result exc A) : Status :=
  match r with Ok _ => FINISHED | Raise _ => FAILED end.
End RunTask.

(** ** The whole task *)

Section Execute.
Context `{PyLib} `{Cipher} `{OneTLFormats} `{LogUrl} `{Answers}.

(** credentials are dicts; [update] takes nothing else *)
Definition as_dict (j : json) : result exc dict := match j with JObj d => Ok d | _ => Raise TypeError end.

Definition execute (settings : WorkerAppSettings) (names : Fresh) (t : Taken) : Worker unit :=
  controller ← pure (
    source ← as_dict (taken_source_auth t);
    target ← as_dict (taken_target_auth t);
    init (taken_run t) source target names);
  perform_transfer settings (taken_run t) controller.

(** [run_transfer]; [e] is raised again after the outcome is stored *)
Definition run_transfer (settings : WorkerAppSettings) (names : Fresh) (run_id : Z) : M unit := fun s =>
  match begin_run run_id s with
  | (Ok None, s1) => (Ok tt, s1)
  | (Ok (Some t), s1) =>
      let r := outcome (execute settings names t) [] in
      (_ ← finish_run run_id (final_status r); reads (fun _ => r)) s1
  | (Raise e, s1) => (_ ← finish_run run_id FAILED; raise e) s1
  end.
End Execute.
