(* ===== verification/RunLifecycle.v ===== *)
(** * The life of a run

    [tracked n0 db0] relates a database to an earlier one: the runs of both have
    advanced, the runs that are new have new ids.  Every statement the server, the
    scheduler and the workers make on runs keeps it.  [System] puts the three
    together: requests, jobs that fire, and workers whose tasks are between their
    first and their last session. *)

From S2P Require Import Prelude PyData Models Errors Database Integrity Search Repository.
From S2P Require Import Repositories RepositoryFacts Pydantic ConnectionSchemas TransferSchemas.
From S2P Require Import Auth ApiGroups ApiQueues ApiConnections ApiTransfers ApiRuns Server.
From S2P Require Import ServerFacts Deletion Scheduler Spark RunTask.

(** ** Runs advance *)

Definition rank (s : Status) : Z :=
  match s with CREATED => 0 | STARTED => 1 | SEND_STOP_SIGNAL => 2 | FAILED | STOPPED | FINISHED => 3 end.

(** [r] is [r0] at a later time *)
Record run_le (r0 r : Run) : Prop := mkRunLe {
  le_id : run_id r = run_id r0;
  le_transfer : run_transfer_id r = run_transfer_id r0;
  le_type : run_type r = run_type r0;
  le_dump : run_transfer_dump r = run_transfer_dump r0;
  le_created : run_created_at r = run_created_at r0;
  le_rank : rank (run_status r0) <= rank (run_status r);
  le_started : run_status r0 <> CREATED -> run_started_at r = run_started_at r0;
}.

#[export] Instance run_le_refl : Reflexive run_le.
Proof. by constructor. Qed.
Lemma rank_created s : rank s <= 0 -> s = CREATED.
Proof. by destruct s. Qed.
#[export] Instance run_le_trans : Transitive run_le.
Proof.
  intros r1 r2 r3 [] []. constructor; [congruence..|lia|]. intros Hn. rewrite le_started1; [by apply le_started0|].
  intros Hc. apply Hn, rank_created. by rewrite Hc in le_rank0.
Qed.

(** what holds of every stored run, [n] being the next id *)
Record run_ok (n i : Z) (r : Run) : Prop := mkRunOk {
  ok_id : run_id r = i;
  ok_below : i < n;
  ok_not_stopped : run_status r <> STOPPED;
  ok_created : run_status r = CREATED -> run_started_at r = None /\ run_ended_at r = None;
  ok_started : run_status r = STARTED -> is_Some (run_started_at r) /\ run_ended_at r = None;
  ok_stopping : run_status r = SEND_STOP_SIGNAL -> run_ended_at r = None;
  ok_finished : run_status r = FINISHED -> is_Some (run_started_at r) /\ is_Some (run_ended_at r);
}.

Lemma run_ok_mono n n' i r : n <= n' -> run_ok n i r -> run_ok n' i r.
Proof. intros Hn []. constructor; [done|lia|done..]. Qed.

(** [r] is a run of [db0] that advanced, or a new one *)
Definition comes_from (n0 : Z) (db0 : DB) (i : Z) (r : Run) : Prop :=
  match runs db0 !! i with Some r0 => run_le r0 r | None => n0 <= i end.
Definition tracked_db (n0 : Z) (db0 : DB) (n : Z) (db : DB) : Prop :=
  map_Forall (fun i r => run_ok n i r /\ comes_from n0 db0 i r) (runs db).
Definition tracked (n0 : Z) (db0 : DB) (s : Session) : Prop :=
  n0 <= seqs s SeqRun /\ tracked_db n0 db0 (seqs s SeqRun) (committed s) /\
  tracked_db n0 db0 (seqs s SeqRun) (working s).

(** a statement on another table *)
Class NoRuns (R : Type) {K} `{Table K R} := no_runs : forall (m : gmap K R) db, runs (with_tbl m db) = runs db.
#[export] Instance NoRunsUser : NoRuns User. Proof. done. Qed.
#[export] Instance NoRunsGroup : NoRuns Group. Proof. done. Qed.
#[export] Instance NoRunsUserGroup : NoRuns UserGroup. Proof. done. Qed.
#[export] Instance NoRunsConnection : NoRuns Connection. Proof. done. Qed.
#[export] Instance NoRunsAuthData : NoRuns AuthData. Proof. done. Qed.
#[export] Instance NoRunsQueue : NoRuns Queue. Proof. done. Qed.
#[export] Instance NoRunsTransfer : NoRuns Transfer. Proof. done. Qed.

Section Tracked.
Context (n0 : Z) (db0 : DB).
Notation P := (tracked n0 db0).

Lemma tracked_mono n n' db : n <= n' -> tracked_db n0 db0 n db -> tracked_db n0 db0 n' db.
Proof. intros Hn Ht i r Hi. destruct (Ht i r Hi). split; [by eapply run_ok_mono|done]. Qed.
Lemma tracked_sub n db db' : runs db' ⊆ runs db -> tracked_db n0 db0 n db -> tracked_db n0 db0 n db'.
Proof. intros Hs Ht i r Hi. apply Ht. by eapply lookup_weaken. Qed.
Lemma tracked_cascade n db : tracked_db n0 db0 n db -> tracked_db n0 db0 n (cascade db).
Proof. apply tracked_sub. by destruct (cascade_sub db) as (?&?&?&?&?&?&?&?). Qed.

#[export] Instance tracked_keeps_session : KeepsSession P.
Proof.
  constructor; [|by intros s (?&?&?)|by intros s (?&?&?)].
  intros q s (Hn & Hc & Hw). unfold final, nextval. cbn.
  split_and!; cbn; [case_decide; subst; lia|eapply tracked_mono; [|done]; case_decide; subst; lia..].
Qed.

#[export] Instance tracked_keeps_table {K R} `{NoRuns R (K := K)} : KeepsTable P R.
Proof.
  assert (forall n m db, tracked_db n0 db0 n db -> tracked_db n0 db0 n (with_tbl (R := R) m db)) as Hin.
  { intros n m db. unfold tracked_db. by rewrite no_runs. }
  constructor; [intros r s (?&?&?)|intros k f _ s (?&?&?)|intros k s (?&?&?)];
    unfold final, insert_row, update_row, delete_row; repeat case_match;
    (split; [|split]); cbn [committed working seqs set_working snd]; auto using tracked_cascade.
Qed.

(** an update of a run that advances it *)
Lemma tracked_update (i : Z) (f : Run -> Run) s : P s ->
  (forall r, runs (working s) !! i = Some r -> run_ok (seqs s SeqRun) i r ->
    run_le r (f r) /\ run_ok (seqs s SeqRun) i (f r)) ->
  P (final (update_row i f) s).
Proof.
  intros (Hn & Hc & Hw) Hf. unfold final, update_row. cbn [tbl RunTable].
  destruct (runs (working s) !! i) as [r|] eqn:Hi; [|done].
  destruct (Hw i r Hi) as [Hok Hfrom]. destruct (Hf r eq_refl Hok) as [Hle Hok'].
  destruct (check_row _ _); [|done]. split_and!; [done..|].
  intros j r'. cbn. rewrite lookup_insert. case_decide as Hd; [subst j|apply Hw]. intros [= <-]. split.
  - by destruct Hok'.
  - unfold comes_from in *. destruct (runs db0 !! i) as [r0|]; [|done].
    etrans; [exact Hfrom|]. etrans; [exact Hle|]. by constructor.
Qed.

(** the ids of [db0] were given out before *)
Context (Hbelow : map_Forall (fun i _ => i < n0) (runs db0)).

Lemma tracked_create t a b k : preserves P (RunRepository.create t a b k).
Proof.
  unfold RunRepository.create. apply preserves_bind; [apply read_only_preserves, run_serialized_ro|].
  intros dump. apply preserves_bind; [apply preserves_gets|]. intros at_.
  apply except_integrity_wf. intros s Hs. unfold insert_new, final. rewrite bind_run.
  pose proof (keeps_nextval SeqRun s Hs) as Hs1. unfold final, nextval in *. cbn [snd] in *.
  set (s1 := mkSession _ _ _ _) in *. destruct Hs as (Hn & _). destruct Hs1 as (Hn1 & Hc1 & Hw1).
  unfold insert_row. repeat case_match; cbn [snd]; try done. split_and!; [done..|].
  intros j r'. cbn. rewrite lookup_insert. case_decide as Hd; [subst j|apply Hw1]. intros [= <-]. split.
  - rewrite decide_True by done. constructor; cbn; try done. lia.
  - unfold comes_from. destruct (runs db0 !! _) as [r0|] eqn:Hr0; [|done]. apply Hbelow in Hr0. lia.
Qed.

Lemma rank_le_3 s : rank s <= 3. Proof. by destruct s. Qed.

Lemma tracked_fail i : preserves P (RunRepository.update i FAILED).
Proof.
  apply except_integrity_wf, preserves_bind.
  - intros s Hs. apply tracked_update; [done|]. intros r _ []. split; constructor; cbn; try done. apply rank_le_3.
  - intros []; [apply preserves_ret|apply preserves_raise].
Qed.

Lemma tracked_stop i : preserves P (RunRepository.stop i).
Proof.
  intros s Hs. unfold RunRepository.stop, final. rewrite bind_run.
  unfold RunRepository.read_by_id. rewrite bind_run. cbn -[update_row].
  destruct (runs (working s) !! i) as [r|] eqn:Hi; [|done]. cbn -[update_row]. rewrite bind_run.
  destruct (bool_decide _) eqn:Hst; [|done]. apply bool_decide_eq_true in Hst. cbn -[update_row].
  unfold _update. rewrite bind_run.
  assert (P (final (update_row i (RunRepository.set_status SEND_STOP_SIGNAL)) s)) as Hp.
  { apply tracked_update; [done|]. intros r' Hi'. rewrite Hi in Hi'. injection Hi' as <-. intros [].
    assert (run_status r = CREATED \/ run_status r = STARTED) as Hcs by set_solver.
    split; constructor; cbn; try done; destruct Hcs as [Hcs|Hcs]; first [rewrite Hcs; cbn; lia|intuition]. }
  unfold final in Hp. by destruct (update_row i _ s) as [[[]|] s'].
Qed.
End Tracked.

(** ** The endpoints and the jobs

    A predicate the statements on users, groups and queues keep is kept by every
    request of a set, when the endpoints of connections, transfers and runs keep it
    for the requests of the set.  With a predicate the statements on connections and
    transfers keep as well, starting and stopping a run are all that is left. *)

Definition writes_rows (e : Endpoint) : bool :=
  match e with
  | CreateConnection _ | UpdateConnection _ _ | DeleteConnection _ | CopyConnection _ _
  | CreateTransfer _ | UpdateTransfer _ _ | DeleteTransfer _ | CopyTransferTo _ _
  | StartRun _ | StopRun _ => true
  | _ => false
  end.

Section Requests.
Context `{TextSearch} `{Cipher} `{PydanticCore} `{PyLib} `{Broker} `{AuthProviderLaws}.
Context (P : Session -> Prop) `{!KeepsSession P, !KeepsTable P User, !KeepsTable P Group, !KeepsTable P UserGroup,
  !KeepsTable P Queue}.

Section Sent.
Context (sent : Endpoint -> Prop).
Context (Hrest : forall e u, sent e -> writes_rows e = true -> preserves P (dispatch e u)).

Lemma group_endpoints_keep e u : writes_groups e = true -> preserves P (dispatch e u).
Proof using Type*.
  destruct e; cbn [writes_groups dispatch]; intros Hw; try discriminate Hw; apply reply_keeps;
    unfold create_group, update_group, update_group_body, delete_group, update_user_role_group,
      add_user_to_group, delete_user_from_group; solve_se.
Qed.
Lemma all_endpoints_keep e u : sent e -> preserves P (dispatch e u).
Proof using Type*.
  intros Hsent. destruct (writes_rows e) eqn:Hr; [by apply Hrest|].
  destruct (writes_groups e) eqn:Hg; [by apply group_endpoints_keep|]. clear Hrest Hsent. revert Hg Hr.
  destruct e; cbn [writes_groups writes_rows dispatch]; intros Hg Hr; try discriminate;
    apply reply_keeps; try solve [eauto 2 with se nocore].
  all: unfold read_groups, read_group, read_group_users, read_user, read_queues, read_queue,
    read_connections, read_transfers, read_transfer, read_runs, read_run, lift; solve_se.
Qed.

Lemma requests_keep e token s : sent e -> P s -> P (serve e token s).2.
Proof using Type*.
  intros Hsent Hs. unfold serve. assert (preserves P (endpoint e token)) as He.
  { unfold endpoint. apply preserves_bind; [apply get_user_keeps; apply _|]. intros u.
    destruct (request_valid e); [by apply all_endpoints_keep|apply preserves_raise]. }
  specialize (He s Hs). unfold final in He. destruct (endpoint e token s) as [[r|x] s1]; by apply keeps_rollback.
Qed.

Context (Htick : forall s t, P s -> P (mkSession (committed s) (working s) (seqs s) t)).
Lemma server_steps_keep s s' : server_step_of sent s s' -> P s -> P s'.
Proof using Type*.
  intros [] Hs.
  - by apply requests_keep.
  - apply keeps_rollback. by apply get_or_create_keeps; [apply _..|].
  - apply keeps_rollback. apply keeps_unit_of_work; [apply _| |done]. apply superusers_keeps; apply _.
  - by apply Htick.
Qed.
End Sent.

Context `{!KeepsTable P Connection, !KeepsTable P AuthData, !KeepsTable P Transfer}.
Context (Hstart : forall t u, preserves P (start_run t u)) (Hstop : forall i u, preserves P (stop_run i u)).
Lemma server_keeps s s' : (forall s t, P s -> P (mkSession (committed s) (working s) (seqs s) t)) ->
  server_step s s' -> P s -> P s'.
Proof using Type*.
  intros Ht. apply server_steps_keep; [|exact Ht]. intros e u _.
  destruct e; cbn [writes_rows dispatch]; intros Hr; try discriminate Hr; apply reply_keeps;
    first [apply Hstart|apply Hstop|solve [eauto 2 with se nocore]].
Qed.
End Requests.

Section Endpoints.
Context `{TextSearch} `{Cipher} `{PydanticCore} `{PyLib} `{Broker} `{AuthProviderLaws}.
Context (n0 : Z) (db0 : DB) (Hbelow : map_Forall (fun i _ => i < n0) (runs db0)).
Notation P := (tracked n0 db0).
#[local] Hint Resolve tracked_create tracked_fail tracked_stop : se.

Lemma tracked_start_run t u : preserves P (start_run t u).
Proof. unfold start_run, create_run_body, send_run. solve_se. Qed.
Lemma tracked_stop_run i u : preserves P (stop_run i u).
Proof. unfold stop_run. solve_se. Qed.
Lemma tracked_send_job i : preserves P (send_job_to_celery i).
Proof. unfold send_job_to_celery, create_scheduled_run, send_scheduled_run, transfer_queue. solve_se. Qed.
Lemma tracked_server_step s s' : server_step s s' -> P s -> P s'.
Proof. apply server_keeps; [apply _..|apply tracked_start_run|apply tracked_stop_run|by intros ?? []]. Qed.
End Endpoints.

(** ** The sessions of a worker *)

Section Worker.
Context `{Cipher} `{LogUrl}.

Lemma related_ro {K R} `{Table K R} k : read_only (related (R := R) k).
Proof. apply read_only_bind; [done|]. intros []; done. Qed.
Lemma load_auth_data_ro i : read_only (load_auth_data i).
Proof. apply read_only_bind; [|done]. apply read_only_bind; [done|]. by intros []. Qed.

Lemma flush_ok f r r' s s' : flush f r s = (Ok r', s') ->
  exists r0, runs (working s) !! run_id r = Some r0 /\ let r1 := touch (clock s) (f r0) in
  r' = touch (clock s) (f r) /\ check_row (working s) r1 = Ok tt /\ committed s' = committed s /\
  clock s' = clock s /\ seqs s' = seqs s /\
  working s' = with_tbl (<[run_id r := r1]> (runs (working s))) (working s).
Proof.
  unfold flush. intros Hf. apply bind_ok in Hf as (o & s1 & Hu & Hf). unfold update_row in Hu. cbn [tbl RunTable] in Hu.
  destruct (runs (working s) !! run_id r) as [r0|] eqn:Hr; [|injection Hu as <- <-; done]. exists r0. split; [done|].
  destruct (check_row _ _) as [[]|] eqn:Hchk; [|done]. injection Hu as <- <-.
  apply bind_ok in Hf as (at_ & s1 & Hat & Hf). apply gets_ok in Hat as [-> ->].
  apply mret_ok in Hf as [-> ->]. by split_and!.
Qed.
(** whatever a flush keeps depends on the row it writes only *)
Lemma flush_preserves (P : Session -> Prop) f r : (forall s, P s -> P (final (update_row (run_id r) f) s)) ->
  preserves P (flush f r).
Proof.
  intros Hu. apply preserves_bind; [exact Hu|]. intros []; [|apply preserves_raise].
  apply preserves_bind; [apply preserves_gets|]. intros ?. apply preserves_ret.
Qed.

Definition loaded_auth (db : DB) (i : Z) (v : json) : Prop :=
  exists a, auth_data db !! i = Some a /\ decrypt_auth_data (auth_value a) = Ok v.
Lemma load_auth_ok i v s s' : load_auth_data i s = (Ok v, s') -> s' = s /\ loaded_auth (working s) i v.
Proof.
  unfold load_auth_data. intros Hl. apply bind_ok in Hl as (a & s1 & Ha & Hl). apply select_one_ok in Ha as [Ha ->].
  apply reads_ok in Hl as [Hv ->]. split; [done|]. by exists a.
Qed.

Lemma read_created_ro i : read_only (read_created i).
Proof.
  apply read_only_bind; [done|]. intros [r|]; [|done].
  repeat (apply read_only_bind; [first [apply related_ro|apply load_auth_data_ro]|intros ?]). done.
Qed.

(** what the reading half found: a CREATED run with all that belongs to it *)
Definition found_created (db : DB) (i : Z) (t : Taken) (r : Run) : Prop :=
  exists tr g cs ct,
    runs db !! i = Some r /\ run_status r = CREATED /\ taken_run t = mkLoadedRun r tr g cs ct /\
    transfers db !! run_transfer_id r = Some tr /\ groups db !! transfer_group_id tr = Some g /\
    connections db !! source_connection_id tr = Some cs /\ connections db !! target_connection_id tr = Some ct /\
    loaded_auth db (conn_id cs) (taken_source_auth t) /\ loaded_auth db (conn_id ct) (taken_target_auth t).
Lemma read_created_ok i t s s' : read_created i s = (Ok (Some t), s') ->
  s' = s /\ exists r, found_created (working s) i t r.
Proof.
  intros Hb. unfold read_created in Hb. apply bind_ok in Hb as (o & s1 & Ho & Hb).
  unfold select_created in Ho. rewrite bind_run in Ho. cbn in Ho. injection Ho as Ho <-.
  destruct (runs (working s) !! i) as [r|] eqn:Hr; [|subst o; by injection Hb as ? ?].
  destruct (bool_decide (run_status r = CREATED)) eqn:Hc; [|subst o; by injection Hb as ? ?].
  apply bool_decide_eq_true in Hc. subst o.
  assert (forall K R `{Table K R} (k : K) (x : R) s0 s1, related k s0 = (Ok x, s1) ->
    s1 = s0 /\ tbl (working s0) !! k = Some x) as Hrel.
  { intros K R EK CK T k x s0 s1 Hx. unfold related in Hx. rewrite bind_run in Hx. cbn in Hx.
    destruct (tbl (working s0) !! k); [|done]. by injection Hx as -> ->. }
  apply bind_ok in Hb as (tr & s1 & Htr & Hb). apply Hrel in Htr as [-> Htr].
  apply bind_ok in Hb as (g & s1 & Hg & Hb). apply Hrel in Hg as [-> Hg].
  apply bind_ok in Hb as (cs & s1 & Hcs & Hb). apply Hrel in Hcs as [-> Hcs].
  apply bind_ok in Hb as (sa & s1 & Hsa & Hb). apply load_auth_ok in Hsa as [-> Hsa].
  apply bind_ok in Hb as (ct & s1 & Hct & Hb). apply Hrel in Hct as [-> Hct].
  apply bind_ok in Hb as (ta & s1 & Hta & Hb). apply load_auth_ok in Hta as [-> Hta].
  apply mret_ok in Hb as [Hb ->]. injection Hb as ->. split; [done|]. exists r, tr, g, cs, ct. by split_and!.
Qed.
(** nothing to do: the run is not there, or no longer CREATED *)
Lemma read_created_none i s s' : read_created i s = (Ok None, s') ->
  s' = s /\ forall r, runs (working s) !! i = Some r -> run_status r <> CREATED.
Proof.
  intros Hb. unfold read_created in Hb. apply bind_ok in Hb as (o & s1 & Ho & Hb).
  unfold select_created in Ho. rewrite bind_run in Ho. cbn in Ho. injection Ho as Ho <-. destruct o as [r|].
  - do 6 (apply bind_ok in Hb as (? & ? & _ & Hb)). apply mret_ok in Hb as [Hb _]. done.
  - apply mret_ok in Hb as [_ ->]. split; [done|]. intros r Hr Hc. rewrite Hr in Ho.
    by rewrite bool_decide_true in Ho.
Qed.
Lemma read_created_not i s : (forall r, runs (working s) !! i = Some r -> run_status r <> CREATED) ->
  read_created i s = (Ok None, s).
Proof.
  intros Hn. unfold read_created, select_created. rewrite !bind_run. cbn -[related].
  destruct (runs (working s) !! i) as [r|]; [|done]. by rewrite bool_decide_false by (by apply Hn).
Qed.

(** the writing half stores what it was given, whatever the row has become *)
Lemma mark_started_ok t t' s s' r tr g cs ct : taken_run t = mkLoadedRun r tr g cs ct ->
  mark_started t s = (Ok t', s') ->
  exists r0 url, runs (working s) !! run_id r = Some r0 /\ render_log_url (set_started (clock s) r) = Ok url /\
    t' = mkTaken (mkLoadedRun (touch (clock s) (set_log_url url (set_started (clock s) r))) tr g cs ct)
           (taken_source_auth t) (taken_target_auth t) /\
    check_row (working s) (touch (clock s) (set_log_url url (set_started (clock s) r0))) = Ok tt /\
    committed s' = committed s /\ clock s' = clock s /\ seqs s' = seqs s /\
    working s' = with_tbl (<[run_id r := touch (clock s) (set_log_url url (set_started (clock s) r0))]>
      (runs (working s))) (working s).
Proof.
  intros Ht Hb. unfold mark_started in Hb. rewrite Ht in Hb.
  apply bind_ok in Hb as (at_ & s1 & Hat & Hb). apply gets_ok in Hat as [-> ->].
  apply bind_ok in Hb as (url & s1 & Hurl & Hb). apply reads_ok in Hurl as [Hurl ->].
  apply bind_ok in Hb as (r' & s1 & Hf & Hb). apply flush_ok in Hf as (r0 & Hr0 & -> & Hs & Hcom & Hclk & Hseq & Hw).
  apply mret_ok in Hb as [-> ->]. exists r0, url. by split_and!.
Qed.
Lemma mark_started_preserves (P : Session -> Prop) t :
  (forall url at_ s, P s ->
    P (final (update_row (run_id (lr_run (taken_run t))) (fun r => set_log_url url (set_started at_ r))) s)) ->
  preserves P (mark_started t).
Proof.
  intros Hu. unfold mark_started. destruct (taken_run t) as [r tr g cs ct].
  apply preserves_bind; [apply preserves_gets|]. intros at_. apply preserves_bind; [apply preserves_reads|]. intros url.
  apply preserves_bind; [|intros ?; apply preserves_ret]. apply flush_preserves. intros s. apply Hu.
Qed.

(** a run that is taken was CREATED and is now STARTED *)
Lemma begin_body_ok i t s s' : (forall r, runs (working s) !! i = Some r -> run_id r = i) ->
  begin_body i s = (Ok (Some t), s') ->
  exists r url tr g cs ct,
    runs (working s) !! i = Some r /\ run_status r = CREATED /\
    render_log_url (set_started (clock s) r) = Ok url /\
    transfers (working s) !! run_transfer_id r = Some tr /\
    groups (working s) !! transfer_group_id tr = Some g /\
    connections (working s) !! source_connection_id tr = Some cs /\
    connections (working s) !! target_connection_id tr = Some ct /\
    let r' := touch (clock s) (set_log_url url (set_started (clock s) r)) in
    taken_run t = mkLoadedRun r' tr g cs ct /\
    check_row (working s) r' = Ok tt /\ committed s' = committed s /\ clock s' = clock s /\
    seqs s' = seqs s /\
    working s' = with_tbl (<[run_id r := r']> (runs (working s))) (working s) /\
    loaded_auth (working s) (conn_id cs) (taken_source_auth t) /\
    loaded_auth (working s) (conn_id ct) (taken_target_auth t).
Proof.
  intros Hid Hb. unfold begin_body in Hb. apply bind_ok in Hb as ([t0|] & s1 & Ho & Hb); [|done].
  apply read_created_ok in Ho as [-> (r & tr & g & cs & ct & Hr & Hc & Ht & Htr & Hg & Hcs & Hct & Hsa & Hta)].
  apply bind_ok in Hb as (t' & s1 & Hm & Hb). apply mret_ok in Hb as [[= ->] ->].
  apply (mark_started_ok _ _ _ _ _ _ _ _ _ Ht) in Hm as (r0 & url & Hr0 & Hurl & -> & Hs & Hcom & Hclk & Hseq & Hw).
  rewrite (Hid r Hr), Hr in Hr0. injection Hr0 as <-. exists r, url, tr, g, cs, ct. by split_and!.
Qed.
Lemma begin_body_none i s s' : begin_body i s = (Ok None, s') ->
  s' = s /\ forall r, runs (working s) !! i = Some r -> run_status r <> CREATED.
Proof.
  intros Hb. unfold begin_body in Hb. apply bind_ok in Hb as ([t|] & s1 & Ho & Hb).
  - apply bind_ok in Hb as (? & ? & _ & Hb). by apply mret_ok in Hb as [Hb _].
  - apply mret_ok in Hb as [_ ->]. by apply read_created_none.
Qed.
(** whatever reading keeps and marking keeps, the session keeps *)
Lemma begin_body_preserves (P : Session -> Prop) i :
  (forall t r s, found_created (working s) i t r -> P s -> P (final (mark_started t) s)) -> preserves P (begin_body i).
Proof.
  intros Hm s Hs. unfold begin_body, final. rewrite bind_run.
  destruct (read_created i s) as [[[t|]|e] s1] eqn:Hr.
  - apply read_created_ok in Hr as [-> [r Hr]]. rewrite bind_run. specialize (Hm t r s Hr Hs). unfold final in Hm.
    by destruct (mark_started t s) as [[]].
  - apply read_created_none in Hr as [-> _]. done.
  - by apply read_only_run in Hr; [subst s1|apply read_created_ro].
Qed.

(** the time and what is committed, until the commit *)
Lemma begin_body_frame i s : committed (final (begin_body i) s) = committed s /\ clock (final (begin_body i) s) = clock s.
Proof.
  set (P := fun s' => committed s' = committed s /\ clock s' = clock s).
  assert (preserves P (begin_body i)) as Hp; [|by apply Hp].
  apply begin_body_preserves. intros t r s0 _. revert s0. apply mark_started_preserves.
  intros url at_ s0 [? ?]. unfold final, update_row. repeat case_match; by split.
Qed.

Context (n0 : Z) (db0 : DB).
Notation P := (tracked n0 db0).

(** a write over a run that advances it *)
Lemma tracked_flush f r s : P s ->
  (forall r0, runs (working s) !! run_id r = Some r0 -> run_ok (seqs s SeqRun) (run_id r) r0 ->
    run_le r0 (f r0) /\ run_ok (seqs s SeqRun) (run_id r) (f r0)) ->
  P (final (flush f r) s).
Proof.
  intros Hs Hr. pose proof (tracked_update n0 db0 (run_id r) f s Hs Hr) as Hp. unfold flush, final in *.
  rewrite bind_run. by destruct (update_row (run_id r) f s) as [[[]|] s'].
Qed.

Lemma tracked_begin i : preserves P (begin_run i).
Proof.
  apply keeps_unit_of_work; [apply _|]. apply begin_body_preserves.
  intros t r s (tr & g & cs & ct & Hr & Hc & Ht & _) Hs. unfold mark_started, final. rewrite Ht.
  do 2 (rewrite read_only_bind_run by done; match goal with |- context [match outcome ?m s with _ => _ end] =>
    destruct (outcome m s) as [?|?] end; [|done]).
  rewrite bind_run. assert (run_id r = i) as Hid by (by destruct (proj2 (proj2 Hs) i r Hr) as [[] _]).
  match goal with |- context [flush ?f r s] => pose proof (tracked_flush f r s Hs) as Hf end.
  rewrite Hid, Hr in Hf. unfold final in Hf. destruct (flush _ r s) as [[?|?] s']; apply Hf; intros r0 [= <-] [].
  all: split; constructor; cbn; try done; try (rewrite Hc; cbn; lia).
  all: intros _; split; [done|by apply ok_created0].
Qed.

(** only a run that was started is stored as FINISHED *)
Lemma tracked_finish i st s : rank st = 3 -> st <> STOPPED ->
  (st = FINISHED -> forall r, runs (working s) !! i = Some r -> is_Some (run_started_at r)) ->
  P s -> P (final (finish_run i st) s).
Proof.
  intros Hst Hns Hstart Hs. assert (P (final (finish_body i st) s)) as Hb.
  { unfold finish_body, final. rewrite bind_run.
    cbn -[flush]. destruct (runs (working s) !! i) as [r|] eqn:Hi; [|done].
    rewrite bind_run. cbn -[flush]. rewrite bind_run.
    assert (run_id r = i) as Hid by (by destruct (proj2 (proj2 Hs) i r Hi) as [[] _]).
    assert (P (final (flush (set_ended st (clock s)) r) s)) as Hf.
    { apply tracked_flush; [done|]. rewrite Hid. intros r0. rewrite Hi. intros [= <-] [].
      split; constructor; cbn; try done; try by intros ->.
      - rewrite Hst. apply rank_le_3.
      - intros ->. split; [by eapply Hstart|done]. }
    unfold final in Hf. destruct (flush _ r s) as [[?|?] s']; exact Hf. }
  unfold finish_run, unit_of_work, final in *.
  destruct (finish_body i st s) as [[?|?] s1]; [by apply keeps_commit|by apply keeps_rollback].
Qed.
End Worker.

(** ** The system *)

(** the database and the tasks between their first and their last session: the run,
    and whether the first session succeeded *)
Record System := mkSystem { db_session : Session; in_flight : list (Z * bool) }.

Section System.
Context `{TextSearch} `{Cipher} `{PydanticCore} `{PyLib} `{Broker} `{AuthProviderLaws} `{LogUrl}.

Inductive sys_step_of (sent : Endpoint -> Prop) : System -> System -> Prop :=
| sys_server s s' l : server_step_of sent s s' -> sys_step_of sent (mkSystem s l) (mkSystem s' l)
| sys_job i s l : sys_step_of sent (mkSystem s l) (mkSystem (rollback (final (send_job_to_celery i) s)) l)
| sys_begin i t s s' l : begin_run i s = (Ok (Some t), s') ->
    sys_step_of sent (mkSystem s l) (mkSystem s' ((i, true) :: l))
| sys_skip i s s' l : begin_run i s = (Ok None, s') -> sys_step_of sent (mkSystem s l) (mkSystem s' l)
| sys_begin_fails i e s s' l : begin_run i s = (Raise e, s') ->
    sys_step_of sent (mkSystem s l) (mkSystem s' ((i, false) :: l))
| sys_finish i begun st s l1 l2 : st = FINISHED /\ begun = true \/ st = FAILED ->
    sys_step_of sent (mkSystem s (l1 ++ (i, begun) :: l2)) (mkSystem (final (finish_run i st) s) (l1 ++ l2))
| sys_crash x s l1 l2 : sys_step_of sent (mkSystem s (l1 ++ x :: l2)) (mkSystem s (l1 ++ l2)).

Inductive sys_reachable_of (sent : Endpoint -> Prop) : System -> Prop :=
| sys_init sq t : sys_reachable_of sent (mkSystem (session_on empty_db sq t) [])
| sys_next w w' : sys_reachable_of sent w -> sys_step_of sent w w' -> sys_reachable_of sent w'.
#[local] Abbreviation sys_step := (sys_step_of any_request).
#[local] Abbreviation sys_reachable := (sys_reachable_of any_request).

(** a run a worker holds was started *)
Definition held_started (w : System) : Prop := forall i r,
  (i, true) ∈ in_flight w -> runs (committed (db_session w)) !! i = Some r ->
  run_status r <> CREATED /\ is_Some (run_started_at r).
(** ids of runs that are held were given out *)
Definition held_below (w : System) : Prop := forall x, x ∈ in_flight w -> x.2 = true -> x.1 < seqs (db_session w) SeqRun.

Lemma begin_run_clean i r s s' : begin_run i s = (r, s') -> working s' = committed s'.
Proof. unfold begin_run, unit_of_work. by destruct (begin_body i s) as [[|]]; intros [= <- <-]. Qed.

Lemma commit_clean s : working s = committed s -> commit s = s.
Proof. destruct s. unfold commit. cbn. by intros ->. Qed.
Lemma server_step_clean s s' : server_step s s' -> working s = committed s -> working s' = committed s'.
Proof. intros [e token|name|add us|t] Hw; [|try done..]. unfold serve. by destruct (endpoint e token _) as [[]]. Qed.

Lemma sys_step_clean w w' : sys_step w w' -> working (db_session w) = committed (db_session w) ->
  working (db_session w') = committed (db_session w').
Proof.
  intros [s s' l Hst|i s l|i t s s' l Hb|i s s' l Hb|i e s s' l Hb|i b st s l1 l2 _|x s l1 l2] Hw; cbn in *; try done;
    try (by eapply begin_run_clean).
  - by eapply server_step_clean.
  - unfold final, finish_run, unit_of_work. by destruct (finish_body i st s) as [[]].
Qed.

Lemma sys_step_tracked n0 db0 w w' : map_Forall (fun i _ => i < n0) (runs db0) ->
  sys_step w w' -> working (db_session w) = committed (db_session w) -> held_started w ->
  tracked n0 db0 (db_session w) -> tracked n0 db0 (db_session w').
Proof.
  intros Hb [s s' l Hst|i s l|i t s s' l Hr|i s s' l Hr|i e s s' l Hr|i b st s l1 l2 Hst|x s l1 l2] Hw Hh Ht; cbn in *.
  - by eapply tracked_server_step.
  - apply keeps_rollback. by apply tracked_send_job.
  - pose proof (tracked_begin n0 db0 i s Ht) as Hp. unfold final in Hp. by rewrite Hr in Hp.
  - pose proof (tracked_begin n0 db0 i s Ht) as Hp. unfold final in Hp. by rewrite Hr in Hp.
  - pose proof (tracked_begin n0 db0 i s Ht) as Hp. unfold final in Hp. by rewrite Hr in Hp.
  - apply tracked_finish; [by destruct Hst as [[-> _]| ->]..| |done]. intros Hf r Hr.
    destruct Hst as [[_ ->]| ->]; [|done]. rewrite Hw in Hr. eapply (Hh i r); [|exact Hr].
    cbn. set_solver.
  - done.
Qed.

(** what is held stays started while runs only advance *)
Lemma held_started_advance w w' : tracked (seqs (db_session w) SeqRun) (committed (db_session w)) (db_session w') ->
  held_started w -> held_below w -> in_flight w' ⊆ in_flight w -> held_started w'.
Proof.
  intros (_ & Ht & _) Hs Hb Hsub i r Hi Hr. apply Hsub in Hi as Hi'. destruct (Ht i r Hr) as [_ Hf].
  unfold comes_from in Hf. destruct (runs (committed (db_session w)) !! i) as [r0|] eqn:H0r.
  - destruct (Hs i r0 Hi' H0r) as [Hc Hst]. destruct Hf as [_ _ _ _ _ Hrk Hsta]. split.
    + intros Hcr. rewrite Hcr in Hrk. by apply rank_created in Hrk.
    + by rewrite Hsta.
  - specialize (Hb _ Hi' eq_refl). cbn in Hb. lia.
Qed.

(** the invariant of the system *)
Record sys_inv (w : System) : Prop := mkSysInv {
  inv_clean : working (db_session w) = committed (db_session w);
  inv_runs : map_Forall (run_ok (seqs (db_session w) SeqRun)) (runs (committed (db_session w)));
  inv_started : held_started w;
  inv_below : held_below w;
}.

(** a state has advanced from itself *)
Lemma tracked_self w : sys_inv w ->
  tracked (seqs (db_session w) SeqRun) (committed (db_session w)) (db_session w).
Proof.
  intros [Hw Hr _ _]. assert (tracked_db (seqs (db_session w) SeqRun) (committed (db_session w))
    (seqs (db_session w) SeqRun) (committed (db_session w))) as Ht.
  { intros i r Hi. split; [by apply Hr|]. unfold comes_from. by rewrite Hi. }
  split_and!; [lia|done|]. by rewrite Hw.
Qed.
Lemma runs_below w : sys_inv w ->
  map_Forall (fun i _ => i < seqs (db_session w) SeqRun) (runs (committed (db_session w))).
Proof. intros [_ Hr _ _] i r Hi. by destruct (Hr i r Hi). Qed.

Lemma begin_run_taken i t s s' : (forall r, runs (working s) !! i = Some r -> run_id r = i) ->
  begin_run i s = (Ok (Some t), s') ->
  exists r r', runs (working s) !! i = Some r /\ run_status r = CREATED /\ run_status r' = STARTED /\
    run_started_at r' = Some (clock s) /\ lr_run (taken_run t) = r' /\
    runs (committed s') = <[run_id r := r']> (runs (working s)).
Proof.
  unfold begin_run. intros Hid Hb. apply unit_of_work_ok in Hb as (s0 & Hb & ->).
  apply begin_body_ok in Hb as (r & url & tr & g & cs & ct & Hr & Hc & _ & _ & _ & _ & _ & Ht & _ & _ & _ & _ & Hw & _); [|done].
  exists r. eexists. split_and!; [done|done|..|by rewrite Ht|cbn; by rewrite Hw]; done.
Qed.

Lemma sys_inv_step w w' : sys_inv w -> sys_step w w' -> sys_inv w'.
Proof.
  intros Hinv Hstep. pose proof Hinv as [Hw Hr Hs Hb].
  pose proof (sys_step_tracked _ _ _ _ (runs_below w Hinv) Hstep Hw Hs (tracked_self w Hinv)) as Ht.
  pose proof (sys_step_clean _ _ Hstep Hw) as Hw'.
  assert (forall l, l ⊆ in_flight w -> held_started (mkSystem (db_session w') l) /\
    held_below (mkSystem (db_session w') l)) as Hsub.
  { intros l Hl. split; [by eapply held_started_advance|]. intros x Hx Hx2. cbn.
    specialize (Hb x (Hl x Hx) Hx2). destruct Ht as [Hn _]. lia. }
  assert (map_Forall (run_ok (seqs (db_session w') SeqRun)) (runs (committed (db_session w')))) as Hr'.
  { intros i r Hi. by destruct (proj1 (proj2 Ht) i r Hi). }
  assert (held_started w' /\ held_below w') as [? ?]; [|by constructor].
  destruct Hstep as [s s' l Hst|i s l|i t s s' l Hbeg|i s s' l Hbeg|i e s s' l Hbeg|i b st s l1 l2 Hst|x s l1 l2]; cbn in *.
  - by apply Hsub.
  - by apply Hsub.
  - destruct (Hsub l) as [Hs1 Hb1]; [done|].
    apply begin_run_taken in Hbeg as (r & r' & Hi & Hc & Hc' & Hst & _ & Hrs);
      [|intros r0 Hr0; rewrite Hw in Hr0; by destruct (Hr i r0 Hr0)]. rewrite Hw in Hi, Hrs.
    pose proof (Hr i r Hi) as [Hid Hlt _ _ _ _ _]. rewrite Hid in Hrs. split.
    + intros j r1 [[= ->]|Hj]%elem_of_cons Hj1; [|by eapply Hs1].
      cbn in Hj1. rewrite Hrs, lookup_insert_eq in Hj1. injection Hj1 as <-. rewrite Hc', Hst. by split.
    + intros x [->|Hx]%elem_of_cons Hx2; [|by eapply Hb1]. cbn. destruct Ht as [Hn _]. lia.
  - by apply Hsub.
  - destruct (Hsub l) as [Hs1 Hb1]; [done|]. split.
    + intros j r1 [[= ->]|Hj]%elem_of_cons Hj1; by eapply Hs1.
    + intros x [->|Hx]%elem_of_cons Hx2; [done|by eapply Hb1].
  - apply Hsub. set_solver.
  - apply Hsub. set_solver.
Qed.

Lemma sys_reachable_inv w : sys_reachable w -> sys_inv w.
Proof.
  induction 1 as [sq t|w w' _ IH Hs]; [|by eapply sys_inv_step].
  constructor; [done|apply map_Forall_empty|by intros i r Hi%not_elem_of_nil|by intros x Hx%not_elem_of_nil].
Qed.

Lemma sys_steps_tracked n0 db0 w w' : map_Forall (fun i _ => i < n0) (runs db0) ->
  sys_inv w -> rtc sys_step w w' -> tracked n0 db0 (db_session w) ->
  sys_inv w' /\ tracked n0 db0 (db_session w').
Proof.
  intros Hb Hinv Hst. induction Hst as [w|w w1 w' Hstep _ IH]; intros Ht; [done|].
  apply IH; [by eapply sys_inv_step|]. destruct Hinv as [Hw Hr Hs Hbl].
  by eapply sys_step_tracked.
Qed.
End System.
Abbreviation sys_step := (sys_step_of any_request).
Abbreviation sys_reachable := (sys_reachable_of any_request).
