(* ===== verification/WorkerExamples.v ===== *)
(** * A concrete instance of the worker's parameters

    A Spark whose frames are lists of columns and whose calls succeed, format parsers
    that take every option, and handlers made of accepted bodies; the witnesses of the
    theorems about the worker are evaluated with them. *)

From S2P Require Import Prelude PyData Models Errors Database Integrity Search Repository.
From S2P Require Import Repositories RepositoryFacts Pydantic ConnectionSchemas TransferSchemas.
From S2P Require Import Auth ApiGroups ApiQueues ApiConnections ApiTransfers ApiRuns Server.
From S2P Require Import Settings Examples.
From S2P Require Import Dto FilterExpressions FileNames Handlers ReadWrite Spark Controller.
From S2P Require Import RunTask RunLifecycle.

#[export] Instance toy_engine : Engine := {
  DataFrame := list string;
  df_columns l := l;
  Handlers.df_schema l c := if bool_decide (c ∈ l) then Some (StringType, true) else None;
  HWM := string;
  hwm_value m := negb (String.eqb m "");
  contains_get_df_schema h := negb (is_file_handler h);
}.
Definition some_columns : list string := ["Name"; "Id"].
#[export] Instance toy_answers : Answers := {
  done_ _ _ := Ok tt;
  frame _ c :=
    Ok (match c with
        | WithColumnRenamed df existing new => (fun n => if String.eqb n existing then new else n) <$> (df : list string)
        | WithColumnCoalesce df _ _ | WhereDF df _ => df
        | SelectExpr _ l => l
        | _ => some_columns
        end : list string);
  names _ c := Ok (match c with
                   | GetDFSchema _ _ => some_columns
                   | _ => ["part-0000.csv"; "part-0001.csv"]
                   end);
  mark _ _ := Ok (Some "5" : option string);
}.
#[export] Instance toy_formats : OneTLFormats := { parse_obj _ d := Ok d }.
#[export] Instance toy_log_url : LogUrl := { render_log_url r := Ok ("https://logs/" +:+ str_of_Z (run_id r)) }.
#[export] Instance toy_environment : Environment := {
  packages cls := [cls]; exclude_packages := []; gethostname := "worker-1";
}.
Definition toy_store : HWMStore := mkHWMStore true (Some "http://horizon") (Some "u") (Some "p") (Some "ns").
Definition toy_settings : WorkerAppSettings :=
  mkWorkerAppSettings (get_worker_spark_session [("spark.master", JStr "local")]) toy_store.
Definition toy_names : Fresh := mkFresh "/tmp/downloaded" "/tmp/written" "iceberg_1" "iceberg_2".

(** ** Bodies *)

Definition ftp_body : json := JObj
  [("type", JStr "ftp"); ("group_id", JInt 1); ("name", JStr "files"); ("description", JStr "");
   ("connection_data", JObj [("host", JStr "ftp.local")]);
   ("auth_data", JObj [("type", JStr "basic"); ("user", JStr "u"); ("password", JStr "secret")])].
Definition iceberg_body : json := JObj
  [("type", JStr "iceberg"); ("group_id", JInt 1); ("name", JStr "lake"); ("description", JStr "");
   ("connection_data", JObj
     [("type", JStr "iceberg_rest_s3_delegated"); ("rest_catalog_url", JStr "https://catalog")]);
   ("auth_data", JObj [("type", JStr "iceberg_rest_bearer"); ("rest_catalog_token", JStr "secret")])].
(** files of an FTP server, filtered, into a table of a lake *)
Definition files_to_lake (incremental : bool) (sql : bool) : json := JObj
  [("group_id", JInt 1); ("queue_id", JInt 1); ("source_connection_id", JInt 1);
   ("target_connection_id", JInt 2); ("name", JStr "nightly");
   ("source_params", JObj [("type", JStr "ftp"); ("directory_path", JStr "/data");
                           ("file_format", JObj [("type", JStr "csv")])]);
   ("target_params", JObj [("type", JStr "iceberg"); ("table_name", JStr "a.b.c")]);
   ("strategy_params",
     JObj (if incremental then [("type", JStr "incremental"); ("increment_by", JStr "file_name")]
           else [("type", JStr "full")]));
   ("transformations", JList
     ([JObj [("type", JStr "dataframe_rows_filter");
             ("filters", JList [JObj [("type", JStr "ilike"); ("field", JStr "name"); ("value", JStr "a%")]])];
       JObj [("type", JStr "file_metadata_filter");
             ("filters", JList [JObj [("type", JStr "name_glob"); ("value", JStr "*.csv")]])]] ++
      if sql then [JObj [("type", JStr "sql"); ("query", JStr "SELECT * FROM source")]] else []))].

Definition connection_of (i : Z) (j : json) : Connection * dict :=
  match CreateConnectionSchema j with
  | Ok b => (mkConnection i (cb_name b) 1 "" (cb_type b) (cb_data b) 0 0, cb_auth_data b)
  | Raise _ => (mkConnection i "" 1 "" POSTGRES [] 0 0, [])
  end.
Definition transfer_of (j : json) : Transfer :=
  match parse_create_transfer j with
  | Ok b => mkTransfer 7 (tb_name b) 1 "" 1 2 (tb_strategy_params b) (tb_source_params b) (tb_target_params b)
              (tb_transformations b) (tb_resources b) false "" 1 0 0
  | Raise _ => mkTransfer 0 "" 1 "" 1 2 [] [] [] [] [] false "" 1 0 0
  end.
Definition loaded_run (j : json) : LoadedRun :=
  mkLoadedRun (mkRun 3 7 (Some 0) None STARTED MANUAL None [] 0 0) (transfer_of j) (mkGroup 1 "group1" "" 1 0 0)
    (connection_of 1 ftp_body).1 (connection_of 2 iceberg_body).1.

Definition no_handler : Handler :=
  mkHandler FTPHandler (mkObj FTPConnectionDTO []) (mkObj FTPTransferDTO []) (mkRunDTO 0 0) "" None.
Definition controller_of (j : json) : TransferController :=
  match init (loaded_run j) (connection_of 1 ftp_body).2 (connection_of 2 iceberg_body).2 toy_names with
  | Ok c => c
  | Raise _ => mkTransferController no_handler no_handler
  end.

Definition perform (j : json) : result exc unit * list Call :=
  perform_transfer toy_settings (loaded_run j) (controller_of j) [].

Example full_transfer_runs :
  (perform (files_to_lake false false)).1 = Ok tt /\
  take 3 (drop 4 (perform (files_to_lake false false)).2) = [OpenHWMStore (Some "http://horizon") (Some "u") (Some "p") (Some "ns"); GetHWM "7_ftp_/data"; ResetHWM "5"].
Proof. by vm_compute. Qed.
Example incremental_transfer_runs :
  (perform (files_to_lake true false)).1 = Ok tt /\
  drop 13 (perform (files_to_lake true false)).2 =
    [ExitIncrementalStrategy false; CloseHWMStore; StopSpark; CleanupTempDir].
Proof. by vm_compute. Qed.
(** a query on files that are downloaded: the run ends with [AttributeError] *)
Example sql_transfer_fails : (perform (files_to_lake false true)).1 = Raise AttributeError.
Proof. by vm_compute. Qed.

(** ** The system *)

Lemma reachable_system `{TextSearch} `{Cipher} `{PydanticCore} `{PyLib} `{Broker} `{AuthProviderLaws} `{LogUrl} s :
  reachable s -> sys_reachable (mkSystem s []).
Proof.
  induction 1 as [sq t|s s' _ IH Hs]; [by apply sys_init|]. eapply sys_next; [exact IH|]. by apply sys_server.
Qed.

(** the run of [resources_1]'s transfer, before and after a worker took it *)
Definition world_waiting : Session := play (people ++ resources_1 ++ [Req 2 (StartRun 1)]).
Definition world_taken : Session := final (begin_run 1) world_waiting.
