(* ===== verification/LifecycleTheorems.v ===== *)
(** * Theorems about the life of a run

    What requests, jobs and workers do to a run between them, in any order, and what
    one task of a worker does to the database. *)

From S2P Require Import Prelude PyData Models Errors Database Integrity Search Repository.
From S2P Require Import Repositories RepositoryFacts Pydantic ConnectionSchemas TransferSchemas.
From S2P Require Import Auth ApiGroups ApiQueues ApiConnections ApiTransfers ApiRuns Server.
From S2P Require Import ServerFacts Deletion Membership Examples ConnectionTheorems Scheduler.
From S2P Require Import Dto Handlers Spark Controller RunTask RunLifecycle WorkerExamples.

Section Lifecycle.
Context `{TextSearch} `{Cipher} `{PydanticCore} `{PyLib} `{Broker} `{AuthProviderLaws} `{LogUrl}.

(** the times of a run fit its status; nothing ever answers the stop signal *)
Definition run_consistent (r : Run) : Prop :=
  match run_status r with
  | CREATED => run_started_at r = None /\ run_ended_at r = None
  | STARTED => is_Some (run_started_at r) /\ run_ended_at r = None
  | SEND_STOP_SIGNAL => run_ended_at r = None
  | FINISHED => is_Some (run_started_at r) /\ is_Some (run_ended_at r)
  | FAILED => True
  | STOPPED => False
  end.

(** C12 Whatever requests, jobs, workers and crashes follow each other, each session being
    one step of the whole (when two sessions of workers overlap a run that has ended can
    start again: [Overlap.run_taken_twice]), a run only advances, from CREATED over STARTED and the stop signal to its end: its transfer,
    type and dump stay, the time it was started at is set once.  A run that is new
    has an id that was never used.  The times of every run fit its status, and none is
    STOPPED: the server sends the stop signal but nothing answers it. *)
Theorem runs_only_advance w w' i r' : sys_reachable w -> rtc sys_step w w' ->
  runs (committed (db_session w')) !! i = Some r' ->
  match runs (committed (db_session w)) !! i with
  | Some r => run_le r r'
  | None => seqs (db_session w) SeqRun <= i
  end /\ run_consistent r'.
Proof.
  intros Hw%sys_reachable_inv Hst Hi.
  destruct (sys_steps_tracked _ _ _ _ (runs_below w Hw) Hw Hst (tracked_self w Hw)) as [_ (_ & Ht & _)].
  destruct (Ht i r' Hi) as [[_ _ Hns Hc Hs Hss Hf] Hfrom]. split; [done|].
  unfold run_consistent. destruct (run_status r'); auto.
Qed.

End Lifecycle.

(** ** One task *)

Section Task.
Context `{PyLib} `{Cipher} `{OneTLFormats} `{LogUrl} `{Answers}.

(** the row fits: the checks of a run read its transfer and the length of its log URL *)
Lemma check_run_ext db db' r r' : check_row db r = Ok tt -> run_log_url r' = run_log_url r ->
  run_transfer_id r' = run_transfer_id r -> transfers db' = transfers db -> check_row db' r' = Ok tt.
Proof.
  intros (Hs & _ & Hr)%check_row_ok Hu Ht Hdb. apply check_row_ok. split_and!.
  - unfold sizes_ok in *. cbn in *. by rewrite Hu.
  - set_solver.
  - unfold refs_ok in *. cbn in *. rewrite Forall_singleton in *. cbn in *. by rewrite Ht, Hdb.
Qed.

(** the last session stores the outcome of a run that is there *)
Lemma finish_run_ok i st s r : runs (working s) !! i = Some r -> run_id r = i -> check_row (working s) r = Ok tt ->
  exists s', finish_run i st s = (Ok tt, s') /\
    committed s' = with_tbl (<[i := touch (clock s) (set_ended st (clock s) r)]> (runs (working s))) (working s) /\
    working s' = committed s' /\ clock s' = clock s.
Proof.
  intros Hi <- Hchk. unfold finish_run, unit_of_work, finish_body. rewrite bind_run. cbn -[flush]. rewrite Hi.
  rewrite bind_run. cbn -[flush]. rewrite bind_run. unfold flush. rewrite bind_run. unfold update_row. cbn [tbl RunTable].
  rewrite Hi.
  rewrite (check_run_ext (working s) (working s) r) by done. cbn. by eexists.
Qed.

(** C16 A task of a worker ends its run: a run that is CREATED is stored as FINISHED
    when the transfer was performed and as FAILED when anything raised, with the time,
    and the task ends the way the transfer did; any other run, and every other row, is
    left as it was. *)
Theorem run_transfer_spec settings names i s res s' : working s = committed s -> db_wf (committed s) ->
  (forall r, runs (committed s) !! i = Some r -> sizes_ok r = true) ->
  run_transfer settings names i s = (res, s') ->
  match runs (committed s) !! i with
  | Some r =>
      if bool_decide (run_status r = CREATED) then
        exists r', committed s' = with_tbl (<[i := r']> (runs (committed s))) (committed s) /\
          run_id r' = i /\ run_transfer_id r' = run_transfer_id r /\ run_ended_at r' = Some (clock s) /\
          run_status r' = final_status res /\
          match outcome (begin_run i) s with
          | Ok (Some t) => run_started_at r' = Some (clock s) /\ res = outcome (execute settings names t) []
          | Ok None => False
          | Raise e => run_started_at r' = run_started_at r /\ res = Raise e
          end
      else committed s' = committed s /\ res = Ok tt
  | None => committed s' = committed s /\ res = Ok tt
  end.
Proof.
  intros Hcl Hwf Hsz Hrun. unfold run_transfer in Hrun. unfold outcome.
  pose proof (begin_body_frame i s) as [Hfr Hclk]. unfold final in *.
  unfold begin_run, unit_of_work in *. destruct (begin_body i s) as [[[t|]|e] s0] eqn:Hb; cbn [fst snd] in *.
  - apply begin_body_ok in Hb as (r & url & tr & g & cs & ct & Hr & Hc & _ & _ & _ & _ & _ & Ht & Hchk & _ & Hclk0 & _ & Hw & _);
      [|intros r0 Hr0; rewrite Hcl in Hr0; exact (wf_key (R := Run) _ _ _ Hwf Hr0)]. rewrite Hcl in *. rewrite Hr, bool_decide_true by done.
    pose proof (wf_key (R := Run) _ _ _ Hwf Hr) as Hid. cbn in Hid. rewrite Hid in *.
    set (r1 := touch _ _) in *. set (out := outcome (execute settings names t) []) in *.
    destruct (finish_run_ok i (final_status out) (commit s0) r1) as (s2 & Hf & Hc2 & _); cbn [working commit].
    + rewrite Hw. cbn. by rewrite lookup_insert_eq.
    + exact Hid.
    + by eapply check_run_ext; [exact Hchk|..]; rewrite ?Hw.
    + rewrite bind_run, Hf in Hrun. injection Hrun as <- <-.
      change (working (commit s0)) with (working s0) in Hc2. change (clock (commit s0)) with (clock s0) in Hc2.
      eexists. rewrite Hc2, Hw. cbn. rewrite insert_insert_eq. split; [done|]. cbn. rewrite Hclk. by split_and!.
  - injection Hrun as <- <-. apply begin_body_none in Hb as [-> Hn]. rewrite Hcl in *.
    destruct (runs (committed s) !! i) as [r|]; [|done]. by rewrite bool_decide_false by (by apply Hn).
  - destruct (runs (committed s) !! i) as [r|] eqn:Hr.
    2: { unfold begin_body in Hb. rewrite bind_run, read_created_not in Hb by (by rewrite Hcl, Hr). done. }
    assert (run_status r = CREATED) as Hc.
    { destruct (decide (run_status r = CREATED)) as [|Hn]; [done|]. unfold begin_body in Hb.
      rewrite bind_run, read_created_not in Hb; [done|]. rewrite Hcl, Hr. by intros ? [= <-]. }
    rewrite bool_decide_true by done. pose proof (wf_key (R := Run) _ _ _ Hwf Hr) as Hid. cbn in Hid.
    destruct (finish_run_ok i FAILED (rollback s0) r) as (s2 & Hf & Hc2 & _); cbn [working rollback]; rewrite ?Hfr.
    + done.
    + exact Hid.
    + apply check_row_ok. split_and!; [by apply Hsz|set_solver|by eapply (wf_refs (R := Run))].
    + rewrite bind_run, Hf in Hrun. injection Hrun as <- <-.
      eexists. rewrite Hc2. cbn. rewrite Hfr, Hclk. split; [done|]. cbn. by split_and!.
Qed.
End Task.

(** ** Witnesses *)

Lemma waiting_taken : exists t, begin_run 1 world_waiting = (Ok (Some t), world_taken).
Proof.
  unfold world_taken, final. destruct (begin_run 1 world_waiting) as [[[t|]|e] s] eqn:Hb; [by exists t|exfalso..];
    apply (f_equal fst) in Hb; vm_compute in Hb; discriminate Hb.
Qed.
Lemma waiting_reachable : sys_reachable (mkSystem world_waiting []).
Proof. apply reachable_system, play_reachable. Qed.
Lemma taken_step : sys_step (mkSystem world_waiting []) (mkSystem world_taken [(1, true)]).
Proof. destruct waiting_taken as [t Ht]. by eapply sys_begin. Qed.

Definition run_of (s : Session) : option Run := runs (committed s) !! 1.
Lemma runs_only_advance_witness : exists r r',
  run_of world_waiting = Some r /\ run_of world_taken = Some r' /\
  run_le r r' /\ run_status r = CREATED /\ run_status r' = STARTED /\ is_Some (run_started_at r').
Proof.
  destruct (run_of world_waiting) as [r|] eqn:Hr; [|vm_compute in Hr; discriminate Hr].
  destruct (run_of world_taken) as [r'|] eqn:Hr'; [|vm_compute in Hr'; discriminate Hr'].
  pose proof (runs_only_advance (mkSystem world_waiting []) (mkSystem world_taken [(1, true)]) 1 r'
    waiting_reachable (rtc_once _ _ taken_step) Hr') as [Hle Hc].
  unfold run_of in Hr. cbn [db_session] in Hle. rewrite Hr in Hle. exists r, r'.
  assert (run_status r = CREATED) as Hs by (vm_compute in Hr; injection Hr as <-; reflexivity).
  assert (run_status r' = STARTED) as Hs' by (vm_compute in Hr'; injection Hr' as <-; reflexivity).
  unfold run_consistent in Hc. rewrite Hs' in Hc. split_and!; try assumption; try reflexivity. exact (proj1 Hc).
Defined.

Lemma world_waiting_wf : db_wf (committed world_waiting) /\ working world_waiting = committed world_waiting.
Proof. split; [exact (proj1 (session_inv_wf _ (reachable_session_inv _ (play_reachable _))))|apply reachable_clean, play_reachable]. Qed.
(** the connections of the transfer are tables of one server: the run is FINISHED *)
Lemma run_transfer_spec_witness : exists r r',
  run_of world_waiting = Some r /\
  committed (final (run_transfer toy_settings toy_names 1) world_waiting) =
    with_tbl (<[1 := r']> (runs (committed world_waiting))) (committed world_waiting) /\
  run_status r' = FINISHED /\ run_ended_at r' = Some (clock world_waiting).
Proof.
  destruct (run_of world_waiting) as [r|] eqn:Hr; [|vm_compute in Hr; discriminate Hr].
  pose proof (run_transfer_spec toy_settings toy_names 1 world_waiting (Ok tt)
    (final (run_transfer toy_settings toy_names 1) world_waiting) (proj2 world_waiting_wf) (proj1 world_waiting_wf)) as Hs.
  assert (outcome (run_transfer toy_settings toy_names 1) world_waiting = Ok tt) as Hout by (vm_compute; reflexivity).
  unfold run_of in Hr. rewrite Hr in Hs.
  assert (run_status r = CREATED) as Hc by (vm_compute in Hr; injection Hr as <-; reflexivity).
  rewrite Hc in Hs. cbn [bool_decide] in Hs. destruct Hs as (r' & Hcom & _ & _ & He & Hst & _).
  - intros r0 [= <-]. vm_compute in Hr. injection Hr as <-. vm_compute. reflexivity.
  - unfold outcome, final in *. destruct (run_transfer _ _ 1 world_waiting) as [o s]. cbn in *. by subst o.
  - exists r, r'. split_and!; assumption || reflexivity.
Defined.
