(* ===== verification/RunEnding.v ===== *)
(** * How a run ends

    Which runs can still end.  [checked] is the invariant of every statement on any
    table; [pending i] is kept by everything but the last session of the run [i]'s own
    task.  [run_can_end] puts them together. *)

From S2P Require Import Prelude PyData Models Errors Database Integrity Search Repository.
From S2P Require Import Repositories RepositoryFacts Pydantic ConnectionSchemas TransferSchemas.
From S2P Require Import Auth ApiGroups ApiQueues ApiConnections ApiTransfers ApiRuns Server.
From S2P Require Import ServerFacts Deletion Membership Examples ConnectionTheorems RunTheorems.
From S2P Require Import Scheduler SchedulerTheorems.
From S2P Require Import Dto Handlers Spark Controller RunTask RunLifecycle WorkerExamples.
From S2P Require Import LifecycleTheorems.

Definition ended (r : Run) : bool := rank (run_status r) =? 3.

(** ** Stored rows were checked *)

Definition runs_sized (db : DB) : Prop := map_Forall (fun _ r => sizes_ok r = true) (runs db).
Definition sized (s : Session) : Prop := runs_sized (committed s) /\ runs_sized (working s).
(** what a run needs to be written again *)
Definition checked (s : Session) : Prop := session_wf s /\ sized s.

Lemma preserves_and {A} (P Q : Session -> Prop) (m : M A) :
  preserves P m -> preserves Q m -> preserves (fun s => P s /\ Q s) m.
Proof. intros HP HQ s [? ?]. split; [by apply HP|by apply HQ]. Qed.
#[export] Instance and_session P Q `{!KeepsSession P, !KeepsSession Q} : KeepsSession (fun s => P s /\ Q s).
Proof.
  constructor; [intros q; apply preserves_and; apply keeps_nextval|intros s [? ?]..];
    (split; [first [by apply (keeps_commit (P := P))|by apply (keeps_rollback (P := P))]
            |first [by apply (keeps_commit (P := Q))|by apply (keeps_rollback (P := Q))]]).
Qed.
#[export] Instance and_table P Q {K R} `{Table K R} `{!KeepsTable P R, !KeepsTable Q R} :
  KeepsTable (fun s => P s /\ Q s) R.
Proof.
  constructor; intros; apply preserves_and;
    first [apply keeps_insert|by apply keeps_update|apply keeps_delete].
Qed.

Lemma sized_sub db db' : runs db' ⊆ runs db -> runs_sized db -> runs_sized db'.
Proof. intros Hs Ht i r Hi. eapply Ht, lookup_weaken; [exact Hi|exact Hs]. Qed.
Lemma runs_cascade db : runs (cascade db) ⊆ runs db.
Proof. by destruct (cascade_sub db) as (?&?&?&?&?&?&?&?). Qed.
Lemma sized_insert i (r : Run) db : sizes_ok r = true -> runs_sized db ->
  runs_sized (with_tbl (<[i := r]> (runs db)) db).
Proof. intros Hr Hd. apply map_Forall_insert_2; done. Qed.

#[export] Instance sized_session : KeepsSession sized.
Proof. constructor; [intros q s []|intros s []..]; by split. Qed.
#[export] Instance sized_other {K R} `{NoRuns R (K := K)} : KeepsTable sized R.
Proof.
  assert (forall m db, runs_sized db -> runs_sized (with_tbl (R := R) m db)) as Hin.
  { intros m db. unfold runs_sized. by rewrite no_runs. }
  constructor; [intros r s [? ?]|intros k f _ s [? ?]|intros k s [? ?]];
    unfold final, insert_row, update_row, delete_row; repeat case_match; (split; [done|]);
    cbn [working set_working snd]; auto.
  eapply sized_sub; [apply runs_cascade|auto].
Qed.
#[export] Instance sized_runs : KeepsTable sized Run.
Proof.
  constructor; [intros r s [? ?]|intros k f _ s [? ?]|intros k s [? ?]];
    unfold final, insert_row, update_row, delete_row; cbn [tbl RunTable];
    (destruct (runs (working s) !! _) eqn:Hi || idtac).
  all: repeat case_match; (split; [done|]); cbn [working set_working snd]; auto.
  all: try match goal with Hc : check_row _ _ = Ok ?u |- _ => destruct u; apply check_row_ok in Hc as [Hc _] end.
  all: try by apply sized_insert.
  eapply sized_sub; [apply runs_cascade|]. eapply sized_sub; [|done]. apply delete_subseteq.
Qed.

Section Sessions.
Context `{TextSearch} `{Cipher} `{PydanticCore} `{PyLib} `{Broker} `{AuthProviderLaws} `{LogUrl}.

Section Kept.
Context (P : Session -> Prop) `{!KeepsSession P, !KeepsTable P Run}.

Lemma flush_keeps f r : (forall r0, run_id (f r0) = run_id r0) -> preserves P (flush f r).
Proof. intros Hf. apply flush_preserves. apply keeps_update. intros r0 <-. apply Hf. Qed.
Lemma begin_keeps i : preserves P (begin_run i).
Proof.
  apply keeps_unit_of_work; [done|]. apply begin_body_preserves. intros t r s _. revert s.
  apply mark_started_preserves. intros url at_. by apply keeps_update.
Qed.
Lemma finish_keeps i st : preserves P (finish_run i st).
Proof.
  apply keeps_unit_of_work; [done|]. apply preserves_bind; [by apply read_only_preserves|].
  intros [r|]; [|apply preserves_ret]. apply preserves_bind; [apply preserves_gets|]. intros t.
  apply preserves_bind; [by apply flush_keeps|]. intros ?. apply preserves_ret.
Qed.
End Kept.

(** what the requests of a set, the jobs and the sessions of workers keep, every step keeps *)
Lemma sys_step_preserves sent P `{!KeepsSession P} w w' :
  (forall s s', server_step_of sent s s' -> P s -> P s') -> (forall i, preserves P (send_job_to_celery i)) ->
  (forall i, preserves P (begin_run i)) -> (forall i st, preserves P (finish_run i st)) ->
  sys_step_of sent w w' -> P (db_session w) -> P (db_session w').
Proof.
  intros Ht Hj Hb Hf [s s' l Hst|i s l|i t s s' l Hr|i s s' l Hr|i e s s' l Hr|i b st s l1 l2 Hst|x s l1 l2] Hs; cbn in *.
  - by eapply Ht.
  - apply keeps_rollback. by apply Hj.
  - specialize (Hb i s Hs). unfold final in Hb. by rewrite Hr in Hb.
  - specialize (Hb i s Hs). unfold final in Hb. by rewrite Hr in Hb.
  - specialize (Hb i s Hs). unfold final in Hb. by rewrite Hr in Hb.
  - by apply Hf.
  - done.
Qed.
Lemma sys_step_keeps sent P `{!KeepsSession P, !KeepsTable P Run} w w' :
  (forall s s', server_step_of sent s s' -> P s -> P s') ->
  sys_step_of sent w w' -> P (db_session w) -> P (db_session w').
Proof.
  intros Ht. apply (sys_step_preserves sent P w w' Ht); intros; [apply send_job_keeps|apply begin_keeps|apply finish_keeps]; apply _.
Qed.

Lemma reachable_checked w : sys_reachable w -> checked (db_session w).
Proof.
  induction 1 as [sq t|w w' _ IH Hstep].
  - split; [split; apply empty_inv|split; apply map_Forall_empty].
  - revert IH. apply (sys_step_keeps any_request (fun s => session_wf s /\ sized s)); [|exact Hstep].
    intros s s'. apply (server_keeps (fun s => session_wf s /\ sized s)); [intros; apply start_run_keeps; apply _|intros; apply stop_run_keeps; apply _|].
    clear. intros s t [[? ?] [? ?]]. by split; split.
Qed.

(** ** Nothing else ends a run *)

(** a run that is there and has not ended, or an id that was given out *)
Definition unended (i : Z) (db : DB) : Prop := forall r, runs db !! i = Some r -> ended r = false.
Definition pending (i : Z) (s : Session) : Prop :=
  i < seqs s SeqRun /\ unended i (committed s) /\ unended i (working s).

Section Pending.
Context (i : Z).
Notation P := (pending i).

Lemma unended_sub db db' : runs db' ⊆ runs db -> unended i db -> unended i db'.
Proof. intros Hs Ht r Hi. eapply Ht, lookup_weaken; [exact Hi|exact Hs]. Qed.
Lemma unended_insert j (r : Run) db : (j = i -> ended r = false) -> unended i db ->
  unended i (with_tbl (<[j := r]> (runs db)) db).
Proof. intros Hr Hd r'. cbn. rewrite lookup_insert. case_decide; [intros [= <-]; by apply Hr|apply Hd]. Qed.

#[export] Instance pending_session : KeepsSession P.
Proof.
  constructor; [intros q s (? & ? & ?)|intros s (? & ? & ?)..]; split_and!; try done.
  unfold final, nextval. cbn. case_decide; subst; lia.
Qed.
#[export] Instance pending_other {K R} `{NoRuns R (K := K)} : KeepsTable P R.
Proof.
  assert (forall m db, unended i db -> unended i (with_tbl (R := R) m db)) as Hin.
  { intros m db. unfold unended. by rewrite no_runs. }
  constructor; [intros r s (? & ? & ?)|intros k f _ s (? & ? & ?)|intros k s (? & ? & ?)];
    unfold final, insert_row, update_row, delete_row; repeat case_match; (split_and!; [done..|]);
    cbn [working set_working snd]; auto.
  eapply unended_sub; [apply runs_cascade|auto].
Qed.

Lemma pending_update j (f : Run -> Run) s : P s ->
  (j = i -> forall r, runs (working s) !! i = Some r -> ended (f r) = false) -> P (final (update_row j f) s).
Proof.
  intros (? & ? & ?) Hf. unfold final, update_row. cbn [tbl RunTable].
  destruct (runs (working s) !! j) as [r|] eqn:Hj; [|done]. destruct (check_row _ _) as [[]|]; [|done].
  split_and!; [done..|]. cbn [working set_working snd]. apply unended_insert; [|done].
  intros ->. by apply (Hf eq_refl).
Qed.

(** a new run has an id that was not given out *)
Lemma run_created t a b k s r s' : RunRepository.create t a b k s = (Ok r, s') -> run_id r = seqs s SeqRun.
Proof.
  unfold RunRepository.create. intros Hr. apply bind_ok in Hr as (dump & s1 & Hd & Hr).
  assert (s1 = s) as ->.
  { pose proof (run_serialized_ro t a b s) as Hro. unfold final in Hro. by rewrite Hd in Hro. }
  apply bind_ok in Hr as (at_ & s1 & Hat & Hr). apply gets_ok in Hat as [-> ->].
  by apply except_integrity_ok, insert_new_ok in Hr as (-> & _).
Qed.

Lemma preserves_bind_ok {A B} (Q : Session -> Prop) (m : M A) (f : A -> M B) : preserves Q m ->
  (forall s a s', Q s -> m s = (Ok a, s') -> Q (final (f a) s')) -> preserves Q (m ≫= f).
Proof.
  intros Hm Hf s Hs. specialize (Hm s Hs). specialize (Hf s). unfold final in *. rewrite bind_run.
  destruct (m s) as [[a|e] s1]; [by eapply Hf|done].
Qed.

Lemma pending_create t a b k : preserves P (RunRepository.create t a b k).
Proof.
  unfold RunRepository.create. apply preserves_bind; [apply read_only_preserves, run_serialized_ro|].
  intros dump. apply preserves_bind; [apply preserves_gets|]. intros at_.
  apply except_integrity_wf. intros s Hs. unfold insert_new, final. rewrite bind_run.
  pose proof (keeps_nextval SeqRun s Hs) as Hs1. unfold final, nextval in *. cbn [snd] in *.
  set (s1 := mkSession _ _ _ _) in *. destruct Hs as (Hn & _). destruct Hs1 as (Hn1 & Hc1 & Hw1).
  unfold insert_row. repeat case_match; cbn [snd]; try done. split_and!; [done..|].
  apply unended_insert; [|done]. cbn. lia.
Qed.

(** marking another run as failed *)
Lemma pending_fail j : j <> i -> preserves P (RunRepository.update j FAILED).
Proof.
  intros Hj. apply except_integrity_wf, preserves_bind; [|intros []; [apply preserves_ret|apply preserves_raise]].
  intros s Hs. apply pending_update; [done|]. by intros ->.
Qed.
Lemma pending_stop j : preserves P (RunRepository.stop j).
Proof.
  apply preserves_bind; [apply read_only_preserves, run_read_by_id_ro|]. intros r.
  apply preserves_bind; [apply preserves_when|]. intros _.
  apply preserves_bind; [|intros []; [apply preserves_ret|apply preserves_raise]].
  intros s Hs. by apply pending_update.
Qed.

(** a run that was created is sent, or marked as failed: it is another run *)
Lemma created_other t cs ct k s r s' : P s ->
  unit_of_work (sc ← reads (fun _ => read_auth_data cs); tc ← reads (fun _ => read_auth_data ct);
    RunRepository.create t sc tc k) s = (Ok r, s') -> run_id r <> i.
Proof.
  intros (Hn & _) Hu. apply unit_of_work_ok in Hu as (s1 & Hu & _).
  apply bind_ok in Hu as (sc & s2 & Hsc & Hu). apply reads_ok in Hsc as [_ ->].
  apply bind_ok in Hu as (tc & s2 & Htc & Hu). apply reads_ok in Htc as [_ ->].
  apply run_created in Hu. lia.
Qed.
#[local] Hint Resolve pending_create pending_stop pending_fail : se.

Lemma pending_start_run t u : preserves P (start_run t u).
Proof.
  unfold start_run. do 7 (apply preserves_bind; [solve_se|intros ?]).
  apply preserves_bind_ok; [unfold create_run_body; solve_se|]. intros s r s' Hs Hr.
  pose proof (created_other _ _ _ _ _ _ _ Hs Hr) as Hi.
  assert (preserves P (unit_of_work (create_run_body t a4 a5))) as Hk by (unfold create_run_body; solve_se).
  specialize (Hk s Hs). unfold final in Hk at 1. rewrite Hr in Hk.
  assert (preserves P (r ← send_run r a3; mret (read_run_schema r))) as Hsend; [|by apply Hsend].
  unfold send_run. solve_se.
Qed.
Lemma pending_stop_run j u : preserves P (stop_run j u).
Proof. unfold stop_run. solve_se. Qed.
Lemma pending_send_job t : preserves P (send_job_to_celery t).
Proof.
  unfold send_job_to_celery. apply preserves_bind; [solve_se|]. intros [tr|]; [|apply preserves_ret].
  unfold transfer_queue. do 3 (apply preserves_bind; [solve_se|intros ?]).
  apply preserves_bind_ok; [unfold create_scheduled_run; solve_se|]. intros s r s' Hs Hr.
  pose proof (created_other _ _ _ _ _ _ _ Hs Hr) as Hi.
  assert (preserves P (unit_of_work (create_scheduled_run t a0 a1))) as Hk by (unfold create_scheduled_run; solve_se).
  specialize (Hk s Hs). unfold final in Hk at 1. rewrite Hr in Hk.
  assert (preserves P (send_scheduled_run r a)) as Hsend; [|by apply Hsend]. unfold send_scheduled_run. solve_se.
Qed.

(** the sessions of workers: taking a run leaves it unended, ending another one too *)
Lemma pending_flush f r : (run_id r = i -> forall r0, ended r0 = false -> ended (f r0) = false) -> preserves P (flush f r).
Proof.
  intros Hr. apply flush_preserves. intros s Hs. apply pending_update; [done|].
  intros Hi r0 Hr0. destruct Hs as (_ & _ & Hw). apply (Hr Hi), Hw, Hr0.
Qed.
Lemma pending_begin j : preserves P (begin_run j).
Proof.
  apply keeps_unit_of_work; [apply _|]. apply begin_body_preserves. intros t r s _. revert s.
  apply mark_started_preserves. intros url at_ s Hs. by apply pending_update.
Qed.
Lemma pending_finish j st s : j <> i -> (forall r, runs (working s) !! j = Some r -> run_id r = j) ->
  P s -> P (final (finish_run j st) s).
Proof.
  intros Hj Hid Hs. assert (P (final (finish_body j st) s)) as Hb.
  { unfold finish_body, final. rewrite bind_run. cbn -[flush]. destruct (runs (working s) !! j) as [r|] eqn:Hr; [|done].
    specialize (Hid r eq_refl). rewrite bind_run. cbn -[flush]. rewrite bind_run.
    assert (P (final (flush (set_ended st (clock s)) r) s)) as Hf.
    { apply pending_flush; [|done]. by rewrite Hid. }
    unfold final in Hf. destruct (flush _ r s) as [[?|?] s']; exact Hf. }
  unfold finish_run, unit_of_work, final in *.
  destruct (finish_body j st s) as [[?|?] s1]; [by apply keeps_commit|by apply keeps_rollback].
Qed.

Lemma pending_step w w' : sys_inv w -> sys_step w w' -> (forall b, (i, b) ∉ in_flight w) ->
  P (db_session w) -> P (db_session w').
Proof.
  intros Hinv Hstep. pose proof (inv_clean w Hinv) as Hcl. pose proof (inv_runs w Hinv) as Hruns. revert Hcl Hruns. clear Hinv.
  destruct Hstep as [s s' l Hst|j s l|j t s s' l Hr|j s s' l Hr|j e s s' l Hr|j b st s l1 l2 Hst|x s l1 l2];
    intros Hcl Hruns Hi Hs; cbn in *; try (pose proof (pending_begin j s Hs) as Hp; unfold final in Hp; by rewrite Hr in Hp).
  - eapply server_keeps; [apply _..|apply pending_start_run|apply pending_stop_run|by intros ?? (?&?&?)|exact Hst|exact Hs].
  - apply keeps_rollback. by apply pending_send_job.
  - apply pending_finish; [|by intros r Hr; rewrite Hcl in Hr; destruct (Hruns j r Hr)|done].
    intros ->. apply (Hi b). set_solver.
  - done.
Qed.
End Pending.

(** ** Runs nobody will end *)

(** a session that fails has found a CREATED run *)
Lemma begin_run_raises i e s s' : begin_run i s = (Raise e, s') ->
  exists r, runs (working s) !! i = Some r /\ run_status r = CREATED.
Proof.
  unfold begin_run, unit_of_work. destruct (begin_body i s) as [[?|e'] s1] eqn:Hb; [done|]. intros _.
  destruct (runs (working s) !! i) as [r|] eqn:Hr.
  - exists r. split; [done|]. destruct (decide (run_status r = CREATED)) as [|Hn]; [done|]. exfalso.
    unfold begin_body in Hb. rewrite bind_run, read_created_not in Hb; [done|]. rewrite Hr. by intros ? [= <-].
  - unfold begin_body in Hb. by rewrite bind_run, read_created_not in Hb by (by rewrite Hr).
Qed.

(** not ended, not waiting for a worker, and held by none *)
Record abandoned (i : Z) (w : System) : Prop := mkAbandoned {
  ab_pending : pending i (db_session w);
  ab_not_created : forall r, runs (committed (db_session w)) !! i = Some r -> run_status r <> CREATED;
  ab_not_held : forall b, (i, b) ∉ in_flight w;
}.

Lemma abandoned_step i w w' : sys_inv w -> sys_step w w' -> abandoned i w -> abandoned i w'.
Proof.
  intros Hinv Hstep [Hp Hc Hh]. pose proof (pending_step i w w' Hinv Hstep Hh Hp) as Hp'.
  pose proof (sys_step_tracked _ _ _ _ (runs_below w Hinv) Hstep (inv_clean w Hinv) (inv_started w Hinv)
    (tracked_self w Hinv)) as (_ & Ht & _).
  constructor; [done|..].
  - intros r' Hr' Hcr. destruct (Ht i r' Hr') as [_ Hf]. unfold comes_from in Hf.
    destruct (runs (committed (db_session w)) !! i) as [r|] eqn:Hr.
    + apply (Hc r eq_refl), rank_created. destruct Hf as [_ _ _ _ _ Hrk _]. by rewrite Hcr in Hrk.
    + destruct Hp as [Hlt _]. lia.
  - assert (forall j r0, runs (working (db_session w)) !! j = Some r0 -> run_id r0 = j) as Hid.
    { intros j r0. rewrite (inv_clean w Hinv). intros Hj. by destruct (inv_runs w Hinv j r0 Hj). }
    rewrite <- (inv_clean w Hinv) in Hc. intros b. destruct Hstep as [s s' l Hst|j s l|j t s s' l Hr|j s s' l Hr|j e s s' l Hr|j b' st s l1 l2 Hst|x s l1 l2];
      cbn in *; try exact (Hh b); try (specialize (Hh b); set_solver).
    + intros [[= -> ->]|Hin]%elem_of_cons; [|by eapply Hh].
      apply begin_run_taken in Hr as (r & _ & Hr & Hcr & _); [by eapply Hc|apply Hid].
    + intros [[= -> ->]|Hin]%elem_of_cons; [|by eapply Hh].
      apply begin_run_raises in Hr as (r & Hr & Hcr). by eapply Hc.
Qed.
Lemma abandoned_forever i w w' : sys_reachable w -> rtc sys_step w w' -> abandoned i w -> abandoned i w'.
Proof.
  intros Hw Hst. revert Hw. induction Hst as [|w w1 w' Hstep _ IH]; [done|]. intros Hw Ha.
  apply IH; [by eapply sys_next|]. eapply abandoned_step; [by apply sys_reachable_inv|done|done].
Qed.

(** ** Runs that a worker can end *)

Lemma held_ends i b w r : sys_reachable w -> (i, b) ∈ in_flight w ->
  runs (committed (db_session w)) !! i = Some r ->
  exists w' r', sys_step w w' /\ runs (committed (db_session w')) !! i = Some r' /\ ended r' = true.
Proof.
  intros Hw Hin Hr. pose proof (sys_reachable_inv w Hw) as [Hcl Hruns _ _].
  destruct (reachable_checked w Hw) as [[_ Hwf] [_ Hsz]]. destruct w as [s l]. cbn in *.
  apply list_elem_of_split in Hin as (l1 & l2 & ->). rewrite <- Hcl in Hr.
  destruct (finish_run_ok i FAILED s r) as (s' & Hf & Hc & _); [done|exact (wf_key (R := Run) _ _ _ Hwf Hr)|..].
  - apply check_row_ok. split_and!; [by eapply Hsz|set_solver|by eapply (wf_refs (R := Run))].
  - eexists _, _. split; [eapply (sys_finish _ i b FAILED); by right|]. unfold final. rewrite Hf. cbn. rewrite Hc. cbn.
    rewrite lookup_insert_eq. by split.
Qed.

Lemma created_taken i w r : sys_reachable w -> runs (committed (db_session w)) !! i = Some r ->
  run_status r = CREATED ->
  exists w' b r', sys_step w w' /\ (i, b) ∈ in_flight w' /\ runs (committed (db_session w')) !! i = Some r'.
Proof.
  intros Hw Hr Hc. pose proof (sys_reachable_inv w Hw) as [Hcl Hruns _ _]. destruct w as [s l]. cbn in *.
  rewrite <- Hcl in Hr. destruct (begin_run i s) as [[[t|]|e] s'] eqn:Hb.
  - pose proof Hb as Ht. apply begin_run_taken in Ht as (r1 & r' & Hr1 & _ & _ & _ & _ & Hrs);
      [|intros r0 Hr0; rewrite Hcl in Hr0; by destruct (Hruns i r0 Hr0)].
    rewrite Hr in Hr1. injection Hr1 as <-. assert (run_id r = i) as Hid by (rewrite Hcl in Hr; by destruct (Hruns i r Hr)).
    eexists _, true, r'. split; [by eapply sys_begin|]. cbn. rewrite Hrs, Hid, lookup_insert_eq. split; [set_solver|done].
  - exfalso. unfold begin_run in Hb. apply unit_of_work_ok in Hb as (s1 & Hb & _). apply begin_body_none in Hb as [_ Hn].
    by eapply Hn.
  - eexists _, false, r. split; [by eapply sys_begin_fails|]. cbn. split; [set_solver|].
    unfold begin_run, unit_of_work in Hb. pose proof (begin_body_frame i s) as [Hfr _]. unfold final in Hfr.
    destruct (begin_body i s) as [[?|?] s1]; [done|]. injection Hb as _ <-. cbn in *. by rewrite Hfr, <- Hcl.
Qed.

End Sessions.

(** ** Witnesses *)

(** the run of [resources_1], stopped before a worker took it *)
Definition world_stopped : Session :=
  play (people ++ resources_1 ++ [Req 2 (StartRun 1); Req 2 (StopRun 1)]).

