(* ===== verification/Overlap.v ===== *)
(** * Sessions of workers that overlap

    The session of [run_transfer] that takes a run reads it with a SELECT, without FOR
    UPDATE, and stores it with an UPDATE by id when it commits; the transactions are READ
    COMMITTED, so other sessions commit in between.  [System] has the session as one step;
    here its two halves are steps of their own, interleaved with those of the other
    workers and with every step of [System]. *)

From S2P Require Import Prelude PyData Models Errors Database Integrity Search Repository.
From S2P Require Import Repositories RepositoryFacts Pydantic ConnectionSchemas TransferSchemas.
From S2P Require Import Auth ApiGroups ApiQueues ApiConnections ApiTransfers ApiRuns Server.
From S2P Require Import ServerFacts Deletion Membership Examples ConnectionTheorems Scheduler.
From S2P Require Import Dto Handlers Spark Controller RunTask RunLifecycle WorkerExamples.
From S2P Require Import LifecycleTheorems RunEnding.

(** the system, and what the sessions that did not commit yet have read *)
Record Workers := mkWorkers { shared : System; reading : list Taken }.
Definition held_run_id (t : Taken) : Z := run_id (lr_run (taken_run t)).

Section Overlap.
Context `{TextSearch} `{Cipher} `{PydanticCore} `{PyLib} `{Broker} `{AuthProviderLaws} `{LogUrl}.

Inductive overlap_step : Workers -> Workers -> Prop :=
| ov_system w w' l : sys_step w w' -> overlap_step (mkWorkers w l) (mkWorkers w' l)
| ov_read i t w l : outcome (read_created i) (db_session w) = Ok (Some t) ->
    overlap_step (mkWorkers w l) (mkWorkers w (t :: l))
| ov_commit t t' s s' f l1 l2 : unit_of_work (mark_started t) s = (Ok t', s') ->
    overlap_step (mkWorkers (mkSystem s f) (l1 ++ t :: l2))
      (mkWorkers (mkSystem s' ((held_run_id t, true) :: f)) (l1 ++ l2))
| ov_fails t e s s' f l1 l2 : unit_of_work (mark_started t) s = (Raise e, s') ->
    overlap_step (mkWorkers (mkSystem s f) (l1 ++ t :: l2))
      (mkWorkers (mkSystem s' ((held_run_id t, false) :: f)) (l1 ++ l2))
| ov_crash t w l1 l2 : overlap_step (mkWorkers w (l1 ++ t :: l2)) (mkWorkers w (l1 ++ l2)).

Inductive overlap_reachable : Workers -> Prop :=
| ov_init sq t : overlap_reachable (mkWorkers (mkSystem (session_on empty_db sq t) []) [])
| ov_next c c' : overlap_reachable c -> overlap_step c c' -> overlap_reachable c'.

(** ** Runs that were taken are never CREATED again *)

Section Taken.
Context (taken : Z -> Prop) (n0 : Z) (Hold : forall i, taken i -> i < n0).

(** a run has the id it is stored under, one that was given out; one that was taken is not
    CREATED *)
Definition settled (n : Z) (db : DB) : Prop :=
  map_Forall (fun i r => run_id r = i /\ i < n /\ (taken i -> run_status r <> CREATED)) (runs db).
Definition stays_taken (s : Session) : Prop :=
  n0 <= seqs s SeqRun /\ settled (seqs s SeqRun) (committed s) /\ settled (seqs s SeqRun) (working s).
Notation P := stays_taken.

Lemma settled_mono n n' db : n <= n' -> settled n db -> settled n' db.
Proof. intros Hn Hd i r Hi. destruct (Hd i r Hi) as (? & ? & ?). split_and!; [done|lia|done]. Qed.
Lemma settled_sub n db db' : runs db' ⊆ runs db -> settled n db -> settled n db'.
Proof. intros Hs Hd i r Hi. eapply Hd, lookup_weaken; [exact Hi|exact Hs]. Qed.
Lemma settled_insert n (r : Run) db : run_id r < n -> (taken (run_id r) -> run_status r <> CREATED) ->
  settled n db -> settled n (with_tbl (<[run_id r := r]> (runs db)) db).
Proof. intros Hr Hc Hd i r'. cbn. rewrite lookup_insert. case_decide as He; [subst i; intros [= <-]; by split_and!|apply Hd]. Qed.

#[export] Instance stays_taken_session : KeepsSession P.
Proof.
  constructor; [intros q s (? & ? & ?)|intros s (? & ? & ?); split_and!; assumption..].
  unfold stays_taken, final, nextval. cbn. split_and!; [case_decide; subst; lia|eapply settled_mono; [|done]; case_decide; subst; lia..].
Qed.
#[export] Instance stays_taken_other {K R} `{NoRuns R (K := K)} : KeepsTable P R.
Proof.
  assert (forall n m db, settled n db -> settled n (with_tbl (R := R) m db)) as Hin.
  { intros n m db. unfold settled. by rewrite no_runs. }
  constructor; [intros r s (? & ? & ?)|intros k f _ s (? & ? & ?)|intros k s (? & ? & ?)];
    unfold final, insert_row, update_row, delete_row; repeat case_match; (split_and!; [done..|]);
    cbn [committed working seqs set_working snd]; auto.
  eapply settled_sub; [apply runs_cascade|auto].
Qed.

(** an UPDATE that keeps the id and does not store CREATED over another status *)
Lemma stays_taken_update j (f : Run -> Run) s : (forall r, run_id (f r) = run_id r) ->
  (forall r, run_status r <> CREATED -> run_status (f r) <> CREATED) -> P s -> P (final (update_row j f) s).
Proof.
  intros Hid Hf (Hn & Hc & Hw). unfold final, update_row. cbn [tbl RunTable].
  destruct (runs (working s) !! j) as [r|] eqn:Hj; [|by split_and!]. destruct (check_row _ _) as [[]|]; [|by split_and!].
  split_and!; [done..|]. cbn [working seqs set_working snd]. destruct (Hw j r Hj) as (Hr & Hlt & Ht).
  rewrite <- Hr in Hlt, Ht |- *. assert (run_id (touch (clock s) (f r)) = run_id r) as Hi by apply Hid.
  rewrite <- Hi. apply settled_insert; rewrite ?Hi; [done| |done]. intros Hx. by apply Hf, Ht.
Qed.

Lemma stays_taken_create t a b k : preserves P (RunRepository.create t a b k).
Proof.
  unfold RunRepository.create. apply preserves_bind; [apply read_only_preserves, run_serialized_ro|].
  intros dump. apply preserves_bind; [apply preserves_gets|]. intros at_.
  apply except_integrity_wf. intros s Hs. unfold insert_new, final. rewrite bind_run.
  pose proof (keeps_nextval SeqRun s Hs) as Hs1. unfold final, nextval in *. cbn [snd] in *.
  set (s1 := mkSession _ _ _ _) in *. destruct Hs as (Hn & _). destruct Hs1 as (Hn1 & Hc1 & Hw1).
  unfold insert_row. repeat case_match; cbn [snd]; try done. split_and!; [done..|].
  apply settled_insert; [cbn; case_decide; [lia|done]| |done]. intros Ht%Hold. cbn in Ht. lia.
Qed.
Lemma stays_taken_fail j : preserves P (RunRepository.update j FAILED).
Proof.
  apply except_integrity_wf, preserves_bind; [|intros []; [apply preserves_ret|apply preserves_raise]].
  intros s. by apply stays_taken_update.
Qed.
Lemma stays_taken_stop j : preserves P (RunRepository.stop j).
Proof.
  apply preserves_bind; [apply read_only_preserves, run_read_by_id_ro|]. intros r.
  apply preserves_bind; [apply preserves_when|]. intros _.
  apply preserves_bind; [|intros []; [apply preserves_ret|apply preserves_raise]].
  intros s. by apply stays_taken_update.
Qed.
#[local] Hint Resolve stays_taken_create stays_taken_fail stays_taken_stop : se.

Lemma stays_taken_start_run t u : preserves P (start_run t u).
Proof. unfold start_run, create_run_body, send_run. solve_se. Qed.
Lemma stays_taken_stop_run i u : preserves P (stop_run i u).
Proof. unfold stop_run. solve_se. Qed.
Lemma stays_taken_send_job i : preserves P (send_job_to_celery i).
Proof. unfold send_job_to_celery, create_scheduled_run, send_scheduled_run, transfer_queue. solve_se. Qed.
Lemma stays_taken_mark t : preserves P (mark_started t).
Proof. apply mark_started_preserves. intros url at_ s. by apply stays_taken_update. Qed.
Lemma stays_taken_begin i : preserves P (begin_run i).
Proof. apply keeps_unit_of_work; [apply _|]. apply begin_body_preserves. intros t r s _. apply stays_taken_mark. Qed.
Lemma stays_taken_finish i st : st <> CREATED -> preserves P (finish_run i st).
Proof.
  intros Hst. apply keeps_unit_of_work; [apply _|]. apply preserves_bind; [by apply read_only_preserves|].
  intros [r|]; [|apply preserves_ret]. apply preserves_bind; [apply preserves_gets|]. intros t.
  apply preserves_bind; [|intros ?; apply preserves_ret]. apply flush_preserves. intros s. by apply stays_taken_update.
Qed.

Lemma stays_taken_system w w' : sys_step w w' -> P (db_session w) -> P (db_session w').
Proof.
  intros [s s' l Hst|i s l|i t s s' l Hr|i s s' l Hr|i e s s' l Hr|i b st s l1 l2 Hst|x s l1 l2] Hs; cbn in *;
    try (pose proof (stays_taken_begin i s Hs) as Hp; unfold final in Hp; by rewrite Hr in Hp).
  - eapply server_keeps; [apply _..|apply stays_taken_start_run|apply stays_taken_stop_run|by intros ?? (?&?&?)|exact Hst|exact Hs].
  - apply keeps_rollback. by apply stays_taken_send_job.
  - apply stays_taken_finish; [|done]. by destruct Hst as [[-> _]| ->].
  - done.
Qed.
Lemma stays_taken_step c c' : overlap_step c c' -> P (db_session (shared c)) -> P (db_session (shared c')).
Proof.
  intros [w w' l Hst|i t w l _|t t' s s' f l1 l2 Hu|t e s s' f l1 l2 Hu|t w l1 l2] Hs; cbn in *; try done.
  - by eapply stays_taken_system.
  - pose proof (keeps_unit_of_work P _ (stays_taken_mark t) s Hs) as Hp. unfold final in Hp. by rewrite Hu in Hp.
  - pose proof (keeps_unit_of_work P _ (stays_taken_mark t) s Hs) as Hp. unfold final in Hp. by rewrite Hu in Hp.
Qed.
End Taken.

Lemma mark_started_clean t r s s' : unit_of_work (mark_started t) s = (r, s') -> working s' = committed s'.
Proof. unfold unit_of_work. by destruct (mark_started t s) as [[|]]; intros [= <- <-]. Qed.
Lemma overlap_step_clean c c' : overlap_step c c' ->
  working (db_session (shared c)) = committed (db_session (shared c)) ->
  working (db_session (shared c')) = committed (db_session (shared c')).
Proof.
  intros [w w' l Hst|i t w l _|t t' s s' f l1 l2 Hu|t e s s' f l1 l2 Hu|t w l1 l2] Hc; cbn in *; try done;
    [by eapply sys_step_clean|by eapply mark_started_clean..].
Qed.
Lemma overlap_reachable_inv c : overlap_reachable c ->
  working (db_session (shared c)) = committed (db_session (shared c)) /\
  exists n0, stays_taken (fun _ => False) n0 (db_session (shared c)).
Proof.
  induction 1 as [sq t|c c' _ [Hc [n0 Hn]] Hs].
  - split; [done|]. exists (sq SeqRun). split_and!; [done|apply map_Forall_empty..].
  - split; [by eapply overlap_step_clean|]. exists n0. by eapply stays_taken_step.
Qed.
Lemma overlap_steps taken n0 c c' : (forall i, taken i -> i < n0) -> rtc overlap_step c c' ->
  working (db_session (shared c)) = committed (db_session (shared c)) ->
  stays_taken taken n0 (db_session (shared c)) ->
  working (db_session (shared c')) = committed (db_session (shared c')) /\
  stays_taken taken n0 (db_session (shared c')).
Proof.
  intros Hold Hst. induction Hst as [c|c c1 c' Hstep _ IH]; [done|]. intros Hc Hs.
  apply IH; [by eapply overlap_step_clean|by eapply stays_taken_step].
Qed.

(** what the commit of a session leaves *)
Lemma committed_taken n0 t t' s s' : stays_taken (fun _ => False) n0 s ->
  unit_of_work (mark_started t) s = (Ok t', s') ->
  held_run_id t < seqs s SeqRun /\ stays_taken (eq (held_run_id t)) (seqs s SeqRun) s'.
Proof.
  intros (_ & Hc & Hw) Hu. apply unit_of_work_ok in Hu as (s1 & Hm & ->). unfold held_run_id.
  destruct (taken_run t) as [r tr g cs ct] eqn:Ht.
  destruct (mark_started_ok _ _ _ _ _ _ _ _ _ Ht Hm) as (r0 & url & Hr & Hurl & Ht1 & Hchk & Hcom & Hclk & Hseq & Hw1).
  destruct (Hw _ _ Hr) as (Hid & Hlt & _). cbn. split; [done|]. unfold stays_taken. cbn. rewrite Hseq, Hw1.
  split; [done|]. assert (forall x, x = with_tbl (<[run_id r := touch (clock s) (set_log_url url (set_started (clock s) r0))]>
    (runs (working s))) (working s) -> settled (eq (run_id r)) (seqs s SeqRun) x) as Hx; [|split; by apply Hx].
  intros x -> j r'. cbn. rewrite lookup_insert. case_decide as Hj; [subst j; by intros [= <-]|].
  intros Hr'. destruct (Hw j r' Hr') as (? & ? & _). by split_and!.
Qed.

(** C13 Once the session of a worker that takes a run has committed, no later session takes
    the run: whatever requests, jobs and sessions of other workers come in between, half
    done ones included, it finds nothing to do and changes nothing. *)
Theorem run_taken_once t t' s s' f l1 l2 c' :
  overlap_reachable (mkWorkers (mkSystem s f) (l1 ++ t :: l2)) ->
  unit_of_work (mark_started t) s = (Ok t', s') ->
  rtc overlap_step (mkWorkers (mkSystem s' ((held_run_id t, true) :: f)) (l1 ++ l2)) c' ->
  let s1 := db_session (shared c') in begin_run (held_run_id t) s1 = (Ok None, s1).
Proof.
  intros Hr Hu Hst. destruct (overlap_reachable_inv _ Hr) as [_ [n0 Hn]]. cbn in Hn.
  destruct (committed_taken _ _ _ _ _ Hn Hu) as [Hlt Ht].
  destruct (overlap_steps (eq (held_run_id t)) (seqs s SeqRun) _ _ ltac:(by intros ? <-) Hst) as [Hc (_ & _ & Hw)].
  - by eapply mark_started_clean.
  - done.
  - intros s1. unfold begin_run, unit_of_work, begin_body. rewrite bind_run, read_created_not.
    + f_equal. by apply commit_clean.
    + intros r Hi. by destruct (Hw _ r Hi) as (_ & _ & Hx); apply Hx.
Qed.

(** ** Sessions that overlap *)

(** the session of a worker is its two halves with nothing in between *)
Lemma begin_run_halves i t' s s' : begin_run i s = (Ok (Some t'), s') ->
  exists t, outcome (read_created i) s = Ok (Some t) /\ (exists r, found_created (working s) i t r) /\
    unit_of_work (mark_started t) s = (Ok t', s').
Proof.
  intros Hb. apply unit_of_work_ok in Hb as (s1 & Hb & ->). unfold begin_body in Hb.
  apply bind_ok in Hb as ([t|] & s0 & Hr & Hb); [|done]. exists t. unfold outcome. rewrite Hr. split; [done|].
  apply read_created_ok in Hr as [-> Hr]. split; [done|]. apply bind_ok in Hb as (t1 & s2 & Hm & Hb).
  apply mret_ok in Hb as [[= ->] ->]. unfold unit_of_work. by rewrite Hm.
Qed.

(** the second half succeeds again, whatever was stored in the run meanwhile *)
Lemma mark_started_again t t1 s s1 s2 r2 : unit_of_work (mark_started t) s = (Ok t1, s1) ->
  clock s2 = clock s -> transfers (working s2) = transfers (working s) ->
  runs (working s2) !! held_run_id t = Some r2 ->
  (forall r, runs (working s) !! held_run_id t = Some r -> run_transfer_id r2 = run_transfer_id r) ->
  exists t3 s3 r3, unit_of_work (mark_started t) s2 = (Ok t3, s3) /\
    runs (committed s3) !! held_run_id t = Some r3 /\ run_status r3 = STARTED.
Proof.
  intros Hu Hclk Htr Hr2 Hid. apply unit_of_work_ok in Hu as (s0 & Hm & ->). unfold held_run_id in *.
  destruct (taken_run t) as [r tr g cs ct] eqn:Ht.
  destruct (mark_started_ok _ _ _ _ _ _ _ _ _ Ht Hm) as (r0 & url & Hr & Hurl & _ & Hchk & _).
  unfold unit_of_work, mark_started. rewrite Ht. cbn [lr_run] in *. rewrite bind_run. cbn -[flush mbind].
  rewrite Hclk, bind_run. unfold reads at 1. rewrite Hurl, bind_run.
  unfold flush. rewrite bind_run. unfold update_row. cbn [tbl RunTable]. rewrite Hr2, Hclk.
  rewrite (check_run_ext _ _ _ _ Hchk); [|done|by apply (Hid r0)|done].
  eexists _, _, _. split; [reflexivity|]. cbn. rewrite lookup_insert_eq. by split.
Qed.

Lemma wf_run_id db i r : db_wf db -> runs db !! i = Some r -> run_id r = i.
Proof. intros Hwf Hi. exact (wf_key (R := Run) _ _ _ Hwf Hi). Qed.

(** the state after the commit of a session that read the run as it still is *)
Lemma commit_of_found i t0 t r s s1 : found_created (working s) i t0 r -> run_id r = i ->
  unit_of_work (mark_started t0) s = (Ok t, s1) ->
  held_run_id t0 = i /\ clock s1 = clock s /\ working s1 = committed s1 /\ exists r1,
    run_status r1 = STARTED /\ run_id r1 = i /\ run_transfer_id r1 = run_transfer_id r /\
    committed s1 = with_tbl (<[i := r1]> (runs (working s))) (working s) /\ check_row (committed s1) r1 = Ok tt.
Proof.
  intros (tr & g & cs & ct & Hr & _ & Ht & _) Hid Hu. pose proof (mark_started_clean _ _ _ _ Hu) as Hcl.
  apply unit_of_work_ok in Hu as (s0 & Hm & ->). unfold held_run_id. rewrite Ht. split; [done|].
  destruct (mark_started_ok _ _ _ _ _ _ _ _ _ Ht Hm) as (r0 & url & Hr0 & _ & _ & Hchk & _ & Hclk & _ & Hw).
  rewrite Hid, Hr in Hr0. injection Hr0 as <-. split_and!; [done|done|]. cbn [committed commit]. rewrite Hw, Hid.
  eexists. split_and!; [..|reflexivity|by eapply check_run_ext]; done.
Qed.

(** C14 The session of a worker does not lock the run between its SELECT and its UPDATE.
    Wherever one worker can take a run two can, when both read it before one commits; and
    when the first has stored the run as FINISHED by the time the second commits, the run
    is STARTED again. *)
Theorem run_taken_twice i t s s1 f l : overlap_reachable (mkWorkers (mkSystem s f) l) ->
  begin_run i s = (Ok (Some t), s1) ->
  let c := mkWorkers (mkSystem s f) l in
  (exists s2, rtc overlap_step c (mkWorkers (mkSystem s2 ((i, true) :: (i, true) :: f)) l)) /\
  (exists c3 r3 c4 r4,
     rtc overlap_step c c3 /\ runs (committed (db_session (shared c3))) !! i = Some r3 /\ run_status r3 = FINISHED /\
     overlap_step c3 c4 /\ runs (committed (db_session (shared c4))) !! i = Some r4 /\ run_status r4 = STARTED /\
     in_flight (shared c4) = (i, true) :: f).
Proof.
  intros Hre Hb. destruct (overlap_reachable_inv _ Hre) as [_ [n0 (_ & _ & Hw)]]. cbn in Hw.
  apply begin_run_halves in Hb as (t0 & Hread & [r Hf] & Hu).
  assert (runs (working s) !! i = Some r) as Hr by (by destruct Hf as (?&?&?&?&?&_)).
  destruct (Hw i r Hr) as (Hid & _). destruct (commit_of_found _ _ _ _ _ _ Hf Hid Hu) as (Hi & Hclk & Hcl & r1 & Hs1 & Hid1 & Htr1 & Hc1 & Hchk).
  assert (rtc overlap_step (mkWorkers (mkSystem s f) l) (mkWorkers (mkSystem s1 ((i, true) :: f)) (t0 :: l))) as Hst.
  { do 2 (eapply rtc_l; [by apply (ov_read i t0)|]). apply rtc_once. rewrite <- Hi. by apply (ov_commit t0 t s s1 f [] (t0 :: l)). }
  assert (runs (working s1) !! i = Some r1) as Hr1 by (rewrite Hcl, Hc1; apply lookup_insert_eq).
  assert (transfers (working s1) = transfers (working s)) as Htr by (by rewrite Hcl, Hc1).
  assert (forall r', runs (working s) !! held_run_id t0 = Some r' -> run_transfer_id r1 = run_transfer_id r') as Hsame.
  { intros r'. rewrite Hi, Hr. by intros [= <-]. }
  split.
  - destruct (mark_started_again t0 t s s1 s1 r1 Hu) as (t3 & s3 & r3 & Hu3 & _); [done|done|by rewrite Hi|done|].
    exists s3. eapply rtc_r; [exact Hst|]. pose proof (ov_commit t0 t3 s1 s3 ((i, true) :: f) [] l Hu3) as Hov. by rewrite Hi in Hov.
  - destruct (finish_run_ok i FINISHED s1 r1) as (s2 & Hfin & Hc2 & Hcl2 & Hclk2); [done|done|by rewrite Hcl|].
    set (r2 := touch _ _) in *. assert (runs (committed s2) !! i = Some r2) as Hr2 by (rewrite Hc2; apply lookup_insert_eq).
    destruct (mark_started_again t0 t s s1 s2 r2 Hu) as (t3 & s3 & r3 & Hu3 & Hr3 & Hs3).
    + by rewrite Hclk2.
    + by rewrite Hcl2, Hc2.
    + by rewrite Hi, Hcl2.
    + exact Hsame.
    + exists (mkWorkers (mkSystem s2 f) (t0 :: l)), r2, (mkWorkers (mkSystem s3 ((i, true) :: f)) l), r3. split_and!; try done.
      * eapply rtc_r; [exact Hst|]. apply ov_system. pose proof (sys_finish any_request i true FINISHED s1 [] f) as Hfs.
        unfold final in Hfs. rewrite Hfin in Hfs. apply Hfs. by left.
      * pose proof (ov_commit t0 t3 s2 s3 f [] l Hu3) as Hov. by rewrite Hi in Hov.
      * by rewrite <- Hi.
Qed.
End Overlap.

(** ** Witnesses *)

Lemma system_overlaps `{TextSearch} `{Cipher} `{PydanticCore} `{PyLib} `{Broker} `{AuthProviderLaws} `{LogUrl} w :
  sys_reachable w -> overlap_reachable (mkWorkers w []).
Proof. induction 1 as [sq t|w w' _ IH Hs]; [apply ov_init|]. eapply ov_next; [exact IH|]. by apply ov_system. Qed.
Lemma waiting_overlaps : overlap_reachable (mkWorkers (mkSystem world_waiting []) []).
Proof. apply system_overlaps, waiting_reachable. Qed.

Lemma run_taken_once_witness : begin_run 1 world_taken = (Ok None, world_taken).
Proof.
  destruct waiting_taken as [t' Ht]. apply begin_run_halves in Ht as (t & Hr & (r & tr & g & cs & ct & Hi & _ & Ht & _) & Hu).
  assert (held_run_id t = 1) as Hid.
  { rewrite (proj2 world_waiting_wf) in Hi. unfold held_run_id. rewrite Ht.
    exact (wf_run_id _ 1 r (proj1 world_waiting_wf) Hi). }
  rewrite <- Hid.
  exact (run_taken_once t t' world_waiting world_taken [] [] []
    (mkWorkers (mkSystem world_taken [(held_run_id t, true)]) [])
    (ov_next _ _ waiting_overlaps (ov_read 1 t (mkSystem world_waiting []) [] Hr)) Hu (rtc_refl _ _)).
Defined.

Lemma run_taken_twice_witness :
  exists s2, rtc overlap_step (mkWorkers (mkSystem world_waiting []) []) (mkWorkers (mkSystem s2 [(1, true); (1, true)]) []).
Proof.
  destruct waiting_taken as [t Ht].
  exact (proj1 (run_taken_twice 1 t world_waiting world_taken [] [] waiting_overlaps Ht)).
Defined.
