(* ===== verification/Secrets.v ===== *)
(** * No secret leaves the server

    A run keeps a dump of its transfer with the connections and their credentials; a
    worker is given the id of the run and whoever may read the transfer may read the dump.
    [dumps_public]: no stored dump has a secret.  It is kept by whatever writes a run: a
    request or a job that starts it, a stop, and the sessions of its worker. *)

From S2P Require Import Prelude PyData Models Errors Database Integrity Search Repository.
From S2P Require Import Repositories RepositoryFacts Pydantic ConnectionSchemas TransferSchemas.
From S2P Require Import Auth ApiGroups ApiQueues ApiConnections ApiTransfers ApiRuns Server.
From S2P Require Import ServerFacts Deletion Membership Examples ConnectionTheorems RunTheorems.
From S2P Require Import Scheduler SchedulerTheorems.
From S2P Require Import Dto Handlers Spark Controller RunTask RunLifecycle WorkerExamples.
From S2P Require Import LifecycleTheorems RunEnding.

Definition dumps_public (db : DB) : Prop := map_Forall (fun _ r => public_dump (run_transfer_dump r)) (runs db).
#[local] Abbreviation P := (both dumps_public).

#[export] Instance dumps_session : KeepsSession P.
Proof. constructor; [intros q s []|intros s []..]; by split. Qed.
Lemma dumps_sub db db' : runs db' ⊆ runs db -> dumps_public db -> dumps_public db'.
Proof. intros Hs Hd i r Hi. eapply Hd, lookup_weaken; [exact Hi|exact Hs]. Qed.
Lemma dumps_put i r db : public_dump (run_transfer_dump r) -> dumps_public db ->
  dumps_public (with_tbl (<[i := r]> (runs db)) db).
Proof. intros Hr Hd. by apply map_Forall_insert_2. Qed.
#[export] Instance dumps_other {K R} `{NoRuns R (K := K)} : KeepsTable P R.
Proof.
  assert (forall m db, dumps_public db -> dumps_public (with_tbl (R := R) m db)) as Hin.
  { intros m db. unfold dumps_public. by rewrite no_runs. }
  constructor; [intros r s [? ?]|intros k f _ s [? ?]|intros k s [? ?]];
    unfold final, insert_row, update_row, delete_row; repeat case_match; (split; [done|]);
    cbn [working set_working snd]; auto.
  eapply dumps_sub; [apply runs_cascade|auto].
Qed.

(** a run that is written again keeps its dump *)
Lemma dumps_update i (f : Run -> Run) s r s' : (forall r0, run_transfer_dump (f r0) = run_transfer_dump r0) ->
  dumps_public (working s) -> _update i f s = (Ok r, s') -> dumps_public (working s').
Proof.
  intros Hf Hs Hu. apply _update_ok in Hu as (r0 & Hr0 & -> & _ & ->). apply dumps_put; [|done].
  cbn. rewrite Hf. by eapply Hs.
Qed.

Section Kept.
Context `{TextSearch} `{Cipher} `{PydanticCore} `{PyLib} `{Broker} `{AuthProviderLaws} `{LogUrl}.

(** a run that is created, and marked as failed when it cannot be sent *)
Lemma dumps_create type t cs ct : preserves P (unit_of_work
  (sc ← reads (fun _ => read_auth_data cs); tc ← reads (fun _ => read_auth_data ct); RunRepository.create t sc tc type)).
Proof.
  intros s Hs. apply keep_unit; [solve_se|done|]. intros r s' (dump & tr & _ & Hp & _ & Hr & _ & _ & Hw & _)%create_run_ok.
  rewrite Hw. apply dumps_put; [by rewrite Hr|apply Hs].
Qed.
Lemma dumps_fail i : preserves P (unit_of_work (RunRepository.update i FAILED)).
Proof.
  intros s Hs. apply keep_unit; [solve_se|done|]. intros r s' Hu. apply except_integrity_ok in Hu.
  by eapply dumps_update; [|apply Hs|exact Hu].
Qed.
#[local] Hint Resolve dumps_create dumps_fail : se.

Lemma dumps_start_run t u : preserves P (start_run t u).
Proof. unfold start_run, create_run_body, send_run. solve_se. Qed.
Lemma dumps_send_job i : preserves P (send_job_to_celery i).
Proof. unfold send_job_to_celery, create_scheduled_run, send_scheduled_run, transfer_queue. solve_se. Qed.
Lemma dumps_stop_run i u : preserves P (stop_run i u).
Proof.
  unfold stop_run. apply preserves_bind; [apply read_only_preserves, run_read_by_id_ro|intros r].
  do 3 (apply preserves_bind; [solve_se|intros ?]). apply preserves_bind; [|intros ?; apply preserves_ret].
  intros s Hs. apply keep_unit; [apply run_stop_nc|done|]. intros r1 s' Hu.
  unfold RunRepository.stop in Hu. apply bind_read_ok in Hu as (r2 & _ & Hu); [|apply run_read_by_id_ro].
  apply bind_ok in Hu as (? & s0 & Hw & Hu). apply when_ok in Hw as [_ ->].
  by apply (dumps_update i (RunRepository.set_status SEND_STOP_SIGNAL) s r1 s') in Hu; [|done|apply Hs].
Qed.

(** the sessions of a worker write the run they read *)
Lemma dumps_begin i : preserves P (begin_run i).
Proof.
  intros s Hs. apply keep_unit; [intros s0; apply begin_body_frame|done|]. intros o s' Hb.
  unfold begin_body in Hb. apply bind_ok in Hb as ([t|] & s0 & Hb & Hm).
  - apply read_created_ok in Hb as [-> (r & tr & g & cs & ct & _ & _ & Ht & _)].
    apply bind_ok in Hm as (t' & s0 & Hm & Hr). apply mret_ok in Hr as [_ ->].
    apply (mark_started_ok _ _ _ _ _ _ _ _ _ Ht) in Hm as (r0 & url & Hr & _ & _ & _ & _ & _ & _ & ->).
    apply dumps_put; [|apply Hs]. exact (proj2 Hs _ r0 Hr).
  - apply mret_ok in Hm as [_ ->]. apply read_created_none in Hb as [-> _]. apply Hs.
Qed.
Lemma flush_no_commit f r : no_commit (flush f r).
Proof. apply no_commit_bind; [apply no_commit_update|]. by intros []. Qed.
Lemma dumps_finish i st : preserves P (finish_run i st).
Proof.
  intros s Hs. apply keep_unit; [|done|].
  - apply no_commit_bind; [done|]. intros [r|]; [|done]. apply no_commit_bind; [done|]. intros t.
    apply no_commit_bind; [apply flush_no_commit|done].
  - intros x s' Hf. unfold finish_body in Hf. apply bind_ok in Hf as (o & s0 & [= <- <-] & Hf). cbn in Hf.
    destruct (runs (working s) !! i) as [r|] eqn:Hr; [|apply mret_ok in Hf as [_ ->]; apply Hs].
    apply bind_ok in Hf as (t & s0 & Ht & Hf). apply gets_ok in Ht as [-> ->].
    apply bind_ok in Hf as (r' & s0 & Hfl & Hf). apply mret_ok in Hf as [_ ->].
    apply flush_ok in Hfl as (r0 & Hr0 & _ & _ & _ & _ & _ & ->). apply dumps_put; [|apply Hs]. exact (proj2 Hs _ r0 Hr0).
Qed.

Lemma reachable_dumps w : sys_reachable w -> P (db_session w).
Proof.
  induction 1 as [sq t|w w' _ IH Hstep]; [split; apply map_Forall_empty|]. revert IH.
  apply (sys_step_preserves any_request P); [|apply dumps_send_job|apply dumps_begin|apply dumps_finish|exact Hstep].
  intros s s'. apply (server_keeps P); [apply dumps_start_run|apply dumps_stop_run|by intros s0 t0 []].
Qed.

(** ** Replies *)

Definition public_reply (r : Reply) : Prop :=
  match r with
  | RunReply rr => public_dump (rr_transfer_dump rr)
  | _ => public_connections r
  end.

Lemma run_read_ok i r s s' : RunRepository.read_by_id i s = (Ok r, s') -> runs (working s) !! i = Some r /\ s' = s.
Proof.
  unfold RunRepository.read_by_id. intros Hr. apply bind_ok in Hr as (o & s0 & [= <- <-] & Hr). cbn in Hr.
  destruct (runs (working s) !! i); [|done]. by apply mret_ok in Hr as [-> ->].
Qed.
Lemma read_run_public i u s rr s' : P s -> read_run i u s = (Ok rr, s') -> public_dump (rr_transfer_dump rr).
Proof.
  intros Hs Hr. unfold read_run in Hr. do 3 skip_read Hr. apply mret_ok in Hr as [-> _].
  apply run_read_ok in Hrun as [Hi _]. exact (proj2 Hs i a Hi).
Qed.
Lemma start_run_public t u s rr s' : start_run t u s = (Ok rr, s') -> public_dump (rr_transfer_dump rr).
Proof.
  intros Hr. unfold start_run in Hr. do 7 skip_read Hr. apply bind_ok in Hr as (r & s1 & Hu & Hr).
  apply unit_of_work_ok in Hu as (s0 & Hu & _). apply create_run_ok in Hu as (dump & tr & _ & Hp & _ & Hrr & _).
  apply bind_ok in Hr as (r' & s2 & Hsend & Hr). apply mret_ok in Hr as [-> _]. unfold send_run in Hsend.
  destruct (send_task _ _ _) as [?|e]; [apply mret_ok in Hsend as [-> _]; by rewrite Hrr|].
  destruct (isinstance _ _); [|done]. by apply bind_ok in Hsend as (? & ? & _ & Hsend).
Qed.
Lemma stop_run_public i u s rr s' : P s -> stop_run i u s = (Ok rr, s') -> public_dump (rr_transfer_dump rr).
Proof.
  intros Hs Hr. unfold stop_run in Hr. do 4 skip_read Hr. apply bind_ok in Hr as (r & s1 & Hu & Hr).
  apply mret_ok in Hr as [-> _]. apply unit_of_work_ok in Hu as (s0 & Hu & _). unfold RunRepository.stop in Hu.
  skip_read Hu. skip_read Hu. apply _update_ok in Hu as (r0 & Hr0 & -> & _). exact (proj2 Hs i r0 Hr0).
Qed.

(** what an error response of a server without [debug] holds beside a code and a message *)
Lemma error_details e : let r := handle_exception false e in
  resp_status r = 422 \/ resp_details r = None \/ exists url, resp_details r = Some (RedirectUrl url).
Proof. destruct e; vm_compute; eauto. Qed.

(** C6 No reply of the server carries a secret of a connection: in every state requests,
    jobs and whole sessions of workers reach, and whatever credentials are stored, the
    reply of a request that succeeds has only their public fields, whether it is a
    connection, a page of them or the dump of a transfer that a run keeps.  An error
    response of a server without [debug] has no details but the URL of the login page,
    unless its status is 422: then it holds the inputs that were refused, as they were. *)
Theorem replies_are_public w e token : sys_reachable w ->
  match (serve e token (db_session w)).1 with
  | inl r => public_reply r
  | inr r => resp_status r = 422 \/ resp_details r = None \/ exists url, resp_details r = Some (RedirectUrl url)
  end.
Proof.
  intros Hw. pose proof (reachable_dumps w Hw) as Hs. unfold serve.
  destruct (endpoint e token (db_session w)) as [[r|x] s1] eqn:He; [|apply error_details]. cbn [fst].
  unfold endpoint in He. apply bind_ok in He as (u & s2 & Hu & Hd). destruct (request_valid e); [|done].
  assert (P s2) as Hs2.
  { assert (preserves P (get_user (superuser_only e) token)) as Hk by (apply get_user_keeps; apply _).
    specialize (Hk (db_session w) Hs). unfold final in Hk. by rewrite Hu in Hk. }
  pose proof (connections_are_public e u s2 r s1 Hd) as Hc. destruct r; try exact Hc. cbn [public_reply].
  destruct e; cbn [dispatch] in Hd; unfold reply in Hd; apply bind_ok in Hd as (x & s3 & Hx & Hd); try discriminate Hd;
    apply mret_ok in Hd as [Hd _]; try discriminate Hd; injection Hd as ->.
  - by eapply read_run_public.
  - by eapply start_run_public.
  - by eapply stop_run_public.
Qed.
End Kept.

(** ** Witness *)

(** bob reads the run of a transfer; the dump has the user name and no password *)
Definition run_reply : Reply :=
  match (serve (ReadRunById 1) (token 2) world_taken).1 with inl r => r | inr _ => NoContent end.
Lemma replies_are_public_witness : public_reply run_reply /\
  exists rr, run_reply = RunReply rr /\ is_Some (dict_get "source_connection" (rr_transfer_dump rr)).
Proof.
  split.
  - pose proof (replies_are_public (mkSystem world_taken [(1, true)]) (ReadRunById 1) (token 2)
      (sys_next _ _ _ waiting_reachable taken_step)) as Hp.
    unfold run_reply. cbn [db_session] in Hp. destruct (serve (ReadRunById 1) (token 2) world_taken).1; [exact Hp|exact I].
  - eexists. split; [vm_compute; reflexivity|]. cbn. by eexists.
Defined.
