(* ===== verification/DtoFacts.v ===== *)
(** * Facts about the data transfer objects

    Whether a dataclass takes keyword arguments depends on their names alone
    ([accepts]); the names a validated body has are those of the fields of its
    schema.  So what the server accepted is checked against the dataclasses of the
    worker by evaluating [accepts] on the two lists of names, for each type of
    connection. *)

From S2P Require Import Prelude PyData Models Errors Repositories Pydantic ConnectionSchemas.
From S2P Require Import TransferSchemas Dto.
From S2P Require Import FilterExpressions Handlers Controller.

Lemma mapM_cons_ok {E A B} (f : A -> result E B) x l ys :
  mapM f (x :: l) = Ok ys <-> exists y ys', f x = Ok y /\ mapM f l = Ok ys' /\ ys = y :: ys'.
Proof.
  cbn. split.
  - destruct (f x) as [y|]; [|done]. destruct (mapM f l) as [ys'|]; [|done]. intros [= <-]. eauto 10.
  - by intros (y & ys' & -> & -> & ->).
Qed.

(** ** Keys *)

Lemma dict_get_is_Some {V} k (d : list (string * V)) : is_Some (dict_get k d) <-> k ∈ dict_keys d.
Proof.
  rewrite <- not_eq_None_Some, dict_get_None. split; [|tauto]. intros Hn.
  destruct (decide (k ∈ dict_keys d)); tauto.
Qed.

Lemma dict_mem_keys {V} k (d : list (string * V)) : dict_mem k d = bool_decide (k ∈ dict_keys d).
Proof.
  unfold dict_mem. pose proof (dict_get_is_Some k d) as Hd. destruct (dict_get k d).
  - symmetry. apply bool_decide_eq_true. rewrite <- Hd. eauto.
  - symmetry. apply bool_decide_eq_false. rewrite <- Hd. by intros [? ?].
Qed.

Lemma dict_keys_update {V} (d o : list (string * V)) k :
  k ∈ dict_keys (dict_update d o) <-> k ∈ dict_keys d \/ k ∈ dict_keys o.
Proof.
  revert d. induction o as [|[k' v] o IH]; intros d; [cbn; set_solver|].
  change (dict_update d ((k', v) :: o)) with (dict_update (dict_set k' v d) o).
  rewrite IH, dict_keys_set. cbn. set_solver.
Qed.

Lemma dict_keys_del_iff {V} (d : list (string * V)) k k' : NoDup (dict_keys d) ->
  k' ∈ dict_keys (dict_del k d) <-> k' <> k /\ k' ∈ dict_keys d.
Proof.
  intros Hnd. rewrite <- !dict_get_is_Some. destruct (decide (k' = k)) as [->|Hne].
  - rewrite dict_get_del_eq by done. split; [by intros [? ?]|by intros [? _]].
  - rewrite dict_get_del_ne by done. tauto.
Qed.

(** ** Dataclasses *)

(** the names a dataclass takes *)
Definition accepts {V} (c : Dataclass V) (keys : list string) : bool :=
  forallb (fun k => bool_decide (k ∈ dict_keys (dc_fields c))) keys &&
  forallb (fun f => match f.2 with Some _ => true | None => bool_decide (f.1 ∈ keys) end) (dc_fields c).

Lemma accepts_ext {V} (c : Dataclass V) l l' : (forall k, k ∈ l <-> k ∈ l') -> accepts c l = accepts c l'.
Proof.
  intros Hl. unfold accepts. apply eq_bool_prop_intro. rewrite !andb_True, !forallb_True, !Forall_forall. split; intros [H1 H2].
  - split; [intros k Hk; apply H1; by rewrite Hl|]. intros f Hf. specialize (H2 f Hf). destruct f.2; [done|].
    rewrite bool_decide_spec in *. by rewrite <- Hl.
  - split; [intros k Hk; apply H1; by rewrite <- Hl|]. intros f Hf. specialize (H2 f Hf). destruct f.2; [done|].
    rewrite bool_decide_spec in *. by rewrite Hl.
Qed.

Lemma mapM_init_get {V} kwargs (fields : list (string * option V)) attrs k :
  mapM (init_field kwargs) fields = Ok attrs ->
  dict_get k attrs = match dict_get k fields with
                     | Some o => match dict_get k kwargs with Some v => Some v | None => o end
                     | None => None
                     end.
Proof.
  revert attrs. induction fields as [|[n o] fields IH]; intros attrs; [by intros [= <-]|].
  intros ([n' v] & rest & Hf & Hr & ->)%mapM_cons_ok. unfold init_field in Hf. cbn in Hf.
  assert (n' = n /\ match dict_get n kwargs with Some w => Some w | None => o end = Some v) as [-> Hv].
  { destruct (dict_get n kwargs); [by injection Hf as -> ->|]. destruct o; [by injection Hf as -> ->|done]. }
  cbn. destruct (String.eqb_spec k n) as [->|]; [done|]. by apply IH.
Qed.

Lemma init_get {V} (c : Dataclass V) kwargs attrs k : dataclass_init c kwargs = Ok attrs ->
  dict_get k attrs = match dict_get k (dc_fields c) with
                     | Some o => match dict_get k kwargs with Some v => Some v | None => o end
                     | None => None
                     end.
Proof. unfold dataclass_init. destruct (forallb _ _); [apply mapM_init_get|done]. Qed.

Lemma dataclass_init_accepts {V} (c : Dataclass V) kwargs : accepts c (dict_keys kwargs) = true ->
  exists attrs, dataclass_init c kwargs = Ok attrs.
Proof.
  unfold accepts, dataclass_init. rewrite andb_true_iff, !forallb_forall. intros [Hk Hf].
  assert (forallb (fun kv => dict_mem kv.1 (dc_fields c)) kwargs = true) as ->.
  { apply forallb_forall. intros kv Hkv. rewrite dict_mem_keys. apply Hk. exact (in_map fst _ _ Hkv). }
  assert (forall l, incl l (dc_fields c) -> exists attrs, mapM (init_field kwargs) l = Ok attrs) as Hl;
    [|apply Hl, incl_refl].
  induction l as [|[n o] l IH]; intros Hin; [by exists []|]. apply incl_cons_inv in Hin as [Hn Hin].
  destruct (IH Hin) as [rest Hrest]. specialize (Hf _ Hn). cbn in Hf.
  assert (exists y, init_field kwargs (n, o) = Ok y) as [y Hy].
  { unfold init_field. cbn. destruct (dict_get n kwargs) as [v|] eqn:Hv; [by eexists|].
    destruct o as [v|]; [by eexists|]. apply bool_decide_eq_true, dict_get_is_Some in Hf as [w Hw]. congruence. }
  exists (y :: rest). apply mapM_cons_ok. by exists y, rest.
Qed.

Lemma make_accepts {V} (c : Dataclass V) kwargs : accepts c (dict_keys kwargs) = true ->
  exists o, make c kwargs = Ok o /\ obj_class o = c.
Proof. intros [attrs Ha]%dataclass_init_accepts. unfold make. rewrite Ha. by eexists. Qed.

(** the attributes of an instance are the fields of its class *)
Lemma init_keys {V} (c : Dataclass V) kwargs attrs : dataclass_init c kwargs = Ok attrs ->
  dict_keys attrs = dict_keys (dc_fields c).
Proof.
  unfold dataclass_init. destruct (forallb _ _); [|done]. revert attrs.
  induction (dc_fields c) as [|f fs IH]; intros attrs; [by intros [= <-]|].
  intros (y & ys & Hf & Hys & ->)%mapM_cons_ok. cbn. f_equal; [|by apply IH].
  unfold init_field in Hf. by repeat case_match; simplify_eq.
Qed.
Lemma made_fields {V} (c : Dataclass V) kwargs o k : make c kwargs = Ok o -> k ∈ dict_keys (dc_fields c) ->
  is_Some (dict_get k (obj_attrs o)).
Proof.
  unfold make. destruct (dataclass_init c kwargs) as [attrs|] eqn:Ha; [|done]. intros [= <-] Hk.
  apply dict_get_is_Some. cbn [obj_attrs].
  by rewrite (init_keys _ _ _ Ha).
Qed.
Lemma made_value {V} (c : Dataclass V) kwargs o k v : make c kwargs = Ok o -> k ∈ dict_keys (dc_fields c) ->
  dict_get k kwargs = Some v -> dict_get k (obj_attrs o) = Some v.
Proof.
  unfold make. destruct (dataclass_init c kwargs) as [attrs|] eqn:Ha; [|done].
  intros [= <-] [w Hw]%dict_get_is_Some Hk. cbn. by rewrite (init_get _ _ _ k Ha), Hw, Hk.
Qed.

(** ** Validated bodies *)

(** the discriminator field of an alternative *)
Definition tagged (k : string) (fs : list Field) : Prop :=
  NoDup (field_name <$> fs) /\
  exists fs1 o fs2, fs = fs1 ++ mkField "type" None (FLiteral [k]) o false keep :: fs2 /\
    (o = None \/ o = Some (JStr k)).

Section Validated.
Context `{PydanticCore}.

Lemma validate_literal k x v : validate (FLiteral [k]) x = Ok v -> v = JStr k.
Proof.
  destruct x; try done. cbn. rewrite orb_false_r. destruct (String.eqb_spec s k) as [->|]; [|done].
  by intros [= <-].
Qed.

Lemma validate_field_in input data n t v : validate_field validate input data (req n t) = Ok v ->
  exists x, field_input n None input = Some x /\ validate t x = Ok v.
Proof.
  cbn [validate_field req]. destruct (field_input n None input) as [x|]; [|done]. intros Hv.
  exists x. split; [done|]. by destruct (validate t x).
Qed.

Lemma tagged_type input k fs d : tagged k fs -> validate_fields validate input fs [] None = Ok d ->
  dict_get "type" d = Some (JStr k).
Proof.
  intros (Hnd & fs1 & o & fs2 & -> & Ho) Hd.
  apply validate_fields_get in Hd as (data & v & Hv & Hget & _); [|exact Hnd]. cbn [field_name] in Hget.
  rewrite Hget. f_equal. cbn [validate_field] in Hv. destruct (field_input _ _ _) as [x|].
  - destruct (validate (FLiteral [k]) x) as [w|] eqn:Hw; [|done]. injection Hv as <-. by eapply validate_literal.
  - destruct Ho as [->| ->]; [done|]. by injection Hv as <-.
Qed.

Lemma union_ok alts j d : union_validate validate alts j = Ok d ->
  exists k fs, (k, fs) ∈ alts /\ dict_keys d = field_name <$> fs /\
    (tagged k fs -> dict_get "type" d = Some (JStr k)).
Proof.
  destruct j as [| | | | |input]; try done. cbn. destruct (dict_get "type" input) as [[]|]; try done.
  rewrite pick_alternative_spec. destruct (dict_get s alts) as [fs|] eqn:Hfs; [|done]. intros Hd.
  exists s, fs. split_and!; [by apply dict_get_elem|by apply validate_fields_keys in Hd|].
  intros Ht. by eapply tagged_type.
Qed.

Lemma validate_union alts j v : validate (FUnion alts) j = Ok v ->
  exists d, v = JObj d /\ union_validate validate alts j = Ok d.
Proof. cbn. destruct (union_validate validate alts j) as [d|]; [|done]. intros [= <-]. eauto. Qed.
Lemma validate_model fs j v : validate (FModel fs) j = Ok v ->
  exists d input, v = JObj d /\ j = JObj input /\ validate_fields validate input fs [] None = Ok d.
Proof.
  cbn. destruct j as [| | | | |input]; try done. cbn.
  destruct (validate_fields validate input fs [] None) as [d|] eqn:Hd; [|done]. intros [= <-]. eauto.
Qed.
Lemma validate_after check t j v : validate (FAfter check t) j = Ok v -> validate t j = Ok v /\ exists u, check v = Ok u.
Proof.
  cbn. destruct (validate t j) as [w|]; [|done]. cbn. unfold run_check.
  destruct (check w) as [u|e] eqn:Hc; cbn; [|by destruct (isinstance e CValueError)]. intros [= <-]. eauto.
Qed.
Lemma validate_before check t j v : validate (FBefore check t) j = Ok v -> validate t j = Ok v.
Proof. cbn. by destruct (run_check _ (check j)). Qed.
End Validated.

(** ** The names of an accepted connection *)

Definition auth_names (a : AuthSchema) : list string := field_name <$> create_auth_fields a.

(** the names of the data, and the credentials that go with it *)
Definition pairs (t : ConnectionType) : list (list string * AuthSchema) :=
  let both (names : list Field) (keep : AuthSchema -> bool) :=
    (fun a => (field_name <$> names, a)) <$> filter (fun a => keep a = true) (auth_schemas t) in
  match t with
  | ICEBERG =>
      both IcebergRESTCatalogS3DirectConnectionDataSchema (fun a => str_contains "s3" (auth_type a)) ++
      both IcebergRESTCatalogS3DelegatedConnectionDataSchema (fun a => negb (str_contains "s3" (auth_type a)))
  | _ => match data_type t with
         | FModel fs | FBefore _ (FModel fs) => both fs (fun _ => true)
         | _ => []
         end
  end.

(** the schemas of credentials that carry them *)
Definition auth_fields_ok (fields : AuthSchema -> list Field) : Prop :=
  forall a, field_name <$> fields a = auth_names a /\ exists rest, fields a = tag (auth_type a) :: rest.
Lemma create_fields_ok : auth_fields_ok create_auth_fields.
Proof. intros a. split; [done|by eexists]. Qed.
Lemma update_fields_ok : auth_fields_ok update_auth_fields.
Proof.
  intros a. split; [|by eexists]. unfold auth_names, update_auth_fields, create_auth_fields.
  rewrite !fmap_app, <- !list_fmap_compose. by f_equal.
Qed.

Lemma auth_names_nodup t : Forall (fun a => NoDup (auth_names a)) (auth_schemas t).
Proof. apply (bool_decide_eq_true_1 _). by destruct t; vm_compute. Qed.

Section Accepted.
Context `{PydanticCore} (fields : AuthSchema -> list Field) (Hfields : auth_fields_ok fields).

Lemma auth_tagged t a : a ∈ auth_schemas t -> tagged (auth_type a) (fields a).
Proof.
  intros Ha. destruct (Hfields a) as [Hn [rest Hr]]. split.
  - rewrite Hn. pose proof (auth_names_nodup t) as Hnd. rewrite Forall_forall in Hnd. by apply Hnd.
  - exists [], (Some (JStr (auth_type a))), rest. split; [done|by right].
Qed.

(** validated credentials: the names of one of the schemas, with its type *)
Lemma auth_value_names t x v : validate (auth_field_type fields t) x = Ok v ->
  exists d a, v = JObj d /\ a ∈ auth_schemas t /\ dict_keys d = auth_names a /\
    dict_get "type" d = Some (JStr (auth_type a)).
Proof.
  intros Hv. assert (forall l, auth_schemas t = l -> validate (FUnion (auth_union fields l)) x = Ok v ->
    exists d a, v = JObj d /\ a ∈ auth_schemas t /\ dict_keys d = auth_names a /\
    dict_get "type" d = Some (JStr (auth_type a))) as Hunion.
  { intros l Hl (d & -> & Hd)%validate_union. apply union_ok in Hd as (k & fs & Hk & Hkeys & Htag).
    unfold auth_union in Hk. apply list_elem_of_fmap in Hk as (a & [= -> ->] & Ha). rewrite <- Hl in Ha.
    destruct (Hfields a) as [Hn _].
    exists d, a. split_and!; [done..|by rewrite <- Hn|]. by eapply Htag, auth_tagged. }
  assert (exists l, auth_schemas t = l) as [l Ht] by eauto. unfold auth_field_type in Hv. rewrite Ht in Hv.
  destruct l as [|a [|a' l]]; [exact (Hunion _ Ht Hv)| |exact (Hunion _ Ht Hv)].
  apply validate_model in Hv as (d & input & -> & _ & Hd). destruct (Hfields a) as [Hn _].
  assert (a ∈ auth_schemas t) as Ha by (rewrite Ht; by left).
  exists d, a. split_and!; [done|done| |].
  - rewrite <- Hn. by apply validate_fields_keys in Hd.
  - eapply tagged_type; [by eapply auth_tagged|exact Hd].
Qed.

(** validated data *)
Lemma data_names t x v : t <> ICEBERG -> validate (data_type t) x = Ok v ->
  exists d, v = JObj d /\ forall a, a ∈ auth_schemas t -> (dict_keys d, a) ∈ pairs t.
Proof.
  intros Ht Hv.
  assert (exists fs, validate (FModel fs) x = Ok v /\
    pairs t = (fun a => (field_name <$> fs, a)) <$> filter (fun a => true = true) (auth_schemas t)) as (fs & Hfs & Hp).
  { destruct t; try done; (eexists; split; [first [exact Hv | eapply validate_before; exact Hv]|reflexivity]). }
  apply validate_model in Hfs as (d & input & -> & _ & Hd). exists d. split; [done|]. intros a Ha. rewrite Hp.
  apply validate_fields_keys in Hd. rewrite Hd. apply list_elem_of_fmap. exists a. split; [done|].
  by apply list_elem_of_filter.
Qed.

Lemma iceberg_names x v y w : validate (data_type ICEBERG) x = Ok v ->
  validate (auth_field_type fields ICEBERG) y = Ok w ->
  forall d, dict_get "data" d = Some v -> dict_get "auth_data" d = Some w ->
  connection_and_auth_data_match (JObj d) = Ok tt ->
  exists dd da a, v = JObj dd /\ w = JObj da /\ (dict_keys dd, a) ∈ pairs ICEBERG /\ dict_keys da = auth_names a.
Proof.
  intros (dd & -> & Hd)%validate_union (da & a & -> & Ha & Hka & Hta)%auth_value_names d Hgd Hga Hm.
  exists dd, da, a. split_and!; [done|done| |done].
  apply union_ok in Hd as (k & fs & Hk & Hkd & Htd). unfold connection_and_auth_data_match in Hm.
  rewrite Hgd, Hga in Hm. cbn [obj_of] in Hm. rewrite Hta in Hm. cbn [str_of] in Hm. unfold pairs.
  apply elem_of_app. rewrite Hkd.
  apply elem_of_cons in Hk as [[= -> ->]|Hk]; [left|right; apply list_elem_of_singleton in Hk as [= -> ->]];
    apply list_elem_of_fmap; exists a; (split; [done|]); apply list_elem_of_filter; (split; [|done]);
    (rewrite Htd in Hm; [|split; [apply (bool_decide_eq_true_1 _); vm_compute; reflexivity|
      eexists [], (Some (JStr _)), _; split; [reflexivity|by right]]]); cbn [str_of] in Hm;
    destruct (str_contains "s3" (auth_type a)); by vm_compute in Hm.
Qed.

Lemma connection_fields_nodup t : NoDup (field_name <$> connection_fields fields t).
Proof. apply (bool_decide_eq_true_1 _). vm_compute. reflexivity. Qed.

(** the data and the credentials of an accepted connection were validated *)
Lemma accepted_values j cb : parse_connection fields j = Ok cb -> exists x y vd va d,
  validate (data_type (cb_type cb)) x = Ok vd /\ validate (auth_field_type fields (cb_type cb)) y = Ok va /\
  cb_data cb = obj_of (Some vd) /\ cb_auth_data cb = obj_of (Some va) /\
  dict_get "data" d = Some vd /\ dict_get "auth_data" d = Some va /\
  (cb_type cb = ICEBERG -> connection_and_auth_data_match (JObj d) = Ok tt).
Proof.
  unfold parse_connection, discriminate. destruct j as [| | | | |input]; try done.
  destruct (dict_get "type" input) as [[]|]; try done. destruct (connection_type_of_str s) as [t|]; [|done].
  destruct (validate (connection_model fields t) (JObj input)) as [v|] eqn:Hv; [|done]. intros [= <-].
  cbn [cb_type cb_data cb_auth_data connection_body].
  assert (validate (FModel (connection_fields fields t)) (JObj input) = Ok v /\
    (t = ICEBERG -> connection_and_auth_data_match v = Ok tt)) as [Hv' Hm].
  { destruct t; try (by split). apply validate_after in Hv as [? [[] ?]]. by split. }
  apply validate_model in Hv' as (d & i & -> & [= <-] & Hd). cbn [obj_of].
  pose proof (validate_fields_get _ input (base_fields ++ [req "type" (FLiteral [connection_type_value t])])
    (data_field (data_type t)) [req "auth_data" (auth_field_type fields t)] [] d Hd (connection_fields_nodup t))
    as (dt & vd & Hvd & Hgd & _).
  pose proof (validate_fields_get _ input (base_fields ++ [req "type" (FLiteral [connection_type_value t]);
    data_field (data_type t)]) (req "auth_data" (auth_field_type fields t)) [] [] d Hd (connection_fields_nodup t))
    as (dt' & va & Hva & Hga & _).
  cbn [field_name data_field req] in Hgd, Hga.
  apply validate_field_in in Hva as (y & _ & Hva).
  assert (exists x, validate (data_type t) x = Ok vd) as [x Hx].
  { cbn [validate_field data_field] in Hvd. destruct (field_input _ _ _) as [x|]; [|done]. exists x.
    by destruct (validate (data_type t) x). }
  exists x, y, vd, va, d. rewrite Hgd, Hga. by split_and!.
Qed.

(** the names of an accepted connection are one of the pairs of its type *)
Lemma accepted_connection_names j cb : parse_connection fields j = Ok cb ->
  exists a, (dict_keys (cb_data cb), a) ∈ pairs (cb_type cb) /\ dict_keys (cb_auth_data cb) = auth_names a.
Proof.
  intros (x & y & vd & va & d & Hx & Hva & -> & -> & Hgd & Hga & Hm)%accepted_values. revert Hx Hva Hm.
  generalize (cb_type cb). intros t Hx Hva Hm. destruct (decide (t = ICEBERG)) as [->|Ht].
  - destruct (iceberg_names _ _ _ _ Hx Hva d Hgd Hga (Hm eq_refl)) as (dd & da & a & -> & -> & ? & ?). by exists a.
  - apply data_names in Hx as (dd & -> & Hp); [|done].
    apply auth_value_names in Hva as (da & a & -> & Ha & Hk & _). exists a. split; [by apply Hp|done].
Qed.

(** the options of a Microsoft SQL Server are a dict *)
Lemma accepted_extra j cb : parse_connection fields j = Ok cb -> cb_type cb = MSSQL ->
  exists o, dict_get "additional_params" (cb_data cb) = Some (JObj o).
Proof.
  intros (x & y & vd & va & d & Hx & _ & -> & _)%accepted_values Ht. rewrite Ht in Hx.
  apply validate_model in Hx as (dd & input & -> & _ & Hd). cbn [obj_of].
  apply (validate_fields_get _ _ (take 3 MSSQLConnectionDataSchema) additional_params []) in Hd
    as (data & v & Hv & Hget & _); [|apply (bool_decide_eq_true_1 _); vm_compute; reflexivity].
  cbn [field_name additional_params opt] in Hget. rewrite Hget. cbn in Hv.
  destruct (dict_get "additional_params" input) as [[| | | | |o]|]; try done; injection Hv as <-; by eexists.
Qed.
End Accepted.
