(* ===== verification/HandlerFacts.v ===== *)
(** * Making handlers of what the server accepted *)

From S2P Require Import Prelude PyData Models Errors Repositories Pydantic ConnectionSchemas.
From S2P Require Import TransferSchemas Dto.
From S2P Require Import FilterExpressions Handlers Spark Controller DtoFacts.

(** a decidable fact about concrete texts *)
Ltac by_decide := apply (bool_decide_eq_true_1 _); vm_compute; reflexivity.

(** ** The classes of a type of connection *)

Definition handler_of (t : ConnectionType) : HandlerClass :=
  match t with
  | POSTGRES => PostgresHandler | HIVE => HiveHandler | ICEBERG => IcebergRESTCatalogS3Handler
  | ORACLE => OracleHandler | CLICKHOUSE => ClickhouseHandler | MSSQL => MSSQLHandler
  | MYSQL => MySQLHandler | S3 => S3Handler | HDFS => HDFSHandler | SFTP => SFTPHandler
  | FTP => FTPHandler | FTPS => FTPSHandler | WEBDAV => WebDAVHandler | SAMBA => SambaHandler
  end.

Definition iceberg_dto_class (keys : list string) : Dataclass json :=
  if bool_decide ("s3_warehouse_path" ∈ keys) then
    if bool_decide ("rest_catalog_oauth2_client_id" ∈ keys)
    then IcebergRESTCatalogOAuth2ClientCredentialsS3BasicDTO else IcebergRESTCatalogBearerAuthS3BasicDTO
  else
    if bool_decide ("rest_catalog_oauth2_client_id" ∈ keys)
    then IcebergRESTCatalogOAuth2ClientCredentialsS3DelegatedDTO
    else IcebergRESTCatalogBearerAuthS3DelegatedDTO.
Definition dto_class (t : ConnectionType) (keys : list string) : Dataclass json :=
  match t with
  | POSTGRES => PostgresConnectionDTO | HIVE => HiveConnectionDTO | ICEBERG => iceberg_dto_class keys
  | ORACLE => OracleConnectionDTO | CLICKHOUSE => ClickhouseConnectionDTO | MSSQL => MSSQLConnectionDTO
  | MYSQL => MySQLConnectionDTO | S3 => S3ConnectionDTO | HDFS => HDFSConnectionDTO
  | SFTP => SFTPConnectionDTO | FTP => FTPConnectionDTO | FTPS => FTPSConnectionDTO
  | WEBDAV => WebDAVConnectionDTO | SAMBA => SambaConnectionDTO
  end.
Definition transfer_class (catalog : string) (t : ConnectionType) : Dataclass Value :=
  match t with
  | POSTGRES => PostgresTransferDTO | HIVE => HiveTransferDTO | ICEBERG => IcebergTransferDTO catalog
  | ORACLE => OracleTransferDTO | CLICKHOUSE => ClickhouseTransferDTO | MSSQL => MSSQLTransferDTO
  | MYSQL => MySQLTransferDTO | S3 => S3TransferDTO | HDFS => HDFSTransferDTO
  | SFTP => SFTPTransferDTO | FTP => FTPTransferDTO | FTPS => FTPSTransferDTO
  | WEBDAV => WebDAVTransferDTO | SAMBA => SambaTransferDTO
  end.

Lemma find_handler_of catalog t :
  exists ctor, find_handler catalog (Some (JStr (connection_type_value t))) =
      Ok (handler_of t, ctor, transfer_class catalog t) /\
    forall data, ctor data = make (dto_class t (dict_keys data)) data.
Proof.
  destruct t; (eexists; split; [reflexivity|]); try done. intros data. cbn [dto_class].
  unfold get_iceberg_connection_dto, get_iceberg_rest_catalog_s3_direct_connection_dto,
    get_iceberg_rest_catalog_s3_delegated_connection_dto, iceberg_dto_class. rewrite !dict_mem_keys.
  by do 2 case_bool_decide.
Qed.

Lemma dto_class_ext t l l' : (forall k, k ∈ l <-> k ∈ l') -> dto_class t l = dto_class t l'.
Proof.
  intros Hl. destruct t; try done. cbn. unfold iceberg_dto_class.
  by rewrite !(bool_decide_ext _ _ (Hl _)).
Qed.

(** ** Connections *)

(** the keyword arguments of the connection: all names but the discriminator *)
Definition connection_names (names : list string) (a : AuthSchema) : list string :=
  filter (fun k => k <> "type") (names ++ auth_names a).
Lemma pairs_accepted t :
  Forall (fun p => accepts (dto_class t (connection_names p.1 p.2)) (connection_names p.1 p.2) = true) (pairs t).
Proof. apply Forall_forall. apply (Forall_forall _ (pairs t)). destruct t; repeat constructor. Qed.

(** the stored data and credentials of an accepted connection, or the data a first
    handler has left *)
Definition stored_names (d auth : dict) (names : list string) (a : AuthSchema) : Prop :=
  NoDup (dict_keys d) /\
  forall k, k ∈ dict_keys d \/ k ∈ dict_keys auth <-> k ∈ names \/ k ∈ auth_names a.

Lemma auth_names_type a : "type" ∈ auth_names a.
Proof. by left. Qed.

Section Connections.
Context (t : ConnectionType) (d auth : dict) (names : list string) (a : AuthSchema).
Context (Hpair : (names, a) ∈ pairs t) (Hstored : stored_names d auth names a).

Lemma connection_data_keys k :
  k ∈ dict_keys (dict_del "type" (dict_update d auth)) <-> k ∈ connection_names names a.
Proof.
  destruct Hstored as [Hnd Hk]. rewrite dict_keys_del_iff by (by apply dict_update_NoDup).
  rewrite dict_keys_update, Hk. unfold connection_names. rewrite list_elem_of_filter, elem_of_app. done.
Qed.

Lemma connection_data_type : dict_mem "type" (dict_update d auth) = true.
Proof.
  rewrite dict_mem_keys. apply bool_decide_eq_true, dict_keys_update. apply Hstored. right. apply auth_names_type.
Qed.

(** an object of the type's class, with every attribute of it *)
Definition connection_attrs (o : ConnectionDTO) : Prop :=
  make (dto_class t (connection_names names a)) (dict_del "type" (dict_update d auth)) = Ok o /\
  obj_class o = dto_class t (connection_names names a).
Lemma connection_made :
  exists o, make (dto_class t (dict_keys (dict_del "type" (dict_update d auth))))
              (dict_del "type" (dict_update d auth)) = Ok o /\ connection_attrs o.
Proof.
  rewrite (dto_class_ext _ _ _ connection_data_keys).
  destruct (make_accepts (dto_class t (connection_names names a)) (dict_del "type" (dict_update d auth)))
    as (o & Ho & Hc); [|by exists o].
  rewrite (accepts_ext _ _ _ connection_data_keys).
  pose proof (pairs_accepted t) as Hp. rewrite Forall_forall in Hp. exact (Hp _ Hpair).
Qed.

(** the dict the first handler leaves is as good as the stored one *)
Lemma stored_again auth' : (forall k, k ∈ dict_keys auth' <-> k ∈ auth_names a) ->
  stored_names (dict_del "type" (dict_update d auth)) auth' names a.
Proof.
  intros Ha. split; [by apply dict_del_NoDup, dict_update_NoDup, Hstored|]. intros k.
  rewrite connection_data_keys, Ha. unfold connection_names. rewrite list_elem_of_filter, elem_of_app.
  destruct (decide (k = "type")) as [->|]; [|tauto]. pose proof (auth_names_type a). tauto.
Qed.
End Connections.

(** the options of a Microsoft SQL Server, which the handler unpacks *)
Definition extra_ok (t : ConnectionType) (d : dict) : Prop :=
  t = MSSQL -> exists o, dict_get "additional_params" d = Some (JObj o).
Lemma dict_get_update_other {V} k (d o : list (string * V)) : k ∉ dict_keys o ->
  dict_get k (dict_update d o) = dict_get k d.
Proof.
  revert d. induction o as [|[k' v] o IH]; intros d Hk; [done|].
  change (dict_update d ((k', v) :: o)) with (dict_update (dict_set k' v d) o). cbn in Hk.
  rewrite IH by set_solver. apply dict_get_set_ne. set_solver.
Qed.
Lemma extra_update t d auth a : a ∈ auth_schemas t -> (forall k, k ∈ dict_keys auth <-> k ∈ auth_names a) ->
  extra_ok t d -> extra_ok t (dict_del "type" (dict_update d auth)).
Proof.
  intros Ha Hk He ->. destruct (He eq_refl) as [o Ho]. exists o. rewrite dict_get_del_ne by done.
  rewrite dict_get_update_other; [done|]. rewrite Hk. apply list_elem_of_singleton in Ha as ->. by_decide.
Qed.

(** ** Parameters of a transfer *)

Section Params.
Context `{PydanticCore}.

Lemma union_fields alts j d : union_validate validate alts j = Ok d ->
  exists k fs input, (k, fs) ∈ alts /\ validate_fields validate input fs [] None = Ok d.
Proof.
  destruct j as [| | | | |input]; try done. cbn. destruct (dict_get "type" input) as [[]|]; try done.
  rewrite pick_alternative_spec. destruct (dict_get s alts) as [fs|] eqn:Hfs; [|done]. intros Hd.
  exists s, fs, input. split; [by apply dict_get_elem|done].
Qed.

Definition explicit_names : list string :=
  ["id"; "name"; "group_name"; "strategy"; "resources"; "transformations"].
(** the names of the parameters fit the class: no keyword twice, none missing or unknown *)
Definition names_fit (t : ConnectionType) (keys : list string) : bool :=
  let own := filter (fun k => k <> "type") keys in
  forallb (fun k => negb (bool_decide (k ∈ explicit_names))) own &&
  accepts (transfer_class "" t) (explicit_names ++ own).

(** the compressions a schema of a file format offers *)
Definition compressions : list string :=
  ["none"; "snappy"; "zlib"; "lz4"; "gzip"; "bzip2"; "deflate"].
Definition compression_ok (ff : dict) : Prop := forall v, ("compression", v) ∈ ff ->
  exists s, v = JStr s /\ s ∈ compressions.
(** what a file transfer needs besides *)
Definition file_params (d : dict) : Prop :=
  (exists o, dict_get "options" d = Some (JObj o)) /\
  (exists ff ft cls, dict_get "file_format" d = Some (JObj ff) /\ dict_get "type" ff = Some (JStr ft) /\
    dict_get ft _format_parsers = Some cls /\ compression_ok ff) /\
  exists path, dict_get "directory_path" d = Some (JStr path).
Definition table_params (d : dict) : Prop := exists table, dict_get "table_name" d = Some (JStr table).
(** the template of the names of the files a target writes *)
Definition template_params `{PyLib} (d : dict) : Prop := exists template info v,
  dict_get "file_name_template" d = Some (JStr template) /\
  _validate_file_name_template info (JStr template) = Ok v.

Record params_ok (t : ConnectionType) (d : dict) : Prop := mkParamsOk {
  po_type : dict_get "type" d = Some (JStr (connection_type_value t));
  po_nodup : NoDup (dict_keys d);
  po_names : names_fit t (dict_keys d) = true;
  po_options : is_file_handler (handler_of t) = false -> "options" ∉ dict_keys d;
  po_schema : "df_schema" ∉ dict_keys d;
  po_file : is_file_handler (handler_of t) = true -> file_params d;
  po_table : is_file_handler (handler_of t) = false -> table_params d;
}.

(** a field of text, checked before *)
Lemma text_value input fs1 n check t fs2 d : t = FStr ->
  NoDup (field_name <$> fs1 ++ req n (FBefore check t) :: fs2) ->
  validate_fields validate input (fs1 ++ req n (FBefore check t) :: fs2) [] None = Ok d ->
  exists s, dict_get n d = Some (JStr s).
Proof.
  intros -> Hnd Hd. apply validate_fields_get in Hd as (data & v & Hv & Hget & _); [|exact Hnd].
  apply validate_field_in in Hv as (x & _ & Hv%validate_before). cbn [field_name req] in Hget. rewrite Hget.
  destruct x; try done. injection Hv as <-. by eexists.
Qed.

Lemma db_params_ok k fs input d : (k, fs) ∈ db_alternatives ->
  validate_fields validate input fs [] None = Ok d -> params_ok (params_type d) d.
Proof.
  intros Hk Hd. assert (exists pattern, fs = table_fields pattern k) as [pattern ->].
  { unfold db_alternatives in Hk. apply list_elem_of_fmap in Hk as (t & Heq & _). injection Heq as <- ->.
    destruct (String.eqb_spec k "iceberg") as [->|]; by eexists. }
  assert (dict_get "type" d = Some (JStr k)) as Ht.
  { eapply tagged_type; [|exact Hd]. split; [by_decide|].
    eexists [_], None, []. split; [reflexivity|by left]. }
  assert (table_params d) as Htable.
  { eapply (text_value _ [] "table_name" (_table_name_is_qualified pattern) FStr [req "type" (FLiteral [k])]);
      [done|by_decide|exact Hd]. }
  apply validate_fields_keys in Hd. cbn in Hd.
  assert (k ∈ DB_CONNECTION_TYPES) as Hin.
  { unfold db_alternatives in Hk. apply list_elem_of_fmap in Hk as (t & Heq & ?). by injection Heq as <- _. }
  unfold params_type. rewrite Ht. cbn [str_of].
  unfold DB_CONNECTION_TYPES in Hin. rewrite !elem_of_cons, elem_of_nil in Hin.
  destruct Hin as [->|[->|[->|[->|[->|[->|[->|[]]]]]]]]; (constructor; rewrite ?Hd;
    [exact Ht|by_decide|vm_compute; reflexivity|
     intros _; by_decide|
     by_decide|done|intros _; exact Htable]).
Qed.

(** every compression a format offers is one of [compressions] *)
Definition offers (fs : list Field) : Prop :=
  "compression" ∉ field_name <$> fs \/
  exists fs1 l o, fs = fs1 ++ [opt "compression" (FLiteral l) (JStr o)] /\ o :: l ⊆ compressions.
Lemma offers_ok k fs input d : tagged k fs -> offers fs -> validate_fields validate input fs [] None = Ok d ->
  compression_ok d.
Proof.
  intros [Hnd _] [Hno|(fs1 & l & o & -> & Hl)] Hd v Hin.
  - exfalso. apply Hno. apply validate_fields_keys in Hd. cbn [dict_keys app fmap list_fmap] in Hd.
    rewrite <- Hd. apply list_elem_of_fmap. by exists ("compression", v).
  - assert (dict_get "compression" d = Some v) as Hv.
    { apply dict_elem_get; [|done]. apply validate_fields_keys in Hd. by rewrite Hd. }
    apply validate_fields_get in Hd as (data & w & Hw & Hget & _); [|exact Hnd]. cbn [field_name opt] in Hget.
    rewrite Hget in Hv. injection Hv as ->. cbn [validate_field opt] in Hw. destruct (field_input _ _ _) as [x|].
    + destruct (validate (FLiteral l) x) as [u|] eqn:Hu; [|done]. injection Hw as <-. destruct x; try done.
      cbn in Hu. destruct (existsb _ _) eqn:He; [|done]. injection Hu as <-. exists s. split; [done|].
      apply existsb_exists in He as (s' & Hs & ->%String.eqb_eq). apply Hl. right. by apply list_elem_of_In.
    + injection Hw as <-. exists o. split; [done|]. apply Hl. by left.
Qed.

Definition format_alternative (k : string) (fs : list Field) : Prop :=
  tagged k fs /\ is_Some (dict_get k _format_parsers) /\ offers fs.
Lemma format_params alts x v : (forall k fs, (k, fs) ∈ alts -> format_alternative k fs) ->
  validate (FUnion alts) x = Ok v ->
  exists ff ft cls, v = JObj ff /\ dict_get "type" ff = Some (JStr ft) /\ dict_get ft _format_parsers = Some cls /\
    compression_ok ff.
Proof.
  intros Halts (ff & -> & Hff)%validate_union. apply union_fields in Hff as (k & fs & input & Hk & Hff).
  destruct (Halts _ _ Hk) as (Ht & [cls Hcls] & Ho). exists ff, k, cls.
  split_and!; [done|by eapply tagged_type|done|by eapply offers_ok].
Qed.

Lemma source_formats k fs : (k, fs) ∈ SOURCE_FILE_FORMAT -> format_alternative k fs.
Proof.
  unfold SOURCE_FILE_FORMAT, TARGET_FILE_FORMAT. cbn [app]. rewrite !elem_of_cons, elem_of_nil.
  intros [[= -> ->]|[[= -> ->]|[[= -> ->]|[[= -> ->]|[[= -> ->]|[[= -> ->]|[[= -> ->]|[]]]]]]]];
    (split; [split; [by_decide|
      eexists [], (Some (JStr _)), _; split; [reflexivity|by right]]|split; [by eexists|]]).
  3: by left; by_decide.
  all: right; first
    [ eexists [_], _, _; split; [reflexivity|by_decide]
    | eexists [_; _; _], _, _; split; [reflexivity|by_decide]
    | eexists [_; _; _; _; _; _; _], _, _; split; [reflexivity|by_decide] ].
Qed.
Lemma target_formats k fs : (k, fs) ∈ TARGET_FILE_FORMAT -> format_alternative k fs.
Proof. intros Hk. apply source_formats. unfold SOURCE_FILE_FORMAT. apply elem_of_app. by left. Qed.

Lemma options_value input fs1 fs2 d : NoDup (field_name <$> fs1 ++ options_field :: fs2) ->
  validate_fields validate input (fs1 ++ options_field :: fs2) [] None = Ok d ->
  exists o, dict_get "options" d = Some (JObj o).
Proof.
  intros Hnd Hd. apply validate_fields_get in Hd as (data & v & Hv & Hget & _); [|exact Hnd].
  cbn [field_name options_field opt] in Hget. rewrite Hget. cbn [validate_field options_field opt] in Hv.
  destruct (field_input _ _ _) as [[| | | | |o]|]; try done; injection Hv as <-; eauto.
Qed.

Lemma format_value input fs1 alts fs2 d : NoDup (field_name <$> fs1 ++ req "file_format" (FUnion alts) :: fs2) ->
  (forall k fs, (k, fs) ∈ alts -> format_alternative k fs) ->
  validate_fields validate input (fs1 ++ req "file_format" (FUnion alts) :: fs2) [] None = Ok d ->
  exists ff ft cls, dict_get "file_format" d = Some (JObj ff) /\ dict_get "type" ff = Some (JStr ft) /\
    dict_get ft _format_parsers = Some cls /\ compression_ok ff.
Proof.
  intros Hnd Halts Hd. apply validate_fields_get in Hd as (data & v & Hv & Hget & _); [|exact Hnd].
  apply validate_field_in in Hv as (x & _ & Hv). cbn [field_name req] in Hget. rewrite Hget.
  destruct (format_params _ _ _ Halts Hv) as (ff & ft & cls & -> & ? & ? & ?). eauto 10.
Qed.

Lemma file_params_ok `{PyLib} k fs input d :
  (k ∈ FILE_CONNECTION_TYPES /\ (fs = FileTransferSource k \/ fs = FileTransferTarget k)) ->
  validate_fields validate input fs [] None = Ok d -> params_ok (params_type d) d.
Proof.
  intros [Hin Hfs] Hd.
  assert (dict_get "type" d = Some (JStr k)) as Ht.
  { eapply tagged_type; [|exact Hd]. destruct Hfs as [->| ->]; (split;
      [by_decide|]).
    - eexists [_; _; _], None, []. split; [reflexivity|by left].
    - eexists [_; _; _; _], None, []. split; [reflexivity|by left]. }
  assert (file_params d) as Hf.
  { destruct Hfs as [->| ->]; (split; [|split]).
    - eapply (options_value _ [_; _] [_]); [|exact Hd]. by_decide.
    - eapply (format_value _ [_] _ [_; _]); [|apply source_formats|exact Hd].
      by_decide.
    - eapply (text_value _ [] "directory_path" _directory_path_is_valid_path FStr); [done| |exact Hd]. by_decide.
    - eapply (options_value _ [_; _; _] [_]); [|exact Hd]. by_decide.
    - eapply (format_value _ [_] _ [_; _; _]); [|apply target_formats|exact Hd].
      by_decide.
    - eapply (text_value _ [] "directory_path" _directory_path_is_valid_path FStr); [done| |exact Hd]. by_decide. }
  apply validate_fields_keys in Hd. unfold params_type. rewrite Ht. cbn [str_of].
  assert (dict_keys d = ["directory_path"; "file_format"; "options"; "type"] \/
    dict_keys d = ["directory_path"; "file_format"; "file_name_template"; "options"; "type"]) as Hkeys.
  { rewrite Hd. destruct Hfs as [->| ->]; [by left|by right]. }
  unfold FILE_CONNECTION_TYPES in Hin. rewrite !elem_of_cons, elem_of_nil in Hin. clear Hd Hfs.
  destruct Hin as [->|[->|[->|[->|[->|[->|[->|[]]]]]]]]; destruct Hkeys as [Hd|Hd]; (constructor; rewrite ?Hd;
    [exact Ht|by_decide|vm_compute; reflexivity|by vm_compute|
     by_decide|done|done]).
Qed.

Lemma transfer_params_ok `{PyLib} j v :
  validate (FUnion TransferSchemaSource) j = Ok v \/ validate (FUnion TransferSchemaTarget) j = Ok v ->
  exists d, v = JObj d /\ params_ok (params_type d) d.
Proof.
  intros Hv. assert (exists alts, validate (FUnion alts) j = Ok v /\ forall k fs, (k, fs) ∈ alts ->
    (k, fs) ∈ db_alternatives \/ (k ∈ FILE_CONNECTION_TYPES /\ (fs = FileTransferSource k \/ fs = FileTransferTarget k)))
    as (alts & (d & -> & Hd)%validate_union & Halts).
  { destruct Hv as [Hv|Hv]; (eexists; split; [exact Hv|]); intros k fs [Hk|Hk]%elem_of_app; [by left| |by left|];
      right; apply list_elem_of_fmap in Hk as (t & [= -> ->] & Ht); split; try done; [by left|by right]. }
  exists d. split; [done|]. apply union_fields in Hd as (k & fs & input & Hk & Hd).
  destruct (Halts _ _ Hk) as [Hdb|Hfile]; [by eapply db_params_ok|by eapply file_params_ok].
Qed.

Lemma template_kept `{PyLib} info t v : _validate_file_name_template info (JStr t) = Ok v -> v = JStr t.
Proof. cbn -[py_format]. by repeat case_match; intros [= <-]. Qed.
Lemma default_template `{PyLib} : exists v, _validate_file_name_template []
  (JStr "{run_created_at}-{index}.{extension}") = Ok v.
Proof. eexists. vm_compute. reflexivity. Qed.

(** a target of files has a template that was checked *)
Lemma target_template `{PyLib} j v : validate (FUnion TransferSchemaTarget) j = Ok v ->
  exists d, v = JObj d /\ params_ok (params_type d) d /\
    (is_file_handler (handler_of (params_type d)) = true -> template_params d).
Proof.
  intros Hv. destruct (transfer_params_ok j v (or_intror Hv)) as (d & -> & Hp). exists d. split_and!; [done..|].
  intros Hfile. destruct (po_file _ _ Hp Hfile) as [[o Ho] _].
  apply validate_union in Hv as (d' & [= <-] & Hd). apply union_fields in Hd as (k & fs & input & Hk & Hd).
  apply elem_of_app in Hk as [Hk|Hk]; apply list_elem_of_fmap in Hk as (k' & [= -> ->] & _).
  - exfalso. assert ("options" ∈ dict_keys d) as Hin by (apply dict_get_is_Some; by exists (JObj o)).
    apply validate_fields_keys in Hd. rewrite Hd in Hin. revert Hin. apply (bool_decide_eq_false_1 _).
    destruct (String.eqb k' "iceberg"); reflexivity.
  - apply (validate_fields_get _ _ [directory_path_field; req "file_format" (FUnion TARGET_FILE_FORMAT)]
      (mkField "file_name_template" None FStr (Some (JStr "{run_created_at}-{index}.{extension}")) false
        _validate_file_name_template) [options_field; req "type" (FLiteral [k'])]) in Hd
      as (data & w & Hw & Hget & _); [|by_decide].
    cbn [field_name] in Hget. unfold template_params. rewrite Hget. cbn -[_validate_file_name_template] in Hw.
    destruct (dict_get "file_name_template" input) as [x|].
    + destruct (with_str _ _) as [y|] eqn:Hy; [|done]. destruct x; try done. injection Hy as <-.
      pose proof (template_kept _ _ _ Hw) as ->. by exists s, data, (JStr s).
    + injection Hw as <-. destruct default_template as [u Hu]. by exists "{run_created_at}-{index}.{extension}", [], u.
Qed.
End Params.

(** ** Transfers *)

Section Transfers.
Context `{Cipher} `{OneTLFormats}.

(** the attributes a [__post_init__] leaves alone *)
Definition same_but (names : list string) (attrs attrs' : list (string * Value)) : Prop :=
  forall k, k ∉ names -> dict_get k attrs' = dict_get k attrs.

Lemma options_setdefault_ok v attrs o : dict_get "options" attrs = Some (Json (JObj o)) ->
  exists attrs' o', options_setdefault v attrs = Ok attrs' /\ dict_get "options" attrs' = Some (Json (JObj o')) /\
    same_but ["options"] attrs attrs'.
Proof.
  intros Ho. unfold options_setdefault. rewrite Ho. eexists _, _. split_and!; [done|apply dict_get_set_eq|].
  intros k Hk. apply dict_get_set_ne. set_solver.
Qed.

Lemma db_post_init_ok attrs o : dict_get "options" attrs = Some (Json (JObj o)) ->
  exists attrs' o', db_post_init attrs = Ok attrs' /\ dict_get "options" attrs' = Some (Json (JObj o')) /\
    same_but ["options"] attrs attrs'.
Proof. intros Ho. unfold db_post_init. rewrite Ho. by eapply options_setdefault_ok. Qed.

(** a parser of onETL refused the options *)
Definition parse_error (e : exc) : Prop := exists cls options, parse_obj cls options = Raise e.

Lemma file_post_init_ok attrs o ff ft cls : dict_get "options" attrs = Some (Json (JObj o)) ->
  dict_get "file_format" attrs = Some (Json (JObj ff)) -> dict_get "type" ff = Some (JStr ft) ->
  dict_get ft _format_parsers = Some cls -> dict_get "df_schema" attrs = Some (Json JNull) ->
  match file_post_init attrs with
  | Ok attrs' => same_but ["options"; "file_format"] attrs attrs' /\
      (exists o', dict_get "options" attrs' = Some (Json (JObj o'))) /\
      exists opts, parse_obj cls (rewrite_options ft (dict_del "type" ff)) = Ok opts /\
        dict_get "file_format" attrs' = Some (FormatObj cls opts)
  | Raise e => parse_error e
  end.
Proof.
  intros Ho Hff Hft Hcls Hs. unfold file_post_init. rewrite Hff. unfold _get_file_format. rewrite Hft, Hcls.
  destruct (parse_obj cls _) as [opts|e] eqn:Hp; cbn; [|by eexists _, _].
  rewrite dict_get_set_ne, Hs by done. cbn. unfold options_setdefault. rewrite dict_get_set_ne, Ho by done. split_and!.
  - intros k Hk. rewrite !dict_get_set_ne by set_solver. done.
  - eexists. apply dict_get_set_eq.
  - exists opts. rewrite dict_get_set_ne by done. split; [done|apply dict_get_set_eq].
Qed.

Definition json_kwargs (d : dict) : list (string * Value) := (fun kv => (kv.1, Json kv.2)) <$> d.
Lemma json_kwargs_keys d : dict_keys (json_kwargs d) = dict_keys d.
Proof. unfold dict_keys, json_kwargs. by rewrite <- list_fmap_compose. Qed.
Lemma json_kwargs_get k d : dict_get k (json_kwargs d) = Json <$> dict_get k d.
Proof. induction d as [|[k' v] d IH]; cbn; [done|]. by destruct (String.eqb k k'). Qed.

Lemma accepts_catalog catalog t l : accepts (transfer_class catalog t) l = accepts (transfer_class "" t) l.
Proof. by destruct t. Qed.

Section OneTransfer.
Context (catalog : string) (t : ConnectionType) (d : dict) (explicit : list (string * Value)).
Context (Hd : params_ok t d) (Hexplicit : dict_keys explicit = explicit_names).
Notation params := (json_kwargs (dict_del "type" d)).

Ltac by_names Hk := revert Hk; unfold explicit_names; rewrite !elem_of_cons, !elem_of_nil; naive_solver.
Lemma params_keys : dict_keys params ≡ₚ filter (fun k => k <> "type") (dict_keys d).
Proof.
  rewrite json_kwargs_keys. apply NoDup_Permutation.
  - by apply dict_del_NoDup, Hd.
  - by apply NoDup_filter, Hd.
  - intros k. rewrite list_elem_of_filter. apply dict_keys_del_iff, Hd.
Qed.

Lemma merged : merge_kwargs explicit params = Ok (explicit ++ params).
Proof.
  unfold merge_kwargs. pose proof (po_names t d Hd) as Hn. unfold names_fit in Hn.
  apply andb_true_iff in Hn as [Hn _]. rewrite forallb_forall in Hn.
  destruct (existsb _ _) eqn:He; [|done]. apply existsb_exists in He as (kv & Hkv & Hmem).
  rewrite dict_mem_keys, Hexplicit in Hmem. assert (kv.1 ∈ dict_keys params) as Hk.
  { apply list_elem_of_fmap. exists kv. split; [done|by apply list_elem_of_In]. }
  rewrite params_keys in Hk. apply list_elem_of_In, Hn in Hk. by rewrite Hmem in Hk.
Qed.

Lemma transfer_accepts : accepts (transfer_class catalog t) (dict_keys (explicit ++ params)) = true.
Proof.
  rewrite accepts_catalog. pose proof (po_names t d Hd) as Hn. unfold names_fit in Hn.
  apply andb_true_iff in Hn as [_ Hn]. etrans; [|exact Hn]. apply accepts_ext. intros k.
  assert (dict_keys (explicit ++ params) = dict_keys explicit ++ dict_keys params) as -> by apply fmap_app.
  by rewrite Hexplicit, !elem_of_app, params_keys.
Qed.

Lemma kwargs_get k : k ∉ explicit_names -> k <> "type" ->
  dict_get k (explicit ++ params) = Json <$> dict_get k d.
Proof.
  intros Hk Hne. rewrite dict_get_app. rewrite <- Hexplicit in Hk. apply dict_get_None in Hk. rewrite Hk.
  by rewrite json_kwargs_get, dict_get_del_ne.
Qed.

Lemma init_attr attrs k : dataclass_init (transfer_class catalog t) (explicit ++ params) = Ok attrs ->
  k ∉ explicit_names -> k <> "type" ->
  dict_get k attrs = match dict_get k (dc_fields (transfer_class catalog t)) with
    | Some o => match dict_get k d with Some j => Some (Json j) | None => o end
    | None => None end.
Proof.
  intros Ha Hk Hne. rewrite (init_get _ _ _ k Ha), (kwargs_get k Hk Hne).
  destruct (dict_get k (dc_fields _)); [|done]. by destruct (dict_get k d).
Qed.
Lemma init_explicit attrs k v : dataclass_init (transfer_class catalog t) (explicit ++ params) = Ok attrs ->
  dict_get k explicit = Some v -> dict_get k attrs = Some v.
Proof.
  intros Ha Hk. rewrite (init_get _ _ _ k Ha), dict_get_app, Hk.
  assert (k ∈ explicit_names) as Hin by (rewrite <- Hexplicit; apply dict_get_is_Some; eauto).
  assert (is_Some (dict_get k (dc_fields (transfer_class catalog t)))) as [o ->]; [|done].
  apply dict_get_is_Some. revert k Hin Hk. clear. intros k Hin _.
  assert (Forall (fun k => k ∈ dict_keys (dc_fields (transfer_class catalog t))) explicit_names) as Hall
    by (destruct t; by_decide).
  rewrite Forall_forall in Hall. by apply Hall.
Qed.

(** what the attributes of a transfer hold *)
Record transfer_attrs (o : TransferDTO) : Prop := mkTransferAttrs {
  ta_class : obj_class o = transfer_class catalog t;
  ta_explicit : forall k v, dict_get k explicit = Some v -> dict_get k (obj_attrs o) = Some v;
  ta_options : exists opts, dict_get "options" (obj_attrs o) = Some (Json (JObj opts));
  ta_table : forall s, dict_get "table_name" d = Some (JStr s) -> is_file_handler (handler_of t) = false ->
    dict_get "table_name" (obj_attrs o) = Some (Json (JStr s));
  ta_catalog : t = ICEBERG -> exists c, dict_get "catalog_name" (obj_attrs o) = Some (Json c);
  ta_directory : forall s, dict_get "directory_path" d = Some (JStr s) -> is_file_handler (handler_of t) = true ->
    dict_get "directory_path" (obj_attrs o) = Some (Json (JStr s));
  ta_template : forall s, dict_get "file_name_template" d = Some (JStr s) -> is_file_handler (handler_of t) = true ->
    dict_get "file_name_template" (obj_attrs o) = Some (Json (JStr s));
  ta_schema : is_file_handler (handler_of t) = true -> dict_get "df_schema" (obj_attrs o) = Some (Json JNull);
  ta_format : is_file_handler (handler_of t) = true -> exists ff ft cls opts,
    dict_get "file_format" d = Some (JObj ff) /\ dict_get ft _format_parsers = Some cls /\ compression_ok ff /\
    parse_obj cls (rewrite_options ft (dict_del "type" ff)) = Ok opts /\
    dict_get "file_format" (obj_attrs o) = Some (FormatObj cls opts);
}.

(** the object is made, or a parser of onETL refused the options of the format *)
Lemma transfer_made :
  match make_transfer (transfer_class catalog t) (explicit ++ params) with
  | Ok o => transfer_attrs o
  | Raise e => is_file_handler (handler_of t) = true /\ parse_error e
  end.
Proof.
  unfold make_transfer. destruct (dataclass_init_accepts _ _ transfer_accepts) as [attrs Ha]. rewrite Ha. cbn [mbind result_bind].
  pose proof (fun k v => init_explicit attrs k v Ha) as Hex. pose proof (fun k => init_attr attrs k Ha) as Hget.
  pose proof (Hget "options" ltac:(by_decide) ltac:(done)) as Ho.
  assert (forall k v, dict_get k explicit = Some v -> k ∈ explicit_names) as Hin
    by (intros k v Hk; rewrite <- Hexplicit; apply dict_get_is_Some; eauto).
  destruct (is_file_handler (handler_of t)) eqn:Hfile.
  - destruct (po_file t d Hd Hfile) as [[o Hod] [(ff & ft & cls & Hff & Hft & Hcls & Hcomp) _]].
    pose proof (Hget "file_format" ltac:(by_decide) ltac:(done)) as Hf. rewrite Hff in Hf.
    pose proof (Hget "df_schema" ltac:(by_decide) ltac:(done)) as Hs.
    rewrite (proj2 (dict_get_None _ _) (po_schema t d Hd)) in Hs. rewrite Hod in Ho.
    pose proof (file_post_init_ok attrs o ff ft cls) as Hp.
    assert (bool_decide ("FileTransferDTO" ∈ dc_bases (transfer_class catalog t)) = true) as ->
      by (destruct t; try discriminate Hfile; by vm_compute).
    assert (match file_post_init attrs with
      | Ok attrs' => same_but ["options"; "file_format"] attrs attrs' /\
          (exists o', dict_get "options" attrs' = Some (Json (JObj o'))) /\
          exists opts, parse_obj cls (rewrite_options ft (dict_del "type" ff)) = Ok opts /\
            dict_get "file_format" attrs' = Some (FormatObj cls opts)
      | Raise e => parse_error e end) as Hp' by (destruct t; try discriminate Hfile; apply Hp; assumption). clear Hp.
    destruct (file_post_init attrs) as [attrs'|e]; [|by split]. destruct Hp' as (Hsame & Hopts & opts & Hparse & Hfmt).
    unfold same_but in Hsame.
    constructor; cbn [obj_attrs]; try done.
    + intros k v Hk. rewrite Hsame; [by apply Hex|]. apply Hin in Hk. by_names Hk.
    + intros s _ Hdb. by rewrite Hdb in Hfile.
    + by intros ->.
    + intros s Hk _. rewrite Hsame, Hget, Hk by by_decide. by destruct t.
    + intros s Hk _. rewrite Hsame, Hget, Hk by by_decide. by destruct t.
    + intros _. rewrite Hsame, Hs by by_decide. by destruct t.
    + intros _. by exists ff, ft, cls, opts.
  - rewrite (proj2 (dict_get_None _ _) (po_options t d Hd Hfile)) in Ho.
    assert (dict_get "options" attrs = Some (Json (JObj []))) as Ho' by (rewrite Ho; by destruct t).
    destruct (db_post_init_ok _ _ Ho') as (a1 & o1 & H1 & Ho1 & Hs1).
    destruct (options_setdefault_ok "replace_overlapping_partitions" _ _ Ho1) as (a2 & o2 & H2 & Ho2 & Hs2).
    assert (hive_post_init attrs = Ok a2) as Hh by (unfold hive_post_init; by rewrite H1).
    assert (same_but ["options"] attrs a2) as Hs12 by (intros k Hk; by rewrite Hs2, Hs1).
    assert (exists attrs', same_but ["options"] attrs attrs' /\ (exists o', dict_get "options" attrs' = Some (Json (JObj o'))) /\
      (if bool_decide ("FileTransferDTO" ∈ dc_bases (transfer_class catalog t)) then file_post_init attrs
       else if bool_decide (dc_name (transfer_class catalog t) ∈ ["HiveTransferDTO"; "IcebergTransferDTO"])
       then hive_post_init attrs else db_post_init attrs) = Ok attrs') as (attrs' & Hsame & Hopts & ->).
    { destruct t; try discriminate Hfile; cbn -[db_post_init hive_post_init file_post_init];
        first [exists a1; by eauto|exists a2; by eauto]. }
    cbn [mbind result_bind]. unfold same_but in Hsame. constructor; cbn [obj_attrs]; try done.
    + intros k v Hk. rewrite Hsame; [by apply Hex|]. apply Hin in Hk. by_names Hk.
    + intros s Hk _. rewrite Hsame, Hget, Hk by by_decide. by destruct t.
    + intros ->. rewrite Hsame, Hget by by_decide. cbn -[dict_get]. destruct (dict_get "catalog_name" d); by eexists.
    + intros s _ Ht. by rewrite Ht in Hfile.
    + intros s _ Ht. by rewrite Ht in Hfile.
    + intros Ht. by rewrite Ht in Hfile.
    + intros Ht. by rewrite Ht in Hfile.
Qed.
End OneTransfer.
End Transfers.
