(* ===== verification/HandlerTheorems.v ===== *)
(** * Theorems about the handlers of the worker

    What the server accepts the worker can use: handlers are made of every accepted
    pair of connections and transfer, and their filters are expressions in every
    dialect. *)

From S2P Require Import Prelude PyData Models Errors Repositories Pydantic ConnectionSchemas.
From S2P Require Import TransferSchemas Examples Dto.
From S2P Require Import ApiTransfers SchemaTheorems FilterExpressions Handlers Spark Controller.
From S2P Require Import DtoFacts HandlerFacts WorkerExamples.

(** ** Accepted transfers *)

Section Body.
Context `{PydanticCore} `{PyLib}.

Lemma strategy_ok j v : validate (FUnion TransferSchemas.Strategy) j = Ok v -> exists d, v = JObj d /\ exists s, from_dict d = Ok s.
Proof.
  intros (d & -> & Hd)%validate_union. exists d. split; [done|].
  apply union_ok in Hd as (k & fs & Hk & Hkeys & Ht).
  assert (tagged k fs) as Htag.
  { unfold TransferSchemas.Strategy in Hk. rewrite !elem_of_cons, elem_of_nil in Hk.
    destruct Hk as [[= -> ->]|[[= -> ->]|[]]]; (split; [by_decide|]);
      eexists [], (Some (JStr _)), _; (split; [reflexivity|by right]). }
  specialize (Ht Htag). unfold from_dict. rewrite Ht.
  unfold TransferSchemas.Strategy in Hk. rewrite !elem_of_cons, elem_of_nil in Hk.
  destruct Hk as [[= -> ->]|[[= -> ->]|[]]]; cbn [strategy_fields String.eqb Ascii.eqb Bool.eqb].
  - destruct (dataclass_init_accepts (mkDataclass "full" ["Strategy"] "full" [field "type"]) d) as [attrs Ha].
    { by rewrite Hkeys. }
    cbn -[dataclass_init]. rewrite Ha. cbn. destruct (dict_get "increment_by" attrs); by eexists.
  - destruct (dataclass_init_accepts (mkDataclass "incremental" ["Strategy"] "incremental"
      [field "type"; field "increment_by"]) d) as [attrs Ha].
    { by rewrite Hkeys. }
    cbn -[dataclass_init]. rewrite Ha. cbn. destruct (dict_get "increment_by" attrs); by eexists.
Qed.

Lemma resources_ok j v : validate (FModel TransferSchemas.Resources) j = Ok v ->
  exists d, v = JObj d /\ dict_keys d = field_name <$> TransferSchemas.Resources.
Proof. intros (d & i & -> & _ & Hd)%validate_model. exists d. split; [done|]. by apply validate_fields_keys in Hd. Qed.

(** what of an accepted transfer the worker's objects are made of *)
Record usable (sp tp strategy resources_ : dict) : Prop := mkUsable {
  us_source : params_ok (params_type sp) sp;
  us_target : params_ok (params_type tp) tp;
  us_template : is_file_handler (handler_of (params_type tp)) = true -> template_params tp;
  us_strategy : exists s, from_dict strategy = Ok s;
  us_resources : exists r, make Dto.Resources resources_ = Ok r;
}.

Lemma accepted_usable j b : parse_create_transfer j = Ok b ->
  usable (tb_source_params b) (tb_target_params b) (tb_strategy_params b) (tb_resources b) /\
  tb_source_type b = params_type (tb_source_params b) /\ tb_target_type b = params_type (tb_target_params b).
Proof.
  unfold parse_create_transfer. intros Hp. destruct (model_validate _ _ j) as [d|] eqn:Hd; [|done].
  injection Hp as <-. destruct j as [| | | | |input]; try done. cbn [model_validate] in Hd.
  split; [|done]. cbn [tb_source_params tb_target_params tb_strategy_params tb_resources TransferSchemas.transfer_body].
  pose proof (transfer_field _ _ 6 _ Hd eq_refl) as (d6 & v6 & Hv6 & Hg6 & _).
  pose proof (transfer_field _ _ 7 _ Hd eq_refl) as (d7 & v7 & Hv7 & Hg7 & _).
  pose proof (transfer_field _ _ 8 _ Hd eq_refl) as (d8 & v8 & Hv8 & Hg8 & _).
  pose proof (transfer_field _ _ 10 _ Hd eq_refl) as (d10 & v10 & Hv10 & Hg10 & _).
  cbn [field_name req opt] in Hg6, Hg7, Hg8, Hg10.
  rewrite Hg6, Hg7, Hg8, Hg10.
  apply validate_field_in in Hv6 as (x6 & _ & Hv6), Hv7 as (x7 & _ & Hv7).
  destruct (transfer_params_ok x6 v6 (or_introl Hv6)) as (sp & -> & Hsp).
  destruct (target_template x7 v7 Hv7) as (tp & -> & Htp & Htemplate).
  constructor; [exact Hsp|exact Htp|exact Htemplate| |].
  - cbn [validate_field] in Hv8. destruct (field_input _ _ _) as [x8|].
    + destruct (validate (FUnion TransferSchemas.Strategy) x8) as [w|] eqn:Hw; [|done]. apply validate_strategy_ok in Hv8 as [-> _].
      by destruct (strategy_ok _ _ Hw) as (s & -> & Hs).
    + injection Hv8 as <-. by eexists.
  - assert (exists r, v10 = JObj r /\ dict_keys r = field_name <$> TransferSchemas.Resources) as (r & -> & Hr).
    { cbn [validate_field opt] in Hv10. destruct (field_input _ _ _) as [x10|].
      - destruct (validate (FModel TransferSchemas.Resources) x10) as [w|] eqn:Hw; [|done]. injection Hv10 as <-. by eapply resources_ok.
      - injection Hv10 as <-. by eexists. }
    destruct (make_accepts Dto.Resources r) as (o & Ho & _); [by rewrite Hr|]. by exists o.
Qed.
End Body.

(** ** Making the handlers *)

Section Make.
Context `{PyLib} `{Cipher} `{OneTLFormats} `{Engine}.

(** what a handler is made of *)
Record handler_made (t : ConnectionType) (sp : dict) (tr : Transfer) (run : RunDTO) (d auth : dict)
    (names : list string) (a : AuthSchema) (h : Handler) : Prop := mkHandlerMade {
  hm_class : handler_class h = handler_of t;
  hm_hwm : hwm h = None;
  hm_run : run_dto h = run;
  hm_connection : connection_attrs t d auth names a (connection_dto h);
  hm_transfer : exists catalog explicit s r, dict_keys explicit = explicit_names /\
    from_dict (strategy_params tr) = Ok s /\ make Dto.Resources (resources tr) = Ok r /\
    dict_get "id" explicit = Some (Json (JInt (transfer_id tr))) /\
    dict_get "strategy" explicit = Some (StrategyObj s) /\ dict_get "resources" explicit = Some (ResourcesObj r) /\
    dict_get "transformations" explicit = Some (Json (JList (JObj <$> transformations tr))) /\
    transfer_attrs catalog t sp explicit (transfer_dto h);
}.

(** one handler: made, or a parser of onETL refused the options of the file format *)
Lemma get_handler_ok t sp tr side run group d names a :
  params_ok t sp -> side_params side = sp -> (names, a) ∈ pairs t -> stored_names d (side_auth_data side) names a ->
  (exists s, from_dict (strategy_params tr) = Ok s) -> (exists r, make Dto.Resources (resources tr) = Ok r) ->
  let '(res, d') := get_handler side run tr group d in
  d' = dict_del "type" (dict_update d (side_auth_data side)) /\
  match res with
  | Ok h => handler_made t sp tr run d (side_auth_data side) names a h
  | Raise e => is_file_handler (handler_of t) = true /\ parse_error e
  end.
Proof.
  intros Hp Hsp Hpair Hst [s Hs] [r Hr]. unfold get_handler. rewrite Hsp.
  rewrite bind_run. cbn [update_data]. rewrite bind_run. unfold pop_data.
  rewrite (connection_data_type d (side_auth_data side) names a Hst).
  rewrite bind_run. unfold reads at 1. rewrite (po_type t sp Hp).
  destruct (find_handler_of (side_catalog side) t) as (ctor & Hfind & Hctor). rewrite Hfind. cbv beta iota.
  rewrite bind_run. unfold reads at 1. rewrite Hctor.
  destruct (connection_made t d (side_auth_data side) names a Hpair Hst) as (o & Ho & Hattrs). rewrite Ho.
  rewrite bind_run. unfold reads at 1. rewrite Hs. cbn [mbind result_bind]. rewrite Hr. cbn [mbind result_bind].
  set (explicit := [("id", _); _; _; _; _; _]).
  assert (dict_keys explicit = explicit_names) as Hex by done.
  change ((fun kv => (kv.1, Json kv.2)) <$> dict_del "type" sp) with (json_kwargs (dict_del "type" sp)).
  rewrite (merged t sp explicit Hp Hex). cbn [mbind result_bind].
  pose proof (transfer_made (side_catalog side) t sp explicit Hp Hex) as Hm.
  destruct (make_transfer _ _) as [to|e]; cbn; split; [done| |done|exact Hm].
  constructor; cbn; try done. exists (side_catalog side), explicit, s, r. by split_and!.
Qed.

(** a stored connection the server accepted, created or updated, with its credentials *)
Definition accepted_connection `{PydanticCore} (c : Connection) (auth : dict) : Prop :=
  exists fields j cb, (fields = create_auth_fields \/ fields = update_auth_fields) /\
    parse_connection fields j = Ok cb /\ conn_type c = cb_type cb /\ conn_data c = cb_data cb /\
    dict_keys auth ≡ₚ dict_keys (cb_auth_data cb).
Definition accepted_row `{PydanticCore} (t : Transfer) : Prop :=
  exists j b, parse_create_transfer j = Ok b /\ source_params t = tb_source_params b /\
    target_params t = tb_target_params b /\ strategy_params t = tb_strategy_params b /\
    resources t = tb_resources b /\ transformations t = tb_transformations b.

Lemma pairs_nodup t : Forall (fun p => NoDup p.1) (pairs t).
Proof. apply (bool_decide_eq_true_1 _). by destruct t; vm_compute. Qed.

Lemma accepted_stored `{PydanticCore} c auth : accepted_connection c auth ->
  exists names a, (names, a) ∈ pairs (conn_type c) /\ stored_names (conn_data c) auth names a /\
    (forall k, k ∈ dict_keys auth <-> k ∈ auth_names a) /\ extra_ok (conn_type c) (conn_data c).
Proof.
  intros (fields & j & cb & Hf & Hparse & -> & -> & Hauth).
  assert (auth_fields_ok fields) as Hok by (destruct Hf as [->| ->]; [apply create_fields_ok|apply update_fields_ok]).
  destruct (accepted_connection_names fields Hok j cb Hparse) as (a & Hp & Ha).
  assert (forall k, k ∈ dict_keys auth <-> k ∈ auth_names a) as Hk by (intros k; by rewrite Hauth, Ha).
  exists (dict_keys (cb_data cb)), a. split_and!; [done| |done|exact (accepted_extra fields j cb Hparse)]. split.
  - pose proof (pairs_nodup (cb_type cb)) as Hnd. rewrite Forall_forall in Hnd. exact (Hnd _ Hp).
  - intros k. by rewrite Hk.
Qed.

Lemma pairs_schemas t : Forall (fun p => p.2 ∈ auth_schemas t) (pairs t).
Proof. apply Forall_forall. apply (Forall_forall _ (pairs t)). destruct t; repeat constructor. Qed.

(** a handler of accepted rows *)
Definition side_made (t : ConnectionType) (sp : dict) (tr : Transfer) (run : RunDTO) (h : Handler) : Prop :=
  exists d auth names a, handler_made t sp tr run d auth names a h /\ (names, a) ∈ pairs t /\
    extra_ok t (dict_del "type" (dict_update d auth)).

(** both handlers are made of the rows of a run, also when the sides share one dict *)
Record accepted_run `{PydanticCore} (run : LoadedRun) (source_auth target_auth : dict) : Prop := mkAcceptedRun {
  ar_source : accepted_connection (lr_source_connection run) source_auth;
  ar_target : accepted_connection (lr_target_connection run) target_auth;
  ar_row : accepted_row (lr_transfer run);
  ar_source_type : conn_type (lr_source_connection run) = params_type (source_params (lr_transfer run));
  ar_target_type : conn_type (lr_target_connection run) = params_type (target_params (lr_transfer run));
  ar_same : conn_id (lr_source_connection run) = conn_id (lr_target_connection run) ->
    lr_source_connection run = lr_target_connection run /\ source_auth = target_auth;
}.
Definition run_data (run : LoadedRun) : RunDTO := mkRunDTO (run_id (lr_run run)) (run_created_at (lr_run run)).

Lemma init_made `{PydanticCore} (run : LoadedRun) source_auth target_auth names :
  accepted_run run source_auth target_auth ->
  match init run source_auth target_auth names with
  | Ok c =>
      side_made (conn_type (lr_source_connection run)) (source_params (lr_transfer run)) (lr_transfer run)
        (run_data run) (source_handler c) /\
      side_made (conn_type (lr_target_connection run)) (target_params (lr_transfer run)) (lr_transfer run)
        (run_data run) (target_handler c)
  | Raise e => parse_error e /\
      (is_file_handler (handler_of (conn_type (lr_source_connection run))) = true \/
       is_file_handler (handler_of (conn_type (lr_target_connection run))) = true)
  end.
Proof.
  intros [(sn & sa & Hsp & Hss & Hsk & Hse)%accepted_stored (tn & ta & Htp & Hts & Htk & Hte)%accepted_stored
    (j & b & Hb & Hsrc & Htgt & Hstr & Hres & _) Hst Htt Hsame].
  destruct (accepted_usable j b Hb) as [[Hus Hut _ Hs Hr] _]. rewrite <- Hsrc in Hus. rewrite <- Htgt in Hut.
  rewrite <- Hstr in Hs. rewrite <- Hres in Hr. rewrite <- Hst in Hus. rewrite <- Htt in Hut.
  assert (sa ∈ auth_schemas (conn_type (lr_source_connection run))) as Hsa
    by (pose proof (pairs_schemas (conn_type (lr_source_connection run))) as Hps; rewrite Forall_forall in Hps; exact (Hps _ Hsp)).
  assert (ta ∈ auth_schemas (conn_type (lr_target_connection run))) as Hta
    by (pose proof (pairs_schemas (conn_type (lr_target_connection run))) as Hps; rewrite Forall_forall in Hps; exact (Hps _ Htp)).
  unfold init. fold (run_data run). set (g := group_name _).
  pose proof (get_handler_ok (conn_type (lr_source_connection run)) (source_params (lr_transfer run)) (lr_transfer run)
    (mkSide (source_catalog names) (downloaded_dir names) source_auth (source_params (lr_transfer run))) (run_data run) g
    (conn_data (lr_source_connection run)) sn sa Hus eq_refl Hsp Hss Hs Hr) as H1h.
  destruct (get_handler _ (run_data run) _ g (conn_data (lr_source_connection run))) as [[sh|e] d1]; destruct H1h as [Hd1 H1h];
    [|destruct H1h; split; [done|by left]].
  set (td := if _ =? _ then _ else _). cbn [side_auth_data] in Hd1.
  assert (exists tn' ta', (tn', ta') ∈ pairs (conn_type (lr_target_connection run)) /\
    stored_names td target_auth tn' ta' /\ extra_ok (conn_type (lr_target_connection run)) td)
    as (tn' & ta' & Htp' & Hts' & Hte').
  { unfold td. destruct (Z.eqb_spec (conn_id (lr_source_connection run)) (conn_id (lr_target_connection run))) as [He|He].
    - destruct (Hsame He) as [Hc Ha]. exists sn, sa. rewrite <- Hc. split; [done|]. rewrite Hd1.
      split; [|by eapply extra_update]. apply stored_again; [done|]. by rewrite <- Ha.
    - by exists tn, ta. }
  pose proof (get_handler_ok (conn_type (lr_target_connection run)) (target_params (lr_transfer run)) (lr_transfer run)
    (mkSide (target_catalog names) (written_dir names) target_auth (target_params (lr_transfer run))) (run_data run) g
    td tn' ta' Hut eq_refl Htp' Hts' Hs Hr) as H2h.
  unfold outcome. destruct (get_handler _ (run_data run) _ g td) as [[th|e] d2]; cbn; destruct H2h as [_ H2h].
  - split; [exists (conn_data (lr_source_connection run)), source_auth, sn, sa|exists td, target_auth, tn', ta'];
      (split_and!; [done|done|]); by eapply extra_update.
  - destruct H2h. split; [done|by right].
Qed.

(** What the server accepts the worker can run: for every stored connection and
    transfer the server took, created or updated, whose types fit, the two handlers
    are made, of the classes of the types, even when both sides are one connection and
    share its dict; or a parser of onETL refuses the options of a file format.  No key
    is missing, unknown or given twice. *)
Theorem accepted_bodies_make_handlers `{PydanticCore} (run : LoadedRun) source_auth target_auth names :
  accepted_connection (lr_source_connection run) source_auth ->
  accepted_connection (lr_target_connection run) target_auth ->
  accepted_row (lr_transfer run) ->
  conn_type (lr_source_connection run) = params_type (source_params (lr_transfer run)) ->
  conn_type (lr_target_connection run) = params_type (target_params (lr_transfer run)) ->
  (conn_id (lr_source_connection run) = conn_id (lr_target_connection run) ->
    lr_source_connection run = lr_target_connection run /\ source_auth = target_auth) ->
  match init run source_auth target_auth names with
  | Ok c => handler_class (source_handler c) = handler_of (conn_type (lr_source_connection run)) /\
      handler_class (target_handler c) = handler_of (conn_type (lr_target_connection run)) /\
      hwm (source_handler c) = None /\ hwm (target_handler c) = None
  | Raise e => parse_error e /\
      (is_file_handler (handler_of (conn_type (lr_source_connection run))) = true \/
       is_file_handler (handler_of (conn_type (lr_target_connection run))) = true)
  end.
Proof.
  intros Hs Ht Hr Hst Htt Hsame.
  pose proof (init_made run source_auth target_auth names) as Hm. destruct (init _ _ _ _) as [c|e]; [|by apply Hm].
  destruct Hm as [(? & ? & ? & ? & [] & _) (? & ? & ? & ? & [] & _)]; [done|]. by split_and!.
Qed.
End Make.

(** ** Witness *)

Definition witness_run : LoadedRun := loaded_run (files_to_lake true false).
Lemma example_connection i j : is_ok (CreateConnectionSchema j) = true ->
  accepted_connection (connection_of i j).1 (connection_of i j).2.
Proof.
  destruct (CreateConnectionSchema j) as [b|] eqn:Hb; [|done]. intros _. exists create_auth_fields, j, b.
  unfold connection_of. rewrite Hb. by split_and!; [left|..].
Qed.
Lemma example_transfer j : is_ok (parse_create_transfer j) = true -> accepted_row (transfer_of j).
Proof.
  destruct (parse_create_transfer j) as [b|] eqn:Hb; [|done]. intros _. exists j, b.
  unfold transfer_of. rewrite Hb. by split_and!.
Qed.

Lemma accepted_bodies_make_handlers_witness : exists c,
  init witness_run (connection_of 1 ftp_body).2 (connection_of 2 iceberg_body).2 toy_names = Ok c /\
  handler_class (source_handler c) = FTPHandler /\ handler_class (target_handler c) = IcebergRESTCatalogS3Handler.
Proof.
  assert (match init witness_run (connection_of 1 ftp_body).2 (connection_of 2 iceberg_body).2 toy_names with
    | Ok c => handler_class (source_handler c) = handler_of (conn_type (lr_source_connection witness_run)) /\
        handler_class (target_handler c) = handler_of (conn_type (lr_target_connection witness_run)) /\
        hwm (source_handler c) = None /\ hwm (target_handler c) = None
    | Raise e => parse_error e /\
        (is_file_handler (handler_of (conn_type (lr_source_connection witness_run))) = true \/
         is_file_handler (handler_of (conn_type (lr_target_connection witness_run))) = true)
    end) as Hm.
  { apply accepted_bodies_make_handlers.
    - apply (example_connection 1). vm_compute. reflexivity.
    - apply (example_connection 2). vm_compute. reflexivity.
    - apply example_transfer. vm_compute. reflexivity.
    - vm_compute. reflexivity.
    - vm_compute. reflexivity.
    - discriminate. }
  destruct (init _ _ _ _) as [c|e].
  - exists c. split_and!; [reflexivity|exact (proj1 Hm)|exact (proj1 (proj2 Hm))].
  - exfalso. destruct Hm as [(cls & o & He) _]. discriminate He.
Defined.
