(* ===== verification/FilterTheorems.v ===== *)
(** * Theorems about filters

    The filters the server accepts have an expression in the dialect of every
    handler; the values they compare with are not escaped. *)

From S2P Require Import Prelude PyData Models Errors Repositories Pydantic ConnectionSchemas.
From S2P Require Import TransferSchemas Examples Dto.
From S2P Require Import SchemaTheorems FilterExpressions DtoFacts HandlerFacts WorkerExamples.

(** ** Lists *)

Lemma mapM_all_ok {E A B} (f : A -> result E B) l : Forall (fun x => exists y, f x = Ok y) l ->
  exists ys, mapM f l = Ok ys.
Proof.
  induction 1 as [|x l [y Hy] _ [ys Hys]]; [by exists []|]. exists (y :: ys). apply mapM_cons_ok. by exists y, ys.
Qed.

Section Accepted.
Context `{PydanticCore} `{PyLib}.

Lemma validate_list_ok t l l' : validate_list validate t l = Ok l' -> Forall (fun y => exists x, validate t x = Ok y) l'.
Proof.
  revert l'. induction l as [|x l IH]; intros l'; cbn; [by intros [= <-]|].
  fold (validate_list validate t l). destruct (validate t x) as [y|e] eqn:Hy.
  2: { destruct (isinstance e CValueError); [|done]. destruct (validate_list validate t l) as [|e']; [done|].
       by destruct (isinstance e' CValueError). }
  cbn.
  destruct (validate_list validate t l) as [ys|] eqn:Hys; [|done]. intros [= <-]. constructor; [by exists x|by apply IH].
Qed.
Lemma validate_flist t x v : validate (FList t) x = Ok v ->
  exists l, v = JList l /\ Forall (fun y => exists x, validate t x = Ok y) l.
Proof.
  destruct x; try done. cbn -[validate_list]. destruct (validate_list validate t l) as [l'|] eqn:Hl; [|done].
  intros [= <-]. exists l'. split; [done|]. by eapply validate_list_ok.
Qed.

(** an element of a discriminated list: its type, and the names it has *)
Definition has_names (names : string -> list string) (j : json) : Prop :=
  exists d k, j = JObj d /\ dict_get "type" d = Some (JStr k) /\ forall n, n ∈ names k -> is_Some (dict_get n d).

Lemma union_names alts names v : (forall k fs, (k, fs) ∈ alts -> tagged k fs /\ names k ⊆ field_name <$> fs) ->
  (exists x, validate (FUnion alts) x = Ok v) -> has_names names v /\ exists d k, v = JObj d /\
    dict_get "type" d = Some (JStr k) /\ k ∈ alts.*1.
Proof.
  intros Halts [x (d & -> & Hd)%validate_union]. apply union_ok in Hd as (k & fs & Hk & Hkeys & Ht).
  destruct (Halts _ _ Hk) as [Htag Hn]. specialize (Ht Htag). split; exists d, k; split_and!; try done.
  - intros n Hin. apply dict_get_is_Some. rewrite Hkeys. by apply Hn.
  - apply list_elem_of_fmap. by exists (k, fs).
Qed.

Lemma getitem_some n d : is_Some (dict_get n d) -> exists v, getitem n (JObj d) = Ok v.
Proof. intros [v Hv]. exists v. cbn. by rewrite Hv. Qed.

(** ** Filters of rows *)

Definition row_ok (j : json) : Prop := exists d k, j = JObj d /\ dict_get "type" d = Some (JStr k) /\
  is_Some (dict_get "field" d) /\ forall h, is_Some (dict_get k (_operators h)).

Lemma row_filter_ok v : (exists x, validate (FUnion RowsFilter) x = Ok v) -> row_ok v.
Proof.
  intros Hv. apply (union_names _ (fun _ => ["field"])) in Hv as [(d & k & -> & Ht & Hn) (d' & k' & [= <-] & Ht' & Hk)].
  - rewrite Ht in Ht'. injection Ht' as <-. exists d, k. split_and!; [done|done|by apply Hn; left|].
    intros h. apply dict_get_is_Some.
    assert (Forall (fun k => k ∈ dict_keys (_operators h)) RowsFilter.*1) as Hall by (destruct h; by_decide).
    rewrite Forall_forall in Hall. by apply Hall.
  - intros k fs Hk. assert (k ∈ RowsFilter.*1 /\ (fs = [req "field" FStr; tag k] \/
      fs = [req "field" FStr; tag k; req "value" FStr])) as [_ Hfs].
    { split; [apply list_elem_of_fmap; by exists (k, fs)|]. unfold RowsFilter, simple_filter, value_filter in Hk.
      apply elem_of_app in Hk as [Hk|Hk]; apply list_elem_of_fmap in Hk as (t & Heq & _); injection Heq as -> ->; auto. }
    destruct Hfs as [->| ->]; (split; [split; [by_decide|]|cbn; set_solver]).
    + eexists [_], (Some (JStr k)), []. split; [reflexivity|by right].
    + eexists [_], (Some (JStr k)), [_]. split; [reflexivity|by right].
Qed.

Lemma filter_expression_ok h v : row_ok v -> exists e, filter_expression h v = Ok e.
Proof.
  intros (d & k & -> & Ht & [f Hf] & Hop). destruct (Hop h) as [op Hopk].
  assert (operator h (JObj d) = Ok op) as Ho by (unfold operator; cbn; rewrite Ht; cbn; by rewrite Hopk).
  assert (operator_and_field h (JObj d) = Ok (op, f)) as Hof.
  { unfold operator_and_field. rewrite Ho. cbn. rewrite Hf. by destruct h. }
  unfold filter_expression. rewrite Hof. cbn -[getopt String.eqb]. destruct (getopt "value" (JObj d)); [by eexists|..];
    by repeat case_match; eexists.
Qed.

(** ** Filters of columns and of files *)

(** the names the code reads, by the type of the filter *)
Definition column_names (k : string) : list string :=
  "field" :: (if String.eqb k "rename" then ["to"] else if String.eqb k "cast" then ["as_type"] else []).

Lemma column_filter_ok v : (exists x, validate (FUnion ColumnsFilter) x = Ok v) -> has_names column_names v.
Proof.
  intros Hv. refine (proj1 (union_names _ _ v _ Hv)). intros k fs Hk. unfold ColumnsFilter in Hk.
  rewrite !elem_of_cons, elem_of_nil in Hk.
  destruct Hk as [[= -> ->]|[[= -> ->]|[[= -> ->]|[]]]]; (split; [split; [by_decide|]|cbn; set_solver]).
  - eexists [_], (Some (JStr _)), []. split; [reflexivity|by right].
  - eexists [_], (Some (JStr _)), [_]. split; [reflexivity|by right].
  - eexists [_], (Some (JStr _)), [_]. split; [reflexivity|by right].
Qed.

Lemma column_expression_ok h v : has_names column_names v -> exists e, column_expression h v = Ok e.
Proof.
  intros (d & k & -> & Ht & Hn). destruct (Hn "field") as [f Hf]; [by left|]. unfold column_expression. cbn.
  rewrite Ht, Hf. cbn. destruct (String.eqb k "include"); [by eexists|].
  destruct (String.eqb_spec k "rename") as [->|Hr].
  - destruct (Hn "to") as [x Hx]; [right; by left|]. rewrite Hx. by eexists.
  - destruct (String.eqb_spec k "cast") as [->|Hc]; [|by eexists].
    destruct (Hn "as_type") as [x Hx]; [right; by left|]. rewrite Hx. by eexists.
Qed.

Lemma metadata_filter_ok v : (exists x, validate (FUnion MetadataFilter) x = Ok v) -> has_names (fun _ => ["value"]) v.
Proof.
  intros Hv. refine (proj1 (union_names _ _ v _ Hv)). intros k fs Hk. unfold MetadataFilter in Hk.
  rewrite !elem_of_cons, elem_of_nil in Hk.
  destruct Hk as [[= -> ->]|[[= -> ->]|[[= -> ->]|[[= -> ->]|[]]]]]; (split; [split; [by_decide|]|cbn; set_solver]);
    eexists [], (Some (JStr _)), [_]; (split; [reflexivity|by right]).
Qed.
Lemma file_filter_ok v : has_names (fun _ => ["value"]) v -> exists l, file_filter v = Ok l.
Proof.
  intros (d & k & -> & Ht & Hn). destruct (Hn "value") as [x Hx]; [by left|]. unfold file_filter. cbn.
  rewrite Ht. cbn. rewrite Hx. cbn. by eexists.
Qed.

(** ** Transformations *)

(** a transformation: the filters of a type satisfy its predicate *)
Definition filters_ok (j : json) : Prop := exists d k, j = JObj d /\ dict_get "type" d = Some (JStr k) /\
  (k = "sql" -> is_Some (dict_get "query" d)) /\
  forall P : json -> Prop,
    (k = "dataframe_rows_filter" /\ P = row_ok \/ k = "dataframe_columns_filter" /\ P = has_names column_names \/
     k = "file_metadata_filter" /\ P = has_names (fun _ => ["value"])) ->
    exists l, dict_get "filters" d = Some (JList l) /\ Forall P l.

Lemma filters_value input k o alts d P : (forall v, (exists x, validate (FUnion alts) x = Ok v) -> P v) ->
  o = None \/ o = Some (JStr k) ->
  validate_fields validate input [mkField "type" None (FLiteral [k]) o false keep; filters_field alts] [] None = Ok d ->
  exists l, dict_get "filters" d = Some (JList l) /\ Forall P l.
Proof.
  intros HP Ho Hd.
  apply (validate_fields_get _ _ [mkField "type" None (FLiteral [k]) o false keep] (filters_field alts) [])
    in Hd as (data & v & Hv & Hget & _); [|cbn; by_decide].
  cbn [field_name filters_field opt] in Hget. rewrite Hget. cbn [validate_field filters_field opt] in Hv.
  destruct (field_input _ _ _) as [x|]; [|injection Hv as <-; by exists []].
  destruct (validate (FList (FUnion alts)) x) as [w|] eqn:Hw; [|done]. injection Hv as <-.
  apply validate_flist in Hw as (l & -> & Hl). exists l. split; [done|]. eapply Forall_impl; [exact Hl|]. exact HP.
Qed.

Lemma transformation_ok v : (exists x, validate (FUnion TransformationSchema) x = Ok v) -> filters_ok v.
Proof.
  intros [x (d & -> & Hd)%validate_union]. pose proof Hd as Hd'.
  apply union_fields in Hd as (k & fs & input & Hk & Hd). exists d, k.
  assert (dict_get "type" d = Some (JStr k)) as Ht.
  { eapply tagged_type; [|exact Hd]. unfold TransformationSchema in Hk. rewrite !elem_of_cons, elem_of_nil in Hk.
    destruct Hk as [[= -> ->]|[[= -> ->]|[[= -> ->]|[[= -> ->]|[]]]]]; (split; [by_decide|]).
    - eexists [], None, [_]. split; [reflexivity|by left].
    - eexists [], (Some (JStr _)), [_]. split; [reflexivity|by right].
    - eexists [], (Some (JStr _)), [_]. split; [reflexivity|by right].
    - eexists [], (Some (JStr _)), [_; _]. split; [reflexivity|by right]. }
  split; [done|split; [done|]]. unfold TransformationSchema in Hk. rewrite !elem_of_cons, elem_of_nil in Hk.
  destruct Hk as [[= -> ->]|[[= -> ->]|[[= -> ->]|[[= -> ->]|[]]]]]; (split; [try done|]).
  - intros P HP. assert (P = row_ok) as -> by naive_solver. eapply filters_value; [apply row_filter_ok| |exact Hd]. by left.
  - intros P HP. assert (P = has_names column_names) as -> by naive_solver.
    eapply filters_value; [apply column_filter_ok| |exact Hd]. by right.
  - intros P HP. assert (P = has_names (fun _ => ["value"])) as -> by naive_solver.
    eapply filters_value; [apply metadata_filter_ok| |exact Hd]. by right.
  - intros _. apply dict_get_is_Some. apply validate_fields_keys in Hd. rewrite Hd. cbn. set_solver.
  - intros P HP. naive_solver.
Qed.

Lemma filters_of_ok type (P : json -> Prop) ts : Forall filters_ok ts ->
  (type = "dataframe_rows_filter" /\ P = row_ok \/ type = "dataframe_columns_filter" /\ P = has_names column_names \/
   type = "file_metadata_filter" /\ P = has_names (fun _ => ["value"])) ->
  exists l, filters_of type ts = Ok l /\ Forall P l.
Proof.
  intros Hts HP. induction Hts as [|x ts (d & k & -> & Ht & _ & Hf) _ [l [Hl HPl]]]; [by exists []|].
  cbn. rewrite Ht. cbn. destruct (String.eqb_spec k type) as [->|]; cbn.
  - destruct (Hf P HP) as (fs & Hfs & HPf). rewrite Hfs. cbn. rewrite Hl. cbn. exists (fs ++ l). split; [done|].
    by apply Forall_app.
  - rewrite Hl. cbn. by exists l.
Qed.

Lemma get_sql_query_ok ts : Forall filters_ok ts -> exists q, _get_sql_query ts = Ok q.
Proof.
  induction 1 as [|x ts (d & k & -> & Ht & Hsql & _) _ [q Hq]]; [by exists None|]. cbn. rewrite Ht. cbn.
  destruct (String.eqb_spec k "sql") as [->|]; [|by exists q]. destruct (Hsql eq_refl) as [v Hv]. rewrite Hv. by eexists.
Qed.

Lemma body_transformations j b : parse_create_transfer j = Ok b -> Forall filters_ok (JObj <$> tb_transformations b).
Proof.
  unfold parse_create_transfer. intros Hp. destruct (model_validate _ _ j) as [d|] eqn:Hd; [|done].
  injection Hp as <-. destruct j as [| | | | |input]; try done. cbn [model_validate] in Hd.
  pose proof (transfer_field _ _ 9 _ Hd eq_refl) as (d9 & v9 & Hv9 & Hg9 & _). cbn [field_name opt] in Hg9.
  cbn [tb_transformations TransferSchemas.transfer_body]. rewrite Hg9.
  assert (exists l, v9 = JList l /\ Forall filters_ok l) as (l & -> & Hl).
  { cbn [validate_field opt] in Hv9. destruct (field_input _ _ _) as [x|]; [|injection Hv9 as <-; by exists []].
    destruct (validate (FList (FUnion TransformationSchema)) x) as [w|] eqn:Hw; [|done]. injection Hv9 as <-.
    apply validate_flist in Hw as (l & -> & Hl). exists l. split; [done|]. eapply Forall_impl; [exact Hl|]. apply transformation_ok. }
  cbn [dicts_of]. rewrite <- list_fmap_compose.
  match goal with |- Forall _ ?l' => replace l' with l; [done|] end.
  rewrite <- (list_fmap_id l) at 1. apply list_fmap_ext. intros i x Hx.
  rewrite Forall_lookup in Hl. by destruct (Hl _ _ Hx) as (d' & k & -> & _).
Qed.

Lemma rows_expression_ok h ts : Forall filters_ok ts -> exists rows, _get_rows_filter_expression h ts = Ok rows.
Proof.
  intros Hts. destruct (filters_of_ok _ _ _ Hts (or_introl (conj eq_refl eq_refl))) as (l & Hl & HP).
  unfold _get_rows_filter_expression. rewrite Hl. cbn. unfold _make_rows_filter_expression.
  destruct (mapM_all_ok (filter_expression h) l) as [ys ->]; [|by eexists].
  eapply Forall_impl; [exact HP|]. apply filter_expression_ok.
Qed.
Lemma columns_expressions_ok h ts : Forall filters_ok ts -> exists columns, _get_columns_filter_expressions h ts = Ok columns.
Proof.
  intros Hts. destruct (filters_of_ok _ _ _ Hts (or_intror (or_introl (conj eq_refl eq_refl)))) as (l & Hl & HP).
  unfold _get_columns_filter_expressions. rewrite Hl. cbn. unfold _make_columns_filter_expressions.
  destruct (mapM_all_ok (column_expression h) l) as [ys ->]; [|by eexists].
  eapply Forall_impl; [exact HP|]. apply column_expression_ok.
Qed.
Lemma file_filters_ok ts : Forall filters_ok ts -> exists files, _get_file_metadata_filters ts = Ok files.
Proof.
  intros Hts. destruct (filters_of_ok _ _ _ Hts (or_intror (or_intror (conj eq_refl eq_refl)))) as (l & Hl & HP).
  unfold _get_file_metadata_filters. rewrite Hl. cbn.
  destruct (mapM_all_ok file_filter l) as [ys ->]; [|by eexists].
  eapply Forall_impl; [exact HP|]. apply file_filter_ok.
Qed.

(** The transformations of an accepted transfer raise nothing in any handler:
    every row filter has an operator in the dialect of every database, no key is
    missing, and there are expressions for rows, columns, files and the query. *)
Theorem accepted_transformations j b (h : HandlerClass) : parse_create_transfer j = Ok b ->
  let ts := JObj <$> tb_transformations b in
  (exists rows, _get_rows_filter_expression h ts = Ok rows) /\
  (exists columns, _get_columns_filter_expressions h ts = Ok columns) /\
  (exists files, _get_file_metadata_filters ts = Ok files) /\
  exists query, _get_sql_query ts = Ok query.
Proof.
  intros Hb%body_transformations ts. fold ts in Hb.
  split_and!; [by apply rows_expression_ok|by apply columns_expressions_ok|by apply file_filters_ok|by apply get_sql_query_ok].
Qed.
End Accepted.

(** ** Witness *)

Definition filtered : json := files_to_lake true true.
Lemma accepted_transformations_witness : exists b rows,
  parse_create_transfer filtered = Ok b /\
  _get_rows_filter_expression OracleHandler (JObj <$> tb_transformations b) = Ok rows /\
  rows = Some ("LOWER(" +:+ dquote +:+ "name" +:+ dquote +:+ ") LIKE LOWER('a%')").
Proof.
  destruct (parse_create_transfer filtered) as [b|e] eqn:Hb; [|exfalso; apply (f_equal is_ok) in Hb; vm_compute in Hb; discriminate].
  destruct (accepted_transformations filtered b OracleHandler Hb) as [[rows Hr] _]. exists b, rows.
  split_and!; [reflexivity|exact Hr|].
  assert (Ok rows = Ok (E := exc) (Some ("LOWER(" +:+ dquote +:+ "name" +:+ dquote +:+ ") LIKE LOWER('a%')"))) as Heq.
  { rewrite <- Hr. revert Hb. generalize b. intros b' Hb. assert (tb_transformations b' =
      match parse_create_transfer filtered with Ok x => tb_transformations x | Raise _ => [] end) as -> by (by rewrite Hb).
    vm_compute. reflexivity. }
  injection Heq as ->. reflexivity.
Defined.
