(* ===== verification/WorkerTheorems.v ===== *)
(** * Theorems about running a transfer

    The order of the calls of the controller and the handlers, the name of the high
    water mark, and the bounds of the Spark session. *)

From S2P Require Import Prelude PyData Models Errors Search Repositories Pydantic.
From S2P Require Import Settings ConnectionSchemas TransferSchemas Examples Dto.
From Stdlib Require Import Ascii.
From S2P Require Import SchemaTheorems FilterExpressions FileNames Handlers ReadWrite Spark.
From S2P Require Import Controller DtoFacts HandlerFacts WorkerExamples.

(** ** Traces *)

Section Traces.
Context `{Answers}.

Lemma call_run {A} (answer : list Call -> Call -> result exc A) c l : call answer c l = (answer l c, l ++ [c]).
Proof. done. Qed.

(** the calls after the body of a [with] or [try] *)
Lemma with_exit_run {A} (m : Worker A) exit l r l' : with_exit m exit l = (r, l') ->
  exists r1 l1 u, m l = (r1, l1) /\ exit (negb (is_ok r1)) l1 = (u, l') /\
    (forall a, r = Ok a -> r1 = Ok a).
Proof.
  unfold with_exit. destruct (m l) as [r1 l1]. destruct (exit _ l1) as [u l2] eqn:Hx.
  intros Hr. exists r1, l1, u. destruct u; injection Hr as <- <-; by split_and!.
Qed.

(** a finally clause that is one call: the call is the last *)
Lemma finally_call_run {A} (m : Worker A) c l r l' : finally_ m (call done_ c) l = (r, l') ->
  exists r1 l1, m l = (r1, l1) /\ l' = l1 ++ [c] /\ (forall a, r = Ok a -> r1 = Ok a).
Proof.
  unfold finally_. intros (r1 & l1 & u & Hm & Hc & Hok)%with_exit_run. exists r1, l1.
  rewrite call_run in Hc. injection Hc as _ <-. by split_and!.
Qed.

Lemma finally_call_ok {A} (m : Worker A) c l a l' : finally_ m (call done_ c) l = (Ok a, l') ->
  exists l1, m l = (Ok a, l1) /\ l' = l1 ++ [c].
Proof.
  intros (r1 & l1 & Hm & -> & Hok)%finally_call_run. exists l1. split; [|done]. rewrite Hm. by rewrite (Hok a).
Qed.
End Traces.

(** ** The controller *)

Section Controller.
Context `{PyLib} `{Answers}.

(** the target was written: its [write] ended without an exception *)
Definition written (c : TransferController) (l : list Call) : Prop :=
  exists mark df l0, write (with_hwm mark (target_handler c)) df l0 = (Ok tt, l).

Lemma incremental_ok store c l l' : _perform_incremental_transfer store c l = (Ok tt, l') ->
  exists l1, written c l1 /\ l' = (l1 ++ [ExitIncrementalStrategy false]) ++ [CloseHWMStore].
Proof.
  unfold _perform_incremental_transfer, with_hwm_store. intros Hr.
  apply bind_ok in Hr as (u & l1 & _ & Hr). apply finally_call_ok in Hr as (l2 & Hr & ->).
  apply bind_ok in Hr as (u1 & l3 & _ & Hr). apply with_exit_run in Hr as (r1 & l4 & u2 & Hm & Hc & Hok).
  rewrite (Hok tt eq_refl) in *. cbn [is_ok negb] in Hc. rewrite call_run in Hc. injection Hc as _ <-.
  apply bind_ok in Hm as (n & l5 & _ & Hm). apply bind_ok in Hm as (v & l6 & _ & Hm).
  apply bind_ok in Hm as (df & l7 & _ & Hm). exists l4. split; [by exists v, df, l7|done].
Qed.

(** C19 A mark is saved only after the target was written: when the strategy of an
    incremental transfer ends with success, [write] has returned just before, and then
    the store is closed; a transfer that raises after the strategy began and before the
    end of [write] ends it as failed. *)
Theorem mark_saved_after_write store c l r l' : _perform_incremental_transfer store c l = (r, l') ->
  let opened := OpenHWMStore (hwm_url store) (hwm_user store) (hwm_password store) (hwm_namespace store) in
  l' = l ++ [opened] \/
  l' = l ++ [opened; EnterIncrementalStrategy; CloseHWMStore] \/
  exists failed l1, l' = l1 ++ [ExitIncrementalStrategy failed; CloseHWMStore] /\
    (failed = false -> written c l1) /\ (r = Ok tt -> failed = false).
Proof.
  cbv zeta. unfold _perform_incremental_transfer, with_hwm_store, _get_hwm_store. set (opened := OpenHWMStore _ _ _ _).
  rewrite bind_run, call_run. destruct (done_ l opened) as [u|e]; [|intros [= _ <-]; by left].
  intros (r1 & l1 & Hm & -> & Hok)%finally_call_run. right. revert Hm. rewrite bind_run, call_run.
  destruct (done_ _ EnterIncrementalStrategy) as [u1|e]; [|intros [= _ <-]; left; by rewrite <- !app_assoc].
  intros (r2 & l2 & u2 & Hm & Hc & Hok')%with_exit_run. right. rewrite call_run in Hc. injection Hc as _ <-.
  exists (negb (is_ok r2)), l2. rewrite <- app_assoc. split_and!; [done| |].
  - destruct r2 as [[]|]; [|done]. intros _.
    apply bind_ok in Hm as (n & l5 & _ & Hm). apply bind_ok in Hm as (v & l6 & _ & Hm).
    apply bind_ok in Hm as (df & l7 & _ & Hm). by exists v, df, l7.
  - intros ->. by rewrite (Hok' tt (Hok tt eq_refl)).
Qed.

Lemma session_ok settings c l l' : session_body settings c l = (Ok tt, l') ->
  exists l1 tail, l' = l1 ++ tail /\ written c l1 /\
    (tail = [] \/ tail = [ExitIncrementalStrategy false; CloseHWMStore]).
Proof.
  unfold session_body. intros Hr. do 2 apply bind_ok in Hr as (? & ? & _ & Hr).
  apply bind_ok in Hr as (s & l3 & _ & Hr). destruct (json_eqb _ _).
  - apply incremental_ok in Hr as (l1 & Hw & ->). exists l1, [ExitIncrementalStrategy false; CloseHWMStore].
    rewrite <- app_assoc. split_and!; [done|done|by right].
  - apply bind_ok in Hr as (u & l4 & _ & Hr). apply bind_ok in Hr as (df & l5 & _ & Hr).
    exists l', []. rewrite app_nil_r. split_and!; [done| |by left].
    exists (hwm (target_handler c)), df, l5. by destruct (target_handler c).
Qed.

(** C20 However a transfer goes, the last thing done is to remove its temporary
    directory, and a Spark session that was made is stopped just before; a transfer
    that ends without an exception has written its target. *)
Theorem perform_transfer_spec settings run c r l : perform_transfer settings run c [] = (r, l) ->
  let '(made, l0) := create_spark_session_function settings run (connection_dto (source_handler c))
                       (connection_dto (target_handler c)) [] in
  match made with
  | Raise _ => l = l0 ++ [CleanupTempDir] /\ r <> Ok tt
  | Ok _ => exists l1, l = l1 ++ [StopSpark; CleanupTempDir] /\
      (r = Ok tt -> exists l2 tail, l1 = l2 ++ tail /\ written c l2 /\
        (tail = [] \/ tail = [ExitIncrementalStrategy false; CloseHWMStore]))
  end.
Proof.
  unfold perform_transfer. intros (r1 & l1 & Hm & -> & Hok)%finally_call_run. rewrite bind_run in Hm.
  destruct (create_spark_session_function _ _ _ _ []) as [[u|e] l0].
  - apply finally_call_run in Hm as (r2 & l2 & Hm & -> & Hok'). exists l2. split; [by rewrite <- app_assoc|].
    intros ->. specialize (Hok' tt (Hok tt eq_refl)). rewrite Hok' in Hm. by eapply session_ok.
  - injection Hm as <- <-. split; [done|]. intros ->. by specialize (Hok tt eq_refl).
Qed.
End Controller.

(** ** Reading *)

Section Reading.
Context `{PyLib} `{Answers}.

Definition downloads (h : Handler) : bool :=
  match handler_class h with
  | SFTPHandler | FTPHandler | FTPSHandler | SambaHandler | WebDAVHandler => true
  | _ => false
  end.

(** A handler of files that are downloaded first never applies a query: with a
    SQL transformation every read raises, after the files were downloaded and read. *)
Theorem downloaded_sql_fails h ts q l : downloads h = true -> transformations_of h = Ok ts ->
  _get_sql_query ts = Ok (Some q) -> json_truthy q = true ->
  exists e, outcome (read h) l = Raise e.
Proof.
  intros Hh Hts Hq Ht. assert (read h = local_read h) as -> by (unfold read, downloads in *; by destruct (handler_class h)).
  destruct (outcome (local_read h) l) as [df|e] eqn:Hr; [|by exists e]. exfalso.
  apply outcome_ok in Hr as [l' Hr]. unfold local_read in Hr.
  do 8 apply bind_ok in Hr as (? & ? & _ & Hr). apply bind_ok in Hr as (sql & l1 & Hs & Hr).
  unfold pure, reads in Hs. rewrite Hts in Hs. cbn [mbind result_bind] in Hs. rewrite Hq in Hs. injection Hs as <- _.
  rewrite Ht in Hr. unfold local_sql in Hr. by apply bind_ok in Hr as (? & ? & _ & Hr).
Qed.
End Reading.

(** ** The name of the mark *)

Fixpoint no_underscore (s : string) : Prop :=
  match s with EmptyString => True | String c s' => c <> "_"%char /\ no_underscore s' end.

Lemma uint_no_underscore d : no_underscore (DecimalString.NilEmpty.string_of_uint d).
Proof. induction d; cbn; done. Qed.
Lemma str_of_Z_no_underscore z : no_underscore (str_of_Z z).
Proof.
  unfold str_of_Z, DecimalString.NilZero.string_of_int.
  assert (forall d, no_underscore (DecimalString.NilZero.string_of_uint d)) as Hu.
  { intros []; try done; apply uint_no_underscore. }
  destruct (Z.to_int z); cbn; auto.
Qed.

Lemma underscore_split (a b r s : string) : no_underscore a -> no_underscore b ->
  a +:+ "_" +:+ r = b +:+ "_" +:+ s -> a = b.
Proof.
  revert b. induction a as [|c a IH]; intros [|c' b]; rewrite ?string_app_cons; [done|..].
  - intros _ [Hc _] [= <- _]. done.
  - intros [Hc _] _ [= -> _]. done.
  - intros [_ Ha] [_ Hb] [= -> Heq]. f_equal. by apply IH.
Qed.

Section Marks.
Context `{PyLib} `{Answers}.

(** the marks of different transfers have different names *)
Lemma hwm_names_distinct h1 h2 i1 i2 n : json_attr "id" (transfer_dto h1) = Ok (JInt i1) ->
  json_attr "id" (transfer_dto h2) = Ok (JInt i2) ->
  _get_transfer_hwm_name h1 = Ok n -> _get_transfer_hwm_name h2 = Ok n -> i1 = i2.
Proof.
  unfold _get_transfer_hwm_name. intros Hid1 Hid2 Hn1 Hn2. rewrite Hid1 in Hn1. rewrite Hid2 in Hn2.
  destruct (json_attr _ (transfer_dto h1)) as [[]|] in Hn1; try done.
  destruct (json_attr _ (transfer_dto h2)) as [[]|] in Hn2; try done.
  cbn in Hn1, Hn2. injection Hn1 as <-. injection Hn2 as Heq. apply (inj str_of_Z).
  symmetry. eapply underscore_split; [apply str_of_Z_no_underscore..|exact Heq].
Qed.

(** the name the reader gives the mark is the one the controller asks the store for *)
Lemma hwm_name_agrees h s : json_attr (if instance_of (transfer_dto h) "FileTransferDTO"
    then "directory_path" else "table_name") (transfer_dto h) = Ok (JStr s) ->
  _get_transfer_hwm_name h = hwm_name h (JStr s).
Proof.
  unfold _get_transfer_hwm_name, hwm_name. intros ->. cbn [mbind result_bind].
  by destruct (json_attr "id" (transfer_dto h)).
Qed.

(** C21 An incremental read of a database asks for the rows after the mark the
    controller looks up: the reader is given that mark's name and the quoted column,
    and it partitions on that column by range when the mark is known. *)
Theorem incremental_read_uses_mark h ty column s l df l' :
  is_file_handler (handler_class h) = false -> instance_of (transfer_dto h) "FileTransferDTO" = false ->
  strategy_attr (transfer_dto h) = Ok (IncrementalStrategy ty column) ->
  json_attr "table_name" (transfer_dto h) = Ok (JStr s) -> read h l = (Ok df, l') ->
  exists n where_ columns options, _get_transfer_hwm_name h = Ok n /\
    let quoted := _quote_field (handler_class h) (py_str column) in
    DBReaderRun (JStr s) where_ columns (Some (n, quoted)) options ∈ l' /\
    forall o, options = Some o -> dict_get "partition_column" o = Some (JStr quoted) /\
      dict_get "partitioning_mode" o = Some (JStr (if hwm_known h then "range" else "hash")).
Proof.
  intros Hf Hi Hs Ht Hr.
  assert (exists l0, db_read h l0 = (Ok df, l')) as [l0 Hd].
  { unfold read in Hr. destruct (handler_class h); try discriminate Hf; try (by exists l).
    - apply bind_ok in Hr as (? & ? & _ & Hr). apply bind_ok in Hr as (? & l1 & _ & Hr). by exists l1.
    - do 2 apply bind_ok in Hr as (? & ? & _ & Hr). apply bind_ok in Hr as (? & l1 & _ & Hr). by exists l1. }
  clear Hr. unfold db_read in Hd. rewrite bind_run in Hd. unfold pure at 1, reads at 1 in Hd. rewrite Hs in Hd.
  rewrite bind_run in Hd. unfold pure at 1, reads at 1 in Hd. rewrite Ht in Hd. cbv zeta beta iota in Hd.
  rewrite <- (hwm_name_agrees h s) in Hd by (by rewrite Hi).
  apply bind_ok in Hd as (mk & l1 & Hm & Hd). unfold pure, reads in Hm.
  destruct (_get_transfer_hwm_name h) as [n|]; [|done]. injection Hm as <- <-.
  apply bind_ok in Hd as (options & l2 & Ho & Hd). apply bind_ok in Hd as (where_ & l3 & _ & Hd).
  apply bind_ok in Hd as (columns & l4 & _ & Hd). apply bind_ok in Hd as (df0 & l5 & Hrun & Hd).
  rewrite call_run in Hrun. injection Hrun as _ <-.
  exists n, where_, columns, options. split; [done|]. intros quoted. split.
  - apply bind_ok in Hd as (q & l6 & Hq & Hd). injection Hq as _ <-. destruct q as [q|]; [|injection Hd as _ <-; set_solver].
    destruct (json_truthy q); [|injection Hd as _ <-; set_solver].
    unfold apply_sql in Hd. apply bind_ok in Hd as (? & l7 & Hc & Hd). rewrite call_run in Hc. injection Hc as _ <-.
    rewrite call_run in Hd. injection Hd as _ <-. set_solver.
  - intros o ->. unfold _get_reading_options in Ho. destruct (handler_class h); try done;
      apply bind_ok in Ho as (tasks & ? & _ & Ho); (destruct (equals_one tasks); [done|]); by injection Ho as <- _.
Qed.
End Marks.

(** ** The Spark session *)

Section SparkSession.
Context `{PydanticCore} `{PyLib} `{Environment}.

Lemma int_field input fs1 n t lo hi dv fs2 d : NoDup (field_name <$> fs1 ++ opt n t (JInt dv) :: fs2) ->
  (forall x v, validate t x = Ok v -> exists z, v = JInt z /\ lo <= z <= hi) -> lo <= dv <= hi ->
  validate_fields validate input (fs1 ++ opt n t (JInt dv) :: fs2) [] None = Ok d ->
  exists z, int_item n d = Ok z /\ lo <= z <= hi.
Proof.
  intros Hnd Ht Hdv Hd. apply validate_fields_get in Hd as (data & v & Hv & Hget & _); [|exact Hnd].
  cbn [field_name opt] in Hget. unfold int_item. rewrite Hget. cbn [validate_field opt] in Hv.
  destruct (field_input _ _ _) as [x|].
  - destruct (validate t x) as [w|] eqn:Hw; [|done]. injection Hv as <-. destruct (Ht _ _ Hw) as (z & -> & ?). by exists z.
  - injection Hv as <-. by exists dv.
Qed.

Lemma validate_int_in lo hi x v : validate (FIntIn lo hi) x = Ok v -> exists z, v = JInt z /\ lo <= z <= hi.
Proof.
  cbn. unfold validate_int. destruct (lax_int x) as [z|]; [|done]. destruct (in_range _ _ z) eqn:Hr; [|done].
  intros [= <-]. exists z. split; [done|]. unfold in_range in Hr. apply andb_true_iff in Hr. lia.
Qed.
Lemma validate_bytes_in lo hi x v : validate (FByteSize (Some lo) (Some hi)) x = Ok v ->
  exists z, v = JInt z /\ lo <= z <= hi.
Proof.
  cbn. destruct (lax_bytesize x) as [z|]; [|done]. destruct (in_range _ _ z) eqn:Hr; [|done].
  intros [= <-]. exists z. split; [done|]. unfold in_range in Hr. apply andb_true_iff in Hr. lia.
Qed.

Lemma accepted_resources j r : validate (FModel TransferSchemas.Resources) j = Ok (JObj r) ->
  exists tasks cores ram, int_item "max_parallel_tasks" r = Ok tasks /\ 1 <= tasks <= 100 /\
    int_item "cpu_cores_per_task" r = Ok cores /\ 1 <= cores <= 32 /\
    int_item "ram_bytes_per_task" r = Ok ram /\ 512 * ONE_MB <= ram <= 64 * ONE_GB.
Proof.
  intros (d & input & [= <-] & _ & Hd)%validate_model.
  assert (NoDup (field_name <$> TransferSchemas.Resources)) as Hnd by by_decide.
  destruct (int_field input [] "max_parallel_tasks" (FIntIn 1 100) 1 100 1 [_; _] r Hnd (validate_int_in _ _) ltac:(lia) Hd)
    as (tasks & ? & ?).
  destruct (int_field input [_] "cpu_cores_per_task" (FIntIn 1 32) 1 32 1 [_] r Hnd (validate_int_in _ _) ltac:(lia) Hd)
    as (cores & ? & ?).
  destruct (int_field input [_; _] "ram_bytes_per_task" _ _ _ ONE_GB [] r Hnd (validate_bytes_in _ _)
    ltac:(unfold ONE_MB, ONE_GB; lia) Hd) as (ram & ? & ?).
  by exists tasks, cores, ram.
Qed.

(** the committers of S3 leave the rest of the configuration *)
Lemma committer_get k config : k ∉ dict_keys s3_committer_config ->
  dict_get k (dict_update config s3_committer_config) = dict_get k config.
Proof.
  intros Hk%dict_get_None. rewrite dict_get_update by by_decide. by rewrite Hk.
Qed.

(** C25 For accepted resources the Spark session is within the bounds of the schema:
    1 to 100 executors, 1 to 32 cores each, a parallelism of at most 3200, and 512 to
    65536 megabytes of memory, the bytes asked for rounded up to a megabyte; local
    masters get them as threads and driver memory. *)
Theorem spark_session_bounds j r master local source target :
  validate (FModel TransferSchemas.Resources) j = Ok (JObj r) -> is_local master = Ok local ->
  exists conf tasks cores ram mb, get_spark_session_conf master source target r = Ok conf /\
    int_item "ram_bytes_per_task" r = Ok ram /\
    1 <= tasks <= 100 /\ 1 <= cores <= 32 /\ 1 <= tasks * cores <= 3200 /\
    512 <= mb <= 65536 /\ ram <= mb * ONE_MB < ram + ONE_MB /\
    dict_get "spark.executor.cores" conf = Some (JInt cores) /\
    dict_get "spark.default.parallelism" conf = Some (JInt (tasks * cores)) /\
    dict_get "spark.dynamicAllocation.maxExecutors" conf = Some (JInt tasks) /\
    if local : bool
    then dict_get "spark.master" conf = Some (JStr ("local[" +:+ str_of_Z tasks +:+ "]")) /\
         dict_get "spark.driver.memory" conf = Some (JStr (str_of_Z mb +:+ "M"))
    else dict_get "spark.executor.instances" conf = Some (JInt tasks) /\
         dict_get "spark.executor.memory" conf = Some (JStr (str_of_Z mb +:+ "M")).
Proof.
  intros Hr Hl. apply accepted_resources in Hr as (tasks & cores & ram & Ht & Htb & Hc & Hcb & Hm & Hmb).
  unfold get_spark_session_conf. rewrite Ht. cbn [mbind result_bind]. rewrite Hc. cbn [mbind result_bind].
  rewrite Hm. cbn [mbind result_bind]. rewrite Hl. cbn [mbind result_bind].
  eexists _, tasks, cores, ram, (memory_mb ram). split; [reflexivity|]. split; [done|].
  assert (512 <= memory_mb ram <= 65536 /\ ram <= memory_mb ram * ONE_MB < ram + ONE_MB) as [Hmem1 Hmem2].
  { unfold memory_mb, ceil_div, ONE_MB, ONE_GB in *. change (1024 * 1024) with (2 ^ 20).
    pose proof (Z.div_mod (- ram) (2 ^ 20) ltac:(lia)). pose proof (Z.mod_pos_bound (- ram) (2 ^ 20) ltac:(lia)).
    change (2 ^ 20) with 1048576 in *. change (2 ^ 30) with 1073741824 in *. lia. }
  match goal with |- context [dict_update ?c s3_committer_config] => set (base := c) end.
  match goal with |- context [dict_get "spark.executor.cores" ?c] => set (conf := c) end.
  assert (forall k, k ∉ dict_keys s3_committer_config -> dict_get k conf = dict_get k base) as Hget.
  { intros k Hk. unfold conf. destruct (String.eqb (dto_type target) "s3"); [by apply committer_get|done]. }
  rewrite !Hget by by_decide. clearbody conf. unfold base.
  split_and!; try lia; try nia; by destruct local.
Qed.
End SparkSession.

(** ** Writing to HDFS and S3 *)

Section RemoteWrite.
Context `{PyLib} `{Answers}.

(** what the calls that rename do to a directory *)
Definition run_rename (dir : Directory) (c : Call) : Directory :=
  match c with
  | RenameFile old new => rename (default "" (last old)) (default "" (last new)) dir
  | _ => dir
  end.
Definition run_renames (calls : list Call) (dir : Directory) : Directory := foldl run_rename dir calls.

Lemma rename_calls_refine h directory ext template prefix files : forall i l l',
  file_extension h = Ok ext -> json_attr "file_name_template" (transfer_dto h) = Ok (JStr template) ->
  rename_calls h directory i ((fun f => prefix ++ [f]) <$> files) l = (Ok tt, l') ->
  exists calls, l' = l ++ calls /\
    forall dir, rename_loop template (run_dto h) ext i files dir = Ok (run_renames calls dir).
Proof.
  induction files as [|f files IH]; intros i l l' He Ht Hr.
  - injection Hr as <-. exists []. split; [by rewrite app_nil_r|done].
  - cbn [rename_calls fmap list_fmap] in Hr. apply bind_ok in Hr as (e & l1 & H1e & Hr).
    unfold pure, reads in H1e. rewrite He in H1e. injection H1e as <- <-.
    apply bind_ok in Hr as (new & l1 & Hnew & Hr). unfold pure, reads, file_name in Hnew. rewrite Ht in Hnew.
    cbn [mbind result_bind] in Hnew. destruct (_get_file_name template (run_dto h) i ext) as [n|] eqn:Hn; [|done].
    injection Hnew as <- <-. apply bind_ok in Hr as (u & l1 & Hc & Hr). rewrite call_run in Hc. injection Hc as _ <-.
    destruct (IH _ _ _ He Ht Hr) as (calls & -> & Hloop).
    exists (RenameFile (prefix ++ [f]) (directory ++ [n]) :: calls). split; [by rewrite <- app_assoc|].
    intros dir. cbn [rename_loop]. rewrite Hn. cbn [mbind result_bind]. rewrite Hloop. f_equal.
    cbn. by rewrite !last_snoc.
Qed.

(** C22 A write to HDFS or S3 leaves no temporary directory: removing it is the last
    call, whatever failed.  When it succeeds, the data were written below the target
    directory, every file listed there was renamed as [_rename_files] says, and the
    files with the extension were moved to the target. *)
Theorem remote_write_spec h df path cls opts template ext r l : json_attr "directory_path" (transfer_dto h) = Ok path ->
  format_attr (transfer_dto h) = Ok (cls, opts) -> _get_file_extension cls opts = Ok ext ->
  json_attr "file_name_template" (transfer_dto h) = Ok (JStr template) -> remote_write h df [] = (r, l) ->
  let tmp := [py_str path; ".tmp"; str_of_Z (rd_id (run_dto h))] in
  exists l1, l = l1 ++ [RemoveDir tmp] /\
    (r = Ok tt -> exists files renames,
       l1 = FileDFWriterRun (cls, opts) tmp None df :: ListDir tmp :: renames ++ [FileMoverRun tmp path ("*." +:+ ext)] /\
       names [FileDFWriterRun (cls, opts) tmp None df] (ListDir tmp) = Ok files /\
       forall dir, _rename_files template (run_dto h) cls opts files dir = Ok (run_renames renames dir)).
Proof.
  intros Hp Hf He Ht Hr tmp. unfold remote_write in Hr. rewrite bind_run in Hr. unfold pure at 1, reads at 1 in Hr.
  rewrite Hp in Hr. cbv zeta beta iota in Hr. fold tmp in Hr. apply finally_call_run in Hr as (r1 & l1 & Hm & -> & Hok).
  exists l1. split; [done|]. intros ->. rewrite (Hok tt eq_refl) in Hm. clear Hok.
  rewrite bind_run in Hm. unfold pure at 1, reads at 1 in Hm. rewrite Hf in Hm. cbv zeta beta iota in Hm.
  apply bind_ok in Hm as (u & l2 & Hc & Hm). rewrite call_run in Hc. injection Hc as _ <-.
  assert (file_extension h = Ok ext) as Hext by (unfold file_extension; rewrite Hf; exact He).
  apply bind_ok in Hm as (u1 & l2 & Hren & Hm). unfold rename_remote in Hren.
  apply bind_ok in Hren as (files & l3 & Hls & Hren). rewrite call_run in Hls. injection Hls as Hls <-.
  destruct u1. apply (rename_calls_refine _ _ _ _ [] _ _ _ _ Hext Ht) in Hren as (renames & -> & Hloop).
  rewrite bind_run in Hm. unfold pure, reads in Hm. rewrite Hext in Hm. rewrite call_run in Hm. injection Hm as _ <-.
  exists files, renames. split_and!; [reflexivity|done|].
  intros dir. unfold _rename_files. rewrite <- Hloop. destruct files as [|f fs]; [done|]. by rewrite He.
Qed.
End RemoteWrite.

(** ** Witnesses *)

Definition nightly (incremental sql : bool) : TransferController := controller_of (files_to_lake incremental sql).

Lemma mark_saved_after_write_witness : exists l1,
  (_perform_incremental_transfer toy_store (nightly true false) []).2 = l1 ++ [ExitIncrementalStrategy false; CloseHWMStore] /\
  written (nightly true false) l1.
Proof.
  destruct (_perform_incremental_transfer toy_store (nightly true false) []) as [r l] eqn:Hr.
  pose proof (f_equal fst Hr) as Hf. vm_compute in Hf. cbn [fst] in Hf.
  pose proof (f_equal (fun x => (length x.2)) Hr) as Hlen. vm_compute in Hlen.
  destruct (mark_saved_after_write _ _ _ _ _ Hr) as [->|[->|(failed & l1 & -> & Hw & Hok)]];
    [discriminate Hlen|discriminate Hlen|].
  exists l1. rewrite <- Hf in Hok. rewrite (Hok eq_refl) in *. split; [reflexivity|exact (Hw eq_refl)].
Defined.

Lemma perform_transfer_spec_witness : exists l2 tail,
  (perform (files_to_lake false false)).2 = (l2 ++ tail) ++ [StopSpark; CleanupTempDir] /\
  written (nightly false false) l2.
Proof.
  destruct (perform (files_to_lake false false)) as [r l] eqn:Hr. pose proof (f_equal fst Hr) as Hf.
  vm_compute in Hf. cbn [fst] in Hf. unfold perform in Hr.
  pose proof (perform_transfer_spec _ _ _ _ _ Hr) as Hs.
  destruct (create_spark_session_function _ _ _ _ []) as [[u|e] l0].
  - destruct Hs as (l1 & -> & Hok). rewrite <- Hf in Hok. destruct (Hok eq_refl) as (l2 & tail & -> & Hw & _).
    exists l2, tail. split; [reflexivity|exact Hw].
  - exfalso. apply (proj2 Hs). by rewrite <- Hf.
Defined.

Lemma downloaded_sql_fails_witness : exists e, outcome (read (source_handler (nightly false true))) [] = Raise e.
Proof.
  destruct (transformations_of (source_handler (nightly false true))) as [ts|e] eqn:Hts;
    [|exfalso; apply (f_equal is_ok) in Hts; vm_compute in Hts; discriminate].
  refine (downloaded_sql_fails (source_handler (nightly false true)) ts (JStr "SELECT * FROM source") [] _ Hts _ _);
    [vm_compute; reflexivity| |vm_compute; reflexivity].
  assert ((ts' ← transformations_of (source_handler (nightly false true)); _get_sql_query ts') =
    Ok (Some (JStr "SELECT * FROM source"))) as Hq by (vm_compute; reflexivity).
  rewrite Hts in Hq. exact Hq.
Defined.

Lemma spark_session_bounds_witness : exists conf mb,
  get_spark_session_conf None (connection_dto no_handler) (connection_dto no_handler)
    (obj_of (Some default_resources)) = Ok conf /\ 512 <= mb <= 65536 /\
  dict_get "spark.executor.memory" conf = Some (JStr (str_of_Z mb +:+ "M")).
Proof.
  assert (validate (FModel TransferSchemas.Resources) (JObj []) = Ok (JObj (obj_of (Some default_resources)))) as Hv
    by (vm_compute; reflexivity).
  destruct (spark_session_bounds (JObj []) _ None false (connection_dto no_handler) (connection_dto no_handler) Hv eq_refl)
    as (conf & tasks & cores & ram & mb & Hc & _ & _ & _ & _ & Hm & _ & _ & _ & _ & _ & Hmem).
  exists conf, mb. split_and!; [exact Hc|exact (proj1 Hm)|exact (proj2 Hm)|exact Hmem].
Defined.

(** a table of PostgreSQL read after a mark, in parallel *)
Definition pg_handler (increment : Strategy) : Handler :=
  mkHandler PostgresHandler (mkObj PostgresConnectionDTO [])
    (mkObj PostgresTransferDTO
      [("id", Json (JInt 7)); ("strategy", StrategyObj increment); ("table_name", Json (JStr "s.t"));
       ("transformations", Json (JList []));
       ("resources", ResourcesObj (mkObj Dto.Resources [("max_parallel_tasks", JInt 4)]))])
    (mkRunDTO 3 0) "/tmp/downloaded" (Some ("5" : @HWM toy_engine)).
Definition incremental_pg : Handler := pg_handler (IncrementalStrategy (JStr "incremental") (JStr "id")).
Lemma incremental_read_uses_mark_witness : exists n where_ columns options,
  _get_transfer_hwm_name incremental_pg = Ok n /\
  DBReaderRun (JStr "s.t") where_ columns (Some (n, dquote +:+ "id" +:+ dquote)) options
    ∈ final (read incremental_pg) [].
Proof.
  destruct (read incremental_pg []) as [[df|e] l] eqn:Hr;
    [|exfalso; apply (f_equal (fun x => is_ok x.1)) in Hr; vm_compute in Hr; discriminate].
  destruct (incremental_read_uses_mark incremental_pg (JStr "incremental") (JStr "id") "s.t" [] df l
    eq_refl eq_refl eq_refl eq_refl Hr) as (n & w & c & o & Hn & Hin & _).
  exists n, w, c, o. split; [exact Hn|]. unfold final. rewrite Hr. exact Hin.
Defined.

(** files written to HDFS *)
Definition hdfs_handler : Handler :=
  mkHandler HDFSHandler (mkObj HDFSConnectionDTO [])
    (mkObj HDFSTransferDTO
      [("directory_path", Json (JStr "/out")); ("file_format", FormatObj "CSV" [("compression", JStr "gzip")]);
       ("file_name_template", Json (JStr "{run_id}-{index}.{extension}"))])
    (mkRunDTO 3 0) "/tmp/written" None.
Lemma remote_write_spec_witness : exists files renames,
  (remote_write hdfs_handler some_columns []).2 =
    (FileDFWriterRun ("CSV", [("compression", JStr "gzip")]) ["/out"; ".tmp"; "3"] None some_columns ::
     ListDir ["/out"; ".tmp"; "3"] :: renames ++
     [FileMoverRun ["/out"; ".tmp"; "3"] (JStr "/out") "*.csv.gz"]) ++ [RemoveDir ["/out"; ".tmp"; "3"]] /\
  forall dir, _rename_files "{run_id}-{index}.{extension}" (mkRunDTO 3 0) "CSV" [("compression", JStr "gzip")] files dir =
    Ok (run_renames renames dir).
Proof.
  destruct (remote_write hdfs_handler some_columns []) as [r l] eqn:Hr.
  pose proof (f_equal fst Hr) as Hf. vm_compute in Hf. cbn [fst] in Hf.
  destruct (remote_write_spec hdfs_handler some_columns (JStr "/out") "CSV" [("compression", JStr "gzip")]
    "{run_id}-{index}.{extension}" "csv.gz" r l eq_refl eq_refl eq_refl eq_refl Hr) as (l1 & -> & Hok).
  rewrite <- Hf in Hok. destruct (Hok eq_refl) as (files & renames & -> & _ & Hd). exists files, renames.
  split; [reflexivity|exact Hd].
Defined.
