(* ===== verification/TransferSafety.v ===== *)
(** * What can go wrong in a transfer

    A transfer of accepted rows fails only for a reason outside of the worker's code,
    or for one of few named ones.  [blamed e l l'] is the first kind: a call to onETL or
    Spark made between the traces [l] and [l'] was answered with [e].  [sound K m]: when
    [m] raises, a call is to blame or the exception satisfies [K]. *)

From S2P Require Import Prelude PyData Models Errors Search Repositories Pydantic.
From S2P Require Import ConnectionSchemas.
From S2P Require Import TransferSchemas Settings Examples Dto.
From S2P Require Import SchemaTheorems FilterExpressions FileNames FileNameTheorems PyText.
From S2P Require Import Handlers ReadWrite.
From S2P Require Import Spark Controller RunTask.
From S2P Require Import DtoFacts HandlerFacts HandlerTheorems FilterTheorems WorkerTheorems.
From S2P Require Import WorkerExamples.

(** ** Blame *)

Section Blame.
Context `{Answers}.

(** an answer of the outside is the exception *)
Definition refused (l : list Call) (c : Call) (e : exc) : Prop :=
  done_ l c = Raise e \/ frame l c = Raise e \/ names l c = Raise e \/ mark l c = Raise e.
Definition blamed (e : exc) (l l' : list Call) : Prop :=
  exists l1 c l2, l' = l1 ++ c :: l2 /\ l `prefix_of` l1 /\ refused l1 c e.

Lemma blamed_mono e l0 l l' l1 : l0 `prefix_of` l -> l' `prefix_of` l1 -> blamed e l l' -> blamed e l0 l1.
Proof.
  intros Hl [t ->] (l2 & c & l3 & -> & Hp & Hr). exists l2, c, (l3 ++ t).
  split_and!; [by rewrite <- app_assoc|by etrans|done].
Qed.

Definition sound (K : exc -> Prop) {A} (m : Worker A) : Prop := forall l r l', m l = (r, l') ->
  l `prefix_of` l' /\ forall e, r = Raise e -> blamed e l l' \/ K e.

Section Sound.
Context (K : exc -> Prop).

Lemma sound_ret {A} (a : A) : sound K (mret a).
Proof. by intros l r l' [= <- <-]. Qed.
Lemma sound_raise {A} e : K e -> sound K (raise (A := A) e).
Proof. intros He l r l' [= <- <-]. split; [done|]. intros e' [= <-]. by right. Qed.
Lemma sound_bind {A B} (m : Worker A) (f : A -> Worker B) : sound K m -> (forall a, sound K (f a)) -> sound K (m ≫= f).
Proof.
  intros Hm Hf l r l'. rewrite bind_run. destruct (m l) as [[a|e] l1] eqn:Ha; destruct (Hm l _ l1 Ha) as [Hp He].
  - intros Hr. destruct (Hf a l1 r l' Hr) as [Hp' He']. split; [by etrans|]. intros e ->.
    destruct (He' e eq_refl) as [Hb|]; [|by right]. left. by eapply blamed_mono; [exact Hp| |exact Hb].
  - intros [= <- <-]. split; [done|]. intros e' [= <-]. by apply He.
Qed.
(** the value is known *)
Lemma sound_pure {A B} (r : result exc A) a (f : A -> Worker B) : r = Ok a -> sound K (f a) -> sound K (pure r ≫= f).
Proof. by intros ->. Qed.
Lemma sound_pure_ok {A B} (r : result exc A) (f : A -> Worker B) : (exists a, r = Ok a) -> (forall a, r = Ok a -> sound K (f a)) ->
  sound K (pure r ≫= f).
Proof. intros [a Ha] Hf. eapply sound_pure; [exact Ha|by apply Hf]. Qed.
Lemma sound_call {A} (answer : list Call -> Call -> result exc A) c :
  (forall l e, answer l c = Raise e -> refused l c e) -> sound K (call answer c).
Proof.
  intros Ha l r l' [= <- <-]. split; [by apply prefix_app_r|]. intros e He. left. exists l, c, [].
  split_and!; [done..|by apply Ha].
Qed.
Lemma sound_done c : sound K (call done_ c). Proof. apply sound_call. by left. Qed.
Lemma sound_frame c : sound K (call frame c). Proof. apply sound_call. by right; left. Qed.
Lemma sound_names c : sound K (call names c). Proof. apply sound_call. by right; right; left. Qed.
Lemma sound_mark c : sound K (call mark c). Proof. apply sound_call. by right; right; right. Qed.
Lemma sound_with_exit {A} (m : Worker A) exit : sound K m -> (forall b, sound K (exit b)) -> sound K (with_exit m exit).
Proof.
  intros Hm Hx l r l'. unfold with_exit. destruct (m l) as [r1 l1] eqn:Hr1. destruct (Hm l r1 l1 Hr1) as [Hp He].
  destruct (exit _ l1) as [u l2] eqn:Hr2. destruct (Hx _ l1 u l2 Hr2) as [Hp2 He2].
  destruct u as [u|e2]; intros [= <- <-]; (split; [by etrans|]); intros e Hre.
  - destruct (He e Hre) as [Hb|]; [|by right]. left. by eapply blamed_mono; [|exact Hp2|exact Hb].
  - injection Hre as <-. destruct (He2 e2 eq_refl) as [Hb|]; [|by right]. left. by eapply blamed_mono; [exact Hp| |exact Hb].
Qed.
Lemma sound_if {A} (b : bool) (m1 m2 : Worker A) : sound K m1 -> sound K m2 -> sound K (if b then m1 else m2).
Proof. by destruct b. Qed.
End Sound.

Lemma sound_weaken (K K' : exc -> Prop) {A} (m : Worker A) : (forall e, K e -> K' e) -> sound K m -> sound K' m.
Proof. intros HK Hm l r l' Hr. destruct (Hm l r l' Hr) as [Hp He]. split; [done|]. intros e ->. destruct (He e eq_refl); auto. Qed.
End Blame.

Create HintDb sound.
#[export] Hint Resolve sound_ret sound_done sound_frame sound_names sound_mark sound_with_exit sound_if : sound.

(** ** What the objects of accepted rows hold *)

(** the parsers of onETL keep the compression they are given, or leave none *)
Class OneTLFormatsLaws `{OneTLFormats} := parse_compression : forall cls d o, parse_obj cls d = Ok o ->
  compression_of o = "none" \/ dict_get "compression" o = dict_get "compression" d.
(** a frame has a type for each of its columns *)
Class EngineLaws `{Engine} := schema_of_columns : forall df c, c ∈ df_columns df -> is_Some (df_schema df c).

(** the template of the names asks for an attribute of one of the values *)
Definition named_by_attribute `{Engine} (h : Handler) : Prop :=
  exists template, json_attr "file_name_template" (transfer_dto h) = Ok (JStr template) /\ attribute_template template.

(** what the methods of a handler read *)
Record usable_handler `{PyLib} `{Engine} (t : ConnectionType) (target : bool) (h : Handler) : Prop := mkUsableHandler {
  uh_class : handler_class h = handler_of t;
  uh_connection : exists d auth names a, (names, a) ∈ pairs t /\ connection_attrs t d auth names a (connection_dto h) /\
    extra_ok t (dict_del "type" (dict_update d auth));
  uh_id : exists i, json_attr "id" (transfer_dto h) = Ok (JInt i);
  uh_strategy : exists s, strategy_attr (transfer_dto h) = Ok s;
  uh_tasks : exists n, max_parallel_tasks (transfer_dto h) = Ok n;
  uh_transformations : exists ts, transformations_of h = Ok ts /\ Forall filters_ok ts;
  uh_options : exists o, options_attr (transfer_dto h) = Ok o;
  uh_kind : instance_of (transfer_dto h) "FileTransferDTO" = is_file_handler (handler_of t);
  uh_table : is_file_handler (handler_of t) = false -> exists s, json_attr "table_name" (transfer_dto h) = Ok (JStr s);
  uh_catalog : t = ICEBERG -> exists c, json_attr "catalog_name" (transfer_dto h) = Ok c;
  uh_directory : is_file_handler (handler_of t) = true ->
    exists s, json_attr "directory_path" (transfer_dto h) = Ok (JStr s);
  uh_schema : is_file_handler (handler_of t) = true -> json_attr "df_schema" (transfer_dto h) = Ok JNull;
  uh_format : is_file_handler (handler_of t) = true -> exists f, format_attr (transfer_dto h) = Ok f;
  uh_extension : is_file_handler (handler_of t) = true -> exists e, file_extension h = Ok e;
  uh_name : target = true -> is_file_handler (handler_of t) = true ->
    forall index extension, (exists name, file_name h index extension = Ok name) \/
      file_name h index extension = Raise AttributeError /\ named_by_attribute h;
}.

Section Objects.
Context `{PydanticCore} `{PyLib} `{Cipher} `{OneTLFormats} `{Engine}.

Lemma usable_with_hwm t b h v : usable_handler t b h -> usable_handler t b (with_hwm v h).
Proof. by intros []. Qed.

(** rewriting the names of options leaves the compression *)
Lemma set_other (n m : string) (v w : json) (ff : dict) : n <> m -> (n, v) ∈ dict_set m w ff -> (n, v) ∈ ff.
Proof.
  intros Hne. induction ff as [|[k x] ff IH]; cbn.
  - intros [[= -> _]|Hin]%elem_of_cons; [done|]. by apply not_elem_of_nil in Hin.
  - destruct (String.eqb_spec m k) as [->|]; intros [[= -> ->]|Hin]%elem_of_cons; try done; [by right|by left|right; by apply IH].
Qed.
Lemma del_sub (k : string) (ff : dict) x : x ∈ dict_del k ff -> x ∈ ff.
Proof.
  induction ff as [|[k' v'] ff IH]; cbn; [done|]. destruct (String.eqb k k'); [by right|].
  intros [->|Hin]%elem_of_cons; [by left|right; by apply IH].
Qed.
Lemma rewrite_sub from to_ (ff : dict) v : to_ <> "compression" ->
  ("compression", v) ∈ _rewrite_option_name from to_ ff -> ("compression", v) ∈ ff.
Proof.
  intros Hne. unfold _rewrite_option_name. destruct (dict_get from ff); [|done].
  intros Hin%set_other; [by apply del_sub in Hin|done].
Qed.
Lemma options_compression ft (ff : dict) v : ("compression", v) ∈ rewrite_options ft ff -> ("compression", v) ∈ ff.
Proof.
  unfold rewrite_options. intros Hin.
  repeat match type of Hin with
  | _ ∈ (if ?b then _ else _) => destruct b
  | _ ∈ _rewrite_option_name _ _ _ => apply rewrite_sub in Hin; [|done]
  | _ ∈ match ?o with Some _ => _ | None => _ end => destruct o
  | _ ∈ dict_del _ _ => apply del_sub in Hin
  end; done.
Qed.

(** so every format has an extension *)
Lemma extension_ok ft cls (ff opts : dict) `{!OneTLFormatsLaws} : dict_get ft _format_parsers = Some cls -> compression_ok ff ->
  parse_obj cls (rewrite_options ft (dict_del "type" ff)) = Ok opts -> exists e, _get_file_extension cls opts = Ok e.
Proof.
  intros Hcls Hff Hp. unfold _get_file_extension.
  assert (exists suffix, dict_get (class_lower cls) _file_format_to_file_suffix = Some suffix) as [suffix ->].
  { apply dict_get_elem in Hcls.
    assert (Forall (fun fc : string * string => class_lower fc.2 ∈ dict_keys _file_format_to_file_suffix) _format_parsers) as Hall by by_decide.
    rewrite Forall_forall in Hall. specialize (Hall _ Hcls). by apply dict_get_is_Some in Hall. }
  cbn [or_raise mbind result_bind]. destruct (String.eqb_spec (compression_of opts) "none") as [|Hne]; [by eexists|].
  assert (exists c, dict_get (compression_of opts) _compression_to_file_suffix = Some c) as [c ->].
  { destruct (parse_compression _ _ _ Hp) as [|Hc]; [done|]. unfold compression_of in *. rewrite Hc in *.
    destruct (dict_get "compression" (rewrite_options _ _)) as [v|] eqn:Hv; [|done].
    apply dict_get_elem, options_compression, del_sub in Hv.
    destruct (Hff v Hv) as (s & -> & Hs). destruct (String.eqb s ""); [done|]. apply dict_get_is_Some.
    assert (Forall (fun s => s = "none" \/ s ∈ dict_keys _compression_to_file_suffix) compressions) as Hall by by_decide.
    rewrite Forall_forall in Hall. destruct (Hall s Hs); [done|done]. }
  cbn [or_raise mbind result_bind]. by repeat case_match; eexists.
Qed.

Lemma json_attr_get n (o : TransferDTO) j : dict_get n (obj_attrs o) = Some (Json j) -> json_attr n o = Ok j.
Proof. intros Hn. unfold json_attr, getattr. by rewrite Hn. Qed.

Lemma side_usable `{!OneTLFormatsLaws} t sp tr run target h : side_made t sp tr run h ->
  params_ok t sp -> (target = true -> is_file_handler (handler_of t) = true -> template_params sp) ->
  Forall filters_ok (JObj <$> transformations tr) -> usable_handler t target h.
Proof.
  intros (d & auth & names & a & [Hcls _ _ Hconn Htr] & Hpair & Hextra) Hp Htemplate Hts.
  destruct Htr as (catalog & ex & s & r & _ & _ & Hr & Hid & Hs & Hres & Htf & [Hc Hex Ho Htab Hcat Hdir Htem Hsch Hfmt]).
  destruct (Ho) as [opts Hopts].
  assert (is_file_handler (handler_of t) = true -> exists e, file_extension h = Ok e) as Hext.
  { intros Hf. destruct (Hfmt Hf) as (ff & ft & cls & o & Hff & Hft & Hcomp & Hparse & Hget).
    unfold file_extension, format_attr, getattr. rewrite Hget. cbn -[_get_file_extension]. by eapply extension_ok. }
  constructor; [done|by exists d, auth, names, a|..].
  - exists (transfer_id tr). by apply json_attr_get, Hex.
  - exists s. unfold strategy_attr, getattr. by rewrite (Hex _ _ Hs).
  - unfold max_parallel_tasks, getattr. rewrite (Hex _ _ Hres). cbn.
    destruct (made_fields _ _ _ "max_parallel_tasks" Hr) as [v ->]; [by left|by exists v].
  - exists (JObj <$> transformations tr). split; [|done]. unfold transformations_of, transformations_attr.
    by rewrite (json_attr_get _ _ _ (Hex _ _ Htf)).
  - exists opts. unfold options_attr. by rewrite (json_attr_get _ _ _ Hopts).
  - unfold instance_of. rewrite Hc. by destruct t.
  - intros Hf. destruct (po_table t sp Hp Hf) as [tn Htn]. exists tn. apply json_attr_get. by apply Htab.
  - intros Ht. destruct (Hcat Ht) as [c Hcn]. exists c. by apply json_attr_get.
  - intros Hf. destruct (po_file t sp Hp Hf) as (_ & _ & path & Hpath). exists path. apply json_attr_get. by apply Hdir.
  - intros Hf. by apply json_attr_get, Hsch.
  - intros Hf. destruct (Hfmt Hf) as (ff & ft & cls & o & _ & _ & _ & _ & Hget). exists (cls, o).
    unfold format_attr, getattr. by rewrite Hget.
  - done.
  - intros Ht Hf i e. destruct (Htemplate Ht Hf) as (template & info & v & Hn & Hv).
    unfold file_name. rewrite (json_attr_get _ _ _ (Htem _ Hn Hf)). cbn -[_get_file_name].
    destruct (template_name _ _ _ (run_dto h) i e Hv) as [|[-> Ha]]; [by left|right]. split; [done|].
    exists template. by rewrite (json_attr_get _ _ _ (Htem _ Hn Hf)).
Qed.
End Objects.

(** ** Connecting *)

Section Connecting.
Context `{PyLib} `{Answers} (K : exc -> Prop).

Lemma db_args_ok attributes (o : ConnectionDTO) : Forall (fun a => is_Some (dict_get a.2 (obj_attrs o))) attributes ->
  exists l, db_args attributes o = Ok l.
Proof.
  intros Ha. apply mapM_all_ok. eapply Forall_impl; [exact Ha|]. intros [n m] [v Hv]. cbn in *.
  exists (n, v). unfold getattr. by rewrite Hv.
Qed.
Lemma sound_check cls args : (exists l, args = Ok l) -> sound K (check cls args).
Proof. intros [l ->]. apply (sound_pure K _ l); [done|]. apply sound_done. Qed.
Lemma mapped_ok {A B} (r : result exc A) (f : A -> B) : (exists l, r = Ok l) -> exists l, (a ← r; Ok (E := exc) (f a)) = Ok l.
Proof. intros [l ->]. by eexists. Qed.

(** the attributes the arguments are taken from are fields of the class *)
Definition takes (c : Dataclass json) (attributes : list (string * string)) : bool :=
  forallb (fun a => bool_decide (a.2 ∈ dict_keys (dc_fields c))) attributes.
Lemma takes_ok c kwargs o attributes : make c kwargs = Ok o -> takes c attributes = true ->
  exists l, db_args attributes o = Ok l.
Proof.
  intros Ho Ht. apply db_args_ok, Forall_forall. intros a Ha. unfold takes in Ht. rewrite forallb_forall in Ht.
  apply list_elem_of_In, Ht, bool_decide_eq_true in Ha. by eapply made_fields.
Qed.
Lemma style_ok c kwargs o n : make c kwargs = Ok o -> n ∈ dict_keys (dc_fields c) -> exists x, s3_path_style n o = Ok x.
Proof.
  intros Ho Hn. destruct (made_fields _ _ _ _ Ho Hn) as [v Hv]. unfold s3_path_style, getattr. rewrite Hv. by eexists.
Qed.

(** the four classes of an Iceberg connection, the checks of their bases evaluated *)
Ltac by_iceberg_class Hc := unfold instance_of; rewrite Hc; unfold iceberg_dto_class in *;
  repeat match goal with |- context [bool_decide (?n ∈ ?keys)] => is_var keys; destruct (bool_decide (n ∈ keys)) end;
  repeat match goal with |- context [bool_decide (?n ∈ ?l)] =>
    let b := eval vm_compute in (bool_decide (n ∈ l)) in change (bool_decide (n ∈ l)) with b end; cbn [orb].
Lemma iceberg_auth_ok keys kwargs o : make (iceberg_dto_class keys) kwargs = Ok o ->
  obj_class o = iceberg_dto_class keys -> exists l, _make_auth o = Ok l.
Proof.
  intros Ho Hc. unfold _make_auth. by_iceberg_class Hc; (eapply takes_ok; [exact Ho|by vm_compute]).
Qed.
(** the next arguments are there *)
Ltac db_step Ho := match goal with |- context [db_args ?l _] =>
  let x := fresh in destruct (takes_ok _ _ _ l Ho) as [x ->]; [by vm_compute|]; cbn [mbind result_bind] end.
Lemma iceberg_args_ok name keys kwargs o : make (iceberg_dto_class keys) kwargs = Ok o ->
  obj_class o = iceberg_dto_class keys -> exists l, iceberg_args name o = Ok l.
Proof.
  intros Ho Hc. destruct (iceberg_auth_ok _ _ _ Ho Hc) as [auth Hauth]. unfold iceberg_args.
  assert (exists url, getattr "rest_catalog_url" o = Ok url) as [url ->].
  { destruct (made_fields _ _ _ "rest_catalog_url" Ho) as [v Hv]; [unfold iceberg_dto_class;
      destruct (bool_decide _), (bool_decide _); by_decide|].
    exists v. unfold getattr. by rewrite Hv. }
  cbn [mbind result_bind]. rewrite Hauth. cbn [mbind result_bind].
  match goal with |- context [if instance_of o ?n then ?x else ?y] =>
    assert (exists w, (if instance_of o n then x else y) = Ok w) as [w ->]; [|by eexists] end.
  by_iceberg_class Hc; try (eapply takes_ok; [exact Ho|by vm_compute]).
  all: db_step Ho; destruct (style_ok _ _ _ "s3_bucket_style" Ho) as [x ->]; [by_decide|];
    cbn [mbind result_bind]; db_step Ho; by eexists.
Qed.

Lemma mssql_args_ok kwargs o : make MSSQLConnectionDTO kwargs = Ok o -> extra_ok MSSQL kwargs -> exists l, mssql_args o = Ok l.
Proof.
  intros Ho He. unfold mssql_args. db_step Ho. destruct (He eq_refl) as [d Hd].
  unfold getattr. rewrite (made_value _ _ _ "additional_params" _ Ho ltac:(by_decide) Hd). by eexists.
Qed.
Lemma spark_s3_args_ok kwargs o : make S3ConnectionDTO kwargs = Ok o -> exists l, spark_s3_args o = Ok l.
Proof.
  intros Ho. unfold spark_s3_args. db_step Ho. destruct (style_ok _ _ _ "bucket_style" Ho) as [x ->]; [by_decide|].
  cbn [mbind result_bind]. db_step Ho. by eexists.
Qed.

(** connecting asks for nothing the connection lacks *)
Lemma connect_sound t b h : usable_handler t b h -> sound K (connect h).
Proof.
  intros Hu. destruct (uh_connection _ _ _ Hu) as (d & auth & ns & a & _ & [Ho Hc] & He).
  assert (forall cls attributes, takes (dto_class t (connection_names ns a)) attributes = true ->
    sound K (check cls (db_args attributes (connection_dto h)))) as Hcheck.
  { intros cls attributes Ht. apply sound_check. by eapply takes_ok. }
  assert (forall cls arguments constants, takes (dto_class t (connection_names ns a)) (same arguments) = true ->
    sound K (file_server cls arguments constants (connection_dto h))) as Hserver.
  { intros cls arguments constants Ht. unfold file_server. apply sound_bind.
    - apply sound_check, mapped_ok. by eapply takes_ok.
    - intros _. apply sound_check. by eexists. }
  unfold connect. rewrite (uh_class _ _ _ Hu). destruct t; cbn [handler_of].
  all: try (apply Hcheck; by vm_compute).
  all: try (apply Hserver; by vm_compute).
  - unfold IcebergRESTCatalogS3Handler_connect. destruct (uh_catalog _ _ _ Hu eq_refl) as [c Hcat].
    eapply sound_pure; [exact Hcat|]. apply sound_check. by eapply iceberg_args_ok.
  - unfold ClickhouseHandler_connect. apply sound_bind; [apply sound_done|]. intros _. apply Hcheck. by vm_compute.
  - apply sound_check. by eapply mssql_args_ok.
  - unfold S3Handler_connect. apply sound_bind; [apply sound_check; by eapply spark_s3_args_ok|].
    intros _. apply Hcheck. by vm_compute.
  - unfold HDFSHandler_connect. apply sound_bind; [apply Hcheck; by vm_compute|]. intros _. apply Hcheck. by vm_compute.
Qed.
End Connecting.

(** ** Reading *)

Lemma handler_of_iceberg t : handler_of t = IcebergRESTCatalogS3Handler -> t = ICEBERG.
Proof. by destruct t. Qed.

Section Reads.
Context `{PydanticCore} `{PyLib} `{Answers}.

(** a query on downloaded files; a table without columns, when they are asked for *)
Definition read_limit (h : Handler) (e : exc) : Prop :=
  e = AttributeError /\ downloads h = true /\
    (exists ts q, transformations_of h = Ok ts /\ _get_sql_query ts = Ok (Some q) /\ json_truthy q = true) \/
  e = IndexError /\ is_file_handler (handler_class h) = false /\
    exists l table columns, names l (GetDFSchema table columns) = Ok [].

Section One.
Context (t : ConnectionType) (b : bool) (h : Handler) (Hu : usable_handler t b h).
Notation K := (read_limit h).

Lemma rows_ok : exists rows, (ts ← transformations_of h; _get_rows_filter_expression (handler_class h) ts) = Ok rows.
Proof. destruct (uh_transformations _ _ _ Hu) as (ts & -> & Hts). by apply rows_expression_ok. Qed.
Lemma columns_ok : exists columns, (ts ← transformations_of h; _get_columns_filter_expressions (handler_class h) ts) = Ok columns.
Proof. destruct (uh_transformations _ _ _ Hu) as (ts & -> & Hts). by apply columns_expressions_ok. Qed.
Lemma query_ok : exists query, (ts ← transformations_of h; _get_sql_query ts) = Ok query.
Proof. destruct (uh_transformations _ _ _ Hu) as (ts & -> & Hts). by apply get_sql_query_ok. Qed.
Lemma files_ok : exists files, (ts ← transformations_of h; _get_file_metadata_filters ts) = Ok files.
Proof. destruct (uh_transformations _ _ _ Hu) as (ts & -> & Hts). by apply file_filters_ok. Qed.
Lemma hwm_name_ok suffix : exists n, hwm_name h suffix = Ok n.
Proof. destruct (uh_id _ _ _ Hu) as [i Hi]. unfold hwm_name. rewrite Hi. by eexists. Qed.

Lemma sql_sound query df (last : json -> DataFrame -> Worker DataFrame) :
  (ts ← transformations_of h; _get_sql_query ts) = Ok query ->
  (forall q, query = Some q -> json_truthy q = true -> sound K (last q df)) ->
  sound K (match query with
           | Some query => if json_truthy query then last query df else mret df
           | None => mret df end).
Proof. intros _ Hl. destruct query as [q|]; [|apply sound_ret]. destruct (json_truthy q) eqn:Hq; [by apply Hl|apply sound_ret]. Qed.
Lemma apply_sql_sound q df : sound K (apply_sql q df).
Proof. apply sound_bind; [apply sound_done|]. intros _. apply sound_frame. Qed.

Lemma options_sound increment_by : is_file_handler (handler_of t) = false -> sound K (_get_reading_options h increment_by).
Proof.
  intros Hf. assert (sound K (
    tasks ← pure (max_parallel_tasks (transfer_dto h));
    if equals_one tasks then mret None
    else
      let partitioning column mode :=
        [("partition_column", JStr column); ("num_partitions", tasks); ("partitioning_mode", JStr mode)] in
      match increment_by with
      | Some column => mret (Some (partitioning column (if hwm_known h then "range" else "hash")))
      | None =>
          if contains_get_df_schema (handler_class h) then
            table_name ← pure (json_attr "table_name" (transfer_dto h));
            columns ← pure (ts ← transformations_of h; _get_columns_filter_expressions (handler_class h) ts);
            schema ← call names (GetDFSchema table_name columns);
            first ← pure (or_raise (head schema) IndexError);
            mret (Some (partitioning (_quote_field (handler_class h) first) "hash"))
          else mret None
      end)) as Hs.
  { destruct (uh_tasks _ _ _ Hu) as [n Hn]. eapply sound_pure; [exact Hn|]. destruct (equals_one n); [apply sound_ret|].
    cbv zeta. destruct increment_by as [c|]; [apply sound_ret|]. destruct (contains_get_df_schema _); [|apply sound_ret].
    destruct (uh_table _ _ _ Hu Hf) as [table Ht]. eapply sound_pure; [exact Ht|].
    apply sound_pure_ok; [apply columns_ok|]. intros columns _.
    intros l r l'. rewrite bind_run, call_run. destruct (names l _) as [schema|e] eqn:Hn'.
    - destruct schema as [|first schema]; intros [= <- <-]; (split; [by apply prefix_app_r|]); intros e; [|done].
      intros [= <-]. right. right. rewrite (uh_class _ _ _ Hu). by eauto 10.
    - intros [= <- <-]. split; [by apply prefix_app_r|]. intros e' [= <-]. left.
      exists l, (GetDFSchema (JStr table) columns), []. split_and!; [done..|]. by right; right; left. }
  unfold _get_reading_options. destruct (handler_class h); try exact Hs; apply sound_ret.
Qed.

Lemma db_read_sound : is_file_handler (handler_of t) = false -> sound K (db_read h).
Proof.
  intros Hf. unfold db_read. destruct (uh_strategy _ _ _ Hu) as [s Hs]. eapply sound_pure; [exact Hs|].
  destruct (uh_table _ _ _ Hu Hf) as [table Ht]. eapply sound_pure; [exact Ht|]. cbv zeta.
  apply sound_pure_ok.
  { destruct s; [by eexists|]. destruct (hwm_name_ok (JStr table)) as [n ->]. by eexists. }
  intros v _. apply sound_bind; [by apply options_sound|]. intros options.
  apply sound_pure_ok; [apply rows_ok|]. intros where_ _. apply sound_pure_ok; [apply columns_ok|]. intros columns _.
  apply sound_bind; [apply sound_frame|]. intros df. apply sound_pure_ok; [apply query_ok|]. intros query Hq.
  apply sql_sound; [done|]. intros q _ _. apply apply_sql_sound.
Qed.

Lemma filter_frame_sound df : sound K (filter_frame h df).
Proof.
  unfold filter_frame. apply sound_pure_ok; [apply rows_ok|]. intros rows _.
  apply sound_bind; [destruct rows; [apply sound_frame|apply sound_ret]|]. intros df'.
  apply sound_pure_ok; [apply columns_ok|]. intros [es|] _; [apply sound_frame|apply sound_ret].
Qed.
Lemma schema_ok : is_file_handler (handler_of t) = true -> df_schema_attr (transfer_dto h) = Ok None.
Proof. intros Hf. unfold df_schema_attr. by rewrite (uh_schema _ _ _ Hu Hf). Qed.

Lemma remote_read_sound : is_file_handler (handler_of t) = true -> sound K (remote_read h).
Proof.
  intros Hf. unfold remote_read. destruct (uh_format _ _ _ Hu Hf) as [f Hfmt]. eapply sound_pure; [exact Hfmt|].
  destruct (uh_directory _ _ _ Hu Hf) as [path Hp]. eapply sound_pure; [exact Hp|].
  eapply sound_pure; [by apply schema_ok|]. destruct (uh_options _ _ _ Hu) as [o Ho].
  apply sound_pure_ok.
  { unfold remote_read_options. rewrite Ho. cbn [mbind result_bind]. rewrite Hfmt. destruct (handler_class h); by eexists. }
  intros options _. apply sound_bind; [apply sound_frame|]. intros df. apply sound_bind; [apply filter_frame_sound|].
  intros df'. apply sound_pure_ok; [apply query_ok|]. intros query Hq.
  apply sql_sound; [done|]. intros q _ _. apply apply_sql_sound.
Qed.

Lemma local_read_sound : is_file_handler (handler_of t) = true -> downloads h = true -> sound K (local_read h).
Proof.
  intros Hf Hd. unfold local_read. destruct (uh_directory _ _ _ Hu Hf) as [path Hp]. apply sound_pure_ok.
  { unfold file_hwm. destruct (uh_strategy _ _ _ Hu) as [s ->]. cbn [mbind result_bind]. destruct s; [by eexists|].
    rewrite Hp. cbn [mbind result_bind]. destruct (hwm_name_ok (JStr path)) as [n ->]. by eexists. }
  intros v _. eapply sound_pure; [exact Hp|]. apply sound_pure_ok; [apply files_ok|]. intros filters _.
  apply sound_bind; [apply sound_done|]. intros _. destruct (uh_format _ _ _ Hu Hf) as [f Hfmt].
  eapply sound_pure; [exact Hfmt|]. eapply sound_pure; [by apply schema_ok|].
  apply sound_bind; [apply sound_frame|]. intros df. apply sound_bind; [apply filter_frame_sound|].
  intros df'. apply sound_pure_ok; [apply query_ok|]. intros query Hq.
  apply (sql_sound query df' (fun _ => local_sql)); [done|]. intros q -> Hq1.
  apply sound_bind; [apply sound_done|]. intros _. apply sound_raise. left.
  destruct (transformations_of h) as [ts|] eqn:Hts; [|done]. split_and!; [done..|]. by exists ts, q.
Qed.

(** reading asks for nothing the handler lacks *)
Lemma read_sound : sound K (read h).
Proof.
  pose proof (uh_class _ _ _ Hu) as Hc. pose proof local_read_sound as Hlocal. unfold downloads in Hlocal. unfold read.
  rewrite <- Hc in *. destruct (handler_class h) eqn:Hh;
    try (apply db_read_sound; by rewrite <- Hc); try (apply remote_read_sound; by rewrite <- Hc); try by apply Hlocal.
  - destruct (uh_table _ _ _ Hu) as [table Ht]; [by rewrite <- Hc|]. eapply sound_pure; [exact Ht|].
    apply sound_bind; [apply sound_done|]. intros _. apply db_read_sound. by rewrite <- Hc.
  - destruct (uh_catalog _ _ _ Hu) as [c Hcat]; [by apply handler_of_iceberg|]. eapply sound_pure; [exact Hcat|].
    destruct (uh_table _ _ _ Hu) as [table Ht]; [by rewrite <- Hc|]. eapply sound_pure; [exact Ht|].
    apply sound_bind; [apply sound_done|]. intros _. apply db_read_sound. by rewrite <- Hc.
Qed.
End One.
End Reads.

(** ** Frames *)

Section Frames.
Context `{PyLib} `{Answers}.

(** a frame Spark answered with *)
Definition framed (df : DataFrame) : Prop := exists l c, frame l c = Ok df.
Definition returns {A} (Q : A -> Prop) (m : Worker A) : Prop := forall l a l', m l = (Ok a, l') -> Q a.

Lemma yields_bind {A B} (Q : B -> Prop) (m : Worker A) f : (forall a, returns Q (f a)) -> returns Q (m ≫= f).
Proof. intros Hf l b l' (a & l1 & _ & Hb)%bind_ok. by eapply Hf. Qed.
Lemma yields_bind_ok {A B} (Q : B -> Prop) (R : A -> Prop) (m : Worker A) f :
  returns R m -> (forall a, R a -> returns Q (f a)) -> returns Q (m ≫= f).
Proof. intros Hm Hf l b l' (a & l1 & Ha & Hb)%bind_ok. by eapply Hf; [eapply Hm|]. Qed.
Lemma returns_ret {A} (Q : A -> Prop) a : Q a -> returns Q (mret a).
Proof. by intros Ha l a' l' [= <- _]. Qed.
Lemma returns_frame c : returns framed (call frame c).
Proof. intros l df l' [= Hf _]. by exists l, c. Qed.
Lemma sound_bind_returns (K : exc -> Prop) {A B} (Q : A -> Prop) (m : Worker A) (f : A -> Worker B) :
  sound K m -> returns Q m -> (forall a, Q a -> sound K (f a)) -> sound K (m ≫= f).
Proof.
  intros Hm Hq Hf l r l'. rewrite bind_run. destruct (m l) as [[a|e] l1] eqn:Ha; destruct (Hm l _ l1 Ha) as [Hp He].
  - intros Hr. destruct (Hf a (Hq _ _ _ Ha) l1 r l' Hr) as [Hp' He']. split; [by etrans|]. intros e ->.
    destruct (He' e eq_refl) as [Hb|]; [|by right]. left. by eapply blamed_mono; [exact Hp| |exact Hb].
  - intros [= <- <-]. split; [done|]. intros e' [= <-]. by apply He.
Qed.

Lemma query_returns (query : option json) df (last : json -> DataFrame -> Worker DataFrame) :
  (forall q, returns framed (last q df)) -> framed df ->
  returns framed (match query with
           | Some query => if json_truthy query then last query df else mret df
           | None => mret df end).
Proof. intros Hl Hdf. destruct query as [q|]; [|by apply returns_ret]. destruct (json_truthy q); [done|by apply returns_ret]. Qed.
Lemma apply_sql_returns q df : returns framed (apply_sql q df).
Proof. apply yields_bind. intros _. apply returns_frame. Qed.

Lemma db_read_returns h : returns framed (db_read h).
Proof.
  unfold db_read. do 6 (apply yields_bind; intros ?).
  eapply yields_bind_ok; [apply returns_frame|]. intros df Hdf. apply yields_bind. intros query.
  apply query_returns; [|done]. intros q. apply apply_sql_returns.
Qed.
Lemma filter_frame_returns h df : framed df -> returns framed (filter_frame h df).
Proof.
  intros Hdf. unfold filter_frame. apply yields_bind. intros rows.
  eapply (yields_bind_ok _ framed); [destruct rows; [apply returns_frame|by apply returns_ret]|]. intros df' Hdf'.
  apply yields_bind. intros [es|]; [apply returns_frame|by apply returns_ret].
Qed.
Lemma remote_read_returns h : returns framed (remote_read h).
Proof.
  unfold remote_read. do 4 (apply yields_bind; intros ?). eapply yields_bind_ok; [apply returns_frame|]. intros df Hdf.
  eapply yields_bind_ok; [by apply filter_frame_returns|]. intros df' Hdf'. apply yields_bind. intros query.
  apply query_returns; [|done]. intros q. apply apply_sql_returns.
Qed.
Lemma local_read_returns h : returns framed (local_read h).
Proof.
  unfold local_read. do 6 (apply yields_bind; intros ?). eapply yields_bind_ok; [apply returns_frame|]. intros df Hdf.
  eapply yields_bind_ok; [by apply filter_frame_returns|]. intros df' Hdf'. apply yields_bind. intros query.
  apply (query_returns query df' (fun _ => local_sql)); [|done]. intros q. apply yields_bind. by intros _ ? ? ?.
Qed.
Lemma read_returns h : returns framed (read h).
Proof.
  unfold read. destruct (handler_class h);
    first [apply db_read_returns|apply remote_read_returns|apply local_read_returns|
           do 2 (apply yields_bind; intros ?); apply db_read_returns|
           do 3 (apply yields_bind; intros ?); apply db_read_returns].
Qed.
Lemma rename_columns_returns (case : string -> string) columns df : framed df -> returns framed (rename_columns case columns df).
Proof.
  revert df. induction columns as [|c columns IH]; intros df Hdf; [by apply returns_ret|]. cbn.
  eapply yields_bind_ok; [apply returns_frame|]. exact IH.
Qed.
End Frames.

(** ** Writing *)

Section Writes.
Context `{PydanticCore} `{PyLib} `{Answers} `{!EngineLaws}.

(** ClickHouse orders by a column, of a type that has a value for a null; a number lacks
    the attribute the names of the files ask for *)
Definition write_limit (h : Handler) (e : exc) : Prop :=
  (handler_class h = ClickhouseHandler /\ exists df, framed df /\
    (e = IndexError /\ df_columns df = [] \/
     e = TypeError /\ exists c, c ∈ df_columns df /\ df_schema df c = Some (OtherType, true))) \/
  is_file_handler (handler_class h) = true /\ e = AttributeError /\ named_by_attribute h.

Section One.
Context (t : ConnectionType) (h : Handler) (Hu : usable_handler t true h).
Notation K := (write_limit h).

Lemma rename_columns_sound case columns df : sound K (rename_columns case columns df).
Proof.
  revert df. induction columns as [|c columns IH]; intros df; [apply sound_ret|]. cbn.
  apply sound_bind; [apply sound_frame|]. exact IH.
Qed.
Lemma write_options_ok o : exists o', write_options h o = Ok o'.
Proof. unfold write_options. destruct (uh_strategy _ _ _ Hu) as [s ->]. by eexists. Qed.

Lemma db_write_sound df : is_file_handler (handler_of t) = false -> sound K (db_write h df).
Proof.
  intros Hf. unfold db_write. destruct (uh_options _ _ _ Hu) as [o Ho]. apply sound_pure_ok.
  { rewrite Ho. apply write_options_ok. }
  intros options _. destruct (uh_table _ _ _ Hu Hf) as [table Ht]. eapply sound_pure; [exact Ht|].
  apply sound_bind; [apply rename_columns_sound|]. intros df'. apply sound_done.
Qed.

Lemma sort_column_elem columns c : sort_column columns = Ok c -> c ∈ columns.
Proof.
  unfold sort_column. destruct columns as [|first columns]; [done|]. cbn [head or_raise mbind result_bind].
  destruct (list_find (fun c => str_ends "id" (str_lower c) = true) (first :: columns)) as [[i x]|] eqn:Hx;
    intros [= <-]; [|by left].
  apply list_find_Some in Hx as (Hx & _). cbn. by eapply list_elem_of_lookup_2.
Qed.
Lemma non_nullable_sound df c : handler_class h = ClickhouseHandler -> framed df -> c ∈ df_columns df ->
  sound K (_normalize_column_to_non_nullable df c).
Proof.
  intros Hc Hdf Hin. unfold _normalize_column_to_non_nullable. destruct (schema_of_columns df c Hin) as [[ty nullable] Hs].
  rewrite Hs. apply (sound_pure _ _ (ty, nullable)); [done|]. cbn [snd fst]. destruct nullable; [|apply sound_ret]. cbn [negb].
  destruct (sentinel ty) as [v|e] eqn:Hv; [eapply sound_pure; [done|apply sound_frame]|].
  assert (ty = OtherType /\ e = TypeError) as [-> ->] by (destruct ty; try discriminate Hv; by injection Hv as <-).
  apply (sound_raise K). left. split; [done|]. exists df. split; [done|]. right. split; [done|]. by exists c.
Qed.

Lemma clickhouse_write_sound df : handler_class h = ClickhouseHandler -> is_file_handler (handler_of t) = false ->
  framed df -> sound K (clickhouse_write h df).
Proof.
  intros Hc Hf Hdf. unfold clickhouse_write.
  eapply sound_bind_returns; [apply rename_columns_sound|by apply rename_columns_returns|]. intros df' Hdf'.
  destruct (sort_column (df_columns df')) as [c|e] eqn:Hcol.
  - eapply sound_pure; [done|]. apply sound_bind; [apply non_nullable_sound; [done|done|by apply sort_column_elem]|]. intros df2.
    destruct (uh_options _ _ _ Hu) as [o Ho]. apply sound_pure_ok; [rewrite Ho; apply write_options_ok|]. intros options _.
    destruct (uh_table _ _ _ Hu Hf) as [table Ht]. eapply sound_pure; [exact Ht|]. apply sound_done.
  - apply (sound_raise K). left. split; [done|]. exists df'. split; [done|]. left. unfold sort_column in Hcol.
    destruct (df_columns df') as [|x l]; [by injection Hcol as <-|done].
Qed.

(** the files of a directory are renamed and moved *)
Lemma rename_calls_sound directory index files : is_file_handler (handler_of t) = true ->
  sound K (rename_calls h directory index files).
Proof.
  intros Hf. revert index. induction files as [|f files IH]; intros index; [apply sound_ret|]. cbn.
  apply sound_pure_ok; [by apply (uh_extension _ _ _ Hu)|]. intros e _.
  destruct (uh_name _ _ _ Hu eq_refl Hf index e) as [[n Hn]|[Hn Ha]].
  - eapply sound_pure; [exact Hn|]. apply sound_bind; [apply sound_done|]. intros _. apply IH.
  - rewrite Hn. apply (sound_raise K). right. by rewrite (uh_class _ _ _ Hu).
Qed.
Lemma remote_write_sound df : is_file_handler (handler_of t) = true -> sound K (remote_write h df).
Proof.
  intros Hf. unfold remote_write. destruct (uh_directory _ _ _ Hu Hf) as [path Hp]. eapply sound_pure; [exact Hp|]. cbv zeta.
  apply sound_with_exit; [|intros _; apply sound_done].
  destruct (uh_format _ _ _ Hu Hf) as [f Hfmt]. eapply sound_pure; [exact Hfmt|].
  apply sound_bind; [apply sound_done|]. intros _. apply sound_bind.
  - apply sound_bind; [apply sound_names|]. intros files. by apply rename_calls_sound.
  - intros _. apply sound_pure_ok; [by apply (uh_extension _ _ _ Hu)|]. intros e _. apply sound_done.
Qed.
Lemma unlink_crc_sound directory files : sound K (unlink_crc directory files).
Proof.
  induction files as [|f files IH]; [apply sound_ret|]. cbn. apply sound_bind; [|intros _; exact IH].
  apply sound_if; [apply sound_done|apply sound_ret].
Qed.
Lemma local_write_sound df : is_file_handler (handler_of t) = true -> sound K (local_write h df).
Proof.
  intros Hf. unfold local_write. destruct (uh_format _ _ _ Hu Hf) as [f Hfmt]. eapply sound_pure; [exact Hfmt|].
  destruct (uh_options _ _ _ Hu) as [o Ho]. eapply sound_pure; [exact Ho|].
  apply sound_bind; [apply sound_done|]. intros _. apply sound_bind; [apply sound_names|]. intros files.
  apply sound_bind; [apply unlink_crc_sound|]. intros _. apply sound_bind.
  - apply sound_bind; [apply sound_names|]. intros fs. by apply rename_calls_sound.
  - intros _. destruct (uh_directory _ _ _ Hu Hf) as [path Hp]. eapply sound_pure; [exact Hp|]. apply sound_done.
Qed.

(** writing asks for nothing the handler lacks *)
Lemma write_sound df : framed df -> sound K (write h df).
Proof.
  intros Hdf. pose proof (uh_class _ _ _ Hu) as Hc. unfold write. destruct (handler_class h) eqn:Hh;
    first [by apply clickhouse_write_sound; [..|rewrite <- Hc|]
          |apply db_write_sound; by rewrite <- Hc|apply remote_write_sound; by rewrite <- Hc
          |apply local_write_sound; by rewrite <- Hc].
Qed.
End One.
End Writes.

(** ** The session and the controller *)

Section Performing.
Context `{PydanticCore} `{PyLib} `{Cipher} `{OneTLFormats} `{Answers} `{!EngineLaws} `{Environment}.

(** the resources of an accepted transfer are numbers *)
Lemma body_resources j b : parse_create_transfer j = Ok b -> exists tasks cores ram,
  int_item "max_parallel_tasks" (tb_resources b) = Ok tasks /\
  int_item "cpu_cores_per_task" (tb_resources b) = Ok cores /\
  int_item "ram_bytes_per_task" (tb_resources b) = Ok ram.
Proof.
  unfold parse_create_transfer. intros Hp. destruct (model_validate _ _ j) as [d|] eqn:Hd; [|done].
  injection Hp as <-. destruct j as [| | | | |input]; try done. cbn [model_validate] in Hd.
  pose proof (transfer_field _ _ 10 _ Hd eq_refl) as (d10 & v10 & Hv10 & Hg10 & _). cbn [field_name opt] in Hg10.
  cbn [tb_resources TransferSchemas.transfer_body]. rewrite Hg10. cbn [validate_field opt] in Hv10.
  destruct (field_input _ _ _) as [x10|].
  - destruct (validate (FModel TransferSchemas.Resources) x10) as [w|] eqn:Hw; [|done]. injection Hv10 as <-.
    pose proof Hw as (r & i & -> & _)%validate_model. cbn [obj_of].
    destruct (accepted_resources _ _ Hw) as (tasks & cores & ram & ? & _ & ? & _ & ? & _). by exists tasks, cores, ram.
  - injection Hv10 as <-. by exists 1, 1, ONE_GB.
Qed.

Lemma authenticate_sound K t b h hive : usable_handler t b h -> sound K (authenticate hive (connection_dto h)).
Proof.
  intros Hu. destruct (uh_connection _ _ _ Hu) as (d & auth & ns & a & _ & [Ho Hc] & _). unfold authenticate, instance_of.
  apply sound_bind; [|intros _; apply sound_ret].
  destruct (_ || _) eqn:Hi; [|apply sound_ret]. rewrite Hc in Hi.
  assert ("user" ∈ dict_keys (dc_fields (dto_class t (connection_names ns a))) /\
    "password" ∈ dict_keys (dc_fields (dto_class t (connection_names ns a)))) as [Huser Hpw].
  { destruct t; try discriminate Hi; try (split; by_decide). exfalso. revert Hi. cbn [dto_class]. unfold iceberg_dto_class.
    destruct (bool_decide ("s3_warehouse_path" ∈ _)), (bool_decide ("rest_catalog_oauth2_client_id" ∈ _)); by vm_compute. }
  destruct (made_fields _ _ _ _ Ho Huser) as [u Hu']. destruct (made_fields _ _ _ _ Ho Hpw) as [p Hp'].
  apply (sound_pure _ _ u); [unfold getattr; by rewrite Hu'|]. apply (sound_pure _ _ p); [unfold getattr; by rewrite Hp'|].
  apply sound_done.
Qed.

(** the master the administrator configured is a text, or none *)
Definition master_ok (config : dict) : Prop := exists local, is_local (dict_get "spark.master" config) = Ok local.
Lemma session_sound K config run s t bs bt source target : usable_handler s bs source -> usable_handler t bt target ->
  accepted_row (lr_transfer run) -> master_ok config ->
  sound K (get_worker_spark_session config run (connection_dto source) (connection_dto target)).
Proof.
  intros Hs Ht (j & b & Hb & _ & _ & _ & Hres & _) [local Hl]. unfold get_worker_spark_session.
  destruct (body_resources j b Hb) as (tasks & cores & ram & Htasks & Hcores & Hram).
  apply sound_pure_ok.
  { unfold get_spark_session_conf. rewrite Hres, Htasks. cbn [mbind result_bind]. rewrite Hcores. cbn [mbind result_bind].
    rewrite Hram. cbn [mbind result_bind]. rewrite Hl. by eexists. }
  intros conf _. apply sound_bind; [by eapply authenticate_sound|]. intros hive.
  apply sound_bind; [by eapply authenticate_sound|]. intros hive'. apply sound_done.
Qed.

Context (s t : ConnectionType) (c : TransferController).
Context (Hs : usable_handler s false (source_handler c)) (Ht : usable_handler t true (target_handler c)).
Definition transfer_limit (e : exc) : Prop := read_limit (source_handler c) e \/ write_limit (target_handler c) e.
Notation K := transfer_limit.

Lemma read_limited v : sound K (read (with_hwm v (source_handler c))).
Proof. eapply sound_weaken; [|by eapply read_sound, usable_with_hwm]. intros e He. by left. Qed.
Lemma write_limited v df : framed df -> sound K (write (with_hwm v (target_handler c)) df).
Proof. intros Hdf. eapply sound_weaken; [|by eapply write_sound; [eapply usable_with_hwm|]]. intros e He. by right. Qed.

Lemma hwm_key_ok : exists n, _get_transfer_hwm_name (source_handler c) = Ok n.
Proof.
  unfold _get_transfer_hwm_name. rewrite (uh_kind _ _ _ Hs). destruct (uh_id _ _ _ Hs) as [i Hi].
  assert (exists x, json_attr (if is_file_handler (handler_of s) then "directory_path" else "table_name")
    (transfer_dto (source_handler c)) = Ok (JStr x)) as [x ->].
  { destruct (is_file_handler (handler_of s)) eqn:Hf; [by apply (uh_directory _ _ _ Hs)|by apply (uh_table _ _ _ Hs)]. }
  cbn [mbind result_bind]. rewrite Hi. by eexists.
Qed.
Lemma with_store_sound {A} store (body : Worker A) : sound K body -> sound K (with_hwm_store store body).
Proof.
  intros Hb. apply sound_bind; [apply sound_done|]. intros _. apply sound_with_exit; [done|]. intros _. apply sound_done.
Qed.
Lemma incremental_sound store : sound K (_perform_incremental_transfer store c).
Proof.
  apply with_store_sound, sound_bind; [apply sound_done|]. intros _. apply sound_with_exit; [|intros b; apply sound_done].
  apply sound_pure_ok; [apply hwm_key_ok|]. intros n _. apply sound_bind; [apply sound_mark|]. intros v.
  eapply sound_bind_returns; [apply read_limited|apply read_returns|]. intros df Hdf. by apply write_limited.
Qed.
Lemma reset_sound store : sound K (_reset_transfer_hwm store c).
Proof.
  apply with_store_sound, sound_pure_ok; [apply hwm_key_ok|]. intros n _. apply sound_bind; [apply sound_mark|].
  intros [v|]; [|apply sound_ret]. apply sound_if; [|apply sound_ret].
  apply sound_bind; [apply sound_done|]. intros _. apply sound_done.
Qed.

Lemma body_sound settings : sound K (session_body settings c).
Proof.
  unfold session_body. apply sound_bind; [by eapply connect_sound|]. intros _.
  apply sound_bind; [by eapply connect_sound|]. intros _. apply sound_pure_ok; [apply (uh_strategy _ _ _ Hs)|].
  intros st _. apply sound_if; [apply incremental_sound|]. apply sound_bind.
  - apply sound_if; [apply reset_sound|apply sound_ret].
  - intros _. eapply sound_bind_returns; [|apply read_returns|].
    + apply (sound_weaken (read_limit (source_handler c))); [intros e He; by left|by eapply read_sound].
    + intros df Hdf. apply (sound_weaken (write_limit (target_handler c))); [intros e He; by right|by eapply write_sound].
Qed.

Lemma perform_sound settings run :
  sound K (create_spark_session_function settings run (connection_dto (source_handler c)) (connection_dto (target_handler c))) ->
  sound K (perform_transfer settings run c).
Proof.
  intros Hsession. unfold perform_transfer. apply sound_with_exit; [|intros _; apply sound_done].
  apply sound_bind; [exact Hsession|]. intros _. apply sound_with_exit; [apply body_sound|intros _; apply sound_done].
Qed.
End Performing.

(** ** The task *)

Section Task.
Context `{PydanticCore} `{PyLib} `{Cipher} `{OneTLFormats} `{!OneTLFormatsLaws} `{Answers} `{!EngineLaws} `{Environment}.

Lemma row_transformations run : accepted_row run -> Forall filters_ok (JObj <$> transformations run).
Proof. intros (j & b & Hb & _ & _ & _ & _ & ->). by eapply body_transformations. Qed.

(** The work of a task on rows the server accepted fails only for a reason outside of
    the worker's code: a parser of onETL refused the options of a file format, or a call to
    onETL or Spark was answered with the very exception; or for one of five limits of the
    code: a query on downloaded files, the columns of a table that has none, a
    ClickHouse target for a frame without columns or with a key of a type that has no
    value for a null, and a template for file names that asks for an attribute.  In particular no key, attribute or argument is ever missing. *)
Lemma accepted_run_fails_outside config store run source_auth target_auth names e calls :
  accepted_run run source_auth target_auth -> master_ok config ->
  execute (mkWorkerAppSettings (get_worker_spark_session config) store) names
    (mkTaken run (JObj source_auth) (JObj target_auth)) [] = (Raise e, calls) ->
  parse_error e \/ (exists l c l', calls = l ++ c :: l' /\ refused l c e) \/
  exists c, init run source_auth target_auth names = Ok c /\
    (read_limit (source_handler c) e \/ write_limit (target_handler c) e).
Proof.
  intros Hrun Hm He. pose proof (init_made run source_auth target_auth names Hrun) as Hmade.
  unfold execute in He. cbn [taken_source_auth taken_target_auth taken_run as_dict mbind result_bind] in He.
  destruct (init run source_auth target_auth names) as [c|e'] eqn:Hi.
  2: { left. injection He as <- _. by destruct Hmade. }
  destruct Hmade as [Hs Ht]. destruct Hrun as [_ _ Hrow Hst Htt _]. pose proof Hrow as (j & b & Hb & Hsp & Htp & _).
  destruct (accepted_usable j b Hb) as [[Hus Hut Htemplate _ _] _]. rewrite <- Hsp in Hus. rewrite <- Htp in Hut, Htemplate.
  rewrite <- Hst in Hus. rewrite <- Htt in Hut, Htemplate. pose proof (row_transformations _ Hrow) as Hts.
  pose proof (side_usable _ _ _ _ false _ Hs Hus ltac:(done) Hts) as Hsu.
  pose proof (side_usable _ _ _ _ true _ Ht Hut (fun _ => Htemplate) Hts) as Htu.
  assert (sound (transfer_limit c) (perform_transfer (mkWorkerAppSettings (get_worker_spark_session config) store) run c)) as Hsound.
  { eapply perform_sound; [exact Hsu|exact Htu|]. cbn [create_spark_session_function].
    by eapply session_sound; [exact Hsu|exact Htu|..]. }
  destruct (Hsound _ _ _ He) as [_ Hr]. destruct (Hr e eq_refl) as [(l & x & l' & -> & _ & Href)|Hl]; right; [left|right].
  - by exists l, x, l'.
  - by exists c.
Qed.
End Task.

(** ** The laws hold of the concrete instances *)

#[export] Instance toy_formats_laws : OneTLFormatsLaws.
Proof. intros cls d o [= <-]. by right. Qed.
#[export] Instance toy_engine_laws : EngineLaws.
Proof. intros df c Hc. cbn. rewrite bool_decide_true by exact Hc. by eexists. Qed.
