(* ===== verification/StoredRows.v ===== *)
(** * What is stored was accepted

    [rows_accepted]: every stored connection, with its credentials, and every stored
    transfer come from one body the schemas of the API accepted, and the connections of
    a transfer are of the types of its parameters.  Every request whose body was parsed
    keeps it, moves and copies included, and so do the scheduler and the workers: a
    worker that takes a run holds rows it can use. *)

From S2P Require Import Prelude PyData Models Errors Database Integrity Search Repository.
From S2P Require Import Repositories RepositoryFacts Pydantic ConnectionSchemas TransferSchemas.
From S2P Require Import Auth ApiGroups ApiQueues ApiConnections ApiTransfers ApiRuns Server.
From S2P Require Import ServerFacts Deletion Membership Examples ConnectionTheorems.
From S2P Require Import TransferTheorems.
From S2P Require Import Scheduler SchedulerTheorems Settings Dto FilterExpressions Handlers.
From S2P Require Import Spark Controller RunTask.
From S2P Require Import RunLifecycle WorkerExamples RunEnding SchemaTheorems DtoFacts.
From S2P Require Import HandlerFacts HandlerTheorems.
From S2P Require Import WorkerTheorems TransferSafety.

(** a request whose body came out of its schema *)
Definition parsed `{PydanticCore} `{PyLib} (e : Endpoint) : Prop :=
  match e with
  | CreateConnection b => exists j, CreateConnectionSchema j = Ok b
  | UpdateConnection _ b => exists j, UpdateConnectionSchema j = Ok b
  | CreateTransfer b | UpdateTransfer _ b => exists j, parse_create_transfer j = Ok b
  | _ => True
  end.

(** ** The invariant *)

Section Rows.
Context `{Cipher} `{PydanticCore} `{PyLib}.

(** a connection and the credentials stored with it, if any, are those of one body *)
Definition stored_connection (c : Connection) (o : option AuthData) : Prop :=
  exists fields j b, (fields = create_auth_fields \/ fields = update_auth_fields) /\
    parse_connection fields j = Ok b /\ conn_type c = cb_type b /\ conn_data c = cb_data b /\
    forall row, o = Some row -> exists d, decrypt_auth_data (auth_value row) = Ok (JObj d) /\
      dict_keys d ≡ₚ dict_keys (cb_auth_data b).
(** the connection [i] is of the type of [params] *)
Definition side_fits (db : DB) (i : Z) (params : dict) : Prop :=
  forall c, connections db !! i = Some c -> conn_type c = params_type params.
Record stored_transfer (db : DB) (t : Transfer) : Prop := mkStoredTransfer {
  st_row : accepted_row t;
  st_source : side_fits db (source_connection_id t) (source_params t);
  st_target : side_fits db (target_connection_id t) (target_params t);
}.
Record rows_accepted (db : DB) : Prop := mkRowsAccepted {
  ra_connections : map_Forall (fun i c => stored_connection c (auth_data db !! i)) (connections db);
  ra_transfers : map_Forall (fun _ => stored_transfer db) (transfers db);
}.

Lemma stored_fewer c (m m' : gmap Z AuthData) i : m' ⊆ m -> stored_connection c (m !! i) -> stored_connection c (m' !! i).
Proof.
  intros Hm (fields & j & b & Hf & Hp & Ht & Hd & Ha). exists fields, j, b. split_and!; [done..|].
  intros row Hrow. apply Ha. by eapply lookup_weaken.
Qed.

(** rows that go *)
Lemma rows_fewer db db' : connections db' ⊆ connections db -> auth_data db' ⊆ auth_data db ->
  transfers db' ⊆ transfers db -> rows_accepted db -> rows_accepted db'.
Proof.
  intros Hc Ha Ht [Hconn Htr]. constructor.
  - intros i c Hi. eapply stored_fewer; [exact Ha|]. eapply Hconn, lookup_weaken; done.
  - intros i t Hi. destruct (Htr i t) as [Hrow Hs Hg]; [by eapply lookup_weaken|].
    constructor; [done|intros c Hi'; apply Hs|intros c Hi'; apply Hg]; by eapply lookup_weaken.
Qed.
Lemma rows_sub db db' : db_sub db' db -> rows_accepted db -> rows_accepted db'.
Proof. intros (?&?&?&?&?&?&?&?). by apply rows_fewer. Qed.

Lemma rows_deleted {K R} `{DeleteLaws K R} k s : rows_accepted (working s) ->
  rows_accepted (working (set_working (cascade (with_tbl (delete k (tbl (R := R) (working s))) (working s))) s)).
Proof.
  unfold set_working. cbn [working]. apply rows_sub. eapply db_sub_trans; [apply cascade_sub|apply delete_sub].
Qed.

(** a connection that is written with its credentials: what uses it sees the type it had *)
Lemma rows_put_connection i c db db' : connections db' = <[i := c]> (connections db) ->
  (forall k, k <> i -> auth_data db' !! k = auth_data db !! k) -> transfers db' = transfers db ->
  stored_connection c (auth_data db' !! i) ->
  (forall k t, transfers db !! k = Some t -> uses_connection i t ->
     exists c0, connections db !! i = Some c0 /\ conn_type c0 = conn_type c) ->
  rows_accepted db -> rows_accepted db'.
Proof.
  intros Hc Ha Ht Hnew Huse [Hconn Htr]. constructor; rewrite ?Hc, ?Ht.
  - intros k c'. rewrite lookup_insert. case_decide as Hk; [subst k; by intros [= <-]|].
    intros Hk'. rewrite Ha by congruence. by apply Hconn.
  - intros k t Hk. destruct (Htr k t Hk) as [Hrow Hs Hg].
    constructor; [done|..]; intros c'; rewrite Hc, lookup_insert; case_decide as Hi;
      try (intros [= <-]; destruct (Huse k t Hk) as (c0 & Hc0 & <-); [unfold uses_connection; auto|]);
      first [by apply Hs|by apply Hg|apply Hs; congruence|apply Hg; congruence].
Qed.

(** a transfer that is written *)
Lemma rows_put_transfer i t db db' : connections db' = connections db -> auth_data db' = auth_data db ->
  transfers db' = <[i := t]> (transfers db) -> stored_transfer db t -> rows_accepted db -> rows_accepted db'.
Proof.
  intros Hc Ha Ht Hnew [Hconn Htr]. constructor; rewrite ?Hc, ?Ha, ?Ht; [done|].
  intros k t'. assert (forall x, stored_transfer db x -> stored_transfer db' x) as Hdb.
  { intros x [? ? ?]. constructor; [done|..]; intros c; rewrite Hc; auto. }
  rewrite lookup_insert. case_decide; [intros [= <-]|intros Hk]; apply Hdb; [done|by eapply Htr].
Qed.

(** ** Sessions *)

Definition accepted : Session -> Prop := both rows_accepted.

#[export] Instance accepted_session : KeepsSession accepted.
Proof. constructor; [intros q s []|intros s []..]; by split. Qed.

(** a table that is neither of connections, nor of credentials, nor of transfers *)
Class OtherTable (R : Type) {K} `{Table K R} := other_table : forall (m : gmap K R) db,
  connections (with_tbl m db) = connections db /\ auth_data (with_tbl m db) = auth_data db /\
  transfers (with_tbl m db) = transfers db.
#[export] Instance OtherUser : OtherTable User. Proof. done. Qed.
#[export] Instance OtherGroup : OtherTable Group. Proof. done. Qed.
#[export] Instance OtherUserGroup : OtherTable UserGroup. Proof. done. Qed.
#[export] Instance OtherQueue : OtherTable Queue. Proof. done. Qed.
#[export] Instance OtherRun : OtherTable Run. Proof. done. Qed.

#[export] Instance accepted_other {K R} `{OtherTable R (K := K)} : KeepsTable accepted R.
Proof.
  assert (forall m db, rows_accepted db -> rows_accepted (with_tbl (R := R) m db)) as Hin.
  { intros m db. destruct (other_table m db) as (Hc & Ha & Ht). apply rows_fewer; by rewrite ?Hc, ?Ha, ?Ht. }
  constructor; [intros r s [? ?]|intros k f _ s [? ?]|intros k s [? ?]];
    unfold final, insert_row, update_row, delete_row; repeat case_match; (split; [done|]);
    cbn [working set_working snd]; auto.
  eapply rows_sub; [apply cascade_sub|auto].
Qed.
End Rows.

(** ** The endpoints *)

#[local] Abbreviation kept := (fun s => session_wf s /\ accepted s).

Section Endpoints.
Context `{TextSearch} `{CipherLaws} `{PydanticCore} `{PyLib}.

(** credentials that were stored are read back with their keys *)
Lemma stored_keys d : exists d', decrypt_auth_data (encrypt_auth_data d) = Ok (JObj d') /\ dict_keys d' ≡ₚ dict_keys d.
Proof.
  destruct (sort_keys_obj d) as (d' & Hs & Hp). exists d'. rewrite crypt_roundtrip, Hs. split; [done|].
  unfold dict_keys. rewrite Hp, <- list_fmap_compose. done.
Qed.
Lemma merge_secrets_keys fields old d d' : merge_secrets fields old d = Ok d' -> dict_keys d' = dict_keys d.
Proof.
  revert d. induction fields as [|f fields IH]; intros d Hm; [by injection Hm as ->|].
  destruct (decide (dict_get f d = Some JNull)) as [Hf|Hf].
  - apply merge_secrets_null in Hm as (t & t' & v & _ & _ & _ & _ & Hm); [|done].
    rewrite (IH _ Hm). by eapply dict_set_keys.
  - apply merge_secrets_given in Hm; [by apply IH|done].
Qed.

Lemma kept_create_connection b u s : (exists j, CreateConnectionSchema j = Ok b) -> kept s ->
  accepted (final (create_connection b u) s).
Proof.
  intros [j Hj] [[_ Hwf] Hs]. unfold create_connection. do 3 (apply keep_read; [solve_se|done|intros ? _]).
  apply keep_then; [|intros c; unfold lift; solve_se].
  apply keep_unit; [unfold create_connection_body; solve_se|done|]. intros c s' (Hn & -> & Hw)%create_connection_body_ok.
  destruct (stored_keys (cb_auth_data b)) as (d & Hd & Hk). destruct Hs as [_ Hs]. revert Hs.
  eapply (rows_put_connection (conn_id c)); rewrite ?Hw; [reflexivity|by intros k Hk'; cbn; rewrite lookup_insert_ne|done| |].
  - cbn. rewrite lookup_insert_eq. exists create_auth_fields, j, b. split_and!; [by left|done..|].
    intros row [= <-]. by exists d.
  - intros k t Hk' Hu. by destruct (fresh_unused _ _ Hwf Hn k t Hk').
Qed.

Lemma kept_update_connection i b u s : (exists j, UpdateConnectionSchema j = Ok b) -> kept s ->
  accepted (final (update_connection i b u) s).
Proof.
  intros [j Hj] [[_ Hwf] Hs]. unfold update_connection. do 3 (apply keep_read; [solve_se|done|intros ? _]).
  apply keep_then; [|intros c; unfold lift; solve_se].
  apply keep_unit; [unfold update_connection_body, lift; solve_se|done|].
  intros c s' (c0 & old & d' & created & Hc0 & Hty & _ & Hm & -> & Hw)%update_connection_body_ok; [|done].
  destruct (stored_keys d') as (d & Hd & Hk). rewrite (merge_secrets_keys _ _ _ _ Hm) in Hk.
  destruct Hs as [_ Hs]. revert Hs.
  eapply (rows_put_connection i); rewrite ?Hw; [reflexivity|by intros k Hk'; cbn; rewrite lookup_insert_ne|done| |].
  - cbn. rewrite lookup_insert_eq. exists update_auth_fields, j, b. split_and!; [by right|done..|].
    intros row [= <-]. by exists d.
  - intros k t Hk' Hu. exists c0. split; [done|]. cbn. apply dec_stable. intros Hne. by apply (Hty (not_eq_sym Hne) k t Hk').
Qed.

(** a copy has the type and data of the origin, and no credentials *)
Lemma rows_copied db db' c0 i0 c : db_wf db -> connections db !! i0 = Some c0 -> connections db !! conn_id c = None ->
  conn_type c = conn_type c0 -> conn_data c = conn_data c0 ->
  db' = with_tbl (<[conn_id c := c]> (connections db)) db -> rows_accepted db -> rows_accepted db'.
Proof.
  intros Hwf Hc0 Hn Ht Hd -> Hs. revert Hs. intros Hs.
  eapply (rows_put_connection (conn_id c)); [reflexivity|done|done| | |exact Hs].
  - cbn. rewrite (fresh_no_auth _ _ Hwf Hn). destruct Hs as [Hconn _].
    destruct (Hconn i0 c0 Hc0) as (fields & j & b & Hf & Hp & Hty & Hdata & _).
    exists fields, j, b. rewrite Ht, Hd. by split_and!.
  - intros k t Hk Hu. by destruct (fresh_unused _ _ Hwf Hn k t Hk).
Qed.

Lemma kept_delete_connection i u s : kept s -> accepted (final (delete_connection i u) s).
Proof.
  intros [[_ Hwf] Hs]. unfold delete_connection. do 6 (apply keep_read; [solve_se|done|intros ? _]).
  apply keep_unit; [solve_se|done|]. intros x s' [_ ->]%connection_delete_ok.
  exact (rows_deleted (R := Connection) i s (proj2 Hs)).
Qed.

Lemma connection_copy_kept i g n s c s1 : ConnectionRepository.copy i g n s = (Ok c, s1) ->
  session_wf s -> rows_accepted (working s) ->
  session_wf s1 /\ rows_accepted (working s1) /\ transfers (working s1) = transfers (working s) /\
  connections (working s) ⊆ connections (working s1) /\ connections (working s1) !! conn_id c = Some c /\
  exists c0, connections (working s) !! i = Some c0 /\ conn_type c = conn_type c0.
Proof.
  intros Hcopy Hwf Hs. pose proof (connection_copy_keeps session_wf i g n s Hwf) as Hk. unfold final in Hk.
  rewrite Hcopy in Hk. apply connection_copy_ok in Hcopy as (c0 & Hc0 & Hn & Hc & Hw & _).
  split_and!; [done|..|exists c0; by rewrite Hc]; [|rewrite Hw..].
  - eapply (rows_copied (working s)); [apply Hwf|exact Hc0|exact Hn|by rewrite Hc..|exact Hw|exact Hs].
  - done.
  - cbn. by apply insert_subseteq.
  - cbn. by rewrite lookup_insert_eq.
Qed.

Lemma kept_copy_connection i c u s : kept s -> accepted (final (copy_connection i c u) s).
Proof.
  intros [Hwf Hs]. unfold copy_connection. do 6 (apply keep_read; [solve_se|done|intros ? _]).
  apply keep_then; [|intros c1; unfold lift; solve_se].
  apply keep_unit; [unfold copy_connection_body; solve_se|done|]. intros c1 s' Hb. unfold copy_connection_body in Hb.
  apply bind_ok in Hb as (c2 & s1 & Hcopy & Hb).
  apply connection_copy_kept in Hcopy as (_ & Hs1 & _); [|done|apply Hs].
  apply bind_ok in Hb as (x & s2 & Hdel & Hb). apply mret_ok in Hb as [-> ->].
  destruct (cc_remove_source c); [apply connection_delete_ok in Hdel as [_ ->]|by apply mret_ok in Hdel as [_ ->]].
  exact (rows_deleted (R := Connection) i _ Hs1).
Qed.
(** the row of a body that fits its connections *)
Lemma fitting_row db j b i g created updated : parse_create_transfer j = Ok b -> body_fits db b ->
  stored_transfer db (transfer_row i g b created updated).
Proof.
  intros Hj (cs & ct & q & Hcs & Hct & _ & _ & _ & _ & Hts & Htt). pose proof (accepted_usable j b Hj) as (_ & Hs & Ht).
  constructor; [by exists j, b|..]; intros c Hc.
  - change (connections db !! tb_source_connection_id b = Some c) in Hc. rewrite Hcs in Hc. injection Hc as <-. by rewrite Hts.
  - change (connections db !! tb_target_connection_id b = Some c) in Hc. rewrite Hct in Hc. injection Hc as <-. by rewrite Htt.
Qed.

Lemma kept_create_transfer b u s : (exists j, parse_create_transfer j = Ok b) -> kept s ->
  accepted (final (create_transfer b u) s).
Proof.
  intros [j Hj] [_ Hs]. unfold create_transfer. do 2 (apply keep_read; [solve_se|done|intros ? _]).
  apply keep_read; [solve_se|done|intros ct [Hct _]%connection_read_ok].
  apply keep_read; [solve_se|done|intros cs [Hcs _]%connection_read_ok].
  apply keep_read; [solve_se|done|intros q Hq%queue_read_ok].
  apply keep_read; [unfold check_transfer_data; solve_se|done|intros x Hx%check_transfer_data_ok].
  apply keep_then; [|intros t; solve_se]. apply keep_unit; [solve_se|done|]. intros t s' Hu.
  unfold TransferRepository.create in Hu. apply bind_ok in Hu as (now & s1 & Hnow & Hu). apply gets_ok in Hnow as [-> ->].
  apply except_integrity_ok, insert_new_ok in Hu as (-> & _ & _ & ->).
  destruct Hs as [_ Hs]. revert Hs. eapply rows_put_transfer; [done|done|reflexivity|].
  apply (fitting_row _ j b _ (tb_group_id b) (clock s) (clock s) Hj). destruct Hx as (?&?&?&?&?). by exists cs, ct, q.
Qed.

Lemma kept_update_transfer i b u s : (exists j, parse_create_transfer j = Ok b) -> kept s ->
  accepted (final (update_transfer i b u) s).
Proof.
  intros [j Hj] [[_ Hwf] Hs]. unfold update_transfer. do 3 (apply keep_read; [solve_se|done|intros ? _]).
  apply keep_read; [solve_se|done|intros ct [Hct _]%connection_read_ok].
  apply keep_read; [solve_se|done|intros cs [Hcs _]%connection_read_ok].
  apply keep_read; [solve_se|done|intros q Hq%queue_read_ok]. do 3 (apply keep_read; [solve_se|done|intros ? _]).
  apply keep_read; [unfold check_transfer_data; solve_se|done|intros x Hx%check_transfer_data_ok].
  apply keep_then; [|intros t; solve_se]. apply keep_unit; [solve_se|done|]. intros t s' Hu.
  unfold TransferRepository.update in Hu. apply except_integrity_ok, _update_ok in Hu as (t0 & Ht0 & -> & _ & ->).
  destruct Hs as [_ Hs]. revert Hs. eapply rows_put_transfer; [done|done|reflexivity|].
  pose proof (wf_key (R := Transfer) (working s) i t0 Hwf Ht0) as Hkey. cbn in Hkey.
  apply (fitting_row _ j b (transfer_id t0) (transfer_group_id t0) (transfer_created_at t0) (clock s) Hj).
  destruct Hx as (?&?&?&?&?). by exists cs, ct, q.
Qed.

Lemma kept_delete_transfer i u s : kept s -> accepted (final (delete_transfer i u) s).
Proof.
  intros [_ Hs]. unfold delete_transfer. do 3 (apply keep_read; [solve_se|done|intros ? _]).
  apply keep_unit; [solve_se|done|]. intros x s' Hd. unfold TransferRepository.delete in Hd.
  apply bind_ok in Hd as (t & s1 & Hd & Hr). inv_ok. exact (rows_deleted (R := Transfer) i s (proj2 Hs)).
Qed.

Lemma kept_copy_transfer i c u s : kept s -> accepted (final (copy_transfer i c u) s).
Proof.
  intros [Hwf Hs]. unfold copy_transfer. do 5 (apply keep_read; [solve_se|done|intros ? _]).
  apply keep_read; [solve_se|done|intros tr Htr]. do 6 (apply keep_read; [solve_se|done|intros ? _]).
  unfold TransferRepository.read_by_id in Htr. apply except_class_ok, select_one_ok in Htr as [Htr _].
  pose proof (wf_key (R := Transfer) (working s) i tr (proj2 Hwf) Htr) as Hkey. cbn in Hkey, Htr. subst i.
  apply keep_then; [|intros t; solve_se]. apply keep_unit; [unfold copy_transfer_body; solve_se|done|].
  intros t s' Hu. unfold copy_transfer_body in Hu. apply bind_ok in Hu as (cs & s1 & Hcs & Hu).
  apply connection_copy_kept in Hcs as (Hwf1 & Hs1 & Ht1 & Hsub1 & Hcs & cs0 & Hcs0 & Hcst); [|done|apply Hs].
  apply bind_ok in Hu as (ct & s2 & Hct & Hu).
  assert (rows_accepted (working s2) /\ transfers (working s2) = transfers (working s) /\
    connections (working s2) !! conn_id cs = Some cs /\ connections (working s2) !! conn_id ct = Some ct /\
    exists ct0, connections (working s) !! target_connection_id tr = Some ct0 /\ conn_type ct = conn_type ct0)
    as (Hs2 & Ht2 & Hcs2 & Hct2 & ct0 & Hct0 & Hctt).
  { destruct (Z.eqb_spec (source_connection_id tr) (target_connection_id tr)) as [He|He]; cbn [negb] in Hct.
    - apply mret_ok in Hct as [-> ->]. split_and!; [done..|]. exists cs0. by rewrite <- He.
    - apply connection_copy_kept in Hct as (_ & Hs2 & Ht2 & Hsub2 & Hct & ct0 & Hct0 & Hctt); [|done..].
      split_and!; [done|congruence|by eapply lookup_weaken|done|]. exists ct0. split; [|done].
      pose proof (wf_refs (R := Transfer) _ _ _ (proj2 Hwf) Htr) as Hr. open_refs.
      match goal with Hx : is_Some (connections (working s) !! target_connection_id tr) |- _ => destruct Hx as [ct1 Hct1] end.
      rewrite Hct1. rewrite <- Hct0. symmetry. by eapply lookup_weaken. }
  apply bind_ok in Hu as (t' & s3 & Hcopy & Hu).
  apply transfer_copy_ok in Hcopy as (t0 & Ht0 & _ & Ht & Hw3). assert (t0 = tr) as -> by congruence.
  assert (rows_accepted (working s3)) as Hs3.
  { revert Hs2. rewrite Hw3. eapply (rows_put_transfer (transfer_id t') t'); [done..|].
    destruct (ra_transfers _ (proj2 Hs) _ tr Htr) as [Hrow Hsf Htf]. rewrite Ht. constructor.
    - destruct Hrow as (j & b & Hj). by exists j, b.
    - intros c1. cbn. rewrite Hcs2. intros [= <-]. rewrite Hcst. by apply Hsf.
    - intros c1. cbn. rewrite Hct2. intros [= <-]. rewrite Hctt. by apply Htf. }
  apply bind_ok in Hu as (x & s4 & Hdel & Hu). apply mret_ok in Hu as [-> ->].
  destruct (ct_remove_source c); [|by apply mret_ok in Hdel as [_ ->]].
  unfold TransferRepository.delete in Hdel. apply bind_ok in Hdel as (t4 & s5 & Hdel & Hr). inv_ok.
  exact (rows_deleted (R := Transfer) (transfer_id tr) _ Hs3).
Qed.
End Endpoints.

(** ** The system *)

Section System.
Context `{TextSearch} `{CipherLaws} `{PydanticCore} `{PyLib} `{Broker} `{AuthProviderLaws} `{LogUrl}.

Lemma kept_endpoint e u : parsed e -> writes_rows e = true -> preserves kept (dispatch e u).
Proof.
  intros Hp Hw s Hs. destruct (writes_groups e) eqn:Hg; [by destruct e|]. split.
  - apply (dispatch_keeps session_wf e u Hg), Hs.
  - destruct e; cbn [writes_rows parsed dispatch] in *; try discriminate Hw;
      (apply keep_then; [|by intros a s0]).
    + by apply kept_create_connection.
    + by apply kept_update_connection.
    + by apply kept_delete_connection.
    + by apply kept_copy_connection.
    + by apply kept_create_transfer.
    + by apply kept_copy_transfer.
    + by apply kept_update_transfer.
    + by apply kept_delete_transfer.
    + by apply (start_run_keeps accepted), Hs.
    + by apply (stop_run_keeps accepted), Hs.
Qed.

Lemma parsed_reachable_kept w : sys_reachable_of parsed w -> kept (db_session w).
Proof.
  induction 1 as [sq t|w w' _ IH Hstep].
  - split; [split; apply empty_inv|split; constructor; apply map_Forall_empty].
  - revert IH. apply (sys_step_keeps parsed kept); [|exact Hstep].
    intros s s'. apply (server_steps_keep kept parsed kept_endpoint). intros s0 t0 [[? ?] [? ?]]. by split; split.
Qed.

Lemma parsed_reachable w : sys_reachable_of parsed w -> sys_reachable w.
Proof.
  induction 1 as [sq t|w w' _ IH Hstep]; [constructor|]. eapply sys_next; [exact IH|].
  destruct Hstep as [s s' l Hst| | | | | |]; [|by econstructor..]. apply sys_server. by destruct Hst; constructor.
Qed.

(** the rows of a run that is taken *)
Lemma taken_rows db c v : rows_accepted db -> connections db !! conn_id c = Some c ->
  loaded_auth db (conn_id c) v -> exists d, v = JObj d /\ accepted_connection c d.
Proof.
  intros Hs Hc (a & Ha & Hv). destruct (ra_connections _ Hs _ _ Hc) as (fields & j & b & Hf & Hp & Ht & Hd & Hauth).
  destruct (Hauth a Ha) as (d & Hd' & Hk). rewrite Hv in Hd'. injection Hd' as ->.
  exists d. split; [done|]. by exists fields, j, b.
Qed.

Lemma taken_accepted w i t s' : sys_reachable_of parsed w -> begin_run i (db_session w) = (Ok (Some t), s') ->
  exists source target, taken_source_auth t = JObj source /\ taken_target_auth t = JObj target /\
    accepted_run (taken_run t) source target.
Proof.
  intros Hw Hb. destruct (parsed_reachable_kept w Hw) as [[_ Hwf] [_ Hs]]. unfold begin_run in Hb.
  apply unit_of_work_ok in Hb as (s1 & Hb & _).
  apply begin_body_ok in Hb as (r & url & tr & g & cs & ct & _ & _ & _ & Htr & _ & Hcs & Hct & Hrun & _ & _ & _ & _ & _ & Hsa & Hta);
    [|intros r Hr; exact (wf_key (R := Run) _ _ _ Hwf Hr)].
  pose proof (wf_key (R := Connection) _ _ _ Hwf Hcs) as Hks. pose proof (wf_key (R := Connection) _ _ _ Hwf Hct) as Hkt.
  cbn in Hks, Hkt. destruct (ra_transfers _ Hs _ _ Htr) as [Hrow Hsf Htf].
  destruct (taken_rows _ cs (taken_source_auth t) Hs) as (sa & Hsa' & Hsc); [by rewrite Hks|exact Hsa|].
  destruct (taken_rows _ ct (taken_target_auth t) Hs) as (ta & Hta' & Htc); [by rewrite Hkt|exact Hta|].
  exists sa, ta. split_and!; [done..|]. rewrite Hrun. constructor; cbn; [done|done|done|by apply Hsf|by apply Htf|].
  intros He. rewrite <- Hks, He, Hkt, Hct in Hcs. injection Hcs as ->. split; [done|].
  destruct Hsa as (a & Ha & Hav), Hta as (a' & Ha' & Hav'). rewrite Ha in Ha'. injection Ha' as <-. congruence.
Qed.

(** C17 What is stored can be used: in every state that requests with parsed bodies, the
    scheduler and the workers reach, a stored transfer is a body the API accepted, its
    connections are there, of the types its parameters have, and each is, with its
    credentials, a body the API accepted; copies, moves and updates included. *)
Theorem stored_rows_accepted w i t : sys_reachable_of parsed w ->
  transfers (committed (db_session w)) !! i = Some t ->
  let db := committed (db_session w) in
  accepted_row t /\ exists cs ct,
    connections db !! source_connection_id t = Some cs /\ connections db !! target_connection_id t = Some ct /\
    conn_type cs = params_type (source_params t) /\ conn_type ct = params_type (target_params t) /\
    stored_connection cs (auth_data db !! source_connection_id t) /\
    stored_connection ct (auth_data db !! target_connection_id t).
Proof.
  intros Hw Ht. destruct (parsed_reachable_kept w Hw) as [[Hwf _] [[Hconn Htr] _]].
  destruct (Htr i t Ht) as [Hrow Hs Hg]. split; [done|].
  pose proof (wf_refs (R := Transfer) _ _ _ Hwf Ht) as Hr. unfold refs_ok in Hr. cbn in Hr.
  rewrite !Forall_cons in Hr. destruct Hr as (_ & _ & [cs Hcs] & [ct Hct] & _). cbn in Hcs, Hct.
  exists cs, ct. split_and!; [done|done|by apply Hs|by apply Hg|by apply Hconn|by apply Hconn].
Qed.
End System.

(** ** From the request to the failure *)

Section Failure.
Context `{TextSearch} `{CipherLaws} `{PydanticCore} `{PyLib} `{Broker} `{AuthProviderLaws} `{LogUrl}.
Context `{OneTLFormats} `{!OneTLFormatsLaws} `{Answers} `{!EngineLaws} `{Environment}.

(** C18 A run that a worker takes, in any state that requests with parsed bodies, jobs and
    whole sessions of workers reach, fails only for a reason outside of the code: a parser
    of onETL refused the options of a file format, or a call to onETL or Spark was answered
    with the very exception; or for one of five limits of the code: a query on downloaded
    files, the columns of a table that has none, a ClickHouse target for a frame without
    columns or with a key of a type that has no value for a null, and a template for the
    names of files that asks for an attribute ([accepted_template_fails]).  It is assumed
    that the settings name a Spark master, that a parser of onETL keeps the compression it
    was given, and that a frame has a type for each of its columns.  In particular no key
    or argument is ever missing, whatever was created, updated, copied and deleted before. *)
Theorem taken_run_fails_outside w i t s' config store names e calls :
  master_ok config ->
  sys_reachable_of parsed w -> begin_run i (db_session w) = (Ok (Some t), s') ->
  execute (mkWorkerAppSettings (get_worker_spark_session config) store) names t [] = (Raise e, calls) ->
  parse_error e \/ (exists l c l', calls = l ++ c :: l' /\ refused l c e) \/
  exists source target c, taken_source_auth t = JObj source /\ taken_target_auth t = JObj target /\
    init (taken_run t) source target names = Ok c /\
    (read_limit (source_handler c) e \/ write_limit (target_handler c) e).
Proof.
  intros Hm Hw Hb He. destruct (taken_accepted w i t s' Hw Hb) as (source & target & Hs & Ht & Hrun).
  destruct t as [run sa ta]. cbn in Hs, Ht, Hrun. subst sa ta.
  destruct (accepted_run_fails_outside config store run source target names e calls Hrun Hm He)
    as [Hp|[Hr|(c & Hc & Hl)]]; [by left|right; by left|]. right. right. by exists source, target, c.
Qed.
End Failure.

(** ** Witnesses *)

(** a request is sent with the JSON of its body *)
Definition create_connection_of (j : json) : Endpoint :=
  match CreateConnectionSchema j with Ok b => CreateConnection b | Raise _ => ReadCurrentUser end.
Definition create_transfer_of (j : json) : Endpoint :=
  match parse_create_transfer j with Ok b => CreateTransfer b | Raise _ => ReadCurrentUser end.
Lemma create_connection_parsed j : parsed (create_connection_of j).
Proof. unfold create_connection_of. destruct (CreateConnectionSchema j) eqn:Hj; [by exists j|done]. Qed.
Lemma create_transfer_parsed j : parsed (create_transfer_of j).
Proof. unfold create_transfer_of. destruct (parse_create_transfer j) eqn:Hj; [by exists j|done]. Qed.

Definition action_parsed (a : Action) : Prop := match a with Req _ e => parsed e | _ => True end.
Lemma play_parsed l : Forall action_parsed l -> sys_reachable_of parsed (mkSystem (play l) []).
Proof.
  unfold play. assert (sys_reachable_of parsed (mkSystem (session_on empty_db (fun _ => 1) 0) [])) as Hr by constructor.
  revert Hr. generalize (session_on empty_db (fun _ => 1) 0). induction l as [|a l IH]; [done|].
  intros s Hs [Ha Hl]%Forall_cons. cbn. apply IH; [|done]. eapply sys_next; [exact Hs|]. apply sys_server.
  destruct a; cbn; constructor; [done|lia].
Qed.

(** a query on the files of an FTP server, stored, copied to another group and run *)
Definition lake_actions : list Action :=
  [Login "alice"; Req 1 (CreateGroup "group1" ""); Req 1 (CreateGroup "group2" "");
   Req 1 (CreateQueue "queue1" 1 ""); Req 1 (CreateQueue "queue2" 2 "");
   Req 1 (create_connection_of ftp_body); Req 1 (create_connection_of iceberg_body);
   Req 1 (create_transfer_of (files_to_lake false true));
   Req 1 (CopyTransferTo 1 (mkCopyTransfer 2 2 None None None false)); Req 1 (StartRun 1)].
Definition lake : System := mkSystem (play lake_actions) [].
Lemma lake_reachable : sys_reachable_of parsed lake.
Proof.
  apply play_parsed. unfold lake_actions.
  repeat constructor; first [apply create_connection_parsed|apply create_transfer_parsed].
Qed.

(** the copy fits its copied connections too *)
Definition copied_transfer : Transfer :=
  default (transfer_of JNull) (transfers (committed (db_session lake)) !! 2).
Lemma stored_rows_accepted_witness :
  source_connection_id copied_transfer = 3 /\ accepted_row copied_transfer.
Proof.
  split; [vm_compute; reflexivity|].
  refine (proj1 (stored_rows_accepted lake 2 copied_transfer lake_reachable _)). vm_compute. reflexivity.
Defined.

(** nothing outside is to blame for the failure of the query on files that are downloaded *)
Definition lake_taken : option Taken :=
  match (begin_run 1 (db_session lake)).1 with Ok o => o | Raise _ => None end.
Lemma taken_run_fails_outside_witness : exists t source target c,
  lake_taken = Some t /\ init (taken_run t) source target toy_names = Ok c /\
  (read_limit (source_handler c) AttributeError \/ write_limit (target_handler c) AttributeError).
Proof.
  destruct (begin_run 1 (db_session lake)) as [[[t|]|x] s'] eqn:Hb;
    [|apply (f_equal (fun r => is_ok r.1 && match r.1 with Ok (Some _) => true | _ => false end)) in Hb; vm_compute in Hb; discriminate Hb..].
  assert (lake_taken = Some t) as Ht by (unfold lake_taken; by rewrite Hb).
  destruct (execute toy_settings toy_names t []) as [r calls] eqn:He.
  assert (r = Raise AttributeError) as ->.
  { change r with (r, calls).1. rewrite <- He. pose proof Ht as Hx.
    apply (f_equal (fun o => match o with Some t => (execute toy_settings toy_names t []).1 | None => Raise TypeError end)) in Hx.
    rewrite <- Hx. vm_compute. reflexivity. }
  destruct (taken_run_fails_outside lake 1 t s' [("spark.master", JStr "local")] toy_store toy_names AttributeError calls
    ltac:(by eexists) lake_reachable Hb He) as [(cls & o & Hp)|[(l & c & l' & _ & Href)|(source & target & c & _ & _ & Hc & Hl)]].
  - discriminate Hp.
  - exfalso. destruct Href as [Hr|[Hr|[Hr|Hr]]]; discriminate Hr.
  - exists t, source, target, c. split; [exact Ht|]. split; [exact Hc|exact Hl].
Defined.
