(* ===== verification/Regex.v ===== *)
(** * Python's [re]

    The patterns of the documentation scripts are kept as the texts the source gives
    to [re]: [compile] reads them, [run] is the backtracking matcher (alternatives in
    their order, greedy and lazy repetitions, groups, look-around); [match_], [search],
    [finditer] and [sub] are the functions of the module.  [denotes] says what a pattern
    means, and [run_spec] that the matcher finds a match exactly when there is one.
    Characters are code points below 256. *)

From S2P Require Import Prelude PyData Search PyText.
From Stdlib Require Import Ascii.

(** ** Slices of a text *)

Fixpoint str_take (n : nat) (s : string) : string :=
  match n, s with
  | S k, String c s' => String c (str_take k s')
  | _, _ => ""
  end.
Fixpoint str_drop (n : nat) (s : string) : string :=
  match n, s with
  | S k, String _ s' => str_drop k s'
  | _, _ => s
  end.
(** [s[a:b]] for [0 <= a] and [0 <= b] *)
Definition str_slice (a b : nat) (s : string) : string := str_take (b - a) (str_drop a s).
Fixpoint last_char (s : string) : option ascii :=
  match s with
  | EmptyString => None
  | String c s' => match last_char s' with Some d => Some d | None => Some c end
  end.
Definition dquote_char : ascii := ascii_of_nat 34.
Definition newline : ascii := ascii_of_nat 10.
Definition nl : string := String newline "".
(** a text of the source that holds double quotes, written with [@] in their places *)
Definition dquoted (s : string) : string :=
  string_map (fun c => if Ascii.eqb c "@" then dquote_char else c) s.

Lemma take_drop n s : str_take n s +:+ str_drop n s = s.
Proof. revert s. induction n as [|n IH]; intros [|c s]; [done..|]. cbn [str_take str_drop]. by rewrite string_app_cons, IH. Qed.
Lemma drop_app u s : str_drop (String.length u) (u +:+ s) = s.
Proof. induction u as [|c u IH]; [by destruct s|]. by rewrite string_app_cons. Qed.
Lemma take_app u s : str_take (String.length u) (u +:+ s) = u.
Proof. induction u as [|c u IH]; [by destruct s|]. rewrite string_app_cons. cbn [String.length str_take]. by rewrite IH. Qed.

(** ** Patterns *)

Inductive item : Type :=
| One (c : ascii)
| Range (a b : ascii)
| Word                                     (* \w *)
| Digit                                    (* \d *)
| Space.                                   (* \s *)
Record charset : Type := mkSet { negated : bool; items : list item }.

Inductive assertion : Type :=
| TextStart                                (* ^ *)
| LineStart                                (* ^ under re.MULTILINE *)
| TextEnd                                  (* $ *)
| LineEnd                                  (* $ under re.MULTILINE *)
| Boundary                                 (* \b *)
| NotBehind (k : charset).                 (* (?<!k) *)

Inductive regex : Type :=
| Eps
| Class (k : charset)
| Seq (a b : regex)
| Alt (a b : regex)
| Star (greedy : bool) (a : regex)
| Group (n : nat) (a : regex)
| NotAhead (a : regex)                     (* (?!a) *)
| Assert (a : assertion).

#[export] Instance item_eq_dec : EqDecision item. Proof. solve_decision. Defined.
#[export] Instance charset_eq_dec : EqDecision charset. Proof. solve_decision. Defined.
#[export] Instance assertion_eq_dec : EqDecision assertion. Proof. solve_decision. Defined.
#[export] Instance regex_eq_dec : EqDecision regex. Proof. solve_decision. Defined.

(** letters and digits below 256, and the underscore *)
Definition is_word (c : ascii) : bool :=
  let n := nat_of_ascii c in
  ((48 <=? n) && (n <=? 57) || (65 <=? n) && (n <=? 90) || (n =? 95) || (97 <=? n) && (n <=? 122)
   || existsb (Nat.eqb n) [170; 178; 179; 181; 185; 186; 188; 189; 190]
   || (192 <=? n) && (n <=? 255) && negb (n =? 215) && negb (n =? 247))%nat.
Definition in_item (i : item) (c : ascii) : bool :=
  match i with
  | One d => Ascii.eqb d c
  | Range a b => ((nat_of_ascii a <=? nat_of_ascii c) && (nat_of_ascii c <=? nat_of_ascii b))%nat
  | Word => is_word c
  | Digit => ((48 <=? nat_of_ascii c) && (nat_of_ascii c <=? 57))%nat
  | Space => is_space c
  end.
Definition in_set (k : charset) (c : ascii) : bool := xorb (negated k) (existsb (fun i => in_item i c) (items k)).
Definition lit (c : ascii) : regex := Class (mkSet false [One c]).

(** ** Reading a pattern *)

Record flags : Type := mkFlags { MULTILINE : bool; DOTALL : bool }.
Definition no_flags : flags := mkFlags false false.

Definition seq (a b : regex) : regex := match a with Eps => b | _ => Seq a b end.
(** an escape in a character class, and outside of one *)
Definition escaped_item (c : ascii) : item :=
  if Ascii.eqb c "s" then Space else if Ascii.eqb c "w" then Word else if Ascii.eqb c "d" then Digit
  else if Ascii.eqb c "n" then One newline else if Ascii.eqb c "t" then One (ascii_of_nat 9) else One c.
Definition escaped (c : ascii) : regex :=
  if Ascii.eqb c "b" then Assert Boundary
  else if Ascii.eqb c "S" then Class (mkSet true [Space])
  else Class (mkSet false [escaped_item c]).
(** the items of a class up to its bracket *)
Fixpoint read_items (fuel : nat) (s : string) : option (list item * string) :=
  match fuel, s with
  | S fuel, String c s' =>
      if Ascii.eqb c "]" then Some ([], s')
      else
        let '(i, s1) :=
          if Ascii.eqb c "\" then match s' with String e s1 => (escaped_item e, s1) | _ => (One c, s') end
          else match s' with
               | String d (String e s1) =>
                   if Ascii.eqb d "-" && negb (Ascii.eqb e "]") then (Range c e, s1) else (One c, s')
               | _ => (One c, s')
               end in
        '(is_, s2) ← read_items fuel s1; Some (i :: is_, s2)
  | _, _ => None
  end.
Definition read_class (s : string) : option (charset * string) :=
  let '(neg, s1) := match s with String c s1 => if Ascii.eqb c "^" then (true, s1) else (false, s) | _ => (false, s) end in
  '(is_, s2) ← read_items (String.length s1) s1; Some (mkSet neg is_, s2).

(** the quantifier after an atom: its least and greatest numbers of repetitions *)
Definition digit (c : ascii) : option nat :=
  let n := nat_of_ascii c in if ((48 <=? n) && (n <=? 57))%nat then Some (n - 48)%nat else None.
Definition read_quantifier (s : string) : option (nat * option nat) * string :=
  match s with
  | String c s1 =>
      if Ascii.eqb c "*" then (Some (0, None)%nat, s1)
      else if Ascii.eqb c "+" then (Some (1, None)%nat, s1)
      else if Ascii.eqb c "?" then (Some (0, Some 1)%nat, s1)
      else if Ascii.eqb c "{" then
        match s1 with
        | String m (String _ (String n s2)) =>
            match digit m, digit n, s2 with
            | Some m, Some n, String _ s3 => (Some (m, Some n), s3)
            | Some m, None, _ => (Some (m, None), s2)
            | _, _, _ => (None, s)
            end
        | _ => (None, s)
        end
      else (None, s)
  | EmptyString => (None, s)
  end.
Fixpoint times (n : nat) (a rest : regex) : regex :=
  match n with O => rest | S n => seq a (times n a rest) end.
Fixpoint at_most (n : nat) (greedy : bool) (a : regex) : regex :=
  match n with
  | O => Eps
  | S n => let more := seq a (match n with O => Eps | _ => at_most n greedy a end) in
           if greedy then Alt more Eps else Alt Eps more
  end.
Definition repeated (a : regex) (q : option (nat * option nat)) (greedy : bool) : regex :=
  match q with
  | None => a
  | Some (m, None) => match m with O => Star greedy a | _ => times m a (Star greedy a) end
  | Some (m, Some n) => match m with O => at_most n greedy a
                        | _ => times m a (at_most (n - m) greedy a) end
  end.
(** [a] and its quantifier, lazy with a question mark after it *)
Definition quantified (a : regex) (s : string) : regex * string :=
  match read_quantifier s with
  | (None, _) => (a, s)
  | (q, String c s1) => if Ascii.eqb c "?" then (repeated a q false, s1) else (repeated a q true, String c s1)
  | (q, s1) => (repeated a q true, s1)
  end.

(** [read fl fuel alts cat g s]: the pattern [s] up to its end or a closing
    parenthesis, after the alternatives [alts] and the atoms [cat]; [g] groups were
    opened before *)
Fixpoint read (fl : flags) (fuel : nat) (alts : option regex) (cat : regex) (g : nat) (s : string)
  : option (regex * nat * string) :=
  match fuel with
  | O => None
  | S fuel =>
      let finished := match alts with Some a => Alt a cat | None => cat end in
      let go a g s := let '(q, s') := quantified a s in read fl fuel alts (seq cat q) g s' in
      (* a group up to its parenthesis *)
      let group (f : regex -> regex) g s :=
        '(a, g', s') ← read fl fuel None Eps g s;
        match s' with String _ s2 => go (f a) g' s2 | EmptyString => None end in
      match s with
      | EmptyString => Some (finished, g, "")
      | String c s' =>
          if Ascii.eqb c ")" then Some (finished, g, s)
          else if Ascii.eqb c "|" then read fl fuel (Some finished) Eps g s'
          else if Ascii.eqb c "." then go (Class (mkSet true (if DOTALL fl then [] else [One newline]))) g s'
          else if Ascii.eqb c "^" then go (Assert (if MULTILINE fl then LineStart else TextStart)) g s'
          else if Ascii.eqb c "$" then go (Assert (if MULTILINE fl then LineEnd else TextEnd)) g s'
          else if Ascii.eqb c "\" then
            match s' with String e s1 => go (escaped e) g s1 | EmptyString => None end
          else if Ascii.eqb c "[" then '(k, s1) ← read_class s'; go (Class k) g s1
          else if Ascii.eqb c "(" then
            if String.prefix "?:" s' then group id g (str_drop 2 s')
            else if String.prefix "?!" s' then group NotAhead g (str_drop 2 s')
            else if String.prefix "?<!" s' then
              match str_drop 3 s' with
              | String b (String _ s1) => go (Assert (NotBehind (mkSet false [One b]))) g s1
              | _ => None
              end
            else group (Group (S g)) (S g) s'
          else go (lit c) g s'
      end
  end.
(** [re.compile(pattern, flags)] *)
Definition compile_opt (fl : flags) (pattern : string) : option regex :=
  match read fl (S (2 * String.length pattern)) None Eps O pattern with
  | Some (r, _, EmptyString) => Some r
  | _ => None
  end.
(** a pattern that does not parse is an exception of [re.compile]; it would match
    nothing here *)
Definition nothing : regex := Class (mkSet false []).
Definition compile (fl : flags) (pattern : string) : regex := default nothing (compile_opt fl pattern).

Example compile_link : compile no_flags "\[([^\]]+)\]\((/[^)]*?/)\)" =
  Seq (Seq (Seq (Seq (Seq (lit "[")
    (Group 1 (Seq (Class (mkSet true [One "]"])) (Star true (Class (mkSet true [One "]"]))))))
    (lit "]")) (lit "("))
    (Group 2 (Seq (Seq (lit "/") (Star false (Class (mkSet true [One ")"])))) (lit "/"))))
    (lit ")").
Proof. vm_compute. reflexivity. Qed.

(** ** Matching *)

(** a place in a text: the character before it, the text after it, and the groups
    matched so far, the last first *)
Record place : Type := mkPlace { before : option ascii; rest : string; groups : list (nat * string) }.
Definition shorter (s1 s : place) : bool := (String.length (rest s1) <? String.length (rest s))%nat.
(** the text from the place [s] to the place [s1] *)
Definition between (s s1 : place) : string :=
  str_take (String.length (rest s) - String.length (rest s1)) (rest s).
Definition set_group (n : nat) (w : string) (s : place) : place :=
  mkPlace (before s) (rest s) ((n, w) :: groups s).
Definition first_char (s : string) : option ascii := match s with String c _ => Some c | EmptyString => None end.
Definition is_newline (o : option ascii) : bool := match o with Some c => Ascii.eqb c newline | None => false end.
Definition is_none (o : option ascii) : bool := match o with None => true | Some _ => false end.
Definition holds (a : assertion) (s : place) : bool :=
  let next := first_char (rest s) in
  match a with
  | TextStart => is_none (before s)
  | LineStart => is_none (before s) || is_newline (before s)
  | TextEnd => is_none next || String.eqb (rest s) nl
  | LineEnd => is_none next || is_newline next
  | Boundary => xorb (from_option is_word false (before s)) (from_option is_word false next)
  | NotBehind k => negb (from_option (in_set k) false (before s))
  end.

(** the loop of a repetition of [step], at most [n] times; an iteration that consumes
    nothing is not repeated *)
Definition star_loop (greedy : bool) (step : place -> (place -> option place) -> option place)
    (k : place -> option place) : nat -> place -> option place :=
  fix loop n s :=
    match n with
    | O => k s
    | S n =>
        if greedy
        then match step s (fun s1 => if shorter s1 s then loop n s1 else None) with
             | Some x => Some x | None => k s end
        else match k s with
             | Some x => Some x
             | None => step s (fun s1 => if shorter s1 s then loop n s1 else None) end
    end.

(** [run r s k]: matches [r] at [s] and goes on with [k]; the first way in which both
    succeed *)
Fixpoint run (r : regex) (s : place) (k : place -> option place) {struct r} : option place :=
  match r with
  | Eps => k s
  | Class c =>
      match rest s with
      | String a t => if in_set c a then k (mkPlace (Some a) t (groups s)) else None
      | EmptyString => None
      end
  | Seq a b => run a s (fun s1 => run b s1 k)
  | Alt a b => match run a s k with Some x => Some x | None => run b s k end
  | Star greedy a => star_loop greedy (run a) k (String.length (rest s)) s
  | Group n a => run a s (fun s1 => k (set_group n (between s s1) s1))
  | NotAhead a => match run a s Some with Some _ => None | None => k s end
  | Assert a => if holds a s then k s else None
  end.

(** what a pattern means: the places a match may end at *)
Fixpoint denotes (r : regex) (s s' : place) : Prop :=
  match r with
  | Eps => s' = s
  | Class c => exists a t, rest s = String a t /\ in_set c a = true /\ s' = mkPlace (Some a) t (groups s)
  | Seq a b => exists s1, denotes a s s1 /\ denotes b s1 s'
  | Alt a b => denotes a s s' \/ denotes b s s'
  | Star _ a => rtc (fun s s1 => denotes a s s1 /\ shorter s1 s = true) s s'
  | Group n a => exists s1, denotes a s s1 /\ s' = set_group n (between s s1) s1
  | NotAhead a => s' = s /\ ~ exists s1, denotes a s s1
  | Assert a => s' = s /\ holds a s = true
  end.

(** ** The matcher finds a match exactly when there is one *)

(** [f] tries the places of [R] one after the other *)
Definition tries (f : (place -> option place) -> option place) (R : place -> Prop) : Prop := forall k,
  (forall x, f k = Some x -> exists s', R s' /\ k s' = Some x) /\
  (f k = None -> forall s', R s' -> k s' = None).

Lemma star_loop_tries greedy a s n : (forall s, tries (run a s) (denotes a s)) ->
  (String.length (rest s) <= n)%nat ->
  tries (fun k => star_loop greedy (run a) k n s) (denotes (Star greedy a) s).
Proof.
  intros Ha. revert s. induction n as [|n IH]; intros s Hn k.
  - cbn [star_loop]. split.
    + intros x Hx. exists s. split; [apply rtc_refl|done].
    + intros Hk s' Hs'. cbn [denotes] in Hs'. apply rtc_inv in Hs' as [<-|(s1 & [_ Hlt] & _)]; [done|].
      unfold shorter in Hlt. apply Nat.ltb_lt in Hlt. lia.
  - assert (forall s1, shorter s1 s = true -> (String.length (rest s1) <= n)%nat) as Hs.
    { intros s1 Hlt%Nat.ltb_lt. lia. }
    assert (tries (fun k => run a s (fun s1 => if shorter s1 s then star_loop greedy (run a) k n s1 else None))
      (fun s' => exists s1, (denotes a s s1 /\ shorter s1 s = true) /\ denotes (Star greedy a) s1 s')) as Hmore.
    { intros k'. destruct (Ha s (fun s1 => if shorter s1 s then star_loop greedy (run a) k' n s1 else None)) as [Hf Ho].
      split.
      - intros x (s1 & Hd & Hx)%Hf. destruct (shorter s1 s) eqn:Hlt; [|done].
        apply (IH s1 (Hs s1 Hlt) k') in Hx as (s' & Hd' & Hx). exists s'. split; [|done]. by exists s1.
      - intros Hnone s' (s1 & [Hd Hlt] & Hd'). specialize (Ho Hnone s1 Hd). cbn beta in Ho. rewrite Hlt in Ho.
        by apply (proj2 (IH s1 (Hs s1 Hlt) k') Ho). }
    assert (forall s', denotes (Star greedy a) s s' <->
      s' = s \/ exists s1, (denotes a s s1 /\ shorter s1 s = true) /\ denotes (Star greedy a) s1 s') as Hden.
    { intros s'. cbn [denotes]. split; [intros [<-|(s1 & H1 & H2)]%rtc_inv; [by left|right; by exists s1]|].
      intros [->|(s1 & H1 & H2)]; [apply rtc_refl|by eapply rtc_l]. }
    destruct (Hmore k) as [Hf Ho]. cbn [star_loop].
    split.
    + intros x Hx.
      assert (k s = Some x \/ run a s (fun s1 => if shorter s1 s then star_loop greedy (run a) k n s1 else None) = Some x)
        as [Hk|Hr].
      { destruct greedy.
        - destruct (run a s _); [by right|by left].
        - destruct (k s); [by left|by right]. }
      * exists s. split; [apply Hden; by left|done].
      * apply Hf in Hr as (s' & Hd & Hk). exists s'. split; [apply Hden; by right|done].
    + intros Hx s' [->|Hd]%Hden.
      * destruct greedy; [by destruct (run a s _)|by destruct (k s)].
      * apply (Ho ltac:(destruct greedy; [by destruct (run a s _)|by destruct (k s)]) s' Hd).
Qed.

Lemma run_spec r : forall s, tries (run r s) (denotes r s).
Proof.
  induction r as [|c|a IHa b IHb|a IHa b IHb|g a IHa|n a IHa|a IHa|a]; intros s.
  - intros k. cbn. split; [intros x Hx; by exists s|by intros Hk s' ->].
  - intros k. cbn [run denotes]. destruct (rest s) as [|d t].
    + split; [done|]. by intros _ s' (? & ? & ? & _).
    + destruct (in_set c d) eqn:Hc.
      * split; [intros x Hx; eexists; split; [|exact Hx]; by exists d, t|].
        by intros Hk s' (? & ? & [= <- <-] & _ & ->).
      * split; [done|]. intros _ s' (? & ? & [= <- <-] & Hc' & _). congruence.
  - intros k. cbn [run denotes]. destruct (IHa s (fun s1 => run b s1 k)) as [Hf Ho]. split.
    + intros x (s1 & Hd1 & (s' & Hd2 & Hk)%IHb)%Hf. exists s'. split; [by exists s1|done].
    + intros Hr s' (s1 & Hd1 & Hd2). by apply (proj2 (IHb s1 k) (Ho Hr s1 Hd1)).
  - intros k. cbn [run denotes]. destruct (IHa s k) as [Hfa Hoa], (IHb s k) as [Hfb Hob].
    destruct (run a s k) as [y|].
    + split; [|done]. intros x [= <-]. destruct (Hfa y eq_refl) as (s' & Hd & Hk). exists s'. by split; [left|].
    + split; [intros x (s' & Hd & Hk)%Hfb; exists s'; by split; [right|]|].
      intros Hr s' [Hd|Hd]; [by apply Hoa|by apply Hob].
  - intros k. cbn [run]. by apply star_loop_tries.
  - intros k. cbn [run denotes]. destruct (IHa s (fun s1 => k (set_group n (between s s1) s1))) as [Hf Ho]. split.
    + intros x (s1 & Hd & Hk)%Hf. eexists. split; [by exists s1|done].
    + intros Hr s' (s1 & Hd & ->). by apply (Ho Hr s1).
  - intros k. cbn [run denotes]. destruct (IHa s Some) as [Hf Ho]. destruct (run a s Some) as [y|].
    + split; [done|]. intros _ s' [_ Hno]. exfalso. apply Hno. destruct (Hf y eq_refl) as (s1 & Hd & _). by exists s1.
    + split.
      * intros x Hx. exists s. split; [|done]. split; [done|]. intros (s1 & Hd). by specialize (Ho eq_refl s1 Hd).
      * by intros Hk s' [-> _].
  - intros k. cbn [run denotes]. destruct (holds a s).
    + split; [intros x Hx; by exists s|by intros Hk s' [-> _]].
    + split; [done|]. by intros _ s' [_ ?].
Qed.

(** ** [re.match], [re.search], [re.finditer], [re.sub] *)

Record Match : Type := mkMatch { m_start : nat; m_end : nat; whole : string; captured : list (nat * string) }.
(** [m.group(n)] of a group that took part in the match *)
Fixpoint group_text (n : nat) (l : list (nat * string)) : string :=
  match l with
  | [] => ""
  | (i, w) :: l => if Nat.eqb i n then w else group_text n l
  end.
Definition m_group (n : nat) (m : Match) : string :=
  match n with O => whole m | _ => group_text n (captured m) end.

(** a match of [r] at a position of a text: [b] is the character before it, [s] the
    text from it on *)
Definition match_at (r : regex) (pos : nat) (b : option ascii) (s : string) : option Match :=
  let start := mkPlace b s [] in
  '(mkPlace _ _ _ as e) ← run r start Some;
  let w := between start e in
  Some (mkMatch pos (pos + String.length w) w (groups e)).
(** [re.match(r, s)] *)
Definition match_ (r : regex) (s : string) : option Match := match_at r O None s.

(** The scans below look for matches that are not empty, the only ones the patterns of
    the scripts have ([consumes_match]). *)
Definition match_some (r : regex) (pos : nat) (b : option ascii) (s : string) : option Match :=
  m ← match_at r pos b s; if String.eqb (whole m) "" then None else Some m.

(** [re.finditer(r, s)], from a position whose first [skip] characters belong to the
    last match *)
Fixpoint finditer_go (r : regex) (skip pos : nat) (b : option ascii) (s : string) : list Match :=
  match s with
  | EmptyString => []
  | String c s' =>
      match skip with
      | S k => finditer_go r k (S pos) (Some c) s'
      | O =>
          match match_some r pos b s with
          | Some m => m :: finditer_go r (String.length (whole m) - 1) (S pos) (Some c) s'
          | None => finditer_go r O (S pos) (Some c) s'
          end
      end
  end.
Definition finditer (r : regex) (s : string) : list Match := finditer_go r O O None s.
(** [re.search(r, s)] *)
Definition search (r : regex) (s : string) : option Match := head (finditer r s).

Section Sub.
(** [repl] is called with every match in turn and may change what it closes over *)
Context {A : Type} (r : regex) (repl : Match -> A -> string * A).
Fixpoint sub_go (skip pos : nat) (b : option ascii) (s : string) (a : A) : string * A :=
  match s with
  | EmptyString => ("", a)
  | String c s' =>
      match skip with
      | S k => sub_go k (S pos) (Some c) s' a
      | O =>
          match match_some r pos b s with
          | Some m =>
              let '(t, a1) := repl m a in
              let '(u, a2) := sub_go (String.length (whole m) - 1) (S pos) (Some c) s' a1 in
              (t +:+ u, a2)
          | None =>
              let '(u, a2) := sub_go O (S pos) (Some c) s' a in
              (String c u, a2)
          end
      end
  end.
(** [re.sub(r, repl, s)] *)
Definition sub_with (s : string) (a : A) : string * A := sub_go O O None s a.
End Sub.

(** a replacement text, with the groups its backslashes refer to *)
Fixpoint expand (template : string) (m : Match) : string :=
  match template with
  | String b (String d t as t') =>
      if Ascii.eqb b "\" then
        match digit d with Some n => m_group n m +:+ expand t m | None => String b (expand t' m) end
      else String b (expand t' m)
  | _ => template
  end.
(** [re.sub(r, template, s)], and with a function that only computes *)
Definition sub_fun (r : regex) (f : Match -> string) (s : string) : string :=
  (sub_with r (fun m _ => (f m, tt)) s tt).1.
Definition sub (r : regex) (template : string) (s : string) : string := sub_fun r (expand template) s.

Example sub_code : sub (compile no_flags "(?<!`)``(?!`)(.+?)(?<!`)``(?!`)") "`\1`" "a ``b c`` ```d``` ``e``" =
  "a `b c` ```d``` `e`".
Proof. vm_compute. reflexivity. Qed.
Example sub_end : sub (compile (mkFlags true false) "\s*x$") "!" ("a x" +:+ nl +:+ "b xx") =
  "a!" +:+ nl +:+ "b x!".
Proof. vm_compute. reflexivity. Qed.
Example finditer_words : (fun m => (m_start m, m_end m, m_group 1 m)) <$> finditer (compile no_flags "\b(\w{2,})\.?") "ab. c def" =
  [(0, 3, "ab"); (6, 9, "def")]%nat.
Proof. vm_compute. reflexivity. Qed.

(** ** Which texts a pattern can match *)

Lemma denotes_suffix r : forall s s', denotes r s s' -> exists w, rest s = w +:+ rest s'.
Proof.
  induction r as [|c|a IHa b IHb|a IHa b IHb|g a IHa|n a IHa|a IHa|a]; intros s s'; cbn [denotes].
  - intros ->. by exists "".
  - intros (d & t & -> & _ & ->). by exists (String d "").
  - intros (s1 & [u Hu]%IHa & [v Hv]%IHb). exists (u +:+ v). by rewrite Hu, Hv, string_app_assoc.
  - by intros [?%IHa|?%IHb].
  - induction 1 as [s|s s1 s' [[u Hu]%IHa _] _ [v Hv]]; [by exists ""|].
    exists (u +:+ v). by rewrite Hu, Hv, string_app_assoc.
  - by intros (s1 & Hd%IHa & ->).
  - intros [-> _]. by exists "".
  - intros [-> _]. by exists "".
Qed.

(** a match is never empty *)
Fixpoint consumes (r : regex) : bool :=
  match r with
  | Class _ => true
  | Seq a b => consumes a || consumes b
  | Alt a b => consumes a && consumes b
  | Group _ a => consumes a
  | Eps | Star _ _ | NotAhead _ | Assert _ => false
  end.
(** what the functions below rely on: the pattern parses, and matches no empty text *)
Definition pattern_ok (r : regex) : bool := negb (bool_decide (r = nothing)) && consumes r.
Lemma denotes_shorter r s s' : consumes r = true -> denotes r s s' ->
  (String.length (rest s') < String.length (rest s))%nat.
Proof.
  revert s s'. induction r as [|c|a IHa b IHb|a IHa b IHb|g a IHa|n a IHa|a IHa|a]; intros s s'; cbn [denotes consumes];
    try done.
  - intros _ (d & t & -> & _ & ->). cbn. lia.
  - intros Hc (s1 & Ha & Hb). pose proof (denotes_suffix a s s1 Ha) as [u Hu].
    pose proof (denotes_suffix b s1 s' Hb) as [v Hv].
    rewrite Hu, Hv, !string_app_length'. apply orb_true_iff in Hc as [Hc|Hc].
    + specialize (IHa s s1 Hc Ha). rewrite Hu, string_app_length' in IHa. rewrite Hv, string_app_length' in IHa. lia.
    + specialize (IHb s1 s' Hc Hb). rewrite Hv, string_app_length' in IHb. lia.
  - intros [Hca Hcb]%andb_true_iff [Hd|Hd]; [by apply IHa|by apply IHb].
  - intros Hc (s1 & Hd & ->). exact (IHa s s1 Hc Hd).
Qed.

Lemma match_at_denotes r pos b s m : match_at r pos b s = Some m ->
  exists e, denotes r (mkPlace b s []) e /\ s = whole m +:+ rest e /\
    m = mkMatch pos (pos + String.length (whole m)) (whole m) (groups e).
Proof.
  unfold match_at. destruct (run r (mkPlace b s []) Some) as [e|] eqn:Hr; [|done].
  apply run_spec in Hr as (e' & Hd & [= ->]). destruct e as [eb er eg]. cbn. intros [= <-]. cbn [whole].
  eexists. split; [exact Hd|]. split; [|done]. destruct (denotes_suffix _ _ _ Hd) as [w Hw]. cbn [rest] in *.
  unfold between. cbn [rest]. rewrite Hw, string_app_length', Nat.add_sub, take_app. done.
Qed.
Lemma match_at_None r pos b s : match_at r pos b s = None <-> forall e, ~ denotes r (mkPlace b s []) e.
Proof.
  unfold match_at. destruct (run_spec r (mkPlace b s []) Some) as [Hf Ho].
  destruct (run r (mkPlace b s []) Some) as [e|] eqn:Hr.
  - destruct (Hf e eq_refl) as (e' & Hd & _). split; [by destruct e|]. intros Hno. by destruct (Hno e').
  - split; [|done]. intros _ e Hd. by specialize (Ho eq_refl e Hd).
Qed.
(** looking for matches that are not empty loses none of a pattern that consumes *)
Lemma consumes_match r pos b s : consumes r = true -> match_some r pos b s = match_at r pos b s.
Proof.
  intros Hc. unfold match_some. destruct (match_at r pos b s) as [m|] eqn:Hm; [|done]. cbn.
  apply match_at_denotes in Hm as (e & Hd & Hs & _). apply (denotes_shorter _ _ _ Hc) in Hd. cbn [rest] in Hd.
  destruct (String.eqb_spec (whole m) "") as [Hw|]; [|done]. rewrite Hw in Hs.
  change ("" +:+ rest e) with (rest e) in Hs. rewrite Hs in Hd. by apply Nat.lt_irrefl in Hd.
Qed.

(** a pattern as a sequence of characters it must read and of parts that may read
    anything *)
Definition literal_of (k : charset) : option ascii :=
  match negated k, items k with false, [One c] => Some c | _, _ => None end.
Fixpoint literals (r : regex) : list (option ascii) :=
  match r with
  | Class k => [literal_of k]
  | Seq a b => literals a ++ literals b
  | Group _ a => literals a
  | Eps | NotAhead _ | Assert _ => []
  | Alt _ _ | Star _ _ => [None]
  end.
Fixpoint fits (l : list (option ascii)) (w : string) : Prop :=
  match l with
  | [] => w = ""
  | Some c :: l => exists w', w = String c w' /\ fits l w'
  | None :: l => exists u v, w = u +:+ v /\ fits l v
  end.
Lemma fits_app l1 l2 u v : fits l1 u -> fits l2 v -> fits (l1 ++ l2) (u +:+ v).
Proof.
  revert u. induction l1 as [|[c|] l1 IH]; intros u; cbn [fits app].
  - by intros ->.
  - intros (w & -> & Hw) Hv. exists (w +:+ v). split; [by rewrite string_app_cons|by apply IH].
  - intros (x & y & -> & Hy) Hv. exists x, (y +:+ v). split; [by rewrite string_app_assoc|by apply IH].
Qed.
Lemma denotes_literals r : forall s s', denotes r s s' -> exists w, rest s = w +:+ rest s' /\ fits (literals r) w.
Proof.
  assert (forall r s s', denotes r s s' -> exists w, rest s = w +:+ rest s' /\ fits [None] w) as Hany.
  { intros r' s s' [w Hw]%denotes_suffix. exists w. split; [done|]. exists w, "". by rewrite string_app_nil. }
  induction r as [|c|a IHa b IHb|a IHa b IHb|g a IHa|n a IHa|a IHa|a]; intros s s' Hd.
  - cbn in Hd. subst. by exists "".
  - cbn in Hd. destruct Hd as (d & t & Hr & Hc & ->). exists (String d ""). split; [done|]. cbn [literals fits].
    destruct (literal_of c) as [e|] eqn:He; [|by exists (String d ""), ""]. exists "". split; [|done].
    unfold literal_of in He. unfold in_set in Hc. destruct (negated c); [done|].
    destruct (items c) as [|[x|? ?| | |] [|]]; try done. injection He as ->. cbn in Hc.
    rewrite orb_false_r in Hc. apply Ascii.eqb_eq in Hc as <-. done.
  - cbn in Hd. destruct Hd as (s1 & (u & Hu & Hfu)%IHa & (v & Hv & Hfv)%IHb). exists (u +:+ v).
    split; [by rewrite Hu, Hv, string_app_assoc|by apply fits_app].
  - by apply (Hany _ _ _ Hd).
  - by apply (Hany _ _ _ Hd).
  - cbn in Hd. destruct Hd as (s1 & Hd%IHa & ->). exact Hd.
  - destruct Hd as [-> _]. by exists "".
  - destruct Hd as [-> _]. by exists "".
Qed.

(** [w] is read one character after the other somewhere in [l] *)
Fixpoint reads_prefix (w : string) (l : list (option ascii)) : bool :=
  match w, l with
  | EmptyString, _ => true
  | String c w, Some d :: l => Ascii.eqb c d && reads_prefix w l
  | _, _ => false
  end.
Fixpoint reads_word (w : string) (l : list (option ascii)) : bool :=
  reads_prefix w l || match l with [] => false | _ :: l => reads_word w l end.
(** every match of [r] holds the text [w] *)
Definition must_read (w : string) (r : regex) : bool := reads_word w (literals r).

Lemma reads_prefix_fits w l t s : reads_prefix w l = true -> fits l t -> String.prefix w (t +:+ s) = true.
Proof.
  revert l t. induction w as [|c w IH]; intros l t; [by destruct (t +:+ s)|].
  destruct l as [|[d|] l]; cbn [reads_prefix fits]; try done.
  intros [->%Ascii.eqb_eq Hw]%andb_true_iff (t' & -> & Hf). rewrite string_app_cons. cbn.
  destruct (ascii_dec d d); [by apply (IH l)|done].
Qed.
Lemma occurs_app_r w u v : occurs w v = true -> occurs w (u +:+ v) = true.
Proof. intros Hv. induction u as [|c u IH]; [done|]. rewrite string_app_cons. cbn [occurs]. by rewrite IH, orb_true_r. Qed.
Lemma occurs_prefix w s : String.prefix w s = true -> occurs w s = true.
Proof. intros Hp. destruct s; cbn [occurs]; by rewrite Hp. Qed.
Lemma reads_word_fits w l t s : reads_word w l = true -> fits l t -> occurs w (t +:+ s) = true.
Proof.
  revert t. induction l as [|o l IH]; intros t; cbn [reads_word].
  - rewrite orb_false_r. intros Hp Hf. apply occurs_prefix. by apply (reads_prefix_fits w []).
  - intros [Hp|Hw]%orb_true_iff Hf; [apply occurs_prefix; by apply (reads_prefix_fits w (o :: l))|].
    destruct o as [c|]; cbn [fits] in Hf.
    + destruct Hf as (w' & -> & Hf). rewrite string_app_cons. apply (occurs_app_r w (String c "")). by apply IH.
    + destruct Hf as (u & v & -> & Hf). rewrite string_app_assoc. apply occurs_app_r. by apply IH.
Qed.
Lemma match_at_reads w r pos b s : must_read w r = true -> occurs w s = false -> match_at r pos b s = None.
Proof.
  intros Hm Ho. apply match_at_None. intros e (t & Ht & Hf)%denotes_literals. cbn [rest] in Ht.
  apply (reads_word_fits w _ t (rest e) Hm) in Hf. congruence.
Qed.

Lemma occurs_cons w c s : occurs w (String c s) = false -> occurs w s = false.
Proof. cbn [occurs]. by intros [_ ?]%orb_false_iff. Qed.
(** a text that does not hold what every match holds is left as it is *)
Lemma sub_go_absent {A} r (repl : Match -> A -> string * A) w : must_read w r = true -> forall s pos b a,
  occurs w s = false -> sub_go r repl O pos b s a = (s, a).
Proof.
  intros Hm. induction s as [|c s IH]; intros pos b a Ho; [done|]. cbn [sub_go]. unfold match_some.
  rewrite (match_at_reads w) by done. change (None ≫= _) with (None (A := Match)). cbn.
  by rewrite (IH _ _ _ (occurs_cons _ _ _ Ho)).
Qed.
Lemma sub_absent r template w s : must_read w r = true -> occurs w s = false -> sub r template s = s.
Proof. intros. unfold sub, sub_fun, sub_with. by erewrite sub_go_absent. Qed.
Lemma search_absent r w s : must_read w r = true -> occurs w s = false -> search r s = None.
Proof.
  intros Hm. unfold search, finditer. assert (forall pos b, occurs w s = false -> head (finditer_go r 0 pos b s) = None); [|by auto].
  induction s as [|c s IH]; intros pos b Ho; [done|]. cbn [finditer_go]. unfold match_some.
  rewrite (match_at_reads w) by done. cbn. by apply IH, (occurs_cons _ c).
Qed.

(** ** Where matches are *)

(** the spans of [finditer] lie one after the other, in the text *)
Fixpoint spans_from (p : nat) (l : list (nat * nat)) (n : nat) : Prop :=
  match l with
  | [] => (p <= n)%nat
  | (a, e) :: l => (p <= a)%nat /\ (a <= e)%nat /\ spans_from e l n
  end.
Lemma spans_from_weaken p q l n : (q <= p)%nat -> spans_from p l n -> spans_from q l n.
Proof. destruct l as [|[a e] l]; cbn; [lia|]. intros ? (? & ? & ?). split_and!; [lia|done..]. Qed.
Lemma finditer_go_spans r : forall s skip pos b, (skip <= String.length s)%nat ->
  spans_from (pos + skip) ((fun m => (m_start m, m_end m)) <$> finditer_go r skip pos b s) (pos + String.length s).
Proof.
  induction s as [|c s IH]; intros skip pos b Hs; cbn [String.length] in *; [cbn; lia|].
  cbn [finditer_go]. destruct skip as [|k].
  - unfold match_some. destruct (match_at r pos b (String c s)) as [m|] eqn:Hm; cbn [mbind option_bind].
    + apply match_at_denotes in Hm as (e & _ & Hw & Hmm).
      assert (String.length (String c s) = (String.length (whole m) + String.length (rest e))%nat) as Hl.
      { by rewrite Hw, string_app_length'. }
      cbn [String.length] in Hl. destruct (String.eqb_spec (whole m) "") as [|Hne].
      * eapply spans_from_weaken; [|rewrite <- Nat.add_succ_comm; apply IH; lia]. lia.
      * assert (0 < String.length (whole m))%nat by (destruct (whole m); [done|cbn; lia]).
        rewrite fmap_cons. cbn [spans_from]. rewrite Hmm. cbn [m_start m_end whole]. split_and!; [lia..|].
        specialize (IH (String.length (whole m) - 1)%nat (S pos) (Some c) ltac:(lia)).
        rewrite <- Nat.add_succ_comm. eapply spans_from_weaken; [|exact IH]. lia.
    + eapply spans_from_weaken; [|rewrite <- Nat.add_succ_comm; apply IH; lia]. lia.
  - rewrite <- !Nat.add_succ_comm. apply IH. lia.
Qed.
Lemma finditer_spans r s :
  spans_from 0 ((fun m => (m_start m, m_end m)) <$> finditer r s) (String.length s).
Proof. apply (finditer_go_spans r s 0 0 None). lia. Qed.

(** ** Runs of character classes *)

(** the place behind [u], when [t] follows it *)
Definition over (u t : string) (s : place) : place :=
  mkPlace (match last_char u with Some c => Some c | None => before s end) t (groups s).
Lemma over_cons c u t s : over (String c u) t s = over u t (over (String c "") (u +:+ t) s).
Proof. unfold over. cbn [last_char before groups]. by destruct (last_char u). Qed.

Lemma star_class greedy k s u t : rest s = u +:+ t -> string_forall (in_set k) u = true ->
  denotes (Star greedy (Class k)) s (over u t s).
Proof.
  revert s. induction u as [|c u IH]; intros s Hs Hu.
  - destruct s as [b r g]. cbn in Hs. subst r. apply rtc_refl.
  - rewrite string_app_cons in Hs. cbn [string_forall] in Hu. apply andb_true_iff in Hu as [Hc Hu].
    rewrite over_cons. cbn [denotes]. eapply rtc_l; [|by apply (IH (over (String c "") (u +:+ t) s))].
    split; [by exists c, (u +:+ t)|]. unfold shorter. cbn [over rest]. rewrite Hs. apply Nat.ltb_lt. cbn. lia.
Qed.
(** a repetition of a class reads characters of the class *)
Lemma denotes_class greedy k s s' : denotes (Star greedy (Class k)) s s' ->
  exists u, rest s = u +:+ rest s' /\ string_forall (in_set k) u = true.
Proof.
  cbn [denotes]. induction 1 as [s|s s1 s' [(c & t & Hs & Hc & ->) _] _ (u & Hu & Hf)]; [by exists ""|].
  cbn [rest] in Hu. exists (String c u). rewrite Hs, string_app_cons, <- Hu. split; [done|]. cbn. by rewrite Hc.
Qed.

(** greedily: as far as the class goes, when the rest of the pattern matches there *)
Lemma run_greedy k s u t K x : rest s = u +:+ t -> string_forall (in_set k) u = true ->
  from_option (in_set k) false (first_char t) = false ->
  K (over u t s) = Some x -> run (Star true (Class k)) s K = Some x.
Proof.
  intros Hs Hu Ht HK. cbn [run].
  assert (String.length u <= String.length (rest s))%nat as Hn by (rewrite Hs, string_app_length'; lia).
  revert Hn. generalize (String.length (rest s)). intros n Hn. revert n s Hs HK Hn.
  induction u as [|c u IH]; intros n s Hs HK Hn.
  - change ("" +:+ t) with t in Hs. assert (over "" t s = s) as Heq by (destruct s; cbn in *; by subst). rewrite Heq in HK.
    destruct n as [|n]; cbn [star_loop]; [done|]. cbn [run]. rewrite Hs. destruct t as [|d t]; [done|].
    cbn in Ht. by rewrite Ht.
  - cbn [string_forall] in Hu. apply andb_true_iff in Hu as [Hc Hu]. rewrite string_app_cons in Hs.
    destruct n as [|n]; [cbn in Hn; lia|]. cbn [star_loop run]. rewrite Hs, Hc.
    assert (shorter (mkPlace (Some c) (u +:+ t) (groups s)) s = true) as ->.
    { unfold shorter. cbn [rest]. rewrite Hs. apply Nat.ltb_lt. cbn. lia. }
    rewrite over_cons in HK. cbn [String.length] in Hn.
    change (mkPlace (Some c) (u +:+ t) (groups s)) with (over (String c "") (u +:+ t) s).
    rewrite (IH Hu n (over (String c "") (u +:+ t) s) eq_refl HK); [done|lia].
Qed.
(** lazily: up to the first place where the rest of the pattern matches *)
Lemma run_lazy k s u t K x : rest s = u +:+ t -> string_forall (in_set k) u = true ->
  (forall u1 c u2, u = u1 +:+ String c u2 -> K (over u1 (String c u2 +:+ t) s) = None) ->
  K (over u t s) = Some x -> run (Star false (Class k)) s K = Some x.
Proof.
  intros Hs Hu Hno HK. cbn [run].
  assert (String.length u <= String.length (rest s))%nat as Hn by (rewrite Hs, string_app_length'; lia).
  revert Hn. generalize (String.length (rest s)). intros n Hn. revert n s Hs HK Hno Hn.
  induction u as [|c u IH]; intros n s Hs HK Hno Hn.
  - change ("" +:+ t) with t in Hs. assert (over "" t s = s) as Heq by (destruct s; cbn in *; by subst). rewrite Heq in HK.
    destruct n as [|n]; cbn [star_loop]; by rewrite HK.
  - cbn [string_forall] in Hu. apply andb_true_iff in Hu as [Hc Hu].
    assert (K s = None) as Hfirst.
    { specialize (Hno "" c u eq_refl). rewrite <- Hs in Hno. by destruct s. }
    rewrite string_app_cons in Hs. destruct n as [|n]; [cbn in Hn; lia|]. cbn [star_loop run]. rewrite Hfirst, Hs, Hc.
    assert (shorter (mkPlace (Some c) (u +:+ t) (groups s)) s = true) as ->.
    { unfold shorter. cbn [rest]. rewrite Hs. apply Nat.ltb_lt. cbn. lia. }
    rewrite over_cons in HK. cbn [String.length] in Hn.
    apply (IH Hu n (over (String c "") (u +:+ t) s) eq_refl HK); [|lia].
    intros u1 d u2 ->. specialize (Hno (String c u1) d u2 eq_refl). rewrite over_cons in Hno. by rewrite string_app_assoc.
Qed.
Lemma run_lit c s t K : rest s = String c t -> run (lit c) s K = K (over (String c "") t s).
Proof. intros Hs. cbn. rewrite Hs. unfold in_set. cbn. by rewrite Ascii.eqb_refl. Qed.

Lemma run_lit_other c d s t K : rest s = String d t -> d <> c -> run (lit c) s K = None.
Proof.
  intros Hs Hd. cbn. rewrite Hs. unfold in_set. cbn. rewrite orb_false_r.
  destruct (Ascii.eqb_spec c d) as [->|_]; done.
Qed.
Lemma run_class k c s t K : rest s = String c t -> in_set k c = true ->
  run (Class k) s K = K (over (String c "") t s).
Proof. intros Hs Hc. cbn. by rewrite Hs, Hc. Qed.
Lemma run_seq a b s K : run (Seq a b) s K = run a s (fun s1 => run b s1 K).
Proof. done. Qed.
Lemma run_group n a s K : run (Group n a) s K = run a s (fun s1 => K (set_group n (between s s1) s1)).
Proof. done. Qed.
Lemma between_app s s1 u : rest s = u +:+ rest s1 -> between s s1 = u.
Proof. intros Hs. unfold between. by rewrite Hs, string_app_length', Nat.add_sub, take_app. Qed.

(** the characters of a match are behind the scan *)
Lemma sub_go_skip {A} r (repl : Match -> A -> string * A) u t : forall pos b a, exists b',
  sub_go r repl (String.length u) pos b (u +:+ t) a = sub_go r repl O (pos + String.length u) b' t a.
Proof.
  induction u as [|c u IH]; intros pos b a; [exists b; cbn [String.length]; by rewrite Nat.add_0_r|].
  destruct (IH (S pos) (Some c) a) as [b' Hb]. exists b'. rewrite string_app_cons. cbn [String.length sub_go].
  by rewrite Hb, Nat.add_succ_comm.
Qed.
