(* ===== verification/Docstrings.v ===== *)
(** * Docstrings rewritten in place ([src/mddocs/scripts])

    What the three scripts of the documentation share: the files they read and write,
    the lines of a text, and the loop that puts the converted docstrings of a file back
    where they were found.  [splice_rewritten]: the loop, which keeps an offset between
    the positions in the old and in the new text, leaves everything between the
    docstrings as it was. *)

From S2P Require Import Prelude PyData Search PyText Regex.
From Stdlib Require Import Ascii.

(** ** Files *)

(** the parts of a [pathlib.Path] *)
Definition path : Type := list string.
(** a file that is UTF-8, with its text, or that is not *)
Inductive content : Type := Text (s : string) | Undecodable.
(** a line printed on the standard output, and the message about a file that cannot
    be read on the standard error *)
Inductive line : Type := Out (s : string) | ErrReading (p : path) | Err (s : string).
Record World : Type := mkWorld { files : gmap path content; dirs : gset path; printed : list line }.
(** how a script ends early *)
Inductive failure : Type := OSError | UnicodeDecodeError | SystemExit (code : Z).
Definition IO : Type -> Type := SE World failure.

Definition slash : ascii := "/"%char.
(** [s.split(c)] *)
Fixpoint split_on (c : ascii) (s : string) : list string :=
  match s with
  | EmptyString => [""]
  | String d s' =>
      if Ascii.eqb d c then "" :: split_on c s'
      else match split_on c s' with
           | w :: l => String d w :: l
           | [] => [String d ""]
           end
  end.
Definition join (sep : string) (l : list string) : string := String.concat sep l.
(** [Path(s)], and [str(p)] *)
Definition Path (s : string) : path :=
  let parts := filter (fun w => w <> "" /\ w <> ".") (split_on slash s) in
  if String.prefix "/" s then "/" :: parts else parts.
Definition path_str (p : path) : string :=
  match p with
  | [] => "."
  | root :: p' => if String.eqb root "/" then "/" +:+ join "/" p' else join "/" p
  end.
Definition ends_with (suffix s : string) : bool :=
  String.eqb (str_drop (String.length s - String.length suffix) s) suffix.

(** reading in text mode turns every end of line into a newline *)
Fixpoint universal_newlines (s : string) : string :=
  match s with
  | EmptyString => ""
  | String c s' =>
      if Ascii.eqb c (ascii_of_nat 13) then
        match s' with
        | String d s2 => if Ascii.eqb d newline then String newline (universal_newlines s2)
                         else String newline (universal_newlines s')
        | EmptyString => nl
        end
      else String c (universal_newlines s')
  end.
(** [path.read_text(encoding="utf-8")] and [path.write_text(s, encoding="utf-8")] *)
Definition read_text (p : path) : IO string := reads (fun w =>
  match files w !! p with
  | Some (Text s) => Ok (universal_newlines s)
  | Some Undecodable => Raise UnicodeDecodeError
  | None => Raise OSError
  end).
Definition write_text (p : path) (s : string) : IO unit := fun w =>
  (Ok tt, mkWorld (<[p := Text s]> (files w)) (dirs w) (printed w)).
Definition print (l : line) : IO unit := fun w =>
  (Ok tt, mkWorld (files w) (dirs w) (printed w ++ [l])).

(** the files and directories below [dir] whose names end in [suffix]: [dir.rglob("*" + suffix)] *)
Fixpoint below (dir p : path) : option path :=
  match dir, p with
  | [], _ => Some p
  | d :: dir, q :: p => if String.eqb d q then below dir p else None
  | _ :: _, [] => None
  end.
Definition globbed (dir : path) (suffix : string) (p : path) : bool :=
  match below dir p with
  | Some rel => match last rel with Some name => ends_with suffix name | None => false end
  | None => false
  end.
(** the order of [sorted] on paths: by their parts *)
Fixpoint path_le (p q : path) : bool :=
  match p, q with
  | [], _ => true
  | _ :: _, [] => false
  | a :: p, b :: q => if String.eqb a b then path_le p q else String.leb a b
  end.
Definition path_before (p q : path) : Prop := path_le p q = true.
#[export] Instance path_before_dec : RelDecision path_before.
Proof. intros p q. unfold path_before. apply _. Defined.
Definition sorted_rglob (dir : path) (suffix : string) : IO (list path) := gets (fun w =>
  merge_sort path_before (filter (fun p => globbed dir suffix p = true) ((map_to_list (files w)).*1 ++ elements (dirs w)))).

(** ** Texts *)

Definition dquotes : string := dquoted "@@@".
Definition squotes : string := "'''".
(** [s.lstrip()], [s.rstrip()] *)
Definition str_lstrip (s : string) : string := lstrip is_space s.
Definition str_rstrip (s : string) : string := rstrip is_space s.
Definition is_blank (s : string) : bool := String.eqb (str_strip s) "".
Definition last_is (c : ascii) (s : string) : bool :=
  match last_char s with Some d => Ascii.eqb d c | None => false end.
(** [s[:i]] and [s[i:]], where a negative index counts from the end *)
Definition py_index (i : Z) (s : string) : nat :=
  Z.to_nat (if i <? 0 then Z.of_nat (String.length s) + i else i).
Definition py_to (i : Z) (s : string) : string := str_take (py_index i s) s.
Definition py_from (i : Z) (s : string) : string := str_drop (py_index i s) s.
Fixpoint spaces (n : nat) : string := match n with O => "" | S n => String " " (spaces n) end.

(** [try: m except e: ...; return None] for the exceptions of [caught] *)
Definition attempt {A} (caught : failure -> bool) (m : IO A) (handler : IO unit) : IO (option A) :=
  catch (a ← m; mret (Some a))
    (fun e => if caught e then Some (_ ← handler; mret None) else None).

(** the descriptions of a dry run, each one once *)
Fixpoint print_changes (seen : list string) (changes : list string) : IO unit :=
  match changes with
  | [] => mret tt
  | c :: changes =>
      if bool_decide (c ∈ seen) then print_changes seen changes
      else _ ← print (Out ("    · " +:+ c)); print_changes (c :: seen) changes
  end.
(** the end of [process_file]: what is printed or written when there are changes *)
Definition report (p : path) (dry_run : bool) (new_source : string) (file_changes : list string) : IO bool :=
  match file_changes with
  | [] => mret false
  | _ =>
      _ ← (if dry_run then _ ← print (Out (nl +:+ "  " +:+ path_str p)); print_changes [] file_changes
           else write_text p new_source);
      mret true
  end.
(** the loop of [main], which counts the files that changed *)
Fixpoint process_files (process_file : path -> IO bool) (dry_run : bool) (fs : list path) : IO Z :=
  match fs with
  | [] => mret 0
  | f :: fs =>
      done_ ← process_file f;
      _ ← (if (done_ : bool) && negb dry_run then print (Out ("  ✓ " +:+ path_str f)) else mret tt);
      changed ← process_files process_file dry_run fs;
      mret ((if done_ : bool then 1 else 0) + changed)
  end.
(** the arguments of the command line *)
Record Args : Type := mkArgs { dry_run : bool; path_arg : string; file_arg : option string }.
Definition mode (dry : bool) : string := if dry then "dry-run" else "write".
Definition label (dry : bool) : string := if dry then "would be changed" else "changed".
Definition count (l : list path) : string := str_of_Z (Z.of_nat (length l)).
(** the body of [main] that the scripts share *)
Definition process_all (process_file : path -> IO bool) (args : Args) : IO unit :=
  fs ← match file_arg args return IO (list path) with
       | None | Some "" => sorted_rglob (Path (path_arg args)) ".py"
       | Some f => mret [Path f]
       end;
  _ ← print (Out ("Processing " +:+ count fs +:+ " file(s) [" +:+ mode (dry_run args) +:+ "]..."));
  changed ← process_files process_file (dry_run args) fs;
  print (Out (nl +:+ "Done: " +:+ str_of_Z changed +:+ "/" +:+ count fs +:+ " files " +:+ label (dry_run args) +:+ ".")).

(** ** The loop over the docstrings of a file *)

Section Splice.
(** the new text of a docstring, quotes included, and the descriptions of the changes *)
Context (rewrite : string -> string * list string).

Fixpoint splice (source : string) (docstrings : list (nat * nat)) (offset : Z) (new_source : string)
    (file_changes : list string) : string * list string :=
  match docstrings with
  | [] => (new_source, file_changes)
  | (start, end_) :: docstrings =>
      let raw := str_slice start end_ source in
      let '(new_raw, changes) := rewrite raw in
      match changes with
      | [] => splice source docstrings offset new_source file_changes
      | _ =>
          let adj_start := Z.of_nat start + offset in
          let adj_end := Z.of_nat end_ + offset in
          let new_source := py_to adj_start new_source +:+ new_raw +:+ py_from adj_end new_source in
          let offset := offset + (Z.of_nat (String.length new_raw) - Z.of_nat (String.length raw)) in
          splice source docstrings offset new_source (file_changes ++ changes)
      end
  end.

(** the text that is meant: from the position [p] on, what is outside the docstrings,
    and each docstring as it is rewritten *)
Definition new_docstring (raw : string) : string :=
  let '(new_raw, changes) := rewrite raw in match changes with [] => raw | _ => new_raw end.
Fixpoint rewritten (source : string) (p : nat) (docstrings : list (nat * nat)) : string :=
  match docstrings with
  | [] => str_drop p source
  | (start, end_) :: docstrings =>
      str_slice p start source +:+ new_docstring (str_slice start end_ source) +:+ rewritten source end_ docstrings
  end.
Definition all_changes (source : string) (docstrings : list (nat * nat)) : list string :=
  concat ((fun d => (rewrite (str_slice d.1 d.2 source)).2) <$> docstrings).
End Splice.

Lemma drop_length n s : String.length (str_drop n s) = (String.length s - n)%nat.
Proof. revert s. induction n as [|n IH]; intros [|c s]; [done..|]. cbn. by rewrite IH. Qed.
Lemma take_length n s : (n <= String.length s)%nat -> String.length (str_take n s) = n.
Proof. revert s. induction n as [|n IH]; intros [|c s]; cbn; intros Hn; try lia. by rewrite IH by lia. Qed.
Lemma drop_drop m n s : str_drop m (str_drop n s) = str_drop (n + m) s.
Proof.
  revert s. induction n as [|n IH]; intros s; [by destruct s|]. destruct s as [|c s]; [by destruct m|].
  cbn [str_drop Nat.add]. apply IH.
Qed.
Lemma slice_length a b s : (a <= b)%nat -> (b <= String.length s)%nat -> String.length (str_slice a b s) = (b - a)%nat.
Proof. intros Ha Hb. unfold str_slice. apply take_length. rewrite drop_length. lia. Qed.
Lemma slice_drop p b s : (p <= b)%nat -> str_slice p b s +:+ str_drop b s = str_drop p s.
Proof.
  intros Hb. unfold str_slice. replace (str_drop b s) with (str_drop (b - p) (str_drop p s)).
  - apply take_drop.
  - rewrite drop_drop. f_equal. lia.
Qed.
(** cutting a text behind its first part *)
Lemma take_app_plus u k v : str_take (String.length u + k) (u +:+ v) = u +:+ str_take k v.
Proof.
  induction u as [|c u IH]; [done|]. rewrite !string_app_cons. cbn [String.length Nat.add str_take]. by rewrite IH.
Qed.
Lemma py_to_app i k u v : i = Z.of_nat (String.length u + k) -> py_to i (u +:+ v) = u +:+ str_take k v.
Proof.
  intros ->. unfold py_to, py_index. destruct (Z.ltb_spec (Z.of_nat (String.length u + k)) 0); [lia|].
  rewrite Nat2Z.id. apply take_app_plus.
Qed.
Lemma py_from_app i k u v : i = Z.of_nat (String.length u + k) -> py_from i (u +:+ v) = str_drop k v.
Proof.
  intros ->. unfold py_from, py_index. destruct (Z.ltb_spec (Z.of_nat (String.length u + k)) 0); [lia|].
  rewrite Nat2Z.id. rewrite <- drop_drop. by rewrite drop_app.
Qed.

Lemma splice_from rewrite source docstrings : forall p out offset changes,
  spans_from p docstrings (String.length source) ->
  Z.of_nat (String.length out) = Z.of_nat p + offset ->
  splice rewrite source docstrings offset (out +:+ str_drop p source) changes =
  (out +:+ rewritten rewrite source p docstrings, changes ++ all_changes rewrite source docstrings).
Proof.
  induction docstrings as [|[a b] l IH]; intros p out offset changes Hspans Hout.
  - cbn. by rewrite app_nil_r.
  - destruct Hspans as (Hpa & Hab & Hl).
    assert (b <= String.length source)%nat as Hb by (clear -Hl; revert b Hl; induction l as [|[x y] l IH]; intros b;
      cbn [spans_from]; [done|]; intros (? & ? & ?%IH); lia).
    cbn [splice rewritten]. unfold new_docstring, all_changes. rewrite fmap_cons. cbn [concat fst snd].
    fold (all_changes rewrite source l). destruct (rewrite (str_slice a b source)) as [new ch] eqn:Hr. cbn [snd].
    pose proof (slice_length p a source Hpa ltac:(lia)) as Hlpa.
    pose proof (slice_length a b source Hab Hb) as Hlab.
    rewrite <- (slice_drop p a source Hpa), <- string_app_assoc.
    destruct ch as [|c ch].
    + rewrite <- (slice_drop a b source Hab) at 1. rewrite <- string_app_assoc, IH; [|done|].
      * by rewrite !string_app_assoc.
      * rewrite !string_app_length', Hlpa, Hlab. lia.
    + rewrite (py_to_app _ 0), (py_from_app _ (b - a)); [|rewrite string_app_length'; lia..].
      rewrite drop_drop. replace (a + (b - a))%nat with b by lia. cbn [str_take].
      rewrite string_app_nil.
      rewrite <- string_app_assoc, IH; [|done|].
      * by rewrite !string_app_assoc, <- app_assoc.
      * rewrite !string_app_length', Hlpa, Hlab. lia.
Qed.
Lemma splice_rewritten rewrite source docstrings : spans_from 0 docstrings (String.length source) ->
  splice rewrite source docstrings 0 source [] =
  (rewritten rewrite source 0 docstrings, all_changes rewrite source docstrings).
Proof. intros Hs. by apply (splice_from rewrite source docstrings 0 "" 0 []). Qed.

(** the spans that are kept of those found *)
Lemma spans_from_filter {A} (f : A -> nat * nat) (P : A -> Prop) `{forall x, Decision (P x)} l : forall p n,
  spans_from p (f <$> l) n -> spans_from p (f <$> filter P l) n.
Proof.
  induction l as [|x l IH]; intros p n; [done|]. rewrite fmap_cons, filter_cons. cbn [spans_from].
  destruct (f x) as [a b] eqn:Hf. intros (Ha & Hb & Hl). destruct (decide (P x)).
  - rewrite fmap_cons, Hf. cbn [spans_from]. split_and!; [done..|by apply IH].
  - eapply spans_from_weaken; [|by apply IH]. lia.
Qed.

(** ** What is written *)

(** the file [p] after its text was turned into the first part of [result], if the
    second lists a change *)
Definition written (w : World) (p : path) (dry_run : bool) (result : string -> string * list string)
  : gmap path content :=
  match files w !! p with
  | Some (Text s) =>
      let '(new_source, changes) := result (universal_newlines s) in
      if dry_run || bool_decide (changes = []) then files w else <[p := Text new_source]> (files w)
  | _ => files w
  end.
Lemma print_changes_files seen changes w : exists l, print_changes seen changes w = (Ok tt, mkWorld (files w) (dirs w) l).
Proof.
  revert seen w. induction changes as [|c changes IH]; intros seen w; [by exists (printed w); destruct w|].
  cbn [print_changes]. case_bool_decide; [apply IH|].
  destruct (IH (c :: seen) (mkWorld (files w) (dirs w) (printed w ++ [Out ("    · " +:+ c)]))) as [l Hl].
  exists l. exact Hl.
Qed.
Lemma report_files p dry_run new_source changes w :
  files (final (report p dry_run new_source changes) w) =
  if dry_run || bool_decide (changes = []) then files w else <[p := Text new_source]> (files w).
Proof.
  unfold report. destruct changes as [|c changes]; [by destruct dry_run|]. rewrite orb_false_r.
  destruct dry_run; [|done]. unfold final, mbind, SE_bind, print.
  edestruct (print_changes_files [] (c :: changes)) as [l Hl]. by rewrite Hl.
Qed.
