(* ===== verification/LinksToAnchors.v ===== *)
(** * Links of docstrings as anchors ([src/mddocs/scripts/links2anchors.py])

    The index from the pages of the documentation to their anchors, and the rewriting
    of links inside docstrings. *)

From S2P Require Import Prelude PyData Search PyText Regex Docstrings.
From Stdlib Require Import Ascii.

(** ** The anchors of the pages *)

Definition _ANCHOR_RE : regex := compile no_flags "\{ #([^}]+) \}".

(** [path.exists()] *)
Definition exists_ (w : World) (p : path) : bool := bool_decide (is_Some (files w !! p)) || bool_decide (p ∈ dirs w).
Definition _resolve_md_file (docs_dir : path) (url_path : string) : IO (option path) :=
  let rel := rstrip (is_char slash) (lstrip (is_char slash) url_path) in
  if String.eqb rel "" then mret None
  else gets (fun w =>
    let candidate_flat := docs_dir ++ Path (rel +:+ ".md") in
    if exists_ w candidate_flat then Some candidate_flat
    else
      let candidate_index := docs_dir ++ Path rel ++ ["index.md"] in
      if exists_ w candidate_index then Some candidate_index else None).

Definition _first_anchor (md_file : path) : IO (option string) :=
  text ← attempt (fun _ => true) (read_text md_file) (mret tt);
  mret (text ← text; m ← search _ANCHOR_RE text; Some (m_group 1 m)).

(** the URL a file serves, from its path below [docs_dir] *)
Definition page_url (parts : list string) : string :=
  let dir := removelast parts in
  let name := default "" (last parts) in
  if String.eqb name "index.md" then "/" +:+ join "/" dir +:+ "/"
  else "/" +:+ join "/" (dir ++ [py_to (-3) name]) +:+ "/".

(** [md_files]: what [docs_dir.rglob("*.md")] yields, in its order *)
Fixpoint build_anchor_index (docs_dir : path) (md_files : list path) (index : gmap string string)
  : IO (gmap string string) :=
  match md_files with
  | [] => mret index
  | md_file :: md_files =>
      anchor ← _first_anchor md_file;
      match anchor with
      | None | Some "" => build_anchor_index docs_dir md_files index
      | Some anchor =>
          let rel := default md_file (below docs_dir md_file) in
          build_anchor_index docs_dir md_files (<[page_url rel := anchor]> index)
      end
  end.

(** ** Links *)

Definition _LINK_RE : regex := compile no_flags "\[([^\]]+)\]\((/[^)]*?/)\)".

Section Links.
Context (anchor_index : gmap string string).

(** [replace] of [_fix_links], with the list it appends to *)
Definition replace (m : Match) (changes : list string) : string * list string :=
  let label := m_group 1 m in
  let path := m_group 2 m in
  match anchor_index !! path with
  | None | Some "" => (m_group 0 m, changes)
  | Some anchor =>
      ("[" +:+ label +:+ "][" +:+ anchor +:+ "]",
       changes ++ ["link: [" +:+ label +:+ "](" +:+ path +:+ ") → [" +:+ label +:+ "][" +:+ anchor +:+ "]"])
  end.
Definition _fix_links (text : string) : string * list string := sub_with _LINK_RE replace text [].
End Links.

(** ** Docstrings *)

Definition _TRIPLE_QUOTED : regex :=
  compile (mkFlags false true)
    (dquoted "(@@@(?:[^@\\]|\\.|@{1,2}(?!@))*@@@|'''(?:[^'\\]|\\.|'{1,2}(?!'))*''')").

(** [preceding.endswith(":") or not preceding or preceding[-1] in ("\n", "#")] *)
Definition opens_docstring (preceding : string) : bool :=
  last_is ":" preceding || String.eqb preceding "" || last_is newline preceding || last_is "#" preceding.
Definition is_docstring (source : string) (m : Match) : bool :=
  let preceding := str_rstrip (str_take (m_start m) source) in
  opens_docstring preceding.
Definition span_of (m : Match) : nat * nat := (m_start m, m_end m).
Definition find_docstrings (source : string) : list (nat * nat) :=
  span_of <$> filter (fun m => is_docstring source m = true) (finditer _TRIPLE_QUOTED source).

(** [raw[3:-3]] *)
Definition quoted_body (raw : string) : string := str_slice 3 (String.length raw - 3) raw.
Definition quote_of (raw : string) : string := if String.prefix dquotes raw then dquotes else squotes.
Definition rewrite_links (anchor_index : gmap string string) (raw : string) : string * list string :=
  let quote := quote_of raw in
  let '(converted, changes) := _fix_links anchor_index (quoted_body raw) in
  (quote +:+ converted +:+ quote, changes).

Definition process_file (anchor_index : gmap string string) (dry_run : bool) (p : path) : IO bool :=
  source ← attempt (fun _ => true) (read_text p) (print (ErrReading p));
  match source with
  | None => mret false
  | Some source =>
      match find_docstrings source with
      | [] => mret false
      | docstrings =>
          let '(new_source, file_changes) := splice (rewrite_links anchor_index) source docstrings 0 source [] in
          report p dry_run new_source file_changes
      end
  end.

(** what [add_argument] declares *)
Definition default_args : Args := mkArgs false "onetl/" None.
Definition default_docs_dir : string := "mddocs/docs/".
(** [md_files]: the order in which the pages are listed *)
Definition main (md_files : list path) (docs_dir_arg : string) (args : Args) : IO unit :=
  let docs_dir := Path docs_dir_arg in
  is_dir ← gets (fun w => bool_decide (docs_dir ∈ dirs w));
  if is_dir : bool then
    index ← build_anchor_index docs_dir md_files ∅;
    _ ← print (Out ("Building anchor index from " +:+ path_str docs_dir +:+ "... " +:+
                     str_of_Z (Z.of_nat (size index)) +:+ " pages indexed."));
    process_all (process_file index (dry_run args)) args
  else
    _ ← print (Err ("ERROR: docs-dir not found: " +:+ path_str docs_dir));
    raise (SystemExit 1).

Example patterns_ok : Forall (fun r => pattern_ok r = true) [_ANCHOR_RE; _LINK_RE; _TRIPLE_QUOTED].
Proof. repeat constructor. Qed.

(** ** Example *)

Definition example_index : gmap string string := {["/file/filters/" := "file-filters"]}.
Definition example_source : string :=
  dquoted "class A:" +:+ nl +:+ dquoted "    @@@See [filters](/file/filters/) or [b](/c/).@@@" +:+ nl +:+
  dquoted "    x = @@@[filters](/file/filters/)@@@" +:+ nl.
Example fix_links_example : _fix_links example_index "a [filters](/file/filters/) [b](/c/)" =
  ("a [filters][file-filters] [b](/c/)",
   ["link: [filters](/file/filters/) → [filters][file-filters]"]).
Proof. vm_compute. reflexivity. Qed.
Example find_docstrings_example : find_docstrings example_source = [(13, 61)]%nat.
Proof. vm_compute. reflexivity. Qed.

(** ** What the rewriting does to a text *)

(** a text as plain text, brackets that are not followed by a parenthesis, and links to
    a page *)
Inductive segment : Type :=
| Plain (s : string)
| Brackets (s : string)
| Link (label mid : string).               (* [label](/mid/) *)
Definition page_path (mid : string) : string := "/" +:+ mid +:+ "/".
Definition render_segment (x : segment) : string :=
  match x with
  | Plain s => s
  | Brackets s => "[" +:+ s +:+ "]"
  | Link label mid => "[" +:+ label +:+ "](" +:+ page_path mid +:+ ")"
  end.
Fixpoint render (l : list segment) : string :=
  match l with [] => "" | x :: l => render_segment x +:+ render l end.
Definition no_char (c : ascii) (s : string) : bool := string_forall (fun d => negb (Ascii.eqb c d)) s.
Definition segment_ok (x : segment) (after : string) : bool :=
  match x with
  | Plain s => no_char "[" s
  | Brackets s => no_char "[" s && no_char "]" s && negb (String.prefix "(" after)
  | Link label mid => negb (String.eqb label "") && no_char "]" label && no_char ")" mid
  end.
Fixpoint segments_ok (l : list segment) : bool :=
  match l with [] => true | x :: l => segment_ok x (render l) && segments_ok l end.

(** a link to a page with an anchor becomes a reference to the anchor *)
Definition fix_segment (index : gmap string string) (x : segment) : list segment :=
  match x with
  | Link label mid =>
      match index !! page_path mid with
      | None | Some "" => [x]
      | Some anchor => [Brackets label; Brackets anchor]
      end
  | _ => [x]
  end.
Definition change_of (index : gmap string string) (x : segment) : list string :=
  match x with
  | Link label mid =>
      match index !! page_path mid with
      | None | Some "" => []
      | Some anchor =>
          ["link: [" +:+ label +:+ "](" +:+ page_path mid +:+ ") → [" +:+ label +:+ "][" +:+ anchor +:+ "]"]
      end
  | _ => []
  end.

Lemma link_re : _LINK_RE =
  Seq (Seq (Seq (Seq (Seq (lit "[")
    (Group 1 (Seq (Class (mkSet true [One "]"])) (Star true (Class (mkSet true [One "]"]))))))
    (lit "]")) (lit "("))
    (Group 2 (Seq (Seq (lit "/") (Star false (Class (mkSet true [One ")"])))) (lit "/"))))
    (lit ")").
Proof. vm_compute. reflexivity. Qed.

Lemma no_char_set c s : no_char c s = string_forall (in_set (mkSet true [One c])) s.
Proof.
  induction s as [|d s IH]; [done|]. unfold no_char in *. cbn [string_forall]. rewrite IH. f_equal.
  unfold in_set. cbn. by rewrite orb_false_r.
Qed.
Lemma denotes_lit c s s' : denotes (lit c) s s' -> rest s = String c (rest s').
Proof.
  cbn. intros (d & t & -> & Hc & ->). unfold in_set in Hc. cbn in Hc. rewrite orb_false_r in Hc.
  by apply Ascii.eqb_eq in Hc as ->.
Qed.
(** what a link starts with: a bracket, the label, the bracket that closes it and a
    parenthesis *)
Lemma link_starts s e : denotes _LINK_RE s e ->
  exists label t, rest s = "[" +:+ label +:+ "](" +:+ t /\ no_char "]" label = true.
Proof.
  rewrite link_re. cbn [denotes].
  intros (s6 & (s5 & (s4 & (s3 & (s2 & H1 & (s2' & (s1 & Hc & Hstar) & ->)) & H3) & H4) & _) & _).
  apply denotes_lit in H1, H3, H4. cbn [set_group rest] in H3.
  destruct Hc as (c & t & Hr & Hc & ->). apply (denotes_class true) in Hstar as (u & Hu & Hall). cbn [rest] in Hu.
  exists (String c u), (rest s5). rewrite H1, Hr, Hu, H3, H4. rewrite string_app_cons. split; [done|].
  rewrite no_char_set. cbn [string_forall]. by rewrite Hc, Hall.
Qed.
Lemma match_some_none r pos b s : (forall e, ~ denotes r (mkPlace b s []) e) -> match_some r pos b s = None.
Proof. intros Hno. unfold match_some. by rewrite (proj2 (match_at_None r pos b s) Hno). Qed.
Lemma no_link_plain c s pos b : c <> "["%char -> match_some _LINK_RE pos b (String c s) = None.
Proof.
  intros Hc. apply match_some_none. intros e (l & t & Hr & _)%link_starts. cbn [rest] in Hr.
  rewrite string_app_cons in Hr. by injection Hr as ->.
Qed.
(** two texts that agree up to their first bracket *)
Lemma same_label u v x y : no_char "]" u = true -> no_char "]" v = true ->
  u +:+ String "]" x = v +:+ String "]" y -> u = v /\ x = y.
Proof.
  revert v. induction u as [|c u IH]; intros [|d v] Hu Hv; rewrite ?string_app_cons.
  - by intros [= ->].
  - intros [= <- _]. cbn in Hv. done.
  - intros [= -> _]. cbn in Hu. done.
  - cbn in Hu, Hv. apply andb_true_iff in Hu as [_ Hu], Hv as [_ Hv]. intros [= -> Heq].
    by destruct (IH v Hu Hv Heq) as [-> ->].
Qed.
Lemma no_link_brackets s t pos b : no_char "]" s = true -> String.prefix "(" t = false ->
  match_some _LINK_RE pos b ("[" +:+ s +:+ "]" +:+ t) = None.
Proof.
  intros Hs Ht. apply match_some_none. intros e (l & t' & Hr & Hl)%link_starts. cbn [rest] in Hr.
  injection Hr as Hr. apply (same_label s l t ("(" +:+ t') Hs Hl) in Hr as [_ ->]. by rewrite prefix_app in Ht.
Qed.

(** a link is matched as a whole *)
Lemma run_link c label mid t s : rest s = render_segment (Link (String c label) mid) +:+ t ->
  no_char "]" (String c label) = true -> no_char ")" mid = true ->
  exists e, run _LINK_RE s Some = Some e /\ rest e = t /\
    groups e = (2%nat, page_path mid) :: (1%nat, String c label) :: groups s.
Proof.
  intros Hs Hl Hm. cbn [render_segment] in Hs. unfold page_path in Hs. rewrite !string_app_assoc in Hs.
  rewrite no_char_set in Hl, Hm. cbn [string_forall] in Hl. apply andb_true_iff in Hl as [Hc Hl].
  eexists. split; [|split]; [rewrite link_re, !run_seq, (run_lit _ _ _ _ Hs), run_group, run_seq|..].
  - erewrite run_class; [|reflexivity|exact Hc].
    eapply (run_greedy _ _ label ("](" +:+ "/" +:+ mid +:+ "/" +:+ ")" +:+ t)); [reflexivity|exact Hl|reflexivity|].
    rewrite (between_app _ _ (String c label)) by reflexivity.
    erewrite run_lit by reflexivity. erewrite run_lit by reflexivity. rewrite run_group, !run_seq.
    erewrite run_lit by reflexivity.
    eapply (run_lazy _ _ mid ("/" +:+ ")" +:+ t)); [reflexivity|exact Hm|..].
    + intros u1 d u2 ->. destruct (decide (d = slash)) as [->|Hd].
      2: { eapply run_lit_other; [reflexivity|exact Hd]. }
      erewrite run_lit by reflexivity. rewrite string_forall_app in Hm. apply andb_true_iff in Hm as [_ Hm].
      destruct u2 as [|d u2]; [by eapply run_lit_other|]. eapply run_lit_other; [reflexivity|].
      intros ->. by apply andb_true_iff in Hm as [_ Hm].
    + erewrite run_lit by reflexivity.
      rewrite (between_app _ _ ("/" +:+ mid +:+ "/")) by (cbn [over rest]; rewrite !string_app_assoc; reflexivity).
      erewrite run_lit by reflexivity. reflexivity.
  - reflexivity.
  - reflexivity.
Qed.
Lemma link_matched label mid t pos b : segment_ok (Link label mid) t = true ->
  match_some _LINK_RE pos b (render_segment (Link label mid) +:+ t) =
  Some (mkMatch pos (pos + String.length (render_segment (Link label mid))) (render_segment (Link label mid))
          [(2%nat, page_path mid); (1%nat, label)]).
Proof.
  cbn [segment_ok]. intros [[Hne Hl]%andb_true_iff Hm]%andb_true_iff. destruct label as [|c label]; [done|].
  set (x := Link (String c label) mid).
  destruct (run_link c label mid t (mkPlace b (render_segment x +:+ t) []) eq_refl Hl Hm) as (e & He & Hr & Hg).
  unfold match_some, match_at. rewrite He. cbn [mbind option_bind]. destruct e as [eb er eg]. cbn [rest groups] in *. subst er eg.
  rewrite (between_app _ _ (render_segment x)) by reflexivity. cbn [whole]. done.
Qed.

Section Scan.
Context (index : gmap string string).

Lemma scan_plain s t : no_char "[" s = true -> forall pos b a, exists pos' b',
  sub_go _LINK_RE (replace index) O pos b (s +:+ t) a =
  (let '(u, a') := sub_go _LINK_RE (replace index) O pos' b' t a in (s +:+ u, a')).
Proof.
  induction s as [|c s IH]; intros Hs pos b a; [exists pos, b; by destruct (sub_go _ _ _ _ _ _ _)|].
  unfold no_char in Hs. cbn [string_forall] in Hs. apply andb_true_iff in Hs as [Hc Hs].
  destruct (IH Hs (S pos) (Some c) a) as (pos' & b' & Heq). exists pos', b'. rewrite string_app_cons. cbn [sub_go].
  rewrite no_link_plain by (intros ->; done). rewrite Heq. destruct (sub_go _ _ _ _ _ _ _) as [u a'] in |- *. done.
Qed.
Lemma scan_brackets s t : segment_ok (Brackets s) t = true -> forall pos b a, exists pos' b',
  sub_go _LINK_RE (replace index) O pos b (render_segment (Brackets s) +:+ t) a =
  (let '(u, a') := sub_go _LINK_RE (replace index) O pos' b' t a in (render_segment (Brackets s) +:+ u, a')).
Proof.
  cbn [segment_ok render_segment]. intros [[Ho Hc]%andb_true_iff Ht%negb_true_iff]%andb_true_iff pos b a.
  assert (no_char "[" (s +:+ "]") = true) as Hs by (unfold no_char in *; by rewrite string_forall_app, Ho).
  destruct (scan_plain (s +:+ "]") t Hs (S pos) (Some "["%char) a) as (pos' & b' & Heq). exists pos', b'.
  rewrite string_app_assoc in Heq. pose proof (no_link_brackets s t pos b Hc Ht) as Hno.
  rewrite !string_app_assoc. 
  change ("[" +:+ s +:+ "]" +:+ t) with (String "["%char (s +:+ "]" +:+ t)) in *. cbn [sub_go].
  rewrite Hno, Heq. by destruct (sub_go _ _ _ _ _ _ _) as [u a'] in |- *.
Qed.
Lemma scan_link label mid t : segment_ok (Link label mid) t = true -> forall pos b a, exists pos' b',
  sub_go _LINK_RE (replace index) O pos b (render_segment (Link label mid) +:+ t) a =
  (let '(u, a') := sub_go _LINK_RE (replace index) O pos' b' t (a ++ change_of index (Link label mid)) in
   (render (fix_segment index (Link label mid)) +:+ u, a')).
Proof.
  intros Hok pos b a. pose proof (link_matched label mid t pos b Hok) as Hm.
  set (x := render_segment (Link label mid)) in *. assert (exists y, x = String "["%char y) as [y Hy] by (by eexists).
  destruct (sub_go_skip _LINK_RE (replace index) y t (S pos) (Some "["%char) (a ++ change_of index (Link label mid)))
    as [b' Hb]. exists (S pos + String.length y)%nat, b'.
  rewrite Hy in Hm |- *. rewrite string_app_cons in *. cbn [sub_go]. rewrite Hm. cbn [whole]. cbn [String.length].
  rewrite Nat.sub_succ, Nat.sub_0_r, <- Hb. unfold replace, m_group, change_of, fix_segment.
  cbn [whole captured group_text Nat.eqb].
  destruct (index !! page_path mid) as [[|c anchor]|]; cbn [render]; rewrite ?app_nil_r;
    destruct (sub_go _ _ _ _ _ _ _) as [u a']; rewrite ?string_app_nil; f_equal.
  all: try (fold x; by rewrite Hy). cbn [render_segment]. by rewrite !string_app_assoc.
Qed.

(** A text of plain text, brackets and links to pages is rewritten link by link: a
    link whose page has an anchor becomes a reference to it, every other character
    stays, and one change is reported for every link that was rewritten. *)
Theorem fix_links_spec l : segments_ok l = true ->
  _fix_links index (render l) = (render (concat (fix_segment index <$> l)), concat (change_of index <$> l)).
Proof.
  unfold _fix_links, sub_with. intros Hl.
  assert (forall pos b a, sub_go _LINK_RE (replace index) O pos b (render l) a =
    (render (concat (fix_segment index <$> l)), a ++ concat (change_of index <$> l))) as Hgo; [|apply Hgo].
  induction l as [|x l IH]; intros pos b a; [cbn; by rewrite app_nil_r|].
  cbn [segments_ok] in Hl. apply andb_true_iff in Hl as [Hx Hl]. specialize (IH Hl).
  assert (forall l1 l2, render (l1 ++ l2) = render l1 +:+ render l2) as Happ.
  { intros l1 l2. induction l1 as [|y l1 IH1]; [done|]. cbn [render app]. by rewrite IH1, string_app_assoc. }
  rewrite !fmap_cons. cbn [concat render]. rewrite Happ. destruct x as [s|s|label mid].
  - cbn [render_segment]. destruct (scan_plain s (render l) Hx pos b a) as (pos' & b' & ->). rewrite IH.
    cbn [fix_segment change_of render render_segment]. by rewrite string_app_nil.
  - destruct (scan_brackets s (render l) Hx pos b a) as (pos' & b' & ->). rewrite IH. cbn [fix_segment change_of render].
    by rewrite string_app_nil.
  - destruct (scan_link label mid (render l) Hx pos b a) as (pos' & b' & ->). rewrite IH. by rewrite <- app_assoc.
Qed.
End Scan.

Lemma fix_links_spec_witness :
  let l := [Plain "See "; Link "filters" "file/filters"; Plain ", "; Brackets "x"; Link "b" "c"] in
  segments_ok l = true /\
  _fix_links example_index (render l) =
  ("See [filters][file-filters], [x][b](/c/)", ["link: [filters](/file/filters/) → [filters][file-filters]"]).
Proof.
  split; [vm_compute; reflexivity|].
  exact (fix_links_spec example_index [Plain "See "; Link "filters" "file/filters"; Plain ", "; Brackets "x"; Link "b" "c"] eq_refl).
Defined.
