(* ===== verification/RstToMarkdown.v ===== *)
(** * Docstrings from RST to Markdown ([src/mddocs/scripts/rst2md.py])

    The passes over the lines of a docstring (code blocks, tabs, admonitions,
    doctests), the inline pass over its text, and the docstrings and enum members of a
    file.  The loops of the passes take the number of lines as fuel: every turn takes a
    line at least. *)

From S2P Require Import Prelude PyData Search PyText Regex Docstrings LinksToAnchors.
From Stdlib Require Import Ascii.

Definition dq : string := String dquote_char "".
(** [re.compile(pattern)] without flags *)
Definition re (pattern : string) : regex := compile no_flags pattern.
Definition multiline : flags := mkFlags true false.

(** ** The inline pass *)

Definition _EXTERNAL_PREFIXES : list string :=
  ["pyspark."; "os."; "datetime."; "pathlib."; "ssl."; "typing."; "contextlib."].
Definition _BUILTIN_TYPES : list string := ["str"; "int"; "float"; "bool"; "bytes"; "None"].
Definition _ETL_ENTITIES_BASE : string := "https://etl-entities.readthedocs.io/en/stable/".

Definition _SUPPORT_HOOKS_BADGE : string :=
  "[![support hooks](https://img.shields.io/badge/%20-support%20hooks-blue)](/hooks/)".

(** [sub] of [_apply_inline]: the change is listed when the text is another one *)
Definition changed_to (desc : string) (new : string) (tc : string * list string) : string * list string :=
  let '(t, changes) := tc in
  (new, if String.eqb new t then changes else changes ++ [desc]).
Definition sub_step (r : regex) (template desc : string) (tc : string * list string) : string * list string :=
  changed_to desc (sub r template tc.1) tc.

Definition INLINE_CODE : regex := re "(?<!`)``(?!`)(.+?)(?<!`)``(?!`)".
Definition INLINE_EMPTY : regex := compile multiline "(?<!`)``(?!`)(\s*$)".
Definition HYPERLINK : regex := re "`([^`<]+?)\s+<(https?://[^>]+)>`_".
Definition TILDE_REF : regex := re ":(?:obj|class):`~([\w.]+)`".
Definition OBJ_DISPLAY : regex := re ":(?:obj|class):`([^`<]+?)\s+<([^>`]+)>`".
Definition OBJ_REF : regex := re ":(?:obj|class):`([\w.]+)`".
Definition REF_DISPLAY : regex := re ":ref:`([^`<]+?)\s+<([^>`]+)>`".
Definition REF_LABEL : regex := re ":ref:`([\w.-]+)`".
Definition ETL_ENTITIES : regex := re ":etl-entities:`([^`<]+?)\s+<([^>`]+)>`".

Definition tilde_ref (m : Match) : string :=
  "[" +:+ default "" (last (split_on "." (m_group 1 m))) +:+ "][]".
(** the two flags the closure sets: an external name, an internal one *)
Definition _obj_or_code (m : Match) (seen : bool * bool) : string * (bool * bool) :=
  let name := m_group 1 m in
  let '(external, internal) := seen in
  if existsb (fun p => String.prefix p name) _EXTERNAL_PREFIXES || bool_decide (name ∈ _BUILTIN_TYPES)
  then ("`" +:+ name +:+ "`", (true, internal))
  else ("[" +:+ name +:+ "][]", (external, true)).
Definition _etl_entities_link (m : Match) : string :=
  "[" +:+ str_strip (m_group 1 m) +:+ "](" +:+ _ETL_ENTITIES_BASE +:+ str_strip (m_group 2 m) +:+ ")".

Definition obj_step (tc : string * list string) : string * list string :=
  let '(t, changes) := tc in
  let '(new, (external, internal)) := sub_with OBJ_REF _obj_or_code t (false, false) in
  (new, changes ++ (if external : bool then ["cross-ref external: :obj:`name` → `name`"] else [])
                ++ (if internal : bool then ["cross-ref: :obj:`name` → [name][]"] else [])).

Definition _apply_inline (text : string) : string * list string :=
  let tc := (text, []) in
  let tc := sub_step INLINE_CODE "`\1`" "inline code: ``…`` → `…`" tc in
  let tc := sub_step INLINE_EMPTY "` `\1" "inline code empty: `` → ` `" tc in
  let tc := sub_step HYPERLINK "[\1](\2)" "hyperlink: `text <url>`_ → [text](url)" tc in
  let tc := changed_to "cross-ref tilde: :obj:`~name` → [shortname][]" (sub_fun TILDE_REF tilde_ref tc.1) tc in
  let tc := sub_step OBJ_DISPLAY "[\1][\2]" "cross-ref display: :obj:`D <path>` → [D][path]" tc in
  let tc := obj_step tc in
  let tc := sub_step REF_DISPLAY "[\1][\2]" "ref display: :ref:`D <l>` → [D][l]" tc in
  let tc := sub_step REF_LABEL "[\1][]" "ref: :ref:`label` → [label][]" tc in
  changed_to "etl-entities: :etl-entities:`D <path>` → [D](url)" (sub_fun ETL_ENTITIES _etl_entities_link tc.1) tc.

(** ** Code blocks *)

(** [len(line) - len(line.lstrip())] *)
Definition indent_of (line : string) : nat := (String.length line - String.length (str_lstrip line))%nat.
Definition blank (line : string) : bool := String.eqb (str_lstrip line) "".
(** [if i < len(lines) and lines[i].strip() == "": i += 1] *)
Definition skip_blank (lines : list string) : list string :=
  match lines with line :: rest => if is_blank line then rest else lines | [] => [] end.
(** the lines of a body indented by [min_indent], without the indentation *)
Fixpoint collect_body (min_indent : nat) (lines : list string) : list string * list string :=
  match lines with
  | [] => ([], [])
  | cl :: rest =>
      if blank cl && negb (String.eqb cl "") && (String.length cl <? min_indent)%nat then ([], lines)
      else if blank cl then let '(body, rest) := collect_body min_indent rest in ("" :: body, rest)
      else if (min_indent <=? indent_of cl)%nat
      then let '(body, rest) := collect_body min_indent rest in (str_drop min_indent cl :: body, rest)
      else ([], lines)
  end.
(** [while body and body[-1] == "": body.pop()] *)
Fixpoint strip_trailing (body : list string) : list string :=
  match body with
  | [] => []
  | line :: rest =>
      match strip_trailing rest with
      | [] => if String.eqb line "" then [] else [line]
      | rest => line :: rest
      end
  end.

Definition CODE_DIRECTIVE : regex := re "^(\s*)\.\. code(?:-block)?::\s*(\w*).*$".
Definition OPTION : regex := re "^\s+:\w".
Definition CAPTION : regex := re "\s*:caption:\s*(.+)".
(** the options of a directive: the title they give, and the lines after them *)
Fixpoint read_options (title : string) (lines : list string) : string * list string :=
  match lines with
  | [] => (title, [])
  | line :: rest =>
      match match_ OPTION line with
      | None => (title, lines)
      | Some _ =>
          read_options (match match_ CAPTION line with Some cap => str_strip (m_group 1 cap) | None => title end) rest
      end
  end.

Fixpoint _convert_code_blocks (fuel : nat) (lines : list string) : list string * list string :=
  match fuel, lines with
  | S fuel, line :: rest =>
      match match_ CODE_DIRECTIVE line with
      | None => let '(result, changes) := _convert_code_blocks fuel rest in (line :: result, changes)
      | Some m =>
          let indent := m_group 1 m in
          let lang := m_group 2 m in
          let '(title, rest) := read_options "" rest in
          let '(body, rest) := collect_body (String.length indent + 4) (skip_blank rest) in
          let title_part := if String.eqb title "" then "" else " title=" +:+ dq +:+ title +:+ dq in
          let '(result, changes) := _convert_code_blocks fuel rest in
          ((indent +:+ "```" +:+ lang +:+ title_part)
             :: ((fun bl => indent +:+ bl) <$> strip_trailing body) ++ [indent +:+ "```"] ++ result,
           ("code block: .. code:: " +:+ lang +:+ " → ```" +:+ lang +:+ title_part) :: changes)
      end
  | _, _ => ([], [])
  end.

(** ** Tabs *)

Definition TABS : regex := re "^(\s*)\.\. tabs::\s*$".
Definition CODE_TAB : regex := re "^(\s*)\.\. code-tab::\s+\w+\s+(.+)$".
Definition TAB : regex := re "^(\s*)\.\. tab::\s+(.+)$".

Fixpoint _convert_tabs (fuel : nat) (tabs_indent : string) (lines : list string) : list string * list string :=
  match fuel, lines with
  | S fuel, line :: rest =>
      match match_ TABS line with
      | Some m_tabs =>
          let '(result, changes) := _convert_tabs fuel (m_group 1 m_tabs) (skip_blank rest) in
          (result, "removed: .. tabs::" :: changes)
      | None =>
      match match_ CODE_TAB line with
      | Some m =>
          let indent := m_group 1 m in
          let title := str_strip (m_group 2 m) in
          let out_indent := str_drop (String.length tabs_indent) indent in
          let '(body, rest) := collect_body (String.length indent + 4) (skip_blank rest) in
          let '(result, changes) := _convert_tabs fuel tabs_indent rest in
          ((out_indent +:+ "=== " +:+ dq +:+ title +:+ dq)
             :: (out_indent +:+ "    ```python")
             :: ((fun bl => out_indent +:+ "    " +:+ bl) <$> strip_trailing body)
             ++ [out_indent +:+ "    ```"] ++ result,
           ("code-tab: .. code-tab:: → === " +:+ dq +:+ title +:+ dq) :: changes)
      | None =>
      match match_ TAB line with
      | Some m =>
          let indent := m_group 1 m in
          let title := str_strip (m_group 2 m) in
          let out_indent := str_drop (String.length tabs_indent) indent in
          let '(result, changes) := _convert_tabs fuel tabs_indent rest in
          ((out_indent +:+ "=== " +:+ dq +:+ title +:+ dq) :: result,
           ("tab: .. tab:: → === " +:+ dq +:+ title +:+ dq) :: changes)
      | None =>
          let '(result, changes) := _convert_tabs fuel tabs_indent rest in (line :: result, changes)
      end end end
  | _, _ => ([], [])
  end.

(** ** Admonitions *)

Definition _SIMPLE_ADMONITIONS : list (string * string) :=
  [("note", "note"); ("warning", "warning"); ("danger", "danger"); ("DANGER", "danger");
   ("seealso", "info " +:+ dq +:+ "See also" +:+ dq); ("important", "important"); ("tip", "tip")].

(** the lines of a body: blank, or indented more than the directive *)
Fixpoint raw_body (directive : nat) (lines : list string) : list string * list string :=
  match lines with
  | [] => ([], [])
  | line :: rest =>
      if blank line || (directive <? indent_of line)%nat
      then let '(raw, rest) := raw_body directive rest in (line :: raw, rest)
      else ([], lines)
  end.
(** the least indentation of the lines that are not blank *)
Definition body_base (raw : list string) : option nat :=
  foldl (fun base line =>
    if blank line then base
    else match base with
         | None => Some (indent_of line)
         | Some b => Some (if (indent_of line <? b)%nat then indent_of line else b)
         end) None raw.
Definition _collect_admonition_body (lines : list string) (directive_indent : string) : list string * list string :=
  let expected_indent := (String.length directive_indent + 4)%nat in
  let '(raw, rest) := raw_body (String.length directive_indent) lines in
  match body_base raw with
  | None => (raw, rest)
  | Some base =>
      ((fun line => if blank line then line
                    else spaces (expected_indent + (indent_of line - base)) +:+ str_lstrip line) <$> raw, rest)
  end.

Definition INLINE_ADMONITION : regex := re "^(\s*)\.\.\s+(\w+) ::\s+(.+)$".
Definition VERSION_TEXT : regex := re "^(\s*)\.\.\s+(versionadded|versionchanged|deprecated)::\s*([\d.]+)\s+(.+)$".
Definition VERSION : regex := re "^(\s*)\.\.\s+(versionadded|versionchanged|deprecated)::\s*([\d.]+)\s*$".
Definition DROPDOWN : regex := re "^(\s*)\.\.\s+dropdown::\s+(.+)$".
Definition simple_admonition (kind : string) : regex := re ("^(\s*)\.\.\s+" +:+ kind +:+ "\s*::(\s*)$").
(** [mapping[kind]] *)
Definition version_type (kind ver : string) : string :=
  if String.eqb kind "versionadded" then "success " +:+ dq +:+ "Added in " +:+ ver +:+ dq
  else if String.eqb kind "versionchanged" then "info " +:+ dq +:+ "Changed in " +:+ ver +:+ dq
  else "warning " +:+ dq +:+ "Deprecated since " +:+ ver +:+ dq.
(** the first kind of [_SIMPLE_ADMONITIONS] the line names *)
Fixpoint simple_kind (kinds : list (string * string)) (line : string) : option (string * string * string) :=
  match kinds with
  | [] => None
  | (rst_kind, md_kind) :: kinds =>
      match match_ (simple_admonition rst_kind) line with
      | Some m => Some (m_group 1 m, rst_kind, md_kind)
      | None => simple_kind kinds line
      end
  end.

(** a directive: the lines it becomes and the change; with [WithBody] the lines below
    that are indented more than it are its body *)
Inductive directive : Type :=
| Closed (result : list string) (change : string)
| WithBody (indent : string) (result : list string) (change : string).
Definition read_directive (line : string) : option directive :=
  match match_ INLINE_ADMONITION line with
  | Some m =>
      let indent := m_group 1 m in
      let kind := str_lower (m_group 2 m) in
      Some (Closed [indent +:+ "!!! " +:+ kind; indent +:+ "    " +:+ m_group 3 m]
              ("inline admonition: .. " +:+ kind +:+ " :: text → block form"))
  | None =>
  match match_ VERSION_TEXT line with
  | Some m =>
      let indent := m_group 1 m in
      let kind := m_group 2 m in
      let md_type := version_type kind (m_group 3 m) in
      Some (WithBody indent [indent +:+ "!!! " +:+ md_type; indent +:+ "    " +:+ m_group 4 m]
              (kind +:+ ": .. " +:+ kind +:+ ":: " +:+ m_group 3 m +:+ " text → !!! " +:+ md_type))
  | None =>
  match match_ VERSION line with
  | Some m =>
      let indent := m_group 1 m in
      let kind := m_group 2 m in
      let md_type := version_type kind (m_group 3 m) in
      Some (WithBody indent [indent +:+ "!!! " +:+ md_type]
              (kind +:+ ": .. " +:+ kind +:+ ":: " +:+ m_group 3 m +:+ " → !!! " +:+ md_type))
  | None =>
  match match_ DROPDOWN line with
  | Some m =>
      let indent := m_group 1 m in
      let title := str_strip (m_group 2 m) in
      Some (WithBody indent [indent +:+ "??? note " +:+ dq +:+ title +:+ dq]
              ("dropdown: .. dropdown:: → ??? note " +:+ dq +:+ title +:+ dq))
  | None =>
      '(indent, rst_kind, md_kind) ← simple_kind _SIMPLE_ADMONITIONS line;
      Some (WithBody indent [indent +:+ "!!! " +:+ md_kind]
              ("admonition: .. " +:+ rst_kind +:+ ":: → !!! " +:+ md_kind))
  end end end end.

Fixpoint _convert_admonitions (fuel : nat) (lines : list string) : list string * list string :=
  match fuel, lines with
  | S fuel, line :: rest =>
      match read_directive line with
      | Some (Closed out change) =>
          let '(result, changes) := _convert_admonitions fuel rest in (out ++ result, change :: changes)
      | Some (WithBody indent out change) =>
          let '(body, rest) := _collect_admonition_body rest indent in
          let '(body, ch) := _convert_admonitions fuel body in
          let '(result, changes) := _convert_admonitions fuel rest in
          (out ++ body ++ result, change :: ch ++ changes)
      | None => let '(result, changes) := _convert_admonitions fuel rest in (line :: result, changes)
      end
  | _, _ => ([], [])
  end.

(** ** Doctests *)

Definition FENCE : regex := re "^\s*```".
Definition DOCTEST : regex := re "^(\s*)>>>".
(** the lines up to the next blank one *)
Fixpoint doctest_block (lines : list string) : list string * list string :=
  match lines with
  | [] => ([], [])
  | line :: rest =>
      if is_blank line then ([], lines)
      else let '(block, rest) := doctest_block rest in (line :: block, rest)
  end.
Fixpoint _convert_doctests (fuel : nat) (in_fence : bool) (lines : list string) : list string * list string :=
  match fuel, lines with
  | S fuel, line :: rest =>
      match match_ FENCE line with
      | Some _ => let '(result, changes) := _convert_doctests fuel (negb in_fence) rest in (line :: result, changes)
      | None =>
      match match_ DOCTEST line, in_fence with
      | Some m, false =>
          let indent := m_group 1 m in
          let '(block, rest) := doctest_block lines in
          let '(result, changes) := _convert_doctests fuel in_fence rest in
          ((indent +:+ "```python") :: block ++ [indent +:+ "```"] ++ result,
           "doctest: >>> block → ```python fenced block" :: changes)
      | _, _ => let '(result, changes) := _convert_doctests fuel in_fence rest in (line :: result, changes)
      end end
  | _, _ => ([], [])
  end.

(** ** A docstring *)

Definition convert_docstring (body : string) : string * list string :=
  let lines := split_on newline body in
  let '(lines, ch1) := _convert_code_blocks (length lines) lines in
  let '(lines, ch2) := _convert_tabs (length lines) "" lines in
  let '(lines, ch3) := _convert_admonitions (length lines) lines in
  let '(lines, ch4) := _convert_doctests (length lines) false lines in
  let '(text, ch5) := _apply_inline (join nl lines) in
  (text, ch1 ++ ch2 ++ ch3 ++ ch4 ++ ch5).

(** ** Docstrings of a file *)

Definition _SINGLE_QUOTED_DOCSTR : regex := re (dquoted "@([^@\\\n]+)@").
Definition _TRIPLE_QUOTED : regex :=
  compile (mkFlags false true)
    (dquoted "([rRbBuUfF]?@@@(?:[^@\\]|\\.|@{1,2}(?!@))*@@@|[rRbBuUfF]?'''(?:[^'\\]|\\.|'{1,2}(?!'))*''')").
Definition _DOCSTRING_CONTEXT : regex :=
  compile multiline "(?:^|(?:class|def)\s[^\n]*:\s*\n\s*|@\w[^\n]*\n\s*)".
Definition TRAILING_COMMENT : regex := re "\s*#[^\n]*$".
Definition ASSIGNMENT : regex := re "^\s*[\w\]]+\s*[=:]".

Definition is_docstring (source : string) (m : Match) : bool :=
  let preceding := str_rstrip (str_take (m_start m) source) in
  let preceding_no_comment := sub TRAILING_COMMENT "" preceding in
  if last_is ":" preceding_no_comment || String.eqb preceding "" || last_is newline preceding || last_is "#" preceding
  then true
  else
    let last_line := str_rstrip (default "" (last (split_on newline preceding_no_comment))) in
    last_is ")" last_line || bool_decide (is_Some (match_ ASSIGNMENT last_line)) && occurs "=" last_line.
Definition find_docstrings (source : string) : list (nat * nat) :=
  span_of <$> filter (fun m => is_docstring source m = true) (finditer _TRIPLE_QUOTED source).

Definition QUOTE_PREFIX : regex := re (dquoted "^([rRbBuUfF]?)(@@@|\'\'\')").
Definition rewrite_docstring (raw : string) : string * list string :=
  match match_ QUOTE_PREFIX raw with
  | Some prefix_m =>
      let prefix := m_group 1 prefix_m in
      let quote := m_group 2 prefix_m in
      let q_len := (String.length prefix + String.length quote)%nat in
      let body := str_slice q_len (String.length raw - String.length quote) raw in
      let '(converted, changes) := convert_docstring body in
      (prefix +:+ quote +:+ converted +:+ quote, changes)
  | None => (raw, [])
  end.

(** ** Enum members: a text in double quotes on its own line, after an assignment *)

(** the characters a line ends with *)
Definition is_line_end (c : ascii) : bool :=
  let n := nat_of_ascii c in ((10 <=? n) && (n <=? 13) || (28 <=? n) && (n <=? 30) || (n =? 133))%nat.
(** [s.splitlines(keepends=True)] *)
Fixpoint splitlines (s : string) : list string :=
  match s with
  | EmptyString => []
  | String c s' =>
      let starts_line :=
        is_line_end c &&
        negb (Ascii.eqb c (ascii_of_nat 13) && match s' with String d _ => Ascii.eqb d newline | _ => false end) in
      if starts_line then String c "" :: splitlines s'
      else match splitlines s' with
           | line :: lines => String c line :: lines
           | [] => [String c ""]
           end
  end.
Definition MEMBER : regex := re (dquoted "^(\s*)@([^@\\\n]+)@(\s*)$").
Definition MEMBER_ASSIGNMENT : regex := re "^\s*[\w\]]+\s*=".
Definition convert_member (prev : option string) (line : string) : string * list string :=
  match match_ MEMBER line, prev with
  | Some m, Some prev =>
      let prev_no_comment := sub TRAILING_COMMENT "" (str_rstrip prev) in
      match match_ MEMBER_ASSIGNMENT prev_no_comment with
      | Some _ =>
          let '(converted, changes) := _apply_inline (m_group 2 m) in
          match changes with
          | [] => (line, [])
          | _ => (m_group 1 m +:+ dq +:+ converted +:+ dq +:+ m_group 3 m, changes)
          end
      | None => (line, [])
      end
  | _, _ => (line, [])
  end.
Fixpoint convert_members (prev : option string) (lines : list string) (file_changes : list string)
  : string * list string :=
  match lines with
  | [] => ("", file_changes)
  | line :: lines =>
      let '(new_line, changes) := convert_member prev line in
      let '(rest, file_changes) := convert_members (Some line) lines (file_changes ++ changes) in
      (new_line +:+ rest, file_changes)
  end.

Definition process_file (dry_run : bool) (p : path) : IO bool :=
  source ← attempt (fun e => match e with OSError => true | _ => false end) (read_text p) (print (ErrReading p));
  match source with
  | None => mret false
  | Some source =>
      match find_docstrings source with
      | [] => mret false
      | docstrings =>
          let '(new_source, file_changes) := splice rewrite_docstring source docstrings 0 source [] in
          let '(new_source, file_changes) := convert_members None (splitlines new_source) file_changes in
          report p dry_run new_source file_changes
      end
  end.
(** what [add_argument] declares *)
Definition default_args : Args := mkArgs false "onetl/" None.
Definition main (args : Args) : IO unit := process_all (process_file (dry_run args)) args.

Example rst_patterns_ok : Forall (fun r => pattern_ok r = true)
  [INLINE_CODE; INLINE_EMPTY; HYPERLINK; TILDE_REF; OBJ_DISPLAY; OBJ_REF; REF_DISPLAY; REF_LABEL; ETL_ENTITIES;
   CODE_DIRECTIVE; OPTION; CAPTION; TABS; CODE_TAB; TAB; INLINE_ADMONITION; VERSION_TEXT; VERSION; DROPDOWN; FENCE;
   DOCTEST; _SINGLE_QUOTED_DOCSTR; _TRIPLE_QUOTED; TRAILING_COMMENT; ASSIGNMENT; QUOTE_PREFIX; MEMBER;
   MEMBER_ASSIGNMENT].
Proof. repeat constructor. Qed.

(** ** Examples *)

Definition lines_of (l : list string) : string := join nl l.
Example inline_example : (_apply_inline "Use ``x`` of :obj:`~a.b.C`, :class:`os.PathLike` and :obj:`Foo <a.Foo>`; `site <https://x.y>`_.").1 =
  "Use `x` of [C][], `os.PathLike` and [Foo][a.Foo]; [site](https://x.y).".
Proof. vm_compute. reflexivity. Qed.
Example code_example : convert_docstring (lines_of
    ["Text."; ""; "    .. code-block:: python"; "        :caption: a.py"; ""; "        x = 1"; ""; "          y"; ""; "    End."]) =
  (lines_of ["Text."; ""; "    ```python title=" +:+ dq +:+ "a.py" +:+ dq; "    x = 1"; "    "; "      y"; "    ```"; "    End."],
   ["code block: .. code:: python → ```python title=" +:+ dq +:+ "a.py" +:+ dq]).
Proof. vm_compute. reflexivity. Qed.
Example admonition_example : convert_docstring (lines_of
    [".. versionadded:: 1.2 It is"; "  new"; ""; "  .. note::"; "     really"; "Text"; ">>> f(1)"; "2"]) =
  (lines_of ["!!! success " +:+ dq +:+ "Added in 1.2" +:+ dq; "    It is"; "    new"; ""; "    !!! note"; "        really"; "Text";
             "```python"; ">>> f(1)"; "2"; "```"],
   ["versionadded: .. versionadded:: 1.2 text → !!! success " +:+ dq +:+ "Added in 1.2" +:+ dq;
    "admonition: .. note:: → !!! note"; "doctest: >>> block → ```python fenced block"]).
Proof. vm_compute. reflexivity. Qed.
Example tabs_example : (convert_docstring (lines_of
    ["    .. tabs::"; ""; "        .. code-tab:: py My title"; ""; "            x"; "        .. tab:: Other"; "            y"])).1 =
  lines_of ["    === " +:+ dq +:+ "My title" +:+ dq; "        ```python"; "        x"; "        ```";
            "    === " +:+ dq +:+ "Other" +:+ dq; "            y"].
Proof. vm_compute. reflexivity. Qed.
