(* ===== verification/FixRefs.v ===== *)
(** * References of docstrings ([src/mddocs/scripts/fix_refs.py])

    The tables of known targets, the passes of [_fix_refs] over the text of a docstring,
    and the files they are applied to.  The tables that are empty in the source are empty
    here; what the script would do with their entries is part of the definitions. *)

From S2P Require Import Prelude PyData Search PyText Regex Docstrings LinksToAnchors.
From S2P Require Import RstToMarkdown.
From Stdlib Require Import Ascii.

(** ** Tables *)

Definition REF_MAP : gmap string (string * string) := ∅.
Definition PYTHON_PATH_MAP : gmap string string := ∅.
Definition LABEL_MAP : gmap string string := ∅.
Definition ANCHOR_REF_MAP : gmap string (string * string) := ∅.
Definition CODE_PATH_MAP : gmap string string :=
  {["syncmaster.server.application_factory" := "`application_factory`"]}.
Definition PLAIN_REF_MAP : gmap string string := ∅.
Definition DOCS_BROKEN_LINKS : list (string * string) := [].
Definition SHORTNAME_MAP : gmap string string :=
  {["setup" := "[setup][syncmaster.server.providers.auth.AuthProvider.setup]"]}.

(** ** References *)

(** the replacements get the changes so far and add their own *)
Definition replace_ref (m : Match) (changes : list string) : string * list string :=
  let label := m_group 1 m in
  match REF_MAP !! label with
  | Some (link_text, path) =>
      ("[" +:+ link_text +:+ "](" +:+ path +:+ ")",
       changes ++ ["ref: [" +:+ label +:+ "][] → [" +:+ link_text +:+ "](" +:+ path +:+ ")"])
  | None => (m_group 0 m, changes)
  end.
Definition replace_text_ref (m : Match) (changes : list string) : string * list string :=
  let link_text := m_group 1 m in
  let label := m_group 2 m in
  match REF_MAP !! label with
  | Some (_, path) =>
      ("[" +:+ link_text +:+ "](" +:+ path +:+ ")",
       changes ++ ["ref: [" +:+ link_text +:+ "][" +:+ label +:+ "] → [" +:+ link_text +:+ "](" +:+ path +:+ ")"])
  | None => (m_group 0 m, changes)
  end.
Definition replace_label_ref (m : Match) (changes : list string) : string * list string :=
  let link_text := m_group 1 m in
  let label := m_group 2 m in
  match LABEL_MAP !! label with
  | Some url =>
      ("[" +:+ link_text +:+ "](" +:+ url +:+ ")",
       changes ++ ["label: [" +:+ link_text +:+ "][" +:+ label +:+ "] → [" +:+ link_text +:+ "](" +:+ url +:+ ")"])
  | None => (m_group 0 m, changes)
  end.
Definition replace_python_path (m : Match) (changes : list string) : string * list string :=
  let link_text := m_group 1 m in
  let python_path := m_group 2 m in
  let from := "pyref: [" +:+ link_text +:+ "][" +:+ python_path +:+ "] → " in
  match PLAIN_REF_MAP !! python_path with
  | Some name => (name, changes ++ [from +:+ name])
  | None =>
  match PYTHON_PATH_MAP !! python_path with
  | Some url =>
      ("[" +:+ link_text +:+ "](" +:+ url +:+ ")", changes ++ [from +:+ "[" +:+ link_text +:+ "](" +:+ url +:+ ")"])
  | None => (m_group 0 m, changes)
  end end.
Definition replace_python_path_self (m : Match) (changes : list string) : string * list string :=
  let python_path := m_group 1 m in
  let from := "pyref: [" +:+ python_path +:+ "][] → " in
  match CODE_PATH_MAP !! python_path with
  | Some name => (name, changes ++ [from +:+ name])
  | None =>
  match ANCHOR_REF_MAP !! python_path with
  | Some (link_text, anchor) =>
      ("[" +:+ link_text +:+ "][" +:+ anchor +:+ "]", changes ++ [from +:+ "[" +:+ link_text +:+ "][" +:+ anchor +:+ "]"])
  | None =>
  match PYTHON_PATH_MAP !! python_path with
  | Some url =>
      let link_text := default "" (last (split_on "." python_path)) in
      ("[" +:+ link_text +:+ "](" +:+ url +:+ ")", changes ++ [from +:+ "[" +:+ link_text +:+ "](" +:+ url +:+ ")"])
  | None => (m_group 0 m, changes)
  end end end.
Definition replace_shortname (m : Match) (changes : list string) : string * list string :=
  let name := m_group 1 m in
  match SHORTNAME_MAP !! name with
  | Some full => (full, changes ++ ["shortname: [" +:+ name +:+ "][] → " +:+ full])
  | None => (m_group 0 m, changes)
  end.

Definition REF : regex := re "\[([a-z][a-z0-9]*(?:-[a-z0-9]+)*)\]\[\]".
Definition TEXT_REF : regex := re "\[([^\]]+)\]\[([a-z][a-z0-9]*(?:-[a-z0-9]+)*)\]".
Definition LABEL_REF : regex := re "\[([^\]]+)\]\[([A-Z][A-Za-z0-9]*)\]".
Definition PYTHON_PATH : regex := re "\[([^\]]+)\]\[(syncmaster\.[a-zA-Z0-9_.]+)\]".
Definition PYTHON_PATH_SELF : regex := re "\[(syncmaster\.[a-zA-Z0-9_.]+)\]\[\]".
Definition SHORTNAME : regex := re "\[([A-Za-z][\w.]*)\]\[\]".

(** ** Types of parameters *)

(** [repr] of a text *)
Definition hex_digit (n : nat) : ascii := ascii_of_nat (if (n <? 10)%nat then n + 48 else n + 87).
Definition repr_char (quote c : ascii) : string :=
  let n := nat_of_ascii c in
  if Ascii.eqb c quote || Ascii.eqb c "\" then String "\" (String c "")
  else if (n =? 9)%nat then "\t" else if (n =? 10)%nat then "\n" else if (n =? 13)%nat then "\r"
  else if ((n <? 32) || (127 <=? n) && (n <=? 160) || (n =? 173))%nat
  then "\x" +:+ String (hex_digit (n / 16)) (String (hex_digit (n mod 16)) "")
  else String c "".
Fixpoint repr_chars (quote : ascii) (s : string) : string :=
  match s with EmptyString => "" | String c s' => repr_char quote c +:+ repr_chars quote s' end.
Definition py_repr (s : string) : string :=
  let quote := if occurs "'" s && negb (occurs dq s) then dquote_char else "'"%char in
  String quote (repr_chars quote s +:+ String quote "").

Definition BOTH_BACKTICKED : regex := re "`([^`]+)`\s+or\s+`([^`]+)`".
Definition BACKTICKED : regex := re "`([^`]+)`".
Definition OR : regex := re "(\S)\s+or\s+(\S)".
Definition CONTAINER_OF : regex := re "\b(list|List|Iterable) of ([^\s,]+)".
Definition TYPING : regex := re "\btyping\.(\w+)".
Definition NUMPY_TYPE : regex := compile multiline "^( {1,}\w+ : )(.+)$".
Definition fixed_type (type_str : string) : string :=
  let fixed := sub BOTH_BACKTICKED "\1 | \2" type_str in
  let fixed := sub BACKTICKED "\1" fixed in
  let fixed := sub OR "\1 | \2" fixed in
  let fixed := sub_fun CONTAINER_OF (fun mm => str_lower (m_group 1 mm) +:+ "[" +:+ m_group 2 mm +:+ "]") fixed in
  sub TYPING "\1" fixed.
Definition fix_numpy_type (m : Match) (changes : list string) : string * list string :=
  let prefix := m_group 1 m in
  let type_str := m_group 2 m in
  let fixed := fixed_type type_str in
  if String.eqb fixed type_str then (m_group 0 m, changes)
  else (prefix +:+ fixed, changes ++ ["type: " +:+ py_repr type_str +:+ " → " +:+ py_repr fixed]).

(** ** Lists after a label *)

Definition SEE_LIST : regex := compile multiline "^( *)See:\n(?!\n)( *)\* (.+(?:\n(?!\n)[ \t]*\* .+)*)".
Definition SEE_ITEM : regex := re "[ \t]+\* (.+)".
Definition fix_see_list (m : Match) (changes : list string) : string * list string :=
  let see_indent := m_group 1 m in
  let item_indent := m_group 2 m in
  let rest := m_group 3 m in
  let '(rest, item_indent) :=
    if (String.length see_indent <? String.length item_indent)%nat
    then (sub_fun SEE_ITEM (fun mm => see_indent +:+ "* " +:+ m_group 1 mm) rest, see_indent)
    else (rest, item_indent) in
  (see_indent +:+ "See:" +:+ nl +:+ nl +:+ item_indent +:+ "* " +:+ rest,
   changes ++ ["see-list: added blank line before list after 'See:'"]).
Definition LABEL_LIST : regex := compile multiline "^( +\w[^\n]*:)\n(?!\n)( +[*-] )".
Definition fix_label_list (m : Match) (changes : list string) : string * list string :=
  (m_group 1 m +:+ nl +:+ nl +:+ m_group 2 m,
   changes ++ ["label-list: added blank line after '" +:+ str_strip (m_group 1 m) +:+ "'"]).

(** [bl[extra:] if bl[:extra] == " " * extra else bl], and whether it was cut *)
Definition de_indent (extra : nat) (bl : string) : string * bool :=
  if String.prefix (spaces extra) bl then (str_drop extra bl, true) else (bl, false).
(** the lines up to the first that is not blank, and the rest *)
Fixpoint take_blank (lines : list string) : list string * list string :=
  match lines with
  | line :: rest => if is_blank line then let '(b, r) := take_blank rest in (line :: b, r) else ([], lines)
  | [] => ([], [])
  end.

Definition SECTION_HEADER : regex := re "^( *)\S".
Definition UNDERLINE : regex := re "^ *-{3,}\s*$".
Definition DASHES : regex := re "-{3,}".
(** the lines of a section, without their extra indentation: the lines, whether one
    was changed, and what follows the section *)
Fixpoint section_lines (base_indent extra : nat) (lines : list string) : list string * bool * list string :=
  match lines with
  | [] => ([], false, [])
  | bl :: rest =>
      let bl_stripped := str_lstrip bl in
      let bl_indent := if blank bl then O else indent_of bl in
      if negb (blank bl) && (bl_indent <=? base_indent)%nat && negb (bool_decide (is_Some (match_ DASHES bl_stripped)))
      then ([], false, lines)
      else
        let '(out, fixed_any, rest) := section_lines base_indent extra rest in
        let '(bl', cut) := if blank bl then (bl, false) else de_indent extra bl in
        (bl' :: out, cut || fixed_any, rest)
  end.
Fixpoint numpy_params (fuel : nat) (lines : list string) (changes : list string) : list string * list string :=
  match fuel, lines with
  | S fuel, line :: rest =>
      let keep := let '(out, changes) := numpy_params fuel rest changes in (line :: out, changes) in
      match match_ SECTION_HEADER line, rest with
      | Some header_match, underline :: after =>
          if bool_decide (is_Some (match_ UNDERLINE underline)) && negb (String.eqb (str_rstrip line) "")
             && negb (String.prefix "-" (str_lstrip line))
          then
            let base_indent := String.length (m_group 1 header_match) in
            match (take_blank after).2 with
            | first_param :: _ =>
                let extra := (indent_of first_param - base_indent)%nat in
                if (0 <? extra)%nat && negb (is_blank first_param) then
                  let '(section, fixed_any, after) := section_lines base_indent extra after in
                  let changes := if fixed_any : bool
                    then changes ++ ["numpy-params: de-indented " +:+ str_of_Z (Z.of_nat extra) +:+ "sp in section '" +:+ str_strip line +:+ "'"]
                    else changes in
                  let '(out, changes) := numpy_params fuel after changes in
                  (line :: underline :: section ++ out, changes)
                else keep
            | [] => keep
            end
          else keep
      | _, _ => keep
      end
  | _, _ => ([], changes)
  end.
Definition fix_numpy_params (txt : string) (changes : list string) : string * list string :=
  let lines := split_on newline txt in
  let '(out, changes) := numpy_params (length lines) lines changes in
  (join nl out, changes).

Definition is_bullet (o : option ascii) : bool :=
  match o with Some c => Ascii.eqb c "*" || Ascii.eqb c "-" || Ascii.eqb c "+" | None => false end.
(** [s and s[0] in "*-+" and s[1:2] == " "] *)
Definition list_item (s : string) : bool :=
  match s with String c (String d _) => is_bullet (Some c) && Ascii.eqb d " " | _ => false end.
(** the lines of the list that starts here, and what follows it *)
Fixpoint list_block (nxt_indent : nat) (lines : list string) : list string * list string :=
  match lines with
  | [] => ([], [])
  | bl :: rest =>
      let more := let '(block, rest) := list_block nxt_indent rest in (bl :: block, rest) in
      if is_blank bl then
        match (take_blank rest).2 with
        | [] => ([], lines)
        | nb :: _ =>
            if (indent_of nb <? nxt_indent)%nat then ([], lines)
            else if (indent_of nb =? nxt_indent)%nat && negb (list_item (str_lstrip nb)) then ([], lines)
            else more
        end
      else if (indent_of bl <? nxt_indent)%nat then ([], lines) else more
  end.
Fixpoint over_indented_lists (fuel : nat) (lines : list string) (changes : list string) : list string * list string :=
  match fuel, lines with
  | S fuel, line :: rest =>
      let keep := let '(out, changes) := over_indented_lists fuel rest changes in (line :: out, changes) in
      let s := str_rstrip line in
      let label_indent := if is_blank s then O else indent_of s in
      match take_blank rest with
      | ((_ :: _) as blanks, (nxt :: _) as from) =>
          if negb (String.eqb s "") && (0 <? label_indent)%nat && last_is ":" s then
            let nxt_indent := indent_of nxt in
            let extra := (nxt_indent - label_indent)%nat in
            if (0 <? extra)%nat && is_bullet (first_char (str_lstrip nxt)) then
              let '(block, after) := list_block nxt_indent from in
              let changes := changes ++ ["label-list: de-indented " +:+ str_of_Z (Z.of_nat extra) +:+ "sp after '" +:+ str_strip s +:+ "'"] in
              let '(out, changes) := over_indented_lists fuel after changes in
              (line :: blanks ++ ((fun bl => (de_indent extra bl).1) <$> block) ++ out, changes)
            else keep
          else keep
      | _ => keep
      end
  | _, _ => ([], changes)
  end.
Definition fix_over_indented_lists (txt : string) (changes : list string) : string * list string :=
  let lines := split_on newline txt in
  let '(out, changes) := over_indented_lists (length lines) lines changes in
  (join nl out, changes).

(** ** The text of a docstring *)

Definition LIST_OF : regex := re "\bList of ([^\s,]+)".
Definition _fix_refs (text : string) : string * list string :=
  let '(new_text, changes) := sub_with REF replace_ref text [] in
  let '(new_text, changes) := sub_with TEXT_REF replace_text_ref new_text changes in
  let '(new_text, changes) := sub_with LABEL_REF replace_label_ref new_text changes in
  let '(new_text, changes) := sub_with PYTHON_PATH replace_python_path new_text changes in
  let '(new_text, changes) := sub_with PYTHON_PATH_SELF replace_python_path_self new_text changes in
  let '(new_text, changes) := sub_with SHORTNAME replace_shortname new_text changes in
  let new_text := sub LIST_OF "list[\1]" new_text in
  let '(new_text, changes) := sub_with NUMPY_TYPE fix_numpy_type new_text changes in
  let '(new_text, changes) := sub_with SEE_LIST fix_see_list new_text changes in
  let '(new_text, changes) := sub_with LABEL_LIST fix_label_list new_text changes in
  let '(new_text, changes) := fix_over_indented_lists new_text changes in
  fix_numpy_params new_text changes.

(** ** Docstrings of a file *)

Definition _TRIPLE_QUOTED : regex :=
  compile (mkFlags false true)
    (dquoted "([rRbBuUfF]?@@@(?:[^@\\]|\\.|@{1,2}(?!@))*@@@|[rRbBuUfF]?'''(?:[^'\\]|\\.|'{1,2}(?!'))*''')").
Definition _NOQA_RE : regex := re "\s*#\s*noqa[^\n]*$".
Definition _expr_chars : string := "(,[{+-*/%&|^~\".
Definition is_docstring (source : string) (m : Match) : bool :=
  let before := str_take (m_start m) source in
  let preceding := str_rstrip (sub _NOQA_RE "" (str_rstrip before)) in
  if opens_docstring preceding then true
  else
    is_blank (default "" (last (split_on newline before)))
    && negb (match last_char preceding with Some c => occurs (String c "") _expr_chars | None => false end).
Definition find_docstrings (source : string) : list (nat * nat) :=
  span_of <$> filter (fun m => is_docstring source m = true) (finditer _TRIPLE_QUOTED source).

Definition rewrite_refs (raw : string) : string * list string :=
  let quote := quote_of raw in
  let '(converted, changes) := _fix_refs (quoted_body raw) in
  (quote +:+ converted +:+ quote, changes).
Definition process_file (dry_run : bool) (p : path) : IO bool :=
  source ← attempt (fun _ => true) (read_text p) (print (ErrReading p));
  match source with
  | None => mret false
  | Some source =>
      match find_docstrings source with
      | [] => mret false
      | docstrings =>
          let '(new_source, file_changes) := splice rewrite_refs source docstrings 0 source [] in
          report p dry_run new_source file_changes
      end
  end.

(** ** Pages of the documentation *)

Fixpoint broken_links (links : list (string * string)) (new_source : string) (file_changes : list string)
  : string * list string :=
  match links with
  | [] => (new_source, file_changes)
  | (old, new) :: links =>
      if occurs old new_source
      then broken_links links (str_replace old new new_source)
             (file_changes ++ ["broken-link: " +:+ py_repr old +:+ " → " +:+ py_repr new])
      else broken_links links new_source file_changes
  end.
Fixpoint print_all (changes : list string) : IO unit :=
  match changes with
  | [] => mret tt
  | c :: changes => _ ← print (Out ("    · " +:+ c)); print_all changes
  end.
Definition process_md_file (dry_run : bool) (p : path) : IO bool :=
  source ← attempt (fun _ => true) (read_text p) (print (ErrReading p));
  match source with
  | None => mret false
  | Some source =>
      let '(new_source, file_changes) := broken_links DOCS_BROKEN_LINKS source [] in
      match file_changes with
      | [] => mret false
      | _ =>
          _ ← (if dry_run then _ ← print (Out (nl +:+ "  " +:+ path_str p)); print_all file_changes
               else write_text p new_source);
          mret true
      end
  end.

(** what [add_argument] declares *)
Definition default_args : Args := mkArgs false "syncmaster/" None.
Definition main (docs_path : option string) (args : Args) : IO unit :=
  _ ← process_all (process_file (dry_run args)) args;
  match docs_path with
  | None | Some "" => mret tt
  | Some dir =>
      md_files ← sorted_rglob (Path dir) ".md";
      _ ← print (Out (nl +:+ "Processing " +:+ count md_files +:+ " docs .md file(s) [" +:+ mode (dry_run args) +:+ "]..."));
      md_changed ← process_files (process_md_file (dry_run args)) (dry_run args) md_files;
      print (Out ("Done: " +:+ str_of_Z md_changed +:+ "/" +:+ count md_files +:+ " docs files " +:+ label (dry_run args) +:+ "."))
  end.

Example fix_refs_patterns_ok : Forall (fun r => pattern_ok r = true)
  [REF; TEXT_REF; LABEL_REF; PYTHON_PATH; PYTHON_PATH_SELF; SHORTNAME; BOTH_BACKTICKED; BACKTICKED; OR; CONTAINER_OF;
   TYPING; NUMPY_TYPE; SEE_LIST; SEE_ITEM; LABEL_LIST; SECTION_HEADER; UNDERLINE; DASHES; LIST_OF; _NOQA_RE].
Proof. repeat constructor. Qed.

(** ** Examples *)

Example refs_example : _fix_refs (lines_of ["See [setup][] and [x][y]."; "    p : `int` or `str`, optional"]) =
  (lines_of ["See [setup][syncmaster.server.providers.auth.AuthProvider.setup] and [x][y]."; "    p : int | str, optional"],
   ["shortname: [setup][] → [setup][syncmaster.server.providers.auth.AuthProvider.setup]";
    "type: '`int` or `str`, optional' → 'int | str, optional'"]).
Proof. vm_compute. reflexivity. Qed.
Example see_example : (_fix_refs (lines_of ["  See:"; "      * a"; "      * b"; "  Items:"; "  - c"])).1 =
  lines_of ["  See:"; ""; "  * a"; "  * b"; "  Items:"; ""; "  - c"].
Proof. vm_compute. reflexivity. Qed.
Example params_example : _fix_refs (lines_of ["Parameters"; "----------"; ""; "    p : int"; ""; "        It is"; ""; "Returns"]) =
  (lines_of ["Parameters"; "----------"; ""; "p : int"; ""; "    It is"; ""; "Returns"],
   ["numpy-params: de-indented 4sp in section 'Parameters'"]).
Proof. vm_compute. reflexivity. Qed.
Example lists_example : fix_over_indented_lists (lines_of ["  Label:"; ""; "      * a"; ""; "        more"; ""; "  End"]) [] =
  (lines_of ["  Label:"; ""; "  * a"; ""; "    more"; ""; "  End"], ["label-list: de-indented 4sp after 'Label:'"]).
Proof. vm_compute. reflexivity. Qed.
