(* ===== verification/DocTheorems.v ===== *)
(** * Properties of the scripts of the documentation

    The fuel of the passes is enough, a docstring without RST is left as it is, and all
    three scripts change nothing of a file but its docstrings.  What they get wrong is
    proved on examples at the end. *)

From S2P Require Import Prelude PyData Search PyText Regex Docstrings LinksToAnchors.
From S2P Require Import RstToMarkdown FixRefs.
From Stdlib Require Import Ascii.

(** ** The fuel of the passes *)

Lemma skip_blank_length lines : (length (skip_blank lines) <= length lines)%nat.
Proof. destruct lines as [|line lines]; [done|]. cbn. destruct (is_blank line); cbn; lia. Qed.
Lemma collect_body_length k lines : (length (collect_body k lines).2 <= length lines)%nat.
Proof.
  induction lines as [|cl lines IH]; [done|]. cbn [collect_body].
  destruct (collect_body k lines) as [body rest]. cbn [snd] in IH.
  repeat case_match; simplify_eq; cbn [snd length]; lia.
Qed.
Lemma read_options_length title lines : (length (read_options title lines).2 <= length lines)%nat.
Proof.
  revert title. induction lines as [|line lines IH]; intros title; [done|]. cbn [read_options].
  destruct (match_ OPTION line); [|done]. cbn [length]. etrans; [apply IH|lia].
Qed.
Lemma raw_body_length k lines :
  (length (raw_body k lines).1 + length (raw_body k lines).2 = length lines)%nat.
Proof.
  induction lines as [|line lines IH]; [done|]. cbn [raw_body]. destruct (raw_body k lines) as [raw rest].
  cbn [fst snd] in IH. case_match; cbn [fst snd length]; lia.
Qed.
Lemma admonition_body_length lines indent body rest : _collect_admonition_body lines indent = (body, rest) ->
  (length body <= length lines)%nat /\ (length rest <= length lines)%nat.
Proof.
  unfold _collect_admonition_body. pose proof (raw_body_length (String.length indent) lines) as Hl.
  destruct (raw_body (String.length indent) lines) as [raw r]. cbn [fst snd] in Hl.
  destruct (body_base raw); intros [= <- <-]; rewrite ?length_fmap; lia.
Qed.
Lemma doctest_block_length line lines : is_blank line = false ->
  (length (doctest_block (line :: lines)).2 <= length lines)%nat.
Proof.
  intros Hb. cbn [doctest_block]. rewrite Hb.
  assert (length (doctest_block lines).2 <= length lines)%nat as Hl; [|by destruct (doctest_block lines)].
  induction lines as [|l lines IH]; [done|]. cbn [doctest_block]. case_match; cbn [snd length]; [done|].
  destruct (doctest_block lines). cbn [snd] in *. lia.
Qed.

Lemma code_blocks_fuel n : forall m lines, (length lines <= n)%nat -> (length lines <= m)%nat ->
  _convert_code_blocks n lines = _convert_code_blocks m lines.
Proof.
  induction n as [|n IH]; intros [|m] [|line lines]; cbn [length]; intros Hn Hm; try done; try lia.
  cbn [_convert_code_blocks]. destruct (match_ CODE_DIRECTIVE line) as [mt|]; [|by rewrite (IH m) by lia].
  pose proof (read_options_length "" lines). destruct (read_options "" lines) as [title rest]. cbn [snd] in *.
  pose proof (skip_blank_length rest). pose proof (collect_body_length (String.length (m_group 1 mt) + 4) (skip_blank rest)).
  destruct (collect_body _ _) as [body rest']. cbn [snd] in *. by rewrite (IH m) by lia.
Qed.
Lemma tabs_fuel n : forall m indent lines, (length lines <= n)%nat -> (length lines <= m)%nat ->
  _convert_tabs n indent lines = _convert_tabs m indent lines.
Proof.
  induction n as [|n IH]; intros [|m] indent [|line lines]; cbn [length]; intros Hn Hm; try done; try lia.
  cbn [_convert_tabs]. pose proof (skip_blank_length lines).
  destruct (match_ TABS line) as [mt|]; [by rewrite (IH m) by lia|].
  destruct (match_ CODE_TAB line) as [mt|]; [|by destruct (match_ TAB line); rewrite (IH m) by lia].
  pose proof (collect_body_length (String.length (m_group 1 mt) + 4) (skip_blank lines)).
  destruct (collect_body _ _) as [body rest']. cbn [snd] in *. by rewrite (IH m) by lia.
Qed.
Lemma admonitions_fuel n : forall m lines, (length lines <= n)%nat -> (length lines <= m)%nat ->
  _convert_admonitions n lines = _convert_admonitions m lines.
Proof.
  induction n as [|n IH]; intros [|m] [|line lines]; cbn [length]; intros Hn Hm; try done; try lia.
  cbn [_convert_admonitions]. destruct (read_directive line) as [[out c|indent out c]|]; [by rewrite (IH m) by lia| |by rewrite (IH m) by lia].
  destruct (_collect_admonition_body lines indent) as [body rest] eqn:Hb.
  apply admonition_body_length in Hb as [Hbody Hrest]. by rewrite !(IH m) by lia.
Qed.
(** a line that starts a doctest is not blank *)
Lemma rstrip_nil f s : rstrip f s = "" -> string_forall f s = true.
Proof.
  induction s as [|c s IH]; [done|]. cbn [rstrip string_forall].
  destruct (rstrip f s); [|done]. rewrite IH by done. by destruct (f c).
Qed.
Lemma lstrip_forall f s : string_forall f (lstrip f s) = true -> string_forall f s = true.
Proof. induction s as [|c s IH]; [done|]. cbn [lstrip string_forall]. destruct (f c) eqn:Hc; [exact IH|]. cbn. by rewrite Hc. Qed.
Lemma occurs_blank c s : is_space c = false -> is_blank s = true -> occurs (String c "") s = false.
Proof.
  intros Hc Hb%String.eqb_eq. apply rstrip_nil, lstrip_forall in Hb. induction s as [|d s IH]; [done|].
  cbn [string_forall] in Hb. apply andb_true_iff in Hb as [Hd Hs]. cbn [occurs String.prefix].
  rewrite (IH Hs), orb_false_r. destruct (ascii_dec c d) as [->|]; [congruence|done].
Qed.
Lemma doctest_not_blank line m : match_ DOCTEST line = Some m -> is_blank line = false.
Proof.
  intros Hm. destruct (is_blank line) eqn:Hb; [|done]. apply (occurs_blank ">") in Hb; [|done].
  unfold match_ in Hm. by rewrite (match_at_reads ">") in Hm.
Qed.
Lemma doctests_fuel n : forall m fence lines, (length lines <= n)%nat -> (length lines <= m)%nat ->
  _convert_doctests n fence lines = _convert_doctests m fence lines.
Proof.
  induction n as [|n IH]; intros [|m] fence [|line lines]; cbn [length]; intros Hn Hm; try done; try lia.
  cbn [_convert_doctests]. destruct (match_ FENCE line) as [mt|]; [by rewrite (IH m) by lia|].
  destruct (match_ DOCTEST line) as [mt|] eqn:Hd; [|by rewrite (IH m) by lia].
  destruct fence; [by rewrite (IH m) by lia|]. apply doctest_not_blank in Hd.
  pose proof (doctest_block_length line lines Hd). destruct (doctest_block (line :: lines)) as [block rest].
  cbn [snd] in *. by rewrite (IH m) by lia.
Qed.

(** ** Lines of a text *)

Lemma split_on_cons c s : exists w l, split_on c s = w :: l /\ String.prefix w s = true.
Proof.
  induction s as [|d s (w & l & Heq & Hp)]; [by exists "", []|]. cbn [split_on]. rewrite Heq.
  destruct (Ascii.eqb d c).
  - by exists "", (w :: l).
  - exists (String d w), l. split; [done|]. cbn. by destruct (ascii_dec d d).
Qed.
Lemma join_split c s : join (String c "") (split_on c s) = s.
Proof.
  induction s as [|d s IH]; [done|]. cbn [split_on]. destruct (split_on_cons c s) as (w & l & Heq & _).
  rewrite Heq in *. destruct (Ascii.eqb_spec d c) as [->|_].
  - rewrite <- IH. reflexivity.
  - rewrite <- IH. by destruct l.
Qed.
Lemma prefix_trans a b s : String.prefix a b = true -> String.prefix b s = true -> String.prefix a s = true.
Proof.
  intros [x ->]%prefix_split [y ->]%prefix_split. rewrite string_app_assoc. apply prefix_app.
Qed.
Lemma split_absent w c s : w <> "" -> occurs w s = false -> Forall (fun l => occurs w l = false) (split_on c s).
Proof.
  intros Hw. assert (occurs w "" = false) as Hnil by (by destruct w).
  induction s as [|d s IH]; [by repeat constructor|]. intros Ho. specialize (IH (occurs_cons _ _ _ Ho)).
  cbn [split_on]. destruct (split_on_cons c s) as (x & l & Heq & Hp). rewrite Heq in *.
  destruct (Ascii.eqb d c); [by constructor|]. apply Forall_cons in IH as [Hx Hl]. constructor; [|done].
  cbn [occurs]. rewrite Hx, orb_false_r. apply not_true_is_false. intros Hpre.
  cbn [occurs] in Ho. apply orb_false_iff in Ho as [Ho _].
  rewrite (prefix_trans w (String d x) (String d s) Hpre) in Ho; [done|]. cbn. by destruct (ascii_dec d d).
Qed.

(** ** Texts without RST *)

Lemma match_reads w r s : must_read w r = true -> occurs w s = false -> match_ r s = None.
Proof. apply match_at_reads. Qed.

Definition without (w : string) (lines : list string) : Prop := Forall (fun l => occurs w l = false) lines.

Lemma code_blocks_unchanged lines : without "::" lines -> _convert_code_blocks (length lines) lines = (lines, []).
Proof.
  induction 1 as [|line l Hl _ IH]; [done|]. cbn [length _convert_code_blocks].
  rewrite (match_reads "::") by done. by rewrite IH.
Qed.
Lemma tabs_unchanged indent lines : without "::" lines -> _convert_tabs (length lines) indent lines = (lines, []).
Proof.
  induction 1 as [|line l Hl _ IH]; [done|]. cbn [length _convert_tabs].
  rewrite !(match_reads "::") by done. by rewrite IH.
Qed.
Lemma no_directive line : occurs "::" line = false -> read_directive line = None.
Proof.
  intros Hl. unfold read_directive. rewrite !(match_reads "::") by done. unfold _SIMPLE_ADMONITIONS.
  cbn [simple_kind]. by rewrite !(match_reads "::") by done.
Qed.
Lemma admonitions_unchanged lines : without "::" lines -> _convert_admonitions (length lines) lines = (lines, []).
Proof.
  induction 1 as [|line l Hl _ IH]; [done|]. cbn [length _convert_admonitions]. by rewrite no_directive, IH.
Qed.
Lemma doctests_unchanged fence lines : without "`" lines -> without ">>>" lines ->
  _convert_doctests (length lines) fence lines = (lines, []).
Proof.
  induction 1 as [|line l Hl _ IH]; [done|]. intros [Hl' Hp]%Forall_cons. cbn [length _convert_doctests].
  rewrite (match_reads "`"), (match_reads ">>>" DOCTEST) by done. by rewrite IH.
Qed.

Lemma changed_same desc tc : changed_to desc tc.1 tc = tc.
Proof. destruct tc as [t changes]. cbn. by rewrite String.eqb_refl. Qed.
Lemma sub_step_absent r template desc tc : must_read "`" r = true -> occurs "`" tc.1 = false ->
  sub_step r template desc tc = tc.
Proof. intros Hr Ho. unfold sub_step. rewrite (sub_absent r template "`") by done. apply changed_same. Qed.
Lemma sub_fun_absent r f w s : must_read w r = true -> occurs w s = false -> sub_fun r f s = s.
Proof. intros. unfold sub_fun, sub_with. by erewrite sub_go_absent. Qed.
Lemma inline_unchanged text : occurs "`" text = false -> _apply_inline text = (text, []).
Proof.
  intros Ho. unfold _apply_inline.
  rewrite (sub_step_absent INLINE_CODE), (sub_step_absent INLINE_EMPTY), (sub_step_absent HYPERLINK) by done.
  rewrite (sub_fun_absent TILDE_REF _ "`"), changed_same, (sub_step_absent OBJ_DISPLAY) by done.
  unfold obj_step, sub_with. rewrite (sub_go_absent OBJ_REF _ "`") by done. cbn [app fst].
  rewrite (sub_step_absent REF_DISPLAY), (sub_step_absent REF_LABEL) by done.
  by rewrite (sub_fun_absent ETL_ENTITIES _ "`"), changed_same by done.
Qed.

(** A docstring that holds no backquote, no double colon and no prompt is left
    exactly as it is, and no change is reported. *)
Lemma no_rst_unchanged body :
  occurs "`" body = false -> occurs "::" body = false -> occurs ">>>" body = false ->
  convert_docstring body = (body, []).
Proof.
  intros Hq Hc Hp. pose proof (split_absent "`" newline body ltac:(done) Hq) as Lq.
  pose proof (split_absent "::" newline body ltac:(done) Hc) as Lc.
  pose proof (split_absent ">>>" newline body ltac:(done) Hp) as Lp.
  unfold convert_docstring. rewrite code_blocks_unchanged, tabs_unchanged, admonitions_unchanged by done.
  rewrite doctests_unchanged by done. change nl with (String newline ""). rewrite join_split.
  by rewrite inline_unchanged.
Qed.

(** ** Files *)

Lemma found_spans r (P : Match -> Prop) `{forall m, Decision (P m)} source :
  spans_from 0 (span_of <$> filter P (finditer r source)) (String.length source).
Proof. apply spans_from_filter, finditer_spans. Qed.

(** what reading a file comes to *)
Lemma attempt_read caught p handler w :
  attempt caught (read_text p) handler w =
  match files w !! p with
  | Some (Text s) => (Ok (Some (universal_newlines s)), w)
  | Some Undecodable => if caught UnicodeDecodeError then (_ ← handler; mret None) w else (Raise UnicodeDecodeError, w)
  | None => if caught OSError then (_ ← handler; mret None) w else (Raise OSError, w)
  end.
Proof.
  unfold attempt, catch, read_text, reads, mbind, SE_bind.
  by destruct (files w !! p) as [[s|]|]; [|destruct (caught UnicodeDecodeError)|destruct (caught OSError)].
Qed.

(** the docstrings a script finds in a file, rewritten, and everything else *)
Definition links_result (index : gmap string string) (source : string) : string * list string :=
  let docstrings := LinksToAnchors.find_docstrings source in
  (rewritten (rewrite_links index) source 0 docstrings, all_changes (rewrite_links index) source docstrings).
Definition refs_result (source : string) : string * list string :=
  let docstrings := FixRefs.find_docstrings source in
  (rewritten rewrite_refs source 0 docstrings, all_changes rewrite_refs source docstrings).
(** and the enum members, in a file that has a docstring *)
Definition rst_result (source : string) : string * list string :=
  match RstToMarkdown.find_docstrings source with
  | [] => (source, [])
  | docstrings =>
      convert_members None (splitlines (rewritten rewrite_docstring source 0 docstrings))
        (all_changes rewrite_docstring source docstrings)
  end.

(** C40 Whatever the lengths of the new docstrings are, a script puts each of them where
    it found the old one and changes nothing else: the file it leaves is the old text
    with every docstring replaced by its conversion, and (for the conversion to
    Markdown) the members of enumerations after that.  Nothing is written on a dry run, without a
    change, or when the file cannot be read. *)
Theorem docstrings_in_place index dry_run p w :
  files (final (LinksToAnchors.process_file index dry_run p) w) = written w p dry_run (links_result index) /\
  files (final (RstToMarkdown.process_file dry_run p) w) = written w p dry_run rst_result /\
  files (final (FixRefs.process_file dry_run p) w) = written w p dry_run refs_result.
Proof.
  unfold LinksToAnchors.process_file, RstToMarkdown.process_file, FixRefs.process_file, written, final.
  unfold mbind, SE_bind. rewrite !attempt_read. destruct (files w !! p) as [[s|]|]; [|done..].
  set (source := universal_newlines s). unfold links_result, refs_result, rst_result. split_and!.
  - destruct (LinksToAnchors.find_docstrings source) as [|d ds] eqn:Hd; [by destruct dry_run|]. rewrite <- Hd.
    rewrite splice_rewritten by apply found_spans. apply report_files.
  - destruct (RstToMarkdown.find_docstrings source) as [|d ds] eqn:Hd; [by destruct dry_run|]. rewrite <- Hd.
    rewrite splice_rewritten by apply found_spans. destruct (convert_members _ _ _). apply report_files.
  - destruct (FixRefs.find_docstrings source) as [|d ds] eqn:Hd; [by destruct dry_run|]. rewrite <- Hd.
    rewrite splice_rewritten by apply found_spans. apply report_files.
Qed.

(** ** The fuel of the passes of fix_refs.py *)

Lemma section_lines_length base extra lines :
  (length (section_lines base extra lines).2 <= length lines)%nat.
Proof.
  induction lines as [|bl lines IH]; [done|]. cbn [section_lines].
  destruct (section_lines base extra lines) as [[out any] rest]. cbn [snd] in IH.
  destruct (_ && _ && _); [done|]. destruct (if blank bl then _ else _). cbn [snd length]. lia.
Qed.
Lemma numpy_params_fuel n : forall m lines changes, (length lines <= n)%nat -> (length lines <= m)%nat ->
  numpy_params n lines changes = numpy_params m lines changes.
Proof.
  induction n as [|n IH]; intros [|m] [|line lines] changes; cbn [length]; intros Hn Hm; try done; try lia.
  cbn [numpy_params]. rewrite (IH m lines changes) by lia. destruct (match_ SECTION_HEADER line) as [h|]; [|done].
  destruct lines as [|underline after]; [done|]. cbn [length] in *. case_match; [|done].
  destruct (take_blank after).2 as [|p ps]; [done|]. case_match; [|done].
  set (extra := (indent_of p - _)%nat). pose proof (section_lines_length (String.length (m_group 1 h)) extra after).
  destruct (section_lines _ _ after) as [[out any] rest]. cbn [snd] in *. by rewrite (IH m) by lia.
Qed.
Lemma take_blank_length lines : (length (take_blank lines).2 <= length lines)%nat.
Proof.
  induction lines as [|l lines IH]; [done|]. cbn [take_blank]. destruct (take_blank lines). cbn [snd] in IH.
  case_match; cbn [snd length]; lia.
Qed.
Lemma list_block_length k lines : (length (list_block k lines).2 <= length lines)%nat.
Proof.
  induction lines as [|l lines IH]; [done|]. cbn [list_block]. destruct (list_block k lines). cbn [snd] in IH.
  repeat case_match; simplify_eq; cbn [snd length]; lia.
Qed.
Lemma over_indented_fuel n : forall m lines changes, (length lines <= n)%nat -> (length lines <= m)%nat ->
  over_indented_lists n lines changes = over_indented_lists m lines changes.
Proof.
  induction n as [|n IH]; intros [|m] [|line lines] changes; cbn [length]; intros Hn Hm; try done; try lia.
  cbn [over_indented_lists]. rewrite (IH m lines changes) by lia. pose proof (take_blank_length lines).
  destruct (take_blank lines) as [[|b bs] [|nxt from]]; try done. cbn [snd] in *.
  destruct (_ && _ && _); [|done]. destruct (_ && _); [|done].
  pose proof (list_block_length (indent_of nxt) (nxt :: from)).
  destruct (list_block _ (nxt :: from)) as [block after]. cbn [snd] in *. by rewrite (IH m) by lia.
Qed.

(** ** What the scripts get wrong *)

(** A docstring with a prefix is not unquoted correctly by fix_refs.py: its first
    quote becomes part of the text, and the prefix and the kind of quotes are lost. *)
Lemma prefixed_docstring_requoted body :
  rewrite_refs (String "r" (dquotes +:+ body +:+ dquotes)) =
  (let '(converted, changes) := _fix_refs (dq +:+ body) in (squotes +:+ converted +:+ squotes, changes)).
Proof.
  unfold rewrite_refs. assert (quote_of (String "r" (dquotes +:+ body +:+ dquotes)) = squotes) as -> by done.
  assert (quoted_body (String "r" (dquotes +:+ body +:+ dquotes)) = dq +:+ body) as ->; [|done].
  unfold quoted_body, str_slice. rewrite <- (string_app_cons "r" dquotes).
  change (str_drop 3 (String "r" dquotes +:+ body +:+ dquotes)) with (dq +:+ body +:+ dquotes).
  rewrite !string_app_length', <- string_app_assoc. change (String.length dquotes) with 3%nat.
  change (String.length (String "r" dquotes)) with 4%nat.
  replace (4 + (String.length body + 3) - 3 - 3)%nat with (String.length (dq +:+ body))
    by (rewrite string_app_length'; change (String.length dq) with 1%nat; lia).
  apply take_app.
Qed.
Definition script_world (l : list string) : World := mkWorld {[["a.py"] := Text (lines_of l)]} ∅ [].
Example prefixed_docstring_file :
  files (final (FixRefs.process_file false ["a.py"]) (script_world ["def f():"; dquoted "    r@@@See [setup][]@@@"])) =
  {[["a.py"] := Text (lines_of ["def f():"; dquoted "    '''@See [setup][syncmaster.server.providers.auth.AuthProvider.setup]'''"])]}.
Proof. vm_compute. reflexivity. Qed.

(** A docstring of a module below its licence comment is found by fix_refs.py only. *)
Definition licensed_module : string := lines_of ["# SPDX-License-Identifier: Apache-2.0"; dquoted "@@@Text@@@"; ""].
Example licensed_module_docstring :
  (LinksToAnchors.find_docstrings licensed_module, RstToMarkdown.find_docstrings licensed_module,
   FixRefs.find_docstrings licensed_module) = ([], [], [(38, 48)]%nat).
Proof. vm_compute. reflexivity. Qed.

(** A text whose only correction is [List of X] is corrected and reported as unchanged. *)
Example list_of_not_reported : _fix_refs "List of str" = ("list[str]", []).
Proof. vm_compute. reflexivity. Qed.

(** The start page of the documentation is indexed under a path no link has. *)
Example start_page_url : page_url ["index.md"] = "//". Proof. reflexivity. Qed.

(** A line below a list item, as deep as the item, is moved with the list. *)
Example sibling_line_moved :
  (fix_over_indented_lists (lines_of ["  Label:"; ""; "      * a"; "      Text"; "  End"]) []).1 =
  lines_of ["  Label:"; ""; "  * a"; "  Text"; "  End"].
Proof. vm_compute. reflexivity. Qed.
